(* ===== verification/_CoqProject ===== *)
-Q . S2P
Prelude.v
PyStr.v
PyLib.v
Json.v
CloudWatch.v
Reports.v
AnubisDriver.v
ClusterConfig.v
CiNotify.v
ClientLib.v
Binary64.v
Progress.v
Regex.v
Events.v
KafkaService.v
KafkaClient.v
CmdCallback.v
Descriptor.v
ServiceLabels.v
K8sTestClient.v
Executor.v
CronJob.v
K8sSpec.v
K8sLabels.v
BaiKnowledge.v
PodModel.v
CronDocument.v
SingleNode.v
InferenceServer.v
MetricsExtractor.v
MetricsPusher.v
MetricsFlow.v
BaiClient.v
K8sEngine.v
ZkLocker.v
IoUtils.v
FetcherJob.v
ZooKeeper.v
DownloadManager.v
FetcherService.v
FetcherDispatcher.v
JobStatus.v
SageMaker.v
Watcher.v
Options.v
Sidecars.v
FetchLoop.v
Services.v
Pipeline.v
ScheduleLoop.v
