(* ===== verification/Prelude.v ===== *)
(** * Anubis (awslabs/benchmark-ai): a verification library of its Python services

    Anubis runs machine-learning benchmarks in the cloud.  A benchmark is
    described by a TOML file; the front end turns it into an event on Kafka, and
    a chain of services works on it: the fetcher downloads the data sets to S3,
    the executor turns the descriptor into Kubernetes objects (or a SageMaker
    job) and creates them, the watcher reports what becomes of the job.  The
    services share an event format, a service loop, a command protocol, label
    selectors and ZooKeeper locks (kafka-utils).  This library models the Python
    code of these services as pure functions over explicit states and proves
    what makes it correct.

    ** The model

    A Python call that may raise or change something is a function of type
    [M S A]: it takes the state [S] and returns a value or an exception, with the
    state the call left behind either way.  Exceptions carry what their messages
    show ([exn]).  Dictionaries keep their insertion order ([dict]); parsed TOML,
    JSON and YAML are values of [pyval].  Shared, mutated objects live in a heap
    or are passed through explicitly.  Concurrency (threads, locks, ZooKeeper
    notifications, other clients) is a step relation, and what holds in all
    interleavings is proved by induction on its runs.  Third-party packages
    (kafka, kubernetes, boto3, pycurl, kazoo, dacite, retrying, yaml) and outside
    services are type classes or arguments; where a proof relies on their
    documented behaviour it is a law of the class or a named hypothesis, and a
    concrete instance in a module [Witness] (or [Model], [World]) satisfies it.

    ** The files

    - Prelude.v: exceptions, the monad and its notations, dictionaries, sets of
      objects, [pyval], the tactics and the hint database [py].  PyStr.v: str
      methods, lines of files, int() and urlparse.  PyLib.v: base64, json.dumps,
      shlex.split.  Json.v: json.loads and json.dumps, with their round trip.
      Regex.v: the subset of regular expressions the descriptor uses.
      Binary64.v: the rounding of floats.  Progress.v: the callbacks of transfers
      (s3_utils.py, http_utils.py), which report less often than their
      granularity says.
    - Events.v (bai_kafka_utils/events.py, utils.py): payloads, the envelope, and
      how one event is built from another.
    - KafkaService.v (kafka_service.py): the emitter, the poll loop, callbacks.
      [Svc X] is the state of a service over the state [X] of its callbacks.  The
      loop refines the delivery of each poll's messages to their callbacks
      ([run_loop_refines]), cleans every callback up once ([run_loop_cleanup]),
      and what is sent is specified ([send_event_spec], [send_status_spec]).
    - KafkaClient.v (kafka_client.py, kafka_service_args.py): the configuration of
      a service, the topics it makes sure of, under Kafka's documented conditions
      on names, partitions and replicas ([kafka_topics_ready]), and the codecs:
      what a service sends, the next one gets ([sent_event_received]).
    - CmdCallback.v (cmd_callback.py): binding of command arguments, one response
      for each command.
    - Descriptor.v (executors/descriptor.py, ec2_instance_info.py): the
      descriptor classes; what the constructor and [from_dict] accept.
    - ServiceLabels.v (service_labels.py): labels, selectors, and that they fit.
      K8sTestClient.v (kubernetes_tests_client.py): looking and waiting for the
      objects of an action.
    - Executor.v (executors/*.py, executor.py): the submission handlers over the
      interface [ExecutionEngine], the cancel command, the composed service.
    - K8sSpec.v and K8sLabels.v (kubernetes_spec_logic.py): operations on parsed
      Kubernetes objects; merging of variables, removal of volumes, that a changed
      container is found again ([modify_container_found]), and the worklist that
      puts a label on every metadata.
    - BaiKnowledge.v (bai_knowledge.py, config.py): the builders of the benchmark
      objects: volumes and pullers, availability zones, commands, templates; what
      the data puller is told and what the container mounts agree
      ([data_puller_consistent]).
      CronDocument.v (templates/cron_job.yaml): the document of a scheduled
      benchmark, whose pods get the event of the submission
      ([scheduled_document_event]).  SingleNode.v (templates/job_single_node.yaml):
      the job of a single-node or inference benchmark; its pod is the one that
      the descriptor asks for ([single_node_pod]).  It is proved over PodModel.v,
      where the operations of K8sSpec.v and of the builders refine operations on
      abstract pods: containers with their mounts, and volumes.
      InferenceServer.v (templates/inference_server_job.yaml): the service and
      the job of an inference server; they fit the benchmark's job
      ([inference_documents_fit]).
    - K8sEngine.v (k8s_execution_engine.py): run, schedule and cancel over
      kubectl; implements the interface of Executor.v.
    - ZkLocker.v (zk_locker.py): the lock protocol as steps of ZooKeeper and of
      the processes; mutual exclusion, no lost wake-up, no deadlock, and the
      sequence numbers of nodes.
    - IoUtils.v (bai_io_utils, preflight): hashes and ETags, S3 and HTTP helpers,
      size estimates.  FetcherJob.v (bai_fetcher_job, states.py): the transfers
      and what the job reports.
    - ZooKeeper.v: the interface of the ZooKeeper client with its laws and a
      model of it.  DownloadManager.v (download_manager.py): downloads with their
      callbacks, and the compare-and-set cancellation.  FetcherService.v
      (fetcher_dispatcher_service.py, content_pull.py): the life of one event on
      the two threads of the service, the main one and that of kazoo, which may
      be switched before every access to what they share ([Point], [run_point],
      [turn]); the code of the handler and of the callbacks is the run of its
      points without a switch ([run_point_code], [handler_code]).  The event goes
      on only when all its downloads are over, once for each run of [on_all_done]
      that finds its data sets succeeded; that is at most once unless a switch
      falls between the removal from [pending] and its test
      ([fetch_forwarded_once]), and then it can be twice
      ([fetch_forwarded_twice]).  FetcherDispatcher.v (kubernetes_dispatcher.py):
      implements the dispatcher interface; the volume size computed in binary64
      is proved equal to the exact rule.
    - JobStatus.v (status_inferrers, the job watchers) and Watcher.v
      (kafka_service_watcher.py, job_watcher.py, bai_job_status_trigger): what a
      status says is true of the job, when the inference gives up, and the
      reports of a watched job from the first poll to the last.
    - SageMaker.v (sm-executor): the second engine behind the interface of
      Executor.v: the arguments of a training job from the descriptor, its start
      and its cancellation, the volume size in binary64, and the errors of a run.
    - CronJob.v (anubis-cron-job): the single run that a scheduled benchmark
      spawns at each tick.
    - MetricsExtractor.v (metrics-extractor), ClientLib.v (client-lib) and
      MetricsPusher.v (metrics-pusher): the way of a metric from a line of the
      benchmark's log through the FIFO to a back end.  SIGTERM or an error may
      come at every place of the pusher's loop, of its handler and of its
      [finally] block ([Place]); [start_loop_closes] states what holds however
      the pusher ends, and [late_sigterm_escapes] what a late signal does.
    - CloudWatch.v (cloudwatch-exporter): the export of metrics and the dashboard
      that gets one widget for each of them.  The calls may fail, and a listing
      shows at most [LISTED_AT_ONCE] dashboards, of which the exporter reads the
      first page only ([check_dashboard_spec], [unlisted_dashboard_replaced]).
    - BaiClient.v (blackbox-tests/src/bai_client): the client of the REST service;
      what it makes of every answer about a benchmark ([status_reads_back]).
    - AnubisDriver.v (ci/anubis-driver.py): the script that sets the system up and
      takes it down: its variables in two files, what it changes before it asks,
      and the order and conditions of its commands ([pipeline_created],
      [pipeline_destroyed]).  ClusterConfig.v (baictl/drivers/aws): who is let into the
      cluster, and which outputs of terraform are published.  CiNotify.v
      (ci/lambda-notify-ci-failures.py): which failures are reported.
    - Options.v (the args.py of the executor, the fetcher, its job and the
      trigger): what they make of their options.  Services.v (the __main__.py
      files with the args.py of Kafka, the watcher and the SageMaker executor):
      each service from its command line to its loop, and the command line of
      the transpiler, which always fails.  Sidecars.v does the same
      for the metrics extractor and the metrics pusher.
    - Reports.v (reports/benchmark_ai_reports.py): the nightly report; every
      value is in its cell ([report_complete]).

    Four files compose the parts:

    - Pipeline.v: the process of the executor and that of the watcher, started by
      Services.v, over the bytes between them: a submission that succeeds makes
      the executor apply the transpiled document and the watcher watch exactly
      that job ([submission_is_watched]).
    - ScheduleLoop.v: the executor's process, CronDocument.v, CronJob.v and the
      executor again: a scheduled benchmark becomes a cron job whose document
      carries its event, and each tick of it one run
      ([scheduled_benchmark_runs]).
    - FetchLoop.v: FetcherService.v, DownloadManager.v, FetcherDispatcher.v,
      Options.v and FetcherJob.v: from the lock of a download over the job that
      is dispatched for it to its result in the content
      ([download_round_trip]).
    - MetricsFlow.v: MetricsExtractor.v, ClientLib.v, MetricsPusher.v and
      CloudWatch.v: from a line of the log to the data points that CloudWatch
      accepts ([metrics_end_to_end]); [unusable_label_lost] shows one that it
      cannot.

    ** Bounds and fuel

    The label worklist of K8sLabels.v gets [label_fuel] of the object, which is
    proved enough. The hash loop gets one turn more than the content has bytes,
    the loop over the lines of a text one more than its length
    ([lines_of_text_enough]), the loop of the pusher one more than its FIFO has
    characters ([read_loop_enough]), and the JSON decoder two units for each
    character ([parse_value_fuel]). The inner loop of the cancellation gets fuel
    above the number of moves the other clients still make, and
    [cancel_only_unfinished] shows that it is enough. The wait for the FIFO ends
    after the configured time, by [emit_waits_for_fifo]. The poll loops of the
    services, the watcher threads, SageMaker's wait for the last metrics and the
    driver's wait for the deployment run over a given number of turns, since the
    code runs until it is stopped from outside; what is stated of them holds for
    every number. Integers are unbounded as in Python; the rounding of binary64
    is written out where the code divides or multiplies with fractions; the
    ZooKeeper counter is bounded by 2^31 - 1.

    ** Not modelled

    Logging and its levels, the construction of third-party clients, the JSON
    codec of dataclasses_json, and the passing of time. Sample benchmarks, the
    end-to-end tests, and the code in other languages (the front end in Clojure,
    Terraform, shell) are out of scope. TOML and YAML texts are handled by
    third-party parsers; the models start from the parsed values, and of the
    templates those of the cron job, of the single-node job and of the inference
    server are written out, and that of the MPI job is a value of the model; the
    hypotheses on them say that the file, filled with values that are scalars of
    YAML, parses to that document. *)

From Stdlib Require Export ZArith String Ascii Lia.
From stdpp Require Export base tactics option list strings numbers sets gmap pretty.

#[global] Open Scope string_scope.
#[global] Open Scope Z_scope.

Declare Scope py_scope.
Delimit Scope py_scope with py.
#[global] Open Scope py_scope.

(** ** Exceptions

    The exception classes the services raise or catch, with the data that their
    messages carry.  [OtherException cls msg] stands for an exception of a class
    that no handler of the modelled code names. *)

Inductive exn : Type :=
| KeyError (key : string)
| IndexError (msg : string)
| ValueError (msg : string)
| TypeError (msg : string)
| AttributeError (msg : string)
| AssertionError (msg : string)
| RuntimeError (msg : string)
| LoopAlreadyRunningException (msg : string)
| LoopNotRunningException (msg : string)
| KafkaServiceCallbackException (msg : string)
| DescriptorError (msg : string)
| DaciteError (msg : string)
| ExecutionEngineException (msg : string)
| NoResourcesFoundException (action_id : string)
| NoK8sResourcesFoundError (msg : string)
| CalledProcessError (msg : string)
| ApiException (status : Z)
| ClientError (msg : string)
| InvalidDigestError
| HttpClientError
| HttpServerError
| S3Error (msg : string)
| CurlError
| UnknownSchemeException (msg : string)
| NoNodeError
| BadVersionError
| JSONDecodeError (msg : string)
| FifoNotCreatedInTimeError
| SigtermReceived
| OtherException (cls msg : string).

#[export] Instance exn_eq_dec : EqDecision exn.
Proof. solve_decision. Defined.

(** [str(e)] of an exception. *)
Definition str_of_exn (e : exn) : string :=
  match e with
  | KeyError k => "'" +:+ k +:+ "'"
  | IndexError m | ValueError m | TypeError m | AttributeError m
  | AssertionError m | RuntimeError m
  | LoopAlreadyRunningException m | LoopNotRunningException m
  | KafkaServiceCallbackException m | DescriptorError m | DaciteError m
  | ExecutionEngineException m | NoK8sResourcesFoundError m
  | CalledProcessError m | ClientError m | S3Error m
  | UnknownSchemeException m | JSONDecodeError m | OtherException _ m => m
  | NoResourcesFoundException a => "No resources found for '" +:+ a +:+ "'"
  | ApiException st => "(" +:+ pretty st +:+ ")"
  | InvalidDigestError | HttpClientError | HttpServerError | CurlError
  | NoNodeError | BadVersionError | FifoNotCreatedInTimeError | SigtermReceived => ""
  end.

(** [isinstance(e, ExecutionEngineException)]: [NoResourcesFoundException]
    derives from it (execution_callback.py). *)
Definition is_ExecutionEngineException (e : exn) : bool :=
  match e with ExecutionEngineException _ | NoResourcesFoundException _ => true | _ => false end.

(** The two families of bai_io_utils/failures.py. *)
Definition is_RetryableError (e : exn) : bool :=
  match e with HttpServerError => true | _ => false end.

Definition is_UnRetryableError (e : exn) : bool :=
  match e with InvalidDigestError | HttpClientError | S3Error _ | CurlError => true | _ => false end.

(** ** Results and the state-and-exception monad

    A Python call ends with a value or with an exception; the state changes it
    made before raising stay.  Hence [M S A] threads the state through both
    outcomes. *)

Inductive Res (A : Type) : Type :=
| Ok (a : A)
| Raise (e : exn).
Arguments Ok {A} a.
Arguments Raise {A} e.

#[export] Instance Res_eq_dec {A} `{EqDecision A} : EqDecision (Res A).
Proof. solve_decision. Defined.

Definition res_bind {A B} (r : Res A) (k : A -> Res B) : Res B :=
  match r with Ok a => k a | Raise e => Raise e end.

Definition is_ok {A} (r : Res A) : bool := match r with Ok _ => true | Raise _ => false end.

Definition M (S A : Type) : Type := S -> Res A * S.

Definition ret {S A} (a : A) : M S A := fun s => (Ok a, s).
Definition raise {S A} (e : exn) : M S A := fun s => (Raise e, s).
Definition bind {S A B} (m : M S A) (k : A -> M S B) : M S B :=
  fun s => match m s with
           | (Ok a, s') => k a s'
           | (Raise e, s') => (Raise e, s')
           end.
Definition get {S} : M S S := fun s => (Ok s, s).
Definition gets {S A} (f : S -> A) : M S A := fun s => (Ok (f s), s).
Definition put {S} (s : S) : M S unit := fun _ => (Ok tt, s).
Definition modify {S} (f : S -> S) : M S unit := fun s => (Ok tt, f s).
Definition lift {S A} (r : Res A) : M S A := fun s => (r, s).

(** [try: m except ...: h e]; a handler that does not catch re-raises. *)
Definition try_except {S A} (m : M S A) (h : exn -> M S A) : M S A :=
  fun s => match m s with
           | (Ok a, s') => (Ok a, s')
           | (Raise e, s') => h e s'
           end.

(** [try: m finally: f]. *)
Definition finally {S A} (m : M S A) (f : M S unit) : M S A :=
  fun s =>
    let (r, s') := m s in
    match f s' with
    | (Ok _, s'') => (r, s'')
    | (Raise e, s'') => (Raise e, s'')
    end.

Notation "x <- m ;; k" := (bind m (fun x => k))
  (at level 20, m at level 99, k at level 200, only parsing) : py_scope.
Notation "' p <- m ;; k" := (bind m (fun p => k))
  (at level 20, p pattern, m at level 99, k at level 200, only parsing) : py_scope.
Notation "m ;; k" := (bind m (fun _ => k))
  (at level 100, k at level 200, only parsing, right associativity) : py_scope.
Notation "x <~ r ;; k" := (res_bind r (fun x => k))
  (at level 20, r at level 99, k at level 200, only parsing) : py_scope.
Notation "' p <~ r ;; k" := (res_bind r (fun p => k))
  (at level 20, p pattern, r at level 99, k at level 200, only parsing) : py_scope.

(** [for x in l: f(x)]. *)
Fixpoint for_each {S A} (f : A -> M S unit) (l : list A) : M S unit :=
  match l with
  | [] => ret tt
  | x :: l' => f x ;; for_each f l'
  end.

(** [[f(x) for x in l]] for a [f] that may raise. *)
Fixpoint res_map {A B} (f : A -> Res B) (l : list A) : Res (list B) :=
  match l with
  | [] => Ok []
  | x :: l' => y <~ f x ;; ys <~ res_map f l' ;; Ok (y :: ys)
  end.

(** ** Python dictionaries

    A [dict] keeps the insertion order of its keys, which the services rely on
    (label order, environment variables, volume mounts); hence an association
    list without duplicate keys, updated in place. *)

Definition dict (K V : Type) : Type := list (K * V).

Section Dict.
Context {K V : Type} `{EqDecision K}.

Fixpoint dict_get (d : dict K V) (k : K) : option V :=
  match d with
  | [] => None
  | (k', v) :: d' => if decide (k = k') then Some v else dict_get d' k
  end.

Definition dict_mem (k : K) (d : dict K V) : bool :=
  match dict_get d k with Some _ => true | None => false end.

(** [d[k] = v]: replaces the value at its place, or appends. *)
Fixpoint dict_set (d : dict K V) (k : K) (v : V) : dict K V :=
  match d with
  | [] => [(k, v)]
  | (k', v') :: d' => if decide (k = k') then (k', v) :: d' else (k', v') :: dict_set d' k v
  end.

(** [d.pop(k, None)]. *)
Definition dict_pop (d : dict K V) (k : K) : dict K V :=
  List.filter (fun kv => bool_decide (kv.1 <> k)) d.

Definition dict_keys (d : dict K V) : list K := d.*1.
Definition dict_values (d : dict K V) : list V := d.*2.

(** [d.update(e)], which is also [{**d, **e}]. *)
Definition dict_update (d e : dict K V) : dict K V :=
  fold_left (fun acc kv => dict_set acc kv.1 kv.2) e d.

Definition dict_wf (d : dict K V) : Prop := NoDup (dict_keys d).

Lemma dict_get_set_eq d k v : dict_get (dict_set d k v) k = Some v.
Proof. induction d as [|[k' v'] d IH]; simpl; repeat (case_decide; simpl); congruence. Qed.

Lemma dict_get_set_ne d k k' v : k <> k' -> dict_get (dict_set d k v) k' = dict_get d k'.
Proof. intros Hne. induction d as [|[k0 v0] d IH]; simpl; repeat (case_decide; simpl); congruence. Qed.

Lemma dict_get_set d k k' v :
  dict_get (dict_set d k v) k' = if decide (k = k') then Some v else dict_get d k'.
Proof. case_decide; subst; [apply dict_get_set_eq | by apply dict_get_set_ne]. Qed.

Lemma dict_get_Some_in d k v : dict_get d k = Some v -> (k, v) ∈ d.
Proof.
  induction d as [|[k' v'] d IH]; simpl; [done|].
  case_decide; intros; simplify_eq; set_solver.
Qed.

Lemma dict_get_None d k : dict_get d k = None <-> k ∉ dict_keys d.
Proof.
  induction d as [|[k' v'] d IH]; simpl; [split; [intros _; apply not_elem_of_nil|done]|].
  rewrite not_elem_of_cons. case_decide; naive_solver.
Qed.

Lemma dict_get_is_Some d k : is_Some (dict_get d k) <-> k ∈ dict_keys d.
Proof.
  rewrite <- not_eq_None_Some, dict_get_None.
  destruct (decide (k ∈ dict_keys d)); tauto.
Qed.

Lemma dict_in_get d k v : dict_wf d -> (k, v) ∈ d -> dict_get d k = Some v.
Proof.
  unfold dict_wf. induction d as [|[k' v'] d IH]; simpl; [set_solver|].
  intros [Hni Hnd]%NoDup_cons [Heq|Hin]%elem_of_cons; case_decide; simplify_eq; auto.
  exfalso. apply Hni. apply list_elem_of_fmap. by exists (k', v).
Qed.

Lemma dict_keys_set d k v :
  dict_keys (dict_set d k v) =
  if decide (k ∈ dict_keys d) then dict_keys d else (dict_keys d ++ [k])%list.
Proof.
  induction d as [|[k' v'] d IH]; [done|].
  change (dict_keys ((k', v') :: d)) with (k' :: dict_keys d).
  simpl. destruct (decide (k = k')) as [->|Hne].
  - simpl. rewrite decide_True by set_solver. done.
  - change (dict_keys ((k', v') :: dict_set d k v)) with (k' :: dict_keys (dict_set d k v)).
    rewrite IH. destruct (decide (k ∈ dict_keys d)) as [Hin|Hni].
    + rewrite decide_True by set_solver. done.
    + rewrite decide_False by set_solver. done.
Qed.

Lemma dict_set_wf d k v : dict_wf d -> dict_wf (dict_set d k v).
Proof.
  unfold dict_wf. rewrite dict_keys_set. case_decide; [done|].
  intros. apply NoDup_app. repeat split; [done|set_solver|apply NoDup_singleton].
Qed.

Lemma dict_update_wf d e : dict_wf d -> dict_wf (dict_update d e).
Proof.
  unfold dict_update. revert d. induction e as [|kv e IH]; intros d Hd; [done|].
  simpl. apply IH. by apply dict_set_wf.
Qed.

Lemma dict_update_app d e1 e2 : dict_update d (e1 ++ e2)%list = dict_update (dict_update d e1) e2.
Proof. apply fold_left_app. Qed.

(** The right operand wins; the left one shows through elsewhere. *)
Lemma dict_get_update d e k :
  dict_wf e ->
  dict_get (dict_update d e) k = match dict_get e k with Some v => Some v | None => dict_get d k end.
Proof.
  unfold dict_wf, dict_update. revert d.
  induction e as [|[k' v'] e IH]; intros d; simpl; [done|].
  intros [Hni Hnd]%NoDup_cons. rewrite IH by done. rewrite dict_get_set.
  destruct (decide (k = k')) as [->|Hne].
  - apply dict_get_None in Hni. rewrite Hni, decide_True; done.
  - rewrite decide_False by congruence. done.
Qed.

Lemma dict_get_pop d k k' :
  dict_get (dict_pop d k) k' = if decide (k = k') then None else dict_get d k'.
Proof.
  unfold dict_pop. induction d as [|[k0 v0] d IH]; simpl.
  - by case_decide.
  - case_bool_decide; simpl in *; subst; simpl; repeat case_decide; congruence.
Qed.

Lemma dict_set_absent d k v : k ∉ dict_keys d -> dict_set d k v = (d ++ [(k, v)])%list.
Proof.
  induction d as [|[k' v'] d IH]; simpl; [done|].
  intros Hni. rewrite decide_False by set_solver. f_equal. apply IH. set_solver.
Qed.

(** Merging into a dictionary keys it does not have appends them in order. *)
Lemma dict_update_disjoint d e :
  dict_wf e -> (forall k, k ∈ dict_keys e -> k ∉ dict_keys d) -> dict_update d e = (d ++ e)%list.
Proof.
  unfold dict_wf, dict_update. revert d.
  induction e as [|[k v] e IH]; intros d; simpl; [by rewrite app_nil_r|].
  intros [Hni Hnd]%NoDup_cons Hdisj.
  rewrite dict_set_absent by (apply Hdisj; set_solver).
  rewrite IH; [by rewrite <- app_assoc|done|].
  intros k' Hk' Hin. unfold dict_keys in Hin. rewrite fmap_app in Hin. simpl in Hin.
  apply elem_of_app in Hin as [Hin|Hin].
  - eapply Hdisj; [|exact Hin]. set_solver.
  - apply list_elem_of_singleton in Hin as ->. done.
Qed.
End Dict.

(** ** Lists and sets of objects *)

(** [l.remove(x)]: drops the first element equal to [x]; [None] for the
    [ValueError] when there is none. *)
Fixpoint list_remove {A} `{EqDecision A} (x : A) (l : list A) : option (list A) :=
  match l with
  | [] => None
  | y :: l' => if decide (x = y) then Some l' else cons y <$> list_remove x l'
  end.

Lemma list_remove_Some {A} `{EqDecision A} (x : A) l l' :
  list_remove x l = Some l' ->
  exists l1 l2, l = (l1 ++ x :: l2)%list /\ l' = (l1 ++ l2)%list /\ x ∉ l1.
Proof.
  revert l'. induction l as [|y l IH]; intros l'; simpl; [done|].
  case_decide as Hxy.
  - intros; simplify_eq. exists [], l'. split_and!; [done..|]. apply not_elem_of_nil.
  - destruct (list_remove x l) as [l0|] eqn:E; simpl; [|done]. intros; simplify_eq.
    destruct (IH l0) as (l1 & l2 & -> & -> & Hni); [done|].
    exists (y :: l1), l2. split_and!; [done..|]. by apply not_elem_of_cons.
Qed.

Lemma list_remove_None {A} `{EqDecision A} (x : A) l : list_remove x l = None <-> x ∉ l.
Proof.
  induction l as [|y l IH]; simpl; [split; [intros _; apply not_elem_of_nil|done]|].
  rewrite not_elem_of_cons. case_decide; [naive_solver|].
  destruct (list_remove x l); simpl; naive_solver.
Qed.

(** The iteration order of a [set] of objects is not specified; what is
    promised is that every element comes once. *)
Class SetOrder : Type := {
  set_iter : list nat -> list nat;
  set_iter_NoDup : forall l, NoDup (set_iter l);
  set_iter_elem : forall l x, x ∈ set_iter l <-> x ∈ l
}.

(** One such order: that of the last occurrences. *)
Definition set_order_dups : SetOrder := {|
  set_iter := remove_dups;
  set_iter_NoDup := NoDup_remove_dups;
  set_iter_elem := elem_of_remove_dups
|}.

(** ** Values of [Any]: parsed TOML, JSON and YAML *)

Inductive pyval : Type :=
| VNone
| VBool (b : bool)
| VInt (z : Z)
| VStr (s : string)
| VList (l : list pyval)
| VDict (d : list (string * pyval)).

(** Python truthiness. *)
Definition truthy (v : pyval) : bool :=
  match v with
  | VNone => false
  | VBool b => b
  | VInt z => negb (z =? 0)
  | VStr s => negb (String.eqb s "")
  | VList l => match l with [] => false | _ => true end
  | VDict d => match d with [] => false | _ => true end
  end.

(** [str(v)], and [repr(v)] inside a list or a dictionary; strings without
    quotes or control characters. *)
Fixpoint repr_of_pyval (v : pyval) : string :=
  match v with
  | VNone => "None"
  | VBool true => "True"
  | VBool false => "False"
  | VInt z => pretty z
  | VStr s => "'" +:+ s +:+ "'"
  | VList l =>
      "[" +:+ (fix go (sep : string) (l : list pyval) : string :=
                 match l with [] => "" | x :: l' => sep +:+ repr_of_pyval x +:+ go ", " l' end) "" l +:+ "]"
  | VDict d =>
      "{" +:+ (fix go (sep : string) (d : list (string * pyval)) : string :=
                 match d with
                 | [] => ""
                 | (k, x) :: d' => sep +:+ "'" +:+ k +:+ "': " +:+ repr_of_pyval x +:+ go ", " d'
                 end) "" d +:+ "}"
  end.

Definition str_of_pyval (v : pyval) : string := match v with VStr s => s | _ => repr_of_pyval v end.

(** Truthiness of an [Optional[str]], and [x or default]. *)
Definition str_truthy (s : option string) : bool :=
  match s with Some s => negb (String.eqb s "") | None => false end.

(** ** Automation *)

Create HintDb py.
Create Rewrite HintDb py.

Lemma bind_ret_l {S A B} (a : A) (k : A -> M S B) : bind (ret a) k = k a.
Proof. reflexivity. Qed.

Lemma bind_lift_ok {S A B} (a : A) (k : A -> M S B) : bind (lift (Ok a)) k = k a.
Proof. reflexivity. Qed.

(** Inversion of the runs that return. *)
Lemma bind_Ok {S A B} (m : M S A) (k : A -> M S B) s b s' :
  bind m k s = (Ok b, s') <-> exists a s1, m s = (Ok a, s1) /\ k a s1 = (Ok b, s').
Proof.
  unfold bind. split; [destruct (m s) as [[a|e] s1]; [by exists a, s1|done]|].
  by intros (a & s1 & -> & Hk).
Qed.

Lemma lift_Ok {S A} (r : Res A) (s : S) a s' : lift r s = (Ok a, s') <-> r = Ok a /\ s' = s.
Proof. unfold lift. naive_solver. Qed.

Lemma res_bind_Ok {A B} (r : Res A) (k : A -> Res B) b :
  res_bind r k = Ok b <-> exists a, r = Ok a /\ k a = Ok b.
Proof. destruct r as [a|e]; simpl; naive_solver. Qed.

(** A handler that never returns a value cannot have been entered. *)
Lemma try_except_Ok {S A} (m : M S A) h s a s' :
  (forall e s1, is_ok (h e s1).1 = false) -> try_except m h s = (Ok a, s') <-> m s = (Ok a, s').
Proof.
  intros Hh. unfold try_except. destruct (m s) as [[x|e] s1]; [done|].
  specialize (Hh e s1). destruct (h e s1) as [[y|e'] s2]; naive_solver.
Qed.

Lemma for_each_app {S A} (f : A -> M S unit) l1 l2 s :
  for_each f (l1 ++ l2)%list s = (for_each f l1 ;; for_each f l2) s.
Proof.
  revert s. induction l1 as [|x l1 IH]; intros s; simpl; [done|].
  unfold bind in *. destruct (f x s) as [[[]|e] s']; [apply IH|done].
Qed.

(** A loop whose body never raises is a fold of its effects; and a loop
    preserves what its body preserves. *)
Lemma for_each_fold {S A} (f : A -> M S unit) l s :
  (forall x s, (f x s).1 = Ok tt) -> for_each f l s = (Ok tt, fold_left (fun s x => (f x s).2) l s).
Proof.
  intros Hf. revert s. induction l as [|x l IH]; intros s; simpl; [done|].
  unfold bind. specialize (Hf x s). destruct (f x s) as [r s']; simpl in *; subst. apply IH.
Qed.

Lemma for_each_inv {S A} (P : S -> Prop) (f : A -> M S unit) l s :
  (forall x s, x ∈ l -> P s -> P (f x s).2) -> P s -> P (for_each f l s).2.
Proof.
  revert s. induction l as [|x l IH]; intros s Hf Hs; simpl; [done|].
  unfold bind. pose proof (Hf x s) as Hx.
  destruct (f x s) as [[[]|e] s']; simpl in *.
  - apply IH; [intros y ? Hy; apply Hf; set_solver|]. apply Hx; [set_solver|done].
  - apply Hx; [set_solver|done].
Qed.

Lemma elem_of_concat {A} (ls : list (list A)) x : x ∈ concat ls <-> exists l, l ∈ ls /\ x ∈ l.
Proof.
  rewrite list_elem_of_In, in_concat.
  split; intros (l & H1 & H2); exists l; by rewrite !list_elem_of_In in *.
Qed.

Lemma res_map_Forall2 {A B} (f : A -> Res B) l l' :
  res_map f l = Ok l' <-> Forall2 (fun x y => f x = Ok y) l l'.
Proof.
  split.
  - revert l'. induction l as [|x l IH]; simpl; intros l'; [intros; simplify_eq; constructor|].
    unfold res_bind. destruct (f x) eqn:E; [|done].
    destruct (res_map f l); [|done]. intros; simplify_eq. constructor; auto.
  - induction 1; simpl; [done|]. unfold res_bind. rewrite H. by rewrite IHForall2.
Qed.

Lemma list_filter_ext {A} (f g : A -> bool) l :
  (forall x, x ∈ l -> f x = g x) -> List.filter f l = List.filter g l.
Proof.
  induction l as [|x l IH]; intros H; simpl; [done|].
  rewrite (H x) by set_solver. rewrite IH; [done|]. intros; apply H; set_solver.
Qed.

Lemma elem_of_list_filter_b {A} (f : A -> bool) l x : x ∈ List.filter f l <-> x ∈ l /\ f x = true.
Proof. rewrite !list_elem_of_In. apply filter_In. Qed.

#[export] Hint Resolve dict_set_wf dict_update_wf : py.
#[export] Hint Rewrite @dict_get_set_eq @bind_ret_l @bind_lift_ok : py.

(** Runs a monadic program symbolically one layer further. *)
Ltac unfold_monad :=
  unfold bind, ret, raise, get, gets, put, modify, lift, try_except, res_bind in *.

(** Splits a run that returned into the runs of its statements. *)
Ltac run_inv H :=
  repeat match type of H with
         | bind _ _ _ = (Ok _, _) =>
             let E := fresh "Hrun" in apply bind_Ok in H as (? & ? & E & H); try (apply lift_Ok in E as [E ->])
         end.

Ltac py_simpl := unfold_monad; simpl in *; simplify_eq/=.

(** Case analysis on every [match] that blocks the run. *)
Ltac py_cases := repeat (py_simpl; case_match); py_simpl.
