(* ===== verification/PyStr.v ===== *)
(** * Python strings

    The [str] operations and the parts of [urllib.parse] that the services use,
    as functions on [string].  A string is the sequence of its UTF-8 bytes; the
    operations only look at ASCII characters, for which the two views agree. *)

From S2P Require Import Prelude.

(** ** Slices, search, split and join *)

(** [s[:n]] and [s[n:]]. *)
Fixpoint str_take (n : nat) (s : string) : string :=
  match n, s with
  | S n', String c s' => String c (str_take n' s')
  | _, _ => ""
  end.

Fixpoint str_drop (n : nat) (s : string) : string :=
  match n, s with
  | S n', String _ s' => str_drop n' s'
  | O, s => s
  | _, "" => ""
  end.

Fixpoint startswith (p s : string) : bool :=
  match p, s with
  | "", _ => true
  | String a p', String b s' => Ascii.eqb a b && startswith p' s'
  | _, _ => false
  end.

(** [s.find(sub)], [None] for -1. *)
Fixpoint str_find (sub s : string) : option nat :=
  if startswith sub s then Some O
  else match s with
       | "" => None
       | String _ s' => option_map S (str_find sub s')
       end.

(** [sub in s]. *)
Definition contains (sub s : string) : bool :=
  match str_find sub s with Some _ => true | None => false end.

(** [s.replace(old, new)]: every occurrence, from the left; an empty [old]
    occurs before every character and at the end. *)
Fixpoint replace_fuel (fuel : nat) (old new s : string) : string :=
  match fuel with
  | O => s
  | S fuel =>
      if String.eqb old "" then
        match s with
        | "" => new
        | String c s' => new +:+ String c (replace_fuel fuel old new s')
        end
      else if startswith old s then new +:+ replace_fuel fuel old new (str_drop (String.length old) s)
      else match s with
           | "" => ""
           | String c s' => String c (replace_fuel fuel old new s')
           end
  end.
Definition py_replace (old new s : string) : string := replace_fuel (S (String.length s)) old new s.

(** [s.rfind(sub)], [None] for -1. *)
Fixpoint str_rfind (sub s : string) : option nat :=
  match s with
  | "" => if String.eqb sub "" then Some O else None
  | String _ s' =>
      match str_rfind sub s' with
      | Some i => Some (S i)
      | None => if startswith sub s then Some O else None
      end
  end.

(** [s[:k]], with a negative [k] counted from the end. *)
Definition str_slice_to (k : Z) (s : string) : string :=
  str_take (Z.to_nat (if k <? 0 then Z.of_nat (String.length s) + k else k)) s.

Fixpoint str_forall (p : ascii -> bool) (s : string) : bool :=
  match s with "" => true | String c s' => p c && str_forall p s' end.

Definition no_char (c : ascii) (s : string) : bool := str_forall (fun x => negb (Ascii.eqb x c)) s.

(** [s.find(c)] and [s.rfind(c)] for a one-character needle. *)
Fixpoint find_char (c : ascii) (s : string) : option nat :=
  match s with
  | "" => None
  | String x s' => if Ascii.eqb x c then Some O else option_map S (find_char c s')
  end.

Fixpoint rfind_char (c : ascii) (s : string) : option nat :=
  match s with
  | "" => None
  | String x s' =>
      match rfind_char c s' with
      | Some n => Some (S n)
      | None => if Ascii.eqb x c then Some O else None
      end
  end.

(** [s.split(c, 1)] when [c in s]: what stands before and after the first [c]. *)
Fixpoint split_once (c : ascii) (s : string) : option (string * string) :=
  match s with
  | "" => None
  | String x s' =>
      if Ascii.eqb x c then Some ("", s')
      else match split_once c s' with Some (a, b) => Some (String x a, b) | None => None end
  end.

(** [s.split(c)]. *)
Fixpoint split_char (c : ascii) (s : string) : list string :=
  match s with
  | "" => [""]
  | String x s' =>
      if Ascii.eqb x c then "" :: split_char c s'
      else match split_char c s' with
           | [] => [String x ""]
           | w :: ws => String x w :: ws
           end
  end.

(** [sep.join(l)]. *)
Fixpoint join (sep : string) (l : list string) : string :=
  match l with
  | [] => ""
  | [s] => s
  | s :: l' => s +:+ sep +:+ join sep l'
  end.

Fixpoint str_rev (s : string) : string :=
  match s with "" => "" | String c s' => str_rev s' +:+ String c "" end.

Definition endswith (suf s : string) : bool := startswith (str_rev suf) (str_rev s).

Definition ascii_lower (c : ascii) : ascii :=
  let n := nat_of_ascii c in
  if (65 <=? n)%nat && (n <=? 90)%nat then ascii_of_nat (n + 32) else c.

Definition ascii_upper (c : ascii) : ascii :=
  let n := nat_of_ascii c in
  if (97 <=? n)%nat && (n <=? 122)%nat then ascii_of_nat (n - 32) else c.

Fixpoint str_map (f : ascii -> ascii) (s : string) : string :=
  match s with "" => "" | String c s' => String (f c) (str_map f s') end.

Definition lower : string -> string := str_map ascii_lower.
Definition upper : string -> string := str_map ascii_upper.

(** [s.capitalize()]. *)
Definition capitalize (s : string) : string :=
  match s with "" => "" | String c s' => String (ascii_upper c) (lower s') end.

(** [s.strip()] removes these characters at both ends. *)
Definition is_space (c : ascii) : bool :=
  let n := nat_of_ascii c in ((9 <=? n)%nat && (n <=? 13)%nat) || (n =? 32)%nat || ((28 <=? n)%nat && (n <=? 31)%nat).

Fixpoint lstrip_by (p : ascii -> bool) (s : string) : string :=
  match s with
  | "" => ""
  | String c s' => if p c then lstrip_by p s' else s
  end.

Definition strip_by (p : ascii -> bool) (s : string) : string :=
  str_rev (lstrip_by p (str_rev (lstrip_by p s))).

Definition strip : string -> string := strip_by is_space.

(** ** Integers *)

Definition is_digit (c : ascii) : bool :=
  let n := nat_of_ascii c in (48 <=? n)%nat && (n <=? 57)%nat.

Definition digit_val (c : ascii) : Z := Z.of_nat (nat_of_ascii c) - 48.

Definition digit_char (d : Z) : ascii := ascii_of_nat (48 + Z.to_nat d).

(** The digits of an [int] literal, single underscores allowed between them. *)
Fixpoint parse_digits (acc : Z) (after_digit : bool) (s : string) : option Z :=
  match s with
  | "" => if after_digit then Some acc else None
  | String c s' =>
      if is_digit c then parse_digits (acc * 10 + digit_val c) true s'
      else if Ascii.eqb c "_" && after_digit then parse_digits acc false s'
      else None
  end.

(** [int(s)], [None] for the [ValueError]. *)
Definition int_of_str (s : string) : option Z :=
  match strip s with
  | String "-" s' => Z.opp <$> parse_digits 0 false s'
  | String "+" s' => parse_digits 0 false s'
  | s' => parse_digits 0 false s'
  end.

Definition py_int (s : string) : Res Z :=
  match int_of_str s with
  | Some z => Ok z
  | None => Raise (ValueError ("invalid literal for int() with base 10: '" +:+ s +:+ "'"))
  end.

(** [f"{n:0kd}"] for [0 <= n < 10^k]. *)
Fixpoint print_digits (k : nat) (n : Z) : string :=
  match k with
  | O => ""
  | S k' => print_digits k' (n / 10) +:+ String (digit_char (n mod 10)) ""
  end.

(** ** [urllib.parse.urlparse] *)

Record ParseResult := mkParse { scheme : string; netloc : string; path : string }.

Definition is_alpha (c : ascii) : bool :=
  let n := nat_of_ascii c in
  ((65 <=? n)%nat && (n <=? 90)%nat) || ((97 <=? n)%nat && (n <=? 122)%nat).

Definition is_scheme_char (c : ascii) : bool :=
  is_alpha c || is_digit c || Ascii.eqb c "+" || Ascii.eqb c "-" || Ascii.eqb c ".".

(** The scheme of [urlsplit]: what stands before the first [:], if that is not
    empty, has only scheme characters, and the rest is not just a port number. *)
Definition split_scheme (url : string) : string * string :=
  match split_once ":" url with
  | Some (pre, rest) =>
      if String.eqb pre "" then ("", url)
      else if String.eqb pre "http" then ("http", rest)
      else if str_forall is_scheme_char pre
              && (String.eqb rest "" || negb (str_forall is_digit rest))
      then (lower pre, rest)
      else ("", url)
  | None => ("", url)
  end.

Definition is_netloc_end (c : ascii) : bool := Ascii.eqb c "/" || Ascii.eqb c "?" || Ascii.eqb c "#".

Fixpoint span (stop : ascii -> bool) (s : string) : string * string :=
  match s with
  | "" => ("", "")
  | String c s' => if stop c then ("", s) else let (a, b) := span stop s' in (String c a, b)
  end.

(** [_splitnetloc(url, 2)] after a leading [//]. *)
Definition split_netloc (url : string) : string * string :=
  match url with
  | String "/" (String "/" rest) => span is_netloc_end rest
  | _ => ("", url)
  end.

Definition before_char (c : ascii) (s : string) : string :=
  match split_once c s with Some (a, _) => a | None => s end.

Definition uses_params : list string :=
  [""; "ftp"; "hdl"; "prospero"; "http"; "https"; "shttp"; "rtsp"; "rtspu"; "sip"; "sips";
   "mms"; "sftp"; "tel"].

(** [_splitparams]: drops what follows the first [;] of the last segment. *)
Definition split_params (url : string) : string :=
  match rfind_char "/" url with
  | Some i => str_take i url +:+ before_char ";" (str_drop i url)
  | None => before_char ";" url
  end.

Definition bad_ipv6 (nl : string) : bool := negb (eqb (no_char "[" nl) (no_char "]" nl)).

Definition urlparse (url : string) : Res ParseResult :=
  let (sch, rest) := split_scheme url in
  let (nl, rest) := split_netloc rest in
  if bad_ipv6 nl then Raise (ValueError "Invalid IPv6 URL")
  else
    let p := before_char "?" (before_char "#" rest) in
    let p := if bool_decide (sch ∈ uses_params) && negb (no_char ";" p) then split_params p else p in
    Ok (mkParse sch nl p).

Example urlparse_s3 :
  urlparse "s3://bucket/some/key;x?q#f" = Ok (mkParse "s3" "bucket" "/some/key;x").
Proof. vm_compute. reflexivity. Qed.

Example urlparse_http :
  urlparse "HTTPS://host:80/a;b/c;d?q" = Ok (mkParse "https" "host:80" "/a;b/c").
Proof. vm_compute. reflexivity. Qed.

Example urlparse_port : urlparse "localhost:9092" = Ok (mkParse "" "" "localhost:9092").
Proof. vm_compute. reflexivity. Qed.

(** ** Lemmas *)

#[local] Arguments String.append !_ _ /.
#[global] Arguments digit_char : simpl never.
#[global] Arguments digit_val : simpl never.
#[global] Arguments is_digit : simpl never.
#[global] Arguments is_space : simpl never.
#[global] Arguments is_alpha : simpl never.
#[global] Arguments ascii_lower : simpl never.
#[global] Arguments ascii_upper : simpl never.

Lemma str_app_nil_r s : s +:+ "" = s.
Proof. induction s as [|c s IH]; simpl; [done|]. by rewrite IH. Qed.

Lemma str_app_assoc a b c : (a +:+ b) +:+ c = a +:+ b +:+ c.
Proof. induction a as [|x a IH]; simpl; [done|]. by rewrite IH. Qed.

Lemma str_length_app a b : String.length (a +:+ b) = (String.length a + String.length b)%nat.
Proof. induction a as [|x a IH]; simpl; [done|]. by rewrite IH. Qed.

Lemma str_app_inj_l a b c : a +:+ b = a +:+ c -> b = c.
Proof. induction a as [|x a IH]; simpl; [done|]. intros; simplify_eq; auto. Qed.

Lemma str_app_inj_r a b c : a +:+ c = b +:+ c -> a = b.
Proof.
  revert b. induction a as [|x a IH]; intros [|y b] H; simpl in *.
  - done.
  - apply (f_equal String.length) in H. simpl in H. rewrite str_length_app in H. lia.
  - apply (f_equal String.length) in H. simpl in H. rewrite str_length_app in H. lia.
  - simplify_eq. f_equal. by apply IH.
Qed.

Lemma str_forall_app p a b : str_forall p (a +:+ b) = str_forall p a && str_forall p b.
Proof. induction a as [|c a IH]; simpl; [done|]. rewrite IH. by rewrite andb_assoc. Qed.

Lemma no_char_app c a b : no_char c (a +:+ b) = no_char c a && no_char c b.
Proof. apply str_forall_app. Qed.

Lemma str_forall_impl (p q : ascii -> bool) s :
  (forall c, p c = true -> q c = true) -> str_forall p s = true -> str_forall q s = true.
Proof. intros H. induction s; simpl; [done|]. rewrite !andb_true_iff. naive_solver. Qed.

Lemma str_drop_length n s : String.length (str_drop n s) = (String.length s - n)%nat.
Proof. revert s. induction n as [|n IH]; intros [|c s]; simpl; auto. Qed.

Lemma split_once_app c a b :
  no_char c a = true -> split_once c (a +:+ String c b) = Some (a, b).
Proof.
  unfold no_char. induction a as [|x a IH]; simpl; [by rewrite Ascii.eqb_refl|].
  rewrite andb_true_iff, negb_true_iff. intros [-> H]. by rewrite IH.
Qed.

Lemma split_once_None c s : no_char c s = true -> split_once c s = None.
Proof.
  unfold no_char. induction s as [|x s IH]; simpl; [done|].
  rewrite andb_true_iff, negb_true_iff. intros [-> H]. by rewrite IH.
Qed.

Lemma before_char_id c s : no_char c s = true -> before_char c s = s.
Proof. intros H. unfold before_char. by rewrite split_once_None. Qed.

Lemma rfind_char_app c a b :
  no_char c b = true -> rfind_char c (a +:+ String c b) = Some (String.length a).
Proof.
  intros Hb. assert (Hn : rfind_char c b = None).
  { clear a. unfold no_char in Hb. induction b as [|x b IH]; simpl in *; [done|].
    apply andb_true_iff in Hb as [Hx Hb]. rewrite IH by done.
    apply negb_true_iff in Hx. by rewrite Hx. }
  induction a as [|x a IH]; simpl; [by rewrite Hn, Ascii.eqb_refl|]. by rewrite IH.
Qed.

Lemma str_take_app a b : str_take (String.length a) (a +:+ b) = a.
Proof. induction a; simpl; [by destruct b|]. by f_equal. Qed.

Lemma str_drop_app a b : str_drop (String.length a) (a +:+ b) = b.
Proof. induction a; simpl; [by destruct b|done]. Qed.

Lemma span_app stop a b :
  str_forall (fun c => negb (stop c)) a = true ->
  match b with "" => True | String c _ => stop c = true end ->
  span stop (a +:+ b) = (a, b).
Proof.
  intros Ha Hb. induction a as [|x a IH]; simpl in *.
  - destruct b as [|c b]; simpl; [done|]. by rewrite Hb.
  - apply andb_true_iff in Ha as [Hx Ha]. apply negb_true_iff in Hx. rewrite Hx.
    by rewrite (IH Ha).
Qed.

Lemma split_char_nonempty c s : split_char c s <> [].
Proof. destruct s as [|x s]; simpl; [done|]. destruct (Ascii.eqb x c); [done|]. by destruct (split_char c s). Qed.

Lemma split_char_plain c w : no_char c w = true -> split_char c w = [w].
Proof.
  unfold no_char. induction w as [|x w IH]; simpl; [done|].
  rewrite andb_true_iff, negb_true_iff. intros [-> H]. by rewrite IH.
Qed.

Lemma split_char_app c w s :
  no_char c w = true -> split_char c (w +:+ String c s) = w :: split_char c s.
Proof.
  unfold no_char. induction w as [|x w IH]; simpl; [by rewrite Ascii.eqb_refl|].
  rewrite andb_true_iff, negb_true_iff. intros [-> H]. by rewrite IH.
Qed.

(** [split] undoes [join] when no part contains the separator. *)
Lemma split_join c l :
  l <> [] -> Forall (fun w => no_char c w = true) l -> split_char c (join (String c "") l) = l.
Proof.
  intros Hne Hl. induction Hl as [|w l Hw Hl IH]; [done|].
  destruct l as [|w' l]; simpl.
  - by apply split_char_plain.
  - rewrite split_char_app by done. f_equal. by apply IH.
Qed.

Lemma startswith_app p s : startswith p (p +:+ s) = true.
Proof. induction p as [|c p IH]; simpl; [done|]. by rewrite Ascii.eqb_refl. Qed.

Lemma startswith_spec p s : startswith p s = true <-> exists t, s = p +:+ t.
Proof.
  split; [|intros [t ->]; apply startswith_app].
  revert s. induction p as [|c p IH]; intros s; [by exists s|].
  destruct s as [|x s]; simpl; [done|]. rewrite andb_true_iff. intros [->%Ascii.eqb_eq H].
  destruct (IH _ H) as [t ->]. by exists t.
Qed.

Lemma startswith_length p s : startswith p s = true -> (String.length p <= String.length s)%nat.
Proof. intros H. apply startswith_spec in H as [t ->]. rewrite str_length_app. lia. Qed.

Lemma str_rev_app a b : str_rev (a +:+ b) = str_rev b +:+ str_rev a.
Proof.
  induction a as [|c a IH]; simpl; [by rewrite str_app_nil_r|].
  by rewrite IH, str_app_assoc.
Qed.

Lemma str_rev_involutive s : str_rev (str_rev s) = s.
Proof. induction s as [|c s IH]; simpl; [done|]. by rewrite str_rev_app, IH. Qed.

Lemma endswith_spec suf s : endswith suf s = true <-> exists t, s = t +:+ suf.
Proof.
  unfold endswith. rewrite startswith_spec. split; intros [t H].
  - exists (str_rev t). apply (f_equal str_rev) in H.
    by rewrite str_rev_app, !str_rev_involutive in H.
  - exists (str_rev t). by rewrite H, str_rev_app.
Qed.

Lemma is_digit_digit_char d : 0 <= d < 10 -> is_digit (digit_char d) = true.
Proof.
  intros H. unfold is_digit, digit_char. rewrite nat_ascii_embedding by lia.
  apply andb_true_iff. split; apply Nat.leb_le; lia.
Qed.

Lemma digit_val_char d : 0 <= d < 10 -> digit_val (digit_char d) = d.
Proof. intros H. unfold digit_val, digit_char. rewrite nat_ascii_embedding by lia. lia. Qed.

Lemma parse_digits_app acc s d f :
  str_forall is_digit s = true -> 0 <= d < 10 ->
  parse_digits acc f (s +:+ String (digit_char d) "") =
  match parse_digits acc (f || negb (String.eqb s "")) s with
  | Some n => Some (n * 10 + d)
  | None => if String.eqb s "" then Some (acc * 10 + d) else None
  end.
Proof.
  intros Hs Hd. revert acc f. induction s as [|c s IH]; intros acc f.
  - cbn [parse_digits String.append]. rewrite is_digit_digit_char, digit_val_char by done.
    by destruct f.
  - cbn [str_forall] in Hs. apply andb_true_iff in Hs as [Hc Hs].
    cbn [parse_digits String.append]. rewrite Hc, (IH Hs). cbn [String.eqb orb].
    destruct s as [|c' s]; [done|]. cbn [String.eqb]. by destruct (parse_digits _ _ _).
Qed.

Lemma print_digits_digits k n : str_forall is_digit (print_digits k n) = true.
Proof.
  revert n. induction k as [|k IH]; intros n; [done|].
  cbn [print_digits]. rewrite str_forall_app, IH. cbn [str_forall].
  rewrite is_digit_digit_char; [done|]. apply Z.mod_pos_bound. lia.
Qed.

Lemma print_digits_nonempty k n : String.eqb (print_digits (S k) n) "" = false.
Proof. cbn [print_digits]. by destruct (print_digits k (n / 10)). Qed.

Lemma parse_print_digits k n f :
  parse_digits 0 f (print_digits (S k) n) = Some (n mod 10 ^ Z.of_nat (S k)).
Proof.
  revert n f. induction k as [|k IH]; intros n f.
  - assert (Hd : 0 <= n mod 10 < 10) by (apply Z.mod_pos_bound; lia).
    change (print_digits 1 n) with (String (digit_char (n mod 10)) "").
    cbn [parse_digits]. rewrite is_digit_digit_char, digit_val_char by exact Hd.
    reflexivity.
  - change (print_digits (S (S k)) n) with
      (print_digits (S k) (n / 10) +:+ String (digit_char (n mod 10)) "").
    rewrite parse_digits_app; [|apply print_digits_digits|apply Z.mod_pos_bound; lia].
    rewrite IH. f_equal. set (m := 10 ^ Z.of_nat (S k)).
    replace (10 ^ Z.of_nat (S (S k))) with (10 * m) by (unfold m; rewrite !Nat2Z.inj_succ, !Z.pow_succ_r by lia; lia).
    assert (0 < m) by (unfold m; apply Z.pow_pos_nonneg; lia).
    rewrite (Z.rem_mul_r n 10 m) by lia. lia.
Qed.

(** [int] of a zero-padded decimal of [k] digits. *)
Lemma lstrip_digits s : str_forall is_digit s = true -> lstrip_by is_space s = s.
Proof.
  destruct s as [|c s]; cbn [str_forall lstrip_by]; [done|]. rewrite andb_true_iff. intros [Hc _].
  unfold is_digit, is_space in *. apply andb_true_iff in Hc as [H1 H2].
  apply Nat.leb_le in H1, H2.
  replace _ with false; [done|]. symmetry.
  rewrite !orb_false_iff, !andb_false_iff, !Nat.leb_gt, Nat.eqb_neq. lia.
Qed.

Lemma str_forall_rev p s : str_forall p (str_rev s) = str_forall p s.
Proof.
  induction s as [|c s IH]; simpl; [done|]. rewrite str_forall_app, IH. simpl.
  rewrite andb_true_r. apply andb_comm.
Qed.

Lemma strip_digits s : str_forall is_digit s = true -> strip s = s.
Proof.
  intros H. unfold strip, strip_by. rewrite (lstrip_digits s) by done.
  rewrite lstrip_digits by (by rewrite str_forall_rev). apply str_rev_involutive.
Qed.

Lemma int_of_digits s :
  str_forall is_digit s = true -> int_of_str s = parse_digits 0 false s.
Proof.
  intros H. unfold int_of_str. rewrite strip_digits by done.
  destruct s as [|c s]; [done|]. cbn [str_forall] in H. apply andb_true_iff in H as [Hc _].
  destruct c as [[] [] [] [] [] [] [] []]; try reflexivity; vm_compute in Hc; discriminate.
Qed.

Lemma int_print_digits k n :
  0 <= n < 10 ^ Z.of_nat (S k) -> int_of_str (print_digits (S k) n) = Some n.
Proof.
  intros H. rewrite int_of_digits by apply print_digits_digits.
  rewrite parse_print_digits. by rewrite Z.mod_small.
Qed.

(** ** Lines of a text file *)

(** [readline] of a text file: all line ends read as a line feed. *)
Fixpoint readline (s : string) : string * string :=
  match s with
  | "" => ("", "")
  | String c s' =>
      if Ascii.eqb c "010" then (String "010" "", s')
      else if Ascii.eqb c "013" then
        (String "010" "", match s' with String d r => if Ascii.eqb d "010" then r else s' | "" => "" end)
      else let (l, r) := readline s' in (String c l, r)
  end.

(** [for line in f]. *)
Fixpoint lines_of_text (fuel : nat) (s : string) : list string :=
  match fuel with
  | O => []
  | S fuel' => if String.eqb s "" then [] else let (l, r) := readline s in l :: lines_of_text fuel' r
  end.

Definition text_lines (s : string) : list string := lines_of_text (String.length s) s.

Lemma readline_length s l r :
  readline s = (l, r) -> s <> "" -> l <> "" /\ (String.length r < String.length s)%nat.
Proof.
  revert l r. induction s as [|c s IH]; intros l r; [done|]. cbn [readline]. intros E _.
  destruct (Ascii.eqb c "010"); [injection E as <- <-; simpl; split; [done|lia]|].
  destruct (Ascii.eqb c "013").
  { injection E as <- <-. split; [done|]. destruct s as [|d s]; [simpl; lia|]. destruct (Ascii.eqb d "010"); simpl; lia. }
  destruct (readline s) as [l0 r0] eqn:E0. injection E as <- <-. split; [done|].
  destruct s as [|d s]; [cbn in E0; injection E0 as <- <-; simpl; lia|].
  destruct (IH l0 r0 eq_refl ltac:(done)). simpl in *. lia.
Qed.

(** A line without line breaks of its own is read whole. *)
Definition one_line (s : string) : bool := no_char "010" s && no_char "013" s.

Lemma readline_line s r : one_line s = true -> readline (s +:+ String "010" r) = (s +:+ String "010" "", r).
Proof.
  unfold one_line, no_char. induction s as [|c s IH]; [done|]. cbn [str_forall]. rewrite !andb_true_iff, !negb_true_iff.
  intros [[H1 H2] [H3 H4]]. cbn [String.append readline]. rewrite H1, H3. by rewrite IH by (by rewrite H2, H4).
Qed.

Lemma lines_of_text_enough n s : (String.length s <= n)%nat -> lines_of_text n s = text_lines s.
Proof.
  unfold text_lines. remember (String.length s) as k eqn:Ek. revert n s Ek.
  induction k as [k IH] using lt_wf_ind. intros n s -> Hn. destruct s as [|c s]; [by destruct n|].
  destruct n as [|n]; [simpl in Hn; lia|]. cbn [lines_of_text String.length].
  destruct (String.eqb_spec (String c s) "") as [|_]; [done|]. destruct (readline (String c s)) as [l r] eqn:E.
  destruct (readline_length _ _ _ E ltac:(done)) as [_ Hr]. simpl in Hr, Hn. f_equal.
  rewrite (IH (String.length r) ltac:(simpl; lia) n r eq_refl) by lia.
  rewrite (IH (String.length r) ltac:(simpl; lia) (String.length s) r eq_refl) by lia. done.
Qed.

Lemma text_lines_cons s r :
  one_line s = true -> text_lines (s +:+ String "010" r) = (s +:+ String "010" "") :: text_lines r.
Proof.
  intros Hs. unfold text_lines at 1. rewrite str_length_app. cbn [String.length].
  rewrite Nat.add_succ_r. cbn [lines_of_text]. destruct (String.eqb_spec (s +:+ String "010" r) "") as [E|_].
  { exfalso. by destruct s. }
  rewrite readline_line by done. f_equal. apply lines_of_text_enough. lia.
Qed.

(** ** Stripping *)

Definition head_is (p : ascii -> bool) (s : string) : bool := match s with String c _ => p c | "" => false end.

(** The last character of a text, by its reverse. *)
Definition edges (p : ascii -> bool) (s : string) : bool := head_is p s || head_is p (str_rev s).

Lemma lstrip_head p s : head_is p s = false -> lstrip_by p s = s.
Proof. destruct s as [|c s]; [done|]. simpl. by intros ->. Qed.

Lemma strip_by_edges p s : edges p s = false -> strip_by p s = s.
Proof.
  intros [H1 H2]%orb_false_iff. unfold strip_by. rewrite (lstrip_head p s H1), (lstrip_head p _ H2).
  apply str_rev_involutive.
Qed.

Lemma lstrip_app p a s : str_forall p a = true -> lstrip_by p (a +:+ s) = lstrip_by p s.
Proof. induction a as [|c a IH]; [done|]. cbn [str_forall String.append lstrip_by]. intros [-> Ha]%andb_true_iff. by apply IH. Qed.

(** Padding on both sides is stripped. *)
Lemma strip_by_padded p a s b :
  str_forall p a = true -> str_forall p b = true -> edges p s = false -> s <> "" -> strip_by p (a +:+ s +:+ b) = s.
Proof.
  intros Ha Hb [H1 H2]%orb_false_iff Hs. unfold strip_by. rewrite lstrip_app by done.
  rewrite (lstrip_head p (s +:+ b)) by (by destruct s). rewrite str_rev_app, lstrip_app by (by rewrite str_forall_rev).
  rewrite (lstrip_head p (str_rev s) H2). apply str_rev_involutive.
Qed.
