(* ===== verification/PyLib.v ===== *)
(** * Standard library codecs

    The parts of the Python standard library that the transpiler applies to the
    user's text: [base64.b64encode], [json.dumps] and [shlex.split]. *)

From S2P Require Import Prelude PyStr.

(** ** base64 *)

Definition b64_alphabet : string := "ABCDEFGHIJKLMNOPQRSTUVWXYZabcdefghijklmnopqrstuvwxyz0123456789+/".

Definition b64_char (n : Z) : ascii := default "A"%char (String.get (Z.to_nat n) b64_alphabet).

Definition byte (c : ascii) : Z := Z.of_nat (nat_of_ascii c).

Fixpoint b64encode (s : string) : string :=
  match s with
  | "" => ""
  | String a "" =>
      let n := byte a in
      String (b64_char (Z.shiftr n 2)) (String (b64_char (Z.shiftl (Z.land n 3) 4)) "==")
  | String a (String b "") =>
      let n := byte a * 256 + byte b in
      String (b64_char (Z.shiftr n 10)) (String (b64_char (Z.land (Z.shiftr n 4) 63))
        (String (b64_char (Z.shiftl (Z.land n 15) 2)) "="))
  | String a (String b (String c s')) =>
      let n := (byte a * 256 + byte b) * 256 + byte c in
      String (b64_char (Z.shiftr n 18)) (String (b64_char (Z.land (Z.shiftr n 12) 63))
        (String (b64_char (Z.land (Z.shiftr n 6) 63)) (String (b64_char (Z.land n 63)) (b64encode s'))))
  end.

Example b64encode_examples :
  b64encode "accuracy=([.0-9]+)" = "YWNjdXJhY3k9KFsuMC05XSsp" /\ b64encode "a" = "YQ==" /\ b64encode "ab" = "YWI=".
Proof. vm_compute. auto. Qed.

(** ** json.dumps *)

Definition hex_digit (n : Z) : ascii := default "0"%char (String.get (Z.to_nat n) "0123456789abcdef").

Definition u_escape (n : Z) : string :=
  "\u" +:+ String (hex_digit (Z.land (Z.shiftr n 12) 15)) (String (hex_digit (Z.land (Z.shiftr n 8) 15))
    (String (hex_digit (Z.land (Z.shiftr n 4) 15)) (String (hex_digit (Z.land n 15)) ""))).

(** A code point outside ASCII, as one or two UTF-16 units. *)
Definition json_code_point (n : Z) : string :=
  if n <? 65536 then u_escape n
  else u_escape (55296 + Z.shiftr (n - 65536) 10) +:+ u_escape (56320 + Z.land (n - 65536) 1023).

Definition json_ascii (c : ascii) : string :=
  let n := byte c in
  if n =? 34 then String "092" (String "034" "")
  else if n =? 92 then "\\"
  else if n =? 10 then "\n"
  else if n =? 13 then "\r"
  else if n =? 9 then "\t"
  else if n =? 8 then "\b"
  else if n =? 12 then "\f"
  else if (n <? 32) || (n =? 127) then u_escape n
  else String c "".

(** The characters of a string, escaped; [s] is its UTF-8 encoding. *)
Fixpoint json_chars (s : string) : string :=
  match s with
  | "" => ""
  | String a s1 =>
      if byte a <? 128 then json_ascii a +:+ json_chars s1
      else match s1 with
      | "" => ""
      | String b s2 =>
          if byte a <? 224 then json_code_point ((byte a - 192) * 64 + (byte b - 128)) +:+ json_chars s2
          else match s2 with
          | "" => ""
          | String c s3 =>
              if byte a <? 240
              then json_code_point (((byte a - 224) * 64 + (byte b - 128)) * 64 + (byte c - 128)) +:+ json_chars s3
              else match s3 with
              | "" => ""
              | String d s4 =>
                  json_code_point ((((byte a - 240) * 64 + (byte b - 128)) * 64 + (byte c - 128)) * 64
                                   + (byte d - 128)) +:+ json_chars s4
              end
          end
      end
  end.

Definition json_str (s : string) : string := String "034" "" +:+ json_chars s +:+ String "034" "".

Fixpoint json_dumps (v : pyval) : string :=
  match v with
  | VNone => "null"
  | VBool true => "true"
  | VBool false => "false"
  | VInt z => pretty z
  | VStr s => json_str s
  | VList l =>
      "[" +:+ (fix go (sep : string) (l : list pyval) : string :=
                 match l with [] => "" | x :: l' => sep +:+ json_dumps x +:+ go ", " l' end) "" l +:+ "]"
  | VDict d =>
      "{" +:+ (fix go (sep : string) (d : list (string * pyval)) : string :=
                 match d with
                 | [] => ""
                 | (k, x) :: d' => sep +:+ json_str k +:+ ": " +:+ json_dumps x +:+ go ", " d'
                 end) "" d +:+ "}"
  end.

(** ** shlex.split *)

Definition is_shell_space (c : ascii) : bool :=
  let n := byte c in (n =? 32) || (n =? 9) || (n =? 13) || (n =? 10).
Definition squote : ascii := "039".
Definition dquote : ascii := "034".
Definition backslash : ascii := "092".

(** Between words, in a word, in quotes, after a backslash (inside the quotes
    or, with [None], in a word). *)
Inductive ShlexState : Set :=
| ShSpace
| ShWord
| ShQuote (q : ascii)
| ShEscape (inside : option ascii).

(** The lexer in POSIX mode with [whitespace_split]; [tok] is the word so far
    and [quoted] tells whether it had quotes. *)
Fixpoint shlex_loop (s : string) (st : ShlexState) (tok : string) (quoted : bool) : Res (list string) :=
  let emit (rest : Res (list string)) :=
    if negb (String.eqb tok "") || quoted then ws <~ rest ;; Ok (tok :: ws) else rest in
  match s with
  | "" =>
      match st with
      | ShSpace | ShWord => emit (Ok [])
      | ShQuote _ => Raise (ValueError "No closing quotation")
      | ShEscape _ => Raise (ValueError "No escaped character")
      end
  | String c s' =>
      match st with
      | ShSpace | ShWord =>
          if is_shell_space c then emit (shlex_loop s' ShSpace "" false)
          else if Ascii.eqb c backslash then shlex_loop s' (ShEscape None) tok quoted
          else if Ascii.eqb c squote || Ascii.eqb c dquote then shlex_loop s' (ShQuote c) tok quoted
          else shlex_loop s' ShWord (tok +:+ String c "") quoted
      | ShQuote q =>
          if Ascii.eqb c q then shlex_loop s' ShWord tok true
          else if Ascii.eqb c backslash && Ascii.eqb q dquote then shlex_loop s' (ShEscape (Some q)) tok true
          else shlex_loop s' (ShQuote q) (tok +:+ String c "") true
      | ShEscape None => shlex_loop s' ShWord (tok +:+ String c "") quoted
      | ShEscape (Some q) =>
          let tok := if negb (Ascii.eqb c backslash) && negb (Ascii.eqb c q)
                     then tok +:+ String backslash "" else tok in
          shlex_loop s' (ShQuote q) (tok +:+ String c "") quoted
      end
  end.

Definition shlex_split (s : string) : Res (list string) := shlex_loop s ShSpace "" false.

Example shlex_split_example :
  shlex_split "python  run.py --x 'a b' --y=c\ d" = Ok ["python"; "run.py"; "--x"; "a b"; "--y=c d"] /\
  shlex_split "a '' b" = Ok ["a"; ""; "b"] /\ is_ok (shlex_split "a 'b") = false.
Proof. vm_compute. auto. Qed.

(** ** Properties of the lexer *)

#[local] Arguments String.append !_ _ /.

(** A character that stands for itself. *)
Definition plain_char (c : ascii) : bool :=
  negb (is_shell_space c) && negb (Ascii.eqb c backslash) && negb (Ascii.eqb c squote) && negb (Ascii.eqb c dquote).

Lemma shlex_word w s tok st :
  str_forall plain_char w = true -> st = ShSpace \/ st = ShWord ->
  shlex_loop (w +:+ s) st tok false =
  shlex_loop s (if String.eqb w "" then st else ShWord) (tok +:+ w) false.
Proof.
  revert tok st. induction w as [|c w IH]; intros tok st Hw Hst.
  - cbn [String.append String.eqb]. by rewrite str_app_nil_r.
  - cbn [str_forall] in Hw. apply andb_true_iff in Hw as [Hc Hw]. unfold plain_char in Hc.
    rewrite !andb_true_iff, !negb_true_iff in Hc. destruct Hc as [[[H1 H2] H3] H4].
    assert (E : shlex_loop (String c (w +:+ s)) st tok false =
                shlex_loop (w +:+ s) ShWord (tok +:+ String c "") false)
      by (destruct Hst as [-> | ->]; cbn [shlex_loop]; by rewrite H1, H2, H3, H4).
    change (String c w +:+ s) with (String c (w +:+ s)). rewrite E.
    rewrite IH by auto. cbn [String.eqb]. rewrite str_app_assoc. cbn. by destruct (String.eqb w "").
Qed.

(** Words of plain characters, joined by spaces, come back. *)
Lemma shlex_split_join ws :
  Forall (fun w => w <> "" /\ str_forall plain_char w = true) ws -> shlex_split (join " " ws) = Ok ws.
Proof.
  unfold shlex_split. induction ws as [|w ws IH]; [done|].
  intros [[Hne Hw] Hws]%Forall_cons. apply String.eqb_neq in Hne.
  destruct ws as [|w' ws].
  - cbn [join]. rewrite <- (str_app_nil_r w) at 1. rewrite shlex_word by auto.
    rewrite Hne. cbn. by rewrite Hne.
  - change (join " " (w :: w' :: ws)) with (w +:+ String " " (join " " (w' :: ws))).
    rewrite shlex_word, Hne by auto. cbn [shlex_loop String.append].
    replace (is_shell_space " ") with true by reflexivity. rewrite Hne. cbn [negb orb].
    by rewrite IH.
Qed.
