(* ===== verification/Json.v ===== *)
(** * json.loads and json.dumps

    The JSON codec of the standard library, which the metrics path and the
    dashboards use: [json.dumps] with its defaults and the decoder of
    [json.loads], over the values that JSON can carry.  A decoded text gives its
    value back ([loads_dumps]), a dumped value has no line break
    ([jdumps_one_line]), and the decoder's fuel, two units for each character of
    the text, never runs out ([parse_value_fuel]). *)

From S2P Require Import Prelude PyStr PyLib.

#[local] Arguments String.append !_ _ /.

(** ** Characters *)

Definition chr (n : Z) : ascii := ascii_of_nat (Z.to_nat n).

Definition is_json_space (c : ascii) : bool :=
  let n := byte c in (n =? 32) || (n =? 9) || (n =? 10) || (n =? 13).

Definition skip_ws (s : string) : string := lstrip_by is_json_space s.

Definition hex_val (c : ascii) : option Z :=
  let n := byte c in
  if (48 <=? n) && (n <=? 57) then Some (n - 48)
  else if (97 <=? n) && (n <=? 102) then Some (n - 87)
  else if (65 <=? n) && (n <=? 70) then Some (n - 55)
  else None.

Definition hex4 (a b c d : ascii) : option Z :=
  x ← hex_val a; y ← hex_val b; z ← hex_val c; w ← hex_val d;
  Some (((x * 16 + y) * 16 + z) * 16 + w).

(** The UTF-8 encoding of a code point. *)
Definition utf8_encode (n : Z) : string :=
  if n <? 128 then String (chr n) ""
  else if n <? 2048 then String (chr (192 + n / 64)) (String (chr (128 + n mod 64)) "")
  else if n <? 65536 then
    String (chr (224 + n / 4096)) (String (chr (128 + n / 64 mod 64)) (String (chr (128 + n mod 64)) ""))
  else
    String (chr (240 + n / 262144)) (String (chr (128 + n / 4096 mod 64))
      (String (chr (128 + n / 64 mod 64)) (String (chr (128 + n mod 64)) ""))).

Definition is_cont (c : ascii) : bool := (128 <=? byte c) && (byte c <? 192).

(** A text: well-formed UTF-8, without surrogates and overlong forms. *)
Fixpoint utf8_valid (s : string) : bool :=
  match s with
  | "" => true
  | String a s1 =>
      if byte a <? 128 then utf8_valid s1
      else match s1 with
      | "" => false
      | String b s2 =>
          if byte a <? 224 then (194 <=? byte a) && is_cont b && utf8_valid s2
          else match s2 with
          | "" => false
          | String c s3 =>
              if byte a <? 240 then
                let n := ((byte a - 224) * 64 + (byte b - 128)) * 64 + (byte c - 128) in
                is_cont b && is_cont c && (2048 <=? n) && negb ((55296 <=? n) && (n <? 57344)) && utf8_valid s3
              else match s3 with
              | "" => false
              | String d s4 =>
                  let n := (((byte a - 240) * 64 + (byte b - 128)) * 64 + (byte c - 128)) * 64 + (byte d - 128) in
                  is_cont b && is_cont c && is_cont d && (65536 <=? n) && (n <? 1114112) && utf8_valid s4
              end
          end
      end
  end.

(** ** Scanning strings

    [py_scanstring], after the opening quote: the characters up to the closing
    quote, and what follows it. *)

Definition simple_escape (c : ascii) : option ascii :=
  if Ascii.eqb c dquote then Some dquote
  else if Ascii.eqb c backslash then Some backslash
  else if Ascii.eqb c "/" then Some "/"%char
  else if Ascii.eqb c "b" then Some "008"%char
  else if Ascii.eqb c "f" then Some "012"%char
  else if Ascii.eqb c "n" then Some "010"%char
  else if Ascii.eqb c "r" then Some "013"%char
  else if Ascii.eqb c "t" then Some "009"%char
  else None.

Definition push (t : string) (r : option (string * string)) : option (string * string) :=
  '(u, rest) ← r; Some (t +:+ u, rest).

Definition is_high_surrogate (n : Z) : bool := (55296 <=? n) && (n <? 56320).
Definition is_low_surrogate (n : Z) : bool := (56320 <=? n) && (n <? 57344).

Fixpoint scan_string (s : string) : option (string * string) :=
  match s with
  | "" => None
  | String c s' =>
      if Ascii.eqb c dquote then Some ("", s')
      else if Ascii.eqb c backslash then
        match s' with
        | "" => None
        | String e s'' =>
            if Ascii.eqb e "u" then
              match s'' with
              | String a (String b (String x (String y r))) =>
                  n ← hex4 a b x y;
                  match r with
                  | String e1 (String e2 (String a2 (String b2 (String x2 (String y2 r2))))) =>
                      if is_high_surrogate n && Ascii.eqb e1 backslash && Ascii.eqb e2 "u" then
                        match hex4 a2 b2 x2 y2 with
                        | Some n2 =>
                            if is_low_surrogate n2
                            then push (utf8_encode (65536 + (n - 55296) * 1024 + (n2 - 56320))) (scan_string r2)
                            else push (utf8_encode n) (scan_string r)
                        | None => None
                        end
                      else push (utf8_encode n) (scan_string r)
                  | _ => push (utf8_encode n) (scan_string r)
                  end
              | _ => None
              end
            else
              ch ← simple_escape e;
              push (String ch "") (scan_string s'')
        end
      else if byte c <? 32 then None
      else push (String c "") (scan_string s')
  end.

(** ** Scanning numbers

    [NUMBER_RE]: an integer part without leading zeros, an optional fraction
    and an optional exponent.  The result is the literal, whether it has one of
    the two (it is a [float] then), and the rest of the text. *)

Definition digits (s : string) : string * string := span (fun c => negb (is_digit c)) s.

Definition scan_int_part (s : string) : option (string * string) :=
  match s with
  | String c r =>
      if Ascii.eqb c "0" then Some ("0", r)
      else if is_digit c then Some (digits s)
      else None
  | "" => None
  end.

Definition scan_frac (s : string) : string * string :=
  match s with
  | String "." r => let (ds, r') := digits r in if String.eqb ds "" then ("", s) else (String "." ds, r')
  | _ => ("", s)
  end.

Definition scan_exp_digits (mark sign r s : string) : string * string :=
  let (ds, r') := digits r in if String.eqb ds "" then ("", s) else (mark +:+ sign +:+ ds, r').

Definition scan_exp (s : string) : string * string :=
  match s with
  | String m r =>
      if Ascii.eqb m "e" || Ascii.eqb m "E" then
        match r with
        | String sg r' =>
            if Ascii.eqb sg "+" || Ascii.eqb sg "-" then scan_exp_digits (String m "") (String sg "") r' s
            else scan_exp_digits (String m "") "" r s
        | "" => ("", s)
        end
      else ("", s)
  | "" => ("", s)
  end.

Definition scan_number (s : string) : option (string * bool * string) :=
  let '(sign, s1) := match s with String "-" r => ("-", r) | _ => ("", s) end in
  '(ip, s2) ← scan_int_part s1;
  let (fp, s3) := scan_frac s2 in
  let (ep, s4) := scan_exp s3 in
  Some (sign +:+ ip +:+ fp +:+ ep, negb (String.eqb fp "" && String.eqb ep ""), s4).

(** The literal of a float: a number with a fraction or an exponent, and nothing
    after it. *)
Definition is_float_literal (s : string) : bool :=
  match scan_number s with Some (_, true, "") => true | _ => false end.

(** Finite floats: the shortest [repr] is a JSON literal and reads back as the
    same number. *)
Class PyFloat : Type := {
  pyfloat : Type;
  float_repr : pyfloat -> string;
  float_of_str : string -> pyfloat;
  float_repr_literal : forall f, is_float_literal (float_repr f) = true;
  float_of_repr : forall f, float_of_str (float_repr f) = f
}.

(** ** Values *)

Section Json.
Context {F : PyFloat}.

Inductive jval : Type :=
| JNull
| JBool (b : bool)
| JInt (z : Z)
| JFloat (f : pyfloat)
| JNaN
| JInf (negative : bool)
| JStr (s : string)
| JList (l : list jval)
| JObj (d : list (string * jval)).

(** The separators of [json.dumps] between the items of a list or object. *)
Fixpoint commas (l : list string) : string :=
  match l with
  | [] => ""
  | [x] => x
  | x :: l' => x +:+ ", " +:+ commas l'
  end.

(** [json.dumps(v)]. *)
Fixpoint jdumps (v : jval) : string :=
  match v with
  | JNull => "null"
  | JBool true => "true"
  | JBool false => "false"
  | JInt z => pretty z
  | JFloat f => float_repr f
  | JNaN => "NaN"
  | JInf false => "Infinity"
  | JInf true => "-Infinity"
  | JStr s => json_str s
  | JList l => "[" +:+ commas (map jdumps l) +:+ "]"
  | JObj d => "{" +:+ commas (map (fun kv => json_str kv.1 +:+ ": " +:+ jdumps kv.2) d) +:+ "}"
  end.

(** ** The decoder

    [scan_once] and its array and object cases; one unit of fuel a call.  After
    a colon or a comma spaces are skipped. *)

Definition number_value (lit : string) (is_float : bool) : option jval :=
  if is_float then Some (JFloat (float_of_str lit)) else JInt <$> int_of_str lit.

Definition scan_constant (s : string) : option (jval * string) :=
  if startswith "null" s then Some (JNull, str_drop 4 s)
  else if startswith "true" s then Some (JBool true, str_drop 4 s)
  else if startswith "false" s then Some (JBool false, str_drop 5 s)
  else
    match scan_number s with
    | Some (lit, is_float, r) => v ← number_value lit is_float; Some (v, r)
    | None =>
        if startswith "NaN" s then Some (JNaN, str_drop 3 s)
        else if startswith "Infinity" s then Some (JInf false, str_drop 8 s)
        else if startswith "-Infinity" s then Some (JInf true, str_drop 9 s)
        else None
    end.

(** The rest of the text after the character [c]. *)
Definition after (c : ascii) (s : string) : option string :=
  match s with
  | String c' r => if Ascii.eqb c' c then Some r else None
  | "" => None
  end.

Fixpoint parse_value (n : nat) (s : string) {struct n} : option (jval * string) :=
  match n with
  | O => None
  | S n' =>
      match s with
      | "" => None
      | String c s' =>
          if Ascii.eqb c dquote then '(t, r) ← scan_string s'; Some (JStr t, r)
          else if Ascii.eqb c "{" then
            match after "}" (skip_ws s') with
            | Some r => Some (JObj [], r)
            | None => '(pairs, r) ← parse_members n' (skip_ws s'); Some (JObj (dict_update [] pairs), r)
            end
          else if Ascii.eqb c "[" then
            match after "]" (skip_ws s') with
            | Some r => Some (JList [], r)
            | None => '(l, r) ← parse_elems n' (skip_ws s'); Some (JList l, r)
            end
          else scan_constant s
      end
  end
with parse_elems (n : nat) (s : string) {struct n} : option (list jval * string) :=
  match n with
  | O => None
  | S n' =>
      '(v, r) ← parse_value n' s;
      match after "]" (skip_ws r) with
      | Some r' => Some ([v], r')
      | None =>
          r' ← after "," (skip_ws r);
          '(l, r'') ← parse_elems n' (skip_ws r');
          Some (v :: l, r'')
      end
  end
with parse_members (n : nat) (s : string) {struct n} : option (list (string * jval) * string) :=
  match n with
  | O => None
  | S n' =>
      s' ← after dquote s;
      '(k, r) ← scan_string s';
      r' ← after ":" (skip_ws r);
      '(v, r1) ← parse_value n' (skip_ws r');
      match after "}" (skip_ws r1) with
      | Some r2 => Some ([(k, v)], r2)
      | None =>
          r2 ← after "," (skip_ws r1);
          '(l, r3) ← parse_members n' (skip_ws r2);
          Some ((k, v) :: l, r3)
      end
  end.

(** [json.loads(s)]. *)
Definition json_loads (s : string) : Res jval :=
  match parse_value (S (2 * String.length s)) (skip_ws s) with
  | Some (v, r) => if String.eqb (skip_ws r) "" then Ok v else Raise (JSONDecodeError "Extra data")
  | None => Raise (JSONDecodeError "Expecting value")
  end.
(** [d[k]], [d[0]] on decoded JSON. *)
Definition jget (v : jval) (k : string) : Res jval :=
  match v with
  | JObj d => match dict_get d k with Some x => Ok x | None => Raise (KeyError k) end
  | _ => Raise (TypeError "object is not subscriptable by a string")
  end.

Definition jfirst (v : jval) : Res jval :=
  match v with
  | JList (x :: _) => Ok x
  | JList [] => Raise (IndexError "list index out of range")
  | JStr (String c _) => Ok (JStr (String c ""))
  | JStr "" => Raise (IndexError "string index out of range")
  | JObj _ => Raise (KeyError "0")
  | _ => Raise (TypeError "object is not subscriptable")
  end.

End Json.

(** Parsed TOML and YAML, as JSON values; [json_dumps] of PyLib.v is [jdumps]
    on them. *)
Fixpoint jval_of_pyval `{PyFloat} (v : pyval) : jval :=
  match v with
  | VNone => JNull
  | VBool b => JBool b
  | VInt z => JInt z
  | VStr s => JStr s
  | VList l => JList (map jval_of_pyval l)
  | VDict d => JObj (map (fun kv => (kv.1, jval_of_pyval kv.2)) d)
  end.

(** [bytes.decode("utf-8")]. *)
Definition decode_utf8 (s : string) : Res string :=
  if utf8_valid s then Ok s else Raise (ValueError "'utf-8' codec can't decode").

(** ** Floats by their literals, for the examples *)

Definition literal_float : Type := { s : string | is_float_literal s = true }.
Definition zero_literal : literal_float := exist _ "0.0" eq_refl.

Definition literal_of (s : string) : literal_float :=
  match bool_dec (is_float_literal s) true with
  | left H => exist _ s H
  | right _ => zero_literal
  end.

Program Definition literal_floats : PyFloat := {|
  pyfloat := literal_float;
  float_repr f := `f;
  float_of_str := literal_of
|}.
Next Obligation. intros [s Hs]. exact Hs. Qed.
Next Obligation.
  intros [s Hs]. unfold literal_of. simpl. destruct (bool_dec _ _) as [H|H]; [|congruence].
  f_equal. apply Eqdep_dec.UIP_dec, bool_dec.
Qed.

(** ** Lemmas: numbers *)

(** The text after a value: nothing that could continue a number. *)
Definition stop (s : string) : bool :=
  match s with
  | "" => true
  | String c _ =>
      negb (is_digit c) && negb (Ascii.eqb c ".") && negb (Ascii.eqb c "e") && negb (Ascii.eqb c "E")
      && negb (Ascii.eqb c "+") && negb (Ascii.eqb c "-")
  end.

Lemma digits_stop a s d r : stop s = true -> digits a = (d, r) -> digits (a +:+ s) = (d, r +:+ s).
Proof.
  intros Hs. revert d r. unfold digits. induction a as [|c a IH]; intros d r.
  - intros [= <- <-]. cbn [String.append]. destruct s as [|c s]; [done|].
    unfold stop in Hs. rewrite !andb_true_iff in Hs. cbn [span]. by destruct_and?; simplify_eq; rewrite H.
  - cbn [span String.append]. destruct (negb (is_digit c)) eqn:E; [by intros [= <- <-]|].
    destruct (span _ a) as [d0 r0]. intros [= <- <-]. by rewrite (IH d0 r0).
Qed.

Lemma digits_split a d r : digits a = (d, r) -> a = d +:+ r.
Proof.
  revert d r. unfold digits. induction a as [|c a IH]; intros d r; cbn [span].
  - by intros [= <- <-].
  - destruct (negb (is_digit c)); [by intros [= <- <-]|].
    destruct (span _ a) as [d0 r0]. intros [= <- <-]. cbn [String.append]. f_equal. by apply IH.
Qed.

Lemma scan_int_part_stop a s d r :
  stop s = true -> scan_int_part a = Some (d, r) -> scan_int_part (a +:+ s) = Some (d, r +:+ s) /\ a = d +:+ r.
Proof.
  intros Hs. destruct a as [|c a]; [done|]. cbn [scan_int_part String.append].
  destruct (Ascii.eqb_spec c "0") as [->|_]; [by intros [= <- <-]|].
  destruct (is_digit c); [|done]. intros [= E].
  split; [|by apply digits_split]. f_equal. by apply (digits_stop (String c a)).
Qed.

Lemma scan_frac_stop a s f r :
  stop s = true -> scan_frac a = (f, r) -> scan_frac (a +:+ s) = (f, r +:+ s) /\ a = f +:+ r.
Proof.
  intros Hs. destruct a as [|c a].
  - intros [= <- <-]. split; [|done]. cbn [String.append]. destruct s as [|c s]; [done|].
    unfold stop in Hs. rewrite !andb_true_iff in Hs. destruct_and?.
    destruct c as [[] [] [] [] [] [] [] []]; try reflexivity; discriminate.
  - destruct (decide (c = "."%char)) as [->|Hc].
    + cbn [scan_frac String.append]. destruct (digits a) as [ds r'] eqn:E.
      rewrite (digits_stop _ s _ _ Hs E). destruct (String.eqb_spec ds "") as [->|_].
      * by intros [= <- <-].
      * intros [= <- <-]. split; [done|]. cbn [String.append]. f_equal. by apply digits_split.
    + assert (Hn : forall t, scan_frac (String c t) = ("", String c t))
        by (intros t; destruct c as [[] [] [] [] [] [] [] []]; try reflexivity; by destruct Hc).
      cbn [String.append]. rewrite !Hn. by intros [= <- <-].
Qed.

Lemma stop_cons c s :
  stop (String c s) = true ->
  is_digit c = false /\ Ascii.eqb c "e" = false /\ Ascii.eqb c "E" = false /\
  Ascii.eqb c "+" = false /\ Ascii.eqb c "-" = false.
Proof. unfold stop. rewrite !andb_true_iff, !negb_true_iff. tauto. Qed.

Lemma digits_of_stop s : stop s = true -> digits s = ("", s).
Proof. intros Hs. by apply (digits_stop "" s "" "" Hs). Qed.

Lemma scan_exp_digits_stop mark sign r t s e q :
  stop s = true -> scan_exp_digits mark sign r t = (e, q) -> t = mark +:+ sign +:+ r ->
  scan_exp_digits mark sign (r +:+ s) (t +:+ s) = (e, q +:+ s) /\ t = e +:+ q.
Proof.
  intros Hs. unfold scan_exp_digits. destruct (digits r) as [ds r'] eqn:E.
  rewrite (digits_stop _ s _ _ Hs E). apply digits_split in E as ->.
  destruct (String.eqb_spec ds "") as [->|_]; intros [= <- <-] ->; split; try done.
  by rewrite !str_app_assoc.
Qed.

Lemma scan_exp_stop a s e r :
  stop s = true -> scan_exp a = (e, r) -> scan_exp (a +:+ s) = (e, r +:+ s) /\ a = e +:+ r.
Proof.
  intros Hs. destruct a as [|m a].
  - intros [= <- <-]. split; [|done]. cbn [String.append]. destruct s as [|c s]; [done|].
    apply stop_cons in Hs as (_ & H1 & H2 & _). cbn [scan_exp]. by rewrite H1, H2.
  - cbn [scan_exp String.append]. destruct (Ascii.eqb m "e" || Ascii.eqb m "E"); [|by intros [= <- <-]].
    destruct a as [|sg a]; cbn [String.append].
    + intros [= <- <-]. split; [|done]. destruct s as [|c s]; [done|].
      pose proof Hs as Hd. apply stop_cons in Hs as (_ & _ & _ & H1 & H2). rewrite H1, H2. cbn [orb].
      unfold scan_exp_digits. by rewrite (digits_of_stop _ Hd).
    + destruct (Ascii.eqb sg "+" || Ascii.eqb sg "-"); intros H.
      * by apply (scan_exp_digits_stop _ _ a (String m (String sg a)) s).
      * by apply (scan_exp_digits_stop _ "" (String sg a) (String m (String sg a)) s).
Qed.

(** A number is scanned alike in front of anything that cannot continue it. *)
Lemma scan_number_stop a s l b r :
  stop s = true -> scan_number a = Some (l, b, r) ->
  scan_number (a +:+ s) = Some (l, b, r +:+ s) /\ a = l +:+ r.
Proof.
  intros Hs. unfold scan_number.
  assert (Hsign : exists sg a1,
    (forall t, match a +:+ t with String "-" r => ("-", r) | _ => ("", a +:+ t) end =
               if String.eqb a "" then (match t with String "-" r => ("-", r) | _ => ("", t) end) else (sg, a1 +:+ t))
    /\ a = sg +:+ a1).
  { destruct a as [|c a]; [by exists "", ""|].
    destruct (decide (c = "-"%char)) as [->|Hc]; [by exists "-", a|].
    exists "", (String c a). split; [|done]. intros t. cbn [String.append String.eqb].
    destruct c as [[] [] [] [] [] [] [] []]; try reflexivity; by destruct Hc. }
  destruct Hsign as (sg & a1 & Hsign & Ha).
  pose proof (Hsign "") as H0. rewrite str_app_nil_r in H0. rewrite H0, Hsign.
  destruct (String.eqb_spec a "") as [->|_]; [done|].
  rewrite str_app_nil_r. cbn.
  destruct (scan_int_part a1) as [[ip s2]|] eqn:E1; [|done]. cbn.
  apply (scan_int_part_stop _ s) in E1 as [-> ->]; [|done]. cbn.
  destruct (scan_frac s2) as [fp s3] eqn:E2. apply (scan_frac_stop _ s) in E2 as [-> ->]; [|done].
  destruct (scan_exp s3) as [ep s4] eqn:E3. apply (scan_exp_stop _ s) in E3 as [-> ->]; [|done].
  intros [= <- <- <-]. split; [done|]. by rewrite Ha, !str_app_assoc.
Qed.

(** *** Decimal integers *)

Lemma pretty_N_char_digit d : (d < 10)%N -> pretty_N_char d = digit_char (Z.of_N d).
Proof.
  intros H. assert (d = 0 \/ d = 1 \/ d = 2 \/ d = 3 \/ d = 4 \/ d = 5 \/ d = 6 \/ d = 7 \/ d = 8 \/ d = 9)%N by lia.
  by repeat (destruct H0 as [-> | H0]); [..|subst].
Qed.

Lemma digit_char_not_0 d : 0 < d < 10 -> Ascii.eqb (digit_char d) "0" = false.
Proof.
  intros H. apply Ascii.eqb_neq. intros E. apply (f_equal digit_val) in E.
  rewrite digit_val_char in E by lia. vm_compute in E. lia.
Qed.

(** The decimal text of a positive number: digits without a leading zero. *)
Lemma pretty_N_go_spec x :
  (0 < x)%N ->
  exists c ds, (forall s, pretty_N_go x s = String c ds +:+ s) /\
    str_forall is_digit (String c ds) = true /\ Ascii.eqb c "0" = false /\
    parse_digits 0 false (String c ds) = Some (Z.of_N x).
Proof.
  induction (N.lt_wf_0 x) as [x _ IH]. intros Hx.
  assert (Hm : (x mod 10 < 10)%N) by (apply N.mod_lt; lia).
  assert (Hz : 0 <= Z.of_N (x mod 10) < 10) by (split; [apply N2Z.is_nonneg|by apply (N2Z.inj_lt _ 10)]).
  assert (Hdm : x = (10 * (x / 10) + x mod 10)%N) by (apply N.div_mod; lia).
  destruct (decide (x < 10)%N) as [Hlt|Hge].
  - rewrite N.mod_small in Hdm, Hm by done.
    exists (digit_char (Z.of_N x)), "". split_and!.
    + intros s. rewrite pretty_N_go_step, N.div_small, N.mod_small, pretty_N_go_0 by done.
      by rewrite pretty_N_char_digit.
    + cbn [str_forall]. by rewrite is_digit_digit_char by lia.
    + apply digit_char_not_0. lia.
    + cbn [parse_digits]. rewrite is_digit_digit_char, digit_val_char by lia. by f_equal.
  - assert (Hq : (0 < x / 10 < x)%N) by (split; [apply N.div_str_pos|apply N.div_lt]; lia).
    destruct (IH (x / 10)%N) as (c & ds & H1 & H2 & H3 & H4); [lia|lia|].
    exists c, (ds +:+ String (digit_char (Z.of_N (x mod 10))) ""). split_and!; [| |done|].
    + intros s. rewrite pretty_N_go_step, H1, pretty_N_char_digit by done.
      cbn [String.append]. by rewrite str_app_assoc.
    + change (str_forall is_digit (String c ds +:+ String (digit_char (Z.of_N (x mod 10))) "") = true).
      rewrite str_forall_app, H2. cbn [str_forall]. by rewrite is_digit_digit_char by exact Hz.
    + change (parse_digits 0 false (String c ds +:+ String (digit_char (Z.of_N (x mod 10))) "") = Some (Z.of_N x)).
      rewrite parse_digits_app by done. cbn [String.eqb negb orb].
      replace (parse_digits 0 true (String c ds)) with (parse_digits 0 false (String c ds)).
      { rewrite H4. f_equal. rewrite N2Z.inj_div, N2Z.inj_mod.
        pose proof (Z.div_mod (Z.of_N x) 10). change (Z.of_N 10) with 10. lia. }
      cbn [str_forall] in H2. apply andb_true_iff in H2 as [H2 _]. cbn [parse_digits]. by rewrite H2.
Qed.

(** The decimal text of an integer is scanned whole, as an integer, and read
    back. *)
Lemma digits_all c ds s :
  str_forall is_digit (String c ds) = true -> stop s = true -> digits (String c ds +:+ s) = (String c ds, s).
Proof.
  intros Hd Hs. change s with ("" +:+ s) at 2. apply (digits_stop _ s); [done|].
  unfold digits. rewrite <- (str_app_nil_r (String c ds)) at 1. apply span_app; [|done].
  eapply str_forall_impl; [|exact Hd]. intros x. by rewrite negb_involutive.
Qed.

Lemma scan_positive c ds sg :
  sg = "" \/ sg = "-" -> str_forall is_digit (String c ds) = true -> Ascii.eqb c "0" = false ->
  scan_number (sg +:+ String c ds) = Some (sg +:+ String c ds, false, "").
Proof.
  intros Hsg Hd Hc. pose proof (digits_all c ds "" Hd eq_refl) as E. rewrite str_app_nil_r in E.
  assert (Hi : scan_int_part (String c ds) = Some (String c ds, "")).
  { unfold scan_int_part. rewrite Hc, E. cbn [str_forall] in Hd. by apply andb_true_iff in Hd as [-> _]. }
  unfold scan_number. destruct Hsg as [-> | ->]; cbn [String.append].
  - assert (Hm : c <> "-"%char) by (intros ->; discriminate).
    replace (match String c ds with String "-" r => ("-", r) | _ => ("", String c ds) end) with ("", String c ds)
      by (destruct c as [[] [] [] [] [] [] [] []]; try reflexivity; by destruct Hm).
    rewrite Hi. cbn. by rewrite str_app_nil_r.
  - rewrite Hi. cbn. by rewrite str_app_nil_r.
Qed.

Lemma scan_pretty z : scan_number (pretty z) = Some (pretty z, false, "") /\ int_of_str (pretty z) = Some z.
Proof.
  unfold pretty, pretty_Z. destruct z as [|p|p]; [done|..];
    unfold pretty, pretty_positive, pretty, pretty_N; rewrite decide_False by done;
    destruct (pretty_N_go_spec (N.pos p)) as (c & ds & -> & H2 & H3 & H4); try lia; rewrite str_app_nil_r.
  - split; [by apply (scan_positive c ds ""); auto|]. by rewrite int_of_digits.
  - split; [apply (scan_positive c ds "-"); auto|]. unfold int_of_str, strip, strip_by.
    change (lstrip_by is_space ("-" +:+ String c ds)) with ("-" +:+ String c ds).
    rewrite str_rev_app. cbn [str_rev String.append].
    assert (E : forall t u, str_forall is_digit t = true -> t <> "" -> lstrip_by is_space (t +:+ u) = t +:+ u).
    { intros t u Ht Hne. destruct t as [|x t]; [done|]. cbn [str_forall] in Ht. apply andb_true_iff in Ht as [Hx _].
      cbn [String.append lstrip_by].
      destruct x as [[] [] [] [] [] [] [] []]; try reflexivity; vm_compute in Hx; discriminate. }
    rewrite E; [|by rewrite <- (str_forall_rev _ (String c ds)) in H2|by destruct (str_rev ds)].
    rewrite str_rev_app. change (str_rev (str_rev ds +:+ String c "")) with (str_rev (str_rev (String c ds))).
    rewrite str_rev_involutive. cbn [str_rev String.append]. by rewrite H4.
Qed.

(** ** Lemmas: strings *)

Lemma byte_bound c : 0 <= byte c < 256.
Proof. unfold byte. pose proof (nat_ascii_bounded c). lia. Qed.

Lemma chr_byte c : chr (byte c) = c.
Proof. unfold chr, byte. by rewrite Nat2Z.id, ascii_nat_embedding. Qed.

Lemma hex_val_digit d : 0 <= d < 16 -> hex_val (hex_digit d) = Some d.
Proof.
  intros H. assert (Hd : (Z.to_nat d < 16)%nat) by lia. replace d with (Z.of_nat (Z.to_nat d)) by lia.
  generalize dependent (Z.to_nat d). clear d H. intros n Hn.
  do 16 (destruct n as [|n]; [reflexivity|]). lia.
Qed.

Lemma nibble n k : 0 <= n -> 0 <= k -> Z.land (Z.shiftr n k) 15 = n / 2 ^ k mod 16.
Proof. intros Hn Hk. rewrite Z.shiftr_div_pow2 by done. by rewrite (Z.land_ones _ 4). Qed.

Lemma hex4_escape n :
  0 <= n < 65536 ->
  hex4 (hex_digit (Z.land (Z.shiftr n 12) 15)) (hex_digit (Z.land (Z.shiftr n 8) 15))
       (hex_digit (Z.land (Z.shiftr n 4) 15)) (hex_digit (Z.land n 15)) = Some n.
Proof.
  intros Hn. rewrite !nibble by lia. rewrite (Z.land_ones _ 4) by lia. change (2 ^ 4) with 16.
  unfold hex4. rewrite !hex_val_digit by (apply Z.mod_pos_bound; lia). cbn. f_equal.
  replace (n / 2 ^ 8) with (n / 16 / 16) by (rewrite Z.div_div by lia; done).
  replace (n / 2 ^ 12) with (n / 16 / 16 / 16) by (rewrite !Z.div_div by lia; done).
  change (2 ^ 4) with 16.
  pose proof (Z.div_mod n 16). pose proof (Z.div_mod (n / 16) 16). pose proof (Z.div_mod (n / 16 / 16) 16).
  pose proof (Z.mod_pos_bound n 16). pose proof (Z.mod_pos_bound (n / 16) 16).
  pose proof (Z.mod_pos_bound (n / 16 / 16) 16).
  rewrite (Z.mod_small (n / 16 / 16 / 16)) by lia. lia.
Qed.

(** A lone [u]-escape, and a pair of surrogates. *)
Lemma scan_u_escape n r :
  0 <= n < 65536 -> is_high_surrogate n = false ->
  scan_string (u_escape n +:+ r) = push (utf8_encode n) (scan_string r).
Proof.
  intros Hn Hs. pose proof (hex4_escape n Hn) as E. unfold u_escape.
  cbn [String.append scan_string]. change (Ascii.eqb "\" dquote) with false.
  change (Ascii.eqb "\" backslash) with true. change (Ascii.eqb "u" "u") with true. cbn match.
  rewrite E. cbn [mbind option_bind]. rewrite Hs. cbn [andb].
  by destruct r as [|? [|? [|? [|? [|? [|? ?]]]]]].
Qed.

Lemma scan_surrogates h l r :
  is_high_surrogate h = true -> is_low_surrogate l = true ->
  scan_string (u_escape h +:+ u_escape l +:+ r) =
  push (utf8_encode (65536 + (h - 55296) * 1024 + (l - 56320))) (scan_string r).
Proof.
  intros Hh Hl. unfold is_high_surrogate, is_low_surrogate in *.
  assert (0 <= h < 65536 /\ 0 <= l < 65536) as [Hh' Hl'] by lia.
  pose proof (hex4_escape h Hh') as E1. pose proof (hex4_escape l Hl') as E2. unfold u_escape.
  cbn [String.append scan_string]. change (Ascii.eqb "\" dquote) with false.
  change (Ascii.eqb "\" backslash) with true. change (Ascii.eqb "u" "u") with true. cbn match.
  rewrite E1, E2. cbn [mbind option_bind]. unfold is_high_surrogate, is_low_surrogate. by rewrite Hh, Hl.
Qed.

Lemma scan_code_point n r :
  0 <= n < 1114112 -> is_high_surrogate n || is_low_surrogate n = false ->
  scan_string (json_code_point n +:+ r) = push (utf8_encode n) (scan_string r).
Proof.
  intros Hn Hs. unfold json_code_point. destruct (Z.ltb_spec n 65536) as [Hlt|Hge].
  - apply orb_false_iff in Hs as [Hs _]. apply scan_u_escape; [lia|done].
  - rewrite str_app_assoc, (Z.land_ones _ 10), Z.shiftr_div_pow2 by lia.
    pose proof (Z.div_mod (n - 65536) (2 ^ 10) ltac:(lia)).
    pose proof (Z.mod_pos_bound (n - 65536) (2 ^ 10) ltac:(lia)).
    assert (0 <= (n - 65536) / 2 ^ 10 < 1024)
      by (split; [apply Z.div_pos|apply Z.div_lt_upper_bound]; lia).
    change (2 ^ 10) with 1024 in *.
    rewrite scan_surrogates by (unfold is_high_surrogate, is_low_surrogate; lia).
    do 3 f_equal. lia.
Qed.

Lemma scan_ascii c r :
  byte c < 128 -> scan_string (json_ascii c +:+ r) = push (String c "") (scan_string r).
Proof.
  intros Hc. unfold json_ascii.
  destruct (Z.eqb_spec (byte c) 34) as [E|N1]; [rewrite <- (chr_byte c), E; reflexivity|].
  destruct (Z.eqb_spec (byte c) 92) as [E|N2]; [rewrite <- (chr_byte c), E; reflexivity|].
  destruct (Z.eqb_spec (byte c) 10) as [E|_]; [rewrite <- (chr_byte c), E; reflexivity|].
  destruct (Z.eqb_spec (byte c) 13) as [E|_]; [rewrite <- (chr_byte c), E; reflexivity|].
  destruct (Z.eqb_spec (byte c) 9) as [E|_]; [rewrite <- (chr_byte c), E; reflexivity|].
  destruct (Z.eqb_spec (byte c) 8) as [E|_]; [rewrite <- (chr_byte c), E; reflexivity|].
  destruct (Z.eqb_spec (byte c) 12) as [E|_]; [rewrite <- (chr_byte c), E; reflexivity|].
  destruct ((byte c <? 32) || (byte c =? 127)) eqn:E.
  - pose proof (byte_bound c). rewrite scan_u_escape by (unfold is_high_surrogate; lia).
    f_equal. unfold utf8_encode. replace (byte c <? 128) with true by lia. by rewrite chr_byte.
  - cbn [String.append scan_string].
    destruct (Ascii.eqb_spec c dquote) as [->|_]; [by destruct N1|].
    destruct (Ascii.eqb_spec c backslash) as [->|_]; [by destruct N2|].
    by replace (byte c <? 32) with false by lia.
Qed.

(** Encoding what was decoded gives the bytes back. *)
Lemma chr_of_byte n c : n = byte c -> chr n = c.
Proof. intros ->. apply chr_byte. Qed.

Lemma utf8_encode2 a b :
  194 <= byte a < 224 -> is_cont b = true ->
  utf8_encode ((byte a - 192) * 64 + (byte b - 128)) = String a (String b "").
Proof.
  unfold is_cont. intros Ha Hb. unfold utf8_encode. set (n := (byte a - 192) * 64 + (byte b - 128)).
  assert (n / 64 = byte a - 192 /\ n mod 64 = byte b - 128) as [E1 E2].
  { split; [symmetry; apply Z.div_unique with (byte b - 128)|symmetry; apply Z.mod_unique with (byte a - 192)]; lia. }
  replace (n <? 128) with false by lia. replace (n <? 2048) with true by lia.
  rewrite E1, E2. by rewrite (chr_of_byte _ a), (chr_of_byte _ b) by lia.
Qed.

Lemma utf8_encode3 a b c n :
  n = ((byte a - 224) * 64 + (byte b - 128)) * 64 + (byte c - 128) ->
  224 <= byte a < 240 -> is_cont b = true -> is_cont c = true -> 2048 <= n ->
  utf8_encode n = String a (String b (String c "")).
Proof.
  unfold is_cont. intros En Ha Hb Hc Hn. unfold utf8_encode.
  assert (n / 64 = (byte a - 224) * 64 + (byte b - 128) /\ n mod 64 = byte c - 128) as [E1 E2].
  { split; [symmetry; apply Z.div_unique with (byte c - 128)|
            symmetry; apply Z.mod_unique with ((byte a - 224) * 64 + (byte b - 128))]; lia. }
  assert (n / 4096 = byte a - 224) as E3.
  { symmetry; apply Z.div_unique with ((byte b - 128) * 64 + (byte c - 128)); lia. }
  replace (n <? 128) with false by lia. replace (n <? 2048) with false by lia.
  replace (n <? 65536) with true by lia. rewrite E3, E1, E2.
  replace (((byte a - 224) * 64 + (byte b - 128)) mod 64) with (byte b - 128)
    by (apply Z.mod_unique with (byte a - 224); lia).
  by rewrite (chr_of_byte _ a), (chr_of_byte _ b), (chr_of_byte _ c) by lia.
Qed.

Lemma utf8_encode4 a b c d n :
  n = (((byte a - 240) * 64 + (byte b - 128)) * 64 + (byte c - 128)) * 64 + (byte d - 128) ->
  240 <= byte a -> is_cont b = true -> is_cont c = true -> is_cont d = true -> 65536 <= n ->
  utf8_encode n = String a (String b (String c (String d ""))).
Proof.
  unfold is_cont. intros En Ha Hb Hc Hd Hn. unfold utf8_encode.
  assert (n mod 64 = byte d - 128) as E1
    by (symmetry; apply Z.mod_unique with (((byte a - 240) * 64 + (byte b - 128)) * 64 + (byte c - 128)); lia).
  assert (n / 64 = ((byte a - 240) * 64 + (byte b - 128)) * 64 + (byte c - 128)) as E2
    by (symmetry; apply Z.div_unique with (byte d - 128); lia).
  assert (n / 4096 = (byte a - 240) * 64 + (byte b - 128)) as E3
    by (symmetry; apply Z.div_unique with ((byte c - 128) * 64 + (byte d - 128)); lia).
  assert (n / 262144 = byte a - 240) as E4
    by (symmetry; apply Z.div_unique with (((byte b - 128) * 64 + (byte c - 128)) * 64 + (byte d - 128)); lia).
  replace (n <? 128) with false by lia. replace (n <? 2048) with false by lia.
  replace (n <? 65536) with false by lia. rewrite E4, E3, E2, E1.
  replace ((((byte a - 240) * 64 + (byte b - 128)) * 64 + (byte c - 128)) mod 64) with (byte c - 128)
    by (apply Z.mod_unique with ((byte a - 240) * 64 + (byte b - 128)); lia).
  replace (((byte a - 240) * 64 + (byte b - 128)) mod 64) with (byte b - 128)
    by (apply Z.mod_unique with (byte a - 240); lia).
  by rewrite (chr_of_byte _ a), (chr_of_byte _ b), (chr_of_byte _ c), (chr_of_byte _ d) by lia.
Qed.

Lemma push_some t u r : push t (Some (u, r)) = Some (t +:+ u, r).
Proof. reflexivity. Qed.

(** A dumped string is scanned back. *)
Lemma scan_json_chars t s :
  utf8_valid t = true -> scan_string (json_chars t +:+ String dquote s) = Some (t, s).
Proof.
  remember (String.length t) as k eqn:Hk. revert t Hk.
  induction (lt_wf k) as [k _ IH]. intros t -> Hv.
  destruct t as [|a t1]; [reflexivity|]. cbn [utf8_valid json_chars] in *.
  destruct (Z.ltb_spec (byte a) 128) as [Ha|Ha].
  { rewrite str_app_assoc, scan_ascii by done. by rewrite (IH (String.length t1)) by (simpl; done || lia). }
  destruct t1 as [|b t2]; [done|].
  destruct (Z.ltb_spec (byte a) 224) as [Ha2|Ha2].
  { rewrite !andb_true_iff in Hv. destruct Hv as [[H1 H2] H3]. pose proof H2 as Hb. unfold is_cont in Hb.
    rewrite str_app_assoc, scan_code_point by (unfold is_high_surrogate, is_low_surrogate; lia).
    rewrite (IH (String.length t2)) by (simpl; done || lia).
    by rewrite utf8_encode2 by (done || lia). }
  destruct t2 as [|c t3]; [done|].
  destruct (Z.ltb_spec (byte a) 240) as [Ha3|Ha3].
  { cbv zeta in Hv. rewrite !andb_true_iff in Hv. destruct Hv as [[[[H1 H2] H3] H4] H5].
    pose proof H1 as Hb. pose proof H2 as Hc. unfold is_cont in Hb, Hc.
    rewrite str_app_assoc, scan_code_point by (unfold is_high_surrogate, is_low_surrogate; lia).
    rewrite (IH (String.length t3)) by (simpl; done || lia).
    by rewrite (utf8_encode3 a b c) by (done || lia). }
  destruct t3 as [|d t4]; [done|].
  cbv zeta in Hv. rewrite !andb_true_iff in Hv. destruct Hv as [[[[[H1 H2] H3] H4] H5] H6].
  pose proof H1 as Hb. pose proof H2 as Hc. pose proof H3 as Hd. unfold is_cont in Hb, Hc, Hd.
  rewrite str_app_assoc, scan_code_point by (unfold is_high_surrogate, is_low_surrogate; lia).
  rewrite (IH (String.length t4)) by (simpl; done || lia).
  by rewrite (utf8_encode4 a b c d) by (done || lia).
Qed.

(** ** Lemmas: values *)

Section Roundtrip.
Context {F : PyFloat}.

(** Induction over a value and the values inside its lists and objects. *)
Lemma jval_nested_ind (P : jval -> Prop)
    (Hatom : forall v, (forall l, v <> JList l) -> (forall d, v <> JObj d) -> P v)
    (Hlist : forall l, Forall P l -> P (JList l))
    (Hobj : forall d, Forall (fun kv => P kv.2) d -> P (JObj d)) :
  forall v, P v.
Proof.
  fix IH 1. intros [| | | | | | |l|d]; try (by apply Hatom).
  - apply Hlist. induction l as [|x l IHl]; constructor; [apply IH|exact IHl].
  - apply Hobj. induction d as [|[k x] d IHd]; constructor; [apply IH|exact IHd].
Qed.

(** Values that a Python program can dump and load unchanged: texts are valid,
    and an object has each key once. *)
Fixpoint jwf (v : jval) : bool :=
  match v with
  | JStr s => utf8_valid s
  | JList l => forallb jwf l
  | JObj d => bool_decide (NoDup d.*1) && forallb (fun kv => utf8_valid kv.1 && jwf kv.2) d
  | _ => true
  end.

(** The calls that decoding the dumped value takes. *)
Fixpoint jfuel (v : jval) : nat :=
  match v with
  | JList l => S (sum_list_with (fun x => S (jfuel x)) l)
  | JObj d => S (sum_list_with (fun kv => S (jfuel kv.2)) d)
  | _ => 1%nat
  end.

Definition value_start (c : ascii) : bool :=
  negb (is_json_space c) && negb (Ascii.eqb c "]") && negb (Ascii.eqb c "}").

Lemma number_start a l b r :
  scan_number a = Some (l, b, r) -> exists c t, a = String c t /\ (c = "-"%char \/ is_digit c = true).
Proof.
  destruct a as [|c a]; [done|]. intros H. exists c, a. split; [done|].
  destruct (decide (c = "-"%char)) as [->|Hc]; [by left|right].
  unfold scan_number in H.
  replace (match String c a with String "-" r => ("-", r) | _ => ("", String c a) end) with ("", String c a) in H
    by (destruct c as [[] [] [] [] [] [] [] []]; try reflexivity; by destruct Hc).
  cbn [scan_int_part] in H. destruct (Ascii.eqb_spec c "0") as [->|_]; [done|]. by destruct (is_digit c).
Qed.

Lemma number_char_facts c :
  c = "-"%char \/ is_digit c = true ->
  value_start c = true /\ Ascii.eqb c dquote = false /\ Ascii.eqb c "{" = false /\ Ascii.eqb c "[" = false /\
  Ascii.eqb "n" c = false /\ Ascii.eqb "t" c = false /\ Ascii.eqb "f" c = false.
Proof.
  intros [-> | H]; [done|].
  destruct c as [[] [] [] [] [] [] [] []]; try (vm_compute in H; discriminate); done.
Qed.

Lemma float_scan f : scan_number (float_repr f) = Some (float_repr f, true, "").
Proof.
  pose proof (float_repr_literal f) as H. unfold is_float_literal in H.
  destruct (scan_number (float_repr f)) as [[[l []] []]|] eqn:E; try discriminate.
  destruct (scan_number_stop _ "" _ _ _ eq_refl E) as [_ E']. rewrite str_app_nil_r in E'. by rewrite E'.
Qed.

Lemma json_str_cons k : json_str k = String dquote (json_chars k +:+ String dquote "").
Proof. reflexivity. Qed.

Lemma jdumps_start v : exists c t, jdumps v = String c t /\ value_start c = true.
Proof.
  destruct v as [| [] | z | f | | [] | s | l | d]; try (by eexists _, _).
  - destruct (number_start _ _ _ _ (proj1 (scan_pretty z))) as (c & t & E & Hc).
    exists c, t. split; [exact E|]. by apply number_char_facts.
  - destruct (number_start _ _ _ _ (float_scan f)) as (c & t & E & Hc).
    exists c, t. split; [exact E|]. by apply number_char_facts.
Qed.

(** No space precedes a value, nor do the closing brackets. *)
Lemma skip_ws_start c t : value_start c = true -> skip_ws (String c t) = String c t.
Proof.
  unfold value_start. rewrite !andb_true_iff, !negb_true_iff. intros [[H _] _].
  unfold skip_ws. cbn [lstrip_by]. by rewrite H.
Qed.

Lemma skip_ws_dumps v s : skip_ws (jdumps v +:+ s) = jdumps v +:+ s.
Proof. destruct (jdumps_start v) as (c & t & -> & H). by apply skip_ws_start. Qed.

Lemma after_close c t : value_start c = true -> after "]" (String c t) = None /\ after "}" (String c t) = None.
Proof.
  unfold value_start, after. rewrite !andb_true_iff, !negb_true_iff. by intros [[_ ->] ->].
Qed.

Lemma after_comma t :
  after "]" (skip_ws (", " +:+ t)) = None /\ after "}" (skip_ws (", " +:+ t)) = None /\
  after "," (skip_ws (", " +:+ t)) = Some (" " +:+ t).
Proof. done. Qed.

Lemma skip_ws_space t : skip_ws (" " +:+ t) = skip_ws t.
Proof. done. Qed.

(** Numbers take no fuel but the call's own. *)
Lemma parse_number_value n a s b v :
  scan_number a = Some (a, b, "") -> number_value a b = Some v -> stop s = true ->
  parse_value (S n) (a +:+ s) = Some (v, s).
Proof.
  intros Ha Hv Hs. destruct (number_start _ _ _ _ Ha) as (c & t & -> & Hc).
  apply number_char_facts in Hc as (_ & H1 & H2 & H3 & H4 & H5 & H6).
  cbn [parse_value String.append]. rewrite H1, H2, H3. unfold scan_constant.
  cbn [startswith]. rewrite H4, H5, H6. cbn [andb].
  destruct (scan_number_stop _ s _ _ _ Hs Ha) as [E _]. cbn [String.append] in E. by rewrite E, Hv.
Qed.

(** A dumped value is decoded in front of anything that cannot continue it. *)
Definition decodes (v : jval) : Prop :=
  forall n s, (jfuel v <= n)%nat -> stop s = true -> parse_value n (jdumps v +:+ s) = Some (v, s).

Lemma parse_elems_dumps l n s :
  l <> [] -> Forall decodes l -> (sum_list_with (fun x => S (jfuel x)) l <= n)%nat ->
  parse_elems n (commas (map jdumps l) +:+ "]" +:+ s) = Some (l, s).
Proof.
  intros Hne Hl. revert n. induction Hl as [|v l Hv Hl IH]; [done|]. intros n Hn.
  cbn [sum_list_with] in Hn. destruct n as [|n]; [lia|]. cbn [parse_elems].
  destruct l as [|v' l].
  - cbn [map commas]. rewrite Hv by (done || lia). reflexivity.
  - change (commas (map jdumps (v :: v' :: l))) with (jdumps v +:+ ", " +:+ commas (map jdumps (v' :: l))).
    rewrite !str_app_assoc, Hv by (done || (cbn [sum_list_with] in *; lia)). cbn [mbind option_bind].
    destruct (after_comma (commas (map jdumps (v' :: l)) +:+ "]" +:+ s)) as (-> & _ & ->).
    cbn [mbind option_bind]. rewrite skip_ws_space.
    replace (skip_ws (commas (map jdumps (v' :: l)) +:+ "]" +:+ s))
      with (commas (map jdumps (v' :: l)) +:+ "]" +:+ s).
    + rewrite IH by (done || lia). reflexivity.
    + symmetry. destruct l as [|v'' l]; cbn [map commas]; rewrite ?str_app_assoc; apply skip_ws_dumps.
Qed.

Definition dump_member (kv : string * jval) : string := json_str kv.1 +:+ ": " +:+ jdumps kv.2.

Lemma parse_members_dumps d n s :
  d <> [] -> Forall (fun kv => utf8_valid kv.1 = true /\ decodes kv.2) d ->
  (sum_list_with (fun kv => S (jfuel kv.2)) d <= n)%nat ->
  parse_members n (commas (map dump_member d) +:+ "}" +:+ s) = Some (d, s).
Proof.
  intros Hne Hl. revert n. induction Hl as [|[k v] d [Hk Hv] Hl IH]; [done|]. intros n Hn.
  cbn [sum_list_with fst snd] in Hn, Hk, Hv. destruct n as [|n]; [lia|].
  assert (E : forall t, stop t = true ->
    parse_members (S n) (dump_member (k, v) +:+ t) =
    match after "}" (skip_ws t) with
    | Some r2 => Some ([(k, v)], r2)
    | None => r2 ← after "," (skip_ws t); '(l, r3) ← parse_members n (skip_ws r2); Some ((k, v) :: l, r3)
    end).
  { intros t Ht. unfold dump_member. cbn [fst snd]. rewrite json_str_cons, !str_app_assoc.
    cbn [parse_members String.append after]. rewrite Ascii.eqb_refl. cbn [mbind option_bind].
    rewrite str_app_assoc. cbn [String.append]. rewrite scan_json_chars by done. cbn [mbind option_bind].
    change (after ":" (skip_ws (String ":" (String " " (jdumps v +:+ t))))) with (Some (" " +:+ (jdumps v +:+ t))).
    cbn [mbind option_bind]. rewrite skip_ws_space, skip_ws_dumps, Hv by (done || lia). reflexivity. }
  destruct d as [|[k' v'] d].
  - cbn [map commas]. by rewrite E.
  - change (commas (map dump_member ((k, v) :: (k', v') :: d)))
      with (dump_member (k, v) +:+ ", " +:+ commas (map dump_member ((k', v') :: d))).
    rewrite !str_app_assoc, E by done.
    destruct (after_comma (commas (map dump_member ((k', v') :: d)) +:+ "}" +:+ s)) as (_ & -> & ->).
    cbn [mbind option_bind]. rewrite skip_ws_space.
    replace (skip_ws (commas (map dump_member ((k', v') :: d)) +:+ "}" +:+ s))
      with (commas (map dump_member ((k', v') :: d)) +:+ "}" +:+ s).
    + rewrite IH by (done || lia). reflexivity.
    + by destruct d.
Qed.

Lemma parse_value_dumps v : jwf v = true -> decodes v.
Proof.
  induction v as [v Hl Ho|l IH|d IH] using jval_nested_ind; intros Hwf n s Hn Hs.
  - destruct n as [|n]; [destruct v; cbn in Hn; lia|].
    destruct v as [| [] | z | f | | [] | t | l | d]; try done.
    + destruct (scan_pretty z) as [E1 E2]. apply (parse_number_value n _ s _ _ E1); [|done].
      cbn [number_value]. by rewrite E2.
    + apply (parse_number_value n _ s _ _ (float_scan f)); [|done]. cbn [number_value]. by rewrite float_of_repr.
    + cbn [jdumps]. rewrite json_str_cons. cbn [parse_value String.append]. rewrite Ascii.eqb_refl.
      rewrite str_app_assoc. cbn [String.append]. by rewrite scan_json_chars.
    + by destruct (Hl l).
    + by destruct (Ho d).
  - destruct n as [|n]; [cbn in Hn; lia|]. cbn [jfuel] in Hn. cbn [jwf] in Hwf.
    cbn [jdumps parse_value String.append].
    change (Ascii.eqb "[" dquote) with false. change (Ascii.eqb "[" "{") with false.
    change (Ascii.eqb "[" "[") with true. cbn match. rewrite str_app_assoc.
    destruct l as [|v l]; [done|].
    assert (Hw : skip_ws (commas (map jdumps (v :: l)) +:+ "]" +:+ s) = commas (map jdumps (v :: l)) +:+ "]" +:+ s).
    { destruct l; cbn [map commas]; rewrite ?str_app_assoc; apply skip_ws_dumps. }
    rewrite Hw, parse_elems_dumps; [|done| |lia].
    + replace (after "]" _) with (@None string); [done|].
      destruct (jdumps_start v) as (c & t & E & Hc). symmetry.
      destruct l; cbn [map commas]; rewrite E; cbn [String.append]; by apply after_close.
    + apply Forall_forall. intros x Hx. rewrite Forall_forall in IH. apply IH; [done|].
      rewrite forallb_forall in Hwf. apply Hwf. by apply list_elem_of_In.
  - destruct n as [|n]; [cbn in Hn; lia|]. cbn [jfuel] in Hn. cbn [jwf] in Hwf.
    apply andb_true_iff in Hwf as [Hnd Hwf]. apply bool_decide_eq_true in Hnd.
    cbn [jdumps parse_value String.append].
    change (Ascii.eqb "{" dquote) with false. change (Ascii.eqb "{" "{") with true. cbn match.
    rewrite str_app_assoc. change (map _ d) with (map dump_member d).
    destruct d as [|[k v] d]; [done|].
    assert (Hw : skip_ws (commas (map dump_member ((k, v) :: d)) +:+ "}" +:+ s) =
                 commas (map dump_member ((k, v) :: d)) +:+ "}" +:+ s) by (by destruct d).
    rewrite Hw, parse_members_dumps; [|done| |lia].
    + replace (after "}" _) with (@None string) by (by destruct d). cbn [mbind option_bind].
      rewrite dict_update_disjoint; [done|exact Hnd|]. intros k' _. apply not_elem_of_nil.
    + apply Forall_forall. intros x Hx. rewrite Forall_forall in IH. rewrite forallb_forall in Hwf.
      specialize (Hwf x ltac:(by apply list_elem_of_In)). apply andb_true_iff in Hwf as [? ?]. split; [done|].
      by apply IH.
Qed.

(** Fuel for as many calls as there are characters is enough. *)
Lemma commas_length l :
  l <> [] -> (String.length (commas l) + 2 = sum_list_with (fun x => 2 + String.length x) l)%nat.
Proof.
  induction l as [|x l IH]; [done|]. intros _. destruct l as [|y l].
  - cbn. lia.
  - change (commas (x :: y :: l)) with (x +:+ ", " +:+ commas (y :: l)).
    change (sum_list_with (fun x => (2 + String.length x)%nat) (x :: y :: l))
      with (2 + String.length x + sum_list_with (fun x => (2 + String.length x)%nat) (y :: l))%nat.
    rewrite <- IH by done. rewrite !str_length_app. cbn [String.length]. lia.
Qed.

Lemma sum_list_with_lt {A} (f g : A -> nat) l :
  l <> [] -> Forall (fun x => f x < g x)%nat l -> (sum_list_with f l < sum_list_with g l)%nat.
Proof.
  intros Hne. induction 1 as [|x l Hx Hl IH]; [done|]. cbn [sum_list_with].
  destruct l as [|y l]; [cbn; lia|]. specialize (IH ltac:(done)). lia.
Qed.

Lemma sum_list_with_map {A B} (f : B -> nat) (h : A -> B) l :
  sum_list_with f (map h l) = sum_list_with (fun x => f (h x)) l.
Proof. induction l; cbn; congruence. Qed.

Lemma jfuel_length v : (jfuel v <= String.length (jdumps v))%nat.
Proof.
  induction v as [v Hl Ho|l IH|d IH] using jval_nested_ind.
  - destruct (jdumps_start v) as (c & t & -> & _). destruct v; cbn; try lia; [by destruct (Hl l)|by destruct (Ho d)].
  - cbn [jfuel jdumps]. rewrite !str_length_app. cbn [String.length].
    destruct l as [|x l]; [cbn; lia|].
    pose proof (commas_length (map jdumps (x :: l)) ltac:(done)) as E. rewrite sum_list_with_map in E.
    assert (Hf : Forall (fun x => S (jfuel x) < 2 + String.length (jdumps x))%nat (x :: l))
      by (eapply Forall_impl; [exact IH|]; cbn; lia).
    apply sum_list_with_lt in Hf; [lia|done].
  - cbn [jfuel jdumps]. change (map _ d) with (map dump_member d). rewrite !str_length_app. cbn [String.length].
    destruct d as [|x d]; [cbn; lia|].
    pose proof (commas_length (map dump_member (x :: d)) ltac:(done)) as E. rewrite sum_list_with_map in E.
    assert (Hf : Forall (fun kv => S (jfuel kv.2) < 2 + String.length (dump_member kv))%nat (x :: d)).
    { eapply Forall_impl; [exact IH|]. intros [k v]. unfold dump_member. rewrite !str_length_app.
      cbn [fst snd String.length]. lia. }
    apply sum_list_with_lt in Hf; [lia|done].
Qed.

(** The round trip: what [json.dumps] writes, [json.loads] reads. *)
Lemma loads_dumps v : jwf v = true -> json_loads (jdumps v) = Ok v.
Proof.
  intros Hv. unfold json_loads. rewrite <- (str_app_nil_r (jdumps v)). rewrite skip_ws_dumps.
  rewrite parse_value_dumps; [done|done| |done]. rewrite str_app_nil_r. pose proof (jfuel_length v). lia.
Qed.

(** Also when the text ends with a line break. *)
Lemma loads_dumps_line v : jwf v = true -> json_loads (jdumps v +:+ String "010" "") = Ok v.
Proof.
  intros Hv. unfold json_loads. rewrite skip_ws_dumps.
  rewrite parse_value_dumps; [done|done| |done]. rewrite str_length_app. pose proof (jfuel_length v). lia.
Qed.

(** *** ASCII without control characters *)

Definition printable (c : ascii) : bool := (32 <=? byte c) && (byte c <? 128).

Definition number_char (c : ascii) : bool :=
  is_digit c || Ascii.eqb c "-" || Ascii.eqb c "+" || Ascii.eqb c "." || Ascii.eqb c "e" || Ascii.eqb c "E".

Lemma digits_chars a d r : digits a = (d, r) -> str_forall number_char d = true.
Proof.
  revert d r. unfold digits. induction a as [|c a IH]; intros d r; cbn [span]; [by intros [= <- <-]|].
  destruct (is_digit c) eqn:E; cbn [negb]; [|by intros [= <- <-]].
  destruct (span _ a) as [d0 r0]. intros [= <- <-]. cbn [str_forall]. unfold number_char at 1. rewrite E.
  by apply (IH d0 r0).
Qed.

Lemma scan_number_chars a l b r : scan_number a = Some (l, b, r) -> str_forall number_char l = true.
Proof.
  unfold scan_number. set (p := match a with String "-" r => _ | _ => _ end).
  assert (Hp : str_forall number_char p.1 = true)
    by (unfold p; destruct a as [|[[] [] [] [] [] [] [] []] a]; done).
  destruct p as [sg s1]. cbn in Hp.
  destruct (scan_int_part s1) as [[ip s2]|] eqn:E1; [|done]. cbn.
  assert (H1 : str_forall number_char ip = true).
  { unfold scan_int_part in E1. destruct s1 as [|c s1]; [done|]. destruct (Ascii.eqb c "0"); [by injection E1 as <- <-|].
    destruct (is_digit c); [|done]. injection E1 as E1. by eapply digits_chars. }
  destruct (scan_frac s2) as [fp s3] eqn:E2.
  assert (H2 : str_forall number_char fp = true).
  { unfold scan_frac in E2. destruct s2 as [|c s2]; [by injection E2 as <- <-|].
    destruct (decide (c = "."%char)) as [->|Hc].
    - destruct (digits s2) as [ds r'] eqn:E. apply digits_chars in E.
      destruct (String.eqb ds ""); injection E2 as <- <-; done.
    - replace fp with ""; [done|].
      destruct c as [[] [] [] [] [] [] [] []]; try (by injection E2 as <- <-); by destruct Hc. }
  destruct (scan_exp s3) as [ep s4] eqn:E3. intros [= <- <- <-].
  assert (H3 : str_forall number_char ep = true).
  { unfold scan_exp in E3. destruct s3 as [|m s3]; [by injection E3 as <- <-|].
    destruct (Ascii.eqb m "e" || Ascii.eqb m "E") eqn:Em; [|by injection E3 as <- <-].
    assert (Hm : number_char m = true) by (unfold number_char; destruct (Ascii.eqb m "e"), (Ascii.eqb m "E"), (is_digit m), (Ascii.eqb m "-"), (Ascii.eqb m "+"), (Ascii.eqb m "."); done).
    assert (Hx : forall sg r t e q, scan_exp_digits (String m "") sg r t = (e, q) ->
                 str_forall number_char sg = true -> str_forall number_char e = true).
    { intros sg' r' t e q. unfold scan_exp_digits. destruct (digits r') as [ds r''] eqn:E. apply digits_chars in E.
      destruct (String.eqb ds ""); intros [= <- <-] Hsg; [done|]. cbn [String.append str_forall].
      by rewrite Hm, str_forall_app, Hsg, E. }
    destruct s3 as [|c s3]; [by injection E3 as <- <-|].
    destruct (Ascii.eqb c "+" || Ascii.eqb c "-") eqn:Ec; [|by eapply Hx].
    eapply Hx; [exact E3|]. cbn [str_forall]. unfold number_char.
    by destruct (is_digit c), (Ascii.eqb c "-"), (Ascii.eqb c "+"). }
  by rewrite !str_forall_app, Hp, H1, H2, H3.
Qed.

Lemma number_char_line c : number_char c = true -> printable c = true.
Proof. destruct c as [[] [] [] [] [] [] [] []]; vm_compute; done. Qed.

Lemma scanned_one_line a b : scan_number a = Some (a, b, "") -> str_forall printable a = true.
Proof. intros H. eapply str_forall_impl; [apply number_char_line|]. by eapply scan_number_chars. Qed.

Lemma hex_digit_line n : printable (hex_digit n) = true.
Proof.
  unfold hex_digit. destruct (Z.to_nat n) as [|k]; [done|].
  do 15 (destruct k as [|k]; [done|]). by destruct k.
Qed.

Lemma u_escape_line n : str_forall printable (u_escape n) = true.
Proof. unfold u_escape. cbn [String.append str_forall]. by rewrite !hex_digit_line. Qed.

Lemma json_ascii_line c : (byte c <? 128) = true -> str_forall printable (json_ascii c) = true.
Proof.
  intros Hc.
  unfold json_ascii. destruct (byte c =? 34), (byte c =? 92), (byte c =? 10), (byte c =? 13), (byte c =? 9),
    (byte c =? 8), (byte c =? 12); try done.
  destruct (_ || _) eqn:E; [apply u_escape_line|]. cbn [str_forall]. unfold printable. lia.
Qed.

Lemma json_code_point_line n : str_forall printable (json_code_point n) = true.
Proof.
  unfold json_code_point. destruct (_ <? _); [apply u_escape_line|].
  by rewrite str_forall_app, !u_escape_line.
Qed.

Lemma json_chars_line t : str_forall printable (json_chars t) = true.
Proof.
  remember (String.length t) as k eqn:Hk. revert t Hk.
  induction (lt_wf k) as [k _ IH]. intros t ->.
  destruct t as [|a t1]; [done|]. cbn [json_chars].
  destruct (byte a <? 128) eqn:Ha.
  { rewrite str_forall_app, json_ascii_line by done. apply (IH (String.length t1)); simpl; done || lia. }
  destruct t1 as [|b t2]; [done|]. destruct (byte a <? 224).
  { rewrite str_forall_app, json_code_point_line. apply (IH (String.length t2)); simpl; done || lia. }
  destruct t2 as [|c t3]; [done|]. destruct (byte a <? 240).
  { rewrite str_forall_app, json_code_point_line. apply (IH (String.length t3)); simpl; done || lia. }
  destruct t3 as [|d t4]; [done|].
  rewrite str_forall_app, json_code_point_line. apply (IH (String.length t4)); simpl; done || lia.
Qed.

Lemma json_str_line t : str_forall printable (json_str t) = true.
Proof.
  rewrite json_str_cons. change (str_forall printable (json_chars t +:+ String dquote "") = true).
  by rewrite str_forall_app, json_chars_line.
Qed.

Lemma commas_line l : Forall (fun x => str_forall printable x = true) l -> str_forall printable (commas l) = true.
Proof.
  induction 1 as [|x l Hx Hl IH]; [done|]. destruct l as [|y l]; [done|].
  change (commas (x :: y :: l)) with (x +:+ ", " +:+ commas (y :: l)).
  by rewrite !str_forall_app, Hx, IH.
Qed.

Lemma jdumps_printable v : str_forall printable (jdumps v) = true.
Proof.
  induction v as [v Hl Ho|l IH|d IH] using jval_nested_ind.
  - destruct v as [| [] | z | f | | [] | t | l | d]; try done.
    + eapply scanned_one_line, (proj1 (scan_pretty z)).
    + eapply scanned_one_line, float_scan.
    + apply json_str_line.
    + by destruct (Hl l).
    + by destruct (Ho d).
  - cbn [jdumps]. rewrite !str_forall_app, commas_line; [done|]. by apply Forall_fmap.
  - cbn [jdumps]. change (map _ d) with (map dump_member d). rewrite !str_forall_app, commas_line; [done|].
    apply Forall_fmap. eapply Forall_impl; [exact IH|]. intros [k v] Hv. change (str_forall printable (json_str k +:+ ": " +:+ jdumps v) = true). cbn [snd] in Hv.
    by rewrite !str_forall_app, json_str_line, Hv.
Qed.

Lemma printable_no_char c s : byte c < 32 -> str_forall printable s = true -> no_char c s = true.
Proof.
  intros Hc. apply str_forall_impl. intros x. unfold printable.
  destruct (Ascii.eqb_spec x c) as [->|_]; [lia|done].
Qed.

(** A dumped value takes one line. *)
Lemma jdumps_one_line v : no_char "010" (jdumps v) = true /\ no_char "013" (jdumps v) = true.
Proof. split; apply printable_no_char; done || apply jdumps_printable. Qed.

(** *** The decoder's fuel *)

Lemma skip_ws_length s : (String.length (skip_ws s) <= String.length s)%nat.
Proof. unfold skip_ws. induction s as [|c s IH]; [done|]. cbn [lstrip_by]. destruct (is_json_space c); simpl; lia. Qed.

Lemma after_length c s r : after c s = Some r -> (String.length r < String.length s)%nat.
Proof. destruct s as [|c' s]; [done|]. cbn [after]. destruct (Ascii.eqb c' c); [|done]. intros [= <-]. simpl. lia. Qed.

Lemma push_length t r u q n :
  push t r = Some (u, q) -> (forall u' q', r = Some (u', q') -> (String.length q' < n)%nat) -> (String.length q < n)%nat.
Proof. destruct r as [[u' q']|]; [|done]. intros [= <- <-] H. by eapply H. Qed.

Lemma scan_string_length s t r : scan_string s = Some (t, r) -> (String.length r < String.length s)%nat.
Proof.
  remember (String.length s) as k eqn:Hk. revert s Hk t r.
  induction (lt_wf k) as [k _ IH]. intros s -> t r.
  assert (Hpush : forall p u r', push p (scan_string u) = Some (t, r') -> (String.length u < String.length s)%nat ->
                  (String.length r' < String.length s)%nat).
  { intros p u r' Hp Hu. eapply push_length; [exact Hp|]. intros u' q' E.
    pose proof (IH (String.length u) Hu u eq_refl _ _ E). lia. }
  destruct s as [|c s1]; [done|]. cbn [scan_string].
  destruct (Ascii.eqb c dquote); [intros [= <- <-]; simpl; lia|].
  destruct (Ascii.eqb c backslash).
  - destruct s1 as [|e s2]; [done|]. destruct (Ascii.eqb e "u").
    + destruct s2 as [|a [|b [|x [|y r0]]]]; try done.
      destruct (hex4 a b x y) as [n|]; [|done]. cbn [mbind option_bind].
      destruct r0 as [|e1 [|e2 [|a2 [|b2 [|x2 [|y2 r2]]]]]];
        try (intros E; eapply Hpush; [exact E|simpl; lia]).
      destruct (_ && _); [|intros E; eapply Hpush; [exact E|simpl; lia]].
      destruct (hex4 a2 b2 x2 y2) as [n2|]; [|done].
      destruct (is_low_surrogate n2); intros E; (eapply Hpush; [exact E|simpl; lia]).
    + destruct (simple_escape e); [|done]. cbn [mbind option_bind]. intros E. eapply Hpush; [exact E|simpl; lia].
  - destruct (byte c <? 32); [done|]. intros E. eapply Hpush; [exact E|simpl; lia].
Qed.

Lemma scan_number_length s l b r : scan_number s = Some (l, b, r) -> (String.length r < String.length s)%nat.
Proof.
  intros H. destruct (scan_number_stop _ "" _ _ _ eq_refl H) as [_ E].
  destruct l as [|c l]; [|rewrite E, str_length_app; simpl; lia].
  exfalso. unfold scan_number in H. set (p := match s with String "-" r => _ | _ => _ end) in H.
  destruct p as [sg s1]. destruct (scan_int_part s1) as [[ip s2]|] eqn:E1; [|done]. cbn in H.
  destruct (scan_frac s2) as [fp s3], (scan_exp s3) as [ep s4]. injection H as H _ _.
  destruct sg; [|done]. cbn in H. destruct ip; [|done].
  unfold scan_int_part in E1. destruct s1 as [|c s1]; [done|]. destruct (Ascii.eqb c "0"); [done|].
  destruct (is_digit c) eqn:Ed; [|done]. injection E1 as E1. unfold digits in E1. cbn [span] in E1.
  rewrite Ed in E1. cbn [negb] in E1. by destruct (span _ s1).
Qed.

Lemma scan_constant_length s v r : scan_constant s = Some (v, r) -> (String.length r < String.length s)%nat.
Proof.
  assert (Hlit : forall p v', startswith p s = true -> (0 < String.length p)%nat ->
            Some (v', str_drop (String.length p) s) = Some (v, r) -> (String.length r < String.length s)%nat).
  { intros p v' Hp Hl [= _ <-]. apply startswith_length in Hp. rewrite str_drop_length. lia. }
  unfold scan_constant.
  destruct (startswith "null" s) eqn:H1; [apply (Hlit _ _ H1); simpl; lia|].
  destruct (startswith "true" s) eqn:H2; [apply (Hlit _ _ H2); simpl; lia|].
  destruct (startswith "false" s) eqn:H3; [apply (Hlit _ _ H3); simpl; lia|].
  destruct (scan_number s) as [[[l b] q]|] eqn:H4.
  { destruct (number_value l b); [|done]. cbn. intros [= <- <-]. by eapply scan_number_length. }
  destruct (startswith "NaN" s) eqn:H5; [apply (Hlit _ _ H5); simpl; lia|].
  destruct (startswith "Infinity" s) eqn:H6; [apply (Hlit _ _ H6); simpl; lia|].
  destruct (startswith "-Infinity" s) eqn:H7; [apply (Hlit _ _ H7); simpl; lia|done].
Qed.

(** What is decoded is consumed. *)
Definition shorter {A} (s : string) (o : option (A * string)) : Prop :=
  forall a r, o = Some (a, r) -> (String.length r < String.length s)%nat.

Lemma parse_length n s :
  shorter s (parse_value n s) /\ shorter s (parse_elems n s) /\ shorter s (parse_members n s).
Proof.
  revert s. induction n as [|n IH]; intros s; [by repeat split|].
  assert (Hskip : forall t, (String.length (skip_ws t) <= String.length t)%nat) by apply skip_ws_length.
  split_and!; intros a r; [destruct s as [|c s]; [done|]|..]; cbn [parse_value parse_elems parse_members].
  - destruct (Ascii.eqb c dquote).
    { destruct (scan_string s) as [[t q]|] eqn:E; [|done]. cbn. intros [= <- <-]. apply scan_string_length in E. lia. }
    specialize (Hskip s).
    destruct (Ascii.eqb c "{").
    { destruct (after "}" (skip_ws s)) eqn:E; [intros [= <- <-]; apply after_length in E; simpl; lia|].
      destruct (parse_members n (skip_ws s)) as [[p q]|] eqn:E2; [|done]. cbn. intros [= <- <-].
      apply (IH (skip_ws s)) in E2. simpl. lia. }
    destruct (Ascii.eqb c "[").
    { destruct (after "]" (skip_ws s)) eqn:E; [intros [= <- <-]; apply after_length in E; simpl; lia|].
      destruct (parse_elems n (skip_ws s)) as [[p q]|] eqn:E2; [|done]. cbn. intros [= <- <-].
      apply (IH (skip_ws s)) in E2. simpl. lia. }
    apply scan_constant_length.
  - destruct (parse_value n s) as [[v q]|] eqn:E; [|done]. cbn. apply (IH s) in E. pose proof (Hskip q).
    destruct (after "]" (skip_ws q)) eqn:E2; [intros [= <- <-]; apply after_length in E2; lia|].
    destruct (after "," (skip_ws q)) as [q'|] eqn:E3; [|done]. cbn. apply after_length in E3. pose proof (Hskip q').
    destruct (parse_elems n (skip_ws q')) as [[l q'']|] eqn:E4; [|done]. cbn. intros [= <- <-].
    apply (IH (skip_ws q')) in E4. lia.
  - destruct (after dquote s) as [s'|] eqn:E0; [|done]. cbn. apply after_length in E0.
    destruct (scan_string s') as [[k q0]|] eqn:E1; [|done]. cbn. apply scan_string_length in E1. pose proof (Hskip q0).
    destruct (after ":" (skip_ws q0)) as [q1|] eqn:E2; [|done]. cbn. apply after_length in E2. pose proof (Hskip q1).
    destruct (parse_value n (skip_ws q1)) as [[v q]|] eqn:E; [|done]. cbn. apply (IH (skip_ws q1)) in E. pose proof (Hskip q).
    destruct (after "}" (skip_ws q)) eqn:E5; [intros [= <- <-]; apply after_length in E5; lia|].
    destruct (after "," (skip_ws q)) as [q'|] eqn:E3; [|done]. cbn. apply after_length in E3. pose proof (Hskip q').
    destruct (parse_members n (skip_ws q')) as [[l q'']|] eqn:E4; [|done]. cbn. intros [= <- <-].
    apply (IH (skip_ws q')) in E4. lia.
Qed.

Lemma parse_elems_S n s :
  parse_elems (S n) s =
  ('(v, r) ← parse_value n s;
   match after "]" (skip_ws r) with
   | Some r' => Some ([v], r')
   | None => r' ← after "," (skip_ws r); '(l, r'') ← parse_elems n (skip_ws r'); Some (v :: l, r'')
   end).
Proof. reflexivity. Qed.

(** Any fuel above twice the number of characters gives the same result. *)
Lemma parse_fuel n m s :
  (2 * String.length s < n)%nat -> (2 * String.length s < m)%nat ->
  parse_value n s = parse_value m s /\ parse_elems (S n) s = parse_elems (S m) s /\ parse_members n s = parse_members m s.
Proof.
  assert (Hskip : forall t, (String.length (skip_ws t) <= String.length t)%nat) by apply skip_ws_length.
  remember (String.length s) as k eqn:Hk. revert s Hk n m.
  induction (lt_wf k) as [k _ IH]. intros s -> n m Hn Hm.
  destruct n as [|n], m as [|m]; [lia..|].
  assert (IHv : forall t, (String.length t < String.length s)%nat -> parse_value n t = parse_value m t)
    by (intros t Ht; apply (IH _ Ht t eq_refl); lia).
  assert (IHm : forall t, (String.length t < String.length s)%nat -> parse_members n t = parse_members m t)
    by (intros t Ht; apply (IH _ Ht t eq_refl); lia).
  assert (IHe : forall t, (String.length t < String.length s)%nat ->
                parse_elems n t = parse_elems m t /\ parse_elems (S n) t = parse_elems (S m) t).
  { intros t Ht. destruct n as [|n], m as [|m]; [lia..|]. split; apply (IH _ Ht t eq_refl); lia. }
  assert (Hv : parse_value (S n) s = parse_value (S m) s).
  { destruct s as [|c s]; [done|]. cbn [parse_value]. pose proof (Hskip s).
    rewrite IHm by (simpl; lia). by rewrite (proj1 (IHe (skip_ws s) ltac:(simpl; lia))). }
  split_and!; [exact Hv| |].
  - rewrite (parse_elems_S (S n)), (parse_elems_S (S m)), Hv. destruct (parse_value (S m) s) as [[v r]|] eqn:E; [|done].
    apply (parse_length (S m) s) in E. cbn [mbind option_bind]. destruct (after "]" (skip_ws r)); [done|].
    destruct (after "," (skip_ws r)) as [r'|] eqn:E2; [|done]. apply after_length in E2.
    cbn [mbind option_bind]. pose proof (Hskip r). pose proof (Hskip r').
    by rewrite (proj2 (IHe (skip_ws r') ltac:(lia))).
  - cbn [parse_members]. destruct (after dquote s) as [s'|] eqn:E0; [|done]. apply after_length in E0.
    cbn [mbind option_bind]. destruct (scan_string s') as [[k' q0]|] eqn:E1; [|done]. apply scan_string_length in E1.
    pose proof (Hskip q0). cbn [mbind option_bind].
    destruct (after ":" (skip_ws q0)) as [q1|] eqn:E2; [|done]. apply after_length in E2. pose proof (Hskip q1).
    cbn [mbind option_bind]. rewrite IHv by lia.
    destruct (parse_value m (skip_ws q1)) as [[v q]|] eqn:E; [|done]. apply (parse_length m) in E. pose proof (Hskip q).
    cbn [mbind option_bind]. destruct (after "}" (skip_ws q)); [done|].
    destruct (after "," (skip_ws q)) as [q'|] eqn:E3; [|done]. apply after_length in E3. pose proof (Hskip q').
    cbn [mbind option_bind]. by rewrite IHm by lia.
Qed.

Lemma parse_value_fuel n m s :
  (2 * String.length s < n)%nat -> (2 * String.length s < m)%nat -> parse_value n s = parse_value m s.
Proof. intros Hn Hm. by apply parse_fuel. Qed.
End Roundtrip.

(** ASCII texts are valid UTF-8. *)
Lemma ascii_utf8 s : str_forall (fun c => byte c <? 128) s = true -> utf8_valid s = true.
Proof.
  induction s as [|c s IH]; [done|]. cbn [str_forall utf8_valid]. intros H.
  apply andb_true_iff in H as [-> H]. by apply IH.
Qed.

(** The two printers agree on parsed documents. *)
Lemma json_dumps_jval `{PyFloat} v : json_dumps v = jdumps (jval_of_pyval v).
Proof.
  revert v. fix IH 1. intros [|[]| | |l|d]; try reflexivity.
  - cbn [json_dumps jdumps jval_of_pyval]. f_equal. f_equal.
    induction l as [|x l IHl]; [done|]. destruct l as [|y l].
    + cbn. by rewrite IH, !str_app_nil_r.
    + cbn [map commas]. rewrite <- IH. cbn in IHl |- *. rewrite IHl. reflexivity.
  - cbn [json_dumps jdumps jval_of_pyval]. f_equal. f_equal.
    induction d as [|[k x] d IHd]; [done|]. destruct d as [|[k' y] d].
    + cbn. by rewrite IH, !str_app_nil_r.
    + cbn in IHd |- *. rewrite <- IH. by rewrite IHd, !str_app_assoc.
Qed.
