(* ===== verification/CloudWatch.v ===== *)
(** * The CloudWatch exporter (cloudwatch-exporter/src/cloudwatch_exporter/cloudwatch_exporter.py)

    The service that reads the metrics of the benchmarks from Kafka and puts them
    into CloudWatch, and keeps a dashboard with one widget for each metric.
    CloudWatch itself is behind the class [CloudWatch]; what the dashboards rely
    on are the laws of [DashboardStore]. *)

From S2P Require Import Prelude PyStr PyLib Json.

#[local] Arguments String.append !_ _ /.

Definition CLOUDWATCH_MAX_DIMENSIONS : nat := 10.
Definition NOT_EXPORTED_LABELS : list string := ["action-id"; "parent-action-id"; "client-id"; "dashboard-name"; "region"].
Definition NAMESPACE : string := "ANUBIS/METRICS".
Definition DEFAULT_REGION : string := "us-east-1".

(** A message of the metrics topic. *)
Record MetricsMessage `{PyFloat} := mkMetrics {
  me_name : string;
  me_value : jval;
  me_timestamp : Z;
  me_labels : option (dict string string)
}.

(** One entry of [MetricData]. *)
Record MetricDatum `{PyFloat} := mkDatum {
  md_name : string;
  md_dimensions : list (string * string);
  md_unit : string;
  md_value : pyfloat;
  md_timestamp : Z;
  md_resolution : Z
}.

(** The calls of boto3's client, on a state [X]. *)
Class CloudWatch `{PyFloat} (X : Type) : Type := {
  put_metric_data : string -> list MetricDatum -> M X unit;
  list_dashboards : M X (list string);
  get_dashboard : string -> M X string;
  put_dashboard : string -> string -> M X string
}.

Definition exported (kv : string * string) : bool := negb (bool_decide (kv.1 ∈ NOT_EXPORTED_LABELS)).

Definition label_of (labels : dict string string) (k : string) : Res string :=
  match dict_get labels k with Some v => Ok v | None => Raise (KeyError k) end.

Section Exporter.
Context `{CloudWatch X}.

(** [create_dashboard_metric]. *)
Definition create_dashboard_metric (labels : dict string string) (metric_name : string) : list string :=
  ([NAMESPACE; metric_name] ++ concat (map (fun kv => [kv.1; kv.2]) (List.filter exported labels)))%list.

Definition jstr_list (l : list string) : jval := JList (map JStr l).

(** The widget of a metric. *)
Definition metric_widget (metric : list string) (region title : string) : jval :=
  JObj [("type", JStr "metric");
        ("properties", JObj [("metrics", JList [jstr_list metric]); ("region", JStr region);
                             ("title", JStr title); ("period", JInt 86400)])].

(** [create_dashboard]. *)
Definition create_dashboard (labels : dict string string) (metric_name : string) : M X unit :=
  region <- lift (label_of labels "region") ;;
  title <- lift (label_of labels "task_name") ;;
  name <- lift (label_of labels "dashboard-name") ;;
  _ <- put_dashboard name
         (jdumps (JObj [("widgets", JList [metric_widget (create_dashboard_metric labels metric_name) region title])])) ;;
  ret tt.

(** [v == metric] for a list of strings [metric]. *)
Fixpoint all_strs (l : list jval) (metric : list string) : bool :=
  match l, metric with
  | [], [] => true
  | JStr s :: l', m :: metric' => String.eqb s m && all_strs l' metric'
  | _, _ => false
  end.

Definition is_metric (v : jval) (metric : list string) : bool :=
  match v with JList l => all_strs l metric | _ => false end.

(** Does the widget show the metric?  The properties of a widget are an
    object. *)
Definition shows_metric (widget : jval) (metric : list string) : Res bool :=
  properties <~ jget widget "properties" ;;
  match properties with
  | JObj d =>
      match dict_get d "metrics" with
      | Some ms => x <~ jfirst ms ;; Ok (is_metric x metric)
      | None => Ok false
      end
  | _ => Raise (TypeError "argument is not iterable")
  end.

(** The loop over the widgets: the first one that shows the metric ends it. *)
Fixpoint any_shows (widgets : list jval) (metric : list string) : Res bool :=
  match widgets with
  | [] => Ok false
  | w :: ws => b <~ shows_metric w metric ;; if (b : bool) then Ok true else any_shows ws metric
  end.

(** [update_dashboard]. *)
Definition update_dashboard (labels : dict string string) (metric_name : string) : M X unit :=
  name <- lift (label_of labels "dashboard-name") ;;
  body <- get_dashboard name ;;
  dashboard_body <- lift (json_loads body) ;;
  let metric := create_dashboard_metric labels metric_name in
  widgets <- lift (jget dashboard_body "widgets") ;;
  match dashboard_body, widgets with
  | JObj d, JList ws =>
      found <- lift (any_shows ws metric) ;;
      if (found : bool) then ret tt
      else
        region <- lift (label_of labels "region") ;;
        title <- lift (label_of labels "task_name") ;;
        _ <- put_dashboard name
               (jdumps (JObj (dict_set d "widgets" (JList (ws ++ [metric_widget metric region title])%list)))) ;;
        ret tt
  | _, _ => raise (TypeError "object is not iterable")
  end.

(** [check_dashboard]. *)
Definition check_dashboard (labels : dict string string) (metric_name : string) : M X unit :=
  match dict_get labels "dashboard-name" with
  | None => ret tt
  | Some name =>
      existing_dashboards <- list_dashboards ;;
      if bool_decide (name ∈ existing_dashboards) then update_dashboard labels metric_name
      else create_dashboard labels metric_name
  end.

(** [float(v)] of a metric's value. *)
Context (float_of : jval -> Res pyfloat).

(** The dimensions of a metric: its exported labels, at most ten of them. *)
Definition metric_dimensions (labels : dict string string) : list (string * string) :=
  let dimensions := List.filter exported labels in
  if (CLOUDWATCH_MAX_DIMENSIONS <? length dimensions)%nat then take 10 dimensions else dimensions.

(** The labels with their region. *)
Definition with_region (labels : dict string string) : dict string string :=
  if dict_mem "region" labels then labels else dict_set labels "region" DEFAULT_REGION.

(** [CloudWatchExporterHandler.handle_event]. *)
Definition export_event (event : MetricsMessage) : M X unit :=
  labels <- lift (match me_labels event with
                  | Some labels => Ok labels
                  | None => Raise (AttributeError "'NoneType' object has no attribute 'items'")
                  end) ;;
  value <- lift (float_of (me_value event)) ;;
  put_metric_data NAMESPACE
    [mkDatum _ (me_name event) (metric_dimensions labels) "None" value (me_timestamp event) 1] ;;
  check_dashboard (with_region labels) (me_name event).
End Exporter.

(** ** The dashboards *)

(** One call of [list_dashboards] returns at most this many names. *)
Definition LISTED_AT_ONCE : nat := 1000.

(** What CloudWatch promises: the dashboards are kept by name.  Each of the
    three calls may fail, for a name or a body that is refused, for too many
    calls or for the network.  One listing has names of dashboards that are
    there, and all of them when they fit into one answer; a dashboard is read as
    it was put; a put replaces the named dashboard and no other, and one that
    fails may have done so or not. *)
Class DashboardStore `{CloudWatch X} : Type := {
  dashboards : X -> dict string string;
  list_dashboards_law : forall x r x', list_dashboards x = (r, x') -> dashboards x' = dashboards x /\
    forall l, r = Ok l ->
      (forall n, n ∈ l -> is_Some (dict_get (dashboards x) n)) /\
      ((length (dashboards x) <= LISTED_AT_ONCE)%nat -> forall n, is_Some (dict_get (dashboards x) n) -> n ∈ l);
  get_dashboard_law : forall n x r x', get_dashboard n x = (r, x') -> dashboards x' = dashboards x /\
    forall body, r = Ok body -> dict_get (dashboards x) n = Some body;
  put_dashboard_law : forall n body x r x', put_dashboard n body x = (r, x') ->
    dashboards x' = dict_set (dashboards x) n body \/ is_ok r = false /\ dashboards x' = dashboards x
}.

(** A dashboard that the exporter can keep: an object with a list of widgets,
    each of which can be asked for its metric, of texts. *)
Definition good_body `{PyFloat} (body : string) : Prop :=
  exists d ws, json_loads body = Ok (JObj d) /\ jwf (JObj d) = true /\ dict_get d "widgets" = Some (JList ws) /\
    forall metric, is_ok (any_shows ws metric) = true.

Definition labels_text (labels : dict string string) : Prop :=
  Forall (fun kv => utf8_valid kv.1 = true /\ utf8_valid kv.2 = true) labels.

Section Dashboards.
Context {F : PyFloat} {X : Type} {C : CloudWatch X} {S : DashboardStore}.

Lemma jwf_obj_set (d : list (string * jval)) k v :
  jwf (JObj d) = true -> utf8_valid k = true -> jwf v = true -> jwf (JObj (dict_set d k v)) = true.
Proof.
  cbn [jwf]. intros H Hk Hv. apply andb_true_iff in H as [Hnd H]. apply bool_decide_eq_true in Hnd.
  apply andb_true_iff. split; [apply bool_decide_eq_true; by apply dict_set_wf|].
  clear Hnd. induction d as [|[k' v'] d IH]; cbn [dict_set forallb fst snd] in *.
  - by rewrite Hk, Hv.
  - apply andb_true_iff in H as [H1 H2]. destruct (decide (k = k')) as [->|]; cbn [forallb fst snd].
    + apply andb_true_iff in H1 as [H1 _]. by rewrite H1, Hv, H2.
    + rewrite H1. by apply IH.
Qed.

Lemma jwf_obj_get (d : list (string * jval)) k v : jwf (JObj d) = true -> dict_get d k = Some v -> jwf v = true.
Proof.
  cbn [jwf]. intros H Hk. apply andb_true_iff in H as [_ H]. rewrite forallb_forall in H.
  apply dict_get_Some_in, list_elem_of_In in Hk. specialize (H _ Hk). by apply andb_true_iff in H as [_ H].
Qed.

Lemma jwf_strs l : Forall (fun s => utf8_valid s = true) l -> jwf (jstr_list l) = true.
Proof. intros Hl. unfold jstr_list. cbn [jwf]. induction Hl as [|s l Hs Hl IH]; cbn; [done|]. by rewrite Hs, IH. Qed.

Lemma dashboard_metric_text labels m :
  labels_text labels -> utf8_valid m = true -> Forall (fun s => utf8_valid s = true) (create_dashboard_metric labels m).
Proof.
  intros Hl Hm. unfold create_dashboard_metric. apply Forall_app. split; [by repeat constructor|].
  apply Forall_concat, Forall_fmap, Forall_forall. intros kv Hkv.
  apply elem_of_list_filter_b in Hkv as [Hkv _]. unfold labels_text in Hl. rewrite Forall_forall in Hl.
  destruct (Hl _ Hkv). cbn. by repeat constructor.
Qed.

Lemma metric_widget_wf metric region title :
  Forall (fun s => utf8_valid s = true) metric -> utf8_valid region = true -> utf8_valid title = true ->
  jwf (metric_widget metric region title) = true.
Proof.
  intros Hm Hr Ht. pose proof (jwf_strs metric Hm) as Hs. unfold metric_widget. cbn [jwf forallb fst snd].
  rewrite Hs, Hr, Ht. reflexivity.
Qed.

Lemma jwf_new_dashboard w : jwf w = true -> jwf (JObj [("widgets", JList [w])]) = true.
Proof. intros Hw. cbn [jwf forallb fst snd]. by rewrite Hw. Qed.

Lemma all_strs_refl l : all_strs (map JStr l) l = true.
Proof. induction l as [|s l IH]; [done|]. cbn. by rewrite String.eqb_refl. Qed.

Lemma shows_widget metric region title metric' :
  shows_metric (metric_widget metric region title) metric' = Ok (all_strs (map JStr metric) metric').
Proof. done. Qed.

Lemma shows_own_metric metric region title : shows_metric (metric_widget metric region title) metric = Ok true.
Proof. change (Ok (all_strs (map JStr metric) metric) = Ok true). by rewrite all_strs_refl. Qed.

Lemma any_shows_app ws ws' metric :
  any_shows (ws ++ ws')%list metric =
  (b <~ any_shows ws metric ;; if (b : bool) then Ok true else any_shows ws' metric).
Proof.
  induction ws as [|w ws IH]; [done|]. cbn [app any_shows]. destruct (shows_metric w metric) as [[]|e]; cbn; [done| |done].
  exact IH.
Qed.

Lemma label_text labels k v : labels_text labels -> label_of labels k = Ok v -> utf8_valid v = true.
Proof.
  unfold label_of. intros Hl. destruct (dict_get labels k) as [v'|] eqn:E; [|done]. intros [= <-].
  apply dict_get_Some_in in E. unfold labels_text in Hl. rewrite Forall_forall in Hl. by apply (Hl _ E).
Qed.

(** The widgets of a dashboard. *)
Definition widgets_of (x : X) (name : string) : list jval :=
  match dict_get (dashboards x) name with
  | Some body => match json_loads body with
                 | Ok (JObj d) => match dict_get d "widgets" with Some (JList ws) => ws | _ => [] end
                 | _ => []
                 end
  | None => []
  end.

(** An exception of CloudWatch. *)
Definition cloudwatch_error (e : exn) : Prop :=
  (exists x, (list_dashboards x).1 = Raise e) \/ (exists n x, (get_dashboard n x).1 = Raise e) \/
  (exists n body x, (put_dashboard n body x).1 = Raise e).

Lemma widgets_of_same x x' name : dashboards x' = dashboards x -> widgets_of x' name = widgets_of x name.
Proof. intros E. unfold widgets_of. by rewrite E. Qed.

(** What the exporter wants of a call: [ws] are the widgets that the named
    dashboard had in [x], and [w] is the one of the metric. *)
Record kept (name : string) (metric : list string) (ws : list jval) (w : jval) (x : X) (r : Res unit) (x1 : X) : Prop := {
  kept_others : forall n, n <> name -> dict_get (dashboards x1) n = dict_get (dashboards x) n;
  kept_named : dashboards x1 = dashboards x \/ any_shows ws metric = Ok false /\ widgets_of x1 name = (ws ++ [w])%list;
  kept_shown : forall u, r = Ok u ->
    any_shows (widgets_of x1 name) metric = Ok true /\ (any_shows ws metric = Ok true -> dashboards x1 = dashboards x);
  kept_good : forall u, r = Ok u -> exists body, dict_get (dashboards x1) name = Some body /\ good_body body;
  kept_error : forall e, r = Raise e -> cloudwatch_error e
}.

(** A call that fails before the put. *)
Lemma kept_failed name metric ws w x e x1 :
  dashboards x1 = dashboards x -> cloudwatch_error e -> kept name metric ws w x (Raise e) x1.
Proof. intros E He. constructor; try done; [by rewrite E|by left|by intros ? [= <-]]. Qed.

(** A put of the widgets [ws] and the one of the metric. *)
Lemma put_kept labels m name region title x x0 d ws r x1 (metric := create_dashboard_metric labels m)
    (w := metric_widget metric region title) :
  dashboards x0 = dashboards x -> widgets_of x name = ws ->
  jwf (JObj d) = true -> dict_get d "widgets" = Some (JList (ws ++ [w])%list) ->
  any_shows ws metric = Ok false -> (forall metric', is_ok (any_shows ws metric') = true) ->
  (_ <- put_dashboard name (jdumps (JObj d)) ;; ret tt) x0 = (r, x1) -> kept name metric ws w x r x1.
Proof.
  intros E0 Hws Hd Hdw Hno Hok. unfold bind. destruct (put_dashboard name _ x0) as [[u|e] x2] eqn:Hp; intros [= <- <-];
    destruct (put_dashboard_law _ _ _ _ _ Hp) as [Hx|[Hr Hx]]; rewrite E0 in Hx; try done.
  all: try (assert (Hnew : widgets_of x2 name = (ws ++ [w])%list)
    by (unfold widgets_of; by rewrite Hx, dict_get_set_eq, loads_dumps, Hdw by done)).
  - constructor; try done.
    + intros n Hn. rewrite Hx. apply dict_get_set_ne. congruence.
    + by right.
    + intros _ _. rewrite Hnew, any_shows_app, Hno. cbn [res_bind any_shows]. unfold w. rewrite shows_own_metric. by split.
    + intros _ _. eexists. rewrite Hx, dict_get_set_eq. split; [done|]. exists d, (ws ++ [w])%list. split_and!; [by apply loads_dumps|done|done|].
      intros metric'. specialize (Hok metric'). rewrite any_shows_app. destruct (any_shows ws metric') as [[]|]; [done| |done].
      cbn [res_bind any_shows]. unfold w. rewrite shows_widget. by destruct (all_strs (map JStr metric) metric').
  - constructor; try done.
    + intros n Hn. rewrite Hx. apply dict_get_set_ne. congruence.
    + by right.
    + intros e' [= <-]. right; right. exists name, (jdumps (JObj d)), x0. by rewrite Hp.
  - apply kept_failed; [done|]. right; right. exists name, (jdumps (JObj d)), x0. by rewrite Hp.
Qed.

Section Kept.
Context (labels : dict string string) (m name region title : string).
Context (Hname : dict_get labels "dashboard-name" = Some name).
Context (Hregion : dict_get labels "region" = Some region) (Htitle : dict_get labels "task_name" = Some title).
Context (Htext : labels_text labels) (Hm : utf8_valid m = true).
Let metric := create_dashboard_metric labels m.
Let w := metric_widget metric region title.

Lemma own_widget_wf : jwf w = true.
Proof using All.
  apply metric_widget_wf; [by apply dashboard_metric_text| |].
  - apply (label_text labels "region"); [done|by unfold label_of; rewrite Hregion].
  - apply (label_text labels "task_name"); [done|by unfold label_of; rewrite Htitle].
Qed.

Lemma create_kept x x0 r x1 :
  dashboards x0 = dashboards x -> dict_get (dashboards x) name = None ->
  create_dashboard labels m x0 = (r, x1) -> kept name metric (widgets_of x name) w x r x1.
Proof using All.
  intros E0 Hno. assert (Hws : widgets_of x name = []) by (unfold widgets_of; by rewrite Hno). rewrite Hws.
  unfold create_dashboard, label_of. rewrite Hregion, Htitle, Hname, !bind_lift_ok.
  apply put_kept; try done. apply jwf_new_dashboard, own_widget_wf.
Qed.

Lemma update_kept x x0 r x1 body :
  dashboards x0 = dashboards x -> dict_get (dashboards x) name = Some body -> good_body body ->
  update_dashboard labels m x0 = (r, x1) -> kept name metric (widgets_of x name) w x r x1.
Proof using All.
  intros E0 Hbody Hgood. pose proof Hgood as (d & ws & Hb & Hd & Hdw & Hok).
  assert (Hws : widgets_of x name = ws) by (unfold widgets_of; by rewrite Hbody, Hb, Hdw). rewrite Hws.
  unfold update_dashboard, label_of. rewrite Hname, bind_lift_ok. unfold bind at 1.
  destruct (get_dashboard name x0) as [[body'|e] x2] eqn:Eg; destruct (get_dashboard_law _ _ _ _ Eg) as [Hx2 Hbody'].
  2:{ intros [= <- <-]. apply kept_failed; [congruence|]. right; left. exists name, x0. by rewrite Eg. }
  specialize (Hbody' body' eq_refl). assert (body' = body) as -> by congruence.
  rewrite Hb, bind_lift_ok. cbn [jget]. rewrite Hdw, bind_lift_ok. fold metric. pose proof (Hok metric) as Hokm.
  destruct (any_shows ws metric) as [[]|] eqn:Es; [| |done]; rewrite bind_lift_ok.
  - intros [= <- <-]. assert (E2 : dashboards x2 = dashboards x) by congruence.
    constructor; try done; [by rewrite E2|by left| |]; intros _ _.
    + split; [|done]. by rewrite (widgets_of_same x), Hws.
    + exists body. by rewrite E2.
  - rewrite Hregion, Htitle, !bind_lift_ok. apply put_kept; try done; [congruence| |by rewrite dict_get_set_eq].
    apply jwf_obj_set; [done|done|]. pose proof (jwf_obj_get _ _ _ Hd Hdw) as Hl'. cbn [jwf] in Hl' |- *.
    rewrite forallb_app, Hl'. cbn [forallb]. fold w. by rewrite own_widget_wf.
Qed.

Lemma check_kept x r x1 :
  (forall body, dict_get (dashboards x) name = Some body -> good_body body) ->
  (length (dashboards x) <= LISTED_AT_ONCE)%nat ->
  check_dashboard labels m x = (r, x1) -> kept name metric (widgets_of x name) w x r x1.
Proof using All.
  intros Hgood Hfew. unfold check_dashboard. rewrite Hname. unfold bind at 1.
  destruct (list_dashboards x) as [[l|e] x0] eqn:El; destruct (list_dashboards_law _ _ _ El) as [E0 Hl].
  2:{ intros [= <- <-]. apply kept_failed; [done|]. left. exists x. by rewrite El. }
  destruct (Hl l eq_refl) as [Hin Hall]. case_bool_decide as Hn.
  - destruct (Hin name Hn) as [body Hbody]. apply (update_kept x x0 r x1 body); auto.
  - apply create_kept; [done|]. destruct (dict_get (dashboards x) name) eqn:E; [|done].
    exfalso. apply Hn, Hall; [done|by rewrite E].
Qed.
End Kept.

(** C23: keeping the dashboard.  While all the dashboards fit into one listing,
    a call of [check_dashboard] leaves the others alone, and either leaves the
    named one as it is or adds the metric's widget to the end of its widgets,
    making the dashboard when it is missing.  When the call returns, the
    dashboard shows the metric, and it was changed exactly when it did not show
    it before; and to call again changes nothing.  When it raises, the exception
    is one of CloudWatch's. *)
Theorem check_dashboard_spec labels m name region title x r x1
    (Hname : dict_get labels "dashboard-name" = Some name)
    (Hregion : dict_get labels "region" = Some region) (Htitle : dict_get labels "task_name" = Some title)
    (Htext : labels_text labels) (Hm : utf8_valid m = true)
    (Hgood : forall body, dict_get (dashboards x) name = Some body -> good_body body)
    (Hfew : (length (dashboards x) <= LISTED_AT_ONCE)%nat)
    (Hrun : check_dashboard labels m x = (r, x1)) :
  let metric := create_dashboard_metric labels m in
  (forall n, n <> name -> dict_get (dashboards x1) n = dict_get (dashboards x) n) /\
  (dashboards x1 = dashboards x \/
   any_shows (widgets_of x name) metric = Ok false /\
   widgets_of x1 name = (widgets_of x name ++ [metric_widget metric region title])%list) /\
  match r with
  | Ok _ =>
      any_shows (widgets_of x1 name) metric = Ok true /\
      (any_shows (widgets_of x name) metric = Ok true -> dashboards x1 = dashboards x) /\
      ((length (dashboards x1) <= LISTED_AT_ONCE)%nat -> dashboards (check_dashboard labels m x1).2 = dashboards x1)
  | Raise e => cloudwatch_error e
  end.
Proof.
  cbv zeta. set (metric := create_dashboard_metric labels m). set (w := metric_widget metric region title).
  destruct (check_kept labels m name region title Hname Hregion Htitle Htext Hm x r x1 Hgood Hfew Hrun) as [K1 K2 K3 K4 K5].
  split_and!; [done|done|]. destruct r as [u|e]; [|by apply K5].
  destruct (K3 u eq_refl) as [Hshown Hsame], (K4 u eq_refl) as (body & Hbody & Hg). split_and!; [done|done|].
  intros Hfew1. destruct (check_dashboard labels m x1) as [r2 x2] eqn:E2. cbn [snd].
  destruct (check_kept labels m name region title Hname Hregion Htitle Htext Hm x1 r2 x2) as [_ L2 _ _ _]; [|done..|].
  { intros body' Hb'. by assert (body' = body) as -> by congruence. }
  destruct L2 as [|[Hno _]]; [done|]. congruence.
Qed.

(** A dashboard that the listing leaves out is made again: of its widgets only
    the new one is left. *)
Theorem unlisted_dashboard_replaced labels m name region title x l x0 u x1
    (Hname : dict_get labels "dashboard-name" = Some name)
    (Hregion : dict_get labels "region" = Some region) (Htitle : dict_get labels "task_name" = Some title)
    (Htext : labels_text labels) (Hm : utf8_valid m = true)
    (Hlist : list_dashboards x = (Ok l, x0)) (Hout : name ∉ l)
    (Hrun : check_dashboard labels m x = (Ok u, x1)) :
  widgets_of x1 name = [metric_widget (create_dashboard_metric labels m) region title].
Proof.
  unfold check_dashboard in Hrun. rewrite Hname in Hrun. unfold bind at 1 in Hrun. rewrite Hlist, bool_decide_false in Hrun by done.
  unfold create_dashboard, label_of in Hrun. rewrite Hregion, Htitle, Hname, !bind_lift_ok in Hrun. unfold bind in Hrun.
  destruct (put_dashboard name _ x0) as [[v|e] x2] eqn:Hp; [|done]. injection Hrun as _ <-.
  destruct (put_dashboard_law _ _ _ _ _ Hp) as [Hx|[? _]]; [|done].
  unfold widgets_of. rewrite Hx, dict_get_set_eq, loads_dumps; [done|].
  by apply jwf_new_dashboard, (own_widget_wf labels m name).
Qed.

(** The dimensions of an exported metric are the ones its widget asks for, as
    long as there are at most ten; of more labels the exporter drops some, and
    the widget keeps them all. *)
Lemma widget_dimensions labels m :
  create_dashboard_metric labels m =
    ([NAMESPACE; m] ++ concat (map (fun kv => [kv.1; kv.2]) (metric_dimensions labels)))%list <->
  (length (List.filter exported labels) <= 10)%nat.
Proof.
  unfold create_dashboard_metric, metric_dimensions, CLOUDWATCH_MAX_DIMENSIONS.
  set (l := List.filter exported labels). destruct (Nat.ltb_spec 10 (length l)) as [Hlt|Hle]; [|done].
  split; [|lia]. intros E. exfalso. apply (f_equal length) in E. cbn [app length] in E.
  assert (Hlen : forall l' : list (string * string), length (concat (map (fun kv => [kv.1; kv.2]) l')) = (2 * length l')%nat).
  { induction l' as [|kv l' IH]; [done|]. cbn [map concat]. rewrite length_app, IH. cbn. lia. }
  rewrite !Hlen, length_take in E. lia.
Qed.
End Dashboards.

Module Witness.
#[local] Existing Instance literal_floats.

(** The dashboards and the data that were put. *)
Definition World : Type := dict string string * list MetricDatum.

(** A listing stops after the first page, and a dashboard needs a name. *)
#[local] Instance cloud : CloudWatch World := {|
  put_metric_data _ data := modify (fun w => (w.1, (w.2 ++ data)%list));
  list_dashboards := gets (fun w => take LISTED_AT_ONCE (dict_keys w.1));
  get_dashboard n := fun w =>
    (match dict_get w.1 n with Some b => Ok b | None => Raise (ClientError "ResourceNotFound") end, w);
  put_dashboard n b := fun w =>
    if String.eqb n "" then (Raise (ClientError "InvalidParameterInput"), w) else (Ok "{}", (dict_set w.1 n b, w.2))
|}.

#[local] Instance cloud_store : DashboardStore (X := World).
Proof.
  refine {| dashboards (w : World) := w.1 |}.
  - intros x r x' [= <- <-]. split; [done|]. intros l [= <-]. split.
    + intros n Hn. apply dict_get_is_Some. apply elem_of_take in Hn as (i & Hi & _). by eapply list_elem_of_lookup_2.
    + intros Hfew n Hn. rewrite take_ge by (unfold dict_keys; by rewrite length_map). by apply dict_get_is_Some.
  - intros n x r x' [= <- <-]. split; [done|]. intros body. by destruct (dict_get x.1 n) as [b|]; [intros [= <-]|].
  - intros n body x r x'. cbn [put_dashboard cloud]. destruct (String.eqb n ""); intros [= <- <-]; [by right|by left].
Defined.

Definition labels0 : dict string string :=
  [("task_name", "t"); ("batch", "64"); ("dashboard-name", "d"); ("region", "us-east-1"); ("client-id", "c")].
Definition world0 : World := ([("other", "{}"); ("d", jdumps (JObj [("widgets", JList [])]))], []).

Lemma check_dashboard_spec_witness :
  exists x1, check_dashboard labels0 "accuracy" world0 = (Ok tt, x1) /\
  dict_get x1.1 "other" = Some "{}" /\ (check_dashboard labels0 "accuracy" x1).2.1 = x1.1.
Proof.
  destruct (check_dashboard labels0 "accuracy" world0) as [r x1] eqn:E.
  destruct (check_dashboard_spec labels0 "accuracy" "d" "us-east-1" "t" world0 r x1) as (H1 & H2 & H3).
  - reflexivity.
  - reflexivity.
  - reflexivity.
  - repeat constructor.
  - reflexivity.
  - intros body [= <-]. exists [("widgets", JList [])], []. split_and!; [exact (loads_dumps (JObj [("widgets", JList [])]) eq_refl)|reflexivity|reflexivity|done].
  - vm_compute. lia.
  - exact E.
  - assert (Hr : is_ok (check_dashboard labels0 "accuracy" world0).1 = true) by (vm_compute; reflexivity).
    assert (Hlen : length (check_dashboard labels0 "accuracy" world0).2.1 = 2%nat) by (vm_compute; reflexivity).
    rewrite E in Hr, Hlen. cbn [fst snd] in Hr, Hlen. destruct r as [[]|e]; [|discriminate Hr].
    exists x1. split; [reflexivity|]. split; [exact (H1 "other" ltac:(discriminate))|].
    destruct H3 as (_ & _ & H3). apply H3. cbn [dashboards cloud_store]. rewrite Hlen. vm_compute. lia.
Defined.

(** A thousand dashboards before the one of the benchmark: its widgets are lost. *)
Definition crowd : dict string string := map (fun n => ("dashboard" +:+ pretty (N.of_nat n), "{}")) (seq 0 1000).
Definition body1 : string := jdumps (JObj [("widgets", JList [metric_widget ["ANUBIS/METRICS"; "loss"] "us-east-1" "t"])]).
Definition world1 : World := ((crowd ++ [("d", body1)])%list, []).

Lemma unlisted_dashboard_replaced_witness :
  length (widgets_of world1 "d") = 1%nat /\
  widgets_of (check_dashboard labels0 "accuracy" world1).2 "d" =
    [metric_widget (create_dashboard_metric labels0 "accuracy") "us-east-1" "t"].
Proof.
  split; [vm_compute; reflexivity|].
  destruct (check_dashboard labels0 "accuracy" world1) as [r x1] eqn:E.
  assert (Hr : is_ok (check_dashboard labels0 "accuracy" world1).1 = true) by (vm_compute; reflexivity).
  rewrite E in Hr. destruct r as [u|e]; [|discriminate Hr].
  apply (unlisted_dashboard_replaced labels0 "accuracy" "d" "us-east-1" "t" world1 (take LISTED_AT_ONCE (dict_keys world1.1)) world1 u x1).
  - reflexivity.
  - reflexivity.
  - reflexivity.
  - repeat constructor.
  - reflexivity.
  - reflexivity.
  - apply (bool_decide_unpack _). vm_compute. exact I.
  - exact E.
Defined.

Example exported_metric :
  map (fun d => (md_name d, md_dimensions d, md_unit d, float_repr (md_value d)))
    (export_event (fun v => match v with JFloat f => Ok f | _ => Raise (ValueError "") end)
       (mkMetrics _ "accuracy" (JFloat (literal_of "0.9")) 0 (Some [("task_name", "t"); ("client-id", "c")])) world0).2.2 =
  [("accuracy", [("task_name", "t")], "None", "0.9")].
Proof. reflexivity. Qed.
End Witness.
