(* ===== verification/Reports.v ===== *)
(** * The report of the benchmarks (reports/benchmark_ai_reports.py)

    The script that gathers the metrics of the nightly benchmarks from
    CloudWatch and lays them out in a worksheet: three sections, each a series of
    blocks of at most ten metrics with one row for each benchmark.  The calls of
    boto3 are behind the class [ReportWorld]; the worksheet is the sequence of
    its writes, in which a later write to a cell replaces an earlier one. *)

From stdpp Require Import sorting.
From S2P Require Import Prelude PyStr Json.

#[local] Arguments String.append !_ _ /.

(** ** Gathering *)

Section Gather.
Context {F : PyFloat}.

(** [key in j] of a decoded JSON value. *)
Definition jhas (key : string) (j : jval) : Res bool :=
  match j with
  | JObj d => Ok (bool_decide (key ∈ dict_keys d))
  | JList l => Ok (existsb (fun v => match v with JStr s => String.eqb s key | _ => false end) l)
  | JStr s => Ok (contains key s)
  | _ => Raise (TypeError "argument is not iterable")
  end.

Definition jtext (j : jval) (key : string) : Res string :=
  v <~ jget j key ;;
  match v with JStr s => Ok s | _ => Raise (TypeError key) end.

(** [extract_metric]. *)
Definition extract_metric (fullmetric prefix suffix : string) : string :=
  let tail := str_drop (String.length prefix + 1) fullmetric in
  let end_ := match str_rfind suffix tail with Some i => Z.of_nat i - 1 | None => -2 end in
  str_slice_to end_ tail.
End Gather.

(** The data of a benchmark. *)
Record Bench (V : Type) := mkBench { bench_metrics : dict string V; bench_suffix : string }.
Arguments mkBench {V}.
Arguments bench_metrics {V}.
Arguments bench_suffix {V}.

(** The names of the metrics in a namespace and of the rules, the inputs of the targets of a
    rule, and the averages of the last day of a metric. *)
Class ReportWorld (X V : Type) : Type := {
  list_metrics : string -> M X (list string);
  list_rules : M X (list string);
  list_targets_by_rule : string -> M X (list (option string));
  get_metric_statistics : string -> M X (list V)
}.

Section Benchmarks.
Context {F : PyFloat} `{ReportWorld X V}.

Definition get_metrics : M X (list string) := list_metrics "benchmarkai-metrics-prod".

(** [get_rules]: the first two are left out. *)
Definition get_rules : M X (list string) :=
  rules <- list_rules ;;
  ret (List.filter (fun x => negb (String.eqb x "TriggerNightlyTestStatusCheck")) (drop 2 rules)).

(** [rules_to_tasks]. *)
Fixpoint rules_to_tasks (res : dict string jval) (rules : list string) : M X (dict string jval) :=
  match rules with
  | [] => ret res
  | rule :: rules' =>
      targets <- list_targets_by_rule rule ;;
      target <- lift (match targets with t :: _ => Ok t | [] => Raise (IndexError "list index out of range") end) ;;
      res <- match target with
             | None => ret res
             | Some text =>
                 j <- lift (json_loads text) ;;
                 found <- lift (jhas "task_name" j) ;;
                 ret (if (found : bool) then dict_set res rule j else res)
             end ;;
      rules_to_tasks res rules'
  end.

(** The metrics of one rule: the first data point of each. *)
Fixpoint gather_metrics (prefix suffix : string) (acc : dict string V) (metric_match : list string) : M X (dict string V) :=
  match metric_match with
  | [] => ret acc
  | metric :: metric_match' =>
      points <- get_metric_statistics metric ;;
      gather_metrics prefix suffix
        (match points with value :: _ => dict_set acc (extract_metric metric prefix suffix) value | [] => acc end)
        metric_match'
  end.

Fixpoint gather_tasks (metrics : list string) (benchmarks : dict string (Bench V)) (rules2tasks : list (string * jval))
    : M X (dict string (Bench V)) :=
  match rules2tasks with
  | [] => ret benchmarks
  | (rule, task) :: rest =>
      framework_name <- lift (jtext task "framework_name") ;;
      task_name <- lift (jtext task "task_name") ;;
      let metric_prefix := join "." [framework_name; task_name] in
      match List.filter (startswith metric_prefix) metrics with
      | [] => gather_tasks metrics benchmarks rest
      | metric_match =>
          _ <- (if bool_decide (rule ∈ dict_keys benchmarks) then raise (AssertionError "") else ret tt) ;;
          suffix <- lift (jtext task "metrics_suffix") ;;
          found <- gather_metrics metric_prefix suffix [] metric_match ;;
          gather_tasks metrics (dict_set benchmarks rule (mkBench found suffix)) rest
      end
  end.

(** [gather_benchmarks]; the intermediate results are also dumped to files. *)
Definition gather_benchmarks : M X (dict string (Bench V)) :=
  rules <- get_rules ;;
  metrics <- get_metrics ;;
  rules2tasks <- rules_to_tasks [] rules ;;
  gather_tasks metrics [] rules2tasks.
End Benchmarks.

(** ** The layout *)

Definition sorted (l : list string) : list string := merge_sort String.le l.

Fixpoint groupn_loop {A} (n : Z) (xs : list A) (groups : list (list A)) (curgrp : list A) (i : Z) : list (list A) :=
  match xs with
  | [] => match curgrp with [] => groups | _ => (groups ++ [curgrp])%list end
  | x :: xs' =>
      if n <=? i then groupn_loop n xs' (groups ++ [curgrp]) [x] 1
      else groupn_loop n xs' groups (curgrp ++ [x]) (i + 1)
  end.

(** [groupn]. *)
Definition groupn {A} (xs : list A) (n : Z) : Res (list (list A)) :=
  if 0 <? n then Ok (groupn_loop n xs [] [] 0) else Raise (AssertionError "").

(** [map_to_columns]. *)
Definition map_to_columns (metrics : list string) : dict string Z :=
  (fold_left (fun '(col_map, col) m => (dict_set col_map m col, col + 1)) (sorted (remove_dups metrics)) ([], 0)).1.

(** [partition]: the entries that satisfy the predicate, and the others. *)
Definition partition {A} (pred : A -> bool) (l : list A) : list A * list A :=
  (List.filter pred l, List.filter (fun x => negb (pred x)) l).

Inductive Cell (V : Type) : Type :=
| Text (s : string)
| Number (v : V).
Arguments Text {V}.
Arguments Number {V}.

(** [worksheet.write(row, col, value)]. *)
Record Write (V : Type) := mkWrite { w_row : Z; w_col : Z; w_cell : Cell V }.
Arguments mkWrite {V}.
Arguments w_row {V}.
Arguments w_col {V}.
Arguments w_cell {V}.

(** The heading of a metric. *)
Definition display (metric : string) : string :=
  py_replace "inference" "inf." (py_replace "Average " "" (py_replace "_" " " metric)).

Section Layout.
Context {V : Type}.

Fixpoint heading (row col : Z) (group : list string) : list (Write V) :=
  match group with
  | [] => []
  | metric :: group' => mkWrite row col (Text (display metric)) :: heading row (col + 1) group'
  end.

(** One metric of a benchmark, if it has it: its name, and over it its value. *)
Definition metric_cell (row col : Z) (col_map : dict string Z) (bench : Bench V) (metric : string) : list (Write V) :=
  match dict_get (bench_metrics bench) metric with
  | Some value =>
      let itemcol := default 0 (dict_get col_map metric) + col in
      [mkWrite row itemcol (Text metric); mkWrite row itemcol (Number value)]
  | None => []
  end.

Definition bench_row (row : Z) (group : list string) (bench_name : string) (bench : Bench V) : list (Write V) :=
  mkWrite row 0 (Text bench_name) :: mkWrite row 1 (Text (bench_suffix bench)) ::
  concat (map (metric_cell row 2 (map_to_columns group) bench) group).

Fixpoint bench_rows (row : Z) (group : list string) (benchmarks : dict string (Bench V)) (names : list string)
    : list (Write V) :=
  match names with
  | [] => []
  | name :: names' =>
      (match dict_get benchmarks name with Some bench => bench_row row group name bench | None => [] end ++
       bench_rows (row + 1) group benchmarks names')%list
  end.

(** The blocks, and the row below the last one. *)
Fixpoint blocks (first_row row : Z) (benchmarks : dict string (Bench V)) (groups : list (list string))
    : Z * list (Write V) :=
  match groups with
  | [] => (row, [])
  | group :: groups' =>
      let names := sorted (dict_keys benchmarks) in
      let continued :=
        if first_row <? row then [mkWrite row 0 (Text "... continued benchmark"); mkWrite row 1 (Text "suffix")] else [] in
      let here := (continued ++ heading row 2 group ++ bench_rows (row + 1) group benchmarks names)%list in
      let '(row', rest) := blocks first_row (row + 1 + Z.of_nat (length names) + 1) benchmarks groups' in
      (row', here ++ rest)%list
  end.

(** [get_metrics] of [add_report]. *)
Definition report_metrics (benchmarks : dict string (Bench V)) : list string :=
  sorted (remove_dups (concat (map (fun b => dict_keys (bench_metrics b)) (dict_values benchmarks)))).

(** [add_report]. *)
Definition add_report (row : Z) (benchmarks : dict string (Bench V)) : Z * list (Write V) :=
  let groups := groupn_loop 10 (report_metrics benchmarks) [] [] 0 in
  let '(row', writes) := blocks row row benchmarks groups in
  (row', mkWrite row 0 (Text "benchmark") :: mkWrite row 1 (Text "suffix") :: writes).

(** [dict((x, benchmarks[x]) for x in keys)]. *)
Definition select (benchmarks : dict string (Bench V)) (keys : list string) : dict string (Bench V) :=
  omap (fun x => option_map (pair x) (dict_get benchmarks x)) keys.

(** [gen_report]: the writes to the new worksheet. *)
Definition gen_report (benchmarks : dict string (Bench V)) : list (Write V) :=
  let '(onnx_keys, rest_keys) := partition (startswith "onnx_") (dict_keys benchmarks) in
  let '(mms_keys, rest_keys) := partition (startswith "mms_") rest_keys in
  let '(row1, w1) := add_report 1 (select benchmarks rest_keys) in
  let '(row2, w2) := add_report (row1 + 1) (select benchmarks onnx_keys) in
  let '(row3, w3) := add_report (row2 + 1) (select benchmarks mms_keys) in
  (mkWrite 0 0 (Text "Benchmark AI report") :: w1 ++ w2 ++ w3)%list.

(** What a cell shows in the end. *)
Fixpoint shown (writes : list (Write V)) (row col : Z) : option (Cell V) :=
  match writes with
  | [] => None
  | w :: writes' =>
      match shown writes' row col with
      | Some cell => Some cell
      | None => if (w_row w =? row) && (w_col w =? col) then Some (w_cell w) else None
      end
  end.
End Layout.

(** ** The names of metrics *)

Lemma str_rfind_short sub s : (String.length s < String.length sub)%nat -> str_rfind sub s = None.
Proof.
  induction s as [|c s IH]; cbn [String.length str_rfind]; intros Hs.
  - by destruct sub; [cbn in Hs; lia|].
  - rewrite IH by lia. destruct (startswith sub (String c s)) eqn:E; [|done].
    apply startswith_length in E. cbn [String.length] in E. lia.
Qed.

Lemma str_rfind_suffix a suf : str_rfind suf (a +:+ suf) = Some (String.length a).
Proof.
  induction a as [|c a IH]; cbn [String.append String.length]; [|cbn [str_rfind]; by rewrite IH].
  destruct suf as [|c suf]; [done|]. cbn [str_rfind]. rewrite str_rfind_short by (cbn; lia).
  replace (startswith (String c suf) (String c suf)) with true; [done|].
  symmetry. apply startswith_spec. exists "". by rewrite str_app_nil_r.
Qed.

(** The full name of a metric has the prefix and the suffix of its task, between
    dots, and its own name is what is left, whatever the three texts are. *)
Theorem extract_metric_roundtrip prefix name suffix :
  extract_metric (join "." [prefix; name; suffix]) prefix suffix = name.
Proof.
  unfold extract_metric. cbn [join].
  replace (prefix +:+ "." +:+ name +:+ "." +:+ suffix) with ((prefix +:+ ".") +:+ name +:+ "." +:+ suffix)
    by (by rewrite str_app_assoc).
  replace (String.length prefix + 1)%nat with (String.length (prefix +:+ ".")) by (by rewrite str_length_app).
  rewrite str_drop_app.
  replace (name +:+ "." +:+ suffix) with ((name +:+ ".") +:+ suffix) by (by rewrite str_app_assoc).
  rewrite str_rfind_suffix, str_length_app. cbn [String.length]. unfold str_slice_to.
  replace (Z.of_nat (String.length name + 1) - 1) with (Z.of_nat (String.length name)) by lia.
  destruct (Z.ltb_spec (Z.of_nat (String.length name)) 0); [lia|]. rewrite Nat2Z.id, str_app_assoc. apply str_take_app.
Qed.

(** A metric of the same task with another suffix is counted too, under a name
    that has lost its last two characters. *)
Example other_suffix : extract_metric "mxnet.resnet.speed.fp16" "mxnet.resnet" "p3" = "speed.fp".
Proof. reflexivity. Qed.

(** ** Groups *)

Lemma groupn_loop_run {A} n (xs : list A) groups cur i :
  0 < n -> i = Z.of_nat (length cur) -> i <= n ->
  exists full rest, groupn_loop n xs groups cur i = (groups ++ full ++ rest)%list /\ concat (full ++ rest) = (cur ++ xs)%list /\
    Forall (fun g => Z.of_nat (length g) = n) full /\ Forall (fun g => 0 < Z.of_nat (length g) <= n) rest /\ (length rest <= 1)%nat.
Proof.
  intros Hn. revert groups cur i. induction xs as [|x xs IH]; intros groups cur i -> Hi; cbn [groupn_loop].
  - rewrite app_nil_r. destruct cur as [|c cur].
    + exists [], []. rewrite app_nil_r. split_and!; [done|done|constructor|constructor|cbn; lia].
    + exists [], [c :: cur]. cbn [concat app]. rewrite app_nil_r. split_and!; try done. repeat constructor; cbn in *; lia.
  - destruct (Z.leb_spec n (Z.of_nat (length cur))) as [Hle|Hlt].
    + destruct (IH (groups ++ [cur])%list [x] 1) as (full & rest & Hl & Hc & Hf & Hr & H1); [done|lia|].
      exists (cur :: full), rest. rewrite Hl, <- app_assoc. cbn [concat app]. rewrite Hc. split_and!; try done. constructor; [lia|done].
    + destruct (IH groups (cur ++ [x])%list (Z.of_nat (length cur) + 1)) as (full & rest & Hl & Hc & Hrest);
        [rewrite length_app; cbn; lia|lia|].
      exists full, rest. by rewrite Hl, Hc, <- app_assoc.
Qed.

(** The groups, one after the other, are the list; all have [n] elements but
    maybe the last, and none is empty. *)
Theorem groupn_spec {A} (xs : list A) n :
  0 < n ->
  exists full rest, groupn xs n = Ok (full ++ rest)%list /\ concat (full ++ rest) = xs /\
    Forall (fun g => Z.of_nat (length g) = n) full /\ Forall (fun g => 0 < Z.of_nat (length g) <= n) rest /\ (length rest <= 1)%nat.
Proof.
  intros Hn. unfold groupn. destruct (Z.ltb_spec 0 n); [|lia].
  destruct (groupn_loop_run n xs [] [] 0 Hn eq_refl) as (full & rest & Hl & Hrest); [lia|]. exists full, rest. by rewrite Hl.
Qed.

(** ** Columns *)

Lemma sorted_sorted l : StronglySorted String.le (sorted l).
Proof. apply StronglySorted_merge_sort; apply _. Qed.

Lemma sorted_perm l : sorted l ≡ₚ l.
Proof. apply merge_sort_Permutation. Qed.

Lemma sorted_id l : StronglySorted String.le l -> sorted l = l.
Proof. intros Hl. apply (StronglySorted_unique String.le); [apply sorted_sorted|done|apply sorted_perm]. Qed.

Lemma remove_dups_id {A} `{EqDecision A} (l : list A) : NoDup l -> remove_dups l = l.
Proof. induction 1 as [|x l Hx _ IH]; cbn [remove_dups]; [done|]. destruct (decide_rel _ _ _); [done|by f_equal]. Qed.

Lemma columns_fold (l : list string) (d : dict string Z) c j m :
  NoDup l -> l !! j = Some m ->
  dict_get (fold_left (fun '(col_map, col) m => (dict_set col_map m col, col + 1)) l (d, c)).1 m = Some (c + Z.of_nat j).
Proof.
  intros Hl. revert d c j. induction Hl as [|x l Hx Hl IH]; intros d c j Hj; [done|]. cbn [fold_left].
  destruct j as [|j]; cbn in Hj.
  - injection Hj as ->. replace (c + Z.of_nat 0) with c by lia. clear IH Hl.
    assert (Hd : dict_get (dict_set d m c) m = Some c) by apply dict_get_set_eq.
    generalize dependent (dict_set d m c). generalize (c + 1). induction l as [|y l IHl]; intros c' d' Hd'; [done|].
    cbn [fold_left]. apply not_elem_of_cons in Hx as [Hne Hx]. apply IHl; [done|]. by rewrite dict_get_set_ne.
  - rewrite (IH _ (c + 1) j Hj). f_equal. lia.
Qed.

(** In a sorted group the column of a metric is its position. *)
Lemma column_of group j m :
  StronglySorted String.le group -> NoDup group -> group !! j = Some m ->
  dict_get (map_to_columns group) m = Some (Z.of_nat j).
Proof.
  intros Hs Hd Hj. unfold map_to_columns. rewrite remove_dups_id, sorted_id by done. exact (columns_fold group [] 0 j m Hd Hj).
Qed.

(** ** Cells *)

Section Cells.
Context {V : Type}.

Lemma shown_app (a b : list (Write V)) r c :
  shown (a ++ b) r c = match shown b r c with Some x => Some x | None => shown a r c end.
Proof. induction a as [|w a IH]; cbn [app shown]; [by destruct (shown b r c)|]. rewrite IH. by destruct (shown b r c). Qed.

(** All writes are to the rows from [lo] to before [hi]. *)
Definition rows_in (lo hi : Z) (ws : list (Write V)) : Prop := Forall (fun w => lo <= w_row w < hi) ws.

Lemma rows_in_mono lo hi lo' hi' ws : rows_in lo hi ws -> lo' <= lo -> hi <= hi' -> rows_in lo' hi' ws.
Proof. intros Hws ? ?. eapply Forall_impl; [exact Hws|]. cbn. lia. Qed.

Lemma rows_in_app lo hi a b : rows_in lo hi a -> rows_in lo hi b -> rows_in lo hi (a ++ b).
Proof. intros. by apply Forall_app_2. Qed.

Lemma shown_outside (ws : list (Write V)) r c : Forall (fun w => ~ (w_row w = r /\ w_col w = c)) ws -> shown ws r c = None.
Proof.
  induction 1 as [|w ws Hw _ IH]; cbn [shown]; [done|]. rewrite IH.
  destruct (Z.eqb_spec (w_row w) r), (Z.eqb_spec (w_col w) c); naive_solver.
Qed.

Lemma shown_other_rows lo hi ws r c : rows_in lo hi ws -> ~ lo <= r < hi -> shown ws r c = None.
Proof. intros Hws Hr. apply shown_outside. eapply Forall_impl; [exact Hws|]. cbn. intros w ? [<- _]. lia. Qed.

(** Writes to other rows do not show. *)
Lemma shown_app_l a b lo hi r c : rows_in lo hi b -> ~ lo <= r < hi -> shown (a ++ b) r c = shown a r c.
Proof. intros Hb Hr. by rewrite shown_app, (shown_other_rows lo hi b). Qed.

Lemma shown_app_r a b lo hi r c : rows_in lo hi a -> ~ lo <= r < hi -> shown (a ++ b) r c = shown b r c.
Proof. intros Ha Hr. rewrite shown_app, (shown_other_rows lo hi a) by done. by destruct (shown b r c). Qed.

Lemma shown_write (ws : list (Write V)) r c x : shown ws r c = Some x -> exists w, w ∈ ws /\ w_row w = r /\ w_col w = c /\ w_cell w = x.
Proof.
  induction ws as [|w ws IH]; cbn [shown]; [done|]. destruct (shown ws r c) as [y|].
  - intros [= ->]. destruct (IH eq_refl) as (w' & Hin & Hw'). exists w'. split; [by right|done].
  - destruct (Z.eqb_spec (w_row w) r), (Z.eqb_spec (w_col w) c); cbn; intros [= <-]. exists w. split; [by left|done].
Qed.

(** The headings of a group. *)
Lemma heading_rows row col group : rows_in row (row + 1) (heading (V := V) row col group).
Proof. revert col. induction group as [|m group IH]; intros col; constructor; [cbn; lia|apply IH]. Qed.

Lemma heading_cols row col group : Forall (fun w => col <= w_col w) (heading (V := V) row col group).
Proof.
  revert col. induction group as [|m group IH]; intros col; constructor; [cbn; lia|].
  eapply Forall_impl; [apply IH|]. cbn. lia.
Qed.

Lemma heading_shown row col group j m :
  group !! j = Some m -> shown (V := V) (heading row col group) row (col + Z.of_nat j) = Some (Text (display m)).
Proof.
  revert col j. induction group as [|m0 group IH]; intros col j Hj; [done|]. cbn [heading shown].
  destruct j as [|j]; cbn in Hj.
  - injection Hj as ->. rewrite shown_outside; cbn [w_row w_col w_cell].
    + change (Z.of_nat 0) with 0. by rewrite Z.add_0_r, !Z.eqb_refl.
    + eapply Forall_impl; [apply heading_cols|]. intros w Hw [_ Hc]. cbn in *. lia.
  - replace (col + Z.of_nat (S j)) with (col + 1 + Z.of_nat j) by lia. by rewrite IH.
Qed.

Lemma heading_text row col group w : w ∈ heading (V := V) row col group -> exists s, w_cell w = Text s.
Proof.
  revert col. induction group as [|m group IH]; intros col; [by intros ?%not_elem_of_nil|].
  intros [->|Hin]%elem_of_cons; [by eexists|by eapply IH].
Qed.

(** The row of a benchmark. *)
Lemma metric_cells_elem row cm bench ms w :
  w ∈ concat (map (metric_cell (V := V) row 2 cm bench) ms) ->
  exists m v, m ∈ ms /\ dict_get (bench_metrics bench) m = Some v /\ w_row w = row /\
    w_col w = default 0 (dict_get cm m) + 2 /\ (w_cell w = Text m \/ w_cell w = Number v).
Proof.
  induction ms as [|m ms IH]; cbn [map concat]; [by intros ?%not_elem_of_nil|]. intros [Hin|Hin]%elem_of_app.
  - unfold metric_cell in Hin. destruct (dict_get (bench_metrics bench) m) as [v|] eqn:Ev; [|by apply not_elem_of_nil in Hin].
    exists m, v. rewrite !elem_of_cons in Hin. destruct Hin as [->|[->|?%not_elem_of_nil]]; [..|done];
      (split_and!; [by left|done..|cbn; auto]).
  - destruct (IH Hin) as (m' & v & Hm' & Hrest). exists m', v. split; [by right|done].
Qed.

Lemma metric_cells_shown row cm bench ms m v :
  NoDup ms -> (forall a b, a ∈ ms -> b ∈ ms -> default 0 (dict_get cm a) = default 0 (dict_get cm b) -> a = b) ->
  m ∈ ms -> dict_get (bench_metrics bench) m = Some v ->
  shown (concat (map (metric_cell (V := V) row 2 cm bench) ms)) row (default 0 (dict_get cm m) + 2) = Some (Number v).
Proof.
  induction 1 as [|m0 ms Hm0 Hms IH]; intros Hinj Hm Hv; [by apply not_elem_of_nil in Hm|].
  cbn [map concat]. rewrite shown_app. apply elem_of_cons in Hm as [->|Hm].
  - rewrite shown_outside.
    + unfold metric_cell. rewrite Hv. cbn [shown w_row w_col w_cell].
      by rewrite !Z.eqb_refl.
    + apply Forall_forall. intros w Hw [_ Hc]. apply metric_cells_elem in Hw as (m' & v' & Hm' & _ & _ & Hc' & _).
      apply Hm0. rewrite (Hinj m0 m'); [done|by left|by right|lia].
  - rewrite IH; [done| |done|done]. intros a b Ha Hb. apply Hinj; by right.
Qed.

Lemma bench_row_rows row group name (bench : Bench V) : rows_in row (row + 1) (bench_row row group name bench).
Proof.
  repeat constructor; cbn; try lia. apply Forall_forall. intros w Hw.
  apply metric_cells_elem in Hw as (m & v & _ & _ & -> & _). lia.
Qed.

(** The row of a benchmark shows its name, its suffix and, in the column of each
    metric of the group that it has, the value. *)
Lemma bench_row_shown row group name (bench : Bench V) :
  StronglySorted String.le group -> NoDup group ->
  let ws := bench_row row group name bench in
  shown ws row 0 = Some (Text name) /\ shown ws row 1 = Some (Text (bench_suffix bench)) /\
  (forall j m v, group !! j = Some m -> dict_get (bench_metrics bench) m = Some v ->
     shown ws row (2 + Z.of_nat j) = Some (Number v)) /\
  (forall c v, shown ws row c = Some (Number v) ->
     exists j m, group !! j = Some m /\ dict_get (bench_metrics bench) m = Some v /\ c = 2 + Z.of_nat j).
Proof.
  intros Hs Hd ws. set (cells := concat (map (metric_cell row 2 (map_to_columns group) bench) group)).
  assert (Hcol : forall m, m ∈ group -> exists j, group !! j = Some m /\ dict_get (map_to_columns group) m = Some (Z.of_nat j)).
  { intros m [j Hj]%list_elem_of_lookup. exists j. split; [done|by apply column_of]. }
  assert (Hcells : forall w, w ∈ cells -> 2 <= w_col w).
  { intros w (m & v & Hm & _ & _ & -> & _)%metric_cells_elem. destruct (Hcol m Hm) as (j & _ & ->). cbn. lia. }
  assert (Hout : forall c, c < 2 -> shown cells row c = None).
  { intros c Hc. apply shown_outside, Forall_forall. intros w Hw [_ Hw']. specialize (Hcells w Hw). lia. }
  subst ws. unfold bench_row. fold cells. cbn [shown w_row w_col w_cell]. split_and!.
  - rewrite (Hout 0) by lia. by rewrite !Z.eqb_refl.
  - rewrite (Hout 1) by lia. by rewrite !Z.eqb_refl.
  - intros j m v Hj Hv. assert (Hm : dict_get (map_to_columns group) m = Some (Z.of_nat j)) by (by apply column_of).
    pose proof (metric_cells_shown row (map_to_columns group) bench group m v Hd) as Hshown. rewrite Hm in Hshown. cbn [default id] in Hshown. unfold id in Hshown.
    replace (2 + Z.of_nat j) with (Z.of_nat j + 2) by lia. unfold cells. rewrite Hshown; [done| |by eapply list_elem_of_lookup_2|done].
    intros a b (ja & Hja & ->)%Hcol (jb & Hjb & ->)%Hcol. cbn. intros E. assert (ja = jb) as -> by lia. congruence.
  - intros c v. destruct (shown cells row c) as [x|] eqn:Ex.
    + intros [= ->]. apply shown_write in Ex as (w & Hw & _ & Hc & Hcell).
      apply metric_cells_elem in Hw as (m & v' & Hm & Hv & _ & Hcol' & [Ht|Ht]); [congruence|].
      destruct (Hcol m Hm) as (j & Hj & Ej). rewrite Ej in Hcol'. cbn in Hcol'. exists j, m. split_and!; [done|congruence|lia].
    + destruct ((row =? row) && (1 =? c)), ((row =? row) && (0 =? c)); congruence.
Qed.

(** Row by row, the rows of the benchmarks. *)
Lemma bench_rows_rows row group (benchmarks : dict string (Bench V)) names :
  rows_in row (row + Z.of_nat (length names)) (bench_rows row group benchmarks names).
Proof.
  revert row. induction names as [|name names IH]; intros row; [constructor|]. cbn [bench_rows length]. apply rows_in_app.
  - destruct (dict_get benchmarks name) as [bench|]; [|constructor]. eapply rows_in_mono; [apply bench_row_rows|lia|lia].
  - eapply rows_in_mono; [apply IH|lia|lia].
Qed.

Lemma bench_rows_shown row group (benchmarks : dict string (Bench V)) names i name bench c :
  names !! i = Some name -> dict_get benchmarks name = Some bench ->
  shown (bench_rows row group benchmarks names) (row + Z.of_nat i) c =
  shown (bench_row (row + Z.of_nat i) group name bench) (row + Z.of_nat i) c.
Proof.
  revert row i. induction names as [|name0 names IH]; intros row i Hi Hb; [done|]. cbn [bench_rows]. destruct i as [|i].
  - injection Hi as ->. rewrite Hb, Z.add_0_r. eapply shown_app_l; [apply bench_rows_rows|lia].
  - replace (row + Z.of_nat (S i)) with (row + 1 + Z.of_nat i) by lia. rewrite <- IH by done.
    apply shown_app_r with (lo := row) (hi := row + 1); [|lia].
    destruct (dict_get benchmarks name0); [apply bench_row_rows|constructor].
Qed.

(** One block, with its headings in row [R]. *)
Definition placed (ws : list (Write V)) (lo hi : Z) (benchmarks : dict string (Bench V)) (group : list string) (R : Z) : Prop :=
  let n := Z.of_nat (length (sorted (dict_keys benchmarks))) in
  lo <= R /\ R + n < hi /\
  (forall j m, group !! j = Some m -> shown ws R (2 + Z.of_nat j) = Some (Text (display m))) /\
  (forall i name bench c, sorted (dict_keys benchmarks) !! i = Some name -> dict_get benchmarks name = Some bench ->
     shown ws (R + 1 + Z.of_nat i) c = shown (bench_row (R + 1 + Z.of_nat i) group name bench) (R + 1 + Z.of_nat i) c).

Lemma placed_app_r a ws lo0 lo hi lo' benchmarks group R :
  rows_in lo0 lo a -> lo' <= lo -> placed ws lo hi benchmarks group R -> placed (a ++ ws) lo' hi benchmarks group R.
Proof.
  intros Ha Hlo (H1 & H2 & H3 & H4). split_and!; [lia|done| |].
  - intros j m Hj. rewrite <- (H3 j m Hj). eapply shown_app_r; [exact Ha|lia].
  - intros i name bench c Hi Hb. rewrite <- (H4 i name bench c Hi Hb). eapply shown_app_r; [exact Ha|lia].
Qed.

Lemma placed_app_l ws b lo hi hi0 benchmarks group R :
  rows_in hi hi0 b -> placed ws lo hi benchmarks group R -> placed (ws ++ b) lo hi benchmarks group R.
Proof.
  intros Hb (H1 & H2 & H3 & H4). split_and!; [done|done| |].
  - intros j m Hj. rewrite <- (H3 j m Hj). eapply shown_app_l; [exact Hb|lia].
  - intros i name bench c Hi Hn. rewrite <- (H4 i name bench c Hi Hn).
    apply lookup_lt_Some in Hi. eapply shown_app_l; [exact Hb|lia].
Qed.

(** The rows of one block. *)
Definition block_writes (first row : Z) (benchmarks : dict string (Bench V)) (group : list string) : list (Write V) :=
  ((if (first <? row)%Z then [mkWrite row 0 (Text "... continued benchmark"); mkWrite row 1 (Text "suffix")] else []) ++
   heading row 2 group ++ bench_rows (row + 1) group benchmarks (sorted (dict_keys benchmarks)))%list.

Lemma block_writes_rows first row benchmarks group :
  rows_in row (row + 1 + Z.of_nat (length (sorted (dict_keys benchmarks))) + 1) (block_writes first row benchmarks group).
Proof.
  unfold block_writes. apply rows_in_app; [|apply rows_in_app].
  - case_match; repeat constructor; cbn; lia.
  - eapply rows_in_mono; [apply heading_rows|lia|lia].
  - eapply rows_in_mono; [apply bench_rows_rows|lia|lia].
Qed.

Lemma block_writes_placed first row benchmarks group :
  placed (block_writes first row benchmarks group) row (row + 1 + Z.of_nat (length (sorted (dict_keys benchmarks))) + 1) benchmarks group row.
Proof.
  unfold block_writes. split_and!; [lia|lia| |].
  - intros j m Hj. rewrite shown_app. erewrite shown_app_l; [by rewrite (heading_shown row 2 group j m Hj)|apply bench_rows_rows|lia].
  - intros i name bench c Hi Hb. rewrite <- (bench_rows_shown (row + 1) group benchmarks _ i name bench c Hi Hb), app_assoc.
    apply shown_app_r with (lo := row) (hi := row + 1); [|lia]. apply rows_in_app; [|apply heading_rows].
    case_match; repeat constructor; cbn; lia.
Qed.

(** A number in a block is in the row of one of its benchmarks. *)
Lemma block_number first row benchmarks group r c v :
  shown (block_writes first row benchmarks group) r c = Some (Number v) ->
  exists i name, r = row + 1 + Z.of_nat i /\ sorted (dict_keys benchmarks) !! i = Some name.
Proof.
  intros (w & Hw & <- & _ & Hcell)%shown_write. unfold block_writes in Hw. rewrite !elem_of_app in Hw.
  destruct Hw as [Hw|[Hw|Hw]].
  - case_match; rewrite ?elem_of_cons in Hw; destruct_or?; try (by subst); by apply not_elem_of_nil in Hw.
  - apply heading_text in Hw as [s Hs]. congruence.
  - pose proof (bench_rows_rows (row + 1) group benchmarks (sorted (dict_keys benchmarks))) as Hrows.
    unfold rows_in in Hrows. rewrite Forall_forall in Hrows. specialize (Hrows w Hw).
    destruct (lookup_lt_is_Some_2 (sorted (dict_keys benchmarks)) (Z.to_nat (w_row w - (row + 1)))) as [name Hn]; [lia|].
    exists (Z.to_nat (w_row w - (row + 1))), name. split; [lia|done].
Qed.

Lemma blocks_placed first row benchmarks groups :
  let (row', ws) := blocks first row benchmarks groups in
  row <= row' /\ rows_in row row' ws /\
  (forall group, group ∈ groups -> exists R, placed ws row row' benchmarks group R) /\
  (forall r c v, shown ws r c = Some (Number v) -> exists group R i name, group ∈ groups /\
     placed ws row row' benchmarks group R /\ r = R + 1 + Z.of_nat i /\ sorted (dict_keys benchmarks) !! i = Some name).
Proof.
  revert row. induction groups as [|group groups IH]; intros row; cbn [blocks].
  - split_and!; [lia|constructor|by intros ? ?%not_elem_of_nil|done].
  - set (mid := row + 1 + Z.of_nat (length (sorted (dict_keys benchmarks))) + 1). specialize (IH mid).
    destruct (blocks first mid benchmarks groups) as [row' rest]. destruct IH as (Hle & Hrows & Hall & Hnum).
    fold (block_writes first row benchmarks group).
    assert (Hhere := block_writes_rows first row benchmarks group). fold mid in Hhere.
    assert (Hplaced : placed (block_writes first row benchmarks group ++ rest) row row' benchmarks group row).
    { destruct (placed_app_l _ rest row mid row' benchmarks group row Hrows (block_writes_placed first row benchmarks group))
        as (H1 & H2 & Hp). split; [done|]. split; [lia|done]. }
    split_and!; [lia| | |].
    + apply rows_in_app; [eapply rows_in_mono; [exact Hhere|lia|lia]|eapply rows_in_mono; [exact Hrows|lia|lia]].
    + intros g [->|Hg]%elem_of_cons; [by exists row|]. destruct (Hall g Hg) as [R HR]. exists R.
      eapply placed_app_r; [exact Hhere|lia|exact HR].
    + intros r c v. rewrite shown_app. destruct (shown rest r c) as [x|] eqn:Ex.
      * intros [= ->]. destruct (Hnum r c v Ex) as (g & R & i & name & Hg & HR & Hrest). exists g, R, i, name.
        split; [by right|]. split; [|done]. eapply placed_app_r; [exact Hhere|lia|exact HR].
      * intros (i & name & -> & Hi)%block_number. exists group, row, i, name. split; [by left|done].
Qed.

(** A value of a benchmark in its cell: the row is labelled with the benchmark
    and its suffix, and the column above it with the metric. *)
Definition entry (ws : list (Write V)) (lo hi : Z) (name : string) (bench : Bench V) (metric : string) (r c : Z) (v : V) : Prop :=
  lo < r < hi /\ shown ws r c = Some (Number v) /\ dict_get (bench_metrics bench) metric = Some v /\
  shown ws r 0 = Some (Text name) /\ shown ws r 1 = Some (Text (bench_suffix bench)) /\
  exists h, lo <= h < r /\ shown ws h c = Some (Text (display metric)).

Lemma entry_app_r a ws lo0 lo hi lo' name bench metric r c v :
  rows_in lo0 lo a -> lo' <= lo -> entry ws lo hi name bench metric r c v -> entry (a ++ ws) lo' hi name bench metric r c v.
Proof.
  intros Ha Hlo (Hr & Hv & Hm & H0 & H1 & h & Hh & Hd). unfold entry.
  rewrite !(shown_app_r a ws lo0 lo r) by (done || lia). split_and!; [lia|lia|done..|]. exists h.
  rewrite (shown_app_r a ws lo0 lo h) by (done || lia). split; [lia|done].
Qed.

Lemma entry_app_l ws b lo hi lo1 hi1 hi' name bench metric r c v :
  rows_in lo1 hi1 b -> hi <= lo1 -> hi <= hi' -> entry ws lo hi name bench metric r c v -> entry (ws ++ b) lo hi' name bench metric r c v.
Proof.
  intros Hb Hlo Hhi (Hr & Hv & Hm & H0 & H1 & h & Hh & Hd). unfold entry.
  rewrite !(shown_app_l ws b lo1 hi1 r) by (done || lia). split_and!; [lia|lia|done..|]. exists h.
  rewrite (shown_app_l ws b lo1 hi1 h) by (done || lia). split; [lia|done].
Qed.

Section Placed.
Context (ws : list (Write V)) (lo hi : Z) (benchmarks : dict string (Bench V)) (group : list string) (R : Z).
Context (Hp : placed ws lo hi benchmarks group R) (Hs : StronglySorted String.le group) (Hd : NoDup group).

Lemma placed_entry i name bench j metric v :
  sorted (dict_keys benchmarks) !! i = Some name -> dict_get benchmarks name = Some bench ->
  group !! j = Some metric -> dict_get (bench_metrics bench) metric = Some v ->
  entry ws lo hi name bench metric (R + 1 + Z.of_nat i) (2 + Z.of_nat j) v.
Proof.
  intros Hi Hb Hj Hv. destruct Hp as (H1 & H2 & H3 & H4). pose proof (lookup_lt_Some _ _ _ Hi).
  destruct (bench_row_shown (R + 1 + Z.of_nat i) group name bench Hs Hd) as (Hn & Hsuf & Hval & _).
  unfold entry. rewrite !(H4 i name bench _ Hi Hb). split_and!; [lia|lia|by apply Hval with metric|done..|].
  exists R. split; [lia|]. by apply H3.
Qed.

Lemma placed_number i name c v :
  sorted (dict_keys benchmarks) !! i = Some name -> shown ws (R + 1 + Z.of_nat i) c = Some (Number v) ->
  exists bench metric, dict_get benchmarks name = Some bench /\ entry ws lo hi name bench metric (R + 1 + Z.of_nat i) c v.
Proof.
  intros Hi Hc. assert (Hin : name ∈ dict_keys benchmarks) by (rewrite <- sorted_perm; by eapply list_elem_of_lookup_2).
  apply dict_get_is_Some in Hin as [bench Hb]. destruct Hp as (_ & _ & _ & H4). rewrite (H4 i name bench c Hi Hb) in Hc.
  destruct (bench_row_shown (R + 1 + Z.of_nat i) group name bench Hs Hd) as (_ & _ & _ & Hconv).
  destruct (Hconv c v Hc) as (j & metric & Hj & Hv & ->). exists bench, metric. split; [done|]. by eapply placed_entry.
Qed.
End Placed.

Lemma group_sorted (groups : list (list string)) group :
  StronglySorted String.le (concat groups) -> NoDup (concat groups) -> group ∈ groups ->
  StronglySorted String.le group /\ NoDup group.
Proof.
  induction groups as [|g groups IH]; cbn [concat]; [by intros _ _ ?%not_elem_of_nil|].
  intros (_ & Hs1 & Hs2)%StronglySorted_app (Hd1 & _ & Hd2)%NoDup_app [->|Hg]%elem_of_cons; [done|by apply IH].
Qed.

(** A part of the sheet with the values of some benchmarks, and no other numbers. *)
Definition section_of (ws : list (Write V)) (lo hi : Z) (P : string -> Bench V -> Prop) : Prop :=
  lo <= hi /\ rows_in lo (hi + 1) ws /\
  (forall name bench metric v, P name bench -> dict_get (bench_metrics bench) metric = Some v ->
     exists r c, entry ws lo (hi + 1) name bench metric r c v) /\
  (forall r c v, shown ws r c = Some (Number v) ->
     exists name bench metric, P name bench /\ entry ws lo (hi + 1) name bench metric r c v).

Lemma section_app a b lo mid hi P Q :
  section_of a lo mid P -> section_of b (mid + 1) hi Q -> section_of (a ++ b) lo hi (fun name bench => P name bench \/ Q name bench).
Proof.
  intros (Hla & Hra & Halla & Hnuma) (Hlb & Hrb & Hallb & Hnumb).
  assert (Ea : forall name bench metric r c v, entry a lo (mid + 1) name bench metric r c v -> entry (a ++ b) lo (hi + 1) name bench metric r c v).
  { intros * He. eapply (entry_app_l a b lo (mid + 1) (mid + 1) (hi + 1)); [exact Hrb|lia|lia|exact He]. }
  assert (Eb : forall name bench metric r c v, entry b (mid + 1) (hi + 1) name bench metric r c v -> entry (a ++ b) lo (hi + 1) name bench metric r c v).
  { intros * He. eapply entry_app_r; [exact Hra|lia|exact He]. }
  split_and!; [lia| | |].
  - apply rows_in_app; [eapply rows_in_mono; [exact Hra|lia|lia]|eapply rows_in_mono; [exact Hrb|lia|lia]].
  - intros name bench metric v [HP|HQ] Hv.
    + destruct (Halla name bench metric v HP Hv) as (r & c & He). exists r, c. by apply Ea.
    + destruct (Hallb name bench metric v HQ Hv) as (r & c & He). exists r, c. by apply Eb.
  - intros r c v. rewrite shown_app. destruct (shown b r c) as [x|] eqn:Xb.
    + intros [= ->]. destruct (Hnumb r c v Xb) as (name & bench & metric & HQ & He). exists name, bench, metric. auto.
    + intros Xa. destruct (Hnuma r c v Xa) as (name & bench & metric & HP & He). exists name, bench, metric. auto.
Qed.

(** One section of the report. *)
Lemma add_report_spec row benchmarks :
  let (row', ws) := add_report row benchmarks in
  section_of ws row row' (fun name bench => dict_get benchmarks name = Some bench).
Proof.
  unfold add_report. set (groups := groupn_loop 10 (report_metrics benchmarks) [] [] 0).
  assert (Hgroups : concat groups = report_metrics benchmarks).
  { destruct (groupn_loop_run 10 (report_metrics benchmarks) [] [] 0) as (full & rest & E & Hc & _); [lia|done|lia|].
    subst groups. by rewrite E. }
  assert (Hsorted : forall g, g ∈ groups -> StronglySorted String.le g /\ NoDup g).
  { intros g. apply group_sorted; rewrite Hgroups; unfold report_metrics; [apply sorted_sorted|].
    rewrite sorted_perm. apply NoDup_remove_dups. }
  pose proof (blocks_placed row row benchmarks groups) as Hblocks.
  destruct (blocks row row benchmarks groups) as [row' ws]. destruct Hblocks as (Hle & Hrows & Hall & Hnum).
  set (first := [mkWrite row 0 (Text (V := V) "benchmark"); mkWrite row 1 (Text "suffix")]).
  assert (Hfirst : rows_in row (row + 1) first) by (repeat constructor; cbn; lia).
  change (mkWrite row 0 (Text (V := V) "benchmark") :: mkWrite row 1 (Text "suffix") :: ws) with (first ++ ws)%list.
  assert (Hp : forall g R, placed ws row row' benchmarks g R -> placed (first ++ ws) row (row' + 1) benchmarks g R).
  { intros g R (H1 & H2 & H3 & H4). split_and!; [done|lia| |].
    - intros j m Hj. by rewrite shown_app, (H3 j m Hj).
    - intros i name bench c Hi Hb. rewrite <- (H4 i name bench c Hi Hb). eapply shown_app_r; [exact Hfirst|lia]. }
  split_and!; [done| | |].
  - apply rows_in_app; [eapply rows_in_mono; [exact Hfirst|lia|lia]|eapply rows_in_mono; [exact Hrows|lia|lia]].
  - intros name bench metric v Hb Hv.
    assert (Hm : metric ∈ concat groups).
    { rewrite Hgroups. unfold report_metrics. rewrite sorted_perm, elem_of_remove_dups. apply elem_of_concat. exists (dict_keys (bench_metrics bench)). split.
      - apply list_elem_of_fmap. exists bench. split; [done|]. apply dict_get_Some_in in Hb. apply list_elem_of_fmap. by exists (name, bench).
      - apply dict_get_is_Some. by eexists. }
    apply elem_of_concat in Hm as (g & Hg & Hm). destruct (Hall g Hg) as [R HR]. destruct (Hsorted g Hg) as [Hs Hd].
    apply list_elem_of_lookup in Hm as [j Hj].
    assert (Hname : name ∈ sorted (dict_keys benchmarks)) by (rewrite sorted_perm; apply dict_get_is_Some; by eexists).
    apply list_elem_of_lookup in Hname as [i Hi]. do 2 eexists. by eapply (placed_entry _ _ _ _ _ _ (Hp _ _ HR)).
  - intros r c v. rewrite shown_app. destruct (shown ws r c) as [x|] eqn:Ex.
    + intros [= ->]. destruct (Hnum r c v Ex) as (g & R & i & name & Hg & HR & -> & Hi). destruct (Hsorted g Hg) as [Hs Hd].
      exists name. eapply (placed_number _ _ _ _ _ _ (Hp _ _ HR)); try done. by rewrite shown_app, Ex.
    + intros (w & Hw & _ & _ & Hcell)%shown_write. unfold first in Hw. rewrite !elem_of_cons in Hw.
      destruct Hw as [->|[->|?%not_elem_of_nil]]; done.
Qed.

Lemma select_get (benchmarks : dict string (Bench V)) keys name bench :
  dict_get (select benchmarks keys) name = Some bench <-> name ∈ keys /\ dict_get benchmarks name = Some bench.
Proof.
  unfold select. induction keys as [|k keys IH]; cbn [omap list_omap].
  { split; [done|]. by intros [?%not_elem_of_nil _]. }
  rewrite elem_of_cons. destruct (dict_get benchmarks k) as [b|] eqn:Ek; cbn [option_map dict_get].
  - case_decide as E; [subst|].
    + rewrite Ek. naive_solver.
    + rewrite IH. naive_solver.
  - rewrite IH. naive_solver congruence.
Qed.

(** C26: the report is complete and right: every value of every benchmark is in a
    cell of the finished sheet whose row starts with the benchmark and its suffix
    and whose column is headed by the metric, in whichever of the three sections
    and however many blocks; and every number of the sheet is such a value. *)
Theorem report_complete (benchmarks : dict string (Bench V)) :
  let ws := gen_report benchmarks in
  exists hi,
  (forall name bench metric v, dict_get benchmarks name = Some bench -> dict_get (bench_metrics bench) metric = Some v ->
     exists r c, entry ws 0 hi name bench metric r c v) /\
  (forall r c v, shown ws r c = Some (Number v) ->
     exists name bench metric, dict_get benchmarks name = Some bench /\ entry ws 0 hi name bench metric r c v).
Proof.
  cbv zeta. unfold gen_report, partition. set (onnx := List.filter (startswith "onnx_") (dict_keys benchmarks)).
  set (others := List.filter (fun x => negb (startswith "onnx_" x)) (dict_keys benchmarks)).
  set (mms := List.filter (startswith "mms_") others). set (rest := List.filter (fun x => negb (startswith "mms_" x)) others).
  pose proof (add_report_spec 1 (select benchmarks rest)) as H1. destruct (add_report 1 _) as [row1 w1].
  pose proof (add_report_spec (row1 + 1) (select benchmarks onnx)) as H2. destruct (add_report (row1 + 1) _) as [row2 w2].
  pose proof (add_report_spec (row2 + 1) (select benchmarks mms)) as H3. destruct (add_report (row2 + 1) _) as [row3 w3].
  assert (H0 : section_of [mkWrite 0 0 (Text (V := V) "Benchmark AI report")] 0 0 (fun _ _ => False)).
  { split_and!; [lia|repeat constructor; cbn; lia|done|]. intros r c v. cbn [shown w_row w_col w_cell].
    by destruct ((0 =? r) && (0 =? c)). }
  destruct (section_app _ _ _ _ _ _ _ H0 (section_app _ _ _ _ _ _ _ H1 (section_app _ _ _ _ _ _ _ H2 H3))) as (_ & _ & Hall & Hnum).
  cbn [app] in *. exists (row3 + 1). split.
  - intros name bench metric v Hb Hv. apply Hall; [|done]. rewrite !select_get.
    assert (Hn : name ∈ dict_keys benchmarks) by (apply dict_get_is_Some; by eexists).
    unfold rest, mms, onnx, others. rewrite !elem_of_list_filter_b. destruct (startswith "onnx_" name), (startswith "mms_" name); cbn; tauto.
  - intros r c v Hv. destruct (Hnum r c v Hv) as (name & bench & metric & HP & He). exists name, bench, metric. split; [|done].
    rewrite !select_get in HP. tauto.
Qed.
End Cells.

(** ** A small report *)

Module Example1.
#[local] Existing Instance literal_floats.

Definition quoted (s : string) : string := String (chr 34) (s +:+ String (chr 34) "").
Definition field (k v : string) : string := quoted k +:+ ": " +:+ quoted v.

(** Three rules, of which the first two are skipped, and two metrics. *)
#[local] Instance world0 : ReportWorld unit Z := {|
  list_metrics _ := ret ["mxnet.resnet.speed.p3"; "mxnet.resnet.loss.p3"; "tf.bert.loss.c5"];
  list_rules := ret ["first"; "second"; "TriggerNightlyTestStatusCheck"; "onnx_resnet"];
  list_targets_by_rule rule := ret [Some ("{" +:+ field "framework_name" "mxnet" +:+ ", " +:+ field "task_name" "resnet"
                                            +:+ ", " +:+ field "metrics_suffix" "p3" +:+ "}")];
  get_metric_statistics metric := ret (if String.eqb metric "mxnet.resnet.speed.p3" then [7; 8] else [])
|}.

Definition benchmarks0 : dict string (Bench Z) := [("onnx_resnet", mkBench [("speed", 7)] "p3")].

Example gathered : gather_benchmarks tt = (Ok benchmarks0, tt).
Proof. reflexivity. Qed.

Example laid_out :
  shown (gen_report benchmarks0) 3 0 = Some (Text "onnx_resnet") /\ shown (gen_report benchmarks0) 2 2 = Some (Text "speed") /\
  shown (gen_report benchmarks0) 3 2 = Some (Number 7).
Proof. vm_compute. auto. Qed.
End Example1.
