(* ===== verification/AnubisDriver.v ===== *)
(** * The pipeline driver (ci/anubis-driver.py)

    The script that sets the pipeline and its infrastructure up and takes them
    down: the variables it keeps between runs in two files, the answers it asks
    for, and the commands it calls.  Files, commands, the terminal and AWS are
    behind the class [DriverWorld]. *)

From S2P Require Import Prelude PyStr Json.

#[local] Arguments String.append !_ _ /.

(** ** Variables and their files *)

(** [open_terraform_vars_file]: the contents of the file, if there is one. *)
Definition vars_line (d : dict string string) (line : string) : Res (dict string string) :=
  match split_once "=" (strip line) with
  | None => Raise (ValueError "substring not found")
  | Some (key, value) => Ok (dict_set d (strip key) (strip_by (fun c => Ascii.eqb c (chr 34)) (strip value)))
  end.

Fixpoint vars_lines (d : dict string string) (lines : list string) : Res (dict string string) :=
  match lines with
  | [] => Ok d
  | line :: lines' => d' <~ vars_line d line ;; vars_lines d' lines'
  end.

Definition open_terraform_vars_file (contents : option string) : Res (dict string string) :=
  match contents with None => Ok [] | Some text => vars_lines [] (text_lines text) end.

Definition VARIABLE_NAMES : list string :=
  ["github_branch"; "github_organization"; "chime_hook_url"; "run_integration_tests"; "region"; "bucket";
   "prefix_list_id"; "extra_users"; "extra_roles"; "white_listed_cidrs"].

(** [Config.variables]: [None] for a variable without value. *)
Abbreviation Config := (dict string (option string)).

(** The iteration order of a set of texts is not specified. *)
Class StrSetOrder : Type := {
  str_set : list string -> list string;
  str_set_NoDup : forall l, NoDup (str_set l);
  str_set_elem : forall l x, x ∈ str_set l <-> x ∈ l
}.

Section ConfigOps.
Context `{StrSetOrder}.

(** [Config.__init__], from the two files. *)
Definition Config_init (backend tfvars : option string) : Res Config :=
  b <~ open_terraform_vars_file backend ;;
  t <~ open_terraform_vars_file tfvars ;;
  let existing_values := dict_update (dict_update [] b) t in
  Ok (map (fun n => (n, dict_get existing_values n)) (str_set VARIABLE_NAMES)).

(** [config[item]] for a name of the class. *)
Definition cfg_get (c : Config) (item : string) : option string :=
  match dict_get c item with Some v => v | None => None end.

(** [__setitem__]. *)
Definition cfg_set (c : Config) (key : string) (value : option string) : Res Config :=
  if bool_decide (key ∈ VARIABLE_NAMES) then Ok (dict_set c key value)
  else Raise (KeyError (key +:+ " is not valid. Must be one of: {" +:+
                join ", " (map (fun n => repr_of_pyval (VStr n)) (str_set VARIABLE_NAMES)) +:+ "}")).

Definition is_backend_variable (name : string) : bool := bool_decide (name ∈ ["region"; "bucket"]).

Definition quote : string := String (chr 34) "".

(** [write]: the texts of the two files. *)
Definition write_var (kv : string * option string) : string :=
  kv.1 +:+ "=" +:+ quote +:+ default "" kv.2 +:+ quote +:+ String "010" "".

Definition write_vars (keep : string -> bool) (c : Config) : string :=
  join "" (map write_var (List.filter (fun kv => str_truthy kv.2 && keep kv.1) c)).

Definition backend_file (c : Config) : string := write_vars is_backend_variable c.
Definition tfvars_file (c : Config) : string :=
  write_vars (fun n => String.eqb n "region" || negb (is_backend_variable n)) c.

(** [create_from_args]: the given arguments win over the files. *)
Fixpoint set_args (c : Config) (arg : string -> option string) (names : list string) : Res Config :=
  match names with
  | [] => Ok c
  | n :: names' =>
      c' <~ (if str_truthy (arg n) then cfg_set c n (arg n) else Ok c) ;;
      set_args c' arg names'
  end.

(** [add_args]: the options and whether they are required; the names without
    an option of their own follow in the order of the set. *)
Definition set_remove (n : string) (s : list string) : Res (list string) :=
  if bool_decide (n ∈ s) then Ok (List.filter (fun x => negb (String.eqb x n)) s) else Raise (KeyError n).

Definition flag_of (var_name : string) : string := "--" +:+ py_replace "_" "-" var_name.

Definition add_args : Res (list (string * bool)) :=
  variable_names <~ set_remove "region" (str_set VARIABLE_NAMES) ;;
  variable_names <~ set_remove "prefix_list_id" variable_names ;;
  variable_names <~ set_remove "extra_users" variable_names ;;
  variable_names <~ set_remove "white_listed_cidrs" variable_names ;;
  variable_names <~ set_remove "extra_roles" variable_names ;;
  variable_names <~ set_remove "chime_hook_url" variable_names ;;
  Ok ([("--region", true); ("--prefix-list-id", true); ("--extra-users", false); ("--white-listed-cidrs", false);
       ("--extra-roles", false); ("--chime-hook-url", false)] ++ map (fun n => (flag_of n, false)) variable_names)%list.

Definition create_from_args (backend tfvars : option string) (arg : string -> option string) : Res Config :=
  c <~ Config_init backend tfvars ;;
  set_args c arg (str_set VARIABLE_NAMES).
End ConfigOps.

(** ** The world of the script *)

(** A stage of the pipeline: whether it has run, and its actions with their
    status, if they have run. *)
Record Stage := mkStage {
  stage_name : string;
  stage_ran : bool;
  stage_actions : list (string * option string)
}.

(** Paths are as in the source, relative to the working directory; a command
    comes with the directory that it is called in, "." for the default. *)
Class DriverWorld (X : Type) : Type := {
  path_exists : string -> M X bool;
  read_text : string -> M X string;
  write_text : string -> string -> M X unit;
  remove : string -> M X unit;
  call : list string -> string -> M X Z;
  check_output : list string -> M X string;
  run_output : list string -> string -> M X string;
  input : string -> M X string;
  in_environ : string -> M X bool;
  caller_account : M X string;
  caller_arn : M X string;
  bucket_exists : string -> M X bool;
  create_bucket : string -> option string -> M X unit;
  get_secret : string -> M X (option string);
  service_dirs : M X (list string);
  pipeline_state : string -> M X (list Stage);
  sleep : Z -> M X unit
}.

Definition BACKEND_CONFIG : string := ".terraform/ci-backend-config".
Definition TFVARS : string := "terraform.tfvars".
Definition TFSTATE : string := ".terraform/terraform.tfstate".

(** A plain [Exception]. *)
Definition Failure (msg : string) : exn := OtherException "Exception" msg.

Section Driver.
Context `{DriverWorld X} `{StrSetOrder} {F : PyFloat}.

Definition read_if_exists (p : string) : M X (option string) :=
  found <- path_exists p ;;
  if (found : bool) then text <- read_text p ;; ret (Some text) else ret None.

(** [Config.create_from_args], and [Config.write], on the files. *)
Definition load_config (arg : string -> option string) : M X Config :=
  backend <- read_if_exists BACKEND_CONFIG ;;
  tfvars <- read_if_exists TFVARS ;;
  lift (create_from_args backend tfvars arg).

Definition write_config (c : Config) : M X unit :=
  write_text BACKEND_CONFIG (backend_file c) ;;
  write_text TFVARS (tfvars_file c).

Definition rm (p : string) : M X unit :=
  found <- path_exists p ;;
  if (found : bool) then remove p else ret tt.

(** [remove_terraform_config_files]. *)
Definition remove_terraform_config_files : M X unit :=
  rm TFSTATE ;; rm BACKEND_CONFIG ;; rm TFVARS ;; rm "terraform.plan".

(** [chime_hook_url]. *)
Definition chime_hook_url (c : Config) : M X Config :=
  if str_truthy (cfg_get c "chime_hook_url") then ret c
  else
    secret <- get_secret "ChimeHookUrl" ;;
    match secret with
    | Some url => lift (cfg_set c "chime_hook_url" (Some url))
    | None => ret c
    end.

(** [s3_remote_state_bucket]; the script is run in its own directory. *)
Definition forget_other_account (c : Config) : M X Config :=
  found <- path_exists BACKEND_CONFIG ;;
  if (found : bool) then
    ci_backend_config <- read_text BACKEND_CONFIG ;;
    account <- caller_account ;;
    if contains account ci_backend_config then ret c
    else
      remove BACKEND_CONFIG ;;
      c' <- lift (cfg_set c "bucket" None) ;;
      rm TFSTATE ;;
      ret c'
  else ret c.

Definition s3_remote_state_bucket (c : Config) (region : string) : M X Config :=
  c <- forget_other_account c ;;
  c <- match cfg_get c "bucket" with
       | Some _ => ret c
       | None =>
           account <- caller_account ;;
           lift (cfg_set c "bucket" (Some ("bai-ci-terraform-state-" +:+ account +:+ "-" +:+ region)))
       end ;;
  let bucket_name := default "" (cfg_get c "bucket") in
  created <- bucket_exists bucket_name ;;
  (if (created : bool) then ret tt
   else create_bucket bucket_name (if String.eqb region "us-east-1" then None else Some region)) ;;
  ret c.

(** [add_current_user_arn]. *)
Definition with_user (extra : option string) (arn : string) : string :=
  join "," (str_set (arn :: match extra with None => [] | Some s => split_char "," s end)).

Definition add_current_user_arn (c : Config) : M X Config :=
  arn <- caller_arn ;;
  lift (cfg_set c "extra_users" (Some (with_user (cfg_get c "extra_users") arn))).

(** A command whose failure is an exception, with its message. *)
Definition must (msg : string) (cmd : list string) (cwd : string) : M X unit :=
  return_code <- call cmd cwd ;;
  if return_code =? 0 then ret tt else raise (Failure (msg +:+ ": " +:+ pretty return_code)).

Definition CLUSTER : string := "../baictl/drivers/aws/cluster/.terraform/bai/".

(** [sync_baictl]. *)
Definition sync_baictl : M X unit :=
  account_id <- caller_account ;;
  found <- path_exists (CLUSTER +:+ "backend.tfvars") ;;
  (if (found : bool) then
     backend_tfvars <- read_text (CLUSTER +:+ "backend.tfvars") ;;
     if contains account_id backend_tfvars then ret tt
     else must "Failure calling `rm -rf drivers/aws/cluster/.terraform` in baictl"
            ["rm"; "-rf"; "drivers/aws/cluster/.terraform"] "../baictl"
   else ret tt) ;;
  must "Failure calling `make sync-infra` in baictl" ["make"; "sync-infra"] "../baictl".

(** [undeploy_services]: the directories with a Makefile. *)
Definition undeploy_services : M X unit :=
  dirs <- service_dirs ;;
  for_each (fun folder =>
    must ("Failure calling `make undeploy` in " +:+ folder) ["make"; "undeploy"] ("../" +:+ folder)) dirs.

(** [destroy_pipeline]. *)
Definition destroy_pipeline (region : string) : M X unit :=
  c1 <- call ["terraform"; "output"; "blackbox_vpc_default_group_id"] "." ;;
  known <- (if c1 =? 0 then
              c2 <- call ["terraform"; "output"; "blackbox_public_group_id"] "." ;; ret (c2 =? 0)
            else ret false) ;;
  (if (known : bool) then
     group_id <- check_output ["terraform"; "output"; "blackbox_vpc_default_group_id"] ;;
     source_group <- check_output ["terraform"; "output"; "blackbox_public_group_id"] ;;
     _ <- call ["aws"; "ec2"; "revoke-security-group-ingress"; "--region"; region; "--group-id"; strip group_id;
                "--source-group"; strip source_group; "--protocol"; "all"] "." ;;
     ret tt
   else ret tt) ;;
  must "Failure calling `terraform destroy`" ["terraform"; "destroy"; "-auto-approve"] ".".

(** [destroy_infrastructure]. *)
Definition destroy_infrastructure : M X unit :=
  must "Failure calling `make destroy` in baictl" ["make"; "destroy-infra"] "../baictl".

(** The status of the deployment of the front end, as the stages say; it keeps
    its value when they say nothing. *)
Definition action_status (status : string) (action : string * option string) : string :=
  if contains "bai-bff" action.1 then default status action.2 else status.

Definition stage_status (status : string) (stage : Stage) : string :=
  if String.eqb (lower (stage_name stage)) "deploy" then
    if stage_ran stage then fold_left action_status (stage_actions stage) status else "NotRunYet"
  else status.

Definition endpoint_of (service : string) : Res string :=
  v <~ json_loads service ;;
  v <~ jget v "status" ;;
  v <~ jget v "loadBalancer" ;;
  v <~ jget v "ingress" ;;
  v <~ jfirst v ;;
  v <~ jget v "hostname" ;;
  match v with JStr s => Ok s | _ => Raise (TypeError "hostname") end.

(** [get_service_endpoint]: [None] when the polls run out. *)
Fixpoint get_service_endpoint (polls : nat) (status : string) : M X (option string) :=
  match polls with
  | O => ret None
  | S polls' =>
      stages <- pipeline_state "Anubis" ;;
      let status := fold_left stage_status stages status in
      if String.eqb status "Succeeded" then
        sync_baictl ;;
        found <- path_exists (CLUSTER +:+ "kubeconfig") ;;
        if (found : bool) then
          service <- check_output ["kubectl"; "--kubeconfig=" +:+ CLUSTER +:+ "kubeconfig"; "get"; "service"; "bai-bff"; "-o"; "json"] ;;
          endpoint <- lift (endpoint_of service) ;;
          ret (Some endpoint)
        else raise (Failure ("baictl sync infra failed to download: " +:+ CLUSTER +:+ "kubeconfig"))
      else if String.eqb status "Failed" then
        raise (Failure "Unable to get service endpoint since `bai-bff` deploy stage failed")
      else sleep 60 ;; get_service_endpoint polls' status
  end.

(** The answers that count as a yes. *)
Definition agreed (user_response : string) : bool := bool_decide (strip (lower user_response) ∈ ["y"; "yes"; ""]).

(** [register_service_endpoint]. *)
Definition register_service_endpoint (service_endpoint : string) : M X unit :=
  shown <- run_output ["./bin/anubis"; "--show-registered-service-endpoint"] "../bai-bff" ;;
  if contains service_endpoint shown then ret tt
  else
    response <- input "Do you want to register this service endpoint now? ([y]/n)?: " ;;
    if agreed response then
      must ("Failure registering service endpoint to bff `/bin/anubis --register " +:+ service_endpoint +:+ "`")
        ["./bin/anubis"; "--register"; service_endpoint +:+ ":80"] "../bai-bff"
    else ret tt.

(** ** [main] *)

Record DriverArgs := mkDriverArgs { da_clean : bool; da_destroy : bool; da_var : string -> option string }.

(** From the arguments to the configuration in the files. *)
Definition prepare (args : DriverArgs) : M X Config :=
  config <- load_config (da_var args) ;;
  let region := default "" (cfg_get config "region") in
  config <- chime_hook_url config ;;
  config <- s3_remote_state_bucket config region ;;
  config <- add_current_user_arn config ;;
  write_config config ;;
  ret config.

Definition destroy_all (region : string) : M X unit :=
  sync_baictl ;; destroy_pipeline region ;; undeploy_services ;; destroy_infrastructure.

Definition create_all (polls : nat) : M X Z :=
  token <- in_environ "GITHUB_TOKEN" ;;
  if (token : bool) then
    must "Failure calling `terraform plan`" ["terraform"; "plan"; "--out=terraform.plan"] "." ;;
    must "Failure calling `terraform plan`" ["terraform"; "apply"; "terraform.plan"] "." ;;
    endpoint <- get_service_endpoint polls "Unknown" ;;
    match endpoint with
    | Some e => register_service_endpoint e ;; ret 0
    | None => ret 0
    end
  else ret 1.

(** The result is the value of [main], 0 for [None]; [sys.exit()] ends the
    program with 0. *)
Definition main (polls : nat) (args : DriverArgs) : M X Z :=
  if da_clean args then remove_terraform_config_files ;; ret 0
  else
    config <- prepare args ;;
    let region := default "" (cfg_get config "region") in
    response <- input ("Do you want to " +:+ (if da_destroy args then "destroy" else "create")
                         +:+ " the pipeline with this configuration? ([y]/n)?: ") ;;
    if agreed response then
      must "Failure to init terraform" ["terraform"; "init"; "-backend-config=.terraform/ci-backend-config"] "." ;;
      if da_destroy args then destroy_all region ;; ret 0 else create_all polls
    else ret 0.
End Driver.

(** ** What the files keep *)

Section Files.
Context `{StrSetOrder}.

(** The parser has an option for every variable, so [create_from_args] finds
    all the attributes it asks for; only the two options of AWS are required. *)
Lemma set_remove_elem n s l :
  (forall x, x ∈ s <-> x ∈ l) -> bool_decide (n ∈ l) = true ->
  exists s', set_remove n s = Ok s' /\ forall x, x ∈ s' <-> x ∈ List.filter (fun x => negb (String.eqb x n)) l.
Proof.
  intros Hs Hn%bool_decide_eq_true. unfold set_remove. rewrite bool_decide_true by by apply Hs.
  eexists. split; [reflexivity|]. intros x. setoid_rewrite list_elem_of_In. rewrite !filter_In.
  by rewrite <- !list_elem_of_In, Hs.
Qed.

Lemma add_args_options :
  exists options, add_args = Ok options /\ (forall n, n ∈ VARIABLE_NAMES -> flag_of n ∈ options.*1) /\
    (forall o, o ∈ options -> o.2 = true -> o.1 = "--region" \/ o.1 = "--prefix-list-id").
Proof.
  unfold add_args.
  assert (Hin : forall x, x ∈ str_set VARIABLE_NAMES <-> x ∈ VARIABLE_NAMES) by (intros; apply str_set_elem).
  repeat match goal with
    | Hs : forall x, x ∈ ?s <-> _ |- context [set_remove ?n ?s] =>
        let s' := fresh "s" in let E := fresh "E" in
        destruct (set_remove_elem n s _ Hs eq_refl) as (s' & E & ?);
        rewrite E; cbn [res_bind]; clear E Hs
    end.
  match goal with H : forall x, x ∈ ?s <-> x ∈ ?l |- _ =>
    let l' := eval vm_compute in l in change l with l' in H; rename s into rest; rename H into Hrest end.
  eexists. split; [reflexivity|]. rewrite fmap_app. split.
  - intros n Hn. apply elem_of_app.
    set (own := ["--region"; "--prefix-list-id"; "--extra-users"; "--white-listed-cidrs"; "--extra-roles"; "--chime-hook-url"]).
    match type of Hrest with forall x, _ <-> _ ∈ ?l =>
      assert (Hall : forallb (fun n => bool_decide (flag_of n ∈ own) || bool_decide (n ∈ l)) VARIABLE_NAMES = true)
        by (vm_compute; reflexivity) end.
    rewrite forallb_forall in Hall. apply list_elem_of_In, Hall in Hn.
    rewrite orb_true_iff, !bool_decide_eq_true in Hn. rewrite <- Hrest in Hn.
    destruct Hn as [Hf|Hr]; [by left|right]. apply list_elem_of_fmap. exists (flag_of n, false). split; [done|].
    apply list_elem_of_fmap. by exists n.
  - intros [o req] [Ho|Ho]%elem_of_app; cbn [fst snd]; intros ->.
    + apply list_elem_of_In in Ho. cbn [In] in Ho. destruct_or?; try done; injection Ho as <-; auto.
    + apply list_elem_of_fmap in Ho as (? & [=] & _).
Qed.

Definition is_quote (c : ascii) : bool := Ascii.eqb c (chr 34).

(** One character around or after a text is stripped. *)
Lemma strip_by_after p s c : p c = true -> edges p s = false -> s <> "" -> strip_by p (s +:+ String c "") = s.
Proof.
  intros Hc [H1 H2]%orb_false_iff Hs. unfold strip_by. rewrite (lstrip_head p (s +:+ String c "")) by (by destruct s).
  rewrite str_rev_app. cbn [str_rev String.append lstrip_by]. rewrite Hc, (lstrip_head p (str_rev s)) by done. apply str_rev_involutive.
Qed.

Lemma strip_by_around p s c : p c = true -> edges p s = false -> s <> "" -> strip_by p (String c (s +:+ String c "")) = s.
Proof.
  intros Hc He Hs. rewrite <- (strip_by_after p s c) at 2 by done. unfold strip_by at 1. cbn [lstrip_by]. by rewrite Hc.
Qed.

Lemma str_rev_last s c : str_rev (s +:+ String c "") = String c (str_rev s).
Proof. by rewrite str_rev_app. Qed.

Lemma edges_last p s c : head_is p s = false -> s <> "" -> p c = false -> edges p (s +:+ String c "") = false.
Proof.
  intros H1 Hs Hc. unfold edges. rewrite str_rev_last. destruct s as [|x s]; [done|].
  cbn [String.append head_is] in *. by rewrite H1, Hc.
Qed.

(** A value that the file format can hold: one line, with no quote at its ends. *)
Definition storable (v : string) : bool := one_line v && negb (edges is_quote v).

Lemma names_plain n : n ∈ VARIABLE_NAMES -> one_line n = true /\ no_char "=" n = true /\ edges is_space n = false /\ n <> "".
Proof. intros Hn. repeat (apply elem_of_cons in Hn as [->|Hn]; [by vm_compute|]). by apply elem_of_nil in Hn. Qed.

Lemma write_var_text n v : write_var (n, Some v) = (n +:+ "=" +:+ quote +:+ v +:+ quote) +:+ String "010" "".
Proof. unfold write_var. cbn [fst snd default]. by rewrite !str_app_assoc. Qed.

(** The line of a variable is read back as its value. *)
Lemma vars_line_write d n v :
  n ∈ VARIABLE_NAMES -> storable v = true -> v <> "" -> vars_line d (write_var (n, Some v)) = Ok (dict_set d n v).
Proof.
  intros Hn [_ Hq]%andb_true_iff Hv. apply negb_true_iff in Hq. destruct (names_plain n Hn) as (_ & Heq & He & Hne).
  rewrite write_var_text. unfold vars_line, strip.
  assert (Hhead : head_is is_space n = false) by (by apply orb_false_iff in He as [? _]).
  assert (Hline : edges is_space (n +:+ "=" +:+ quote +:+ v +:+ quote) = false).
  { replace (n +:+ "=" +:+ quote +:+ v +:+ quote) with ((n +:+ "=" +:+ quote +:+ v) +:+ String (chr 34) "")
      by (by rewrite !str_app_assoc).
    apply edges_last; [by destruct n|by destruct n|reflexivity]. }
  rewrite strip_by_after; [|reflexivity|exact Hline|by destruct n].
  change ("=" +:+ quote +:+ v +:+ quote) with (String "=" (quote +:+ v +:+ quote)). rewrite split_once_app by done.
  rewrite (strip_by_edges _ n He). change (quote +:+ v +:+ quote) with (String (chr 34) (v +:+ String (chr 34) "")).
  rewrite (strip_by_edges is_space).
  - by rewrite (strip_by_around is_quote).
  - apply (edges_last is_space (String (chr 34) v)); done.
Qed.

Lemma one_line_app a b : one_line (a +:+ b) = one_line a && one_line b.
Proof. unfold one_line. rewrite !no_char_app. by destruct (no_char "010" a), (no_char "010" b), (no_char "013" a). Qed.

Lemma join_empty_cons s l : join "" (s :: l) = s +:+ join "" l.
Proof. destruct l; [by rewrite str_app_nil_r|done]. Qed.

(** An entry that [write] puts into a file. *)
Definition entry_ok (kv : string * option string) : Prop :=
  kv.1 ∈ VARIABLE_NAMES /\ exists v, kv.2 = Some v /\ v <> "" /\ storable v = true.

Definition plain (kv : string * option string) : string * string := (kv.1, default "" kv.2).

Lemma vars_lines_write l d :
  Forall entry_ok l -> vars_lines d (text_lines (join "" (map write_var l))) = Ok (dict_update d (map plain l)).
Proof.
  intros Hl. revert d. induction Hl as [|[n o] l (Hn & v & Hv & Hne & Hs) Hl IH]; intros d; [done|].
  cbn [fst snd] in *. subst o. cbn [map]. rewrite join_empty_cons, write_var_text, str_app_assoc.
  change (String "010" "" +:+ ?r) with (String "010" r).
  assert (Hone : one_line (n +:+ "=" +:+ quote +:+ v +:+ quote) = true).
  { pose proof Hs as [Hv _]%andb_true_iff. rewrite !one_line_app, Hv, (proj1 (names_plain n Hn)). reflexivity. }
  rewrite text_lines_cons by done. cbn [vars_lines]. rewrite <- write_var_text, vars_line_write by done. apply IH.
Qed.

Lemma write_vars_read keep (c : Config) :
  dict_wf c -> (forall n v, dict_get c n = Some (Some v) -> n ∈ VARIABLE_NAMES /\ (v <> "" -> storable v = true)) ->
  exists d, open_terraform_vars_file (Some (write_vars keep c)) = Ok d /\ dict_wf d /\
    forall n, dict_get d n = if keep n && str_truthy (cfg_get c n) then cfg_get c n else None.
Proof.
  intros Hwf Hc. unfold open_terraform_vars_file, write_vars.
  set (l := List.filter (fun kv : string * option string => str_truthy kv.2 && keep kv.1) c).
  assert (Hin : forall n o, (n, o) ∈ l <-> dict_get c n = Some o /\ str_truthy o = true /\ keep n = true).
  { intros n o. unfold l. rewrite elem_of_list_filter_b, andb_true_iff. cbn [fst snd].
    split; [intros [H1 H2]; split; [by apply dict_in_get|done]|intros [H1 H2]; split; [by apply dict_get_Some_in|done]]. }
  assert (Hl : Forall entry_ok l).
  { apply Forall_forall. intros [n o] (Hg & Ht & _)%Hin. destruct o as [v|]; [|done].
    simpl in Ht. apply negb_true_iff, String.eqb_neq in Ht. destruct (Hc n v Hg) as [Hn Hs]. split; [done|]. exists v. auto. }
  assert (Hkeys : NoDup (map plain l).*1).
  { rewrite <- list_fmap_compose. change (fst ∘ plain) with (@fst string (option string)).
    eapply sublist_NoDup; [exact Hwf|]. apply fmap_sublist. unfold l. clear. induction c as [|kv c IH]; [done|].
    cbn [List.filter]. destruct (_ && _); by constructor. }
  rewrite vars_lines_write by done. eexists. split; [reflexivity|]. split; [by apply dict_update_wf, NoDup_nil|].
  intros n. rewrite dict_get_update by done. cbn [dict_get].
  assert (Hget : forall v, dict_get (map plain l) n = Some v <-> dict_get l n = Some (Some v)).
  { intros v. clear - Hl. induction Hl as [|[n' o] l (_ & v' & Ho & _) _ IH]; [done|]. cbn [snd] in Ho. subst o.
    cbn. case_decide; [naive_solver|done]. }
  destruct (dict_get (map plain l) n) as [v|] eqn:E.
  - pose proof (proj1 (Hget v) eq_refl) as (Hg & Ht & Hk)%dict_get_Some_in%Hin. unfold cfg_get. by rewrite Hk, Hg, Ht.
  - destruct (keep n && str_truthy (cfg_get c n)) eqn:Ek; [|done]. apply andb_true_iff in Ek as [Hk Ht].
    unfold cfg_get in *. destruct (dict_get c n) as [[v|]|] eqn:Eg; [|done|done].
    assert (Hv : (n, v) ∈ map plain l) by (apply list_elem_of_fmap; exists (n, Some v); split; [done|by apply Hin]).
    apply dict_in_get in Hv; [congruence|exact Hkeys].
Qed.

(** A configuration survives its files: what [write] puts into the two
    files, the next run of the script reads back, every variable with its value
    and an empty one as missing, when no value has a line break or a quote at
    one of its ends. *)
Theorem config_roundtrip (c : Config)
    (Hwf : dict_wf c) (Hnames : forall n v, dict_get c n = Some (Some v) -> n ∈ VARIABLE_NAMES /\ (v <> "" -> storable v = true)) :
  exists c', Config_init (Some (backend_file c)) (Some (tfvars_file c)) = Ok c' /\
    (forall n, n ∈ dict_keys c' <-> n ∈ VARIABLE_NAMES) /\
    forall n, n ∈ VARIABLE_NAMES -> cfg_get c' n = if str_truthy (cfg_get c n) then cfg_get c n else None.
Proof.
  destruct (write_vars_read is_backend_variable c Hwf Hnames) as (b & Hb & Hbw & Hbg).
  destruct (write_vars_read (fun n => String.eqb n "region" || negb (is_backend_variable n)) c Hwf Hnames) as (t & Ht & Htw & Htg).
  unfold Config_init, backend_file, tfvars_file. rewrite Hb, Ht. cbn [res_bind]. eexists. split; [reflexivity|].
  assert (Hkeys : forall f : string -> option string, dict_keys (map (fun n => (n, f n)) (str_set VARIABLE_NAMES)) = str_set VARIABLE_NAMES).
  { intros f. unfold dict_keys. rewrite <- list_fmap_compose. apply list_fmap_id. }
  split; [intros n; rewrite Hkeys; apply str_set_elem|]. intros n Hn. unfold cfg_get at 1.
  match goal with |- context [map ?f (str_set _)] =>
    replace (dict_get (map f (str_set VARIABLE_NAMES)) n) with (Some (f n).2)
      by (symmetry; apply dict_in_get; [unfold dict_wf; rewrite Hkeys; apply str_set_NoDup|];
          apply list_elem_of_fmap; exists n; split; [done|by apply str_set_elem]) end.
  cbn [snd]. rewrite !dict_get_update by done. rewrite Htg, Hbg.
  destruct (str_truthy (cfg_get c n)) eqn:Ec; rewrite ?andb_true_r, ?andb_false_r; [|done].
  destruct (cfg_get c n) as [v|]; [|done].
  by destruct (String.eqb n "region"), (is_backend_variable n).
Qed.

Lemma split_char_parts c s : Forall (fun w => no_char c w = true) (split_char c s).
Proof.
  induction s as [|x s IH]; cbn [split_char]; [by repeat constructor|]. destruct (Ascii.eqb x c) eqn:E; [by constructor|].
  destruct (split_char c s) as [|w ws]; [repeat constructor; unfold no_char; cbn; by rewrite E|].
  apply Forall_cons in IH as [Hw Hws]. constructor; [|done]. unfold no_char in *. cbn. by rewrite E.
Qed.

(** The users of the configuration are a set: the caller is added, once. *)
Lemma with_user_members extra arn x :
  no_char "," arn = true ->
  x ∈ split_char "," (with_user extra arn) <-> x = arn \/ exists s, extra = Some s /\ x ∈ split_char "," s.
Proof.
  intros Ha. unfold with_user. set (l := arn :: _).
  assert (Hl : Forall (fun w => no_char "," w = true) l).
  { constructor; [done|]. destruct extra; [apply split_char_parts|constructor]. }
  rewrite split_join.
  - rewrite str_set_elem. unfold l. rewrite elem_of_cons. destruct extra as [s|]; [naive_solver|]. rewrite elem_of_nil. naive_solver.
  - intros E. assert (Hin : arn ∈ str_set l) by (apply str_set_elem; left). rewrite E in Hin. by apply elem_of_nil in Hin.
  - rewrite Forall_forall in Hl |- *. intros w Hw. by apply Hl, str_set_elem.
Qed.
End Files.

(** ** The commands of a run *)

(** A command with the directory it is called in, and its exit code. *)
Abbreviation Cmd := (list string * string)%type.
Abbreviation Log := (list (Cmd * Z)).

(** Only [call] runs a command; the log keeps it with its exit code.  [answer]
    is what the user types, when there is a user. *)
Class CallLog `{DriverWorld X} : Type := {
  calls : X -> Log;
  has_token : bool;
  dirs : list string;
  answer : string -> string;
  call_logged : forall cmd cwd x,
    match call cmd cwd x with
    | (Ok code, x') => calls x' = (calls x ++ [((cmd, cwd), code)])%list
    | (Raise _, x') => calls x' = calls x
    end;
  path_exists_quiet : forall p x, calls (path_exists p x).2 = calls x;
  read_text_quiet : forall p x, calls (read_text p x).2 = calls x;
  write_text_quiet : forall p t x, calls (write_text p t x).2 = calls x;
  remove_quiet : forall p x, calls (remove p x).2 = calls x;
  check_output_quiet : forall c x, calls (check_output c x).2 = calls x;
  run_output_quiet : forall c d x, calls (run_output c d x).2 = calls x;
  caller_account_quiet : forall x, calls (caller_account x).2 = calls x;
  caller_arn_quiet : forall x, calls (caller_arn x).2 = calls x;
  bucket_exists_quiet : forall n x, calls (bucket_exists n x).2 = calls x;
  create_bucket_quiet : forall n r x, calls (create_bucket n r x).2 = calls x;
  get_secret_quiet : forall n x, calls (get_secret n x).2 = calls x;
  services_listed : forall x, exists x', service_dirs x = (Ok dirs, x') /\ calls x' = calls x;
  pipeline_state_quiet : forall n x, calls (pipeline_state n x).2 = calls x;
  sleep_quiet : forall n x, calls (sleep n x).2 = calls x;
  input_answers : forall q x, calls (input q x).2 = calls x /\ forall a, (input q x).1 = Ok a -> a = answer q;
  token_known : forall x, exists x', in_environ "GITHUB_TOKEN" x = (Ok has_token, x') /\ calls x' = calls x
}.

(** What the script itself changes: the bucket it makes and the files it writes
    and removes. *)
Inductive Change := Made (bucket : string) | Wrote (path : string) | Removed (path : string).

Class ChangeLog `{DriverWorld X} : Type := {
  changes : X -> list Change;
  write_text_changes : forall p t x, exists l, changes (write_text p t x).2 = (changes x ++ l)%list /\
    (l = [Wrote p] \/ is_ok (write_text p t x).1 = false /\ l = []);
  remove_changes : forall p x, exists l, changes (remove p x).2 = (changes x ++ l)%list /\
    (l = [Removed p] \/ is_ok (remove p x).1 = false /\ l = []);
  create_bucket_changes : forall n r x, exists l, changes (create_bucket n r x).2 = (changes x ++ l)%list /\
    (l = [Made n] \/ is_ok (create_bucket n r x).1 = false /\ l = []);
  call_keeps : forall c d x, changes (call c d x).2 = changes x;
  path_exists_keeps : forall p x, changes (path_exists p x).2 = changes x;
  read_text_keeps : forall p x, changes (read_text p x).2 = changes x;
  check_output_keeps : forall c x, changes (check_output c x).2 = changes x;
  run_output_keeps : forall c d x, changes (run_output c d x).2 = changes x;
  caller_account_keeps : forall x, changes (caller_account x).2 = changes x;
  caller_arn_keeps : forall x, changes (caller_arn x).2 = changes x;
  bucket_exists_keeps : forall n x, changes (bucket_exists n x).2 = changes x;
  get_secret_keeps : forall n x, changes (get_secret n x).2 = changes x;
  service_dirs_keeps : forall x, changes (service_dirs x).2 = changes x;
  pipeline_state_keeps : forall n x, changes (pipeline_state n x).2 = changes x;
  sleep_keeps : forall n x, changes (sleep n x).2 = changes x;
  input_keeps : forall q x, changes (input q x).2 = changes x;
  in_environ_keeps : forall v x, changes (in_environ v x).2 = changes x
}.

Section Logs.
Context {X E : Type} {proj : X -> list E}.

(** [m] adds entries to the log [proj] that stand in the relation [P] to its
    result; or none. *)
Definition logs_of {A} (P : Res A -> list E -> Prop) (m : M X A) : Prop :=
  forall x, exists l, proj (m x).2 = (proj x ++ l)%list /\ P (m x).1 l.

Definition quiet_of {A} (m : M X A) : Prop := forall x, proj (m x).2 = proj x.

Lemma logs_mono {A} (P Q : Res A -> list E -> Prop) m :
  logs_of P m -> (forall r l, P r l -> Q r l) -> logs_of Q m.
Proof. intros Hm HPQ x. destruct (Hm x) as (l & Hl & HP). exists l. auto. Qed.

Lemma logs_quiet {A} (P : Res A -> list E -> Prop) (m : M X A) :
  quiet_of m -> (forall r, P r []) -> logs_of P m.
Proof. intros Hm HP x. exists []. by rewrite app_nil_r. Qed.

(** Sequencing: the second part only runs when the first returned. *)
Lemma logs_bind {A B} (P : Res A -> list E -> Prop) (Q : Res B -> list E -> Prop)
    (m : M X A) (k : A -> M X B) :
  logs_of P m -> (forall e l, P (Raise e) l -> Q (Raise e) l) ->
  (forall a l1, P (Ok a) l1 -> logs_of (fun r l2 => Q r (l1 ++ l2)%list) (k a)) -> logs_of Q (bind m k).
Proof.
  intros Hm He Hk x. unfold bind. destruct (Hm x) as (l1 & Hl1 & HP). destruct (m x) as [[a|e] x1]; cbn [fst snd] in *.
  - destruct (Hk a l1 HP x1) as (l2 & Hl2 & HQ). exists (l1 ++ l2)%list. by rewrite Hl2, Hl1, app_assoc.
  - exists l1. auto.
Qed.

Lemma logs_after_quiet {A B} (Q : Res B -> list E -> Prop) (m : M X A) (k : A -> M X B) :
  quiet_of m -> (forall e, Q (Raise e) []) -> (forall a, logs_of Q (k a)) -> logs_of Q (bind m k).
Proof.
  intros Hm He Hk. apply (logs_bind (fun _ l => l = [])).
  - by apply logs_quiet.
  - intros e l ->. apply He.
  - intros a l ->. apply Hk.
Qed.

Lemma logs_ret {A} (P : Res A -> list E -> Prop) (a : A) : P (Ok a) [] -> logs_of P (ret a).
Proof. intros HP x. exists []. by rewrite app_nil_r. Qed.

(** *** Quiet programs *)

Lemma silent_bind {A B} (m : M X A) (k : A -> M X B) : quiet_of m -> (forall a, quiet_of (k a)) -> quiet_of (bind m k).
Proof. intros Hm Hk x. unfold bind. specialize (Hm x). destruct (m x) as [[a|e] x1]; cbn [snd] in *; [by rewrite Hk|done]. Qed.

Lemma silent_ret {A} (a : A) : quiet_of (ret a).
Proof. done. Qed.

Lemma silent_raise {A} e : quiet_of (@raise X A e).
Proof. done. Qed.

Lemma silent_lift {A} (r : Res A) : quiet_of (lift r).
Proof. done. Qed.

Lemma quiet_for_each {A} (f : A -> M X unit) l : (forall a, quiet_of (f a)) -> quiet_of (for_each f l).
Proof. intros Hf. induction l as [|a l IH]; [by apply silent_ret|]. cbn [for_each]. by apply silent_bind. Qed.
End Logs.
Arguments logs_of {X E} proj {A} P m.
Arguments quiet_of {X E} proj {A} m.

Abbreviation logs := (logs_of calls).
Abbreviation quiet := (quiet_of calls).

Section Calls.
Context `{CallLog X} `{StrSetOrder} {F : PyFloat}.

Lemma quiet_input q : quiet (input q).
Proof. intros x. apply input_answers. Qed.

(** A command whose failure is an exception logs itself. *)
Lemma must_logs msg cmd cwd :
  logs (fun r l => (r = Ok tt /\ l = [((cmd, cwd), 0)]) \/
                   (is_ok r = false /\ (l = [] \/ exists code, code <> 0 /\ l = [((cmd, cwd), code)]))) (must msg cmd cwd).
Proof.
  intros x. unfold must, bind. pose proof (call_logged cmd cwd x) as Hc.
  destruct (call cmd cwd x) as [[code|e] x1]; [|exists []; rewrite app_nil_r; cbn; split; [done|by right; split; [|left]]].
  exists [((cmd, cwd), code)]. destruct (Z.eqb_spec code 0) as [->|Hne]; cbn; (split; [done|]); [by left|].
  right. split; [done|]. right. by exists code.
Qed.
End Calls.

Create HintDb quiet.
#[export] Hint Resolve silent_bind silent_ret silent_raise silent_lift quiet_input path_exists_quiet read_text_quiet write_text_quiet
  remove_quiet check_output_quiet run_output_quiet caller_account_quiet caller_arn_quiet bucket_exists_quiet
  create_bucket_quiet get_secret_quiet pipeline_state_quiet sleep_quiet : quiet.
#[export] Hint Resolve call_keeps path_exists_keeps read_text_keeps check_output_keeps run_output_keeps caller_account_keeps
  caller_arn_keeps bucket_exists_keeps get_secret_keeps service_dirs_keeps pipeline_state_keeps sleep_keeps input_keeps
  in_environ_keeps : quiet.

(** Decides [quiet] by the structure of the program. *)
Ltac solve_quiet :=
  repeat first
    [ progress cbv zeta
    | apply silent_bind; [|intros ?]
    | apply silent_ret | apply silent_raise | apply silent_lift | apply quiet_input
    | solve [intros ?; auto with quiet]
    | apply quiet_for_each; intros ?
    | match goal with |- quiet_of _ (if ?b then _ else _) => destruct b end
    | match goal with |- quiet_of _ (match ?o with _ => _ end) => destruct o end ].

Section Runs.
Context `{CallLog X} `{StrSetOrder} {F : PyFloat}.

(** *** Orderly runs: a command is only called when all before it succeeded *)

Definition orderly {A} (r : Res A) (l : Log) : Prop :=
  Forall (fun c => c.2 = 0) (removelast l) /\ (is_ok r = true -> Forall (fun c => c.2 = 0) l).

Lemma orderly_app {A} (r : Res A) l1 l2 : Forall (fun c => c.2 = 0) l1 -> orderly r l2 -> orderly r (l1 ++ l2)%list.
Proof.
  intros Hz [Ha Hb]. split; [|intros Hr; apply Forall_app; auto]. destruct l2 as [|c l2].
  - rewrite app_nil_r. clear - Hz. induction Hz as [|c l Hc Hl IH]; [done|]. destruct l; [done|]. cbn. by constructor.
  - rewrite removelast_app by done. apply Forall_app. auto.
Qed.

Lemma orderly_bind {A B} (m : M X A) (k : A -> M X B) :
  logs orderly m -> (forall a, logs orderly (k a)) -> logs orderly (bind m k).
Proof.
  intros Hm Hk. eapply logs_bind; [exact Hm|by intros e l [Hl _]|].
  intros a l1 [_ Hl]. eapply logs_mono; [apply Hk|]. intros r l2. apply orderly_app. by apply Hl.
Qed.

Lemma orderly_quiet {A} (m : M X A) : quiet m -> logs orderly m.
Proof. intros Hm. apply logs_quiet; [done|]. intros r. by split. Qed.

Lemma orderly_must msg cmd cwd : logs orderly (must msg cmd cwd).
Proof.
  eapply logs_mono; [apply must_logs|]. intros r l [[-> ->]|[Hr Hl]]; [split; repeat constructor|].
  split; [|by rewrite Hr]. destruct Hl as [->|(code & _ & ->)]; constructor.
Qed.

Lemma prepare_quiet args : quiet (prepare args).
Proof.
  unfold prepare, load_config, read_if_exists, chime_hook_url, s3_remote_state_bucket, forget_other_account,
    add_current_user_arn, write_config, rm. solve_quiet.
Qed.

Lemma clean_quiet : quiet (@remove_terraform_config_files X _).
Proof. unfold remove_terraform_config_files, rm. solve_quiet. Qed.

Lemma sync_orderly : logs orderly (@sync_baictl X _).
Proof.
  unfold sync_baictl. apply orderly_bind; [apply orderly_quiet; solve_quiet|intros account].
  apply orderly_bind; [apply orderly_quiet; solve_quiet|intros found].
  apply orderly_bind; [|intros _; apply orderly_must]. destruct found; [|apply orderly_quiet; solve_quiet].
  apply orderly_bind; [apply orderly_quiet; solve_quiet|intros text].
  case_match; [apply orderly_quiet; solve_quiet|apply orderly_must].
Qed.

Lemma endpoint_orderly polls status : logs orderly (get_service_endpoint polls status).
Proof.
  revert status. induction polls as [|polls IH]; intros status; cbn [get_service_endpoint]; [apply orderly_quiet; solve_quiet|].
  apply orderly_bind; [apply orderly_quiet; solve_quiet|intros stages]. cbv zeta.
  case_match; [|case_match; [apply orderly_quiet; solve_quiet|]].
  - apply orderly_bind; [apply sync_orderly|intros _]. apply orderly_quiet. solve_quiet.
  - apply orderly_bind; [apply orderly_quiet; solve_quiet|intros _; apply IH].
Qed.

Lemma register_orderly endpoint : logs orderly (register_service_endpoint endpoint).
Proof.
  unfold register_service_endpoint. apply orderly_bind; [apply orderly_quiet; solve_quiet|intros shown].
  case_match; [apply orderly_quiet; solve_quiet|]. apply orderly_bind; [apply orderly_quiet; solve_quiet|intros response].
  case_match; [apply orderly_must|apply orderly_quiet; solve_quiet].
Qed.

(** The log is an initial part of the steps, or goes on after all of them. *)
Definition follows (steps : list Cmd) (l : Log) : Prop := l.*1 `prefix_of` steps \/ steps `prefix_of` l.*1.

Lemma follows_must {A} msg cmd cwd steps (k : M X A) :
  logs (fun r l => orderly r l /\ follows steps l) k ->
  logs (fun r l => orderly r l /\ follows ((cmd, cwd) :: steps) l) (must msg cmd cwd ;; k).
Proof.
  intros Hk. eapply logs_bind; [apply must_logs| |].
  - intros e l [[[=] _]|[_ Hl]]. destruct Hl as [->|(code & _ & ->)].
    + split; [by split|]. left. apply prefix_nil.
    + split; [by split; [constructor|]|]. left. cbn. apply prefix_cons, prefix_nil.
  - intros a l1 [[_ ->]|[[=] _]]. eapply logs_mono; [exact Hk|]. intros r l2 [Ho Hf].
    split; [apply orderly_app; [by repeat constructor|done]|].
    destruct Hf as [Hf|Hf]; [left|right]; cbn; by apply prefix_cons.
Qed.

Lemma logs_input {A} (Q : Res A -> Log -> Prop) q (k : string -> M X A) :
  (forall e, Q (Raise e) []) -> logs Q (k (answer q)) -> logs Q (r <- input q ;; k r).
Proof.
  intros He Hk x. destruct (input_answers q x) as [Hc Ha]. unfold bind.
  destruct (input q x) as [[a|e] x']; cbn [fst snd] in *; [|exists []; by rewrite app_nil_r].
  rewrite (Ha a eq_refl). destruct (Hk x') as (l & Hl & HQ). exists l. by rewrite Hl, Hc.
Qed.

Lemma logs_token {A} (Q : Res A -> Log -> Prop) (k : bool -> M X A) :
  logs Q (k has_token) -> logs Q (t <- in_environ "GITHUB_TOKEN" ;; k t).
Proof.
  intros Hk x. destruct (token_known x) as (x' & Hx & Hc). destruct (Hk x') as (l & Hl & HQ).
  unfold bind. rewrite Hx. exists l. by rewrite Hl, Hc.
Qed.

Definition INIT : Cmd := (["terraform"; "init"; "-backend-config=.terraform/ci-backend-config"], ".").
Definition PLAN : Cmd := (["terraform"; "plan"; "--out=terraform.plan"], ".").
Definition APPLY : Cmd := (["terraform"; "apply"; "terraform.plan"], ".").
Definition DESTROY : Cmd := (["terraform"; "destroy"; "-auto-approve"], ".").
Definition DESTROY_INFRA : Cmd := (["make"; "destroy-infra"], "../baictl").
Definition undeploy (dir : string) : Cmd := (["make"; "undeploy"], "../" +:+ dir).

Definition question (destroy : bool) : string :=
  "Do you want to " +:+ (if destroy then "destroy" else "create") +:+ " the pipeline with this configuration? ([y]/n)?: ".

Lemma create_logs polls :
  logs (fun r l => orderly r l /\ follows (if has_token then [PLAN; APPLY] else []) l /\ (has_token = false -> l = []))
    (create_all polls).
Proof.
  unfold create_all. apply logs_token. destruct has_token eqn:Et.
  - apply (logs_mono (fun r l => orderly r l /\ follows [PLAN; APPLY] l));
      [|intros r l [Ho Hf]; split_and!; [exact Ho|exact Hf|done]].
    apply follows_must, follows_must. eapply (logs_mono orderly); [|intros r l Hl; split; [done|right; apply prefix_nil]].
    apply orderly_bind; [apply endpoint_orderly|intros [e|]; [|apply orderly_quiet; solve_quiet]].
    apply orderly_bind; [apply register_orderly|intros _; apply orderly_quiet; solve_quiet].
  - apply logs_ret. split_and!; [by split|left; apply prefix_nil|done].
Qed.

(** What the preparation changes: it removes the files of another account, makes
    the bucket of the state if there is none, and writes the two files; all of
    this when it returns. *)
Definition set_up (ok : bool) (ch : list Change) : Prop :=
  exists removed made wrote, ch = (removed ++ made ++ wrote)%list /\
    removed `prefix_of` [Removed BACKEND_CONFIG; Removed TFSTATE] /\ (made = [] \/ exists b, made = [Made b]) /\
    wrote `prefix_of` [Wrote BACKEND_CONFIG; Wrote TFVARS] /\ (ok = true -> wrote = [Wrote BACKEND_CONFIG; Wrote TFVARS]).

Section Changes.
Context {L : ChangeLog}.

Lemma remove_logs p : logs_of changes (fun r l => l = [Removed p] \/ is_ok r = false /\ l = []) (remove p).
Proof. intros x. destruct (remove_changes p x) as (l & Hl & HP). by exists l. Qed.
Lemma write_logs p t : logs_of changes (fun r l => l = [Wrote p] \/ is_ok r = false /\ l = []) (write_text p t).
Proof. intros x. destruct (write_text_changes p t x) as (l & Hl & HP). by exists l. Qed.
Lemma create_bucket_logs n r : logs_of changes (fun r l => l = [Made n] \/ is_ok r = false /\ l = []) (create_bucket n r).
Proof. intros x. destruct (create_bucket_changes n r x) as (l & Hl & HP). by exists l. Qed.

Lemma forget_logs c :
  logs_of changes (fun _ l => l `prefix_of` [Removed BACKEND_CONFIG; Removed TFSTATE]) (forget_other_account c).
Proof.
  unfold forget_other_account. apply logs_after_quiet; [solve_quiet|intros; apply prefix_nil|intros []].
  2:{ apply logs_ret, prefix_nil. }
  apply logs_after_quiet; [solve_quiet|intros; apply prefix_nil|intros text].
  apply logs_after_quiet; [solve_quiet|intros; apply prefix_nil|intros account].
  destruct (contains account text); [apply logs_ret, prefix_nil|].
  eapply logs_bind; [apply remove_logs| |].
  { intros e l [->|[_ ->]]; [by eexists|apply prefix_nil]. }
  intros _ l1 [->|[[=] _]]. apply logs_after_quiet; [solve_quiet|intros; by eexists|intros c'].
  eapply (logs_bind (fun _ l => l = [] \/ l = [Removed TFSTATE])).
  - unfold rm. apply logs_after_quiet; [solve_quiet|by left|intros []; [|apply logs_ret; by left]].
    eapply logs_mono; [apply remove_logs|]. intros r l [->|[_ ->]]; [by right|by left].
  - intros e l [->| ->]; by eexists.
  - intros u l [->| ->]; apply logs_ret; by eexists.
Qed.

Lemma state_bucket_logs c region :
  logs_of changes (fun _ l => exists removed made, l = (removed ++ made)%list /\
    removed `prefix_of` [Removed BACKEND_CONFIG; Removed TFSTATE] /\ (made = [] \/ exists b, made = [Made b]))
    (s3_remote_state_bucket c region).
Proof.
  unfold s3_remote_state_bucket. eapply logs_bind; [apply forget_logs| |].
  { intros e l Hl. exists l, []. rewrite app_nil_r. split_and!; [done|done|by left]. }
  intros c1 l1 Hl1.
  assert (Hnone : exists removed made, (l1 ++ [])%list = (removed ++ made)%list /\
    removed `prefix_of` [Removed BACKEND_CONFIG; Removed TFSTATE] /\ (made = [] \/ exists b, made = [Made b])).
  { exists l1, []. split_and!; [done|done|by left]. }
  apply logs_after_quiet; [solve_quiet|intros; exact Hnone|intros c2]. cbv zeta.
  apply logs_after_quiet; [solve_quiet|intros; exact Hnone|intros created].
  eapply (logs_bind (fun _ l => l = [] \/ exists b, l = [Made b])).
  - destruct created; [apply logs_ret; by left|]. eapply logs_mono; [apply create_bucket_logs|].
    intros r l [->|[_ ->]]; [right; by eexists|by left].
  - intros e l Hl. by exists l1, l.
  - intros u l Hl. apply logs_ret. rewrite app_nil_r. by exists l1, l.
Qed.

Lemma prepare_logs args : logs_of changes (fun r ch => set_up (is_ok r) ch) (prepare args).
Proof.
  assert (Hnone : forall e : exn, set_up (is_ok (Raise (A := Config) e)) []).
  { intros e. exists [], [], []. split_and!; [done|apply prefix_nil|by left|apply prefix_nil|done]. }
  unfold prepare. apply logs_after_quiet; [unfold load_config, read_if_exists; solve_quiet|exact Hnone|intros c0]. cbv zeta.
  apply logs_after_quiet; [unfold chime_hook_url; solve_quiet|exact Hnone|intros c1].
  eapply logs_bind; [apply state_bucket_logs| |].
  { intros e l (rm & mk & -> & Hr & Hm). exists rm, mk, []. rewrite app_nil_r. split_and!; [done|done|done|apply prefix_nil|done]. }
  intros c2 l1 (rm & mk & -> & Hr & Hm).
  assert (Hnone2 : forall e : exn, set_up (is_ok (Raise (A := Config) e)) ((rm ++ mk) ++ [])).
  { intros e. exists rm, mk, []. rewrite !app_nil_r. split_and!; [done|done|done|apply prefix_nil|done]. }
  apply logs_after_quiet; [unfold add_current_user_arn; solve_quiet|exact Hnone2|intros c3].
  assert (Hset : forall ok wr, wr `prefix_of` [Wrote BACKEND_CONFIG; Wrote TFVARS] ->
    (ok = true -> wr = [Wrote BACKEND_CONFIG; Wrote TFVARS]) -> set_up ok ((rm ++ mk) ++ wr)).
  { intros ok wr Hw Hok. exists rm, mk, wr. split_and!; [by rewrite <- app_assoc|done|done|done|done]. }
  eapply (logs_bind (fun r wr => wr `prefix_of` [Wrote BACKEND_CONFIG; Wrote TFVARS] /\
    (is_ok r = true -> wr = [Wrote BACKEND_CONFIG; Wrote TFVARS]))).
  - unfold write_config. eapply logs_bind; [apply write_logs| |].
    + intros e l [->|[_ ->]]; split; try done; [by eexists|apply prefix_nil].
    + intros u l [->|[[=] _]]. eapply logs_mono; [apply write_logs|]. intros r l' [->|[Hr' ->]]; [by split|].
      rewrite Hr'. split; [by eexists|done].
  - intros e l [Hl _]. by apply Hset.
  - intros u l [Hl Hok]. apply logs_ret. rewrite app_nil_r. apply Hset; [done|]. intros _. by apply Hok.
Qed.

Lemma sync_keeps : quiet_of changes (@sync_baictl X _).
Proof. unfold sync_baictl, must. solve_quiet. Qed.
#[local] Hint Resolve sync_keeps : quiet.

Lemma endpoint_keeps polls status : quiet_of changes (get_service_endpoint polls status).
Proof.
  revert status. induction polls as [|polls IH]; intros status; cbn [get_service_endpoint]; [solve_quiet|].
  apply silent_bind; [solve_quiet|intros stages]. cbv zeta. case_match.
  - apply silent_bind; [apply sync_keeps|intros _]. solve_quiet.
  - case_match; [solve_quiet|]. apply silent_bind; [solve_quiet|intros _; apply IH].
Qed.

Lemma create_all_keeps polls : quiet_of changes (create_all polls).
Proof.
  unfold create_all, must. apply silent_bind; [solve_quiet|intros []; [|solve_quiet]].
  do 2 (apply silent_bind; [solve_quiet|intros _]). apply silent_bind; [apply endpoint_keeps|intros [e|]; [|solve_quiet]].
  unfold register_service_endpoint, must. solve_quiet.
Qed.

Lemma destroy_all_keeps region : quiet_of changes (destroy_all region).
Proof.
  unfold destroy_all, destroy_pipeline, undeploy_services, destroy_infrastructure, must.
  apply silent_bind; [apply sync_keeps|intros _]. solve_quiet.
Qed.

(** All the changes of the script itself are made in its preparation. *)
Lemma main_changes polls args x :
  da_clean args = false -> changes (main polls args x).2 = changes (prepare args x).2.
Proof.
  intros Hclean. unfold main. rewrite Hclean. unfold bind at 1. destruct (prepare args x) as [[config|e] x1]; [|done]. cbn [snd].
  revert x1. match goal with |- forall x1, changes (?m x1).2 = _ => change (quiet_of changes m) end. cbv zeta.
  apply silent_bind; [solve_quiet|intros response]. destruct (agreed response); [|solve_quiet]. unfold must.
  apply silent_bind; [solve_quiet|intros _]. destruct (da_destroy args).
  - apply silent_bind; [apply destroy_all_keeps|intros _; solve_quiet].
  - apply create_all_keeps.
Qed.

(** C24: creating the pipeline.  Before it asks, and whatever the answer will be,
    the script calls no command but may already remove the files of another
    account, makes the bucket of the state if there is none, and writes its two
    files; afterwards it makes no change but by its commands.  Whatever the
    files, AWS and the commands do, it calls none of these before the user
    agreed; it then calls init, plan and apply in this order, each only after
    the one before succeeded, and without the token of GitHub it stops after
    init.  A failed command ends the run. *)
Theorem pipeline_created polls args x (Hclean : da_clean args = false) (Hdestroy : da_destroy args = false) :
  let (r0, x0) := prepare args x in
  let (r, x') := main polls args x in
  (exists ch, changes x0 = (changes x ++ ch)%list /\ set_up (is_ok r0) ch) /\
  changes x' = changes x0 /\ calls x0 = calls x /\
  exists l, calls x' = (calls x ++ l)%list /\ orderly r l /\ follows [INIT; PLAN; APPLY] l /\
    (agreed (answer (question false)) = false -> l = []) /\
    (has_token = false -> l.*1 `prefix_of` [INIT]).
Proof.
  assert (Hlogs : logs (fun r l => orderly r l /\ follows [INIT; PLAN; APPLY] l /\
     (agreed (answer (question false)) = false -> l = []) /\ (has_token = false -> l.*1 `prefix_of` [INIT])) (main polls args)).
  { assert (Hnone : forall e : exn, orderly (Raise (A := Z) e) [] /\ follows [INIT; PLAN; APPLY] [] /\
      (agreed (answer (question false)) = false -> @nil (Cmd * Z) = []) /\ (has_token = false -> (@nil (Cmd * Z)).*1 `prefix_of` [INIT])).
    { intros e. split_and!; [by split|left; apply prefix_nil|done|intros _; apply prefix_nil]. }
    unfold main. rewrite Hclean, Hdestroy. apply logs_after_quiet; [apply prepare_quiet|exact Hnone|intros config].
    cbv zeta. apply logs_input; [exact Hnone|]. fold (question false). destruct (agreed _) eqn:Ea.
    - eapply (logs_bind _ _ _ _ (must_logs _ _ _)).
      + intros e l [[[=] _]|[_ Hl]].
        destruct Hl as [->|(code & _ & ->)]; (split_and!; [by split; [constructor|]| |done|intros _]);
          [left; apply prefix_nil|apply prefix_nil|left; by eexists|done].
      + intros a l1 [[_ ->]|[[=] _]]. eapply logs_mono; [apply create_logs|]. intros r l (Ho & Hf & Hn).
        split_and!; [apply orderly_app; [by repeat constructor|done]| |done|].
        * destruct has_token; [|rewrite Hn by done; left; by eexists].
          destruct Hf as [Hf|Hf]; [left|right]; cbn; by apply prefix_cons.
        * intros Ht. by rewrite Hn.
    - apply logs_ret. split_and!; [by split|left; apply prefix_nil|done|intros _; apply prefix_nil]. }
  destruct (Hlogs x) as (l & Hl & HP). pose proof (main_changes polls args x Hclean) as Hch.
  destruct (prepare_logs args x) as (ch & Hpre & Hset). pose proof (prepare_quiet args x) as Hq.
  destruct (prepare args x) as [r0 x0]. destruct (main polls args x) as [r x']. cbn [fst snd] in *.
  split; [by exists ch|]. split; [done|]. split; [done|]. by exists l.
Qed.
End Changes.

(** Runs that never call a command. *)
Definition avoids {A} (c : Cmd) (m : M X A) : Prop := logs (fun _ l => c ∉ l.*1) m.

Lemma avoids_bind {A B} c (m : M X A) (k : A -> M X B) : avoids c m -> (forall a, avoids c (k a)) -> avoids c (bind m k).
Proof.
  intros Hm Hk. eapply logs_bind; [exact Hm|done|]. intros a l1 Hl1. eapply logs_mono; [apply Hk|].
  intros r l2 Hl2. cbn. rewrite fmap_app. intros [?|?]%elem_of_app; auto.
Qed.

Lemma avoids_quiet {A} c (m : M X A) : quiet m -> avoids c m.
Proof. intros Hm. apply logs_quiet; [done|]. intros _. apply not_elem_of_nil. Qed.

Lemma avoids_call c cmd cwd : c <> (cmd, cwd) -> avoids c (call cmd cwd).
Proof.
  intros Hne x. pose proof (call_logged cmd cwd x) as Hc. destruct (call cmd cwd x) as [[code|e] x1]; cbn [fst snd] in *.
  - exists [((cmd, cwd), code)]. split; [done|]. cbn. rewrite list_elem_of_singleton. done.
  - exists []. rewrite app_nil_r. split; [done|]. apply not_elem_of_nil.
Qed.

Lemma avoids_must c msg cmd cwd : c <> (cmd, cwd) -> avoids c (must msg cmd cwd).
Proof. intros Hne. unfold must. apply avoids_bind; [by apply avoids_call|intros code]. apply avoids_quiet. solve_quiet. Qed.

Lemma sync_avoids : avoids DESTROY_INFRA (@sync_baictl X _).
Proof.
  unfold sync_baictl. apply avoids_bind; [apply avoids_quiet; solve_quiet|intros account].
  apply avoids_bind; [apply avoids_quiet; solve_quiet|intros found].
  apply avoids_bind; [|intros _; by apply avoids_must]. destruct found; [|apply avoids_quiet; solve_quiet].
  apply avoids_bind; [apply avoids_quiet; solve_quiet|intros text].
  case_match; [apply avoids_quiet; solve_quiet|by apply avoids_must].
Qed.

(** The last command of [destroy_pipeline] that returns is terraform's. *)
Lemma destroy_pipeline_logs region :
  logs (fun r l => DESTROY_INFRA ∉ l.*1 /\ (is_ok r = true -> exists l0, l = (l0 ++ [(DESTROY, 0%Z)])%list)) (destroy_pipeline region).
Proof.
  assert (Hlast : forall l1, DESTROY_INFRA ∉ l1.*1 -> logs (fun (r : Res unit) l2 => DESTROY_INFRA ∉ (l1 ++ l2)%list.*1 /\
    (is_ok r = true -> exists l0, (l1 ++ l2)%list = (l0 ++ [(DESTROY, 0%Z)])%list)) (must "Failure calling `terraform destroy`" DESTROY.1 DESTROY.2)).
  { intros l1 Hl1. eapply logs_mono; [apply must_logs|]. intros r l [[-> ->]|[Hr Hl]].
    - split; [|by exists l1]. rewrite fmap_app. intros [?|?%list_elem_of_singleton]%elem_of_app; [auto|done].
    - split; [|by rewrite Hr]. rewrite fmap_app. intros [?|Hin]%elem_of_app; [auto|].
      destruct Hl as [->|(code & _ & ->)]; [by apply elem_of_nil in Hin|by apply list_elem_of_singleton in Hin]. }
  unfold destroy_pipeline.
  eapply (logs_bind (fun _ l => DESTROY_INFRA ∉ l.*1)); [by apply avoids_call|by split|intros c1 l1 Hl1].
  eapply (logs_bind (fun _ l => DESTROY_INFRA ∉ (l1 ++ l)%list.*1)).
  { apply (logs_mono (fun _ l => DESTROY_INFRA ∉ l.*1)); [|intros r l Hl; rewrite fmap_app; intros [?|?]%elem_of_app; [by apply Hl1|by apply Hl]].
    case_match; [|apply avoids_quiet; solve_quiet]. apply avoids_bind; [by apply avoids_call|intros c2]. apply avoids_quiet. solve_quiet. }
  { by split. }
  intros known l2 Hl2. eapply (logs_bind (fun _ l => DESTROY_INFRA ∉ (l1 ++ l2 ++ l)%list.*1)).
  { apply (logs_mono (fun _ l => DESTROY_INFRA ∉ l.*1)); [|intros r l Hl; rewrite app_assoc, fmap_app; intros [?|?]%elem_of_app; [by apply Hl2|by apply Hl]].
    destruct known; [|apply avoids_quiet; solve_quiet].
    apply avoids_bind; [apply avoids_quiet; solve_quiet|intros g]. apply avoids_bind; [apply avoids_quiet; solve_quiet|intros sg].
    apply avoids_bind; [by apply avoids_call|intros c2]. apply avoids_quiet. solve_quiet. }
  { by split. }
  intros u l3 Hl3. eapply logs_mono; [apply (Hlast (l1 ++ l2 ++ l3)%list Hl3)|].
  intros r l. cbv beta. by rewrite <- !app_assoc.
Qed.

Lemma undeploy_logs :
  logs (fun r l => (r = Ok tt /\ l = map (fun d => (undeploy d, 0)) dirs) \/ (is_ok r = false /\ DESTROY_INFRA ∉ l.*1))
    (@undeploy_services X _).
Proof.
  unfold undeploy_services. intros x. destruct (services_listed x) as (x' & Hx & Hc). unfold bind. rewrite Hx, <- Hc. clear x Hx Hc.
  revert x'. fold (logs (fun (r : Res unit) l => (r = Ok tt /\ l = map (fun d => (undeploy d, 0)) dirs) \/
    (is_ok r = false /\ DESTROY_INFRA ∉ l.*1)) (for_each (fun folder =>
      must ("Failure calling `make undeploy` in " +:+ folder) ["make"; "undeploy"] ("../" +:+ folder)) dirs)).
  induction dirs as [|d ds IH]; cbn [for_each map]; [apply logs_ret; by left|].
  eapply logs_bind; [apply must_logs| |].
  - intros e l [[[=] _]|[_ Hl]]. right. split; [done|].
    destruct Hl as [->|(code & _ & ->)]; [apply not_elem_of_nil|]. cbn. by rewrite list_elem_of_singleton.
  - intros a l1 [[_ ->]|[[=] _]]. eapply logs_mono; [exact IH|]. intros r l [[-> ->]|[Hr Hl]]; [by left|].
    right. split; [done|]. cbn. rewrite not_elem_of_cons. done.
Qed.

Lemma undeploy_not_infra : DESTROY_INFRA ∉ (map (fun d => (undeploy d, 0)) dirs).*1.
Proof. intros Hin. apply list_elem_of_fmap in Hin as ([c z] & Hc & Hd). apply list_elem_of_fmap in Hd as (d & [= -> ->] & _). done. Qed.

(** What a run that destroys everything leaves in the log. *)
Definition torn_down {A} (r : Res A) (l : Log) : Prop :=
  (DESTROY_INFRA ∉ l.*1 /\ is_ok r = false) \/
  exists l0 code, l = (l0 ++ (DESTROY, 0%Z) :: map (fun d => (undeploy d, 0%Z)) dirs ++ [(DESTROY_INFRA, code)])%list /\
    DESTROY_INFRA ∉ l0.*1 /\ (is_ok r = true <-> code = 0).

Lemma torn_down_after {A B} (r : Res A) (r' : Res B) l1 l :
  DESTROY_INFRA ∉ l1.*1 -> is_ok r = is_ok r' -> torn_down r l -> torn_down r' (l1 ++ l)%list.
Proof.
  intros Hl1 Hr [[Hl He]|(l0 & code & -> & Hl0 & He)].
  - left. rewrite <- Hr. split; [|done]. rewrite fmap_app. intros [?|?]%elem_of_app; auto.
  - right. exists (l1 ++ l0)%list, code. rewrite <- Hr. split; [by rewrite <- app_assoc|]. split; [|done].
    rewrite fmap_app. intros [?|?]%elem_of_app; auto.
Qed.

Lemma destroy_all_logs region : logs torn_down (destroy_all region).
Proof.
  unfold destroy_all. eapply logs_bind; [apply sync_avoids|by left|intros u l1 Hl1].
  eapply (logs_mono torn_down); [|intros r l; by apply torn_down_after].
  eapply logs_bind; [apply destroy_pipeline_logs|by intros e l [Hl _]; left|intros u2 l2 [Hl2 Hok]].
  destruct (Hok eq_refl) as [l0 ->]. eapply logs_bind; [apply undeploy_logs| |].
  - intros e l [[[=] _]|[_ Hl]]. left. split; [|done]. rewrite fmap_app. intros [?|?]%elem_of_app; auto.
  - intros u3 l3 [[_ ->]|[[=] _]]. eapply logs_mono; [apply must_logs|]. intros r l Hl.
    assert (Hl0 : DESTROY_INFRA ∉ l0.*1) by (intros ?; apply Hl2; rewrite fmap_app; set_solver).
    rewrite <- (app_assoc l0). cbn [app].
    destruct Hl as [[-> ->]|[Hr [->|(code & Hc & ->)]]].
    + right. by exists l0, 0.
    + left. split; [|done]. rewrite app_nil_r, fmap_app. intros [?|?]%elem_of_app; [auto|].
      cbn in *. apply elem_of_cons in H2 as [?|Hin]; [done|]. by apply undeploy_not_infra in Hin.
    + right. exists l0, code. split; [done|]. split; [done|]. rewrite Hr. split; [done|]. by intros ->.
Qed.

(** C25: taking everything down.  Unless the user agreed, no command is called,
    also by a run that ends in an exception.  The infrastructure is destroyed as
    the last command, only after the user agreed, terraform destroyed the
    pipeline, and every service was undeployed, one after the other, all with
    success; and the run returns normally after it exactly if it succeeded. *)
Theorem pipeline_destroyed polls args x (Hclean : da_clean args = false) (Hdestroy : da_destroy args = true) :
  let (r, x') := main polls args x in
  exists l, calls x' = (calls x ++ l)%list /\
    (agreed (answer (question true)) = false -> l = []) /\
    ((DESTROY_INFRA ∉ l.*1 /\ (is_ok r = true -> l = [] /\ agreed (answer (question true)) = false)) \/
     (agreed (answer (question true)) = true /\
      exists l0 code, l = (l0 ++ (DESTROY, 0) :: map (fun d => (undeploy d, 0)) dirs ++ [(DESTROY_INFRA, code)])%list /\
      DESTROY_INFRA ∉ l0.*1 /\ (is_ok r = true <-> code = 0))).
Proof.
  assert (Hlogs : logs (fun r l => (agreed (answer (question true)) = false -> l = []) /\
    ((DESTROY_INFRA ∉ l.*1 /\ (is_ok r = true -> l = [] /\ agreed (answer (question true)) = false)) \/
     (agreed (answer (question true)) = true /\ torn_down r l))) (main polls args)).
  { assert (Hnone : forall e : exn, (agreed (answer (question true)) = false -> @nil (Cmd * Z) = []) /\
      ((DESTROY_INFRA ∉ (@nil (Cmd * Z)).*1 /\
        (is_ok (Raise (A := Z) e) = true -> @nil (Cmd * Z) = [] /\ agreed (answer (question true)) = false)) \/
       (agreed (answer (question true)) = true /\ torn_down (Raise (A := Z) e) []))).
    { intros e. split; [done|]. left. split; [apply not_elem_of_nil|done]. }
    unfold main. rewrite Hclean, Hdestroy. apply logs_after_quiet; [apply prepare_quiet|exact Hnone|intros config].
    cbv zeta. apply logs_input; [exact Hnone|]. fold (question true). destruct (agreed _) eqn:Ea.
    - eapply (logs_mono torn_down); [|intros r l Hl; split; [done|by right]].
      eapply logs_bind; [apply must_logs| |].
      + intros e l [[[=] _]|[_ Hl]]. left. split; [|done].
        destruct Hl as [->|(code & _ & ->)]; [apply not_elem_of_nil|]. cbn. by rewrite list_elem_of_singleton.
      + intros u l1 [[_ ->]|[[=] _]]. eapply logs_bind; [apply destroy_all_logs| |].
        * intros e l. apply torn_down_after; [|done]. cbn. by rewrite list_elem_of_singleton.
        * intros u2 l2 Hl2. apply logs_ret. rewrite app_nil_r. eapply torn_down_after; [| |exact Hl2]; [|done].
          cbn. by rewrite list_elem_of_singleton.
    - apply logs_ret. split; [done|]. left. split; [apply not_elem_of_nil|done]. }
  destruct (Hlogs x) as (l & Hl & Hno & HP). destruct (main polls args x) as [r x']. exists l. split; [done|]. split; [done|].
  destruct HP as [HP|[Ha [[Hn Hr]|HP]]]; [by left|left|by right]. split; [done|]. cbn [fst] in Hr. by rewrite Hr.
Qed.
End Runs.

Module Witness.
#[local] Existing Instance literal_floats.

(** The files, the changes and the log; every command succeeds. *)
Definition World : Type := dict string string * list Change * Log.

#[local] Instance driver_world : DriverWorld World := {|
  path_exists p := gets (fun w => dict_mem p w.1.1);
  read_text p := fun w => match dict_get w.1.1 p with Some t => (Ok t, w) | None => (Raise (OtherException "FileNotFoundError" p), w) end;
  write_text p t := modify (fun w => (dict_set w.1.1 p t, (w.1.2 ++ [Wrote p])%list, w.2));
  remove p := modify (fun w => (dict_pop w.1.1 p, (w.1.2 ++ [Removed p])%list, w.2));
  call cmd cwd := fun w => (Ok 0, (w.1, (w.2 ++ [((cmd, cwd), 0)])%list));
  check_output _ := ret "";
  run_output _ _ := ret "";
  input _ := ret "Y";
  in_environ _ := ret true;
  caller_account := ret "1234";
  caller_arn := ret "arn:aws:iam::1234:user/joe";
  bucket_exists _ := ret false;
  create_bucket n _ := modify (fun w => (w.1.1, (w.1.2 ++ [Made n])%list, w.2));
  get_secret _ := ret None;
  service_dirs := ret ["fetcher"; "executor"];
  pipeline_state _ := ret [mkStage "Deploy" true [("bai-bff", Some "Failed")]];
  sleep _ := ret tt
|}.

#[local] Instance driver_log : CallLog.
Proof.
  refine {| calls (w : World) := w.2; has_token := true; answer _ := "Y"; dirs := ["fetcher"; "executor"] |};
    try (by intros; cbn; repeat case_match); try (by intros; eexists).
  intros q x. split; [done|]. by intros a [= <-].
Defined.

#[local] Instance driver_changes : ChangeLog.
Proof.
  refine {| changes (w : World) := w.1.2 |}; try (by intros; cbn; repeat case_match); intros; eexists; (split; [reflexivity|by left]).
Defined.

#[local] Instance str_set_dups : StrSetOrder := {|
  str_set := remove_dups;
  str_set_NoDup := NoDup_remove_dups;
  str_set_elem := elem_of_remove_dups
|}.

Definition given (n : string) : option string :=
  if String.eqb n "region" then Some "us-east-1" else if String.eqb n "prefix_list_id" then Some "pl-1" else None.

Definition config0 : Config := [("region", Some "us-east-1"); ("chime_hook_url", Some ""); ("bucket", Some "state-1234")].

Lemma config_roundtrip_witness :
  exists c', Config_init (Some (backend_file config0)) (Some (tfvars_file config0)) = Ok c' /\
    cfg_get c' "bucket" = Some "state-1234" /\ cfg_get c' "chime_hook_url" = None.
Proof.
  destruct (config_roundtrip config0) as (c' & Hc & _ & Hg).
  - repeat constructor; set_solver.
  - intros n v. cbn. repeat case_decide; intros [= <-]; subst; (split; [set_solver|done]).
  - exists c'. split; [exact Hc|]. split; [exact (Hg "bucket" ltac:(set_solver))|exact (Hg "chime_hook_url" ltac:(set_solver))].
Defined.

(** The script makes the bucket and its files, calls its three commands and then
    reports the failed deployment. *)
Lemma pipeline_created_witness :
  exists l r w', main 1 (mkDriverArgs false false given) ([], [], []) = (r, w') /\ w'.2 = l /\ l.*1 = [INIT; PLAN; APPLY] /\
    orderly r l /\ w'.1.2 = [Made "bai-ci-terraform-state-1234-us-east-1"; Wrote BACKEND_CONFIG; Wrote TFVARS].
Proof.
  pose proof (pipeline_created 1 (mkDriverArgs false false given) (@nil (string * string), @nil Change, @nil (Cmd * Z)) eq_refl eq_refl) as Hmain.
  destruct (prepare (mkDriverArgs false false given) ([], [], [])) as [r0 w0] eqn:E0.
  destruct (main 1 (mkDriverArgs false false given) ([], [], [])) as [r w'] eqn:E. destruct Hmain as (_ & Hch & _ & l & Hl & Ho & _).
  exists l, r, w'. split; [reflexivity|]. split; [exact Hl|]. split; [|split; [exact Ho|]].
  - vm_compute in E. injection E as <- <-. cbn in Hl. by rewrite <- Hl.
  - transitivity (w0.1.2); [exact Hch|]. vm_compute in E0. injection E0 as <- <-. reflexivity.
Defined.

Lemma pipeline_destroyed_witness :
  exists l w', main 1 (mkDriverArgs false true given) ([], [], []) = (Ok 0, w') /\ w'.2 = l /\
    exists l0, l = (l0 ++ [(DESTROY, 0); (undeploy "fetcher", 0); (undeploy "executor", 0); (DESTROY_INFRA, 0)])%list.
Proof.
  pose proof (pipeline_destroyed 1 (mkDriverArgs false true given) (@nil (string * string), @nil Change, @nil (Cmd * Z)) eq_refl eq_refl) as Hmain.
  destruct (main 1 (mkDriverArgs false true given) ([], [], [])) as [r w'] eqn:E. destruct Hmain as (l & Hl & _ & HP).
  vm_compute in E. injection E as <- <-. cbn in Hl. exists l. eexists. split; [reflexivity|]. split; [exact Hl|].
  destruct HP as [[_ HP]|(_ & l0 & code & Hd & _ & Hc)].
  - destruct (HP eq_refl) as [_ Ha]. vm_compute in Ha. discriminate.
  - exists l0. rewrite Hd. by rewrite (proj1 Hc eq_refl).
Defined.
End Witness.

(** A value with quotes at its ends does not survive its file, and a blank line
    in the file ends the script. *)
Example quoted_value_changes :
  open_terraform_vars_file (Some (write_var ("extra_users", Some (quote +:+ "a" +:+ quote)))) = Ok [("extra_users", "a")] /\
  is_ok (open_terraform_vars_file (Some (write_var ("region", Some "r") +:+ String "010" ""))) = false.
Proof. split; reflexivity. Qed.
