(* ===== verification/ClusterConfig.v ===== *)
(** * Configuration of the cluster (baictl/drivers/aws)

    The two scripts that write config maps when the infrastructure is made:
    add_permission_to_aws_auth_configmap.py lets a role or a user into the
    cluster, and add_terraform_outputs_as_configmap.py publishes the outputs of
    terraform.  kubectl, terraform and YAML are behind [ConfigMaps]. *)

From S2P Require Import Prelude PyStr Json.

#[local] Arguments String.append !_ _ /.

(** ** The cluster and YAML

    A config map is the dictionary of its data.  [yaml_load] gives [None] for
    an empty document. *)

Abbreviation Item := (dict string pyval).

Class ConfigMaps (X : Type) : Type := {
  get_configmap : string -> M X (dict string string);
  apply_configmap : string -> dict string string -> M X unit;
  yaml_load : string -> Res (option (list Item));
  yaml_dump : list Item -> string
}.

(** ** aws-auth *)

(** [AwsAuthConfigMap]: the data, as lists of items. *)
Abbreviation AuthData := (dict string (list Item)).

Section AwsAuth.
Context `{ConfigMaps X}.

(** [_deserialize_data_items]. *)
Definition load_entry (kv : string * string) : Res (string * list Item) :=
  v <~ yaml_load kv.2 ;; Ok (kv.1, default [] v).

Definition deserialize_data_items (data : dict string string) : Res AuthData := res_map load_entry data.

(** [AwsAuthConfigMap.__init__]. *)
Definition AwsAuthConfigMap_init : M X AuthData :=
  data <- get_configmap "aws-auth" ;;
  lift (deserialize_data_items data).

(** Is there an item with the arn?  The first one without the key raises. *)
Fixpoint has_arn (arn_key arn : string) (items : list Item) : Res bool :=
  match items with
  | [] => Ok false
  | item :: items' =>
      match dict_get item arn_key with
      | None => Raise (KeyError arn_key)
      | Some v => if (match v with VStr s => String.eqb s arn | _ => false end) then Ok true else has_arn arn_key arn items'
      end
  end.

(** [_add_item_to_data]. *)
Definition add_item_to_data (data : AuthData) (key_name arn_key arn : string) (groups : list string) (username : string)
    : Res AuthData :=
  match dict_get data key_name with
  | None => Raise (KeyError key_name)
  | Some items =>
      found <~ has_arn arn_key arn items ;;
      if (found : bool) then Ok data
      else Ok (dict_set data key_name
                 (items ++ [[(arn_key, VStr arn); ("username", VStr username); ("groups", VList (map VStr groups))]])%list)
  end.

Definition add_role (data : AuthData) (arn username : string) (groups : list string) : Res AuthData :=
  add_item_to_data data "mapRoles" "rolearn" arn groups username.

Definition add_iam_user (data : AuthData) (arn username : string) (groups : list string) : Res AuthData :=
  add_item_to_data data "mapUsers" "userarn" arn groups username.

(** [_serialize]: the data of the new config map. *)
Definition serialize_items (items : list Item) : string := match items with [] => "" | _ => yaml_dump items end.

Definition serialize (data : AuthData) : dict string string := map (fun kv => (kv.1, serialize_items kv.2)) data.

(** [apply]. *)
Definition apply (data : AuthData) : M X unit := apply_configmap "aws-auth" (serialize data).

(** The arguments: an arn with its user name and groups. *)
Record Permission := mkPermission { perm_arn : string; perm_username : string; perm_groups : list string }.

(** [main]; an empty arn counts as none. *)
Definition with_permission (add : AuthData -> string -> string -> list string -> Res AuthData)
    (p : option Permission) (data : AuthData) : Res AuthData :=
  match p with
  | Some p => if String.eqb (perm_arn p) "" then Ok data else add data (perm_arn p) (perm_username p) (perm_groups p)
  | None => Ok data
  end.

Definition auth_main (role user : option Permission) : M X Z :=
  data <- AwsAuthConfigMap_init ;;
  data <- lift (with_permission add_role role data) ;;
  data <- lift (with_permission add_iam_user user data) ;;
  apply data ;;
  ret 0.
End AwsAuth.

(** ** The outputs of terraform *)

Section Outputs.
Context {F : PyFloat}.

Definition jtruthy (zero : pyfloat -> bool) (v : jval) : bool :=
  match v with
  | JNull => false
  | JBool b => b
  | JInt z => negb (z =? 0)
  | JFloat f => negb (zero f)
  | JNaN | JInf _ => true
  | JStr s => negb (String.eqb s "")
  | JList l => match l with [] => false | _ => true end
  | JObj d => match d with [] => false | _ => true end
  end.

Context (zero : pyfloat -> bool).

Fixpoint strings_of (l : list jval) : Res (list string) :=
  match l with
  | [] => Ok []
  | JStr s :: l' => ss <~ strings_of l' ;; Ok (s :: ss)
  | _ :: _ => Raise (TypeError "sequence item: expected str instance")
  end.

(** The value of one output, by its type. *)
Definition output_value (item : jval) : Res jval :=
  type <~ jget item "type" ;;
  value <~ jget item "value" ;;
  match type with
  | JStr "list" =>
      match value with
      | JList l => ss <~ strings_of l ;; Ok (JStr (join "," ss))
      | JStr s => Ok (JStr (join "," (map (fun c => String c "") (list_ascii_of_string s))))
      | JObj d => Ok (JStr (join "," d.*1))
      | _ => Raise (TypeError "can only join an iterable")
      end
  | JStr "map" => Ok (JStr (jdumps value))
  | _ => Ok value
  end.

(** [filter_terraform_outputs]. *)
Fixpoint filter_outputs (d : dict string jval) (outputs : list (string * jval)) : Res (dict string jval) :=
  match outputs with
  | [] => Ok d
  | (key, item) :: outputs' =>
      sensitive <~ jget item "sensitive" ;;
      if jtruthy zero sensitive then filter_outputs d outputs'
      else
        value <~ output_value item ;;
        filter_outputs (dict_set d key value) outputs'
  end.

Definition filter_terraform_outputs (terraform_outputs : dict string jval) : Res (dict string jval) :=
  filter_outputs [] terraform_outputs.

(** A shell command gives the bytes of its output; [open_temp] makes a file with
    the given text and gives its name, [close_temp] deletes it. *)
Class Shell (X : Type) : Type := {
  check_output : string -> M X string;
  open_temp : string -> M X string;
  close_temp : string -> M X unit;
  yaml_dump_value : jval -> string
}.

Context `{Shell X}.

Definition get_terraform_outputs : M X jval :=
  outputs <- check_output "terraform output -json" ;;
  text <- lift (decode_utf8 outputs) ;;
  lift (json_loads text).

(** [kubectl_apply]: the file is deleted whatever kubectl does. *)
Definition kubectl_apply (contents : string) : M X string :=
  f <- open_temp contents ;;
  finally
    (output <- check_output ("kubectl apply -f " +:+ f) ;;
     lift (decode_utf8 output))
    (close_temp f).

(** The config map that [main] writes. *)
Definition outputs_configmap (configmap_name : string) (values : dict string jval) : jval :=
  JObj [("apiVersion", JStr "v1"); ("data", JObj values); ("kind", JStr "ConfigMap");
        ("metadata", JObj [("name", JStr configmap_name)])].

(** [main], after its one argument. *)
Definition outputs_main (configmap_name : string) : M X Z :=
  outputs <- get_terraform_outputs ;;
  values <- lift (match outputs with
                  | JObj d => filter_terraform_outputs d
                  | _ => Raise (AttributeError "object has no attribute 'items'")
                  end) ;;
  _ <- kubectl_apply (yaml_dump_value (outputs_configmap configmap_name values)) ;;
  ret 0.
End Outputs.

(** ** What is published *)

(** The outputs that are not marked. *)
Definition public {F : PyFloat} (zero : pyfloat -> bool) (kv : string * jval) : bool :=
  match jget kv.2 "sensitive" with Ok s => negb (jtruthy zero s) | Raise _ => false end.

Lemma filter_outputs_run {F : PyFloat} (zero : pyfloat -> bool) outputs acc d :
  dict_wf (acc ++ outputs)%list -> filter_outputs zero acc outputs = Ok d ->
  exists values, d = (acc ++ values)%list /\
    Forall2 (fun kv kv' => kv'.1 = kv.1 /\ output_value kv.2 = Ok kv'.2) (List.filter (public zero) outputs) values.
Proof.
  revert acc. induction outputs as [|[k item] outputs IH]; intros acc Hwf; cbn [filter_outputs].
  { intros [= <-]. exists []. by rewrite app_nil_r. }
  intros (s & Hs & Hd)%res_bind_Ok. cbn [List.filter]. unfold public at 1. cbn [snd]. rewrite Hs.
  unfold dict_wf, dict_keys in Hwf. rewrite fmap_app in Hwf. cbn [fmap list_fmap] in Hwf.
  destruct (jtruthy zero s); cbn [negb].
  - apply IH; [|done]. unfold dict_wf, dict_keys. rewrite fmap_app.
    eapply sublist_NoDup; [exact Hwf|]. apply sublist_app; [done|]. by constructor.
  - apply res_bind_Ok in Hd as (v & Hv & Hd). rewrite dict_set_absent in Hd.
    + apply IH in Hd as (values & -> & Hvalues).
      * exists ((k, v) :: values). rewrite <- app_assoc. split; [done|]. by constructor.
      * unfold dict_wf, dict_keys. by rewrite !fmap_app, <- app_assoc.
    + apply NoDup_app in Hwf as (_ & Hdisj & _). intros Hin. apply (Hdisj k Hin). left.
Qed.

(** What is published of terraform's outputs: exactly the outputs that are
    not sensitive, each under its name and in order, with a list joined by
    commas, a map as JSON and any other value as it is; nothing of a sensitive
    output is written. *)
Theorem outputs_published {F : PyFloat} (zero : pyfloat -> bool) outputs d
    (Hwf : dict_wf outputs) (Hd : filter_terraform_outputs zero outputs = Ok d) :
  Forall2 (fun kv kv' => kv'.1 = kv.1 /\ output_value kv.2 = Ok kv'.2) (List.filter (public zero) outputs) d /\
  forall k item s, (k, item) ∈ outputs -> jget item "sensitive" = Ok s -> jtruthy zero s = true -> dict_get d k = None.
Proof.
  apply filter_outputs_run in Hd as (values & -> & Hvalues); [|done]. cbn [app]. split; [done|].
  intros k item s Hin Hs Ht. apply dict_get_None. intros Hk. apply list_elem_of_fmap in Hk as ([k' v] & -> & Hv).
  apply list_elem_of_lookup in Hv as [i Hi]. destruct (Forall2_lookup_r _ _ _ _ _ Hvalues Hi) as ([k0 item0] & Hi0 & Hk0 & _).
  cbn [fst] in *. subst k0. apply list_elem_of_lookup_2, elem_of_list_filter_b in Hi0 as [Hin0 Hpub].
  assert (item0 = item) as ->.
  { apply (dict_in_get _ _ _ Hwf) in Hin. apply (dict_in_get _ _ _ Hwf) in Hin0. congruence. }
  unfold public in Hpub. cbn [snd] in Hpub. by rewrite Hs, Ht in Hpub.
Qed.

(** The whole script: kubectl is asked to apply one file, with the YAML of the
    config map of the values that are published; a temporary file does not stay
    behind, also when kubectl fails. *)
Lemma outputs_main_applies {F : PyFloat} (zero : pyfloat -> bool) {X} `{!Shell X} name outputs d x f x1 r x2 :
  check_output "terraform output -json" x = (Ok (jdumps (JObj outputs)), x) -> utf8_valid (jdumps (JObj outputs)) = true ->
  jwf (JObj outputs) = true -> filter_terraform_outputs zero outputs = Ok d ->
  open_temp (yaml_dump_value (outputs_configmap name d)) x = (Ok f, x1) ->
  check_output ("kubectl apply -f " +:+ f) x1 = (r, x2) ->
  exists res, outputs_main zero name x = (res, (close_temp f x2).2) /\ (is_ok res = true -> is_ok r = true).
Proof.
  intros Hout Hutf Hwf Hd Hopen Happly. unfold outputs_main, get_terraform_outputs, bind at 1 2. rewrite Hout.
  unfold decode_utf8 at 1. rewrite Hutf. unfold lift at 1, bind at 1, lift at 1. rewrite loads_dumps by done.
  unfold bind at 1, lift at 1. rewrite Hd. unfold kubectl_apply, bind, finally. rewrite Hopen, Happly.
  destruct r as [out|e]; unfold lift; [destruct (decode_utf8 out)|]; destruct (close_temp f x2) as [[|] x3]; by eexists.
Qed.

(** ** Who is let in *)

(** What kubectl and YAML document: a config map is read as it was applied,
    and a list of values that YAML can represent is loaded as it was dumped. *)
Class ConfigMapLaws `{ConfigMaps X} : Type := {
  configmaps : X -> dict string (dict string string);
  get_configmap_ok : forall n data x, dict_get (configmaps x) n = Some data -> get_configmap n x = (Ok data, x);
  apply_configmap_ok : forall n data x,
    exists x', apply_configmap n data x = (Ok tt, x') /\ configmaps x' = dict_set (configmaps x) n data;
  dumpable : list Item -> Prop;
  yaml_load_dump : forall items, dumpable items -> items <> [] -> yaml_load (yaml_dump items) = Ok (Some items);
  yaml_load_empty : yaml_load "" = Ok None
}.

Section Auth.
Context `{ConfigMapLaws X}.

Lemma deserialize_serialize data :
  Forall (fun kv : string * list Item => dumpable kv.2) data -> deserialize_data_items (serialize data) = Ok data.
Proof.
  intros Hd. unfold deserialize_data_items, serialize. apply res_map_Forall2.
  induction Hd as [|[k items] data Hdump Hd IH]; [constructor|]. cbn [map]. constructor; [|exact IH].
  unfold load_entry, serialize_items. cbn [fst snd]. destruct items as [|i items]; [by rewrite yaml_load_empty|].
  by rewrite yaml_load_dump.
Qed.

Definition is_arn (arn_key arn : string) (item : Item) : bool :=
  match dict_get item arn_key with Some (VStr s) => String.eqb s arn | _ => false end.

Lemma has_arn_ok arn_key arn items :
  Forall (fun item : Item => is_Some (dict_get item arn_key)) items ->
  has_arn arn_key arn items = Ok (existsb (is_arn arn_key arn) items).
Proof.
  induction 1 as [|item items [v Hv] _ IH]; [done|]. cbn [has_arn existsb]. unfold is_arn at 1. rewrite Hv.
  destruct v; cbn [orb]; try exact IH. by destruct (String.eqb _ _).
Qed.

(** The items of a key after an arn was let in. *)
Definition let_in (arn_key : string) (p : Permission) (items : list Item) : list Item :=
  if existsb (is_arn arn_key (perm_arn p)) items then items
  else (items ++ [[(arn_key, VStr (perm_arn p)); ("username", VStr (perm_username p)); ("groups", VList (map VStr (perm_groups p)))]])%list.

Lemma let_in_again arn_key p items :
  existsb (is_arn arn_key (perm_arn p)) (let_in arn_key p items) = true /\
  (Forall (fun item : Item => is_Some (dict_get item arn_key)) items ->
   Forall (fun item : Item => is_Some (dict_get item arn_key)) (let_in arn_key p items)).
Proof.
  assert (Hnew : forall v w, dict_get [(arn_key, VStr (perm_arn p)); v; w] arn_key = Some (VStr (perm_arn p)))
    by (intros; cbn; by rewrite decide_True).
  unfold let_in. destruct (existsb _ items) eqn:E; [done|]. rewrite existsb_app, E. cbn [existsb orb].
  unfold is_arn. rewrite Hnew, String.eqb_refl. split; [done|].
  intros Hi. apply Forall_app. split; [done|]. constructor; [|constructor]. rewrite Hnew. by eexists.
Qed.

Lemma add_item_ok data key arn_key p items :
  dict_get data key = Some items -> Forall (fun item : Item => is_Some (dict_get item arn_key)) items ->
  exists data', add_item_to_data data key arn_key (perm_arn p) (perm_groups p) (perm_username p) = Ok data' /\
    dict_get data' key = Some (let_in arn_key p items) /\ (forall k, k <> key -> dict_get data' k = dict_get data k) /\
    (existsb (is_arn arn_key (perm_arn p)) items = true -> data' = data) /\
    (forall P : list Item -> Prop, Forall (fun kv : string * list Item => P kv.2) data -> P (let_in arn_key p items) ->
       Forall (fun kv : string * list Item => P kv.2) data').
Proof.
  intros Hk Hi. unfold add_item_to_data. rewrite Hk, has_arn_ok by done. unfold let_in. cbn [res_bind].
  destruct (existsb _ items) eqn:E; eexists; (split; [reflexivity|]); split_and!; try done.
  - by rewrite dict_get_set_eq.
  - intros k Hne. apply dict_get_set_ne. congruence.
  - intros P Hd Hp. clear Hk. induction Hd as [|[k' v'] d Hv Hd IH]; cbn; [by repeat constructor|].
    case_decide; by constructor.
Qed.

(** Letting a role in.  The role's items are kept in order and the role is
    added at their end exactly when it is missing, every other part of the map
    keeps its items, and repeating the script writes the same map again. *)
Theorem role_let_in p texts data items x
    (Hx : dict_get (configmaps x) "aws-auth" = Some texts) (Hload : deserialize_data_items texts = Ok data)
    (Hroles : dict_get data "mapRoles" = Some items)
    (Hitems : Forall (fun item : Item => is_Some (dict_get item "rolearn")) items) (Harn : perm_arn p <> "")
    (Hyaml : Forall (fun kv : string * list Item => dumpable kv.2) data) (Hnew : dumpable (let_in "rolearn" p items)) :
  exists x1 texts1 data1,
    auth_main (Some p) None x = (Ok 0, x1) /\ configmaps x1 = dict_set (configmaps x) "aws-auth" texts1 /\
    deserialize_data_items texts1 = Ok data1 /\
    dict_get data1 "mapRoles" = Some (let_in "rolearn" p items) /\
    (forall k, k <> "mapRoles" -> dict_get data1 k = dict_get data k) /\
    exists x2, auth_main (Some p) None x1 = (Ok 0, x2) /\ dict_get (configmaps x2) "aws-auth" = Some texts1.
Proof.
  assert (Hrun : forall y texts data items, dict_get (configmaps y) "aws-auth" = Some texts ->
    deserialize_data_items texts = Ok data -> dict_get data "mapRoles" = Some items ->
    Forall (fun item : Item => is_Some (dict_get item "rolearn")) items ->
    exists y1 data1, auth_main (Some p) None y = (Ok 0, y1) /\ configmaps y1 = dict_set (configmaps y) "aws-auth" (serialize data1) /\
      dict_get data1 "mapRoles" = Some (let_in "rolearn" p items) /\ (forall k, k <> "mapRoles" -> dict_get data1 k = dict_get data k) /\
      (existsb (is_arn "rolearn" (perm_arn p)) items = true -> data1 = data) /\
      (forall P : list Item -> Prop, Forall (fun kv : string * list Item => P kv.2) data -> P (let_in "rolearn" p items) ->
         Forall (fun kv : string * list Item => P kv.2) data1)).
  { clear - Harn. intros y texts data items Hy Hload Hroles Hitems.
    destruct (add_item_ok data "mapRoles" "rolearn" p items Hroles Hitems) as (data1 & Hadd & Hrest).
    destruct (apply_configmap_ok "aws-auth" (serialize data1) y) as (y1 & Hap & Hy1). exists y1, data1.
    split; [|done]. unfold auth_main, AwsAuthConfigMap_init, apply, bind, lift. rewrite (get_configmap_ok _ _ _ Hy), Hload.
    unfold with_permission, add_role. apply String.eqb_neq in Harn. by rewrite Harn, Hadd, Hap. }
  destruct (Hrun x texts data items Hx Hload Hroles Hitems) as (x1 & data1 & Hr1 & Hx1 & Hroles1 & Hother & _ & Hall1).
  specialize (Hall1 dumpable Hyaml Hnew).
  exists x1, (serialize data1), data1. split_and!; try done; [by rewrite deserialize_serialize|].
  assert (Hget1 : dict_get (configmaps x1) "aws-auth" = Some (serialize data1)) by (by rewrite Hx1, dict_get_set_eq).
  destruct (let_in_again "rolearn" p items) as [Hin Hall].
  destruct (Hrun x1 _ data1 _ Hget1 (deserialize_serialize data1 Hall1) Hroles1 (Hall Hitems)) as (x2 & data2 & Hr2 & Hx2 & _ & _ & Hsame & _).
  exists x2. split; [done|]. by rewrite Hx2, dict_get_set_eq, Hsame.
Qed.

(** The map that EKS makes has no entry for users: adding one fails, and
    nothing is written. *)
Lemma user_needs_entry p texts data x :
  dict_get (configmaps x) "aws-auth" = Some texts -> deserialize_data_items texts = Ok data ->
  dict_get data "mapUsers" = None -> perm_arn p <> "" ->
  auth_main None (Some p) x = (Raise (KeyError "mapUsers"), x).
Proof.
  intros Hx Hload Hu Harn. unfold auth_main, AwsAuthConfigMap_init, bind, lift. rewrite (get_configmap_ok _ _ _ Hx), Hload.
  cbn [with_permission]. apply String.eqb_neq in Harn. rewrite Harn. unfold add_iam_user, add_item_to_data. by rewrite Hu.
Qed.
End Auth.

Module Witness.
(** Config maps by name; two documents. *)
Definition Cluster : Type := dict string (dict string string).

Definition node : Item := [("rolearn", VStr "arn:node"); ("username", VStr "node")].
Definition admin : Permission := mkPermission "arn:admin" "admin" ["system:masters"].

Definition admin_item : Item :=
  [("rolearn", VStr "arn:admin"); ("username", VStr "admin"); ("groups", VList [VStr "system:masters"])].

(** YAML on two documents. *)
#[local] Instance config_maps0 : ConfigMaps Cluster := {|
  get_configmap n := fun x => match dict_get x n with Some d => (Ok d, x) | None => (Raise (CalledProcessError n), x) end;
  apply_configmap n d := modify (fun x => dict_set x n d);
  yaml_load s := if String.eqb s "" then Ok None
                 else Ok (Some (if String.eqb s "- node" then [node] else [node; admin_item]));
  yaml_dump items := match items with [_] => "- node" | _ => "- node - admin" end
|}.

#[local] Instance config_laws0 : ConfigMapLaws.
Proof.
  refine {| configmaps (x : Cluster) := x; dumpable items := items = [node] \/ items = [node; admin_item] |}.
  - intros n d x Hx. cbn in *. by rewrite Hx.
  - intros n d x. by eexists.
  - by intros items [-> | ->].
  - done.
Defined.

Lemma role_let_in_witness :
  exists x1 : Cluster, auth_main (Some admin) None [("aws-auth", [("mapRoles", "- node")])] = (Ok 0, x1) /\
    x1 = [("aws-auth", [("mapRoles", "- node - admin")])].
Proof.
  destruct (role_let_in admin [("mapRoles", "- node")] [("mapRoles", [node])] [node] [("aws-auth", [("mapRoles", "- node")])])
    as (x1 & texts1 & data1 & Hr & Hx & _ & Hroles & _).
  - reflexivity.
  - reflexivity.
  - reflexivity.
  - repeat constructor. by eexists.
  - discriminate.
  - repeat constructor.
  - by right.
  - exists x1. split; [exact Hr|]. vm_compute in Hr. injection Hr as <-. reflexivity.
Defined.

#[local] Existing Instance literal_floats.

Lemma outputs_published_witness :
  exists d, filter_terraform_outputs (fun _ => false)
    [("key", JObj [("sensitive", JBool true); ("type", JStr "string"); ("value", JStr "secret")]);
     ("zones", JObj [("sensitive", JBool false); ("type", JStr "list"); ("value", JList [JStr "a"; JStr "b"])])] = Ok d /\
    dict_get d "key" = None /\ length d = 1%nat.
Proof.
  set (outputs := [("key", _); ("zones", _)]).
  destruct (filter_terraform_outputs (fun _ => false) outputs) as [d|] eqn:E; [|discriminate]. exists d. split; [done|].
  destruct (outputs_published (fun _ => false) outputs d) as [Hp Hs].
  - repeat constructor; set_solver.
  - exact E.
  - split; [|by apply Forall2_length in Hp]. eapply Hs; [left|reflexivity|reflexivity].
Defined.
End Witness.
