(* ===== verification/CiNotify.v ===== *)
(** * Notifications of the pipeline (ci/lambda-notify-ci-failures.py)

    The function that AWS calls with the events of CodeBuild and CodePipeline;
    it posts a message to a chat about the builds of the main branch that
    failed, and about every event of the pipeline that it is called with. *)

From S2P Require Import Prelude PyStr Json.

#[local] Arguments String.append !_ _ /.

Section Notify.
Context {F : PyFloat}.

Definition build_federate_url (console_url : string) : string :=
  "https://isengard.amazon.com/federate?account=563267192464&role=Admin&destination=" +:+ console_url +:+ "?region=us-east-1".

(** [event["detail"][key]], a text. *)
Definition detail (event : jval) (key : string) : Res string :=
  d <~ jget event "detail" ;;
  v <~ jget d key ;;
  match v with JStr s => Ok s | _ => Raise (TypeError key) end.

Definition codepipeline (event : jval) : Res (option string) :=
  execution_id <~ detail event "execution-id" ;;
  pipeline <~ detail event "pipeline" ;;
  let console_url := "codesuite/codepipeline/pipelines/" +:+ pipeline +:+ "/executions/" +:+ execution_id +:+ "/timeline" in
  Ok (Some ("Pipeline '" +:+ pipeline +:+ "' failed. See the execution here: " +:+ build_federate_url console_url)).

Definition codebuild (event : jval) : Res (option string) :=
  project <~ detail event "project-name" ;;
  if negb (endswith "-master" project) then Ok None
  else
    build_status <~ detail event "build-status" ;;
    if negb (String.eqb build_status "FAILED") then Ok None
    else
      uid <~ detail event "build-id" ;;
      match rfind_char ":" uid with
      | None => Raise (ValueError "substring not found")
      | Some i =>
          let uid := str_drop (S i) uid in
          let console_url := "codesuite/codebuild/projects/" +:+ project +:+ "/build/" +:+ project +:+ ":" +:+ uid +:+ "/log" in
          Ok (Some ("Build of " +:+ project +:+ " failed. See log here: " +:+ build_federate_url console_url))
      end.

Definition handlers : dict string (jval -> Res (option string)) :=
  [("aws.codebuild", codebuild); ("aws.codepipeline", codepipeline)].

(** The secret with the address of the chat, and the response's status. *)
Class Chat (X : Type) : Type := {
  hook_url : M X string;
  http_post : string -> string -> M X Z
}.

Section Handler.
Context `{Chat X}.

Definition post_chime_message (message : string) : M X unit :=
  url <- hook_url ;;
  status <- http_post url (jdumps (JObj [("Content", JStr message)])) ;;
  if status =? 200 then ret tt
  else raise (ValueError ("Got a different than 200 response.status: " +:+ pretty status)).

(** [lambda_handler]: the status code of the answer. *)
Definition lambda_handler (event : jval) : M X Z :=
  source <- lift (v <~ jget event "source" ;; match v with JStr s => Ok s | _ => Raise (TypeError "unhashable type") end) ;;
  handler <- lift (match dict_get handlers source with Some h => Ok h | None => Raise (KeyError source) end) ;;
  chime_message <- lift (handler event) ;;
  (if str_truthy chime_message then post_chime_message (default "" chime_message) else ret tt) ;;
  ret 200.
End Handler.

(** ** Which builds are reported *)

(** The messages posted so far. *)
Class ChatLog `{Chat X} : Type := {
  posted : X -> list string;
  hook_url_ok : forall x, exists url x', hook_url x = (Ok url, x') /\ posted x' = posted x;
  http_post_ok : forall url body x, exists x', http_post url body x = (Ok 200, x') /\ posted x' = (posted x ++ [body])%list
}.

Definition failed_master (project status : string) : bool := endswith "-master" project && String.eqb status "FAILED".

(** Of the builds, exactly the failed ones of a master project are reported,
    each by one message that names the project and links to the log of the
    build; for all others the chat is not even asked for. *)
Theorem failed_builds_reported `{ChatLog X} event project status arn uid x
    (Hsource : jget event "source" = Ok (JStr "aws.codebuild"))
    (Hproject : detail event "project-name" = Ok project) (Hstatus : detail event "build-status" = Ok status)
    (Hid : detail event "build-id" = Ok (arn +:+ String ":" uid)) (Huid : no_char ":" uid = true) :
  if failed_master project status then
    exists x' message, lambda_handler event x = (Ok 200, x') /\
      posted x' = (posted x ++ [jdumps (JObj [("Content", JStr message)])])%list /\
      message = "Build of " +:+ project +:+ " failed. See log here: " +:+
        build_federate_url ("codesuite/codebuild/projects/" +:+ project +:+ "/build/" +:+ project +:+ ":" +:+ uid +:+ "/log")
  else lambda_handler event x = (Ok 200, x).
Proof.
  assert (Hdrop : str_drop (S (String.length arn)) (arn +:+ String ":" uid) = uid).
  { clear. induction arn as [|c arn IH]; [by destruct uid|]. exact IH. }
  unfold lambda_handler, bind, lift. rewrite Hsource. cbn [res_bind].
  change (dict_get handlers "aws.codebuild") with (Some codebuild). cbv beta iota. unfold codebuild, failed_master.
  rewrite Hproject. cbn [res_bind]. destruct (endswith "-master" project); cbn [negb andb]; [|done].
  rewrite Hstatus. cbn [res_bind]. destruct (String.eqb status "FAILED"); cbn [negb]; [|done].
  rewrite Hid. cbn [res_bind]. rewrite rfind_char_app, Hdrop by done. cbv zeta iota. cbn [str_truthy default].
  destruct (String.eqb_spec ("Build of " +:+ project +:+ " failed. See log here: " +:+ build_federate_url
     ("codesuite/codebuild/projects/" +:+ project +:+ "/build/" +:+ project +:+ ":" +:+ uid +:+ "/log")) "") as [E|_]; [discriminate|].
  cbn [negb]. unfold post_chime_message, bind. destruct (hook_url_ok x) as (url & x1 & -> & Hx1).
  match goal with |- context [http_post url ?b x1] => destruct (http_post_ok url b x1) as (x2 & -> & Hx2) end.
  exists x2. eexists. split; [done|]. rewrite Hx2, Hx1. split; [reflexivity|done].
Qed.
End Notify.

Module Witness.
#[local] Existing Instance literal_floats.

#[local] Instance chat0 : Chat (list string) := {|
  hook_url := ret "https://hooks";
  http_post _ body := fun x => (Ok 200, (x ++ [body])%list)
|}.

#[local] Instance chat_log0 : ChatLog.
Proof.
  refine {| posted (x : list string) := x |}.
  - intros x. by exists "https://hooks", x.
  - intros url body x. by eexists.
Defined.

Definition build (project status : string) : jval :=
  JObj [("source", JStr "aws.codebuild");
        ("detail", JObj [("project-name", JStr project); ("build-status", JStr status); ("build-id", JStr "arn:aws:build/p:u1")])].

Lemma failed_builds_reported_witness :
  lambda_handler (build "fetcher-branch" "FAILED") [] = (Ok 200, []) /\
  length (lambda_handler (build "fetcher-master" "FAILED") []).2 = 1%nat.
Proof.
  split.
  - exact (failed_builds_reported (build "fetcher-branch" "FAILED") "fetcher-branch" "FAILED" "arn:aws:build/p" "u1" (@nil string)
      eq_refl eq_refl eq_refl eq_refl eq_refl).
  - destruct (failed_builds_reported (build "fetcher-master" "FAILED") "fetcher-master" "FAILED" "arn:aws:build/p" "u1" (@nil string)
      eq_refl eq_refl eq_refl eq_refl eq_refl) as (x' & message & Hr & Hp & _).
    rewrite Hr. cbn [snd]. cbn in Hp. by rewrite Hp.
Defined.
End Witness.
