(* ===== verification/ClientLib.v ===== *)
(** * The client library of benchmarks (client-lib/src/benchmarkai/__init__.py)

    [emit] writes a dictionary of metrics as one line of JSON to the FIFO that
    the metrics pusher created, or to standard output.  The FIFO is opened once;
    while it does not exist the library sleeps, for a bounded time. *)

From Stdlib Require Import SpecFloat.
From S2P Require Import Prelude PyStr PyLib Json.

#[local] Arguments String.append !_ _ /.

(** A Python [float]: binary64 with its rounding. *)
Definition float_add : spec_float -> spec_float -> spec_float := SFadd 53 1024.
Definition float_lt : spec_float -> spec_float -> bool := SFltb.
Definition float_of_Z (mantissa exponent : Z) : spec_float := binary_normalize 53 1024 mantissa exponent false.

(** The environment variables that the library reads, and the file system: does
    the FIFO exist after so many sleeps? *)
Record FifoConfig := mkFifoConfig {
  fc_pathname : string;
  fc_max_wait_time : spec_float;
  fc_step_time : spec_float;
  fc_exists : nat -> bool
}.

Definition FIFO_FILEPATH : string := "/tmp/benchmark-ai/fifo".

(** The defaults: ten seconds in steps of half a second. *)
Definition default_config (exists_after : nat -> bool) : FifoConfig :=
  mkFifoConfig FIFO_FILEPATH (float_of_Z 10 0) (float_of_Z 1 (-1)) exists_after.

(** [__fifo] once it is open, what was written to it, what was printed, the
    sleeps so far and the files to close at exit. *)
Record Client := mkClient {
  cl_fifo : option string;
  cl_written : string;
  cl_stdout : list string;
  cl_slept : nat;
  cl_atexit : list string
}.

Definition client0 : Client := mkClient None "" [] 0 [].

Section ClientLib.
Context `{PyFloat} (cfg : FifoConfig).
Context (float_text : spec_float -> string).

Definition print (s : string) : M Client unit :=
  modify (fun c => mkClient (cl_fifo c) (cl_written c) (cl_stdout c ++ [s])%list (cl_slept c) (cl_atexit c)).

Definition sleep : M Client unit :=
  modify (fun c => mkClient (cl_fifo c) (cl_written c) (cl_stdout c) (S (cl_slept c)) (cl_atexit c)).

Definition wait_message : string :=
  "[benchmark ai] DEBUG - Other process has NOT created the FIFO yet, sleeping for "
    +:+ float_text (fc_step_time cfg) +:+ " seconds".

(** The [while not os.path.exists(pathname)] loop, [None] when the fuel runs
    out. *)
Fixpoint wait_for_fifo (fuel : nat) (waited : spec_float) : M Client (option unit) :=
  match fuel with
  | O => ret None
  | S fuel' =>
      c <- get ;;
      if fc_exists cfg (cl_slept c) then ret (Some tt)
      else if float_lt (fc_max_wait_time cfg) waited then raise FifoNotCreatedInTimeError
      else
        print wait_message ;;
        sleep ;;
        wait_for_fifo fuel' (float_add waited (fc_step_time cfg))
  end.

Definition open_fifo : M Client unit :=
  modify (fun c => mkClient (Some (fc_pathname cfg)) (cl_written c) (cl_stdout c) (cl_slept c)
                     (cl_atexit c ++ [fc_pathname cfg])%list).

(** [_getfifo]. *)
Definition getfifo (fuel : nat) : M Client (option unit) :=
  c <- get ;;
  match cl_fifo c with
  | Some _ => ret (Some tt)
  | None =>
      r <- wait_for_fifo fuel (S754_zero false) ;;
      match r with
      | Some _ => open_fifo ;; ret (Some tt)
      | None => ret None
      end
  end.

(** [_send]: the text and a line break, then a flush. *)
Definition send (s : string) : M Client unit :=
  modify (fun c => mkClient (cl_fifo c) (cl_written c +:+ s +:+ String "010" "") (cl_stdout c) (cl_slept c) (cl_atexit c)).

(** [_serialize]. *)
Definition serialize (metrics : jval) : Res string :=
  match metrics with
  | JObj [] => Raise (ValueError "The parameter `metrics` is empty")
  | JObj _ => Ok (jdumps metrics)
  | _ => Raise (TypeError "The parameter `metrics` should be a dictionary")
  end.

(** [_emit_to_fifo]; the result tells whether the fuel was enough. *)
Definition emit_to_fifo (fuel : nat) (metrics : jval) : M Client (option unit) :=
  s <- lift (serialize metrics) ;;
  r <- getfifo fuel ;;
  match r with
  | Some _ => send s ;; ret (Some tt)
  | None => ret None
  end.

(** [_emit_to_stdout]. *)
Definition emit_to_stdout (metrics : jval) : M Client (option unit) :=
  s <- lift (serialize metrics) ;;
  print s ;;
  ret (Some tt).

(** The emitter that the variable [BENCHMARK_AI] names, chosen at import. *)
Definition configured_emitter (fuel : nat) (benchmark_ai : option string) : Res (jval -> M Client (option unit)) :=
  let name := lower (default "stdout" benchmark_ai) in
  if String.eqb name "fifo" then Ok (emit_to_fifo fuel)
  else if String.eqb name "stdout" then Ok emit_to_stdout
  else Raise (ValueError ("Unsupported emitter: " +:+ name)).

(** ** How long the library waits *)

(** [waited] after [n] sleeps. *)
Fixpoint waited_after (n : nat) : spec_float :=
  match n with
  | O => S754_zero false
  | S n' => float_add (waited_after n') (fc_step_time cfg)
  end.

(** The state after [n] more sleeps. *)
Definition slept (n : nat) (c : Client) : Client :=
  mkClient (cl_fifo c) (cl_written c) (cl_stdout c ++ repeat wait_message n)%list (n + cl_slept c) (cl_atexit c).

Lemma slept_0 c : slept 0 c = c.
Proof. destruct c. unfold slept. cbn. by rewrite app_nil_r. Qed.

Lemma slept_S n c : slept (S n) c = (slept n (slept 1 c)).
Proof.
  destruct c as [f w o k a]. unfold slept. cbn [cl_fifo cl_written cl_stdout cl_slept cl_atexit repeat].
  rewrite <- app_assoc. cbn [app]. f_equal. lia.
Qed.

(** The loop runs until the FIFO exists or the time is over. *)
Lemma wait_for_fifo_run n i c fuel :
  (forall k, (k < n)%nat -> fc_exists cfg (k + cl_slept c) = false) ->
  (forall k, (k < n)%nat -> float_lt (fc_max_wait_time cfg) (waited_after (k + i)) = false) ->
  (n < fuel)%nat ->
  wait_for_fifo fuel (waited_after i) c =
  if fc_exists cfg (n + cl_slept c) then (Ok (Some tt), slept n c)
  else if float_lt (fc_max_wait_time cfg) (waited_after (n + i)) then (Raise FifoNotCreatedInTimeError, slept n c)
  else wait_for_fifo (fuel - S n) (waited_after (S n + i)) (slept (S n) c).
Proof.
  revert i c fuel. induction n as [|n IH]; intros i c fuel He Hw Hf.
  - destruct fuel as [|fuel]; [lia|]. cbn [wait_for_fifo]. unfold bind, get. cbn [plus]. rewrite slept_0.
    destruct (fc_exists cfg (cl_slept c)); [done|].
    destruct (float_lt (fc_max_wait_time cfg) (waited_after i)); [done|].
    replace (S fuel - 1)%nat with fuel by lia. reflexivity.
  - destruct fuel as [|fuel]; [lia|]. cbn [wait_for_fifo]. unfold bind, get.
    pose proof (He 0%nat ltac:(lia)) as He0. cbn [plus] in He0. rewrite He0.
    pose proof (Hw 0%nat ltac:(lia)) as Hw0. cbn [plus] in Hw0. rewrite Hw0.
    cbn [print sleep modify].
    change (float_add (waited_after i) (fc_step_time cfg)) with (waited_after (S i)).
    match goal with |- wait_for_fifo fuel _ ?c1 = _ => change c1 with (slept 1 c) end.
    rewrite (IH (S i) (slept 1 c) fuel);
      [|intros k Hk; replace (k + cl_slept (slept 1 c))%nat with (S k + cl_slept c)%nat by (cbn; lia); apply He; lia
       |intros k Hk; replace (k + S i)%nat with (S k + i)%nat by lia; apply Hw; lia|lia].
    rewrite <- !slept_S. replace (n + cl_slept (slept 1 c))%nat with (S n + cl_slept c)%nat by (cbn; lia).
    replace (n + S i)%nat with (S n + i)%nat by lia. replace (S n + S i)%nat with (S (S n) + i)%nat by lia.
    by replace (S fuel - S (S n))%nat with (fuel - S n)%nat by lia.
Qed.

(** Once the FIFO is open, an emission writes its line and nothing else. *)
Definition write_line (s : string) (c : Client) : Client :=
  mkClient (cl_fifo c) (cl_written c +:+ s +:+ String "010" "") (cl_stdout c) (cl_slept c) (cl_atexit c).

Lemma emit_to_fifo_open fuel metrics s c p :
  cl_fifo c = Some p -> serialize metrics = Ok s ->
  emit_to_fifo fuel metrics c = (Ok (Some tt), write_line s c).
Proof. intros Hc Hs. unfold emit_to_fifo, getfifo, bind, lift, get. by rewrite Hs, Hc. Qed.

(** Several emissions in a row, and the text they write. *)
Fixpoint emit_all (fuel : nat) (l : list jval) : M Client (option unit) :=
  match l with
  | [] => ret (Some tt)
  | m :: l' =>
      r <- emit_to_fifo fuel m ;;
      match r with
      | Some _ => emit_all fuel l'
      | None => ret None
      end
  end.

Fixpoint lines_of (l : list string) : string :=
  match l with
  | [] => ""
  | s :: l' => s +:+ String "010" (lines_of l')
  end.

Definition is_metrics (m : jval) : bool :=
  match m with JObj (_ :: _) => true | _ => false end.

Lemma serialize_metrics m : is_metrics m = true -> serialize m = Ok (jdumps m).
Proof. destruct m as [| | | | | | | |[|? ?]]; done. Qed.

Lemma emit_all_open fuel l c p :
  cl_fifo c = Some p -> forallb is_metrics l = true ->
  emit_all fuel l c =
  (Ok (Some tt), mkClient (cl_fifo c) (cl_written c +:+ lines_of (map jdumps l)) (cl_stdout c) (cl_slept c) (cl_atexit c)).
Proof.
  revert c. induction l as [|m l IH]; intros c Hc Hl.
  - cbn. rewrite str_app_nil_r. by destruct c.
  - cbn [forallb] in Hl. apply andb_true_iff in Hl as [Hm Hl]. cbn [emit_all]. unfold bind.
    rewrite (emit_to_fifo_open _ _ _ _ _ Hc (serialize_metrics _ Hm)).
    rewrite IH by done. cbn [map lines_of write_line cl_fifo cl_written cl_stdout cl_slept cl_atexit].
    by rewrite !str_app_assoc.
Qed.
End ClientLib.

(** ** The default wait *)

(** The first of the times [s], [s + 1], ... before [s + k] at which the FIFO
    exists, as a number of sleeps; [k] when there is none. *)
Fixpoint first_seen (ex : nat -> bool) (s k : nat) : nat :=
  match k with
  | O => 0
  | S k' => if ex s then 0%nat else S (first_seen ex (S s) k')
  end.

Lemma first_seen_spec ex s k :
  (first_seen ex s k <= k)%nat /\
  (forall j, (j < first_seen ex s k)%nat -> ex (j + s)%nat = false) /\
  ((first_seen ex s k < k)%nat -> ex (first_seen ex s k + s)%nat = true).
Proof.
  revert s. induction k as [|k IH]; intros s; cbn [first_seen]; [split_and!; lia|].
  destruct (ex s) eqn:E; [split_and!; [lia|lia|done]|].
  destruct (IH (S s)) as (H1 & H2 & H3). split_and!.
  - lia.
  - intros [|j] Hj; [done|]. replace (S j + s)%nat with (j + S s)%nat by lia. apply H2. lia.
  - intros Hlt. replace (S (first_seen ex (S s) k) + s)%nat with (first_seen ex (S s) k + S s)%nat by lia. apply H3. lia.
Qed.

(** More than ten seconds have passed after 21 half seconds, and not before. *)
Lemma default_waited ex n :
  (n <= 21)%nat ->
  float_lt (fc_max_wait_time (default_config ex)) (waited_after (default_config ex) n) = (21 <=? n)%nat.
Proof. intros H. do 22 (destruct n as [|n]; [reflexivity|]). lia. Qed.

Section Default.
Context `{PyFloat} (float_text : spec_float -> string) (ex : nat -> bool).

(** The first emission, by the first time at which the FIFO exists. *)
Lemma emit_first metrics c
    (Hm : is_metrics metrics = true) (Hc : cl_fifo c = None) :
  let n := first_seen ex (cl_slept c) 21 in
  let cfg := default_config ex in
  emit_to_fifo cfg float_text 22 metrics c =
  if ex (n + cl_slept c)%nat
  then (Ok (Some tt), write_line (jdumps metrics) (open_fifo cfg (slept cfg float_text n c)).2)
  else (Raise FifoNotCreatedInTimeError, slept cfg float_text 21 c).
Proof.
  cbv zeta. destruct (first_seen_spec ex (cl_slept c) 21) as (H1 & H2 & H3).
  set (n := first_seen ex (cl_slept c) 21) in *.
  unfold emit_to_fifo, getfifo, bind, lift, get. rewrite serialize_metrics, Hc by done.
  change (S754_zero false) with (waited_after (default_config ex) 0).
  rewrite (wait_for_fifo_run _ float_text n 0 c);
    [|exact H2|intros k Hk; rewrite Nat.add_0_r, default_waited by lia; apply Nat.leb_gt; lia|lia].
  cbn [fc_exists default_config]. destruct (ex (n + cl_slept c)%nat) eqn:E; [done|].
  assert (n = 21%nat) as -> by (destruct (decide (n < 21)%nat) as [Hlt|]; [specialize (H3 Hlt); congruence|lia]).
  reflexivity.
Qed.
(** With the default configuration the first emission waits until the FIFO
    exists and then writes exactly its line; it sleeps at most 21 times, and
    gives up with FifoNotCreatedInTimeError, having written nothing, exactly
    when the FIFO is missing at all those times. *)
Theorem emit_waits_for_fifo metrics c
    (Hm : is_metrics metrics = true) (Hc : cl_fifo c = None) :
  let cfg := default_config ex in
  exists n, (n <= 21)%nat /\ (forall j, (j < n)%nat -> ex (j + cl_slept c)%nat = false) /\
  ((ex (n + cl_slept c)%nat = true /\
    emit_to_fifo cfg float_text 22 metrics c =
    (Ok (Some tt), write_line (jdumps metrics) (open_fifo cfg (slept cfg float_text n c)).2)) \/
   (n = 21%nat /\ ex (n + cl_slept c)%nat = false /\
    emit_to_fifo cfg float_text 22 metrics c = (Raise FifoNotCreatedInTimeError, slept cfg float_text 21 c))).
Proof.
  cbv zeta. exists (first_seen ex (cl_slept c) 21). destruct (first_seen_spec ex (cl_slept c) 21) as (H1 & H2 & H3).
  split_and!; [done|done|]. rewrite emit_first by done.
  destruct (ex (first_seen ex (cl_slept c) 21 + cl_slept c)%nat) eqn:E; [by left|right].
  split_and!; try done. destruct (decide (first_seen ex (cl_slept c) 21 < 21)%nat) as [Hlt|]; [|lia].
  specialize (H3 Hlt). congruence.
Qed.
End Default.

Module Witness.
#[local] Existing Instance literal_floats.

Definition m0 : jval := JObj [("accuracy", JStr "0.9")].

Lemma emit_waits_for_fifo_witness :
  exists n, (n <= 21)%nat /\ (forall j, (j < n)%nat -> (fun k => (3 <=? k)%nat) (j + 0)%nat = false) /\
  (((fun k => (3 <=? k)%nat) (n + 0)%nat = true /\
    emit_to_fifo (default_config (fun k => (3 <=? k)%nat)) (fun _ => "0.500000") 22 m0 client0 =
    (Ok (Some tt), write_line (jdumps m0) (open_fifo (default_config (fun k => (3 <=? k)%nat))
       (slept (default_config (fun k => (3 <=? k)%nat)) (fun _ => "0.500000") n client0)).2)) \/
   (n = 21%nat /\ (fun k => (3 <=? k)%nat) (n + 0)%nat = false /\
    emit_to_fifo (default_config (fun k => (3 <=? k)%nat)) (fun _ => "0.500000") 22 m0 client0 =
    (Raise FifoNotCreatedInTimeError, slept (default_config (fun k => (3 <=? k)%nat)) (fun _ => "0.500000") 21 client0))).
Proof. apply (emit_waits_for_fifo (fun _ => "0.500000") (fun n => (3 <=? n)%nat) m0 client0); reflexivity. Defined.

Example emits_nothing :
  (emit_to_fifo (default_config (fun _ => false)) (fun _ => "0.500000") 22 m0 client0).1 =
    Raise FifoNotCreatedInTimeError /\
  is_ok (emit_to_fifo (default_config (fun _ => true)) (fun _ => "0.500000") 22 (JObj []) client0).1 = false.
Proof. split; vm_compute; reflexivity. Qed.
End Witness.
