(* ===== verification/Binary64.v ===== *)
(** * Rounding of binary64

    The services divide and multiply sizes with Python's floats.  A float is an
    integer times a power of two here, and [round_float] rounds such an integer
    to 53 significant bits, as every operation of binary64 does. *)

From S2P Require Import Prelude.

(** The nearest number with 53 significant bits, ties to even. *)
Definition round53 (n : Z) : Z :=
  if n <? 2 ^ 53 then n
  else
    let s := Z.log2 n - 52 in
    let q := n / 2 ^ s in
    let r := n mod 2 ^ s in
    let half := 2 ^ (s - 1) in
    (if (half <? r) || ((r =? half) && Z.odd q) then q + 1 else q) * 2 ^ s.

Definition round_float (n : Z) : Z := Z.sgn n * round53 (Z.abs n).

(** [ceil] of the number [n / 2^k]. *)
Definition ceil_scaled (k n : Z) : Z := - ((- n) / 2 ^ k).

(** ** Lemmas *)

Lemma round53_near n :
  0 <= n -> exists s a, 0 <= s /\ round53 n = a * 2 ^ s /\ - 2 ^ s <= 2 * (round53 n - n) <= 2 ^ s /\
    ((s = 0 /\ n < 2 ^ 53 /\ round53 n = n) \/ 2 ^ (s + 52) <= n < 2 ^ (s + 53)).
Proof.
  intros Hn. unfold round53. destruct (Z.ltb_spec n (2 ^ 53)) as [Hs|Hb].
  { exists 0, n. rewrite Z.mul_1_r. split_and!; lia. }
  set (s := Z.log2 n - 52). destruct (Z.log2_spec n ltac:(lia)) as [Hl Hu].
  assert (Hs : 1 <= s) by (unfold s; pose proof (Z.log2_le_mono _ _ Hb) as E; rewrite Z.log2_pow2 in E; lia).
  pose proof (Z.div_mod n (2 ^ s) ltac:(lia)) as Hdm.
  pose proof (Z.mod_pos_bound n (2 ^ s) ltac:(lia)) as Hm.
  assert (H2 : 2 ^ s = 2 * 2 ^ (s - 1)) by (rewrite <- Z.pow_succ_r by lia; f_equal; lia).
  eexists s, _. split; [lia|]. split; [reflexivity|]. split.
  - destruct (Z.ltb_spec (2 ^ (s - 1)) (n mod 2 ^ s)); cbn [orb]; [nia|].
    destruct (Z.eqb_spec (n mod 2 ^ s) (2 ^ (s - 1))); cbn [andb]; [destruct (Z.odd _)|]; nia.
  - right. unfold s. replace (Z.log2 n - 52 + 52) with (Z.log2 n) by lia.
    replace (Z.log2 n - 52 + 53) with (Z.succ (Z.log2 n)) by lia. lia.
Qed.

Lemma multiple_of_pow s k m : 0 <= s <= k -> exists b, m * 2 ^ k = b * 2 ^ s.
Proof.
  intros Hs. exists (m * 2 ^ (k - s)). rewrite <- Z.mul_assoc, <- Z.pow_add_r by lia. do 2 f_equal. lia.
Qed.

(** Rounding does not jump over a multiple of a power of two that is near, and
    loses at most the 2^53rd part. *)
Lemma round53_upper n k m e :
  0 <= n < 2 ^ (k + 53) -> 0 <= k -> 0 <= e -> 2 * e * 2 ^ 53 <= n -> n <= m * 2 ^ k + e -> round53 n <= m * 2 ^ k.
Proof.
  intros Hn Hk He Hen Hle.
  destruct (round53_near n ltac:(lia)) as (s & a & Hs & Ha & Hnear & [(-> & Hsmall & ->)|Hb]).
  { change (2 ^ 53) with 9007199254740992 in *. lia. }
  assert (Hsk : s <= k).
  { assert (2 ^ (s + 52) < 2 ^ (k + 53)) as Hp by lia. apply Z.pow_lt_mono_r_iff in Hp; lia. }
  destruct (multiple_of_pow s k m ltac:(lia)) as [b Hb'].
  assert (H2e : 2 * e < 2 ^ s).
  { rewrite Z.pow_add_r in Hb by lia. rewrite (Z.pow_add_r 2 s 53) in Hb by lia. nia. }
  destruct (Z.le_gt_cases (round53 n) (m * 2 ^ k)) as [|Hgt]; [done|exfalso].
  rewrite Ha, Hb' in *. assert (b + 1 <= a) by nia. nia.
Qed.

Lemma round53_lower n : 0 <= n -> 2 ^ 53 * (n - round53 n) <= n.
Proof.
  intros Hn. destruct (round53_near n Hn) as (s & a & Hs & _ & Hnear & [(_ & _ & ->)|Hb]); [lia|].
  rewrite Z.pow_add_r in Hb by lia. change (2 ^ 53) with (2 * 2 ^ 52). nia.
Qed.

Lemma round53_nonneg n : 0 <= n -> 0 <= round53 n.
Proof. intros Hn. pose proof (round53_lower n Hn). lia. Qed.

Lemma ceil_scaled_spec k n c : 0 <= k -> (c - 1) * 2 ^ k < n <= c * 2 ^ k -> ceil_scaled k n = c.
Proof.
  intros Hk Hc. unfold ceil_scaled. enough ((- n) / 2 ^ k = - c) by lia.
  symmetry. apply (Z.div_unique _ _ _ (- n + c * 2 ^ k)); lia.
Qed.

Lemma round_float_nonneg n : 0 <= n -> round_float n = round53 n.
Proof.
  intros Hn. unfold round_float. destruct (Z.eq_dec n 0) as [->|]; [done|].
  rewrite Z.sgn_pos, Z.abs_eq by lia. lia.
Qed.

(** The same from below, and the error upwards. *)
Lemma round53_lower_mult n k m :
  0 <= n < 2 ^ (k + 53) -> 0 <= k -> m * 2 ^ k <= n -> m * 2 ^ k <= round53 n.
Proof.
  intros Hn Hk Hle.
  destruct (round53_near n ltac:(lia)) as (s & a & Hs & Ha & Hnear & [(-> & Hsmall & ->)|Hb]); [lia|].
  assert (Hsk : s <= k).
  { assert (2 ^ (s + 52) < 2 ^ (k + 53)) as Hp by lia. apply Z.pow_lt_mono_r_iff in Hp; lia. }
  destruct (multiple_of_pow s k m ltac:(lia)) as [b Hb'].
  assert (0 < 2 ^ s) by (apply Z.pow_pos_nonneg; lia).
  destruct (Z.le_gt_cases (m * 2 ^ k) (round53 n)) as [|Hgt]; [done|exfalso].
  rewrite Ha, Hb' in *. assert (a + 1 <= b) by nia. nia.
Qed.

Lemma round53_error n : 0 <= n -> 2 ^ 53 * (round53 n - n) <= n.
Proof.
  intros Hn. destruct (round53_near n Hn) as (s & a & Hs & _ & Hnear & [(_ & _ & ->)|Hb]); [lia|].
  rewrite Z.pow_add_r in Hb by lia. change (2 ^ 53) with (2 * 2 ^ 52). nia.
Qed.

(** The exact ceiling of a quotient. *)
Definition ceil_div (n d : Z) : Z := (n + (d - 1)) / d.

Lemma ceil_div_spec n d : 0 < d -> d * (ceil_div n d - 1) < n <= d * ceil_div n d.
Proof.
  intros Hd. unfold ceil_div. pose proof (Z.div_mod (n + (d - 1)) d ltac:(lia)).
  pose proof (Z.mod_pos_bound (n + (d - 1)) d Hd). nia.
Qed.
