(* ===== verification/Progress.v ===== *)
(** * Progress of transfers (s3_utils.ProgressCallback, http_utils.ProgressTracker)

    The callbacks that boto3 and pycurl call while data moves.  Their state
    tells when they report next; the quotient that they compare with is a float
    of binary64, here an integer over a power of two. *)

From S2P Require Import Prelude Binary64.

(** ** The quotient of two integers

    [a / b] of Python for a non-negative and a positive integer: the exact
    quotient, with a sticky bit below, rounded once. *)

Record float := mkFloat { f_num : Z; f_scale : Z }.

Definition quotient_scale (b : Z) : Z := 64 + Z.log2 b.

Definition true_div (a b : Z) : float :=
  let k := quotient_scale b in
  let q := a * 2 ^ k / b in
  let sticky := if (a * 2 ^ k) mod b =? 0 then 0 else 1 in
  mkFloat (round53 (2 * q + sticky)) (k + 1).

(** [n > x] for an integer: exact, as Python compares. *)
Definition int_gt (n : Z) (x : float) : bool := f_num x <? n * 2 ^ f_scale x.

(** ** The callbacks

    A call returns the value it reports, if it does. *)

Record ProgressCallback := mkProgress {
  pc_total_size : Z;
  pc_transferred_total : Z;
  pc_last_reported : Z;
  pc_bucket : float
}.

Definition ProgressCallback_init (total_size granularity : Z) : ProgressCallback :=
  mkProgress total_size 0 0 (true_div total_size granularity).

Definition progress_call (transferred : Z) (p : ProgressCallback) : option Z * ProgressCallback :=
  if pc_total_size p =? 0 then (None, p)
  else
    let transferred_total := pc_transferred_total p + transferred in
    if int_gt (transferred_total - pc_last_reported p) (pc_bucket p)
    then (Some transferred_total, mkProgress (pc_total_size p) transferred_total transferred_total (pc_bucket p))
    else (None, mkProgress (pc_total_size p) transferred_total (pc_last_reported p) (pc_bucket p)).

Definition TRACKER_GRANULARITY : Z := 10.

(** [ProgressTracker.__call__]; the state is what was reported last. *)
Definition tracker_call (download_total downloaded : Z) (reported : Z) : option Z * Z :=
  if download_total =? 0 then (None, reported)
  else
    let bucket := true_div download_total TRACKER_GRANULARITY in
    if int_gt (downloaded - reported) bucket then (Some downloaded, downloaded) else (None, reported).

(** The reports of a transfer. *)
Fixpoint reports {S A} (call : A -> S -> option Z * S) (calls : list A) (s : S) : list Z :=
  match calls with
  | [] => []
  | a :: rest =>
      let (r, s') := call a s in
      match r with Some v => v :: reports call rest s' | None => reports call rest s' end
  end.

Example tracker_reports : reports (fun d => tracker_call 1000 d) [50; 100; 101; 180; 202; 1000] 0 = [101; 202; 1000].
Proof. reflexivity. Qed.

Example progress_reports : reports progress_call [40; 61; 100; 1; 798] (ProgressCallback_init 1000 10) = [101; 202; 1000].
Proof. reflexivity. Qed.

(** ** How often they report *)

Lemma quotient_scale_pos b : 0 < b -> 64 <= quotient_scale b.
Proof. unfold quotient_scale. pose proof (Z.log2_nonneg b). lia. Qed.

(** The rounded quotient is at least the whole one. *)
Lemma true_div_floor a b n :
  0 <= a < 2 ^ 53 -> 0 < b -> int_gt n (true_div a b) = true -> a / b < n.
Proof.
  intros Ha Hb. unfold int_gt, true_div. cbn [f_num f_scale]. intros Hgt%Z.ltb_lt.
  set (k := quotient_scale b) in *. assert (Hk : 64 <= k) by by apply quotient_scale_pos.
  set (q := a * 2 ^ k / b) in *. set (sticky := if (a * 2 ^ k) mod b =? 0 then 0 else 1) in Hgt.
  assert (Hs : 0 <= sticky <= 1) by (unfold sticky; case_match; lia).
  assert (H2k : 0 < 2 ^ k) by (apply Z.pow_pos_nonneg; lia).
  assert (Hwhole : a / b * 2 ^ k <= q).
  { apply Z.div_le_lower_bound; [done|]. pose proof (Z.mul_div_le a b Hb). nia. }
  assert (Hq : q <= a * 2 ^ k) by (apply Z.div_le_upper_bound; nia).
  assert (Hdiv : a / b <= a) by (apply Z.div_le_upper_bound; nia).
  assert (H2 : 2 ^ (k + 1) = 2 * 2 ^ k) by (rewrite Z.pow_add_r by lia; lia).
  assert (Hlow : a / b * 2 ^ (k + 1) <= round53 (2 * q + sticky)).
  { apply round53_lower_mult; [|lia|nia]. split; [pose proof (Z.div_pos (a * 2 ^ k) b); unfold q; lia|].
    replace (k + 1 + 53) with (k + 54) by lia. rewrite Z.pow_add_r by lia. change (2 ^ 54) with (2 * 2 ^ 53). nia. }
  nia.
Qed.

Section Bound.
Context (total granularity : Z) (Htotal : 0 <= total < 2 ^ 53) (Hgran : 0 < granularity).

(** Every report is more than the bucket after the last one. *)
Inductive spaced : Z -> list Z -> Prop :=
| spaced_nil last : spaced last []
| spaced_cons last v l : int_gt (v - last) (true_div total granularity) = true -> spaced v l -> spaced last (v :: l).

Lemma spaced_bound last l :
  spaced last l -> Forall (fun v => v <= total) l -> last + Z.of_nat (length l) * (total / granularity + 1) <= Z.max total last.
Proof.
  induction 1 as [last|last v l Hgt _ IH]; intros Hle; [cbn; lia|]. apply Forall_cons in Hle as [Hv Hle].
  apply true_div_floor in Hgt; [|done..]. specialize (IH Hle). cbn [length]. nia.
Qed.

Lemma spaced_count l : spaced 0 l -> Forall (fun v => v <= total) l -> Z.of_nat (length l) < granularity.
Proof.
  intros Hs Hle. pose proof (spaced_bound 0 l Hs Hle) as Hb.
  pose proof (Z.mul_succ_div_gt total granularity Hgran). pose proof (Z.div_pos total granularity ltac:(lia) Hgran). nia.
Qed.

Lemma reports_progress n calls t last b :
  reports progress_call (n :: calls) (mkProgress total t last b) =
  if total =? 0 then reports progress_call calls (mkProgress total t last b)
  else if int_gt (t + n - last) b then (t + n) :: reports progress_call calls (mkProgress total (t + n) (t + n) b)
  else reports progress_call calls (mkProgress total (t + n) last b).
Proof.
  cbn [reports]. unfold progress_call at 1. cbn [pc_total_size pc_transferred_total pc_last_reported pc_bucket].
  destruct (total =? 0); [done|]. by destruct (int_gt _ _).
Qed.

Lemma progress_spaced calls t last :
  Forall (Z.le 0) calls -> last <= t -> t + foldr Z.add 0 calls <= total ->
  let l := reports progress_call calls (mkProgress total t last (true_div total granularity)) in
  spaced last l /\ Forall (fun v => v <= total) l.
Proof.
  intros Hc. revert t last. induction Hc as [|n calls Hn Hc IH]; intros t last Hl Hsum l; [by split; constructor|].
  assert (Hrest : 0 <= foldr Z.add 0 calls) by (clear -Hc; induction Hc; cbn; lia). cbn [foldr] in Hsum.
  unfold l. rewrite reports_progress. destruct (total =? 0); [apply IH; lia|].
  destruct (int_gt (t + n - last) _) eqn:Eg; [|apply IH; lia].
  destruct (IH (t + n) (t + n) ltac:(lia) ltac:(lia)) as [H1 H2]. split; constructor; [done..|lia|done].
Qed.

(** A transfer of not more than its size is reported less often than the
    granularity says, for sizes below 2^53. *)
Theorem progress_reports_bounded calls (Hcalls : Forall (Z.le 0) calls) (Hsum : foldr Z.add 0 calls <= total) :
  Z.of_nat (length (reports progress_call calls (ProgressCallback_init total granularity))) < granularity.
Proof.
  destruct (progress_spaced calls 0 0) as [Hs Hle]; [done|lia|lia|]. by apply spaced_count.
Qed.
End Bound.

(** The tracker of curl, whatever order its calls come in, as long as the total
    is not known yet or fixed. *)
Theorem tracker_reports_bounded total calls (Htotal : 0 < total < 2 ^ 53)
    (Hcalls : Forall (fun c => (c.1 = 0 \/ c.1 = total) /\ c.2 <= total) calls) :
  Z.of_nat (length (reports (fun c => tracker_call c.1 c.2) calls 0)) < TRACKER_GRANULARITY.
Proof.
  apply (spaced_count total); [lia|done|..].
  - generalize 0. induction Hcalls as [|[d n] calls [Ht Hn] Hc IH]; intros last; cbn [reports]; [constructor|].
    unfold tracker_call at 1. cbn [fst snd] in *. destruct (Z.eqb_spec d 0) as [|Hd]; [apply IH|].
    assert (d = total) as -> by lia. destruct (int_gt _ _) eqn:E; [|apply IH]. by constructor.
  - generalize 0. induction Hcalls as [|[d n] calls [Ht Hn] Hc IH]; intros last; cbn [reports]; [constructor|].
    unfold tracker_call at 1. cbn [fst snd] in *. destruct (d =? 0); [apply IH|].
    destruct (int_gt _ _); [by constructor|apply IH].
Qed.
