(* ===== verification/Regex.v ===== *)
(** * Regular expressions

    The fragment of Python's [re] that the services' validation patterns use,
    with its meaning (an inductive relation) and an executable matcher by
    derivatives, proved equivalent. *)

From S2P Require Import Prelude PyStr.

#[local] Arguments String.append !_ _ /.

Inductive regex : Type :=
| RNone
| REps
| RChar (p : ascii -> bool)
| RSeq (r1 r2 : regex)
| RAlt (r1 r2 : regex)
| RStar (p : ascii -> bool)
| RRep (p : ascii -> bool) (lo hi : nat).

(** [matches r s]: [r] matches the whole of [s]. *)
Inductive matches : regex -> string -> Prop :=
| m_eps : matches REps ""
| m_char p c : p c = true -> matches (RChar p) (String c "")
| m_seq r1 r2 s1 s2 : matches r1 s1 -> matches r2 s2 -> matches (RSeq r1 r2) (s1 +:+ s2)
| m_alt_l r1 r2 s : matches r1 s -> matches (RAlt r1 r2) s
| m_alt_r r1 r2 s : matches r2 s -> matches (RAlt r1 r2) s
| m_star p s : str_forall p s = true -> matches (RStar p) s
| m_rep p lo hi s :
    str_forall p s = true -> (lo <= String.length s <= hi)%nat -> matches (RRep p lo hi) s.

#[export] Hint Constructors matches : py.

Fixpoint nullable (r : regex) : bool :=
  match r with
  | RNone | RChar _ => false
  | REps | RStar _ => true
  | RSeq r1 r2 => nullable r1 && nullable r2
  | RAlt r1 r2 => nullable r1 || nullable r2
  | RRep _ lo _ => (lo =? 0)%nat
  end.

Fixpoint deriv (c : ascii) (r : regex) : regex :=
  match r with
  | RNone | REps => RNone
  | RChar p => if p c then REps else RNone
  | RSeq r1 r2 =>
      if nullable r1 then RAlt (RSeq (deriv c r1) r2) (deriv c r2) else RSeq (deriv c r1) r2
  | RAlt r1 r2 => RAlt (deriv c r1) (deriv c r2)
  | RStar p => if p c then RStar p else RNone
  | RRep p lo hi =>
      match hi with
      | O => RNone
      | S hi' => if p c then RRep p (Nat.pred lo) hi' else RNone
      end
  end.

(** [re.compile(r).fullmatch(s)]. *)
Fixpoint fullmatch (r : regex) (s : string) : bool :=
  match s with
  | "" => nullable r
  | String c s' => fullmatch (deriv c r) s'
  end.

Lemma nullable_spec r : nullable r = true <-> matches r "".
Proof.
  split.
  - induction r; simpl; intros H; try done; eauto with py.
    + apply andb_true_iff in H as [H1 H2]. change "" with ("" +:+ ""). eauto with py.
    + apply orb_true_iff in H as [H|H]; eauto with py.
    + apply Nat.eqb_eq in H as ->. constructor; simpl; [done|lia].
  - intros H. remember "" as s eqn:E.
    induction H; simpl; simplify_eq; try done.
    + destruct s1; simpl in E; [|done]. subst. by rewrite IHmatches1, IHmatches2.
    + by rewrite IHmatches.
    + rewrite IHmatches; [|done]. apply orb_true_r.
    + simpl in *. apply Nat.eqb_eq. lia.
Qed.

Lemma deriv_spec c r s : matches (deriv c r) s <-> matches r (String c s).
Proof.
  split.
  - revert s. induction r; simpl; intros s H; try by inversion H.
    + destruct (p c) eqn:E; inversion H; subst. eauto with py.
    + destruct (nullable r1) eqn:E.
      * inversion H as [| | |? ? ? H1|? ? ? H1| |]; subst; clear H.
        -- inversion H1; subst. change (String c (s1 +:+ s2)) with (String c s1 +:+ s2). eauto with py.
        -- change (String c s) with ("" +:+ String c s). apply nullable_spec in E. eauto with py.
      * inversion H; subst. change (String c (s1 +:+ s2)) with (String c s1 +:+ s2). eauto with py.
    + inversion H; subst; eauto with py.
    + destruct (p c) eqn:E; inversion H; subst. constructor. simpl. by rewrite E.
    + destruct hi as [|hi]; [by inversion H|].
      destruct (p c) eqn:E; inversion H; subst. constructor; simpl; [by rewrite E|lia].
  - remember (String c s) as t eqn:E. intros H. revert s E.
    induction H; intros t E; simpl; simplify_eq; try done; eauto with py.
    + rewrite H. constructor.
    + destruct s1 as [|a s1]; simpl in E; simplify_eq.
      * apply nullable_spec in H. rewrite H. eauto with py.
      * destruct (nullable r1); eauto with py.
    + simpl in H. apply andb_true_iff in H as [-> H]. eauto with py.
    + simpl in H, H0. apply andb_true_iff in H as [Hc H].
      destruct hi as [|hi]; [lia|]. rewrite Hc. constructor; [done|lia].
Qed.

(** The matcher decides the relation. *)
Lemma fullmatch_spec r s : fullmatch r s = true <-> matches r s.
Proof.
  revert r. induction s as [|c s IH]; intros r; simpl.
  - apply nullable_spec.
  - rewrite IH. apply deriv_spec.
Qed.
