(* ===== verification/Events.v ===== *)
(** * Events (bai_kafka_utils/events.py, bai_kafka_utils/utils.py)

    The messages the services exchange over Kafka: the enumerations, the
    payload classes and the event envelope, with the functions that build one
    event from another.  Every class of events.py whose instances reach the
    services is an inductive type or a record with the fields of the source. *)

From S2P Require Import Prelude PyStr.

(** ** The process environment

    What utils.py reads from the operating system: the successive readings of
    [int(time.time() * 1000)], the successive [uuid.uuid4()] and the
    hexadecimal MD5 digest of a string. *)

Class Env : Type := {
  env_clock : nat -> Z;
  env_uuid : nat -> string;
  env_md5 : string -> string
}.

(** [md5sum(str_to_hash)]. *)
Definition md5sum `{Env} (str_to_hash : string) : string := env_md5 str_to_hash.

(** ** Enumerations *)

Inductive FetcherStatus : Set :=
| FS_PENDING | FS_RUNNING | FS_DONE | FS_FAILED | FS_CANCELED.

#[export] Instance FetcherStatus_eq_dec : EqDecision FetcherStatus.
Proof. solve_decision. Defined.

Definition fs_value (s : FetcherStatus) : string :=
  match s with
  | FS_PENDING => "PENDING" | FS_RUNNING => "RUNNING" | FS_DONE => "DONE"
  | FS_FAILED => "FAILED" | FS_CANCELED => "CANCELED"
  end.

Definition fs_final (s : FetcherStatus) : bool :=
  match s with FS_PENDING | FS_RUNNING => false | FS_DONE | FS_FAILED | FS_CANCELED => true end.

Definition fs_success (s : FetcherStatus) : bool :=
  match s with FS_DONE => true | _ => false end.

Inductive FetchedType : Set := FT_FILE | FT_DIRECTORY.

#[export] Instance FetchedType_eq_dec : EqDecision FetchedType.
Proof. solve_decision. Defined.

Inductive Status : Set :=
| PENDING | RUNNING | FAILED | ERROR | INITIALIZING | SUCCEEDED | CANCELED | METRICS_AVAILABLE.

#[export] Instance Status_eq_dec : EqDecision Status.
Proof. solve_decision. Defined.

(** ** Payloads *)

Record ContentSizeInfo := mkSize { total_size : Z; file_count : Z; max_size : Z }.

#[export] Instance ContentSizeInfo_eq_dec : EqDecision ContentSizeInfo.
Proof. solve_decision. Defined.

Record DownloadableContent := mkContent {
  dc_src : string;
  dc_path : string;
  dc_id : option string;
  dc_md5 : option string;
  dc_dst : option string;
  dc_type : option FetchedType;
  dc_status : option FetcherStatus;
  dc_message : option string;
  dc_size_info : option ContentSizeInfo
}.

(** The dataclass [==]: all fields equal. *)
#[export] Instance DownloadableContent_eq_dec : EqDecision DownloadableContent.
Proof. solve_decision. Defined.

Record BenchmarkDoc := mkDoc {
  doc_contents : list (string * pyval);
  doc_doc : string;
  doc_sha1 : string;
  doc_descriptor_filename : option string;
  doc_verified : option bool
}.

Record BenchmarkJob := mkJob {
  job_id : string;
  job_output : option string;
  job_extras : list (string * string)
}.

Record FileSystemObject := mkFso { fso_dst : string }.

Record FetcherPayload := mkFetcherPayload {
  fp_toml : BenchmarkDoc;
  fp_datasets : list DownloadableContent;
  fp_models : list DownloadableContent;
  fp_scripts : list FileSystemObject
}.

Record ExecutorPayload := mkExecutorPayload {
  ep_toml : BenchmarkDoc;
  ep_datasets : list DownloadableContent;
  ep_models : list DownloadableContent;
  ep_scripts : list FileSystemObject;
  ep_job : BenchmarkJob
}.

(** [ExecutorPayload.__init__]: [models or []], [scripts or []]. *)
Definition ExecutorPayload_init (toml : BenchmarkDoc) (datasets : list DownloadableContent)
    (job : BenchmarkJob) (models : option (list DownloadableContent))
    (scripts : option (list FileSystemObject)) : ExecutorPayload :=
  mkExecutorPayload toml datasets (default [] models) (default [] scripts) job.

(** The arguments of a command: [Union[Dict[str, str], List[str]]], or [None]. *)
Inductive CommandArgs : Type :=
| NoArgs
| ListArgs (l : list pyval)
| DictArgs (d : list (string * pyval)).

Record CommandRequestPayload := mkCmdRequest { crp_command : string; crp_args : CommandArgs }.

Record VisitedService := mkVisited {
  vs_svc : string; vs_tstamp : Z; vs_version : string; vs_node : option string
}.

(** The envelope, over the type of its payload. *)
Record BenchmarkEvent (P : Type) := mkEvent {
  action_id : string;
  parent_action_id : option string;
  message_id : string;
  client_id : string;
  client_version : string;
  client_username : string;
  authenticated : bool;
  tstamp : Z;
  visited : list VisitedService;
  type : string;
  payload : P
}.
Arguments mkEvent {P}.
Arguments action_id {P}.
Arguments parent_action_id {P}.
Arguments message_id {P}.
Arguments client_id {P}.
Arguments client_version {P}.
Arguments client_username {P}.
Arguments authenticated {P}.
Arguments tstamp {P}.
Arguments visited {P}.
Arguments type {P}.
Arguments payload {P}.

(** The payload classes.  A status message keeps the event it is about, and a
    command response the command event. *)
Inductive Payload : Type :=
| PFetcher (p : FetcherPayload)
| PExecutor (p : ExecutorPayload)
| PCommandRequest (p : CommandRequestPayload)
| PCommandResponse (return_code : Z) (message : string)
    (cmd_submit : BenchmarkEvent Payload) (return_value : pyval)
| PStatus (message : string) (status : Status) (src_event : option (BenchmarkEvent Payload))
| PAny (v : pyval).

Abbreviation Event := (BenchmarkEvent Payload).

(** The classes of events, by the payload they declare. *)
Inductive EventClass : Set :=
| FetcherBenchmarkEvent | ExecutorBenchmarkEvent | StatusMessageBenchmarkEvent
| CommandRequestEvent | CommandResponseEvent | MetricsEvent.

#[export] Instance EventClass_eq_dec : EqDecision EventClass.
Proof. solve_decision. Defined.

(** ** The required fields of an event *)

(** The constructor arguments of an event: [None] stands for the [_REQUIRED]
    default, in the order of the fields. *)
Record EventArgs := mkEventArgs {
  ea_action_id : option string;
  ea_parent_action_id : option string;
  ea_message_id : option string;
  ea_client_id : option string;
  ea_client_version : option string;
  ea_client_username : option string;
  ea_authenticated : option bool;
  ea_tstamp : option Z;
  ea_visited : option (list VisitedService);
  ea_type : option string;
  ea_payload : option Payload
}.

Definition required {A} (field : string) (o : option A) : Res A :=
  match o with
  | Some a => Ok a
  | None => Raise (TypeError ("__init__ missing 1 required argument: '" +:+ field +:+ "'"))
  end.

(** [BenchmarkEvent.__post_init__]: walks over the fields in order and rejects
    the first one that still has its [_REQUIRED] placeholder. *)
Definition event_post_init (a : EventArgs) : Res Event :=
  aid <~ required "action_id" (ea_action_id a) ;;
  mid <~ required "message_id" (ea_message_id a) ;;
  cid <~ required "client_id" (ea_client_id a) ;;
  cv <~ required "client_version" (ea_client_version a) ;;
  cu <~ required "client_username" (ea_client_username a) ;;
  au <~ required "authenticated" (ea_authenticated a) ;;
  ts <~ required "tstamp" (ea_tstamp a) ;;
  vi <~ required "visited" (ea_visited a) ;;
  ty <~ required "type" (ea_type a) ;;
  pl <~ required "payload" (ea_payload a) ;;
  Ok (mkEvent aid (ea_parent_action_id a) mid cid cv cu au ts vi ty pl).

(** [StatusMessageBenchmarkEvent.__post_init__], an override with the same loop. *)
Definition status_event_post_init (a : EventArgs) : Res Event := event_post_init a.

(** ** Building one event from another *)

(** Does the payload have the class that the desired event class annotates? *)
Definition payload_matches (cls : EventClass) (p : Payload) : bool :=
  match cls, p with
  | FetcherBenchmarkEvent, PFetcher _
  | ExecutorBenchmarkEvent, PExecutor _
  | StatusMessageBenchmarkEvent, PStatus _ _ _
  | CommandRequestEvent, PCommandRequest _
  | CommandResponseEvent, PCommandResponse _ _ _ _ => true
  | _, _ => false
  end.

(** [create_from_object(desired_class, source_object, payload=..., visited=...)]
    for events: [asdict] and [dacite.from_dict] copy the fields of the envelope,
    the overridden ones replace them, and a payload of another class than the
    annotated one is dacite's [WrongTypeError], re-raised as [ValueError]. *)
Definition create_from_object (cls : EventClass) (src : Event) (p : Payload)
    (vis : option (list VisitedService)) : Res Event :=
  if payload_matches cls p then
    Ok (mkEvent (action_id src) (parent_action_id src) (message_id src) (client_id src)
          (client_version src) (client_username src) (authenticated src) (tstamp src)
          (default (visited src) vis) (type src) p)
  else Raise (ValueError "").

(** [StatusMessageBenchmarkEvent.create_from_event]. *)
Definition create_from_event (st : Status) (message : string) (ev : Event) : Res Event :=
  create_from_object StatusMessageBenchmarkEvent ev (PStatus message st (Some ev)) (Some []).

(** [ExecutorPayload.create_from_fetcher_payload]. *)
Definition create_from_fetcher_payload (p : FetcherPayload) (job : BenchmarkJob) : ExecutorPayload :=
  ExecutorPayload_init (fp_toml p) (fp_datasets p) job (Some (fp_models p)) (Some (fp_scripts p)).

(** [get_topic_event_type(topic)]. *)
Definition topic_to_event_type : dict string EventClass :=
  [("BAI_APP_BFF", FetcherBenchmarkEvent);
   ("BAI_APP_FETCHER", FetcherBenchmarkEvent);
   ("BAI_APP_EXECUTOR", ExecutorBenchmarkEvent);
   ("BAI_APP_STATUS", StatusMessageBenchmarkEvent);
   ("CMD_SUBMIT", CommandRequestEvent);
   ("CMD_RETURN", CommandResponseEvent);
   ("BAI_METRICS", MetricsEvent)].

Definition get_topic_event_type (topic : string) : Res EventClass :=
  match dict_get topic_to_event_type topic with
  | Some c => Ok c
  | None => Raise (KeyError topic)
  end.

(** ** The descriptor inside an event

    [event.payload.toml.contents.get("info", {}).get(key, dflt)], which the
    executors and the watcher use: an [info] that is no table has no [get]. *)
Definition info_get (contents : list (string * pyval)) (key : string) (dflt : pyval) : Res pyval :=
  match dict_get contents "info" with
  | None => Ok dflt
  | Some (VDict info) => Ok (default dflt (dict_get info key))
  | Some _ => Raise (AttributeError "object has no attribute 'get'")
  end.

(** The [toml] attribute of the payload, for the payload classes that have one. *)
Definition payload_toml (p : Payload) : Res BenchmarkDoc :=
  match p with
  | PFetcher f => Ok (fp_toml f)
  | PExecutor e => Ok (ep_toml e)
  | _ => Raise (AttributeError "payload has no attribute 'toml'")
  end.

(** ** Lemmas *)

Lemma create_from_event_ok st msg ev :
  create_from_event st msg ev =
  Ok (mkEvent (action_id ev) (parent_action_id ev) (message_id ev) (client_id ev)
        (client_version ev) (client_username ev) (authenticated ev) (tstamp ev) []
        (type ev) (PStatus msg st (Some ev))).
Proof. reflexivity. Qed.

Ltac destruct_is_Some :=
  repeat match goal with H : is_Some None |- _ => destruct H as [? [=]] end.

(** Every field but the parent id is required: the construction succeeds
    exactly when all the others are given. *)
Lemma event_post_init_ok a :
  is_ok (event_post_init a) = true <->
  (is_Some (ea_action_id a) /\ is_Some (ea_message_id a) /\ is_Some (ea_client_id a) /\
   is_Some (ea_client_version a) /\ is_Some (ea_client_username a) /\
   is_Some (ea_authenticated a) /\ is_Some (ea_tstamp a) /\ is_Some (ea_visited a) /\
   is_Some (ea_type a) /\ is_Some (ea_payload a)).
Proof.
  unfold event_post_init.
  repeat (match goal with
          | |- context [res_bind (required _ ?o) _] => destruct o
          end; cbn [required res_bind]; [|split; [done|by intros; destruct_and?; destruct_is_Some]]).
  split; [intros _; repeat split; eauto|done].
Qed.

(** A concrete environment and a concrete event, for the examples. *)
Definition env0 : Env := {|
  env_clock n := 1000 + Z.of_nat n;
  env_uuid n := "uuid-" +:+ print_digits 3 (Z.of_nat n);
  env_md5 s := "md5(" +:+ s +:+ ")"
|}.

Definition doc0 (contents : list (string * pyval)) : BenchmarkDoc :=
  mkDoc contents "" "sha1" None None.

Definition event0 (p : Payload) : Event :=
  mkEvent "action" None "msg" "client" "0.1" "joe" true 1 [] "BAI_APP_BFF" p.
