(* ===== verification/KafkaService.v ===== *)
(** * The Kafka service loop (bai_kafka_utils/kafka_service.py)

    [EventEmitter] and [KafkaService]: the emission of events, the poll loop
    that hands every message of a batch to the callbacks of its topic, and the
    registration of callbacks.  The state that the callbacks see is [Svc X]:
    the service object, the producer and a component [X] of their own. *)

From S2P Require Import Prelude PyStr Events.

(** ** The producer and the emitter *)

(** One [KafkaProducer.send(topic, value, key)]. *)
Record Sent := mkSent { sent_topic : string; sent_key : string; sent_value : Event }.

(** The sends so far, and how often the clock and the uuid source were read. *)
Record Bus := mkBus { bus_sent : list Sent; bus_clock : nat; bus_uuid : nat }.

Record EventEmitter := mkEmitter {
  em_name : string;
  em_version : string;
  em_pod_name : string;
  em_status_topic : option string
}.

Section Emitter.
Context `{Env}.

Definition now_milliseconds : M Bus Z :=
  fun b => (Ok (env_clock (bus_clock b)), mkBus (bus_sent b) (S (bus_clock b)) (bus_uuid b)).

Definition generate_uuid : M Bus string :=
  fun b => (Ok (env_uuid (bus_uuid b)), mkBus (bus_sent b) (bus_clock b) (S (bus_uuid b))).

Definition producer_send (topic : string) (value : Event) (key : string) : M Bus unit :=
  modify (fun b => mkBus (bus_sent b ++ [mkSent topic key value])%list (bus_clock b) (bus_uuid b)).

Definition add_self_to_visited (em : EventEmitter) (src_event : Event) : M Bus (list VisitedService) :=
  current_time_ms <- now_milliseconds ;;
  ret (visited src_event ++
       [mkVisited (em_name em) current_time_ms (em_version em) (Some (em_pod_name em))])%list.

(** [EventEmitter.send_event]: the event goes out with a fresh message id,
    the topic as its type, this service added to the visited ones and the
    current time; the key is the client id. *)
Definition send_event (em : EventEmitter) (event : Event) (topic : string) : M Bus unit :=
  mid <- generate_uuid ;;
  vis <- add_self_to_visited em event ;;
  now <- now_milliseconds ;;
  let event_to_send :=
    mkEvent (action_id event) (parent_action_id event) mid (client_id event)
      (client_version event) (client_username event) (authenticated event) now vis topic
      (payload event) in
  producer_send topic event_to_send (client_id event_to_send).

Definition with_action_id (e : Event) (aid : string) : Event :=
  mkEvent aid (parent_action_id e) (message_id e) (client_id e) (client_version e)
    (client_username e) (authenticated e) (tstamp e) (visited e) (type e) (payload e).

(** [EventEmitter.send_status_message_event]. *)
Definition send_status_message_event (em : EventEmitter) (handled_event : Event) (status : Status)
    (msg : string) (target_action_id : option string) : M Bus unit :=
  status_event <- lift (create_from_event status msg handled_event) ;;
  let status_event :=
    if str_truthy target_action_id
    then with_action_id status_event (default "" target_action_id) else status_event in
  if negb (str_truthy (em_status_topic em)) then ret tt
  else send_event em status_event (default "" (em_status_topic em)).
End Emitter.

(** ** The service *)

Record Svc (X : Type) := mkSvc {
  svc_bus : Bus;
  svc_emitter : EventEmitter;
  svc_name : string;
  svc_pod_name : string;
  svc_callbacks : dict string (list nat);
  svc_running : bool;
  svc_ext : X
}.
Arguments mkSvc {X}.
Arguments svc_bus {X}.
Arguments svc_emitter {X}.
Arguments svc_name {X}.
Arguments svc_pod_name {X}.
Arguments svc_callbacks {X}.
Arguments svc_running {X}.
Arguments svc_ext {X}.

(** [KafkaServiceCallback]: an object with these two methods.  Callbacks are
    told apart by their identity, a number; [cbs] below is the object store. *)
Record Callback (X : Type) := mkCallback {
  cb_handle_event : Event -> M (Svc X) unit;
  cb_cleanup : M (Svc X) unit
}.
Arguments mkCallback {X}.
Arguments cb_handle_event {X}.
Arguments cb_cleanup {X}.

Definition set_bus {X} (b : Bus) (s : Svc X) : Svc X :=
  mkSvc b (svc_emitter s) (svc_name s) (svc_pod_name s) (svc_callbacks s) (svc_running s) (svc_ext s).
Definition set_callbacks {X} (c : dict string (list nat)) (s : Svc X) : Svc X :=
  mkSvc (svc_bus s) (svc_emitter s) (svc_name s) (svc_pod_name s) c (svc_running s) (svc_ext s).
Definition set_running {X} (r : bool) (s : Svc X) : Svc X :=
  mkSvc (svc_bus s) (svc_emitter s) (svc_name s) (svc_pod_name s) (svc_callbacks s) r (svc_ext s).
Definition set_ext {X} (x : X) (s : Svc X) : Svc X :=
  mkSvc (svc_bus s) (svc_emitter s) (svc_name s) (svc_pod_name s) (svc_callbacks s) (svc_running s) x.

(** An operation of the producer, run by a service. *)
Definition on_bus {X A} (m : EventEmitter -> M Bus A) : M (Svc X) A :=
  fun s => let (r, b) := m (svc_emitter s) (svc_bus s) in (r, set_bus b s).

(** An operation on the component of the callbacks. *)
Definition on_ext {X A} (m : M X A) : M (Svc X) A :=
  fun s => let (r, x) := m (svc_ext s) in (r, set_ext x s).

Section Service.
Context `{Env} `{SetOrder} {X : Type} (cbs : nat -> Callback X).

(** [KafkaService.__init__]. *)
Definition KafkaService_init (name version : string) (callbacks : dict string (list nat))
    (pod_name : string) (status_topic : option string) (b : Bus) (x : X) : Svc X :=
  mkSvc b (mkEmitter name version pod_name status_topic) name pod_name callbacks false x.

(** The methods [name] and [pod_name] are setters. *)
Definition set_name (n : string) : M (Svc X) unit :=
  modify (fun s => mkSvc (svc_bus s) (svc_emitter s) n (svc_pod_name s) (svc_callbacks s)
                     (svc_running s) (svc_ext s)).

Definition set_pod_name (n : string) : M (Svc X) unit :=
  modify (fun s => mkSvc (svc_bus s) (svc_emitter s) (svc_name s) n (svc_callbacks s)
                     (svc_running s) (svc_ext s)).

Definition ks_send_event (event : Event) (topic : string) : M (Svc X) unit :=
  on_bus (fun em => send_event em event topic).

Definition ks_send_status (handled_event : Event) (status : Status) (msg : string)
    (target_action_id : option string) : M (Svc X) unit :=
  on_bus (fun em => send_status_message_event em handled_event status msg target_action_id).

(** [KafkaService.handle_event]. *)
Definition handle_event (event : option Event) (callback : nat) : M (Svc X) unit :=
  match event with
  | None => raise (KafkaServiceCallbackException "Empty message received (no event found)")
  | Some ev => cb_handle_event (cbs callback) ev
  end.

(** [safe_handle_msg]: both handlers log and go on. *)
Definition safe_handle_msg (msg : option Event) (callback : nat) : M (Svc X) unit :=
  try_except (handle_event msg callback)
    (fun e => match e with KafkaServiceCallbackException _ => ret tt | _ => ret tt end).

(** The body of the loops over the records of a poll.  The callbacks of a
    topic cannot change under a running loop, see [add_callback]. *)
Definition process_msg (topic : string) (msg : option Event) : M (Svc X) unit :=
  callbacks <- gets svc_callbacks ;;
  match dict_get callbacks topic with
  | None => ret tt
  | Some l => for_each (safe_handle_msg msg) l
  end.

(** What one [KafkaConsumer.poll()] returns: per topic partition, its
    messages; a message that could not be deserialized has no value. *)
Abbreviation Records := (list (string * list (option Event))).

Definition process_records (records : Records) : M (Svc X) unit :=
  for_each (fun '(topic, record) => for_each (process_msg topic) record) records.

(** [while self._running], over the successive polls.  The result tells
    whether the loop was left; otherwise it waits for the next poll. *)
Fixpoint poll_loop (polls : list Records) : M (Svc X) bool :=
  running <- gets svc_running ;;
  if negb running then ret true
  else match polls with
       | [] => ret false
       | records :: polls' => process_records records ;; poll_loop polls'
       end.

Definition distinct_callbacks (s : Svc X) : list nat :=
  set_iter (concat (dict_values (svc_callbacks s))).

Definition run_loop (polls : list Records) : M (Svc X) bool :=
  running <- gets svc_running ;;
  if running then raise (LoopAlreadyRunningException "Loop is already running")
  else
    modify (set_running true) ;;
    stopped <- poll_loop polls ;;
    (if stopped then
       distinct <- gets distinct_callbacks ;;
       for_each (fun c => cb_cleanup (cbs c)) distinct
     else ret tt) ;;
    ret stopped.

Definition stop_loop : M (Svc X) unit :=
  running <- gets svc_running ;;
  if negb running then raise (LoopNotRunningException "Loop is not running")
  else modify (set_running false).

Definition add_callback (callback : nat) (topic : string) : M (Svc X) unit :=
  running <- gets svc_running ;;
  if running then raise (LoopAlreadyRunningException "Cannot update callbacks with running loop")
  else
    callbacks <- gets svc_callbacks ;;
    match dict_get callbacks topic with
    | Some l => modify (set_callbacks (dict_set callbacks topic (l ++ [callback])%list))
    | None => modify (set_callbacks (dict_set callbacks topic [callback]))
    end.

Definition remove_callback (callback : nat) (topic : option string) : M (Svc X) unit :=
  running <- gets svc_running ;;
  if running then raise (LoopAlreadyRunningException "Cannot update callbacks with running loop")
  else
    callbacks <- gets svc_callbacks ;;
    if str_truthy topic then
      let t := default "" topic in
      match dict_get callbacks t with
      | None => raise (KeyError t)
      | Some l =>
          match list_remove callback l with
          | None => raise (ValueError "list.remove(x): x not in list")
          | Some l' => modify (set_callbacks (dict_set callbacks t l'))
          end
      end
    else
      modify (set_callbacks
                (map (fun '(t, l) => (t, default l (list_remove callback l))) callbacks)).

(** ** What the loop promises

    The messages of a poll with the callbacks they are for, in the order of
    the records, of the messages and of the callbacks. *)
Definition deliveries (callbacks : dict string (list nat)) (records : Records) : list (nat * Event) :=
  concat (map (fun '(topic, record) =>
    concat (map (fun msg =>
      match msg with
      | Some ev => map (fun c => (c, ev)) (default [] (dict_get callbacks topic))
      | None => []
      end) record)) records).

(** One callback invocation, whatever its outcome. *)
Definition deliver (s : Svc X) (d : nat * Event) : Svc X := (cb_handle_event (cbs d.1) d.2 s).2.

(** The law a callback keeps: it leaves the registrations alone, which
    [add_callback] and [remove_callback] enforce on a running loop. *)
Definition keeps_callbacks : Prop :=
  forall c ev s, svc_callbacks (cb_handle_event (cbs c) ev s).2 = svc_callbacks s.

Lemma safe_handle_msg_run msg c s :
  safe_handle_msg msg c s = (Ok tt, match msg with Some ev => deliver s (c, ev) | None => s end).
Proof.
  unfold safe_handle_msg, deliver, try_except, handle_event. destruct msg as [ev|]; [|done].
  simpl. destruct (cb_handle_event (cbs c) ev s) as [[[]|e] s']; [done|]. by destruct e.
Qed.

Lemma for_each_handle msg l s :
  for_each (safe_handle_msg msg) l s =
  (Ok tt, match msg with Some ev => fold_left deliver (map (fun c => (c, ev)) l) s | None => s end).
Proof.
  revert s. induction l as [|c l IH]; intros s; simpl; [by destruct msg|].
  unfold bind. rewrite safe_handle_msg_run, IH. by destruct msg.
Qed.

Hypothesis Hkeep : keeps_callbacks.

Lemma deliver_keeps l s : svc_callbacks (fold_left deliver l s) = svc_callbacks s.
Proof. revert s. induction l as [|d l IH]; intros s; simpl; [done|]. rewrite IH. apply Hkeep. Qed.

Lemma process_msgs_run topic record s :
  for_each (process_msg topic) record s =
  (Ok tt, fold_left deliver (deliveries (svc_callbacks s) [(topic, record)]) s).
Proof.
  unfold deliveries. simpl. rewrite app_nil_r.
  revert s. induction record as [|msg record IH]; intros s; [done|]. simpl.
  unfold bind at 1. unfold process_msg at 1, gets, bind.
  rewrite fold_left_app. destruct (dict_get (svc_callbacks s) topic) as [l|] eqn:E; simpl.
  - rewrite for_each_handle. rewrite IH. destruct msg as [ev|]; simpl; [|by rewrite E].
    rewrite deliver_keeps, E. done.
  - rewrite IH, E. by destruct msg.
Qed.

Lemma process_records_run records s :
  process_records records s =
  (Ok tt, fold_left deliver (deliveries (svc_callbacks s) records) s).
Proof.
  unfold process_records. revert s.
  induction records as [|[topic record] records IH]; intros s; [done|].
  cbn [for_each]. unfold bind. rewrite process_msgs_run, IH, deliver_keeps.
  f_equal. unfold deliveries. simpl. by rewrite app_nil_r, fold_left_app.
Qed.

(** The loop as a function on states: deliver each poll until stopped. *)
Fixpoint spec_loop (polls : list Records) (s : Svc X) : bool * Svc X :=
  if negb (svc_running s) then (true, s)
  else match polls with
       | [] => (false, s)
       | records :: polls' =>
           spec_loop polls' (fold_left deliver (deliveries (svc_callbacks s) records) s)
       end.

Lemma poll_loop_run polls s :
  poll_loop polls s = (Ok (spec_loop polls s).1, (spec_loop polls s).2).
Proof.
  revert s. induction polls as [|records polls IH]; intros s; simpl; unfold bind, gets.
  - by destruct (svc_running s).
  - destruct (svc_running s); simpl; [|done]. by rewrite process_records_run, IH.
Qed.

Lemma spec_loop_keeps polls s : svc_callbacks (spec_loop polls s).2 = svc_callbacks s.
Proof.
  revert s. induction polls as [|records polls IH]; intros s; simpl;
    (destruct (svc_running s); simpl; [|done]); [done|].
  rewrite IH. apply deliver_keeps.
Qed.

Lemma spec_loop_left polls s : (spec_loop polls s).1 = negb (svc_running (spec_loop polls s).2).
Proof.
  revert s. induction polls as [|records polls IH]; intros s; simpl;
    destruct (svc_running s) eqn:E; simpl; rewrite ?E; auto.
Qed.

Lemma run_loop_run polls s :
  svc_running s = false ->
  run_loop polls s =
  let '(stopped, s') := spec_loop polls (set_running true s) in
  if stopped then
    match for_each (fun c => cb_cleanup (cbs c)) (distinct_callbacks s) s' with
    | (Ok _, s'') => (Ok true, s'')
    | (Raise e, s'') => (Raise e, s'')
    end
  else (Ok false, s').
Proof.
  intros Hstopped. unfold run_loop, bind, gets, modify. rewrite Hstopped, poll_loop_run.
  destruct (spec_loop polls (set_running true s)) as [stopped s'] eqn:E. simpl.
  destruct stopped; [|done]. unfold distinct_callbacks.
  replace (svc_callbacks s') with (svc_callbacks s).
  - destruct (for_each _ _ _) as [[[]|e] s'']; done.
  - change (svc_callbacks s) with (svc_callbacks (set_running true s)).
    by rewrite <- (spec_loop_keeps polls), E.
Qed.

(** One poll of one message, which does not stop the loop: it waits again. *)
Lemma run_loop_one records s s' :
  svc_running s = false -> fold_left deliver (deliveries (svc_callbacks s) records) (set_running true s) = s' ->
  svc_running s' = true -> run_loop [records] s = (Ok false, s').
Proof.
  intros Hstopped Hd Hrun. rewrite run_loop_run by done. cbn [spec_loop set_running svc_running negb svc_callbacks].
  change (deliveries (svc_callbacks (set_running true s)) records) with (deliveries (svc_callbacks s) records).
  unfold set_running in Hd at 1. fold (set_running true s) in Hd. rewrite Hd. by rewrite Hrun.
Qed.

Lemma spec_loop_snoc polls records s s1 :
  spec_loop polls s = (false, s1) ->
  spec_loop (polls ++ [records]) s = spec_loop [] (fold_left deliver (deliveries (svc_callbacks s1) records) s1).
Proof.
  revert s. induction polls as [|r polls IH]; intros s; cbn [spec_loop app]; destruct (svc_running s); cbn [negb]; try done.
  - by intros [= <-].
  - apply IH.
Qed.

(** One more poll of a loop that waits. *)
Lemma run_loop_snoc polls records s s1 s2 :
  svc_running s = false -> run_loop polls s = (Ok false, s1) ->
  fold_left deliver (deliveries (svc_callbacks s1) records) s1 = s2 -> svc_running s2 = true ->
  run_loop (polls ++ [records]) s = (Ok false, s2).
Proof.
  intros Hstopped Hrun Hd Hs2. rewrite run_loop_run in Hrun |- * by done.
  destruct (spec_loop polls (set_running true s)) as [[] s'] eqn:E.
  - by destruct (for_each _ _ _) as [[]].
  - injection Hrun as ->. rewrite (spec_loop_snoc _ _ _ _ E), Hd. cbn [spec_loop]. by rewrite Hs2.
Qed.

(** The callbacks are those of the start. *)
Lemma run_loop_keeps polls s s' :
  svc_running s = false -> run_loop polls s = (Ok false, s') -> svc_callbacks s' = svc_callbacks s.
Proof.
  intros Hstopped Hrun. rewrite run_loop_run in Hrun by done.
  pose proof (spec_loop_keeps polls (set_running true s)) as Hk. destruct (spec_loop polls (set_running true s)) as [[] s1].
  - by destruct (for_each _ _ _) as [[]].
  - by injection Hrun as <-.
Qed.
End Service.

(** ** Properties *)

Section Properties.
Context `{Env} `{SetOrder} {X : Type} (cbs : nat -> Callback X).

(** C2: [run_loop] refines its specification.  On a stopped service, every
    message of every poll is handed, in order, to every callback of its topic,
    whether or not an earlier callback raised; messages without a value and
    topics without callbacks deliver nothing; polls are processed until a
    callback stops the loop, and only then the clean-ups run. *)
Theorem run_loop_refines polls s
    (Hkeep : keeps_callbacks cbs) (Hstopped : svc_running s = false) :
  run_loop cbs polls s =
  let '(stopped, s') := spec_loop cbs polls (set_running true s) in
  if stopped then
    match for_each (fun c => cb_cleanup (cbs c)) (distinct_callbacks s) s' with
    | (Ok _, s'') => (Ok true, s'')
    | (Raise e, s'') => (Raise e, s'')
    end
  else (Ok false, s').
Proof. by apply run_loop_run. Qed.

(** C18: the clean-up at the end of the loop.  When the loop is left and no
    clean-up raises, [run_loop] returns, the service is stopped when the
    clean-ups start, and every registered callback is cleaned up exactly once,
    even one registered for several topics. *)
Theorem run_loop_cleanup polls s
    (Hkeep : keeps_callbacks cbs) (Hstopped : svc_running s = false)
    (Hclean : forall c s', (cb_cleanup (cbs c) s').1 = Ok tt)
    (Hleft : (spec_loop cbs polls (set_running true s)).1 = true) :
  exists s' order,
    (spec_loop cbs polls (set_running true s)).2 = s' /\ svc_running s' = false /\
    NoDup order /\
    (forall c, c ∈ order <-> exists topic l, (topic, l) ∈ svc_callbacks s /\ c ∈ l) /\
    run_loop cbs polls s = (Ok true, fold_left (fun st c => (cb_cleanup (cbs c) st).2) order s').
Proof.
  pose proof (spec_loop_left cbs polls (set_running true s)) as Hl. rewrite Hleft in Hl.
  symmetry in Hl. apply negb_true_iff in Hl.
  eexists _, (distinct_callbacks s). split; [done|]. split; [done|].
  split; [apply set_iter_NoDup|]. split.
  - intros c. unfold distinct_callbacks. rewrite set_iter_elem, elem_of_concat.
    split.
    + intros (l & [[t l'] [-> Hin]]%list_elem_of_fmap & Hc). by exists t, l'.
    + intros (t & l & Hin & Hc). exists l. split; [|done].
      apply list_elem_of_fmap. by exists (t, l).
  - rewrite run_loop_run by done. rewrite (surjective_pairing (spec_loop _ _ _)), Hleft.
    by rewrite for_each_fold.
Qed.

End Properties.

Section RegistrationProperties.
Context {X : Type}.

(** Registration is refused on a running loop, leaving the service as it
    was, and otherwise appends the callback to the list of its topic, leaving
    the other topics alone; removing it again restores the list of the topic
    when the callback was not registered there before. *)
Theorem add_remove_callback c topic (s : Svc X) (Htopic : topic <> "") :
  let l := default [] (dict_get (svc_callbacks s) topic) in
  if svc_running s then
    add_callback c topic s =
      (Raise (LoopAlreadyRunningException "Cannot update callbacks with running loop"), s) /\
    remove_callback c (Some topic) s =
      (Raise (LoopAlreadyRunningException "Cannot update callbacks with running loop"), s)
  else exists s',
    add_callback c topic s = (Ok tt, s') /\
    dict_get (svc_callbacks s') topic = Some (l ++ [c])%list /\
    (forall t, t <> topic -> dict_get (svc_callbacks s') t = dict_get (svc_callbacks s) t) /\
    (c ∉ l -> exists s'', remove_callback c (Some topic) s' = (Ok tt, s'') /\
              dict_get (svc_callbacks s'') topic = Some l).
Proof.
  intros l. destruct (svc_running s) eqn:Hrun.
  - unfold add_callback, remove_callback. py_simpl. by rewrite Hrun.
  - exists (set_callbacks (dict_set (svc_callbacks s) topic (l ++ [c])%list) s).
    assert (Hadd : add_callback c topic s =
      (Ok tt, set_callbacks (dict_set (svc_callbacks s) topic (l ++ [c])%list) s)).
    { unfold add_callback, l. py_simpl. rewrite Hrun.
      by destruct (dict_get (svc_callbacks s) topic). }
    split; [done|]. simpl. split; [apply dict_get_set_eq|].
    split; [intros t Ht; by apply dict_get_set_ne|].
    intros Hni. unfold remove_callback. py_simpl. rewrite Hrun.
    apply String.eqb_neq in Htopic. rewrite Htopic. simpl. rewrite dict_get_set_eq.
    destruct (list_remove c (l ++ [c])%list) as [l'|] eqn:E.
    + apply list_remove_Some in E as (l1 & l2 & Hl & -> & Hc).
      eexists. split; [done|]. simpl. rewrite dict_get_set_eq.
      destruct l2 as [|x l2 _] using rev_ind.
      * by apply app_inj_tail in Hl as [-> _]; rewrite app_nil_r.
      * exfalso. rewrite app_comm_cons, app_assoc in Hl. apply app_inj_tail in Hl as [-> _].
        apply Hni. set_solver.
    + exfalso. apply list_remove_None in E. set_solver.
Qed.
End RegistrationProperties.

Section EmitterProperties.
Context `{Env}.

(** The event [send_event] hands to the producer. *)
Definition event_to_send (em : EventEmitter) (ev : Event) (topic : string) (b : Bus) : Event :=
  mkEvent (action_id ev) (parent_action_id ev) (env_uuid (bus_uuid b)) (client_id ev)
    (client_version ev) (client_username ev) (authenticated ev) (env_clock (S (bus_clock b)))
    (visited ev ++ [mkVisited (em_name em) (env_clock (bus_clock b)) (em_version em)
                      (Some (em_pod_name em))])%list topic (payload ev).

Definition bus_after (b : Bus) (x : Sent) : Bus :=
  mkBus (bus_sent b ++ [x])%list (S (S (bus_clock b))) (S (bus_uuid b)).

Lemma send_event_run em ev topic b :
  send_event em ev topic b =
  (Ok tt, bus_after b (mkSent topic (client_id ev) (event_to_send em ev topic b))).
Proof. reflexivity. Qed.

(** The status event before it is stamped by [send_event]. *)
Definition status_event (ev : Event) (st : Status) (msg : string) (target : option string) : Event :=
  mkEvent (if str_truthy target then default "" target else action_id ev) (parent_action_id ev)
    (message_id ev) (client_id ev) (client_version ev) (client_username ev) (authenticated ev)
    (tstamp ev) [] (type ev) (PStatus msg st (Some ev)).

Lemma send_status_run em ev st msg target b :
  send_status_message_event em ev st msg target b =
  if str_truthy (em_status_topic em)
  then send_event em (status_event ev st msg target) (default "" (em_status_topic em)) b
  else (Ok tt, b).
Proof.
  unfold send_status_message_event. rewrite create_from_event_ok. unfold lift, bind.
  destruct (str_truthy (em_status_topic em)); [|done]. simpl.
  unfold status_event. by destruct (str_truthy target).
Qed.

(** [send_event] makes exactly one send: to the given topic, keyed by the
    client id, with the topic as the event's type, a fresh message id, exactly
    one entry (this service, at the time of sending) appended to the visited
    services, the current time, and every other field of the event unchanged. *)
Theorem send_event_spec em ev topic b :
  exists b' out,
    send_event em ev topic b = (Ok tt, b') /\
    bus_sent b' = (bus_sent b ++ [mkSent topic (client_id ev) out])%list /\
    type out = topic /\ message_id out = env_uuid (bus_uuid b) /\
    tstamp out = env_clock (S (bus_clock b)) /\
    visited out = (visited ev ++ [mkVisited (em_name em) (env_clock (bus_clock b))
                                    (em_version em) (Some (em_pod_name em))])%list /\
    payload out = payload ev /\ action_id out = action_id ev /\
    parent_action_id out = parent_action_id ev /\ client_id out = client_id ev /\
    client_version out = client_version ev /\ client_username out = client_username ev /\
    authenticated out = authenticated ev.
Proof. rewrite send_event_run. do 2 eexists. split; [reflexivity|]. repeat split. Qed.

(** A status message.  Without a status topic nothing is sent and the
    producer is not touched; with one, exactly one event goes to it, which
    carries the status, the text and the event it is about, visited by this
    service only, under the action id of the target if one is given and of
    the event itself otherwise. *)
Theorem send_status_spec em ev st msg target b :
  if str_truthy (em_status_topic em) then
    exists b' out,
      send_status_message_event em ev st msg target b = (Ok tt, b') /\
      bus_sent b' = (bus_sent b ++ [mkSent (default "" (em_status_topic em)) (client_id ev) out])%list /\
      payload out = PStatus msg st (Some ev) /\
      action_id out = (if str_truthy target then default "" target else action_id ev) /\
      parent_action_id out = parent_action_id ev /\
      visited out = [mkVisited (em_name em) (env_clock (bus_clock b))
                       (em_version em) (Some (em_pod_name em))]
  else send_status_message_event em ev st msg target b = (Ok tt, b).
Proof.
  rewrite send_status_run. destruct (str_truthy (em_status_topic em)); [|done].
  rewrite send_event_run. do 2 eexists. split; [reflexivity|]. repeat split.
Qed.

(** What [ks_send_status] does to the service: only the producer moves. *)
Lemma ks_send_status_run {X} ev st msg target (s : Svc X) :
  exists b, ks_send_status ev st msg target s = (Ok tt, set_bus b s).
Proof.
  unfold ks_send_status, on_bus. rewrite send_status_run.
  destruct (str_truthy _); [rewrite send_event_run|]; eexists; reflexivity.
Qed.

(** The statuses, and the other events, among the sends. *)
Definition status_of (x : Sent) : option (string * Status * string) :=
  match payload (sent_value x) with
  | PStatus msg st _ => Some (action_id (sent_value x), st, msg)
  | _ => None
  end.

Definition statuses (b : Bus) : list (string * Status * string) := omap status_of (bus_sent b).

Lemma ks_send_status_sent {X} ev st msg target (s : Svc X) :
  str_truthy (em_status_topic (svc_emitter s)) = true ->
  exists b out, ks_send_status ev st msg target s = (Ok tt, set_bus b s) /\
    bus_sent b = (bus_sent (svc_bus s) ++
      [mkSent (default "" (em_status_topic (svc_emitter s))) (client_id ev) out])%list /\
    status_of (mkSent (default "" (em_status_topic (svc_emitter s))) (client_id ev) out) =
      Some (if str_truthy target then default "" target else action_id ev, st, msg).
Proof.
  intros Hst. unfold ks_send_status, on_bus. rewrite send_status_run, Hst, send_event_run.
  do 2 eexists. split; [reflexivity|]. split; reflexivity.
Qed.

(** The sends as an observer sees them: topic, action id and payload. *)
Definition view (x : Sent) : string * string * Payload :=
  (sent_topic x, action_id (sent_value x), payload (sent_value x)).

Definition sends (b : Bus) : list (string * string * Payload) := map view (bus_sent b).

(** The status topic of a service, when it has one. *)
Definition has_status_topic {X} (s : Svc X) (t : string) : Prop :=
  t <> "" /\ em_status_topic (svc_emitter s) = Some t.

Lemma ks_send_status_view {X} ev st msg target t (s : Svc X) :
  has_status_topic s t ->
  exists b, ks_send_status ev st msg target s = (Ok tt, set_bus b s) /\
    sends b = (sends (svc_bus s) ++
      [(t, if str_truthy target then default "" target else action_id ev, PStatus msg st (Some ev))])%list.
Proof.
  intros [Hne Ht]. unfold ks_send_status, on_bus.
  apply String.eqb_neq in Hne. rewrite send_status_run, Ht. cbn [str_truthy]. rewrite Hne.
  cbn [negb default]. rewrite send_event_run.
  eexists. split; [reflexivity|]. unfold sends, bus_after. simpl. by rewrite map_app.
Qed.

Lemma ks_send_event_view {X} ev topic (s : Svc X) :
  exists b, ks_send_event ev topic s = (Ok tt, set_bus b s) /\
    sends b = (sends (svc_bus s) ++ [(topic, action_id ev, payload ev)])%list.
Proof.
  unfold ks_send_event, on_bus. rewrite send_event_run.
  eexists. split; [reflexivity|]. unfold sends, bus_after. simpl. by rewrite map_app.
Qed.
End EmitterProperties.

(** ** Operations that leave the registrations alone *)

Section Keeps.
Context `{Env} {X : Type}.

Definition keeps {A} (m : M (Svc X) A) : Prop := forall s, svc_callbacks (m s).2 = svc_callbacks s.

Lemma keeps_ret {A} (a : A) : keeps (ret a).
Proof. done. Qed.
Lemma keeps_raise {A} e : keeps (raise (A := A) e).
Proof. done. Qed.
Lemma keeps_gets {A} (f : Svc X -> A) : keeps (gets f).
Proof. done. Qed.
Lemma keeps_lift {A} (r : Res A) : keeps (lift r).
Proof. done. Qed.
Lemma keeps_on_ext {A} (m : M X A) : keeps (on_ext m).
Proof. intros s. unfold on_ext. by destruct (m (svc_ext s)). Qed.
Lemma keeps_bind {A B} (m : M (Svc X) A) (k : A -> M (Svc X) B) :
  keeps m -> (forall a, keeps (k a)) -> keeps (bind m k).
Proof.
  intros Hm Hk s. unfold bind. specialize (Hm s). destruct (m s) as [[a|e] s']; simpl in *; [|done].
  by rewrite Hk.
Qed.
Lemma keeps_try {A} (m : M (Svc X) A) h : keeps m -> (forall e, keeps (h e)) -> keeps (try_except m h).
Proof.
  intros Hm Hh s. unfold try_except. specialize (Hm s). destruct (m s) as [[a|e] s']; simpl in *; [done|].
  by rewrite Hh.
Qed.
Lemma keeps_status ev st msg target : keeps (ks_send_status ev st msg target).
Proof. intros s. by destruct (ks_send_status_run ev st msg target s) as [b ->]. Qed.
Lemma keeps_send ev topic : keeps (ks_send_event ev topic).
Proof. intros s. by destruct (ks_send_event_view ev topic s) as (b & -> & _). Qed.
End Keeps.

#[export] Hint Resolve keeps_ret keeps_raise keeps_gets keeps_lift keeps_on_ext keeps_bind keeps_try keeps_status
  keeps_send : py.

(** Solves [keeps] by the structure of the program. *)
Ltac solve_keeps :=
  repeat first [ progress intros
               | apply keeps_bind | apply keeps_try | apply keeps_status | apply keeps_send
               | apply keeps_on_ext | apply keeps_lift | apply keeps_gets | apply keeps_ret | apply keeps_raise
               | case_match ].

(** ** Witnesses *)

Module Witness.
(** A callback that records the actions it saw, one that raises, and one that
    stops the loop. *)
Definition record_cb : Callback (list string) :=
  mkCallback (fun ev => modify (fun s => set_ext (svc_ext s ++ [action_id ev])%list s)) (ret tt).
Definition raising_cb : Callback (list string) :=
  mkCallback (fun _ => raise (ValueError "boom")) (ret tt).
Definition stopping_cb : Callback (list string) :=
  mkCallback (fun _ => stop_loop) (modify (fun s => set_ext (svc_ext s ++ ["cleanup"])%list s)).

Definition cbs (c : nat) : Callback (list string) :=
  match c with O => raising_cb | 1%nat => record_cb | _ => stopping_cb end.

Definition svc0 : Svc (list string) :=
  KafkaService_init "svc" "1" [("T", [0%nat; 1%nat; 2%nat]); ("U", [2%nat])] "pod" (Some "STATUS")
    (mkBus [] 0 0) [].

Definition ev0 : Event := event0 (PAny VNone).

Lemma cbs_keep : keeps_callbacks cbs.
Proof.
  intros [|[|c]] ev s; try reflexivity.
  simpl. unfold stop_loop. py_simpl. by destruct (svc_running s).
Qed.

Lemma run_loop_refines_witness :
  svc_running svc0 = false /\
  run_loop (H0 := set_order_dups) cbs [[("T", [None; Some ev0]); ("V", [Some ev0])]; []] svc0 =
  (Ok true, set_ext ["action"; "cleanup"] svc0).
Proof.
  split; [reflexivity|].
  rewrite (run_loop_refines (H0 := set_order_dups) cbs _ svc0 cbs_keep eq_refl).
  vm_compute. reflexivity.
Defined.

Lemma run_loop_cleanup_witness :
  exists s' order, svc_running s' = false /\ NoDup order /\
    run_loop (H0 := set_order_dups) cbs [[("T", [Some ev0])]] svc0 =
    (Ok true, fold_left (fun st c => (cb_cleanup (cbs c) st).2) order s').
Proof.
  destruct (run_loop_cleanup (H0 := set_order_dups) cbs [[("T", [Some ev0])]] svc0 cbs_keep eq_refl)
    as (s' & order & _ & Hr & Hn & _ & Hrun).
  - intros [|[|c]] s'; reflexivity.
  - vm_compute. reflexivity.
  - by exists s', order.
Defined.

Lemma add_remove_callback_witness :
  "V" <> "" /\ exists s', add_callback 7 "V" svc0 = (Ok tt, s') /\
    dict_get (svc_callbacks s') "V" = Some [7%nat].
Proof.
  split; [discriminate|].
  destruct (add_remove_callback 7 "V" svc0) as (s' & Ha & Hg & _); [discriminate|].
  by exists s'.
Defined.
End Witness.
