(* ===== verification/KafkaClient.v ===== *)
(** * Kafka clients (bai_kafka_utils/kafka_client.py, kafka_service_args.py)

    The configuration of a service, the topics it makes sure of, and the codecs
    between the bytes of Kafka and the events of the loop in KafkaService.v.
    The JSON codec of dataclasses_json is the class [EventJson], with its laws in
    [EventJsonLaws]; the package kafka is the class [KafkaLib], with the laws of
    the administration of topics in [TopicCluster]. *)

From S2P Require Import Prelude PyStr Json Events KafkaService.

#[local] Arguments String.append !_ _ /.

(** ** Configuration (kafka_service_args.py) *)

Definition DEFAULT_NUM_PARTITIONS : Z := 3.
Definition DEFAULT_REPLICATION_FACTOR : Z := 3.

(** The value of [--bootstrap-servers]: the action splits a given text; argparse
    does not run the action on the default, which stays a text. *)
Inductive Servers : Type :=
| ServerList (l : list string)
| ServerText (s : string).

Definition bootstrap_servers_of (given : option string) : Servers :=
  match given with
  | Some values => ServerList (split_char "," values)
  | None => ServerText "localhost:9092"
  end.

(** [len(args.bootstrap_servers)]. *)
Definition num_of_brokers (s : Servers) : Z :=
  match s with ServerList l => Z.of_nat (length l) | ServerText t => Z.of_nat (String.length t) end.

(** The options, as given by argument or variable; the parser has checked the
    two required ones and converted the integers. *)
Record KafkaServiceArgs := mkArgs {
  arg_consumer_topic : string;
  arg_producer_topic : string;
  arg_bootstrap_servers : option string;
  arg_consumer_group_id : option string;
  arg_cmd_submit_topic : option string;
  arg_cmd_return_topic : option string;
  arg_status_topic : option string;
  arg_logging_level : option string;
  arg_num_partitions : option Z;
  arg_replication_factor : option Z
}.

Record KafkaServiceConfig := mkConfig {
  consumer_topic : string;
  producer_topic : string;
  bootstrap_servers : Servers;
  logging_level : string;
  cmd_submit_topic : string;
  cmd_return_topic : string;
  status_topic : string;
  consumer_group_id : option string;
  num_partitions : Z;
  replication_factor : Z
}.

(** [get_kafka_service_config]. *)
Definition get_kafka_service_config (args : KafkaServiceArgs) : KafkaServiceConfig :=
  let servers := bootstrap_servers_of (arg_bootstrap_servers args) in
  mkConfig (arg_consumer_topic args) (arg_producer_topic args) servers
    (default "INFO" (arg_logging_level args)) (default "CMD_SUBMIT" (arg_cmd_submit_topic args))
    (default "CMD_RETURN" (arg_cmd_return_topic args)) (default "BAI_APP_STATUS" (arg_status_topic args))
    (arg_consumer_group_id args) (default DEFAULT_NUM_PARTITIONS (arg_num_partitions args))
    (Z.min (default DEFAULT_REPLICATION_FACTOR (arg_replication_factor args)) (num_of_brokers servers)).

(** ** Topics *)

Record NewTopic := mkTopic { topic_partitions : Z; topic_replication : Z }.

Definition TopicAlreadyExistsError (topic : string) : exn := OtherException "TopicAlreadyExistsError" topic.

Definition is_TopicAlreadyExistsError (e : exn) : bool :=
  match e with OtherException cls _ => String.eqb cls "TopicAlreadyExistsError" | _ => false end.

(** [KafkaAdminClient], connected, and the two constructors of clients. *)
Class KafkaLib (X : Type) : Type := {
  admin_client : Servers -> string -> M X unit;
  create_topic : string -> NewTopic -> M X unit;
  kafka_consumer : list string -> Servers -> option string -> Z -> M X unit;
  kafka_producer : Servers -> Z -> M X unit
}.

(** The idle time in milliseconds after which a client would close. *)
Definition MAX_IDLE_TIME_MS : Z := 100000000000.

Section Clients.
Context `{KafkaLib X}.

(** [create_kafka_topics]. *)
Definition create_kafka_topics (new_topics : list string) (servers : Servers) (service_name : string)
    (num_partitions replication_factor : Z) : M X unit :=
  admin_client servers service_name ;;
  for_each (fun topic =>
    try_except (create_topic topic (mkTopic num_partitions replication_factor))
      (fun e => if is_TopicAlreadyExistsError e then ret tt else raise e)) new_topics.

Definition consumer_topics (cfg : KafkaServiceConfig) : list string := [consumer_topic cfg; cmd_submit_topic cfg].

Definition required_topics (cfg : KafkaServiceConfig) : list string :=
  [consumer_topic cfg; producer_topic cfg; cmd_submit_topic cfg; cmd_return_topic cfg; status_topic cfg].

(** [create_kafka_consumer] and [create_kafka_producer]; the codecs that they
    install are below. *)
Definition create_kafka_consumer (servers : Servers) (group_id : option string) (topics : list string) : M X unit :=
  kafka_consumer topics servers group_id MAX_IDLE_TIME_MS.
Definition create_kafka_producer (servers : Servers) : M X unit := kafka_producer servers MAX_IDLE_TIME_MS.

(** [create_kafka_consumer_producer]; the clients are the connections. *)
Definition create_kafka_consumer_producer (cfg : KafkaServiceConfig) (service_name : string) : M X unit :=
  create_kafka_topics (required_topics cfg) (bootstrap_servers cfg) service_name (num_partitions cfg)
    (replication_factor cfg) ;;
  create_kafka_consumer (bootstrap_servers cfg) (consumer_group_id cfg) (consumer_topics cfg) ;;
  create_kafka_producer (bootstrap_servers cfg).
End Clients.

(** ** Codecs

    [to_json] and [from_json] of dataclasses_json; for the base class the type of
    the envelope is all that is used. *)
Class EventJson : Type := {
  to_json : Event -> string;
  envelope_type : string -> Res string;
  from_json : EventClass -> string -> Res Event
}.

Section Codecs.
Context `{EventJson}.

(** [json_serializer] and [key_serializer]: texts are kept as their bytes. *)
Definition json_serializer (msg_value : Event) : string := to_json msg_value.
Definition key_serializer (key : string) : string := key.

(** [json_deserializer]: nothing escapes. *)
Definition json_deserializer (msg_value : string) : option Event :=
  match (text <~ decode_utf8 msg_value ;;
         ty <~ envelope_type text ;;
         event_type <~ get_topic_event_type ty ;;
         from_json event_type text) with
  | Ok event => Some event
  | Raise _ => None
  end.

Definition key_deserializer (key : option string) : option string :=
  match key with
  | None => None
  | Some bytes => match decode_utf8 bytes with Ok text => Some text | Raise _ => None end
  end.

(** The records of a poll, from their bytes. *)
Definition decode_records (raw : list (string * list string)) : list (string * list (option Event)) :=
  map (fun '(topic, messages) => (topic, map json_deserializer messages)) raw.
End Codecs.

(** ** The topics of a service *)

(** The names of topics that Kafka allows: up to 249 letters, digits, dots,
    underscores and dashes, but not one or two dots alone. *)
Definition topic_char (c : ascii) : bool :=
  is_alpha c || is_digit c || Ascii.eqb c "." || Ascii.eqb c "_" || Ascii.eqb c "-".
Definition legal_topic (t : string) : bool :=
  negb (String.eqb t "") && (String.length t <=? 249)%nat && str_forall topic_char t &&
  negb (String.eqb t ".") && negb (String.eqb t "..").

(** Dots and underscores are the same in the names of metrics, so two topics may
    not differ in them only. *)
Definition metric_name (t : string) : string := str_map (fun c => if Ascii.eqb c "." then "_"%char else c) t.
Definition collides (t t' : string) : bool := String.eqb (metric_name t) (metric_name t').

(** What the administration of a cluster documents.  A call makes a topic that
    is missing or changes nothing: the name must be allowed and must not collide
    with one that is there, there must be partitions, and brokers for the
    replicas.  When it returns the topic is there, and an existing one is
    reported as such; a call may also fail for its rights or for the network.
    Where nothing else fails, a topic that can be made is made. *)
Class TopicCluster `{KafkaLib X} : Type := {
  topics : X -> dict string NewTopic;
  brokers : Z;
  healthy : X -> Prop;
  admin_client_law : forall servers name x r x', admin_client servers name x = (r, x') ->
    topics x' = topics x /\ (healthy x -> r = Ok tt /\ healthy x');
  create_topic_law : forall t n x r x', create_topic t n x = (r, x') ->
    (topics x' = topics x \/
     dict_get (topics x) t = None /\ topics x' = dict_set (topics x) t n /\
     legal_topic t = true /\ existsb (collides t) (dict_keys (topics x)) = false /\
     1 <= topic_partitions n /\ 1 <= topic_replication n <= brokers) /\
    (forall e, r = Raise e -> is_TopicAlreadyExistsError e = true -> is_Some (dict_get (topics x') t)) /\
    (r = Ok tt -> is_Some (dict_get (topics x') t)) /\
    (healthy x -> healthy x' /\
      (is_Some (dict_get (topics x) t) -> r = Raise (TopicAlreadyExistsError t)) /\
      (dict_get (topics x) t = None -> legal_topic t = true -> existsb (collides t) (dict_keys (topics x)) = false ->
       1 <= topic_partitions n -> 1 <= topic_replication n <= brokers -> r = Ok tt))
}.

Section Topics.
Context `{TopicCluster X}.

(** One topic of [create_kafka_topics]. *)
Definition ensure_topic (n : NewTopic) (topic : string) : M X unit :=
  try_except (create_topic topic n) (fun e => if is_TopicAlreadyExistsError e then ret tt else raise e).

(** A topic is as it was, or it was made as [n]. *)
Definition kept_or_new (n : NewTopic) (wanted : list string) (before after : dict string NewTopic) (t : string) : Prop :=
  dict_get after t = dict_get before t \/
  dict_get before t = None /\ dict_get after t = Some n /\ t ∈ wanted /\
  legal_topic t = true /\ 1 <= topic_partitions n /\ 1 <= topic_replication n <= brokers.

Lemma kept_or_new_there n wanted before after t :
  kept_or_new n wanted before after t -> is_Some (dict_get before t) -> dict_get after t = dict_get before t.
Proof. intros [Hk|(Hno & _)]; [done|]. rewrite Hno. by intros [? ?]. Qed.

Lemma kept_or_new_trans n t0 wanted d0 d1 d2 t :
  kept_or_new n [t0] d0 d1 t -> kept_or_new n wanted d1 d2 t -> kept_or_new n (t0 :: wanted) d0 d2 t.
Proof.
  intros [H1|(H1 & H2 & H3 & H4)] [H1'|(H1' & H2' & H3' & H4')].
  - left. congruence.
  - right. split_and!; [congruence|done|by right|apply H4'..].
  - right. split_and!; [done|congruence| |apply H4..]. apply list_elem_of_singleton in H3 as ->. left.
  - congruence.
Qed.

Lemma ensure_topic_run n t0 x r x' : ensure_topic n t0 x = (r, x') ->
  (forall t, kept_or_new n [t0] (topics x) (topics x') t) /\ (r = Ok tt -> is_Some (dict_get (topics x') t0)) /\
  (forall k, k ∈ dict_keys (topics x') -> k = t0 \/ k ∈ dict_keys (topics x)) /\
  (healthy x -> healthy x' /\
    (is_Some (dict_get (topics x) t0) \/
     legal_topic t0 = true /\ existsb (collides t0) (dict_keys (topics x)) = false /\
     1 <= topic_partitions n /\ 1 <= topic_replication n <= brokers -> r = Ok tt)).
Proof.
  unfold ensure_topic, try_except. destruct (create_topic t0 n x) as [r1 x1] eqn:Ec.
  destruct (create_topic_law _ _ _ _ _ Ec) as (Hch & Hex & Hok & Hh).
  assert (Hkept : forall t, kept_or_new n [t0] (topics x) (topics x1) t).
  { intros t. destruct Hch as [->|(Hno & -> & Hl & _ & Hp & Hr)]; [by left|]. unfold kept_or_new. rewrite dict_get_set.
    destruct (decide (t0 = t)) as [->|Hne]; [|by left].
    right. split_and!; try done; [by apply list_elem_of_singleton|lia..]. }
  assert (Hkeys : forall k, k ∈ dict_keys (topics x1) -> k = t0 \/ k ∈ dict_keys (topics x)).
  { intros k. rewrite <- !dict_get_is_Some. destruct Hch as [->|(_ & -> & _)]; [by right|]. rewrite dict_get_set.
    destruct (decide (t0 = k)) as [->|]; [by left|by right]. }
  assert (Hready : healthy x -> healthy x1 /\
    (is_Some (dict_get (topics x) t0) \/
     legal_topic t0 = true /\ existsb (collides t0) (dict_keys (topics x)) = false /\
     1 <= topic_partitions n /\ 1 <= topic_replication n <= brokers ->
     r1 = Ok tt \/ r1 = Raise (TopicAlreadyExistsError t0))).
  { intros Hx. destruct (Hh Hx) as (Hx1 & H1 & H2). split; [done|].
    destruct (dict_get (topics x) t0) eqn:E; [intros _; right; apply H1; by eexists|].
    intros [[? ?]|(? & ? & ? & ?)]; [done|left; by apply H2]. }
  destruct r1 as [[]|e]; [|destruct (is_TopicAlreadyExistsError e) eqn:Ee]; intros [= <- <-];
    (split_and!; [exact Hkept| |exact Hkeys|intros Hx; destruct (Hready Hx) as [Hx1 Hr]; split; [exact Hx1|]]); try done.
  - intros _. by apply (Hex e).
  - intros [Hr'|Hr']%Hr; [done|]. injection Hr' as ->. done.
Qed.

Lemma ensure_topics_run n wanted x r x' : for_each (ensure_topic n) wanted x = (r, x') ->
  (forall t, kept_or_new n wanted (topics x) (topics x') t) /\
  (r = Ok tt -> forall t, t ∈ wanted -> is_Some (dict_get (topics x') t)) /\
  (healthy x -> 1 <= topic_partitions n -> 1 <= topic_replication n <= brokers ->
   Forall (fun t => legal_topic t = true) wanted ->
   (forall t t', t ∈ wanted -> t' ∈ wanted \/ t' ∈ dict_keys (topics x) -> collides t t' = true -> t = t') -> r = Ok tt).
Proof.
  revert x. induction wanted as [|t0 wanted IH]; intros x; cbn [for_each].
  { intros [= <- <-]. split_and!; [by left|set_solver|done]. }
  unfold bind. destruct (ensure_topic n t0 x) as [r0 x0] eqn:E0. destruct (ensure_topic_run n t0 x r0 x0 E0) as (Hk & Hok & Hkeys & Hh).
  assert (Hready : healthy x -> 1 <= topic_partitions n -> 1 <= topic_replication n <= brokers -> legal_topic t0 = true ->
    (forall t', t' ∈ dict_keys (topics x) -> collides t0 t' = true -> t0 = t') -> r0 = Ok tt).
  { intros Hx Hp Hr Hl Hc. destruct (Hh Hx) as [_ Hr0]. apply Hr0. destruct (dict_get (topics x) t0) eqn:E; [left; by eexists|].
    right. split_and!; try done; [|lia..]. apply not_true_is_false. intros (t' & Hin & Ht')%existsb_exists.
    apply list_elem_of_In in Hin. assert (t0 = t') as <- by auto. apply dict_get_is_Some in Hin. rewrite E in Hin. by destruct Hin. }
  destruct r0 as [[]|e].
  - intros Hrun. destruct (IH x0 Hrun) as (Hk' & Hok' & Hh'). split_and!.
    + intros t. by eapply kept_or_new_trans.
    + intros Hr t [->|Hin]%elem_of_cons; [|by apply Hok'].
      rewrite (kept_or_new_there n wanted (topics x0)); [by apply Hok|apply Hk'|by apply Hok].
    + intros Hx Hp Hr [Hl Hls]%Forall_cons Hc. apply Hh'; [by apply Hh|done..|].
      intros t t' Ht Ht'. apply Hc; [by right|]. destruct Ht' as [Ht'|[->|Ht']%Hkeys]; [left; by right|left; left|by right].
  - intros [= <- <-]. split_and!; [|done|].
    + intros t. destruct (Hk t) as [|(Hno & Hnew & Hin & Hrest)]; [by left|right]. apply list_elem_of_singleton in Hin as ->.
      split_and!; try done; [left|apply Hrest..].
    + intros Hx Hp Hr [Hl Hls]%Forall_cons Hc. exfalso. enough (Raise e = Ok tt) by done. apply Hready; try done.
      intros t' Ht'. apply Hc; [left|by right].
Qed.
Lemma create_kafka_topics_run wanted servers name n x r x' :
  create_kafka_topics wanted servers name (topic_partitions n) (topic_replication n) x = (r, x') ->
  (forall t, kept_or_new n wanted (topics x) (topics x') t) /\
  (r = Ok tt -> forall t, t ∈ wanted -> is_Some (dict_get (topics x') t)) /\
  (healthy x -> 1 <= topic_partitions n -> 1 <= topic_replication n <= brokers ->
   Forall (fun t => legal_topic t = true) wanted ->
   (forall t t', t ∈ wanted -> t' ∈ wanted \/ t' ∈ dict_keys (topics x) -> collides t t' = true -> t = t') -> r = Ok tt).
Proof.
  unfold create_kafka_topics, bind. destruct (admin_client servers name x) as [[[]|e] x0] eqn:Ea;
    destruct (admin_client_law _ _ _ _ _ Ea) as [Hx0 Hh]; rewrite <- Hx0.
  - replace (mkTopic (topic_partitions n) (topic_replication n)) with n by by destruct n.
    intros Hrun. destruct (ensure_topics_run n wanted x0 r x' Hrun) as (H1 & H2 & H3). split_and!; [done|done|].
    intros Hx. apply H3. by apply Hh.
  - intros [= <- <-]. split_and!; [by left|done|]. intros Hx. exfalso. destruct (Hh Hx) as [[=] _].
Qed.

(** C20: the start of a service makes sure of its topics.  Whatever fails on the
    way, every topic is afterwards as it was, or it is one of the five that was
    missing and is new, with the configured partitions and replicas.  When the
    call returns, all five are there, and a second start changes nothing.  The
    replicas are no more than the bootstrap servers, so that a start succeeds
    when these are brokers, the administration works, the partitions and the
    replicas are at least one and the five names are allowed and collide with
    no other topic. *)
Theorem kafka_topics_ready args servers name x r x1
    (cfg := get_kafka_service_config args) (n := mkTopic (num_partitions cfg) (replication_factor cfg))
    (ensure := create_kafka_topics (required_topics cfg) (bootstrap_servers cfg) name (num_partitions cfg) (replication_factor cfg))
    (Hservers : arg_bootstrap_servers args = Some servers)
    (Hrun : ensure x = (r, x1)) :
  topic_replication n <= Z.of_nat (length (split_char "," servers)) /\
  (forall t, dict_get (topics x1) t = dict_get (topics x) t \/
             dict_get (topics x) t = None /\ t ∈ required_topics cfg /\ dict_get (topics x1) t = Some n) /\
  (r = Ok tt ->
   (forall t, t ∈ required_topics cfg -> is_Some (dict_get (topics x1) t)) /\
   forall t, dict_get (topics (ensure x1).2) t = dict_get (topics x1) t) /\
  (healthy x -> Z.of_nat (length (split_char "," servers)) <= brokers ->
   1 <= num_partitions cfg -> 1 <= default DEFAULT_REPLICATION_FACTOR (arg_replication_factor args) ->
   Forall (fun t => legal_topic t = true) (required_topics cfg) ->
   (forall t t', t ∈ required_topics cfg -> t' ∈ required_topics cfg \/ t' ∈ dict_keys (topics x) -> collides t t' = true -> t = t') ->
   r = Ok tt).
Proof.
  assert (Hlen : (1 <= length (split_char "," servers))%nat).
  { pose proof (split_char_nonempty "," servers). destruct (split_char "," servers); simpl; [done|lia]. }
  assert (Hrep : topic_replication n = Z.min (default DEFAULT_REPLICATION_FACTOR (arg_replication_factor args))
                                         (Z.of_nat (length (split_char "," servers)))).
  { unfold n, cfg, get_kafka_service_config. by rewrite Hservers. }
  destruct (create_kafka_topics_run _ _ _ n x r x1 Hrun) as (Hk & Hok & Hh). split_and!; [lia| | |].
  - intros t. destruct (Hk t) as [|(? & ? & ? & _)]; [by left|by right].
  - intros Hr. split; [by apply Hok|]. intros t. destruct (ensure x1) as [r2 x2] eqn:E2. cbn [snd].
    destruct (create_kafka_topics_run _ _ _ n x1 r2 x2 E2) as (Hk2 & _). destruct (Hk2 t) as [|(Hno & _ & Hin & _)]; [done|].
    destruct (Hok Hr t Hin) as [? ?]. congruence.
  - intros Hx Hb Hp Hf. apply Hh; try done. lia.
Qed.

(** A start that should make a topic without partitions, with more replicas than
    brokers or with a name that is not allowed fails. *)
Lemma uncreatable_fails cfg name x t (n := mkTopic (num_partitions cfg) (replication_factor cfg)) :
  t ∈ required_topics cfg -> dict_get (topics x) t = None ->
  legal_topic t = false \/ num_partitions cfg < 1 \/ brokers < replication_factor cfg ->
  is_ok (create_kafka_topics (required_topics cfg) (bootstrap_servers cfg) name (num_partitions cfg) (replication_factor cfg) x).1 = false.
Proof.
  intros Hin Hno Hbad. destruct (create_kafka_topics _ _ _ _ _ x) as [[[]|e] x1] eqn:E; [|done]. exfalso.
  destruct (create_kafka_topics_run _ _ _ n x (Ok tt) x1 E) as (Hk & Hok & _).
  destruct (Hok eq_refl t Hin) as [? Ht]. destruct (Hk t) as [|(_ & _ & _ & Hl & Hp & Hr)]; [congruence|].
  cbn in Hp, Hr. destruct Hbad as [?|[?|?]]; [congruence|lia|lia].
Qed.

(** Without the option the length is that of the text, fourteen, and bounds
    nothing: with fewer than three brokers the start fails when a topic is
    missing. *)
Lemma default_servers_unbounded args name x t (cfg := get_kafka_service_config args) :
  arg_bootstrap_servers args = None -> arg_replication_factor args = None -> brokers < 3 ->
  t ∈ required_topics cfg -> dict_get (topics x) t = None ->
  replication_factor cfg = 3 /\
  is_ok (create_kafka_topics (required_topics cfg) (bootstrap_servers cfg) name (num_partitions cfg) (replication_factor cfg) x).1 = false.
Proof.
  intros Hs Hr Hb Ht Hno. assert (E : replication_factor cfg = 3) by (unfold cfg, get_kafka_service_config; by rewrite Hs, Hr).
  split; [done|]. apply (uncreatable_fails cfg name x t); [done|done|]. right; right. lia.
Qed.
End Topics.

(** ** From one service to the next *)

(** What dataclasses_json documents: an event that it can represent is read
    back, by the class of its payload, from the text that was made of it. *)
Class EventJsonLaws `{EventJson} : Type := {
  encodable : Event -> Prop;
  to_json_text : forall e, utf8_valid (to_json e) = true;
  envelope_type_of : forall e, encodable e -> envelope_type (to_json e) = Ok (type e);
  from_to_json : forall cls e, encodable e -> payload_matches cls (payload e) = true -> from_json cls (to_json e) = Ok e
}.

Section Wire.
Context `{Env} `{EventJsonLaws} {X : Type} (cbs : nat -> Callback X).

(** A message that cannot be decoded is skipped by every callback. *)
Lemma undecodable_skipped topic bytes s :
  json_deserializer bytes = None ->
  process_records cbs (decode_records [(topic, [bytes])]) s = (Ok tt, s).
Proof.
  intros Hb. unfold process_records, decode_records. cbn [map for_each]. rewrite Hb. unfold bind, ret.
  replace (process_msg cbs topic None s) with (Ok tt, s); [done|].
  unfold process_msg, bind, gets. destruct (dict_get (svc_callbacks s) topic) as [l|]; [|done].
  induction l as [|c l IH]; [done|]. cbn [for_each]. unfold bind. exact IH.
Qed.

Lemma json_roundtrip e cls :
  encodable e -> get_topic_event_type (type e) = Ok cls -> payload_matches cls (payload e) = true ->
  json_deserializer (json_serializer e) = Some e.
Proof.
  intros Hwire Htopic Hpayload. unfold json_deserializer, json_serializer, decode_utf8. rewrite to_json_text. cbn [res_bind].
  rewrite envelope_type_of by done. cbn [res_bind]. rewrite Htopic. cbn [res_bind]. by rewrite from_to_json.
Qed.

(** C11: what one service sends, the next one gets: the event that [send_event]
    puts on a topic of the pipeline is decoded from its bytes by the class of
    that topic, unchanged, and is handed to the callbacks of the topic; its key
    is the client. *)
Theorem sent_event_received em ev topic cls b s
    (Htopic : get_topic_event_type topic = Ok cls) (Hpayload : payload_matches cls (payload ev) = true)
    (Hwire : encodable (event_to_send em ev topic b)) :
  exists b' e, send_event em ev topic b = (Ok tt, b') /\ bus_sent b' = (bus_sent b ++ [mkSent topic (client_id ev) e])%list /\
    json_deserializer (json_serializer e) = Some e /\ type e = topic /\ payload e = payload ev /\
    (utf8_valid (client_id ev) = true -> key_deserializer (Some (key_serializer (client_id ev))) = Some (client_id ev)) /\
    process_records cbs (decode_records [(topic, [json_serializer e])]) s = process_msg cbs topic (Some e) s.
Proof.
  set (e := event_to_send em ev topic b) in *.
  assert (Hdec : json_deserializer (json_serializer e) = Some e) by (by apply json_roundtrip with cls).
  eexists _, e. rewrite send_event_run. split; [reflexivity|]. split_and!; try done.
  - unfold key_deserializer, key_serializer, decode_utf8. by intros ->.
  - unfold process_records, decode_records. cbn [map for_each]. rewrite Hdec. unfold bind.
    destruct (process_msg cbs topic (Some e) s) as [[[]|err] s']; done.
Qed.
End Wire.

Module Witness.
(** A cluster of two brokers. *)
Definition Cluster : Type := dict string NewTopic.

Definition create_topic0 (t : string) (n : NewTopic) : M Cluster unit := fun x =>
  match dict_get x t with
  | Some _ => (Raise (TopicAlreadyExistsError t), x)
  | None =>
      if legal_topic t && negb (existsb (collides t) (dict_keys x)) && (1 <=? topic_partitions n) &&
         (1 <=? topic_replication n) && (topic_replication n <=? 2)
      then (Ok tt, dict_set x t n)
      else (Raise (OtherException "InvalidTopic" t), x)
  end.

#[local] Instance kafka_lib0 : KafkaLib Cluster := {|
  admin_client _ _ := ret tt;
  create_topic := create_topic0;
  kafka_consumer _ _ _ _ := ret tt;
  kafka_producer _ _ := ret tt
|}.

#[local] Instance cluster0 : TopicCluster.
Proof.
  refine {| topics (x : Cluster) := x; brokers := 2; healthy _ := True |}.
  - intros servers name x r x' [= <- <-]. done.
  - intros t n x r x'. cbn. unfold create_topic0. destruct (dict_get x t) as [old|] eqn:E.
    + intros [= <- <-]. split_and!; [by left|intros; by rewrite E|done|]. intros _. by split_and!.
    + destruct (legal_topic t && _ && _ && _ && _) eqn:Ec; intros [= <- <-].
      * rewrite !andb_true_iff, negb_true_iff, !Z.leb_le in Ec. destruct Ec as [[[[? ?] ?] ?] ?].
        rewrite dict_get_set_eq. split_and!; [right; split_and!; done|done|done|]. intros _. split_and!; [done|by intros [? ?]|done].
      * split_and!; [by left|by intros e [= <-]|done|]. intros _. split_and!; [done|by intros [? ?]|].
        intros _ Hl Hc Hp [Hr Hr2]. exfalso. rewrite Hl, Hc in Ec. cbn in Ec.
        rewrite !(proj2 (Z.leb_le _ _)) in Ec by done. done.
Defined.

Definition args0 : KafkaServiceArgs :=
  mkArgs "BAI_APP_FETCHER" "BAI_APP_EXECUTOR" (Some "b1:9092,b2:9092") None None None None None None None.

Definition topics0 : Cluster := [("BAI_APP_FETCHER", mkTopic 7 1)].

Lemma kafka_topics_ready_witness :
  exists x1 : Cluster,
    create_kafka_topics (required_topics (get_kafka_service_config args0)) (ServerList ["b1:9092"; "b2:9092"]) "executor" 3 2 topics0 = (Ok tt, x1) /\
    dict_get x1 "BAI_APP_FETCHER" = Some (mkTopic 7 1) /\ dict_get x1 "CMD_RETURN" = Some (mkTopic 3 2).
Proof.
  destruct (create_kafka_topics (required_topics (get_kafka_service_config args0)) (ServerList ["b1:9092"; "b2:9092"]) "executor" 3 2 topics0) as [r x1] eqn:E.
  destruct (kafka_topics_ready args0 "b1:9092,b2:9092" "executor" topics0 r x1) as (_ & Ht & Hthere & Hr).
  - reflexivity.
  - exact E.
  - assert (r = Ok tt) as ->.
    { apply Hr; [exact I|vm_compute; discriminate..|repeat constructor|].
      intros t t' Hin Hin' Hc. apply String.eqb_eq in Hc.
      assert (Hall : Forall (fun t => Forall (fun t' => metric_name t = metric_name t' -> t = t')
        (required_topics (get_kafka_service_config args0) ++ dict_keys topics0)%list) (required_topics (get_kafka_service_config args0))).
      { apply (bool_decide_unpack _). vm_compute. exact I. }
      rewrite Forall_forall in Hall. specialize (Hall t Hin). rewrite Forall_forall in Hall.
      apply (Hall t'); [apply elem_of_app; exact Hin'|exact Hc]. }
    destruct (Hthere eq_refl) as [Hall _]. exists x1. split; [reflexivity|]. split.
    + destruct (Ht "BAI_APP_FETCHER") as [Hk|(Hno & _)]; [exact Hk|discriminate Hno].
    + destruct (Ht "CMD_RETURN") as [Hk|(_ & _ & Hn)]; [|exact Hn].
      destruct (Hall "CMD_RETURN") as [v Hv]; [apply (bool_decide_unpack _); vm_compute; exact I|].
      cbn [topics cluster0] in Hk, Hv. rewrite Hv in Hk. discriminate Hk.
Defined.

#[local] Existing Instance env0.

Definition emitter0 : EventEmitter := mkEmitter "fetcher" "1" "pod" (Some "BAI_APP_STATUS").
Definition ev0 : Event := event0 (PFetcher (mkFetcherPayload (doc0 []) [] [] [])).
Definition sent0 : Event := event_to_send emitter0 ev0 "BAI_APP_FETCHER" (mkBus [] 0 0).

(** A codec that knows one event, by its message id. *)
#[local] Instance json0 : EventJson := {|
  to_json e := if utf8_valid (message_id e) then message_id e else "";
  envelope_type s := if String.eqb s (message_id sent0) then Ok "BAI_APP_FETCHER" else Raise (JSONDecodeError "");
  from_json cls s := if String.eqb s (message_id sent0) && bool_decide (cls = FetcherBenchmarkEvent) then Ok sent0
                     else Raise (JSONDecodeError "")
|}.

#[local] Instance json_laws0 : EventJsonLaws.
Proof.
  refine {| encodable e := e = sent0 |}.
  - intros e. cbn. by destruct (utf8_valid (message_id e)) eqn:E.
  - intros e ->. reflexivity.
  - intros cls e -> Hcls. by destruct cls.
Defined.

Lemma sent_event_received_witness :
  json_deserializer (json_serializer sent0) = Some sent0 /\ json_deserializer "garbage" = None /\
  key_deserializer (Some (key_serializer "client")) = Some "client".
Proof.
  destruct (sent_event_received (X := unit) (fun _ => mkCallback (fun _ => ret tt) (ret tt)) emitter0 ev0 "BAI_APP_FETCHER"
    FetcherBenchmarkEvent (mkBus [] 0 0)
    (KafkaService_init "executor" "1" [] "pod" None (mkBus [] 0 0) tt)) as (b' & e & Hs & Hb & Hd & _ & _ & Hk & _).
  - reflexivity.
  - reflexivity.
  - reflexivity.
  - rewrite send_event_run in Hs. injection Hs as <-. injection Hb as <-.
    split; [exact Hd|]. split; [reflexivity|]. apply Hk. reflexivity.
Defined.
End Witness.
