(* ===== verification/CmdCallback.v ===== *)
(** * Commands (bai_kafka_utils/cmd_callback.py)

    [KafkaCommandCallback]: a command event names a method of a command object;
    the callback works out the arguments from the command, from the event and
    from the service, calls the method and answers with its outcome. *)

From S2P Require Import Prelude PyStr Events KafkaService.

(** ** Command objects

    What a parameter can be bound to: a value of the command, a field of the
    event, the event itself or the service. *)
Inductive Arg : Type :=
| AVal (v : pyval)
| AVisited (l : list VisitedService)
| APayload (p : Payload)
| AEvent (e : Event)
| AService.

Record Param := mkParam { p_name : string; p_has_default : bool }.

(** Why a call does not bind; each is a [TypeError] of the interpreter. *)
Inductive BindError : Type :=
| UnexpectedKeyword (k : string)
| MultipleValues (k : string)
| TooManyPositional
| MissingArgument (k : string).

(** A method: its parameters after [self], and its effect on the bound
    arguments; parameters left to their default are not bound. *)
Record Method (X : Type) := mkMethod {
  m_params : list Param;
  m_body : dict string Arg -> M (Svc X) pyval
}.
Arguments mkMethod {X}.
Arguments m_params {X}.
Arguments m_body {X}.

Inductive Attr (X : Type) : Type :=
| Callable (m : Method X)
| Uncallable (v : pyval).
Arguments Callable {X}.
Arguments Uncallable {X}.

(** [vars(event)]. *)
Definition vars_event (ev : Event) : dict string Arg :=
  [("action_id", AVal (VStr (action_id ev)));
   ("parent_action_id", AVal (match parent_action_id ev with Some s => VStr s | None => VNone end));
   ("message_id", AVal (VStr (message_id ev)));
   ("client_id", AVal (VStr (client_id ev)));
   ("client_version", AVal (VStr (client_version ev)));
   ("client_username", AVal (VStr (client_username ev)));
   ("authenticated", AVal (VBool (authenticated ev)));
   ("tstamp", AVal (VInt (tstamp ev)));
   ("visited", AVisited (visited ev));
   ("type", AVal (VStr (type ev)));
   ("payload", APayload (payload ev))].

Definition CODE_SUCCESS : Z := 0.
Definition CODE_COMMAND_ERROR : Z := 1.
Definition CODE_CLIENT_ERROR : Z := 2.

Definition msg_ok (command : string) : string :=
  capitalize command +:+ " command processed successfully".
Definition msg_invalid_args (command e : string) : string :=
  capitalize command +:+ " command failed: Invalid args " +:+ e.
Definition msg_unknown_error (command e : string) : string :=
  capitalize command +:+ " command failed: " +:+ e.

(** ** Argument binding *)

Definition param_names (ps : list Param) : list string := map p_name ps.

(** The interpreter's binding of [f( *pos, **kw)] to parameters that can be
    given by position or by name. *)
Definition bind_call (ps : list Param) (pos : list pyval) (kw : dict string Arg)
    : BindError + dict string Arg :=
  let by_pos := firstn (length pos) (param_names ps) in
  match List.find (fun k => negb (bool_decide (k ∈ param_names ps))) (dict_keys kw) with
  | Some k => inl (UnexpectedKeyword k)
  | None =>
      match List.find (fun k => bool_decide (k ∈ by_pos)) (dict_keys kw) with
      | Some k => inl (MultipleValues k)
      | None =>
          if (length ps <? length pos)%nat then inl TooManyPositional
          else
            let bound := (zip by_pos (map AVal pos) ++ kw)%list in
            match List.find (fun p => negb (p_has_default p) && negb (dict_mem (p_name p) bound)) ps with
            | Some p => inl (MissingArgument (p_name p))
            | None => inr bound
            end
      end
  end.

(** The positional and the keyword arguments that [handle_event] calls with. *)
Definition pos_args (args : CommandArgs) : list pyval :=
  match args with ListArgs l => l | _ => [] end.

Definition given_kw_args (args : CommandArgs) : dict string Arg :=
  match args with DictArgs d => map (fun kv => (kv.1, AVal kv.2)) d | _ => [] end.

Definition injected_kw_args (ps : list Param) (ev : Event) (kw : dict string Arg) : dict string Arg :=
  let kw := if bool_decide ("event" ∈ param_names ps) then dict_set kw "event" (AEvent ev) else kw in
  if bool_decide ("kafka_service" ∈ param_names ps) then dict_set kw "kafka_service" AService else kw.

(** The parameters that neither a position nor a keyword covers. *)
Definition open_params (ps : list Param) (pos : list pyval) (kw : dict string Arg) : list string :=
  List.filter (fun n => negb (dict_mem n kw))
    (skipn (Nat.min (length pos) (length ps)) (param_names ps)).

Definition call_kw_args (ps : list Param) (ev : Event) (args : CommandArgs) : dict string Arg :=
  let kw := injected_kw_args ps ev (given_kw_args args) in
  fold_left (fun kw k => match dict_get (vars_event ev) k with
                         | Some a => dict_set kw k a
                         | None => kw
                         end)
    (open_params ps (pos_args args) kw) kw.

(** ** The callback *)

Section CommandCallback.
Context `{Env} {X : Type}.
(** The attributes of the command object, the topic of the answers and the
    text of the interpreter's binding errors. *)
Context (cmd_object : dict string (Attr X)) (cmd_return_topic : string).
Context (bind_error_text : BindError -> string).

Definition invoke (m : Method X) (ev : Event) (args : CommandArgs) : M (Svc X) pyval :=
  match bind_call (m_params m) (pos_args args) (call_kw_args (m_params m) ev args) with
  | inl err => raise (TypeError (bind_error_text err))
  | inr bound => m_body m bound
  end.

(** The [try] around the call: code, message and result of the answer. *)
Definition run_command (command : string) (m : Method X) (ev : Event) (args : CommandArgs)
    : M (Svc X) (Z * string * pyval) :=
  try_except
    (result <- invoke m ev args ;; ret (CODE_SUCCESS, msg_ok command, result))
    (fun e => match e with
              | TypeError t => ret (CODE_CLIENT_ERROR, msg_invalid_args command t, VNone)
              | _ => ret (CODE_COMMAND_ERROR, msg_unknown_error command (str_of_exn e), VNone)
              end).

(** [KafkaCommandCallback.handle_event]. *)
Definition cmd_handle_event (event : Event) : M (Svc X) unit :=
  match payload event with
  | PCommandRequest req =>
      let command := crp_command req in
      match dict_get cmd_object command with
      | None => ret tt
      | Some (Uncallable _) => ret tt
      | Some (Callable method) =>
          '(code, msg, result) <- run_command command method event (crp_args req) ;;
          response_event <-
            lift (create_from_object CommandResponseEvent event
                    (PCommandResponse code msg event result) None) ;;
          ks_send_event response_event cmd_return_topic
      end
  | _ => ret tt
  end.

(** [KafkaCommandCallback.cleanup]: calls the object's own [cleanup]. *)
Definition cmd_cleanup (bound_cleanup : option (M (Svc X) unit)) : M (Svc X) unit :=
  match bound_cleanup with Some c => c | None => ret tt end.

(** ** Lemmas *)

Lemma run_command_total command m ev args s :
  exists code msg result s', run_command command m ev args s = (Ok (code, msg, result), s') /\
    s' = (invoke m ev args s).2 /\
    match (invoke m ev args s).1 with
    | Ok v => code = CODE_SUCCESS /\ msg = msg_ok command /\ result = v
    | Raise (TypeError t) => code = CODE_CLIENT_ERROR /\ msg = msg_invalid_args command t /\ result = VNone
    | Raise e => code = CODE_COMMAND_ERROR /\ msg = msg_unknown_error command (str_of_exn e) /\ result = VNone
    end.
Proof.
  unfold run_command. py_simpl.
  destruct (invoke m ev args s) as [[v|e] s']; simpl.
  - by do 4 eexists.
  - destruct e; by do 4 eexists.
Qed.

Lemma cmd_handle_event_keeps ev :
  (forall name m, dict_get cmd_object name = Some (Callable m) -> forall bound, keeps (m_body m bound)) ->
  keeps (cmd_handle_event ev).
Proof.
  intros Hbody. unfold cmd_handle_event.
  destruct (payload ev); try by apply keeps_ret.
  destruct (dict_get cmd_object _) as [[m|v]|] eqn:E; try by apply keeps_ret.
  unfold run_command, invoke. solve_keeps. by eapply Hbody.
Qed.
End CommandCallback.

(** ** The arguments of a command given by name *)

Section Binding.
Context (ps : list Param) (ev : Event) (d : list (string * pyval)).
Context (Hps : NoDup (param_names ps)) (Hd : dict_wf d).

(** Where the value of a parameter comes from: the event and the service are
    injected; the command's own value wins over the event's field. *)
Definition source_of (n : string) : option Arg :=
  if decide (n = "kafka_service" /\ n ∈ param_names ps) then Some AService
  else if decide (n = "event" /\ n ∈ param_names ps) then Some (AEvent ev)
  else match dict_get d n with
       | Some v => Some (AVal v)
       | None => if decide (n ∈ param_names ps) then dict_get (vars_event ev) n else None
       end.

Lemma dict_get_map_val n :
  dict_get (map (fun kv => (kv.1, AVal kv.2)) d) n = AVal <$> dict_get d n.
Proof.
  clear. induction d as [|[k v] d' IH]; simpl; [done|]. by case_decide.
Qed.

Let kw0 := injected_kw_args ps ev (given_kw_args (DictArgs d)).

Lemma dict_get_injected n :
  dict_get kw0 n =
  if decide (n = "kafka_service" /\ n ∈ param_names ps) then Some AService
  else if decide (n = "event" /\ n ∈ param_names ps) then Some (AEvent ev)
  else AVal <$> dict_get d n.
Proof.
  unfold kw0, injected_kw_args, given_kw_args.
  repeat case_bool_decide; rewrite ?dict_get_set, ?dict_get_map_val;
    repeat case_decide; simplify_eq; try done; try naive_solver.
Qed.

Lemma fold_fill_get l kw n :
  (forall k, k ∈ l -> dict_get kw k = None) -> NoDup l ->
  dict_get (fold_left (fun kw k => match dict_get (vars_event ev) k with
                                   | Some a => dict_set kw k a
                                   | None => kw
                                   end) l kw) n =
  match dict_get kw n with
  | Some a => Some a
  | None => if decide (n ∈ l) then dict_get (vars_event ev) n else None
  end.
Proof.
  revert kw. induction l as [|k l IH]; intros kw Hfree Hnd; cbn [fold_left].
  - destruct (dict_get kw n); [done|]. by rewrite decide_False by apply not_elem_of_nil.
  - apply NoDup_cons in Hnd as [Hk Hnd].
    destruct (dict_get (vars_event ev) k) as [a|] eqn:Ek.
    + rewrite IH; [|intros k' Hk'; rewrite dict_get_set_ne by (intros ->; done); apply Hfree; set_solver|done].
      rewrite dict_get_set. destruct (decide (k = n)) as [->|Hne].
      * rewrite (Hfree n) by set_solver. destruct (decide (n ∈ n :: l)); [congruence|set_solver].
      * destruct (dict_get kw n); [done|].
        destruct (decide (n ∈ l)); [rewrite decide_True by set_solver|rewrite decide_False by set_solver]; done.
    + rewrite IH; [|intros k' Hk'; apply Hfree; set_solver|done].
      destruct (dict_get kw n) eqn:En; [done|].
      destruct (decide (n ∈ l)); [rewrite decide_True by set_solver; done|].
      destruct (decide (n ∈ k :: l)) as [Hin|]; [|done].
      apply elem_of_cons in Hin as [->|]; done.
Qed.

Lemma open_params_elem n :
  n ∈ open_params ps [] kw0 <-> n ∈ param_names ps /\ dict_get kw0 n = None.
Proof.
  unfold open_params. simpl. rewrite elem_of_list_filter_b. unfold dict_mem.
  destruct (dict_get kw0 n); naive_solver.
Qed.

Lemma open_params_NoDup : NoDup (open_params ps [] kw0).
Proof. unfold open_params. apply NoDup_ListNoDup, List.NoDup_filter, NoDup_ListNoDup. exact Hps. Qed.

Lemma call_kw_args_get n :
  dict_get (call_kw_args ps ev (DictArgs d)) n = source_of n.
Proof.
  unfold call_kw_args. fold kw0. cbn [pos_args].
  rewrite fold_fill_get; [|intros k Hk; by apply open_params_elem in Hk as [_ Hk]|apply open_params_NoDup].
  pose proof (open_params_elem n) as Ho. rewrite dict_get_injected in *. unfold source_of.
  repeat case_decide; try done; destruct (dict_get d n); simpl in *; try done; naive_solver.
Qed.
End Binding.

(** ** Properties *)

Section Properties.
Context `{Env} {X : Type}.
Context (cmd_object : dict string (Attr X)) (cmd_return_topic : string).
Context (bind_error_text : BindError -> string).

(** A command is answered exactly once.  For a command event whose method
    exists, the callback never raises: it runs the method and then sends one
    response to the return topic, with code 0 and the result on success, code
    2 when the call raised [TypeError] (in particular when the arguments do
    not fit the signature) and code 1 on any other exception.  Other payloads,
    unknown commands and attributes that cannot be called change nothing. *)
Theorem cmd_handle_event_spec ev s :
  match payload ev with
  | PCommandRequest req =>
      match dict_get cmd_object (crp_command req) with
      | Some (Callable m) =>
          let (r, s') := invoke bind_error_text m ev (crp_args req) s in
          let cmd := crp_command req in
          let p := match r with
                   | Ok v => PCommandResponse 0 (msg_ok cmd) ev v
                   | Raise (TypeError t) => PCommandResponse 2 (msg_invalid_args cmd t) ev VNone
                   | Raise e => PCommandResponse 1 (msg_unknown_error cmd (str_of_exn e)) ev VNone
                   end in
          exists b out,
            cmd_handle_event cmd_object cmd_return_topic bind_error_text ev s = (Ok tt, set_bus b s') /\
            bus_sent b = (bus_sent (svc_bus s') ++ [mkSent cmd_return_topic (client_id ev) out])%list /\
            payload out = p /\ action_id out = action_id ev /\ type out = cmd_return_topic
      | _ => cmd_handle_event cmd_object cmd_return_topic bind_error_text ev s = (Ok tt, s)
      end
  | _ => cmd_handle_event cmd_object cmd_return_topic bind_error_text ev s = (Ok tt, s)
  end.
Proof.
  unfold cmd_handle_event. destruct (payload ev) as [|?|req|? ? ? ?|? ? ?|?]; try done.
  destruct (dict_get cmd_object (crp_command req)) as [[m|v]|]; try done.
  destruct (run_command_total bind_error_text (crp_command req) m ev (crp_args req) s)
    as (code & msg & result & s' & Hrun & -> & Hout).
  unfold bind at 1. rewrite Hrun.
  destruct (invoke bind_error_text m ev (crp_args req) s) as [r s1]. simpl in Hout |- *.
  unfold lift, bind, ks_send_event, on_bus, create_from_object. cbn [payload_matches].
  rewrite send_event_run.
  do 2 eexists. split; [reflexivity|]. split; [reflexivity|].
  split; [|split; reflexivity]. simpl.
  destruct r as [v|[]]; destruct Hout as (-> & -> & ->); reflexivity.
Qed.

(** The arguments of a command given by name.  The call binds if and only
    if every given name is a parameter and every parameter without a default
    has a value; then each parameter gets the service if it is called
    [kafka_service], the event if it is called [event], else the command's
    value, else the field of the event with its name. *)
Theorem invoke_binds_named_args (ps : list Param) ev d
    (Hps : NoDup (param_names ps)) (Hd : dict_wf d) :
  match bind_call ps (pos_args (DictArgs d)) (call_kw_args ps ev (DictArgs d)) with
  | inr bound =>
      (forall k, is_Some (dict_get d k) -> k ∈ param_names ps) /\
      (forall p, p ∈ ps -> p_has_default p = false -> is_Some (source_of ps ev d (p_name p))) /\
      (forall n, dict_get bound n = source_of ps ev d n)
  | inl (UnexpectedKeyword k) => is_Some (dict_get d k) /\ k ∉ param_names ps
  | inl (MissingArgument k) =>
      source_of ps ev d k = None /\ exists p, p ∈ ps /\ p_name p = k /\ p_has_default p = false
  | inl _ => False
  end.
Proof.
  unfold bind_call. cbn [pos_args length firstn].
  destruct (List.find _ (dict_keys _)) as [k|] eqn:Ef.
  - apply find_some in Ef as [Hin Hk]. apply negb_true_iff, bool_decide_eq_false in Hk.
    split; [|done]. apply list_elem_of_In, dict_get_is_Some in Hin.
    rewrite call_kw_args_get in Hin by done. unfold source_of in Hin.
    repeat case_decide; try naive_solver. destruct (dict_get d k); naive_solver.
  - assert (Hall : forall k, is_Some (source_of ps ev d k) -> k ∈ param_names ps).
    { intros k Hk. rewrite <- call_kw_args_get in Hk by done.
      apply dict_get_is_Some, list_elem_of_In in Hk. apply (find_none _ _ Ef) in Hk.
      by apply negb_false_iff, bool_decide_eq_true in Hk. }
    match goal with |- context [List.find ?f (dict_keys ?kw)] =>
      destruct (List.find f (dict_keys kw)) as [k|] eqn:Ef2 end.
    { apply find_some in Ef2 as [_ Hk]. apply bool_decide_eq_true in Hk. by apply elem_of_nil in Hk. }
    simpl. destruct (List.find _ ps) as [p|] eqn:Ef3.
    + apply find_some in Ef3 as [Hin [Hp Hm]%andb_true_iff].
      apply list_elem_of_In in Hin. apply negb_true_iff in Hp, Hm. unfold dict_mem in Hm.
      rewrite call_kw_args_get in Hm by done.
      destruct (source_of ps ev d (p_name p)); [done|]. split; [done|]. by exists p.
    + split_and!.
      * intros k [v Hv]. destruct (decide (k ∈ param_names ps)); [done|].
        apply Hall. unfold source_of. rewrite Hv. repeat case_decide; eauto.
      * intros p Hp Hdef. apply list_elem_of_In in Hp. apply (find_none _ _ Ef3) in Hp.
        rewrite Hdef in Hp. simpl in Hp. apply negb_false_iff in Hp. unfold dict_mem in Hp.
        rewrite call_kw_args_get in Hp by done. destruct (source_of ps ev d (p_name p)); [eauto|done].
      * intros n. by apply call_kw_args_get.
Qed.
End Properties.

(** ** Witnesses *)

Module Witness.
Definition echo : Method unit :=
  mkMethod [mkParam "kafka_service" false; mkParam "client_id" false;
            mkParam "target_action_id" false; mkParam "cascade" true]
    (fun bound => match dict_get bound "client_id" with
                  | Some (AVal v) => ret v
                  | _ => raise (ValueError "unbound")
                  end).

Lemma invoke_binds_named_args_witness :
  NoDup (param_names (m_params echo)) /\
  exists bound,
    bind_call (m_params echo) []
      (call_kw_args (m_params echo) (event0 (PAny VNone)) (DictArgs [("target_action_id", VStr "a")]))
    = inr bound /\
    dict_get bound "client_id" = Some (AVal (VStr "client")) /\
    dict_get bound "target_action_id" = Some (AVal (VStr "a")) /\
    dict_get bound "cascade" = None.
Proof.
  assert (Hnd : NoDup (param_names (m_params echo))) by (apply (bool_decide_unpack _); vm_compute; exact I).
  split; [exact Hnd|].
  pose proof (invoke_binds_named_args (m_params echo) (event0 (PAny VNone))
                [("target_action_id", VStr "a")] Hnd) as Hb.
  cbn [pos_args] in Hb.
  destruct (bind_call (m_params echo) [] _) as [err|bound] eqn:E.
  - vm_compute in E. discriminate.
  - exists bound. split; [reflexivity|].
    destruct Hb as (_ & _ & Hb).
    { apply NoDup_singleton. }
    rewrite !Hb. vm_compute. auto.
Defined.
End Witness.
