(* ===== verification/Descriptor.v ===== *)
(** * Benchmark descriptors (bai_kafka_utils/executors/descriptor.py and
    executors/util/ec2_instance_info.py)

    The typed form of the TOML file a user submits, with the validation that
    its constructors perform.  The conversion of a raw dictionary into
    constructor calls is the third-party package dacite, a parameter here. *)

From S2P Require Import Prelude PyStr Regex.

(** ** Enumerations and constants *)

Inductive DistributedStrategy : Set := SINGLE_NODE | HOROVOD | INFERENCE.

#[export] Instance DistributedStrategy_eq_dec : EqDecision DistributedStrategy.
Proof. solve_decision. Defined.

Definition strategy_value (s : DistributedStrategy) : string :=
  match s with SINGLE_NODE => "single_node" | HOROVOD => "horovod" | INFERENCE => "inference" end.

Inductive ExecutionEngineId : Set := EE_DEFAULT | EE_SAGEMAKER.

Definition engine_value (e : ExecutionEngineId) : string :=
  match e with EE_DEFAULT => "default" | EE_SAGEMAKER => "aws.sagemaker" end.

Inductive MLFramework : Set := TENSORFLOW | MXNET | NONE.

#[export] Instance MLFramework_eq_dec : EqDecision MLFramework.
Proof. solve_decision. Defined.

(** [str(member)]. *)
Definition strategy_str (s : DistributedStrategy) : string :=
  "DistributedStrategy." +:+
  match s with SINGLE_NODE => "SINGLE_NODE" | HOROVOD => "HOROVOD" | INFERENCE => "INFERENCE" end.

Definition framework_str (f : MLFramework) : string :=
  "MLFramework." +:+ match f with TENSORFLOW => "TENSORFLOW" | MXNET => "MXNET" | NONE => "NONE" end.

Definition framework_value (f : MLFramework) : string :=
  match f with TENSORFLOW => "tensorflow" | MXNET => "mxnet" | NONE => "" end.

Inductive HttpProbeScheme : Set := HTTP | HTTPS.

Definition probe_scheme_value (s : HttpProbeScheme) : string :=
  match s with HTTP => "http" | HTTPS => "https" end.

Definition SINGLE_RUN_SCHEDULING : string := "single_run".
Definition ONE_PER_GPU : string := "gpus".
Definition MPI_JOB_LAUNCHER : string := "Launcher".
Definition MPI_JOB_WORKER : string := "Worker".

(** [EnumClass(value)]: the member with that value, or a [ValueError]. *)
Definition enum_of {E} (members : list E) (value : E -> string) (cls v : string) : Res E :=
  match List.find (fun e => String.eqb (value e) v) members with
  | Some e => Ok e
  | None => Raise (ValueError ("'" +:+ v +:+ "' is not a valid " +:+ cls))
  end.

Definition DistributedStrategy_of : string -> Res DistributedStrategy :=
  enum_of [SINGLE_NODE; HOROVOD; INFERENCE] strategy_value "DistributedStrategy".
Definition ExecutionEngine_of : string -> Res ExecutionEngineId :=
  enum_of [EE_DEFAULT; EE_SAGEMAKER] engine_value "ExecutionEngine".
Definition MLFramework_of : string -> Res MLFramework :=
  enum_of [TENSORFLOW; MXNET; NONE] framework_value "MLFramework".
Definition HttpProbeScheme_of (scheme_str : string) : Res HttpProbeScheme :=
  enum_of [HTTP; HTTPS] probe_scheme_value "HttpProbeScheme" (lower scheme_str).

(** ** EC2 instance types *)

(** The rows of ec2_instance_info.csv. *)
Definition ec2_instance_info_csv : list (string * string) :=
  [("p2.16xlarge", "16"); ("p2.8xlarge", "8"); ("p3.16xlarge", "8"); ("p3dn.24xlarge", "8");
   ("g2.8xlarge", "4"); ("g3.16xlarge", "4"); ("p3.8xlarge", "4"); ("g3.8xlarge", "2");
   ("g2.2xlarge", "1"); ("g3.4xlarge", "1"); ("g3s.xlarge", "1"); ("p2.xlarge", "1");
   ("p3.2xlarge", "1"); ("a1.2xlarge", "0"); ("a1.4xlarge", "0"); ("a1.large", "0");
   ("a1.medium", "0"); ("a1.xlarge", "0"); ("c1.medium", "0"); ("c1.xlarge", "0");
   ("c3.2xlarge", "0"); ("c3.4xlarge", "0"); ("c3.8xlarge", "0"); ("c3.large", "0");
   ("c3.xlarge", "0"); ("c4.2xlarge", "0"); ("c4.4xlarge", "0"); ("c4.8xlarge", "0");
   ("c4.large", "0"); ("c4.xlarge", "0"); ("c5.18xlarge", "0"); ("c5.2xlarge", "0");
   ("c5.4xlarge", "0"); ("c5.9xlarge", "0"); ("c5.large", "0"); ("c5.xlarge", "0");
   ("c5d.18xlarge", "0"); ("c5d.2xlarge", "0"); ("c5d.4xlarge", "0"); ("c5d.9xlarge", "0");
   ("c5d.large", "0"); ("c5d.xlarge", "0"); ("c5n.18xlarge", "0"); ("c5n.2xlarge", "0");
   ("c5n.4xlarge", "0"); ("c5n.9xlarge", "0"); ("c5n.large", "0"); ("c5n.xlarge", "0");
   ("cc2.8xlarge", "0"); ("cr1.8xlarge", "0"); ("d2.2xlarge", "0"); ("d2.4xlarge", "0");
   ("d2.8xlarge", "0"); ("d2.xlarge", "0"); ("f1.16xlarge", "0"); ("f1.2xlarge", "0");
   ("f1.4xlarge", "0"); ("h1.16xlarge", "0"); ("h1.2xlarge", "0"); ("h1.4xlarge", "0");
   ("h1.8xlarge", "0"); ("hs1.8xlarge", "0"); ("i2.2xlarge", "0"); ("i2.4xlarge", "0");
   ("i2.8xlarge", "0"); ("i2.xlarge", "0"); ("i3.16xlarge", "0"); ("i3.2xlarge", "0");
   ("i3.4xlarge", "0"); ("i3.8xlarge", "0"); ("i3.large", "0"); ("i3.metal", "0");
   ("i3.xlarge", "0"); ("m1.large", "0"); ("m1.medium", "0"); ("m1.small", "0");
   ("m1.xlarge", "0"); ("m2.2xlarge", "0"); ("m2.4xlarge", "0"); ("m2.xlarge", "0");
   ("m3.2xlarge", "0"); ("m3.large", "0"); ("m3.medium", "0"); ("m3.xlarge", "0");
   ("m4.10xlarge", "0"); ("m4.16xlarge", "0"); ("m4.2xlarge", "0"); ("m4.4xlarge", "0");
   ("m4.large", "0"); ("m4.xlarge", "0"); ("m5.12xlarge", "0"); ("m5.24xlarge", "0");
   ("m5.2xlarge", "0"); ("m5.4xlarge", "0"); ("m5.large", "0"); ("m5.metal", "0");
   ("m5.xlarge", "0"); ("m5a.12xlarge", "0"); ("m5a.24xlarge", "0"); ("m5a.2xlarge", "0");
   ("m5a.4xlarge", "0"); ("m5a.large", "0"); ("m5a.xlarge", "0"); ("m5ad.12xlarge", "0");
   ("m5ad.24xlarge", "0"); ("m5ad.2xlarge", "0"); ("m5ad.4xlarge", "0"); ("m5ad.large", "0");
   ("m5ad.xlarge", "0"); ("m5d.12xlarge", "0"); ("m5d.24xlarge", "0"); ("m5d.2xlarge", "0");
   ("m5d.4xlarge", "0"); ("m5d.large", "0"); ("m5d.metal", "0"); ("m5d.xlarge", "0");
   ("r3.2xlarge", "0"); ("r3.4xlarge", "0"); ("r3.8xlarge", "0"); ("r3.large", "0");
   ("r3.xlarge", "0"); ("r4.16xlarge", "0"); ("r4.2xlarge", "0"); ("r4.4xlarge", "0");
   ("r4.8xlarge", "0"); ("r4.large", "0"); ("r4.xlarge", "0"); ("r5.12xlarge", "0");
   ("r5.24xlarge", "0"); ("r5.2xlarge", "0"); ("r5.4xlarge", "0"); ("r5.large", "0");
   ("r5.metal", "0"); ("r5.xlarge", "0"); ("r5a.12xlarge", "0"); ("r5a.24xlarge", "0");
   ("r5a.2xlarge", "0"); ("r5a.4xlarge", "0"); ("r5a.large", "0"); ("r5a.xlarge", "0");
   ("r5ad.12xlarge", "0"); ("r5ad.24xlarge", "0"); ("r5ad.2xlarge", "0"); ("r5ad.4xlarge", "0");
   ("r5ad.large", "0"); ("r5ad.xlarge", "0"); ("r5d.12xlarge", "0"); ("r5d.24xlarge", "0");
   ("r5d.2xlarge", "0"); ("r5d.4xlarge", "0"); ("r5d.large", "0"); ("r5d.metal", "0");
   ("r5d.xlarge", "0"); ("t1.micro", "0"); ("t2.2xlarge", "0"); ("t2.large", "0");
   ("t2.medium", "0"); ("t2.micro", "0"); ("t2.nano", "0"); ("t2.small", "0");
   ("t2.xlarge", "0"); ("t3.2xlarge", "0"); ("t3.large", "0"); ("t3.medium", "0");
   ("t3.micro", "0"); ("t3.nano", "0"); ("t3.small", "0"); ("t3.xlarge", "0");
   ("u-12tb1.metal", "0"); ("u-6tb1.metal", "0"); ("u-9tb1.metal", "0"); ("x1.16xlarge", "0");
   ("x1.32xlarge", "0"); ("x1e.16xlarge", "0"); ("x1e.2xlarge", "0"); ("x1e.32xlarge", "0");
   ("x1e.4xlarge", "0"); ("x1e.8xlarge", "0"); ("x1e.xlarge", "0"); ("z1d.12xlarge", "0");
   ("z1d.2xlarge", "0"); ("z1d.3xlarge", "0"); ("z1d.6xlarge", "0"); ("z1d.large", "0");
   ("z1d.metal", "0"); ("z1d.xlarge", "0")].

Definition GPU_PREFIXES : list string := ["g"; "p"].

(** [get_instance_gpus]: the table, then a guess by the first letter. *)
Definition get_instance_gpus (instance_type : string) : Res Z :=
  let gpus_per_instance := dict_update [] ec2_instance_info_csv in
  match dict_get gpus_per_instance instance_type with
  | Some n => py_int n
  | None =>
      match instance_type with
      | "" => Raise (IndexError "string index out of range")
      | String c _ =>
          if bool_decide (String c "" ∉ GPU_PREFIXES) then Ok 0
          else Raise (OtherException "Exception"
                 ("Determining the number of installed GPUs for the instance type " +:+ instance_type
                    +:+ " is not yet supported"))
      end
  end.

(** ** The dataclasses *)

Record DescriptorConfig := mkDescriptorConfig {
  valid_strategies : list string;
  valid_frameworks : list string
}.

Record MLScript := mkMLScript { mls_script : string }.

Record InfoDescriptor := mkInfo {
  info_description : string;
  info_task_name : option string;
  info_execution_engine : option ExecutionEngineId;
  info_scheduling : option string;
  info_labels : option (dict string string)
}.

Record MLDescriptor := mkML {
  ml_framework : MLFramework;
  ml_benchmark_code : option string;
  ml_args : option string;
  ml_framework_version : option string;
  ml_script : option MLScript
}.

Record CustomParamsDescriptor := mkCustomParams {
  cp_python_version : option string;
  cp_sagemaker_job_name : option string;
  cp_dashboard : option string;
  cp_region : option string;
  cp_merge : option bool;
  cp_hyper_params : dict string pyval
}.

Record HttpProbeDescriptor := mkProbe {
  probe_path : string;
  probe_port : option Z;
  probe_scheme : option HttpProbeScheme;
  probe_initial_delay_seconds : option Z;
  probe_period_seconds : option Z;
  probe_timeout_seconds : option Z;
  probe_success_threshold : option Z;
  probe_failure_threshold : option Z
}.

Record MetricDescriptor := mkMetric { metric_name : string; metric_units : string; metric_pattern : string }.

Record OutputDescriptor := mkOutput { output_metrics : list MetricDescriptor }.

Record DescriptorContent := mkDescContent {
  desc_src : string; desc_path : string; desc_id : option string; desc_md5 : option string
}.

Record HardwareDescriptor := mkHardware {
  hw_instance_type : string;
  hw_gpus_per_instance : Z;
  hw_aws_zone_id : option string;
  hw_availability_zone : option string
}.

Record BenchmarkDistributedHardwareDescriptor := mkDistributed {
  num_instances : Z;
  dist_processes_per_instance : string
}.

(** The fields of [HardwareDescriptor], plus its own; the last one is only set
    when there is a [distributed] section. *)
Record BenchmarkHardwareDescriptor := mkBenchHardware {
  bh_hardware : HardwareDescriptor;
  bh_strategy : DistributedStrategy;
  bh_distributed : option BenchmarkDistributedHardwareDescriptor;
  bh_processes_per_instance : option Z
}.

Record ServerEnvDescriptor := mkServerEnv {
  senv_docker_image : string;
  senv_ports : list Z;
  senv_start_command : string;
  senv_privileged : bool;
  senv_extended_shm : bool;
  senv_vars : dict string string;
  senv_readiness_probe : option HttpProbeDescriptor;
  senv_start_command_args : option string
}.

Record ServerDescriptor := mkServer {
  server_hardware : HardwareDescriptor;
  server_env : ServerEnvDescriptor;
  server_models : option (list DescriptorContent);
  server_output : option OutputDescriptor
}.

Record BenchmarkEnvDescriptor := mkEnvDesc {
  env_docker_image : string;
  env_privileged : bool;
  env_extended_shm : bool;
  env_vars : dict string string
}.

Record BenchmarkDataDescriptor := mkData { data_sources : list DescriptorContent }.

Record BenchmarkDescriptor := mkDescriptor {
  spec_version : string;
  info : InfoDescriptor;
  hardware : BenchmarkHardwareDescriptor;
  env : BenchmarkEnvDescriptor;
  output : option OutputDescriptor;
  ml : option MLDescriptor;
  data : option BenchmarkDataDescriptor;
  custom_params : option CustomParamsDescriptor;
  server : option ServerDescriptor
}.

(** ** Constructors with validation *)

(** [HardwareDescriptor(...)], whose [__post_init__] looks the GPUs up. *)
Definition HardwareDescriptor_init (instance_type : string) (aws_zone_id availability_zone : option string)
    : Res HardwareDescriptor :=
  gpus <~ get_instance_gpus instance_type ;;
  Ok (mkHardware instance_type gpus aws_zone_id availability_zone).

(** [BenchmarkHardwareDescriptor(...)] with its [__post_init__]. *)
Definition BenchmarkHardwareDescriptor_init (instance_type : string)
    (aws_zone_id availability_zone : option string) (strategy : DistributedStrategy)
    (distributed : option BenchmarkDistributedHardwareDescriptor) : Res BenchmarkHardwareDescriptor :=
  hw <~ HardwareDescriptor_init instance_type aws_zone_id availability_zone ;;
  match distributed with
  | None => Ok (mkBenchHardware hw strategy distributed None)
  | Some dist =>
      if String.eqb (dist_processes_per_instance dist) ONE_PER_GPU then
        if negb (hw_gpus_per_instance hw =? 0)
        then Ok (mkBenchHardware hw strategy distributed (Some (hw_gpus_per_instance hw)))
        else Raise (DescriptorError "Requesting per-gpu process assignment on instance without gpus")
      else
        n <~ py_int (dist_processes_per_instance dist) ;;
        Ok (mkBenchHardware hw strategy distributed (Some n))
  end.

(** *** Label syntax *)

Definition is_alnum (c : ascii) : bool := is_alpha c || is_digit c.
Definition is_label_char (c : ascii) : bool :=
  is_alnum c || Ascii.eqb c "-" || Ascii.eqb c "_" || Ascii.eqb c ".".
Definition newline : ascii := "010"%char.
Definition is_dot (c : ascii) : bool := negb (Ascii.eqb c newline).

(** The lookahead [.{1,63}$]: [$] also stands before a final newline. *)
Definition LABEL_LOOKAHEAD : regex :=
  RSeq (RRep is_dot 1 63) (RAlt REps (RChar (Ascii.eqb newline))).
(** An alphanumeric, then any label characters, both optional, then an alphanumeric. *)
Definition LABEL_BODY : regex :=
  RSeq (RAlt REps (RSeq (RChar is_alnum) (RStar is_label_char))) (RChar is_alnum).

(** [LABEL_VALIDATION_REGEX.fullmatch(s)]. *)
Definition label_fullmatch (s : string) : bool :=
  fullmatch LABEL_LOOKAHEAD s && fullmatch LABEL_BODY s.

Definition INVALID_LABEL_MESSAGE : string :=
  "(RegExp used for validation is ([A-Za-z0-9][-A-Za-z0-9_.]*)?[A-Za-z0-9] " +:+
  "Please use Kubernetes label syntax: " +:+
  "https://kubernetes.io/docs/concepts/overview/working-with-objects/labels".

Fixpoint check_labels (labels : dict string string) : Res unit :=
  match labels with
  | [] => Ok tt
  | (label, value) :: rest =>
      if negb (label_fullmatch label)
      then Raise (DescriptorError ("Invalid custom label key: " +:+ label +:+ ". " +:+ INVALID_LABEL_MESSAGE))
      else if negb (String.eqb value "") && negb (label_fullmatch value)
      then Raise (DescriptorError ("Invalid value for label " +:+ label +:+ ": " +:+ value +:+ " "
                                     +:+ INVALID_LABEL_MESSAGE))
      else check_labels rest
  end.

Definition when_raise (b : bool) (msg : string) : Res unit :=
  if b then Raise (DescriptorError msg) else Ok tt.

(** A string between double quotes; and the [repr] of a list of strings. *)
Definition quoted (s : string) : string := String "034" "" +:+ s +:+ String "034" "".
Definition repr_strs (l : list string) : string := "[" +:+ join ", " (map (fun s => "'" +:+ s +:+ "'") l) +:+ "]".

Definition opt_str (o : option string) : string := default "None" o.

Section Descriptor.
(** [CronSlices.is_valid] of the package crontab. *)
Context (cron_is_valid : option string -> bool).

(** [BenchmarkDescriptor.__post_init__]. *)
Definition descriptor_post_init (d : BenchmarkDescriptor) : Res BenchmarkDescriptor :=
  let hw := hardware d in
  _ <~ when_raise (bool_decide (bh_strategy hw = INFERENCE) && negb (bool_decide (is_Some (server d))))
         "Missing server definition" ;;
  _ <~ when_raise (bool_decide (bh_strategy hw ∈ [HOROVOD]) && negb (bool_decide (is_Some (bh_distributed hw))))
         "Missing distributed hardware definition" ;;
  _ <~ match bh_distributed hw with
       | Some dist =>
           when_raise (num_instances dist <=? 1)
             ("Invalid number of instances " +:+ pretty (num_instances dist))
       | None => Ok tt
       end ;;
  _ <~ when_raise (negb (bool_decide (info_scheduling (info d) = Some SINGLE_RUN_SCHEDULING))
                   && negb (cron_is_valid (info_scheduling (info d))))
         ("Invalid cron expression in scheduling field: " +:+ opt_str (info_scheduling (info d)) +:+
          ". Please use Kubernetes cron job syntax or " +:+ quoted "single_run" +:+ " for non-periodic runs") ;;
  _ <~ match info_labels (info d) with
       | Some labels => check_labels labels
       | None => Raise (AttributeError "'NoneType' object has no attribute 'items'")
       end ;;
  _ <~ match ml d with
       | None => Ok tt
       | Some m =>
           _ <~ when_raise (str_truthy (ml_framework_version m) && bool_decide (ml_framework m = NONE))
                  "Framework version is present, but not framework" ;;
           match ml_script m with
           | Some sc =>
               when_raise (negb (endswith ".tar" (mls_script sc)))
                 ("Script mode section is present, but script file: " +:+ mls_script sc +:+ " is not a tar file")
           | None => Ok tt
           end
       end ;;
  Ok d.

(** What dacite is given: the hooks that turn strings into enumerations, and
    the constructors of the classes that validate. *)
Record DaciteArgs := mkDaciteArgs {
  hook_strategy : string -> Res DistributedStrategy;
  hook_engine : string -> Res ExecutionEngineId;
  hook_framework : string -> Res MLFramework;
  hook_probe_scheme : string -> Res HttpProbeScheme;
  new_hardware : string -> option string -> option string -> Res HardwareDescriptor;
  new_bench_hardware : string -> option string -> option string -> DistributedStrategy ->
                       option BenchmarkDistributedHardwareDescriptor -> Res BenchmarkHardwareDescriptor;
  new_descriptor : BenchmarkDescriptor -> Res BenchmarkDescriptor
}.

Definition dacite_args : DaciteArgs :=
  mkDaciteArgs DistributedStrategy_of ExecutionEngine_of MLFramework_of HttpProbeScheme_of
    HardwareDescriptor_init BenchmarkHardwareDescriptor_init descriptor_post_init.

(** [dacite.from_dict(data_class=BenchmarkDescriptor, data=..., config=...)]. *)
Context (dacite_from_dict : DaciteArgs -> list (string * pyval) -> Res BenchmarkDescriptor).

Definition check_config (config : option DescriptorConfig) (d : BenchmarkDescriptor) : Res BenchmarkDescriptor :=
  match config with
  | None => Ok d
  | Some cfg =>
      _ <~ when_raise (negb (bool_decide (strategy_value (bh_strategy (hardware d)) ∈ valid_strategies cfg)))
             ("Invalid strategy: " +:+ strategy_str (bh_strategy (hardware d)) +:+ " (must be one of "
                +:+ repr_strs (valid_strategies cfg) +:+ ")") ;;
      match ml d with
      | None => Raise (AttributeError "'NoneType' object has no attribute 'framework'")
      | Some m =>
          _ <~ when_raise (negb (bool_decide (framework_value (ml_framework m) ∈ valid_frameworks cfg)))
                 ("Invalid framework  " +:+ framework_str (ml_framework m) +:+ " (must be one of "
                    +:+ repr_strs (valid_frameworks cfg)) ;;
          Ok d
      end
  end.

(** [BenchmarkDescriptor.from_dict]. *)
Definition from_dict (descriptor_dict : list (string * pyval)) (config : option DescriptorConfig)
    : Res BenchmarkDescriptor :=
  match (d <~ dacite_from_dict dacite_args descriptor_dict ;; check_config config d) with
  | Ok d => Ok d
  | Raise (DaciteError e) | Raise (ValueError e) =>
      Raise (DescriptorError ("Error parsing descriptor: " +:+ e))
  | Raise e => Raise e
  end.

(** [from_toml]: [toml.load], another package, then [from_dict]. *)
Context (toml_load : string -> Res (list (string * pyval))).

Definition from_toml (toml_file : string) (config : option DescriptorConfig) : Res BenchmarkDescriptor :=
  descriptor_dict <~ toml_load toml_file ;;
  from_dict descriptor_dict config.

Definition is_inference_strategy (d : BenchmarkDescriptor) : bool :=
  bool_decide (bh_strategy (hardware d) = INFERENCE).
End Descriptor.

(** ** What the validation accepts *)

(** The Kubernetes label syntax in plain words: 1 to 63 label characters, the
    first and the last of them alphanumeric. *)
Definition starts_alnum (s : string) : bool :=
  match s with "" => false | String c _ => is_alnum c end.

Definition valid_label (s : string) : bool :=
  (1 <=? String.length s)%nat && (String.length s <=? 63)%nat && str_forall is_label_char s
  && starts_alnum s && starts_alnum (str_rev s).

Section LabelLemmas.
#[local] Arguments String.append !_ _ /.

Lemma alnum_label_char c : is_alnum c = true -> is_label_char c = true.
Proof. unfold is_label_char. by intros ->. Qed.

Lemma alnum_not_newline c : is_alnum c = true -> Ascii.eqb newline c = false.
Proof. intros H. apply Ascii.eqb_neq. intros <-. vm_compute in H. done. Qed.

Lemma label_char_dot c : is_label_char c = true -> is_dot c = true.
Proof.
  intros H. unfold is_dot. apply negb_true_iff, Ascii.eqb_neq. intros ->. vm_compute in H. done.
Qed.

Lemma str_length_rev s : String.length (str_rev s) = String.length s.
Proof. induction s as [|c s IH]; simpl; [done|]. rewrite str_length_app, IH. simpl. lia. Qed.

Lemma str_snoc_inv s : s <> "" -> exists t c, s = t +:+ String c "".
Proof.
  intros Hs. destruct (str_rev s) as [|c t] eqn:E.
  - apply (f_equal str_rev) in E. rewrite str_rev_involutive in E. done.
  - exists (str_rev t), c. apply (f_equal str_rev) in E.
    by rewrite str_rev_involutive in E.
Qed.

Lemma starts_alnum_snoc t c : starts_alnum (str_rev (t +:+ String c "")) = is_alnum c.
Proof. by rewrite str_rev_app. Qed.

Lemma label_body_matches s :
  matches LABEL_BODY s <->
  s <> "" /\ str_forall is_label_char s = true /\ starts_alnum s = true /\
  starts_alnum (str_rev s) = true.
Proof.
  split.
  - intros H. inversion H as [| |? ? s1 s2 H1 H2| | | |]; subst; clear H.
    inversion H2; subst; clear H2. rewrite str_forall_app, starts_alnum_snoc. simpl.
    assert (is_label_char c = true) by by apply alnum_label_char.
    inversion H1 as [| | |? ? ? Hs|? ? ? Hs| |]; subst; inversion Hs; subst; simpl.
    + split_and!; [done|by rewrite H|done|done].
    + repeat match goal with
             | Hm : matches (RChar _) _ |- _ => inversion Hm; subst; clear Hm
             | Hm : matches (RStar _) _ |- _ => inversion Hm; subst; clear Hm
             end.
      simpl. split_and!; [done| |done|done].
      rewrite alnum_label_char by done. apply andb_true_iff. split; [done|]. by rewrite H.
  - intros (Hne & Hall & Hf & Hl). destruct (str_snoc_inv s Hne) as (t & c & ->).
    rewrite starts_alnum_snoc in Hl. rewrite str_forall_app in Hall.
    apply andb_true_iff in Hall as [Ht _].
    apply m_seq; [|by constructor].
    destruct t as [|a t]; [apply m_alt_l; constructor|]. apply m_alt_r.
    simpl in Ht, Hf. apply andb_true_iff in Ht as [_ Ht].
    change (String a t) with (String a "" +:+ t). repeat constructor; done.
Qed.

Lemma label_lookahead_matches s :
  str_forall is_dot s = true -> (matches LABEL_LOOKAHEAD s <-> (1 <= String.length s <= 63)%nat).
Proof.
  intros Hdot. split.
  - intros H. inversion H as [| |? ? s1 s2 H1 H2| | | |]; subst; clear H.
    inversion H1; subst. rewrite str_forall_app in Hdot. apply andb_true_iff in Hdot as [_ Hd].
    inversion H2 as [| | |? ? ? Hs|? ? ? Hs| |]; subst;
      inversion Hs as [|? ? Hnl| | | | |]; subst.
    + by rewrite str_app_nil_r.
    + simpl in Hd. unfold is_dot in Hd. rewrite Ascii.eqb_sym, Hnl in Hd. done.
  - intros Hl. rewrite <- (str_app_nil_r s). apply m_seq; [by constructor|].
    apply m_alt_l. constructor.
Qed.

Lemma label_fullmatch_valid s : label_fullmatch s = valid_label s.
Proof.
  apply eq_true_iff_eq. unfold label_fullmatch, valid_label.
  rewrite !andb_true_iff, !fullmatch_spec, label_body_matches, !Nat.leb_le.
  split.
  - intros (Hl & Hne & Hall & Hf & Hr).
    apply label_lookahead_matches in Hl as [? ?]; [done|].
    eapply str_forall_impl; [apply label_char_dot|done].
  - intros ((((H1 & H2) & Hall) & Hf) & Hr). split_and!; try done.
    + apply label_lookahead_matches; [|done].
      eapply str_forall_impl; [apply label_char_dot|done].
    + by intros ->.
Qed.
End LabelLemmas.

Definition valid_label_item (kv : string * string) : Prop :=
  valid_label kv.1 = true /\ (kv.2 = "" \/ valid_label kv.2 = true).

(** The process count of a distributed benchmark. *)
Definition processes_resolved (hw : BenchmarkHardwareDescriptor) : Prop :=
  get_instance_gpus (hw_instance_type (bh_hardware hw)) = Ok (hw_gpus_per_instance (bh_hardware hw)) /\
  match bh_distributed hw with
  | None => bh_processes_per_instance hw = None
  | Some dist =>
      exists n, bh_processes_per_instance hw = Some n /\
        (dist_processes_per_instance dist = ONE_PER_GPU -> n = hw_gpus_per_instance (bh_hardware hw) /\ n <> 0) /\
        (dist_processes_per_instance dist <> ONE_PER_GPU ->
         int_of_str (dist_processes_per_instance dist) = Some n)
  end.

Lemma bench_hardware_init_ok it z az st dist hw :
  BenchmarkHardwareDescriptor_init it z az st dist = Ok hw -> processes_resolved hw.
Proof.
  unfold BenchmarkHardwareDescriptor_init, HardwareDescriptor_init, processes_resolved, py_int.
  destruct (get_instance_gpus it) as [g|] eqn:E; cbn [res_bind]; [|done].
  destruct dist as [d|]; [|by intros [= <-]].
  destruct (String.eqb_spec (dist_processes_per_instance d) ONE_PER_GPU) as [Ep|Ep].
  - cbn [hw_gpus_per_instance]. destruct (Z.eqb_spec g 0); [done|]. intros [= <-]. cbn. naive_solver.
  - destruct (int_of_str (dist_processes_per_instance d)) as [n|] eqn:Ei; cbn [res_bind]; [|done].
    intros [= <-]. cbn. naive_solver.
Qed.

Section Validity.
Context (cron_is_valid : option string -> bool).

Record valid_descriptor (d : BenchmarkDescriptor) : Prop := mkValid {
  valid_server : bh_strategy (hardware d) = INFERENCE -> is_Some (server d);
  valid_distributed : bh_strategy (hardware d) = HOROVOD -> is_Some (bh_distributed (hardware d));
  valid_instances : forall dist, bh_distributed (hardware d) = Some dist -> 1 < num_instances dist;
  valid_scheduling :
    info_scheduling (info d) = Some SINGLE_RUN_SCHEDULING \/ cron_is_valid (info_scheduling (info d)) = true;
  valid_labels : exists labels, info_labels (info d) = Some labels /\ Forall valid_label_item labels;
  valid_ml : forall m, ml d = Some m ->
    (str_truthy (ml_framework_version m) = true -> ml_framework m <> NONE) /\
    (forall sc, ml_script m = Some sc -> exists stem, mls_script sc = stem +:+ ".tar")
}.

Lemma when_raise_ok b msg : when_raise b msg = Ok tt <-> b = false.
Proof. by destruct b. Qed.

Lemma check_labels_ok labels : check_labels labels = Ok tt <-> Forall valid_label_item labels.
Proof.
  unfold valid_label_item.
  induction labels as [|[k v] l IH]; simpl; [done|].
  rewrite !label_fullmatch_valid, Forall_cons. simpl.
  destruct (valid_label k); simpl; [|naive_solver].
  destruct (String.eqb_spec v ""); simpl; [naive_solver|].
  destruct (valid_label v); simpl; naive_solver.
Qed.

Lemma check_labels_error labels e : check_labels labels = Raise e -> exists msg, e = DescriptorError msg.
Proof. induction labels as [|[k v] l IH]; simpl; [done|]. repeat case_match; naive_solver. Qed.

(** [r] only raises [DescriptorError]. *)
Definition desc_errors {A} (r : Res A) : Prop := forall e, r = Raise e -> exists msg, e = DescriptorError msg.

Lemma desc_errors_bind {A B} (r : Res A) (k : A -> Res B) :
  desc_errors r -> (forall a, desc_errors (k a)) -> desc_errors (res_bind r k).
Proof. unfold desc_errors. destruct r; simpl; naive_solver. Qed.

Lemma desc_errors_when b msg : desc_errors (when_raise b msg).
Proof. intros e. destruct b; simpl; naive_solver. Qed.

Lemma desc_errors_labels labels : desc_errors (check_labels labels).
Proof. intros e. apply check_labels_error. Qed.

#[local] Hint Resolve desc_errors_when desc_errors_labels : py.

Lemma post_init_errors d : is_Some (info_labels (info d)) -> desc_errors (descriptor_post_init cron_is_valid d).
Proof.
  intros [labels El]. unfold descriptor_post_init. rewrite El.
  do 2 (apply desc_errors_bind; [eauto with py|intros _]).
  apply desc_errors_bind; [by destruct (bh_distributed (hardware d)); eauto with py|intros _].
  do 2 (apply desc_errors_bind; [eauto with py|intros _]).
  apply desc_errors_bind; [|by intros]. destruct (ml d) as [m|]; [|done].
  apply desc_errors_bind; [eauto with py|intros _]. by destruct (ml_script m); eauto with py.
Qed.

Lemma res_bind_unit_ok {A} (r : Res unit) (k : Res A) (a : A) :
  (_ <~ r ;; k) = Ok a <-> r = Ok tt /\ k = Ok a.
Proof. destruct r as [[]|]; simpl; naive_solver. Qed.

Lemma post_init_ok d d' : descriptor_post_init cron_is_valid d = Ok d' <-> d' = d /\ valid_descriptor d.
Proof.
  unfold descriptor_post_init. rewrite !res_bind_unit_ok, !when_raise_ok, !andb_false_iff, !negb_false_iff,
    !bool_decide_eq_false, !bool_decide_eq_true, list_elem_of_singleton.
  split.
  - intros (Hs & Hd & Hi & Hc & Hl & Hm & [= <-]). split; [done|]. constructor.
    + naive_solver.
    + naive_solver.
    + intros dist E. rewrite E in Hi. apply when_raise_ok, Z.leb_gt in Hi. done.
    + naive_solver.
    + destruct (info_labels (info d)) as [labels|]; [|done]. exists labels. by rewrite <- check_labels_ok.
    + intros m E. rewrite E in Hm. apply res_bind_unit_ok in Hm as [Hv Hsc].
      apply when_raise_ok, andb_false_iff in Hv. rewrite bool_decide_eq_false in Hv.
      split; [intros Ht; destruct Hv; congruence|]. intros sc E'. rewrite E' in Hsc.
      apply when_raise_ok, negb_false_iff, endswith_spec in Hsc as [t Ht]. by exists t.
  - intros [-> [Hs Hd Hi Hc (labels & El & Hl) Hm]]. rewrite El, check_labels_ok. split_and!; try done.
    + destruct (decide (bh_strategy (hardware d) = INFERENCE)); auto.
    + destruct (decide (bh_strategy (hardware d) = HOROVOD)); auto.
    + destruct (bh_distributed (hardware d)) as [dist|]; [|done].
      apply when_raise_ok, Z.leb_gt. auto.
    + destruct (ml d) as [m|]; [|done]. destruct (Hm m eq_refl) as [Hv Hsc].
      apply res_bind_unit_ok. rewrite when_raise_ok, andb_false_iff, bool_decide_eq_false. split.
      * destruct (str_truthy (ml_framework_version m)); auto.
      * destruct (ml_script m) as [sc|]; [|done]. destruct (Hsc sc eq_refl) as [t Ht].
        apply when_raise_ok, negb_false_iff, endswith_spec. by exists t.
Qed.
End Validity.

(** ** Properties *)

(** The label pattern, with its lookahead and its optional middle part,
    accepts exactly the Kubernetes label values: 1 to 63 characters, all of
    them alphanumeric or one of [-_.], the first and the last alphanumeric. *)
Theorem label_syntax s :
  label_fullmatch s =
  ((1 <=? String.length s)%nat && (String.length s <=? 63)%nat && str_forall is_label_char s
   && starts_alnum s && starts_alnum (str_rev s)).
Proof. apply label_fullmatch_valid. Qed.

(** C17: [BenchmarkDescriptor.__post_init__] accepts a descriptor, unchanged,
    exactly when it is valid: an inference benchmark has a server, a horovod
    one a distributed section, every distributed section more than one
    instance, the scheduling is single_run or a cron expression, the labels
    have Kubernetes syntax, a framework version comes with a framework and a
    script is a tar file.  An invalid descriptor with a label table is
    rejected with a [DescriptorError] and nothing else. *)
Theorem descriptor_post_init_spec cron_is_valid d :
  (descriptor_post_init cron_is_valid d = Ok d <-> valid_descriptor cron_is_valid d) /\
  (forall e, descriptor_post_init cron_is_valid d = Raise e -> is_Some (info_labels (info d)) ->
     exists msg, e = DescriptorError msg).
Proof.
  split; [rewrite post_init_ok; naive_solver|].
  intros e He Hl. by apply (post_init_errors cron_is_valid d).
Qed.

(** What dacite documents: an instance is the result of calling the
    constructors of the data classes, so a validating [__post_init__] has run
    on the hardware section and on the whole descriptor. *)
Definition dacite_constructs (dacite_from_dict : DaciteArgs -> list (string * pyval) -> Res BenchmarkDescriptor)
    : Prop :=
  forall args contents d, dacite_from_dict args contents = Ok d ->
    exists d0 it z az st dist,
      new_bench_hardware args it z az st dist = Ok (hardware d0) /\ new_descriptor args d0 = Ok d.

Lemma from_dict_accepts cron_is_valid dacite contents config d :
  dacite_constructs dacite -> from_dict cron_is_valid dacite contents config = Ok d ->
  valid_descriptor cron_is_valid d /\ processes_resolved (hardware d) /\
  forall cfg, config = Some cfg ->
    strategy_value (bh_strategy (hardware d)) ∈ valid_strategies cfg /\
    exists m, ml d = Some m /\ framework_value (ml_framework m) ∈ valid_frameworks cfg.
Proof.
  intros Hdacite. unfold from_dict. destruct (res_bind _ _) as [d'|e] eqn:E; [|by destruct e].
  intros [= <-]. unfold res_bind in E. destruct (dacite _ contents) as [d0|] eqn:Ed; [|done].
  destruct (Hdacite _ _ _ Ed) as (d1 & it & z & az & st & dist & Hhw & Hnew). simpl in Hhw, Hnew.
  apply post_init_ok in Hnew as [-> Hvalid]. apply bench_hardware_init_ok in Hhw.
  unfold check_config in E. destruct config as [cfg|]; [|by simplify_eq; split_and!].
  apply res_bind_unit_ok in E as [Hs E]. apply when_raise_ok, negb_false_iff, bool_decide_eq_true in Hs.
  destruct (ml d1) as [m|] eqn:Em; [|done].
  apply res_bind_unit_ok in E as [Hf E]. apply when_raise_ok, negb_false_iff, bool_decide_eq_true in Hf.
  simplify_eq. split; [done|]. split; [done|]. intros ? [= <-]. eauto.
Qed.

(** The configuration only refuses; what it lets through is the same without it. *)
Lemma from_dict_without_config cron_is_valid dacite contents cfg d :
  from_dict cron_is_valid dacite contents (Some cfg) = Ok d -> from_dict cron_is_valid dacite contents None = Ok d.
Proof.
  unfold from_dict. destruct (dacite _ contents) as [d1|e]; cbn [res_bind]; [|by destruct e].
  destruct (check_config (Some cfg) d1) as [d2|e] eqn:E; [|by destruct e]. intros [= ->]. cbn [check_config].
  unfold check_config in E. apply res_bind_unit_ok in E as [_ E]. destruct (ml d1); [|done].
  by apply res_bind_unit_ok in E as [_ [= ->]].
Qed.

(** C16: a descriptor that [from_dict] returns has passed all of the validation
    and, given a configuration, uses an allowed strategy and framework; its
    hardware section has the GPU count of its instance type and a resolved
    process count (the GPUs for the keyword gpus, the parsed number
    otherwise).  It never raises a [ValueError]. *)
Theorem from_dict_validates cron_is_valid dacite contents config :
  dacite_constructs dacite ->
  (forall d, from_dict cron_is_valid dacite contents config = Ok d ->
     valid_descriptor cron_is_valid d /\ processes_resolved (hardware d) /\
     forall cfg, config = Some cfg ->
       strategy_value (bh_strategy (hardware d)) ∈ valid_strategies cfg /\
       exists m, ml d = Some m /\ framework_value (ml_framework m) ∈ valid_frameworks cfg) /\
  (forall msg, from_dict cron_is_valid dacite contents config <> Raise (ValueError msg)).
Proof.
  intros Hdacite. split; [intros d; by apply from_dict_accepts|].
  intros msg. unfold from_dict. by destruct (res_bind _ _) as [d|[]].
Qed.

Module Witness.
(** A converter for dictionaries with the keys instance_type and processes. *)
Definition str_field (contents : list (string * pyval)) (k : string) : Res string :=
  match dict_get contents k with
  | Some (VStr s) => Ok s
  | _ => Raise (DaciteError ("missing value for field " +:+ k))
  end.

Definition dacite0 (args : DaciteArgs) (contents : list (string * pyval)) : Res BenchmarkDescriptor :=
  it <~ str_field contents "instance_type" ;;
  n <~ str_field contents "processes" ;;
  hw <~ new_bench_hardware args it None None HOROVOD (Some (mkDistributed 2 n)) ;;
  new_descriptor args
    (mkDescriptor "0.1.0" (mkInfo "d" None (Some EE_DEFAULT) (Some "single_run") (Some [("team", "a-1")]))
       hw (mkEnvDesc "img" false true []) None
       (Some (mkML TENSORFLOW None None (Some "1.12") (Some (mkMLScript "x.tar")))) None None None).

Lemma dacite0_constructs : dacite_constructs dacite0.
Proof.
  intros args contents d. unfold dacite0, res_bind.
  destruct (str_field contents "instance_type") as [it|]; [|done].
  destruct (str_field contents "processes") as [n|]; [|done].
  destruct (new_bench_hardware _ _ _ _ _ _) as [hw|] eqn:E; [|done].
  intros Hd. eexists (mkDescriptor _ _ hw _ _ _ _ _ _). by exists it, None, None, HOROVOD, (Some (mkDistributed 2 n)).
Qed.

Definition contents0 : list (string * pyval) :=
  [("instance_type", VStr "p3.8xlarge"); ("processes", VStr "gpus")].

Lemma from_dict_validates_witness :
  exists d, from_dict (fun _ => false) dacite0 contents0
              (Some (mkDescriptorConfig ["horovod"] ["tensorflow"])) = Ok d /\
    bh_processes_per_instance (hardware d) = Some 4 /\ valid_descriptor (fun _ => false) d.
Proof.
  destruct (from_dict_validates (fun _ => false) dacite0 contents0
              (Some (mkDescriptorConfig ["horovod"] ["tensorflow"])) dacite0_constructs) as [Hok _].
  destruct (from_dict _ _ _ _) as [d|e] eqn:E; [|vm_compute in E; discriminate].
  exists d. split; [done|]. split; [|by apply Hok].
  vm_compute in E. injection E as <-. reflexivity.
Defined.
End Witness.

(** A benchmark on a machine without GPUs cannot ask for one process per GPU,
    and the number of processes must be a number. *)
Example processes_rejected :
  BenchmarkHardwareDescriptor_init "t3.small" None None HOROVOD (Some (mkDistributed 2 "gpus")) =
    Raise (DescriptorError "Requesting per-gpu process assignment on instance without gpus") /\
  is_ok (BenchmarkHardwareDescriptor_init "p3.2xlarge" None None HOROVOD (Some (mkDistributed 2 "two"))) = false.
Proof. split; vm_compute; reflexivity. Qed.
