(* ===== verification/ServiceLabels.v ===== *)
(** * Service labels (bai_k8s_utils/service_labels.py)

    The labels that the services put on the Kubernetes objects they create, the
    label selectors they find them with, and what a selector means. *)

From S2P Require Import Prelude PyStr.

Definition ACTION_ID_LABEL : string := "action-id".
Definition PARENT_ACTION_ID_LABEL : string := "parent-action-id".
Definition CLIENT_ID_LABEL : string := "client-id".
Definition CREATED_BY_LABEL : string := "created-by".

Definition get_labels (service_name client_id action_id : string) : dict string string :=
  [(ACTION_ID_LABEL, action_id); (CLIENT_ID_LABEL, client_id); (CREATED_BY_LABEL, service_name)].

Definition get_labels_as_parent (service_name client_id action_id : string) : dict string string :=
  [(PARENT_ACTION_ID_LABEL, action_id); (CLIENT_ID_LABEL, client_id); (CREATED_BY_LABEL, service_name)].

Definition label (key value : string) : string := key +:+ "=" +:+ value.

Definition build_label_selector (service_name client_id : string) (additional_labels : dict string string) : string :=
  join "," ([label CREATED_BY_LABEL service_name; label CLIENT_ID_LABEL client_id]
              ++ map (fun kv => label kv.1 kv.2) additional_labels)%list.

Definition get_label_selector (service_name client_id : string) (action_id : option string) : string :=
  build_label_selector service_name client_id
    (if str_truthy action_id then [(ACTION_ID_LABEL, default "" action_id)] else []).

Definition get_label_selector_as_parent (service_name client_id action_id : string) : string :=
  build_label_selector service_name client_id [(PARENT_ACTION_ID_LABEL, action_id)].

(** ** The meaning of a selector

    What the Kubernetes documentation says of equality-based selectors: the
    requirements are separated by commas, and an object matches when it has
    every required label with the required value. *)

Definition parse_requirement (s : string) : string * string :=
  match split_once "=" s with Some (k, v) => (k, v) | None => (s, "") end.

Definition parse_selector (sel : string) : list (string * string) := map parse_requirement (split_char "," sel).

Definition matches_selector (sel : string) (labels : dict string string) : bool :=
  forallb (fun '(k, v) => bool_decide (dict_get labels k = Some v)) (parse_selector sel).

(** A label value holds no separator; the ids of clients and actions and the
    names of services are such values. *)
Definition label_value (s : string) : bool := no_char "," s.

#[local] Arguments String.append !_ _ /.

Lemma parse_label k v : no_char "=" k = true -> parse_requirement (label k v) = (k, v).
Proof.
  intros Hk. unfold parse_requirement, label. change ("=" +:+ v) with (String "=" v).
  by rewrite split_once_app.
Qed.

Lemma parse_build svc client extra :
  label_value svc = true -> label_value client = true ->
  Forall (fun kv => no_char "=" kv.1 = true /\ no_char "," kv.1 = true /\ label_value kv.2 = true) extra ->
  parse_selector (build_label_selector svc client extra) =
  (CREATED_BY_LABEL, svc) :: (CLIENT_ID_LABEL, client) :: extra.
Proof.
  intros Hsvc Hcl Hex. unfold label_value in *. unfold parse_selector, build_label_selector. rewrite split_join.
  - rewrite map_app, map_map. cbn [app map]. rewrite !parse_label by done. do 2 f_equal.
    induction Hex as [|[k v] extra (Hk & _ & _) Hex IH]; [done|]. cbn [map fst snd].
    by rewrite parse_label, IH.
  - done.
  - cbn [app]. repeat (apply Forall_cons; split).
    + unfold label. by rewrite !no_char_app, Hsvc.
    + unfold label. by rewrite !no_char_app, Hcl.
    + apply Forall_map. eapply Forall_impl; [exact Hex|]. intros [k v] (_ & Hk & Hv). unfold label. simpl in *.
      change (no_char "," (k +:+ String "=" v) = true). rewrite no_char_app, Hk. simpl. unfold no_char in *.
      simpl. by rewrite Hv.
Qed.

Lemma matches_action svc client action labels :
  label_value svc = true -> label_value client = true -> label_value action = true -> action <> "" ->
  matches_selector (get_label_selector svc client (Some action)) labels =
  bool_decide (dict_get labels CREATED_BY_LABEL = Some svc /\ dict_get labels CLIENT_ID_LABEL = Some client /\
               dict_get labels ACTION_ID_LABEL = Some action).
Proof.
  intros Hs Hc Ha Hne. unfold matches_selector, get_label_selector. simpl.
  apply String.eqb_neq in Hne. rewrite Hne. cbn [negb]. rewrite parse_build; [|done..|by repeat constructor].
  simpl. rewrite andb_true_r. repeat case_bool_decide; naive_solver.
Qed.

Lemma matches_parent svc client action labels :
  label_value svc = true -> label_value client = true -> label_value action = true ->
  matches_selector (get_label_selector_as_parent svc client action) labels =
  bool_decide (dict_get labels CREATED_BY_LABEL = Some svc /\ dict_get labels CLIENT_ID_LABEL = Some client /\
               dict_get labels PARENT_ACTION_ID_LABEL = Some action).
Proof.
  intros Hs Hc Ha. unfold matches_selector, get_label_selector_as_parent.
  rewrite parse_build; [|done..|by repeat constructor].
  simpl. rewrite andb_true_r. repeat case_bool_decide; naive_solver.
Qed.

(** Labels and selectors fit.  For ids without commas, the selector of an
    action matches the labels that the same service puts on the objects of an
    action if and only if client and action are the same; and it never matches
    the labels of an object that only has the action as its parent. *)
Theorem selector_matches_labels svc client action client' action'
    (Hsvc : label_value svc = true) (Hcl : label_value client = true) (Hact : label_value action = true)
    (Hne : action <> "") :
  matches_selector (get_label_selector svc client (Some action)) (get_labels svc client' action') =
    bool_decide (client = client' /\ action = action') /\
  matches_selector (get_label_selector svc client (Some action)) (get_labels_as_parent svc client' action') = false /\
  matches_selector (get_label_selector_as_parent svc client action) (get_labels_as_parent svc client' action') =
    bool_decide (client = client' /\ action = action').
Proof.
  rewrite !matches_action, matches_parent by done. cbn.
  split_and!; repeat case_bool_decide; naive_solver.
Qed.

Module Witness.
Lemma selector_matches_labels_witness :
  get_label_selector "fetcher" "joe" (Some "a=1") = "created-by=fetcher,client-id=joe,action-id=a=1" /\
  matches_selector (get_label_selector "fetcher" "joe" (Some "a=1")) (get_labels "fetcher" "joe" "a=1") = true.
Proof.
  split; [vm_compute; reflexivity|].
  destruct (selector_matches_labels "fetcher" "joe" "a=1" "joe" "a=1") as [-> _]; [reflexivity..|discriminate|].
  reflexivity.
Defined.
End Witness.
