(* ===== verification/K8sTestClient.v ===== *)
(** * Waiting for Kubernetes objects (bai_k8s_utils/kubernetes_tests_client.py)

    The client with which the services' integration tests look for the objects
    of an action, and its waits with a timeout. *)

From S2P Require Import Prelude PyStr ServiceLabels.

#[local] Arguments String.append !_ _ /.

(** What the client reads of an object: its name, its labels, and the phase of a
    pod. *)
Record Object := mkObject { obj_name : string; obj_labels : dict string string; obj_phase : string }.

(** The items of the five lists by namespace and label selector, and [sleep(1)]. *)
Class TestApi (X : Type) : Type := {
  list_namespaced_pod : string -> string -> M X (list Object);
  list_namespaced_job : string -> string -> M X (list Object);
  list_namespaced_cron_job : string -> string -> M X (list Object);
  list_namespaced_service : string -> string -> M X (list Object);
  list_namespaced_persistent_volume_claim : string -> string -> M X (list Object);
  sleep_a_second : M X unit
}.

Definition TimedOut : exn := OtherException "TimeoutError" "'Timed Out'".

Section Client.
Context `{TestApi X} (service : string).

Definition K8SBaiPredicate : Type := string -> string -> string -> M X bool.

Definition negate (f : K8SBaiPredicate) : K8SBaiPredicate :=
  fun namespace client_id action_id => b <- f namespace client_id action_id ;; ret (negb b).

(** A list of the objects of an action. *)
Definition selected (list_namespaced : string -> string -> M X (list Object)) (namespace client_id action_id : string)
    : M X (list Object) :=
  list_namespaced namespace (get_label_selector service client_id (Some action_id)).

(** [bool(objects.items)]. *)
Definition some_selected (list_namespaced : string -> string -> M X (list Object)) : K8SBaiPredicate :=
  fun namespace client_id action_id =>
    items <- selected list_namespaced namespace client_id action_id ;;
    ret (match items with [] => false | _ => true end).

Definition get_pods : string -> string -> string -> M X (list Object) := selected list_namespaced_pod.

Definition is_pod_present : K8SBaiPredicate := some_selected list_namespaced_pod.
Definition is_job_present : K8SBaiPredicate := some_selected list_namespaced_job.
Definition is_cron_job_present : K8SBaiPredicate := some_selected list_namespaced_cron_job.
Definition if_service_present : K8SBaiPredicate := some_selected list_namespaced_service.
Definition is_volume_claim_present : K8SBaiPredicate := some_selected list_namespaced_persistent_volume_claim.

Definition is_pod_succeeded : K8SBaiPredicate := fun namespace client_id action_id =>
  pods <- get_pods namespace client_id action_id ;;
  match pods with
  | [] => ret false
  | [pod] => ret (String.eqb (obj_phase pod) "Succeeded")
  | _ => raise (ValueError "Multiple pods found, but one expected")
  end.

Definition is_inference_jobs_present : K8SBaiPredicate := fun namespace client_id action_id =>
  job_list <- selected list_namespaced_job namespace client_id action_id ;;
  ret (length job_list =? 2)%nat.

Definition is_inference_benchmark_client_succeeded : K8SBaiPredicate := fun namespace client_id action_id =>
  pods <- get_pods namespace client_id action_id ;;
  match List.filter (fun pod => startswith (lower ("b-" +:+ action_id)) (obj_name pod)) pods with
  | [] => raise (ValueError "Inference benchmark client pod not found")
  | client_pod :: _ => ret (String.eqb (obj_phase client_pod) "Succeeded")
  end.

(** The loop of [_wait_loop]; the alarm of [timeout] comes after a number of its
    turns, which are at least a second long. *)
Fixpoint wait_turns (turns : nat) (predicate : M X bool) : M X unit :=
  match turns with
  | O => raise TimedOut
  | S turns' =>
      b <- predicate ;;
      if (b : bool) then sleep_a_second ;; wait_turns turns' predicate else ret tt
  end.

Definition wait_loop (turns : nat) (predicate : K8SBaiPredicate) (namespace client_id action_id : string) : M X unit :=
  wait_turns turns (predicate namespace client_id action_id).

Definition DEFAULT_TIMEOUT_SECONDS : nat := 300.

Definition wait_for_service_exists := wait_loop DEFAULT_TIMEOUT_SECONDS (negate if_service_present).
Definition wait_for_service_not_exists := wait_loop DEFAULT_TIMEOUT_SECONDS if_service_present.
Definition wait_for_volume_claim_exists := wait_loop DEFAULT_TIMEOUT_SECONDS (negate is_volume_claim_present).
Definition wait_for_volume_claim_not_exists := wait_loop DEFAULT_TIMEOUT_SECONDS is_volume_claim_present.
Definition wait_for_pod_exists := wait_loop DEFAULT_TIMEOUT_SECONDS (negate is_pod_present).
Definition wait_for_pod_succeeded := wait_loop DEFAULT_TIMEOUT_SECONDS (negate is_pod_succeeded).
Definition wait_for_pod_not_exists := wait_loop DEFAULT_TIMEOUT_SECONDS is_pod_present.
Definition wait_for_job_exists := wait_loop DEFAULT_TIMEOUT_SECONDS (negate is_job_present).
Definition wait_for_job_not_exists := wait_loop DEFAULT_TIMEOUT_SECONDS is_job_present.
Definition wait_for_cron_job_exists := wait_loop DEFAULT_TIMEOUT_SECONDS (negate is_cron_job_present).
Definition wait_for_cron_job_not_exists := wait_loop DEFAULT_TIMEOUT_SECONDS is_cron_job_present.
Definition wait_for_inference_jobs_exists := wait_loop DEFAULT_TIMEOUT_SECONDS (negate is_inference_jobs_present).
Definition wait_for_inference_benchmark_client_succeeded :=
  wait_loop DEFAULT_TIMEOUT_SECONDS (negate is_inference_benchmark_client_succeeded).
End Client.

(** ** What is waited for *)

Inductive Kind : Set := POD | JOB | CRON_JOB | SERVICE | VOLUME_CLAIM.

Definition list_of `{TestApi X} (k : Kind) : string -> string -> M X (list Object) :=
  match k with
  | POD => list_namespaced_pod
  | JOB => list_namespaced_job
  | CRON_JOB => list_namespaced_cron_job
  | SERVICE => list_namespaced_service
  | VOLUME_CLAIM => list_namespaced_persistent_volume_claim
  end.

(** What Kubernetes documents: a list holds the objects that the selector matches,
    and asking changes nothing; the rest of the world moves while the client
    sleeps. *)
Class TestCluster `{TestApi X} : Type := {
  objects : Kind -> string -> X -> list Object;
  later : X -> X;
  list_law : forall k ns sel x,
    list_of k ns sel x = (Ok (List.filter (fun o => matches_selector sel (obj_labels o)) (objects k ns x)), x);
  sleep_law : forall x, sleep_a_second x = (Ok tt, later x)
}.

Section Waiting.
Context `{TestCluster X} (service client action : string).
Context (Hservice : label_value service = true) (Hclient : label_value client = true).
Context (Haction : label_value action = true) (Hnonempty : action <> "").

(** The labels that the service gives to the objects of the action. *)
Definition owned (o : Object) : bool :=
  bool_decide (dict_get (obj_labels o) CREATED_BY_LABEL = Some service /\
               dict_get (obj_labels o) CLIENT_ID_LABEL = Some client /\ dict_get (obj_labels o) ACTION_ID_LABEL = Some action).

Lemma selected_run k ns x : selected service (list_of k) ns client action x = (Ok (List.filter owned (objects k ns x)), x).
Proof using All.
  unfold selected. rewrite list_law. do 2 f_equal. apply list_filter_ext. intros o _. by apply matches_action.
Qed.

(** An object of the action is there exactly when one with its labels is. *)
Lemma some_selected_run k ns x : some_selected service (list_of k) ns client action x = (Ok (existsb owned (objects k ns x)), x).
Proof using All.
  unfold some_selected, bind. rewrite selected_run. unfold ret. do 2 f_equal.
  induction (objects k ns x) as [|o l IH]; [done|]. cbn. by destruct (owned o).
Qed.

(** The loop returns at the first second at which the predicate is false; an
    alarm before it is an exception. *)
Lemma wait_turns_run (p : M X bool) (f : X -> bool) turns x :
  (forall y, p y = (Ok (f y), y)) ->
  (exists n, (n < turns)%nat /\ f (Nat.iter n later x) = false /\ (forall i, (i < n)%nat -> f (Nat.iter i later x) = true) /\
    wait_turns turns p x = (Ok tt, Nat.iter n later x)) \/
  ((forall i, (i < turns)%nat -> f (Nat.iter i later x) = true) /\ wait_turns turns p x = (Raise TimedOut, Nat.iter turns later x)).
Proof.
  intros Hp. revert x. induction turns as [|turns IH]; intros x; [right; split; [lia|done]|].
  assert (Hstep : wait_turns (S turns) p x = if f x then wait_turns turns p (later x) else (Ok tt, x)).
  { cbn [wait_turns]. unfold bind at 1. rewrite Hp. destruct (f x); [|done]. unfold bind. by rewrite sleep_law. }
  rewrite Hstep. destruct (f x) eqn:E.
  - destruct (IH (later x)) as [(n & Hn & Hf & Hall & Hw)|[Hall Hw]]; rewrite Hw.
    + left. exists (S n). rewrite Nat.iter_succ_r. split_and!; [lia|done| |done].
      intros [|i] Hi; [done|]. rewrite Nat.iter_succ_r. apply Hall. lia.
    + right. split; [|by rewrite Nat.iter_succ_r]. intros [|i] Hi; [done|]. rewrite Nat.iter_succ_r. apply Hall. lia.
  - left. exists 0%nat. split_and!; [lia|done|intros i Hi; lia|done].
Qed.

(** What the service makes within the time is found. *)
Lemma created_object_found k ns n x o :
  (n < DEFAULT_TIMEOUT_SECONDS)%nat -> o ∈ objects k ns (Nat.iter n later x) -> obj_labels o = get_labels service client action ->
  exists m, (m <= n)%nat /\
    wait_loop DEFAULT_TIMEOUT_SECONDS (negate (some_selected service (list_of k))) ns client action x = (Ok tt, Nat.iter m later x).
Proof using All.
  intros Hn Ho Hl.
  assert (Hf : existsb owned (objects k ns (Nat.iter n later x)) = true).
  { apply existsb_exists. exists o. split; [by apply list_elem_of_In|]. unfold owned. rewrite Hl. by apply bool_decide_true. }
  unfold wait_loop. destruct (wait_turns_run (negate (some_selected service (list_of k)) ns client action)
    (fun y => negb (existsb owned (objects k ns y))) DEFAULT_TIMEOUT_SECONDS x) as [(m & Hm & _ & Hall & Hw)|[Hall _]].
  - intros y. unfold negate, bind. by rewrite some_selected_run.
  - exists m. split; [|done]. destruct (decide (m <= n)%nat) as [|Hmn]; [done|]. specialize (Hall n). rewrite Hf in Hall. lia.
  - specialize (Hall n Hn). by rewrite Hf in Hall.
Qed.
End Waiting.
