(* ===== verification/Executor.v ===== *)
(** * The executor service (bai_kafka_utils/executors/execution_callback.py,
    execution_cmd_object.py, executor_service.py, executor/executor.py)

    The two handlers of benchmark submissions, the cancel command, and the
    service that registers them.  They talk to the execution engines through
    the interface [ExecutionEngine]; the engines themselves are in the files
    that require this one. *)

From S2P Require Import Prelude PyStr Events KafkaService CmdCallback Descriptor.

(** ** The interface of an engine

    [run] and [cancel] of the abstract class, on the engine's own state [X].
    The only exceptions an engine promises are [ExecutionEngineException] and
    its subclass [NoResourcesFoundException]; others escape the handlers. *)
Record ExecutionEngine (X : Type) := mkEngine {
  engine_run : Event -> M X BenchmarkJob;
  engine_cancel : string -> string -> bool -> M X pyval
}.
Arguments mkEngine {X}.
Arguments engine_run {X}.
Arguments engine_cancel {X}.

Definition DEFAULT_ENGINE : string := "default".

(** ** Reading the submission *)

(** [event.payload.toml.contents.get("info", {}).get(key, dflt)]. *)
Definition event_info (event : Event) (key : string) (dflt : pyval) : Res pyval :=
  toml <~ payload_toml (payload event) ;;
  info_get (doc_contents toml) key dflt.

Definition is_single_run (event : Event) : Res bool :=
  scheduling <~ event_info event "scheduling" (VStr SINGLE_RUN_SCHEDULING) ;;
  Ok (match scheduling with VStr s => String.eqb s SINGLE_RUN_SCHEDULING | _ => false end).

Definition get_engine_id (event : Event) : Res pyval :=
  event_info event "execution_engine" (VStr DEFAULT_ENGINE).

(** [self.execution_engines.get(engine_id)]; engines are told apart by their
    identity, a number, as several names may share one. *)
Definition lookup_engine (engines : dict string nat) (engine_id : pyval) : Res (option nat) :=
  match engine_id with
  | VStr s => Ok (dict_get engines s)
  | VList _ | VDict _ => Raise (TypeError "unhashable type")
  | _ => Ok None
  end.

(** The [datasets], [models] and [scripts] of a payload. *)
Definition as_fetcher_payload (p : Payload) : Res FetcherPayload :=
  match p with
  | PFetcher f => Ok f
  | PExecutor e => Ok (mkFetcherPayload (ep_toml e) (ep_datasets e) (ep_models e) (ep_scripts e))
  | _ => Raise (AttributeError "payload has no attribute 'datasets'")
  end.

Section Handlers.
Context `{Env} {X : Type} (engine_of : nat -> ExecutionEngine X).

(** The common shape of both handlers: announce, let the engine work, and turn
    its exceptions into an ERROR status. *)
Definition guarded_submit (event : Event) (announce : string) (work : M X BenchmarkJob)
    : M (Svc X) BenchmarkJob :=
  try_except
    (ks_send_status event PENDING announce None ;; on_ext work)
    (fun e => if is_ExecutionEngineException e then
                ks_send_status event ERROR (str_of_exn e) None ;;
                raise (KafkaServiceCallbackException "")
              else raise e).

(** [ExecutorEventHandler.handle_event]. *)
Definition executor_handle_event (engines : dict string nat) (producer_topic : string) (event : Event)
    : M (Svc X) unit :=
  single <- lift (is_single_run event) ;;
  if negb single then ret tt
  else
    engine_id <- lift (get_engine_id event) ;;
    engine <- lift (lookup_engine engines engine_id) ;;
    match engine with
    | None => ret tt
    | Some eng =>
        job <- guarded_submit event "Processing benchmark submission request..."
                 (engine_run (engine_of eng) event) ;;
        fetcher_payload <- lift (as_fetcher_payload (payload event)) ;;
        response_event <-
          lift (create_from_object ExecutorBenchmarkEvent event
                  (PExecutor (create_from_fetcher_payload fetcher_payload job)) None) ;;
        ks_send_status response_event SUCCEEDED "Benchmark successfully created..." None ;;
        ks_send_event response_event producer_topic
    end.

(** [ScheduledBenchmarkExecutorEventHandler.handle_event]; [schedule] is the
    Kubernetes engine's. *)
Definition scheduled_handle_event (schedule : Event -> M X BenchmarkJob) (event : Event) : M (Svc X) unit :=
  single <- lift (is_single_run event) ;;
  if (single : bool) then ret tt
  else
    job <- guarded_submit event "Processing scheduled benchmark submission request..." (schedule event) ;;
    ks_send_status event SUCCEEDED
      ("Scheduled benchmark successfully submitted with job id " +:+ job_id job) None.

(** [ExecutorCommandObject.cancel].  The loop body ends in [return] or
    [raise], so only the first engine of the set is asked. *)
Context `{SetOrder}.

Definition cancel_with (eng : nat) (event : Event) (client_id target_action_id : string) (cascade : bool)
    : M (Svc X) pyval :=
  result <- try_except (on_ext (engine_cancel (engine_of eng) client_id target_action_id cascade))
    (fun err =>
       if is_ExecutionEngineException err then
         (match err with
          | NoResourcesFoundException _ => ret tt
          | _ => ks_send_status event FAILED
                   ("An error occurred when attempting to delete resources related to " +:+ target_action_id
                      +:+ ". Please check the status of the deletion command (" +:+ action_id event
                      +:+ " for additional information.") (Some target_action_id)
          end) ;; raise err
       else raise err) ;;
  ks_send_status event SUCCEEDED "Execution successfully cancelled..." (Some target_action_id) ;;
  ret result.

Definition executor_cancel (engines : dict string nat) (event : Event)
    (client_id target_action_id : string) (cascade : bool) : M (Svc X) pyval :=
  match set_iter (dict_values engines) with
  | [] => ret VNone
  | eng :: _ => cancel_with eng event client_id target_action_id cascade
  end.
End Handlers.

(** ** The service *)

(** The topics of [KafkaServiceConfig] that the executor uses. *)
Record ExecutorTopics := mkTopics {
  consumer_topic : string;
  producer_topic : string;
  cmd_submit_topic : string;
  cmd_return_topic : string;
  status_topic : option string
}.

Definition EXEC_HANDLER : nat := 0.
Definition CMD_CALLBACK : nat := 1.
Definition SCHEDULED_HANDLER : nat := 2.

Section Service.
Context `{Env} `{SetOrder} {X : Type} (engine_of : nat -> ExecutionEngine X).
Context (bind_error_text : BindError -> string) (cfg : ExecutorTopics).

(** [ExecutorCommandObject]: its attribute and its method. *)
Definition cancel_body (engines : dict string nat) (bound : dict string Arg) : M (Svc X) pyval :=
  match dict_get bound "event", dict_get bound "client_id", dict_get bound "target_action_id" with
  | Some (AEvent event), Some (AVal client_id), Some (AVal target) =>
      executor_cancel engine_of engines event (str_of_pyval client_id) (str_of_pyval target)
        (match dict_get bound "cascade" with Some (AVal v) => truthy v | _ => false end)
  | _, _, _ => raise (TypeError "")
  end.

Definition executor_cmd_object (engines : dict string nat) : dict string (Attr X) :=
  [("execution_engines", Uncallable VNone);
   ("cancel", Callable (mkMethod
      [mkParam "kafka_service" false; mkParam "event" false; mkParam "client_id" false;
       mkParam "target_action_id" false; mkParam "cascade" true]
      (cancel_body engines)))].

(** [_create_callbacks]: a dictionary display with two keys. *)
Definition create_callbacks : dict string (list nat) :=
  dict_update [] [(consumer_topic cfg, [EXEC_HANDLER]); (cmd_submit_topic cfg, [CMD_CALLBACK])].

(** The callback objects of the executor, by identity. *)
Definition executor_cbs (engines : dict string nat) (schedule : Event -> M X BenchmarkJob) (c : nat)
    : Callback X :=
  if (c =? EXEC_HANDLER)%nat then
    mkCallback (executor_handle_event engine_of engines (producer_topic cfg)) (ret tt)
  else if (c =? CMD_CALLBACK)%nat then
    mkCallback (cmd_handle_event (executor_cmd_object engines) (cmd_return_topic cfg) bind_error_text)
      (cmd_cleanup None)
  else mkCallback (scheduled_handle_event schedule) (ret tt).

(** [create_executor_service], then [add_callback] of [create_executor]. *)
Definition create_executor_service (name version pod_name : string) (b : Bus) (x : X) : Svc X :=
  KafkaService_init name version create_callbacks pod_name (status_topic cfg) b x.

Definition create_executor (version pod_name : string) (b : Bus) (x : X) : Res unit * Svc X :=
  add_callback SCHEDULED_HANDLER (consumer_topic cfg)
    (create_executor_service "executor" version pod_name b x).
End Service.

(** The two names of the Kubernetes engine. *)
Definition executor_engines (k8s_engine : nat) : dict string nat :=
  [(DEFAULT_ENGINE, k8s_engine); ("kubernetes", k8s_engine)].

(** ** Lemmas *)

Section Lemmas.
Context `{Env} {X : Type}.

(** What [guarded_submit] does, by the outcome of the engine. *)
Lemma guarded_submit_run ev announce (work : M X BenchmarkJob) t s :
  has_status_topic s t ->
  exists b,
    sends b = (sends (svc_bus s) ++ (t, action_id ev, PStatus announce PENDING (Some ev)) ::
               match (work (svc_ext s)).1 with
               | Raise e => if is_ExecutionEngineException e
                            then [(t, action_id ev, PStatus (str_of_exn e) ERROR (Some ev))] else []
               | Ok _ => []
               end)%list /\
    guarded_submit ev announce work s =
    (match (work (svc_ext s)).1 with
     | Ok job => Ok job
     | Raise e => Raise (if is_ExecutionEngineException e then KafkaServiceCallbackException "" else e)
     end, set_bus b (set_ext (work (svc_ext s)).2 s)).
Proof.
  intros Ht. unfold guarded_submit, try_except, bind, on_ext.
  destruct (ks_send_status_view ev PENDING announce None t s Ht) as (b & -> & Hb).
  cbn [svc_ext set_bus]. destruct (work (svc_ext s)) as [[job|e] x]; cbn [fst snd].
  - exists b. split; [done|reflexivity].
  - destruct (is_ExecutionEngineException e); [|by exists b].
    match goal with |- context [ks_send_status _ _ _ _ ?s'] =>
      destruct (ks_send_status_view ev ERROR (str_of_exn e) None t s' Ht) as (b' & -> & Hb') end.
    exists b'. split; [|reflexivity]. rewrite Hb'. cbn [svc_bus set_ext set_bus].
    by rewrite Hb, <- app_assoc.
Qed.

Context `{SetOrder} (engine_of : nat -> ExecutionEngine X).
Context (bind_error_text : BindError -> string) (cfg : ExecutorTopics).

Lemma cancel_body_keeps engines bound : keeps (cancel_body engine_of engines bound).
Proof. unfold cancel_body, executor_cancel, cancel_with. solve_keeps. Qed.

Lemma executor_keeps engines schedule :
  keeps_callbacks (executor_cbs engine_of bind_error_text cfg engines schedule).
Proof.
  intros c ev. change (keeps (cb_handle_event
    (executor_cbs engine_of bind_error_text cfg engines schedule c) ev)).
  unfold executor_cbs. case_match; [|case_match]; cbn [cb_handle_event].
  - unfold executor_handle_event, guarded_submit. solve_keeps.
  - apply cmd_handle_event_keeps. intros name m Hm bound. cbn [executor_cmd_object dict_get] in Hm.
    repeat case_decide; simplify_eq. apply cancel_body_keeps.
  - unfold scheduled_handle_event, guarded_submit. solve_keeps.
Qed.
End Lemmas.

(** ** Properties *)

Section Properties.
Context `{Env} {X : Type} (engine_of : nat -> ExecutionEngine X).

(** The response to a finished submission. *)
Definition response_payload (p : FetcherPayload) (job : BenchmarkJob) : Payload :=
  PExecutor (mkExecutorPayload (fp_toml p) (fp_datasets p) (fp_models p) (fp_scripts p) job).

(** C5: what the handler of single-run submissions sends, on every branch.  A
    scheduled submission or one for an engine this service does not have is
    left alone.  Otherwise the user first gets PENDING; when the engine
    succeeds, SUCCEEDED and then one event to the producer topic, which carries
    the submission and the job; when it raises an engine exception, ERROR with
    its text, and the handler raises the callback exception; any other
    exception leaves the handler as it is, after the PENDING. *)
Theorem executor_handle_event_spec engines topic ev p engine_id t s
    (Hp : payload ev = PFetcher p) (Hid : get_engine_id ev = Ok (VStr engine_id))
    (Ht : has_status_topic s t) :
  match is_single_run ev, dict_get engines engine_id with
  | Ok true, Some eng =>
      let (r, x) := engine_run (engine_of eng) ev (svc_ext s) in
      exists b result,
        executor_handle_event engine_of engines topic ev s = (result, set_bus b (set_ext x s)) /\
        let pending := (t, action_id ev, PStatus "Processing benchmark submission request..." PENDING (Some ev)) in
        match r with
        | Ok job =>
            result = Ok tt /\ exists msg src,
            sends b = (sends (svc_bus s) ++
              [pending; (t, action_id ev, PStatus msg SUCCEEDED (Some src));
               (topic, action_id ev, response_payload p job)])%list
        | Raise e =>
            if is_ExecutionEngineException e then
              result = Raise (KafkaServiceCallbackException "") /\
              sends b = (sends (svc_bus s) ++
                [pending; (t, action_id ev, PStatus (str_of_exn e) ERROR (Some ev))])%list
            else result = Raise e /\ sends b = (sends (svc_bus s) ++ [pending])%list
        end
  | Ok _, _ => executor_handle_event engine_of engines topic ev s = (Ok tt, s)
  | Raise e, _ => executor_handle_event engine_of engines topic ev s = (Raise e, s)
  end.
Proof.
  destruct (is_single_run ev) as [[]|e] eqn:Es.
  2-3: by unfold executor_handle_event, lift, bind; rewrite Es.
  destruct (dict_get engines engine_id) as [eng|] eqn:Ee;
    unfold executor_handle_event, lift, bind; rewrite Es, Hid; cbn [negb lookup_engine]; rewrite Ee; [|done].
  destruct (guarded_submit_run ev "Processing benchmark submission request..."
              (engine_run (engine_of eng) ev) t s Ht) as (b & Hb & ->).
  destruct (engine_run (engine_of eng) ev (svc_ext s)) as [[job|e] x]; cbn [fst snd] in *.
  - rewrite Hp. cbn [as_fetcher_payload create_from_object payload_matches].
    match goal with |- context [ks_send_status ?rev SUCCEEDED ?m None ?s'] =>
      destruct (ks_send_status_view rev SUCCEEDED m None t s' Ht) as (b1 & -> & Hb1) end.
    match goal with |- context [ks_send_event ?rev ?tp ?s'] =>
      destruct (ks_send_event_view rev tp s') as (b2 & -> & Hb2) end.
    exists b2, (Ok tt). split; [reflexivity|]. split; [done|]. do 2 eexists.
    rewrite Hb2. cbn [svc_bus set_bus set_ext]. rewrite Hb1. cbn [svc_bus set_bus set_ext].
    rewrite Hb, <- !app_assoc. reflexivity.
  - exists b. eexists. split; [reflexivity|]. rewrite Hb. by destruct (is_ExecutionEngineException e).
Qed.
End Properties.

Section Dispatch.
Context `{Env} `{SetOrder} {X : Type} (engine_of : nat -> ExecutionEngine X).

Lemma executor_ignores engines topic ev s :
  is_single_run ev = Ok false -> executor_handle_event engine_of engines topic ev s = (Ok tt, s).
Proof. intros Hs. unfold executor_handle_event, lift, bind. by rewrite Hs. Qed.

Lemma scheduled_ignores (schedule : Event -> M X BenchmarkJob) ev s :
  is_single_run ev = Ok true -> scheduled_handle_event schedule ev s = (Ok tt, s).
Proof. intros Hs. unfold scheduled_handle_event, lift, bind. by rewrite Hs. Qed.

(** A scheduled benchmark whose object is made: the statuses are sent, and the
    handler returns. *)
Lemma scheduled_run (schedule : Event -> M X BenchmarkJob) ev job x t s :
  is_single_run ev = Ok false -> has_status_topic s t -> schedule ev (svc_ext s) = (Ok job, x) ->
  exists b, scheduled_handle_event schedule ev s = (Ok tt, set_bus b (set_ext x s)).
Proof.
  intros Hsingle Ht Hrun. unfold scheduled_handle_event, bind, lift. rewrite Hsingle.
  destruct (guarded_submit_run ev "Processing scheduled benchmark submission request..." (schedule ev) t s Ht) as (b1 & _ & ->).
  rewrite Hrun. cbn [fst snd].
  match goal with |- context [ks_send_status ?rev ?st ?m ?tg ?s'] => destruct (ks_send_status_run rev st m tg s') as [b2 ->] end.
  exists b2. reflexivity.
Qed.

Context (bind_error_text : BindError -> string) (cfg : ExecutorTopics).

(** The service as [create_executor] leaves it. *)
Definition started (version pod : string) (b : Bus) (x : X) : Svc X :=
  KafkaService_init "executor" version
    [(consumer_topic cfg, [EXEC_HANDLER; SCHEDULED_HANDLER]); (cmd_submit_topic cfg, [CMD_CALLBACK])] pod (status_topic cfg) b x.

Lemma create_executor_run version pod b x :
  consumer_topic cfg <> cmd_submit_topic cfg -> create_executor cfg version pod b x = (Ok tt, started version pod b x).
Proof.
  intros Htopics. unfold create_executor, create_executor_service, KafkaService_init, create_callbacks, add_callback,
    bind, gets, modify. cbn [svc_running svc_callbacks].
  unfold dict_update. cbn [fold_left dict_set fst snd]. rewrite decide_False by done.
  cbn [dict_get]. rewrite decide_True by done. unfold started, KafkaService_init, set_callbacks.
  cbn [dict_set svc_bus svc_emitter svc_name svc_pod_name svc_running svc_ext svc_callbacks app]. by rewrite decide_True.
Qed.

(** Both handlers get a submission, and one of them acts. *)
Lemma submission_delivered engines schedule ev single s :
  dict_get (svc_callbacks s) (consumer_topic cfg) = Some [EXEC_HANDLER; SCHEDULED_HANDLER] -> is_single_run ev = Ok single ->
  fold_left (deliver (executor_cbs engine_of bind_error_text cfg engines schedule))
    (deliveries (svc_callbacks s) [(consumer_topic cfg, [Some ev])]) s =
  if single then (executor_handle_event engine_of engines (producer_topic cfg) ev s).2
  else (scheduled_handle_event schedule ev s).2.
Proof.
  intros Hcb Hsingle. replace (deliveries _ _) with [(EXEC_HANDLER, ev); (SCHEDULED_HANDLER, ev)].
  2: { unfold deliveries. cbn [map]. by rewrite Hcb. }
  cbn [fold_left]. unfold deliver, executor_cbs, EXEC_HANDLER, CMD_CALLBACK, SCHEDULED_HANDLER. cbn [fst snd Nat.eqb cb_handle_event].
  destruct single; [by rewrite (scheduled_ignores schedule)|by rewrite executor_ignores].
Qed.

(** C9: the executor service as [create_executor] builds it hands a submission
    to both of its handlers, and exactly one of them acts: the engine handler
    for a single run, the scheduling handler otherwise.  The other one leaves
    the service untouched, so no submission is run twice or dropped between
    the two. *)
Theorem submission_handled_by_one engines schedule version pod b x ev single
    (Htopics : consumer_topic cfg <> cmd_submit_topic cfg) (Hsingle : is_single_run ev = Ok single) :
  exists s0, create_executor cfg version pod b x = (Ok tt, s0) /\
    dict_get (svc_callbacks s0) (consumer_topic cfg) = Some [EXEC_HANDLER; SCHEDULED_HANDLER] /\
    process_records (executor_cbs engine_of bind_error_text cfg engines schedule)
      [(consumer_topic cfg, [Some ev])] s0 =
    (Ok tt, if single
            then (executor_handle_event engine_of engines (producer_topic cfg) ev s0).2
            else (scheduled_handle_event schedule ev s0).2).
Proof.
  assert (Hcb : dict_get (svc_callbacks (started version pod b x)) (consumer_topic cfg) = Some [EXEC_HANDLER; SCHEDULED_HANDLER]).
  { cbn. by rewrite decide_True. }
  exists (started version pod b x). split; [by apply create_executor_run|]. split; [exact Hcb|].
  rewrite process_records_run by apply executor_keeps. f_equal. by apply submission_delivered.
Qed.
End Dispatch.

Section Cancel.
Context `{Env} `{SetOrder} {X : Type} (engine_of : nat -> ExecutionEngine X).

Definition cancel_failed_message (event : Event) (target_action_id : string) : string :=
  "An error occurred when attempting to delete resources related to " +:+ target_action_id
    +:+ ". Please check the status of the deletion command (" +:+ action_id event
    +:+ " for additional information.".

(** The statuses that a cancellation sends under the target's action id. *)
Definition cancel_statuses (ev : Event) (target : string) (r : Res pyval) : list (string * Payload) :=
  match r with
  | Ok _ => [(target, PStatus "Execution successfully cancelled..." SUCCEEDED (Some ev))]
  | Raise (ExecutionEngineException _) =>
      [(target, PStatus (cancel_failed_message ev target) FAILED (Some ev))]
  | Raise _ => []
  end.

Lemma executor_cancel_run engines ev client target cascade t eng rest s :
  set_iter (dict_values engines) = eng :: rest -> has_status_topic s t -> target <> "" ->
  let (r, x) := engine_cancel (engine_of eng) client target cascade (svc_ext s) in
  exists b, executor_cancel engine_of engines ev client target cascade s = (r, set_bus b (set_ext x s)) /\
    sends b = (sends (svc_bus s) ++ map (fun '(a, p) => (t, a, p)) (cancel_statuses ev target r))%list.
Proof.
  intros Hset Ht Htarget. apply String.eqb_neq in Htarget.
  assert (Hst : str_truthy (Some target) = true) by (simpl; by rewrite Htarget).
  unfold executor_cancel. rewrite Hset. unfold cancel_with, try_except, bind, on_ext.
  destruct (engine_cancel (engine_of eng) client target cascade (svc_ext s)) as [[v|e] x].
  - match goal with |- context [ks_send_status ?ev' ?st ?m ?tg ?s'] =>
      destruct (ks_send_status_view ev' st m tg t s' Ht) as (b & -> & Hb) end.
    rewrite Hst in Hb. by exists b.
  - destruct e; cbn [is_ExecutionEngineException]; cbv beta iota;
      try (exists (svc_bus s); split; [by destruct s|by rewrite app_nil_r]).
    match goal with |- context [ks_send_status ?ev' ?st ?m ?tg ?s'] =>
      destruct (ks_send_status_view ev' st m tg t s' Ht) as (b & -> & Hb) end.
    rewrite Hst in Hb. by exists b.
Qed.

Context (bind_error_text : BindError -> string) (return_topic : string).

(** C34: a cancel command, end to end.  The command object's [cancel] is called
    with the client of the command event and the target of its arguments, the
    engine's state changes as its [cancel] says, and the user gets: under the
    target's action id SUCCEEDED when the engine succeeded, FAILED when it
    raised an engine exception and nothing when there were no resources; and
    then one response on the return topic, with code 0 on success and 1
    otherwise. *)
Theorem cancel_command_answered engines ev target t eng rest s
    (Hp : payload ev = PCommandRequest (mkCmdRequest "cancel" (DictArgs [("target_action_id", VStr target)])))
    (Hset : set_iter (dict_values engines) = eng :: rest)
    (Ht : has_status_topic s t) (Htarget : target <> "")
    (Hexn : forall x, match (engine_cancel (engine_of eng) (client_id ev) target false x).1 with
                      | Raise e => is_ExecutionEngineException e = true | Ok _ => True end) :
  let (r, x) := engine_cancel (engine_of eng) (client_id ev) target false (svc_ext s) in
  exists b,
    cmd_handle_event (executor_cmd_object engine_of engines) return_topic bind_error_text ev s =
      (Ok tt, set_bus b (set_ext x s)) /\
    sends b = (sends (svc_bus s) ++ map (fun '(a, p) => (t, a, p)) (cancel_statuses ev target r) ++
      [(return_topic, action_id ev,
        match r with
        | Ok v => PCommandResponse 0 "Cancel command processed successfully" ev v
        | Raise e => PCommandResponse 1 ("Cancel command failed: " +:+ str_of_exn e) ev VNone
        end)])%list.
Proof.
  specialize (Hexn (svc_ext s)).
  pose proof (executor_cancel_run engines ev (client_id ev) target false t eng rest s Hset Ht Htarget) as Hrun.
  unfold cmd_handle_event, run_command. rewrite Hp. cbn [crp_command crp_args].
  replace (dict_get (executor_cmd_object engine_of engines) "cancel") with
    (Some (Callable (mkMethod
      [mkParam "kafka_service" false; mkParam "event" false; mkParam "client_id" false;
       mkParam "target_action_id" false; mkParam "cascade" true]
      (cancel_body engine_of engines)))) by reflexivity.
  unfold try_except, bind.
  match goal with |- context [invoke ?be ?m ev ?args] =>
    change (invoke be m ev args) with (executor_cancel engine_of engines ev (client_id ev) target false) end.
  destruct (engine_cancel (engine_of eng) (client_id ev) target false (svc_ext s)) as [[v|e] x];
    destruct Hrun as (b & -> & Hb).
  - unfold lift, ret, create_from_object. cbn [payload_matches].
    match goal with |- context [ks_send_event ?rev ?tp ?s'] =>
      destruct (ks_send_event_view rev tp s') as (b2 & -> & Hb2) end.
    exists b2. split; [reflexivity|]. rewrite Hb2. cbn [svc_bus set_bus]. by rewrite Hb, <- app_assoc.
  - destruct e; try discriminate Hexn;
    unfold lift, ret, create_from_object; cbn [payload_matches];
    match goal with |- context [ks_send_event ?rev ?tp ?s'] =>
      destruct (ks_send_event_view rev tp s') as (b2 & -> & Hb2) end;
    (exists b2; split; [reflexivity|]; rewrite Hb2; cbn [svc_bus set_bus]; by rewrite Hb, <- app_assoc).
Qed.
End Cancel.

(** ** Witnesses *)

Module Witness.
(** An engine that keeps the list of its running benchmarks. *)
Definition engine0 : ExecutionEngine (list string) :=
  mkEngine
    (fun ev => modify (fun l => (l ++ [action_id ev])%list) ;; ret (mkJob ("b-" +:+ action_id ev) None []))
    (fun _ aid _ => l <- get ;;
       if bool_decide (aid ∈ l) then put (List.filter (fun a => negb (String.eqb a aid)) l) ;; ret (VStr aid)
       else raise (NoResourcesFoundException aid)).

Definition cfg0 : ExecutorTopics := mkTopics "FETCHER" "EXECUTOR" "CMD_SUBMIT" "CMD_RETURN" (Some "STATUS").

Definition submission (scheduling : string) : Event :=
  event0 (PFetcher (mkFetcherPayload
    (doc0 [("info", VDict [("scheduling", VStr scheduling)])]) [] [] [])).

Definition svc1 : Svc (list string) :=
  KafkaService_init "executor" "1" [] "pod" (Some "STATUS") (mkBus [] 0 0) ["old"].

Lemma svc1_status : has_status_topic svc1 "STATUS".
Proof. split; [discriminate|reflexivity]. Qed.

#[local] Existing Instance env0.
#[local] Existing Instance set_order_dups.

Lemma executor_handle_event_spec_witness :
  exists b, executor_handle_event (fun _ => engine0) (executor_engines 0) "EXECUTOR" (submission "single_run") svc1
    = (Ok tt, set_bus b (set_ext ["old"; "action"] svc1)) /\ length (sends b) = 3%nat.
Proof.
  pose proof (executor_handle_event_spec (fun _ => engine0) (executor_engines 0) "EXECUTOR"
    (submission "single_run") _ "default" "STATUS" svc1 eq_refl eq_refl svc1_status) as H.
  destruct H as (b & result & Hrun & -> & msg & src & Hs).
  exists b. split; [exact Hrun|]. by rewrite Hs.
Defined.

Lemma submission_handled_by_one_witness :
  exists s0, create_executor cfg0 "1" "pod" (mkBus [] 0 0) ["old"] = (Ok tt, s0) /\
    svc_ext (process_records (executor_cbs (fun _ => engine0) (fun _ => "") cfg0 (executor_engines 0)
                (engine_run engine0)) [("FETCHER", [Some (submission "0 * * * *")])] s0).2 = ["old"; "action"].
Proof.
  destruct (submission_handled_by_one (fun _ => engine0) (fun _ => "") cfg0 (executor_engines 0)
    (engine_run engine0) "1" "pod" (mkBus [] 0 0) ["old"] (submission "0 * * * *") false) as (s0 & Hc & _ & Hp).
  - discriminate.
  - reflexivity.
  - exists s0. split; [exact Hc|]. change "FETCHER" with (consumer_topic cfg0). rewrite Hp.
    injection Hc as <-. reflexivity.
Defined.

Lemma cancel_command_answered_witness :
  exists b, cmd_handle_event (executor_cmd_object (fun _ => engine0) (executor_engines 0)) "CMD_RETURN" (fun _ => "")
      (event0 (PCommandRequest (mkCmdRequest "cancel" (DictArgs [("target_action_id", VStr "old")])))) svc1
    = (Ok tt, set_bus b (set_ext [] svc1)) /\ length (sends b) = 2%nat.
Proof.
  pose proof (cancel_command_answered (fun _ => engine0) (fun _ => "") "CMD_RETURN" (executor_engines 0)
    (event0 (PCommandRequest (mkCmdRequest "cancel" (DictArgs [("target_action_id", VStr "old")]))))
    "old" "STATUS" 0%nat [] svc1 eq_refl eq_refl svc1_status) as H.
  destruct H as (b & Hrun & Hs).
  - discriminate.
  - intros x. cbn. unfold bind, get, put. by case_bool_decide.
  - exists b. split; [exact Hrun|]. by rewrite Hs.
Defined.
End Witness.
