(* ===== verification/CronJob.v ===== *)
(** * The cron job of scheduled benchmarks (anubis-cron-job/src/anubis_cron_job)

    Each tick of a scheduled benchmark runs this program: it reads the event of
    the scheduled benchmark from its configuration, makes from it the event of a
    single run and sends that to the executor, and a status message about the
    scheduled benchmark. *)

From S2P Require Import Prelude PyStr PyLib Json Events KafkaService Descriptor Executor.

#[local] Arguments String.append !_ _ /.

Definition SERVICE_NAME : string := "anubis-cron-job".
Definition VERSION : string := "1.0".

(** ** The configuration (config.py) *)

Record AnubisCronJobConfig `{PyFloat} := mkCronConfig {
  kafka_bootstrap_servers : list string;
  cron_producer_topic : string;
  cron_status_topic : string;
  benchmark_event : jval
}.

(** The four options, all required, given by argument or variable. *)
Record CronArgs := mkCronArgs {
  ca_bootstrap_servers : option string;
  ca_producer_topic : option string;
  ca_status_topic : option string;
  ca_benchmark_event : option string
}.

(** [get_config]; the parser ends the program with code 2 on a missing option
    and on a text that is no JSON. *)
Definition get_config `{PyFloat} (args : CronArgs) : AnubisCronJobConfig + Z :=
  match ca_bootstrap_servers args, ca_producer_topic args, ca_status_topic args, ca_benchmark_event args with
  | Some servers, Some producer, Some status, Some event =>
      match json_loads event with
      | Ok v => inl (mkCronConfig _ (split_char "," servers) producer status v)
      | Raise _ => inr 2
      end
  | _, _, _, _ => inr 2
  end.

(** ** The run of one benchmark (__main__.py) *)

Definition set_doc_contents (doc : BenchmarkDoc) (contents : list (string * pyval)) : BenchmarkDoc :=
  mkDoc contents (doc_doc doc) (doc_sha1 doc) (doc_descriptor_filename doc) (doc_verified doc).

(** The payload after a change to the contents of its [toml]. *)
Definition set_contents (p : Payload) (contents : list (string * pyval)) : Payload :=
  match p with
  | PFetcher f => PFetcher (mkFetcherPayload (set_doc_contents (fp_toml f) contents) (fp_datasets f) (fp_models f) (fp_scripts f))
  | PExecutor e =>
      PExecutor (mkExecutorPayload (set_doc_contents (ep_toml e) contents) (ep_datasets e) (ep_models e) (ep_scripts e) (ep_job e))
  | _ => p
  end.

Definition with_payload (e : Event) (p : Payload) : Event :=
  mkEvent (action_id e) (parent_action_id e) (message_id e) (client_id e) (client_version e)
    (client_username e) (authenticated e) (tstamp e) (visited e) (type e) p.

(** [dataclasses.replace(event, action_id=..., parent_action_id=...)]: the
    payload object is shared. *)
Definition with_ids (e : Event) (aid : string) (parent : option string) : Event :=
  mkEvent aid parent (message_id e) (client_id e) (client_version e)
    (client_username e) (authenticated e) (tstamp e) (visited e) (type e) (payload e).

(** [info["scheduling"] = SINGLE_RUN_SCHEDULING], on the object that [get]
    returned; an empty one counts as missing. *)
Definition schedule_once (contents : list (string * pyval)) : Res (list (string * pyval)) :=
  match dict_get contents "info" with
  | Some info =>
      if truthy info then
        match info with
        | VDict d => Ok (dict_set contents "info" (VDict (dict_set d "scheduling" (VStr SINGLE_RUN_SCHEDULING))))
        | _ => Raise (TypeError "object does not support item assignment")
        end
      else Raise (RuntimeError "Event does not contain valid benchmark descriptor: 'info' section is missing.")
  | None => Raise (RuntimeError "Event does not contain valid benchmark descriptor: 'info' section is missing.")
  end.

Section CronJob.
Context `{Env} `{PyFloat}.

(** [create_benchmark_event]: the new event, and the scheduled one, whose
    payload changed with it. *)
Definition create_benchmark_event (scheduled : Event) : M Bus (Event * Event) :=
  aid <- generate_uuid ;;
  doc <- lift (payload_toml (payload scheduled)) ;;
  contents <- lift (schedule_once (doc_contents doc)) ;;
  let shared := set_contents (payload scheduled) contents in
  ret (with_payload (with_ids scheduled aid (Some (action_id scheduled))) shared, with_payload scheduled shared).

Definition emitter (pod_name : string) (config : AnubisCronJobConfig) : EventEmitter :=
  mkEmitter SERVICE_NAME VERSION pod_name (Some (cron_status_topic config)).

(** [main] after the parser: [dacite.from_dict], and the outcome of connecting
    and of closing the producer, are given.  The result is the exit code. *)
Definition cron_main (from_dict : jval -> Res Event) (connect close : Res unit) (pod_name : string)
    (config : AnubisCronJobConfig) : M Bus Z :=
  try_except
    (scheduled <- lift (from_dict (benchmark_event config)) ;;
     '(benchmark, scheduled) <- create_benchmark_event scheduled ;;
     lift connect ;;
     send_event (emitter pod_name config) benchmark (cron_producer_topic config) ;;
     send_status_message_event (emitter pod_name config) scheduled SUCCEEDED
       ("Spawning benchmark with action_id: [" +:+ action_id benchmark +:+ "]") None ;;
     lift close ;;
     ret 0)
    (fun _ => ret 1).

Definition main (from_dict : jval -> Res Event) (connect close : Res unit) (pod_name : string) (args : CronArgs) : M Bus Z :=
  match get_config args with
  | inl config => cron_main from_dict connect close pod_name config
  | inr code => ret code
  end.

(** ** Lemmas *)

Lemma payload_toml_set p contents doc :
  payload_toml p = Ok doc -> payload_toml (set_contents p contents) = Ok (set_doc_contents doc contents).
Proof. destruct p; cbn; try done; by intros [= <-]. Qed.

(** A submission that is not a single run has a table with its schedule. *)
Lemma scheduled_info ev :
  is_single_run ev = Ok false ->
  exists doc d, payload_toml (payload ev) = Ok doc /\ dict_get (doc_contents doc) "info" = Some (VDict d) /\ d <> [].
Proof.
  unfold is_single_run, event_info, info_get. destruct (payload_toml (payload ev)) as [doc|]; [|done]. cbn.
  destruct (dict_get (doc_contents doc) "info") as [[]|] eqn:E; try done.
  intros Hd. exists doc, d. split_and!; [done|done|]. intros ->. done.
Qed.

(** Only the schedule changes in what the handlers read. *)
Lemma event_info_once ev doc contents d key dflt :
  payload_toml (payload ev) = Ok doc -> dict_get (doc_contents doc) "info" = Some (VDict d) -> d <> [] ->
  schedule_once (doc_contents doc) = Ok contents ->
  event_info (with_payload ev (set_contents (payload ev) contents)) key dflt =
  if decide ("scheduling" = key) then Ok (VStr SINGLE_RUN_SCHEDULING) else event_info ev key dflt.
Proof.
  intros Hp Hi Hd Hc. unfold event_info. cbn [with_payload payload]. rewrite Hp, (payload_toml_set _ _ _ Hp).
  cbn [res_bind]. unfold info_get, set_doc_contents. cbn [doc_contents].
  unfold schedule_once in Hc. rewrite Hi in *.
  replace (truthy (VDict d)) with true in Hc by (by destruct d). injection Hc as <-.
  rewrite dict_get_set_eq, dict_get_set. by case_decide.
Qed.

(** The cron job turns a scheduled benchmark into a single run: for an
    event that the scheduling handler of the executor would accept, it exits
    with 0 after exactly two sends, the run to the executor's topic and a
    SUCCEEDED status for the scheduled benchmark.  The run has a fresh action
    id, the scheduled benchmark as its parent, the same engine, and is for the
    engine handler alone: the scheduling handler ignores it, so a run never
    schedules further runs. *)
Theorem cron_spawns_single_run {X} (schedule : Event -> M X BenchmarkJob) from_dict pod config ev b
    (Hdict : from_dict (benchmark_event config) = Ok ev) (Hstatus : cron_status_topic config <> "")
    (Hsched : is_single_run ev = Ok false) :
  exists b' run status,
    cron_main from_dict (Ok tt) (Ok tt) pod config b = (Ok 0, b') /\
    bus_sent b' = (bus_sent b ++ [mkSent (cron_producer_topic config) (client_id ev) run;
                                  mkSent (cron_status_topic config) (client_id ev) status])%list /\
    action_id run = env_uuid (bus_uuid b) /\ parent_action_id run = Some (action_id ev) /\
    is_single_run run = Ok true /\ get_engine_id run = get_engine_id ev /\
    (forall s, scheduled_handle_event schedule run s = (Ok tt, s)) /\
    action_id status = action_id ev /\ (exists msg src, payload status = PStatus msg SUCCEEDED (Some src)) /\
    type run = cron_producer_topic config /\ exists contents, payload run = set_contents (payload ev) contents.
Proof.
  destruct (scheduled_info ev Hsched) as (doc & d & Hp & Hi & Hd).
  assert (Hc : exists contents, schedule_once (doc_contents doc) = Ok contents).
  { unfold schedule_once. rewrite Hi. destruct d as [|kv d]; [done|]. by eexists. }
  destruct Hc as [contents Hc].
  assert (Hst : str_truthy (Some (cron_status_topic config)) = true)
    by (cbn; by apply negb_true_iff, String.eqb_neq).
  assert (Hr : forall e, payload e = set_contents (payload ev) contents ->
            is_single_run e = Ok true /\ get_engine_id e = get_engine_id ev).
  { intros e He. unfold is_single_run, get_engine_id.
    assert (E : forall k v, event_info e k v = event_info (with_payload ev (set_contents (payload ev) contents)) k v)
      by (intros k v; unfold event_info; by rewrite He).
    rewrite !E, !(event_info_once ev doc contents d _ _ Hp Hi Hd Hc). done. }
  unfold cron_main, try_except, bind, lift. rewrite Hdict.
  unfold create_benchmark_event, bind, lift, generate_uuid. rewrite Hp, Hc.
  unfold ret. rewrite send_event_run, send_status_run. cbn [em_status_topic emitter]. rewrite Hst.
  rewrite send_event_run. cbn [with_payload with_ids client_id].
  eexists _, _, _. split; [reflexivity|]. split; [cbn [bus_sent bus_after]; by rewrite <- app_assoc|].
  split; [reflexivity|]. split; [reflexivity|].
  match goal with |- is_single_run ?run = _ /\ _ => destruct (Hr run eq_refl) as [H1 H2] end.
  split; [exact H1|]. split; [exact H2|]. split; [|split; [reflexivity|split; [by eexists _, _|split; [reflexivity|by eexists]]]].
  intros s. unfold scheduled_handle_event, bind, lift. by rewrite H1.
Qed.

(** Without the table of the benchmark nothing is sent, and the program fails. *)
Lemma cron_needs_info from_dict connect close pod config ev doc b :
  from_dict (benchmark_event config) = Ok ev -> payload_toml (payload ev) = Ok doc ->
  dict_get (doc_contents doc) "info" = None ->
  exists b', cron_main from_dict connect close pod config b = (Ok 1, b') /\ bus_sent b' = bus_sent b.
Proof.
  intros Hd Hp Hi. unfold cron_main, try_except, bind, lift. rewrite Hd.
  unfold create_benchmark_event, bind, lift, generate_uuid. rewrite Hp. unfold schedule_once. rewrite Hi.
  eexists. by split.
Qed.
End CronJob.

Module Witness.
#[local] Existing Instance env0.
#[local] Existing Instance literal_floats.

Definition scheduled0 : Event :=
  event0 (PFetcher (mkFetcherPayload
    (doc0 [("info", VDict [("scheduling", VStr "0 * * * *"); ("execution_engine", VStr "kubernetes")])]) [] [] [])).

(** The scheduled benchmark's own event is changed as well: the status message
    carries it with the schedule of a single run. *)
Example scheduled_event_is_changed :
  (('(_, e) <- create_benchmark_event scheduled0 ;; lift (is_single_run e)) (mkBus [] 0 0)).1 = Ok true.
Proof. reflexivity. Qed.
End Witness.
