(* ===== verification/K8sSpec.v ===== *)
(** * Kubernetes objects (transpiler/kubernetes_spec_logic.py)

    [KubernetesRootObjectHelper]: the parsed documents of a template and the
    edits the transpiler makes on them.  A document is a [pyval] tree; the
    package addict, which the code wraps around it, is attribute access on the
    tree: a missing key reads as an empty dictionary, and an assignment below
    it creates it.

    The code keeps a container it has found in a variable while it removes
    other containers.  The model names the container again when it changes it:
    [find_container] takes the first one with the name, no edit renames a
    container and the ones removed in between have other names, so the second
    search ends at the same object. *)

From S2P Require Import Prelude PyStr Descriptor.

(** ** addict *)

Definition attribute_error {A} : Res A := Raise (AttributeError "object has no attribute").

(** [v.k]. *)
Definition attr (k : string) (v : pyval) : Res pyval :=
  match v with
  | VDict d => Ok (default (VDict []) (dict_get d k))
  | _ => attribute_error
  end.

(** [v.k1.k2...]. *)
Fixpoint attrs (ks : list string) (v : pyval) : Res pyval :=
  match ks with
  | [] => Ok v
  | k :: ks' => w <~ attr k v ;; attrs ks' w
  end.

(** The change [f] of [v.k1.k2...], in place. *)
Fixpoint modify_at (ks : list string) (f : pyval -> Res pyval) (v : pyval) : Res pyval :=
  match ks with
  | [] => f v
  | k :: ks' =>
      match v with
      | VDict d =>
          w <~ modify_at ks' f (default (VDict []) (dict_get d k)) ;;
          Ok (VDict (dict_set d k w))
      | _ => attribute_error
      end
  end.

Definition set_attr (k : string) (w v : pyval) : Res pyval := modify_at [k] (fun _ => Ok w) v.

Definition pop_attr (k : string) (v : pyval) : Res pyval :=
  match v with VDict d => Ok (VDict (dict_pop d k)) | _ => attribute_error end.

(** The elements a [for] loop over [v] visits, when each is used as an object. *)
Definition elements (v : pyval) : Res (list pyval) :=
  match v with
  | VList l => Ok l
  | VDict [] => Ok []
  | VStr s => if String.eqb s "" then Ok [] else attribute_error
  | VDict _ => attribute_error
  | VNone | VBool _ | VInt _ => Raise (TypeError "object is not iterable")
  end.

Definition is_str (s : string) (v : pyval) : bool := match v with VStr s' => String.eqb s s' | _ => false end.

(** The position of the first element called [n]. *)
Fixpoint index_named (n : string) (l : list pyval) : Res (option nat) :=
  match l with
  | [] => Ok None
  | v :: l' =>
      nm <~ attr "name" v ;;
      if is_str n nm then Ok (Some O) else i <~ index_named n l' ;; Ok (S <$> i)
  end.

Definition names_of (l : list pyval) : Res (list pyval) := res_map (attr "name") l.

(** Python's [==]: dictionaries compare without regard to order. *)
Fixpoint pyval_eqb (v w : pyval) {struct v} : bool :=
  match v, w with
  | VNone, VNone => true
  | VBool a, VBool b => eqb a b
  | VBool a, VInt z | VInt z, VBool a => (z =? if a then 1 else 0)
  | VInt a, VInt b => (a =? b)
  | VStr a, VStr b => String.eqb a b
  | VList l1, VList l2 =>
      (fix go (l1 l2 : list pyval) : bool :=
         match l1, l2 with
         | [], [] => true
         | x :: l1', y :: l2' => pyval_eqb x y && go l1' l2'
         | _, _ => false
         end) l1 l2
  | VDict d1, VDict d2 =>
      (length d1 =? length d2)%nat &&
      (fix go (d1 : list (string * pyval)) : bool :=
         match d1 with
         | [] => true
         | (k, x) :: d1' => match dict_get d2 k with Some y => pyval_eqb x y | None => false end && go d1'
         end) d1
  | _, _ => false
  end.

(** [l.remove(x)] when [x] is an element. *)
Fixpoint remove_eq (x : pyval) (l : list pyval) : list pyval :=
  match l with
  | [] => []
  | y :: l' => if pyval_eqb y x then l' else y :: remove_eq x l'
  end.

(** ** The helper *)

Record KRoot := mkKRoot {
  k_root : option pyval;
  config_maps : list pyval;
  role_bindings : list pyval;
  services : list pyval
}.

Definition set_root (r : pyval) : M KRoot unit :=
  modify (fun k => mkKRoot (Some r) (config_maps k) (role_bindings k) (services k)).

Definition get_root : M KRoot pyval :=
  k <- get ;;
  match k_root k with
  | Some r => ret r
  | None => raise (AttributeError "'KubernetesRootObjectHelper' object has no attribute '_root'")
  end.

(** The keyword argument [mpiReplicaType], if given. *)
Abbreviation Kw := (option string).

(** [get_pod_spec]: where the pod specification is in the root object. *)
Definition pod_path_in (kw : Kw) (root : pyval) : Res (list string) :=
  let missing := Raise (KeyError ("Cannot find pod spec. root object is " +:+ repr_of_pyval root)) in
  match kw with
  | Some replica =>
      let p := ["spec"; "mpiReplicaSpecs"; replica; "template"; "spec"] in
      v <~ attrs p root ;;
      if truthy v then Ok p else missing
  | None =>
      t <~ attrs ["spec"; "template"] root ;;
      if truthy t then Ok ["spec"; "template"; "spec"]
      else
        j <~ attrs ["spec"; "jobTemplate"] root ;;
        if truthy j then
          jt <~ attrs ["spec"; "template"] j ;;
          if truthy jt then Ok ["spec"; "jobTemplate"; "spec"; "template"; "spec"]
          else Ok ["spec"; "jobTemplate"; "spec"]
        else missing
  end.

Definition pod_spec_path (kw : Kw) : M KRoot (list string) :=
  root <- get_root ;; lift (pod_path_in kw root).

Definition get_pod_spec (kw : Kw) : M KRoot pyval :=
  p <- pod_spec_path kw ;; root <- get_root ;; lift (attrs p root).

Definition pod_attr (kw : Kw) (k : string) : M KRoot pyval :=
  pod <- get_pod_spec kw ;; lift (attr k pod).

(** [self.get_pod_spec().k = v], more generally a change of that attribute. *)
Definition modify_pod (kw : Kw) (k : string) (f : pyval -> Res pyval) : M KRoot unit :=
  p <- pod_spec_path kw ;;
  root <- get_root ;;
  root' <- lift (modify_at (p ++ [k])%list f root) ;;
  set_root root'.

Definition empty_mounts (c : pyval) : Res pyval :=
  m <~ attr "volumeMounts" c ;;
  if truthy m then Ok c else set_attr "volumeMounts" (VList []) c.

Definition map_list (f : pyval -> Res pyval) (v : pyval) : Res pyval :=
  l <~ elements v ;;
  l' <~ res_map f l ;;
  Ok (match v with VList _ => VList l' | _ => v end).

Definition create_empty_fields (kw : Kw) : M KRoot unit :=
  ic <- pod_attr kw "initContainers" ;;
  (if truthy ic then ret tt else modify_pod kw "initContainers" (fun _ => Ok (VList []))) ;;
  vs <- pod_attr kw "volumes" ;;
  (if truthy vs then ret tt else modify_pod kw "volumes" (fun _ => Ok (VList []))) ;;
  modify_pod kw "containers" (map_list empty_mounts).

Definition check_truthy (v : pyval) (msg : string) : M KRoot unit :=
  if truthy v then ret tt else raise (ValueError msg).

Definition validate : M KRoot unit :=
  root <- get_root ;;
  spec <- lift (attr "spec" root) ;;
  check_truthy spec "Spec of root object not found at yaml definition of the Kubernetes object" ;;
  pod <- get_pod_spec None ;;
  check_truthy pod "Pod not found at yaml definition of the Kubernetes object" ;;
  cs <- pod_attr None "containers" ;;
  check_truthy cs "A Pod must have at least 1 container on its definition".

Definition validate_replica (replica : string) : M KRoot unit :=
  root <- get_root ;;
  r <- lift (attrs ["spec"; "mpiReplicaSpecs"; replica] root) ;;
  check_truthy r ("The replica specs of MPIJob must have " +:+ replica) ;;
  pod <- get_pod_spec (Some replica) ;;
  check_truthy pod ("Pod not found at yaml definition of the " +:+ replica +:+ " Kubernetes object") ;;
  cs <- pod_attr (Some replica) "containers" ;;
  check_truthy cs ("A Pod must have at least 1 container on its " +:+ replica +:+ " replica definition").

Definition validate_mpi_spec : M KRoot unit :=
  root <- get_root ;;
  spec <- lift (attr "spec" root) ;;
  check_truthy spec "Spec of root object not found at yaml definition of the Kubernetes object" ;;
  rs <- lift (attr "mpiReplicaSpecs" spec) ;;
  check_truthy rs "MPIJob must have mpiReplicaSpecs" ;;
  validate_replica MPI_JOB_LAUNCHER ;;
  validate_replica MPI_JOB_WORKER.

(** [d["kind"]]. *)
Definition doc_kind (d : pyval) : Res pyval :=
  match d with
  | VDict f => match dict_get f "kind" with Some k => Ok k | None => Raise (KeyError "kind") end
  | _ => Raise (TypeError "object is not subscriptable")
  end.

Definition file_doc (d : pyval) : M KRoot unit :=
  kind <- lift (doc_kind d) ;;
  k <- get ;;
  if is_str "ConfigMap" kind then put (mkKRoot (k_root k) (config_maps k ++ [d])%list (role_bindings k) (services k))
  else if is_str "CronJob" kind || is_str "Job" kind || is_str "MPIJob" kind then set_root d
  else if is_str "RoleBinding" kind
  then put (mkKRoot (k_root k) (config_maps k) (role_bindings k ++ [d])%list (services k))
  else if is_str "Service" kind
  then put (mkKRoot (k_root k) (config_maps k) (role_bindings k) (services k ++ [d])%list)
  else raise (ValueError ("Kubernetes yaml object is of an unsupported kind type: " +:+ str_of_pyval kind)).

(** [KubernetesRootObjectHelper.__init__] on the parsed documents; the variable
    [kind] after the loop is the kind of the last one. *)
Definition helper_init (docs : list pyval) : M KRoot unit :=
  for_each file_doc docs ;;
  match last docs with
  | None => raise (OtherException "UnboundLocalError" "local variable 'kind' referenced before assignment")
  | Some d =>
      kind <- lift (doc_kind d) ;;
      if is_str "MPIJob" kind then
        validate_mpi_spec ;;
        for_each (fun replica => create_empty_fields (Some replica)) [MPI_JOB_LAUNCHER; MPI_JOB_WORKER]
      else validate ;; create_empty_fields None
  end.

(** ** Containers *)

Definition not_found {A} (what plural : string) (name : string) (l : list pyval) : M KRoot A :=
  names <- lift (names_of l) ;;
  raise (ValueError (what +:+ " " +:+ name +:+ " not found. Available " +:+ plural +:+ " are: " +:+
                     repr_of_pyval (VList names))).

(** The attribute of the pod ([containers] or [initContainers]) and the place
    in it of the first container with the name, in this order. *)
Definition locate_container (name : string) (kw : Kw) : M KRoot (string * nat) :=
  containers <- pod_attr kw "containers" ;;
  init_containers <- pod_attr kw "initContainers" ;;
  cs <- lift (elements containers) ;;
  i <- lift (index_named name cs) ;;
  match i with
  | Some i => ret ("containers", i)
  | None =>
      ics <- lift (elements init_containers) ;;
      i <- lift (index_named name ics) ;;
      match i with
      | Some i => ret ("initContainers", i)
      | None => not_found "Container" "containers" name (cs ++ ics)%list
      end
  end.

Definition nth_of (i : nat) (v : pyval) : pyval :=
  match v with VList l => default VNone (l !! i) | _ => VNone end.

Definition modify_nth (i : nat) (f : pyval -> Res pyval) (v : pyval) : Res pyval :=
  match v with
  | VList l => match l !! i with
               | Some x => y <~ f x ;; Ok (VList (<[i := y]> l))
               | None => Ok v
               end
  | _ => Ok v
  end.

Definition find_container (name : string) (kw : Kw) : M KRoot pyval :=
  '(field, i) <- locate_container name kw ;;
  l <- pod_attr kw field ;;
  ret (nth_of i l).

(** A change of the container that [find_container] returns. *)
Definition modify_container (name : string) (kw : Kw) (f : pyval -> Res pyval) : M KRoot unit :=
  '(field, i) <- locate_container name kw ;;
  modify_pod kw field (modify_nth i f).

Definition remove_container (name : string) (kw : Kw) : M KRoot unit :=
  '(field, i) <- locate_container name kw ;;
  modify_pod kw field
    (fun v => match v with VList l => Ok (VList (remove_eq (nth_of i v) l)) | _ => Ok v end).

(** [del self.get_pod_spec().affinity], a [KeyError] when it is not there. *)
Definition remove_affinity (kw : Kw) : M KRoot unit :=
  pod <- get_pod_spec kw ;;
  match pod with
  | VDict d =>
      if dict_mem "affinity" d then
        p <- pod_spec_path kw ;;
        root <- get_root ;;
        root' <- lift (modify_at p (pop_attr "affinity") root) ;;
        set_root root'
      else raise (KeyError "affinity")
  | _ => raise (AttributeError "affinity")
  end.

Definition set_service_account (name : string) (kw : Kw) : M KRoot unit :=
  modify_pod kw "serviceAccountName" (fun _ => Ok (VStr name)).

(** ** Labels *)

(** What [_add_label] does to one visited dictionary. *)
Definition label_node (key : string) (value : pyval) (v : pyval) : Res pyval :=
  match v with
  | VDict d =>
      match dict_get d "metadata" with
      | Some md =>
          if truthy md then
            match md with
            | VDict m =>
                let labels := default VNone (dict_get m "labels") in
                match (if truthy labels then labels else VDict []) with
                | VDict l =>
                    Ok (VDict (dict_set d "metadata" (VDict (dict_set m "labels" (VDict (dict_set l key value))))))
                | _ => Raise (TypeError "object does not support item assignment")
                end
            | _ => attribute_error
            end
          else Ok v
      | None => Ok v
      end
  | _ => Ok v
  end.

(** The object a reference of the work list stands for. *)
Fixpoint lookup_path (p : list string) (v : pyval) : option pyval :=
  match p with
  | [] => Some v
  | k :: p' => match v with
               | VDict d => match dict_get d k with Some w => lookup_path p' w | None => None end
               | _ => None
               end
  end.

Definition keys_of (v : pyval) : list string := match v with VDict d => dict_keys d | _ => [] end.

(** The loop of [_add_label]: [nodes] are references into [tree], given by
    their paths; [None] when the fuel does not suffice. *)
Fixpoint label_loop (fuel : nat) (key : string) (value : pyval) (nodes : list (list string)) (tree : pyval)
    : option (Res pyval) :=
  match nodes with
  | [] => Some (Ok tree)
  | current :: nodes' =>
      match fuel with
      | O => None
      | S fuel' =>
          match lookup_path current tree with
          | Some (VDict _) =>
              match modify_at current (label_node key value) tree with
              | Ok tree' =>
                  let values := keys_of (default VNone (lookup_path current tree')) in
                  label_loop fuel' key value (nodes' ++ map (fun k => current ++ [k]) values)%list tree'
              | Raise e => Some (Raise e)
              end
          | _ => label_loop fuel' key value nodes' tree
          end
      end
  end.

(** Enough fuel: every dictionary is visited once, and every visit adds at
    most a dictionary of labels with one entry. *)
Fixpoint label_fuel (v : pyval) : nat :=
  match v with
  | VDict d =>
      (4 + (fix go (d : list (string * pyval)) : nat :=
              match d with [] => O | (_, w) :: d' => label_fuel w + go d' end) d)%nat
  | _ => 1
  end.

Definition add_label_obj (key : string) (value : pyval) (obj : pyval) : Res pyval :=
  if truthy obj then
    match label_loop (label_fuel obj) key value [[]] obj with
    | Some r => r
    | None => Raise (RuntimeError "out of fuel")
    end
  else Ok obj.

(** [add_label]: the root object, then the config maps, the role bindings and
    the services. *)
Definition add_label (key : string) (value : pyval) : M KRoot unit :=
  root <- get_root ;;
  root' <- lift (add_label_obj key value root) ;;
  set_root root' ;;
  k <- get ;;
  cms <- lift (res_map (add_label_obj key value) (config_maps k)) ;;
  rbs <- lift (res_map (add_label_obj key value) (role_bindings k)) ;;
  svcs <- lift (res_map (add_label_obj key value) (services k)) ;;
  put (mkKRoot (k_root k) cms rbs svcs).

(** ** Ports and probes *)

Definition tcp_port (idx : nat) (port : Z) : pyval :=
  VDict [("name", VStr ("port-" +:+ pretty idx)); ("protocol", VStr "TCP"); ("port", VInt port)].

(** The service called [name]: [x["metadata"]["name"]]. *)
Definition service_named (name : string) (svc : pyval) : Res bool :=
  md <~ attr "metadata" svc ;; nm <~ attr "name" md ;; Ok (is_str name nm).

(** The list of ports is extended in place; when there is none, the new list
    is not attached to the service. *)
Definition extend_service_ports (ports : list Z) (svc : pyval) : Res pyval :=
  match svc with
  | VDict d =>
      match dict_get d "spec" with
      | None => Ok svc
      | Some (VDict spec) =>
          match dict_get spec "ports" with
          | None => Ok svc
          | Some (VList l) =>
              Ok (VDict (dict_set d "spec" (VDict (dict_set spec "ports"
                    (VList (l ++ imap tcp_port ports)%list)))))
          | Some _ => match ports with [] => Ok svc | _ => attribute_error end
          end
      | Some _ => attribute_error
      end
  | _ => attribute_error
  end.

Fixpoint extend_first_service (name : string) (ports : list Z) (svcs : list pyval) : Res (list pyval) :=
  match svcs with
  | [] => Ok []
  | svc :: svcs' =>
      b <~ service_named name svc ;;
      if (b : bool) then svc' <~ extend_service_ports ports svc ;; Ok (svc' :: svcs')
      else rest <~ extend_first_service name ports svcs' ;; Ok (svc :: rest)
  end.

Definition add_tcp_ports_to_service (name : string) (ports : list Z) : M KRoot unit :=
  k <- get ;;
  _ <- lift (res_map (service_named name) (services k)) ;;
  svcs <- lift (extend_first_service name ports (services k)) ;;
  put (mkKRoot (k_root k) (config_maps k) (role_bindings k) svcs).

Definition add_container_ports_to_container (container_name : string) (ports : list Z) : M KRoot unit :=
  container <- find_container container_name None ;;
  if truthy container then
    modify_container container_name None (fun c =>
      match c with
      | VDict d =>
          let new := map (fun p => VDict [("containerPort", VInt p)]) ports in
          let old := default VNone (dict_get d "ports") in
          match (if truthy old then old else VList []) with
          | VList l => Ok (VDict (dict_set d "ports" (VList (new ++ l)%list)))
          | _ => Raise (TypeError "can only concatenate list to list")
          end
      | _ => attribute_error
      end)
  else ret tt.

Definition opt_int (o : option Z) : pyval := match o with Some z => VInt z | None => VNone end.

Definition probe_spec (probe : HttpProbeDescriptor) (default_port : Z) : Res pyval :=
  match probe_scheme probe with
  | None => attribute_error
  | Some sch =>
      Ok (VDict
        [("httpGet", VDict
            [("path", VStr (probe_path probe));
             ("port", match probe_port probe with
                      | Some p => VInt (if p =? 0 then default_port else p)
                      | None => VInt default_port
                      end);
             ("scheme", VStr (upper (probe_scheme_value sch)))]);
         ("initialDelaySeconds", opt_int (probe_initial_delay_seconds probe));
         ("periodSeconds", opt_int (probe_period_seconds probe));
         ("timeoutSeconds", opt_int (probe_timeout_seconds probe));
         ("successThreshold", opt_int (probe_success_threshold probe));
         ("failureThreshold", opt_int (probe_failure_threshold probe))])
  end.

Definition add_readiness_probe (container_name : string) (probe : HttpProbeDescriptor) (default_port : Z)
    : M KRoot unit :=
  container <- find_container container_name None ;;
  if truthy container then
    spec <- lift (probe_spec probe default_port) ;;
    modify_container container_name None (set_attr "readinessProbe" spec)
  else ret tt.

(** ** Volumes and environment variables *)

(** [for mount in mounts: if mount.name == name: mounts.remove(mount)]: the
    loop's position moves on while the list shrinks under it. *)
Fixpoint remove_mounts_loop (fuel : nat) (name : string) (i : nat) (mounts : list pyval) : Res (list pyval) :=
  match fuel with
  | O => Ok mounts
  | S fuel' =>
      match mounts !! i with
      | None => Ok mounts
      | Some mount =>
          nm <~ attr "name" mount ;;
          remove_mounts_loop fuel' name (S i) (if is_str name nm then remove_eq mount mounts else mounts)
      end
  end.

(** The position grows with every turn, so the length is enough fuel. *)
Definition remove_mounts (name : string) (container : pyval) : Res pyval :=
  mounts <~ attr "volumeMounts" container ;;
  l <~ elements mounts ;;
  match mounts with
  | VList _ => l' <~ remove_mounts_loop (S (length l)) name 0 l ;; set_attr "volumeMounts" (VList l') container
  | _ => Ok container
  end.

Definition remove_volume (volume_name : string) (kw : Kw) : M KRoot unit :=
  volumes <- pod_attr kw "volumes" ;;
  vs <- lift (elements volumes) ;;
  i <- lift (index_named volume_name vs) ;;
  match i with
  | Some i =>
      modify_pod kw "volumes" (fun _ => Ok (VList (remove_eq (default VNone (vs !! i)) vs))) ;;
      modify_pod kw "containers" (map_list (remove_mounts volume_name)) ;;
      modify_pod kw "initContainers" (map_list (remove_mounts volume_name))
  | None => not_found "Volume" "volumes" volume_name vs
  end.

Fixpoint index_config_map (name : string) (l : list pyval) : Res (option nat) :=
  match l with
  | [] => Ok None
  | cm :: l' =>
      nm <~ attrs ["metadata"; "name"] cm ;;
      if is_str name nm then Ok (Some O) else i <~ index_config_map name l' ;; Ok (S <$> i)
  end.

(** [find_config_map], as a change of the config map that it returns. *)
Definition modify_config_map (name : string) (f : pyval -> Res pyval) : M KRoot unit :=
  k <- get ;;
  i <- lift (index_config_map name (config_maps k)) ;;
  match i with
  | Some i =>
      cms <- lift (match config_maps k !! i with
                   | Some cm => cm' <~ f cm ;; Ok (<[i := cm']> (config_maps k))
                   | None => Ok (config_maps k)
                   end) ;;
      put (mkKRoot (k_root k) cms (role_bindings k) (services k))
  | None =>
      names <- lift (res_map (attrs ["metadata"; "name"]) (config_maps k)) ;;
      raise (ValueError ("ConfigMap " +:+ name +:+ " not found. Available ones are: " +:+
                         repr_of_pyval (VList names)))
  end.

(** [{var.name: var.value for var in env}]; a name is a string. *)
Fixpoint env_dict (env : list pyval) (acc : dict string pyval) : Res (dict string pyval) :=
  match env with
  | [] => Ok acc
  | var :: env' =>
      nm <~ attr "name" var ;;
      v <~ attr "value" var ;;
      match nm with
      | VStr n => env_dict env' (dict_set acc n v)
      | _ => Raise (TypeError "unhashable type")
      end
  end.

Definition EnvVar (k : string) (v : pyval) : pyval := VDict [("name", VStr k); ("value", VStr (str_of_pyval v))].

(** The new [env] list of a container. *)
Definition merge_env (env : dict string pyval) (container : pyval) : Res pyval :=
  old <~ attr "env" container ;;
  l <~ (if truthy old then elements old else Ok []) ;;
  env_old <~ env_dict l [] ;;
  set_attr "env" (VList (map (fun kv => EnvVar kv.1 kv.2) (dict_update env_old env))) container.

Definition k_add_env_vars (container_name : string) (env : dict string pyval) (kw : Kw) : M KRoot unit :=
  match env with
  | [] => ret tt
  | _ => modify_container container_name kw (merge_env env)
  end.

(** [to_yaml]: the documents in the order they are dumped; the dumper is the
    package ruamel.yaml. *)
Definition yaml_docs (k : KRoot) : list pyval :=
  (role_bindings k ++ config_maps k ++ services k ++
   match k_root k with Some r => [r] | None => [] end)%list.

Definition to_yaml (dump_all : list pyval -> string) : M KRoot string :=
  _ <- get_root ;; k <- get ;; ret (dump_all (yaml_docs k)).

(** ** ConfigTemplate *)

Section Template.
Context {V : Type}.

Record ConfigTemplate := mkTemplate { yaml_template_contents : string; template_variables : dict string V }.

Definition feed (variables : dict string V) (t : ConfigTemplate) : ConfigTemplate :=
  mkTemplate (yaml_template_contents t) (dict_update (template_variables t) variables).

(** [build]: [format] and the YAML parser give the documents. *)
Definition template_build (load_docs : string -> dict string V -> Res (list pyval)) (t : ConfigTemplate)
    : Res KRoot :=
  docs <~ load_docs (yaml_template_contents t) (template_variables t) ;;
  match helper_init docs (mkKRoot None [] [] []) with
  | (Ok _, k) => Ok k
  | (Raise e, _) => Raise e
  end.
End Template.

(** ** What was set is found *)

Lemma attrs_app ks ks' v : attrs (ks ++ ks')%list v = (w <~ attrs ks v ;; attrs ks' w).
Proof. revert v. induction ks as [|k ks IH]; intros v; [done|]. cbn [app attrs]. destruct (attr k v); [apply IH|done]. Qed.

Lemma modify_at_app ks ks' f v : modify_at (ks ++ ks')%list f v = modify_at ks (modify_at ks' f) v.
Proof. revert v. induction ks as [|k ks IH]; intros v; [done|]. cbn [app modify_at]. destruct v; try done. by rewrite IH. Qed.

(** The changed attribute, before and after. *)
Lemma modify_at_attrs ks f v v' :
  modify_at ks f v = Ok v' -> exists w w', attrs ks v = Ok w /\ f w = Ok w' /\ attrs ks v' = Ok w'.
Proof.
  revert v v'. induction ks as [|k ks IH]; intros v v'; cbn [modify_at attrs]; [by eauto|].
  destruct v as [| | | | |d]; try done. destruct (modify_at ks f _) as [x|] eqn:E; [|done]. intros [= <-].
  destruct (IH _ _ E) as (w & w' & H1 & H2 & H3). exists w, w'. cbn [attr res_bind]. by rewrite dict_get_set_eq.
Qed.

(** A change does not reach beside its path. *)
Lemma modify_at_beside ks a b ks' ks'' f v v' :
  a <> b -> modify_at (ks ++ a :: ks')%list f v = Ok v' -> attrs (ks ++ b :: ks'')%list v' = attrs (ks ++ b :: ks'')%list v.
Proof.
  intros Hab. revert v v'. induction ks as [|k ks IH]; intros v v'; cbn [app modify_at attrs]; (destruct v as [| | | | |d]; try done);
    destruct (modify_at _ f _) as [x|] eqn:E; try done; intros [= <-]; cbn [attr res_bind].
  - by rewrite dict_get_set_ne.
  - rewrite dict_get_set_eq. by apply IH.
Qed.

(** What lies on the path of a change is an object afterwards, and not empty. *)
Lemma modify_at_truthy ks a ks' f v v' :
  modify_at (ks ++ a :: ks')%list f v = Ok v' -> exists w, attrs ks v' = Ok w /\ truthy w = true.
Proof.
  rewrite modify_at_app. intros Hm. destruct (modify_at_attrs _ _ _ _ Hm) as (w & w' & _ & Hw & Hv'). exists w'. split; [done|].
  cbn [modify_at] in Hw. destruct w as [| | | | |d]; try done. destruct (modify_at ks' f _) as [x|]; [|done]. injection Hw as <-.
  destruct d as [|[k y] d]; [done|]. cbn. by destruct (decide _).
Qed.

Lemma pod_path_changed kw root root' p field f :
  field <> "template" -> pod_path_in kw root = Ok p -> modify_at (p ++ [field])%list f root = Ok root' ->
  pod_path_in kw root' = Ok p.
Proof.
  intros Hf. unfold pod_path_in. destruct kw as [replica|].
  - destruct (attrs _ root) as [v|]; [|done]. cbn [res_bind]. destruct (truthy v); [|done]. intros [= <-] Hm.
    destruct (modify_at_truthy _ _ _ _ _ _ Hm) as (w & -> & Hw). cbn [res_bind]. by rewrite Hw.
  - destruct (attrs ["spec"; "template"] root) as [t|] eqn:Et; [|done]. cbn [res_bind]. destruct (truthy t) eqn:Htt.
    { intros [= <-] Hm. destruct (modify_at_truthy ["spec"; "template"] "spec" [field] f _ _ Hm) as (w & -> & Hw).
      cbn [res_bind]. by rewrite Hw. }
    destruct (attrs ["spec"; "jobTemplate"] root) as [j|] eqn:Ej; [|done]. cbn [res_bind]. destruct (truthy j); [|done].
    destruct (attrs ["spec"; "template"] j) as [jt|] eqn:Ejt; [|done]. cbn [res_bind].
    assert (Hjt : attrs (["spec"; "jobTemplate"] ++ ["spec"; "template"])%list root = Ok jt) by (by rewrite attrs_app, Ej).
    destruct (truthy jt) eqn:Htj; intros [= <-] Hm.
    + assert (Et' : attrs ["spec"; "template"] root' = Ok t)
        by (rewrite <- Et; by apply (modify_at_beside ["spec"] "jobTemplate" "template" ["spec"; "template"; "spec"; field] [] f root root')).
      destruct (modify_at_truthy ["spec"] "jobTemplate" ["spec"; "template"; "spec"; field] f _ _ Hm) as (u & Hu & _).
      destruct (modify_at_truthy ["spec"; "jobTemplate"] "spec" ["template"; "spec"; field] f _ _ Hm) as (w & Hw & Htw).
      destruct (modify_at_truthy ["spec"; "jobTemplate"; "spec"; "template"] "spec" [field] f _ _ Hm) as (x & Hx & Htx).
      rewrite Et'. cbn [res_bind]. rewrite Htt, Hw. cbn [res_bind]. rewrite Htw.
      change ["spec"; "jobTemplate"; "spec"; "template"] with (["spec"; "jobTemplate"] ++ ["spec"; "template"])%list in Hx.
      rewrite attrs_app, Hw in Hx. cbn [res_bind] in Hx. rewrite Hx. cbn [res_bind]. by rewrite Htx.
    + assert (Et' : attrs ["spec"; "template"] root' = Ok t)
        by (rewrite <- Et; by apply (modify_at_beside ["spec"] "jobTemplate" "template" ["spec"; field] [] f root root')).
      assert (Ex : attrs (["spec"; "jobTemplate"] ++ ["spec"; "template"])%list root' = Ok jt)
        by (rewrite <- Hjt; by apply (modify_at_beside ["spec"; "jobTemplate"; "spec"] field "template" [] [] f root root')).
      destruct (modify_at_truthy ["spec"; "jobTemplate"] "spec" [field] f _ _ Hm) as (w & Hw & Htw).
      rewrite Et'. cbn [res_bind]. rewrite Htt, Hw. cbn [res_bind]. rewrite Htw.
      rewrite attrs_app, Hw in Ex. cbn [res_bind] in Ex. rewrite Ex. cbn [res_bind]. by rewrite Htj.
Qed.

(** The root object of the helper, and the path of the pod in it. *)
Definition pod_at (kw : Kw) (k : KRoot) (root : pyval) (p : list string) : Prop :=
  k_root k = Some root /\ pod_path_in kw root = Ok p.

Section PodAt.
Context (kw : Kw) (k : KRoot) (root : pyval) (p : list string) (Hat : pod_at kw k root p).

Lemma pod_attr_at key : pod_attr kw key k = (attrs (p ++ [key])%list root, k).
Proof.
  destruct Hat as [Hr Hp]. unfold pod_attr, get_pod_spec, bind. unfold pod_spec_path, get_root, bind, get. rewrite Hr. unfold ret, lift. rewrite Hp, Hr, attrs_app.
  destruct (attrs p root) as [v|]; [|done]. cbn [res_bind attrs]. by destruct (attr key v).
Qed.

Lemma modify_pod_at key f :
  modify_pod kw key f k =
  match modify_at (p ++ [key])%list f root with
  | Ok root' => (Ok tt, mkKRoot (Some root') (config_maps k) (role_bindings k) (services k))
  | Raise e => (Raise e, k)
  end.
Proof.
  destruct Hat as [Hr Hp]. unfold modify_pod, bind. unfold pod_spec_path, get_root, bind, get. rewrite Hr. unfold ret, lift. rewrite Hp, Hr. by destruct (modify_at _ f root).
Qed.
End PodAt.

(** A pod that could be read is somewhere. *)
Lemma pod_attr_somewhere kw key k v k' : pod_attr kw key k = (Ok v, k') -> exists root p, pod_at kw k root p.
Proof.
  unfold pod_attr, get_pod_spec, bind. unfold pod_spec_path, get_root, bind, get, ret, lift, raise, pod_at. destruct (k_root k) as [root|]; [|done].
  destruct (pod_path_in kw root) as [p|] eqn:E; [|done]. intros _. by exists root, p.
Qed.

(** ** The place of a container *)

Lemma index_named_at n l i : index_named n l = Ok (Some i) -> exists x, l !! i = Some x /\ attr "name" x = Ok (VStr n).
Proof.
  revert i. induction l as [|v l IH]; intros i; cbn [index_named]; [done|].
  destruct (attr "name" v) as [nm|] eqn:Enm; [|done]. cbn [res_bind]. destruct (is_str n nm) eqn:Es.
  - intros [= <-]. exists v. destruct nm; try done. by apply String.eqb_eq in Es as ->.
  - destruct (index_named n l) as [[j|]|]; try done. intros [= <-]. by apply IH.
Qed.

Lemma index_named_update n l i x y :
  l !! i = Some x -> attr "name" y = attr "name" x -> index_named n (<[i := y]> l) = index_named n l.
Proof.
  revert i. induction l as [|v l IH]; intros [|i] Hi Hn; try done; cbn in Hi.
  - injection Hi as ->. cbn. by rewrite Hn.
  - cbn. by rewrite IH.
Qed.

(** Where the container called [n] is, given the two lists of the pod. *)
Definition locate_in (n : string) (cv iv : pyval) : Res (option (string * nat)) :=
  cs <~ elements cv ;;
  i <~ index_named n cs ;;
  match i with
  | Some i => Ok (Some ("containers", i))
  | None =>
      ics <~ elements iv ;; i <~ index_named n ics ;; Ok ((fun i => ("initContainers", i)) <$> i)
  end.

Lemma locate_container_at n kw k root p x k' :
  pod_at kw k root p ->
  (locate_container n kw k = (Ok x, k')) <->
  k' = k /\ exists cv iv, attrs (p ++ ["containers"])%list root = Ok cv /\ attrs (p ++ ["initContainers"])%list root = Ok iv /\
    locate_in n cv iv = Ok (Some x).
Proof.
  intros Hat. unfold locate_container, bind. rewrite !(pod_attr_at kw k root p Hat).
  destruct (attrs _ root) as [cv|]; [|naive_solver].
  destruct (attrs (p ++ ["initContainers"])%list root) as [iv|]; [|naive_solver].
  transitivity (k' = k /\ locate_in n cv iv = Ok (Some x)); [|naive_solver].
  unfold locate_in, lift, res_bind. destruct (elements cv) as [cs|]; [|naive_solver].
  destruct (index_named n cs) as [[i|]|]; [unfold ret; naive_solver| |naive_solver].
  destruct (elements iv) as [ics|]; [|naive_solver]. destruct (index_named n ics) as [[i|]|]; [unfold ret; naive_solver| |naive_solver].
  unfold not_found, bind, lift, raise. destruct (names_of _); naive_solver.
Qed.

Lemma locate_in_field n cv iv field i :
  locate_in n cv iv = Ok (Some (field, i)) -> field = "containers" \/ field = "initContainers".
Proof.
  unfold locate_in, res_bind. destruct (elements cv); [|done]. destruct (index_named n _) as [[?|]|]; [intros [= <- _]; auto| |done].
  destruct (elements iv); [|done]. destruct (index_named n _) as [[?|]|]; [intros [= <- _]; auto|done..].
Qed.

Lemma elements_at v l i (x : pyval) : elements v = Ok l -> l !! i = Some x -> v = VList l.
Proof. destruct v as [| | |s|l'|[|]]; cbn; try done; [|by intros [= ->]|by intros [= <-]]. by destruct (String.eqb s ""); [intros [= <-]|]. Qed.

(** The located container stands at its place. *)
Lemma locate_in_at n cv iv field i :
  locate_in n cv iv = Ok (Some (field, i)) ->
  exists l x, (if String.eqb field "containers" then cv else iv) = VList l /\ l !! i = Some x /\ attr "name" x = Ok (VStr n).
Proof.
  unfold locate_in, res_bind. destruct (elements cv) as [cs|] eqn:Ec; [|done]. destruct (index_named n cs) as [[j|]|] eqn:Ej; [| |done].
  - intros [= <- <-]. destruct (index_named_at _ _ _ Ej) as (x & Hx & Hn). exists cs, x. cbn. split; [by eapply elements_at|done].
  - destruct (elements iv) as [ics|] eqn:Ei; [|done]. destruct (index_named n ics) as [[j'|]|] eqn:Ej'; [|done..].
    intros [= <- <-]. destruct (index_named_at _ _ _ Ej') as (x & Hx & Hn). exists ics, x. cbn. split; [by eapply elements_at|done].
Qed.

(** Another container in the place of one with the same name changes no place. *)
Lemma locate_in_update n l i x y v :
  l !! i = Some x -> attr "name" y = attr "name" x ->
  locate_in n (VList (<[i := y]> l)) v = locate_in n (VList l) v /\ locate_in n v (VList (<[i := y]> l)) = locate_in n v (VList l).
Proof. intros Hx Hn. unfold locate_in. cbn [elements res_bind]. by rewrite !(index_named_update n l i x y). Qed.

(** ** A container that was changed is found again *)

(** A change keeps the name. *)
Definition keeps_name (f : pyval -> Res pyval) : Prop := forall c c', f c = Ok c' -> attr "name" c' = attr "name" c.

Lemma set_attr_keeps_name key w : key <> "name" -> keeps_name (set_attr key w).
Proof. intros Hk [| | | | |d] c'; cbn; try done. intros [= <-]. cbn. by rewrite dict_get_set_ne. Qed.

Lemma set_attr_reads key w c c' : set_attr key w c = Ok c' -> attr key c' = Ok w.
Proof. destruct c as [| | | | |d]; cbn; try done. intros [= <-]. cbn. by rewrite dict_get_set_eq. Qed.

(** [modify_container]: the container is found before; what is found by its
    name afterwards is the changed container; and every other container that
    was found is found unchanged. *)
Lemma modify_container_found name kw f k k' :
  keeps_name f -> modify_container name kw f k = (Ok tt, k') ->
  exists c c',
    find_container name kw k = (Ok c, k) /\ f c = Ok c' /\ find_container name kw k' = (Ok c', k') /\
    forall other c0, other <> name -> find_container other kw k = (Ok c0, k) -> find_container other kw k' = (Ok c0, k').
Proof.
  intros Hf Hm. apply bind_Ok in Hm as ([field i] & k1 & Hl & Hm).
  assert (Hat : exists root p, pod_at kw k root p)
    by (pose proof Hl as Hl'; apply bind_Ok in Hl' as (? & ? & Hl' & _); by eapply pod_attr_somewhere).
  destruct Hat as (root & p & Hat). pose proof Hl as Hloc.
  apply (locate_container_at name kw k root p (field, i) k1 Hat) in Hl as (-> & cv & iv & Hcv & Hiv & Hin).
  pose proof (locate_in_field _ _ _ _ _ Hin) as Hfield. destruct (locate_in_at _ _ _ _ _ Hin) as (l & x & Hv & Hx & Hname).
  rewrite (modify_pod_at kw k root p Hat) in Hm. destruct (modify_at _ _ root) as [root'|] eqn:Em; [|done]. injection Hm as <-.
  destruct (modify_at_attrs _ _ _ _ Em) as (v & v' & Hold & Hnew & Hread).
  assert (v = VList l) as -> by (destruct Hfield as [-> | ->]; cbn in Hv; congruence).
  cbn [modify_nth] in Hnew. rewrite Hx in Hnew. destruct (f x) as [y|] eqn:Efx; [|done]. cbn [res_bind] in Hnew. injection Hnew as <-.
  pose proof (Hf _ _ Efx) as Hy.
  assert (Hat' : pod_at kw (mkKRoot (Some root') (config_maps k) (role_bindings k) (services k)) root' p)
    by (split; [done|]; destruct Hat as [_ Hp]; eapply pod_path_changed; [|exact Hp|exact Em]; by destruct Hfield as [-> | ->]).
  assert (Hbeside : forall key, key <> field -> attrs (p ++ [key])%list root' = attrs (p ++ [key])%list root)
    by (intros key Hk; by apply (modify_at_beside p field key [] [] (modify_nth i f) root root')).
  set (k' := mkKRoot _ _ _ _) in *.
  assert (Hsame : forall other z, locate_container other kw k = (Ok z, k) -> locate_container other kw k' = (Ok z, k')).
  { intros other z Hz. apply (locate_container_at other kw k root p z k Hat) in Hz as (_ & cv1 & iv1 & Hcv1 & Hiv1 & Hin1).
    assert (cv1 = cv) as -> by congruence. assert (iv1 = iv) as -> by congruence. apply (locate_container_at other kw k' root' p z k' Hat'). split; [done|].
    destruct Hfield as [-> | ->]; cbn in Hv; subst.
    - exists (VList (<[i := y]> l)), iv. split_and!; [done|by rewrite Hbeside|]. by rewrite (proj1 (locate_in_update other l i x y iv Hx Hy)).
    - exists cv, (VList (<[i := y]> l)). split_and!; [by rewrite Hbeside|done|]. by rewrite (proj2 (locate_in_update other l i x y cv Hx Hy)). }
  exists x, y. split_and!; [|done| |].
  - unfold find_container, bind. rewrite Hloc. by rewrite (pod_attr_at kw k root p Hat), Hold; unfold ret; cbn; rewrite Hx.
  - unfold find_container, bind. rewrite (Hsame _ _ Hloc), (pod_attr_at kw k' root' p Hat'), Hread. unfold ret. cbn.
    by rewrite list_lookup_insert_eq by (by eapply lookup_lt_Some).
  - intros other c0 Hne. unfold find_container at 1. intros Hother. apply bind_Ok in Hother as ([field0 j] & k1 & Hl0 & Hother).
    assert (k1 = k) as -> by (by apply (locate_container_at other kw k root p (field0, j) k1 Hat) in Hl0 as [-> _]).
    pose proof Hl0 as Hin0. apply (locate_container_at other kw k root p (field0, j) k Hat) in Hin0 as (_ & cv0 & iv0 & Hcv0 & Hiv0 & Hin0).
    simplify_eq. destruct (locate_in_at _ _ _ _ _ Hin0) as (l0 & x0 & Hv0 & Hx0 & Hname0).
    unfold bind in Hother. rewrite (pod_attr_at kw k root p Hat) in Hother.
    unfold find_container, bind. rewrite (Hsame _ _ Hl0), (pod_attr_at kw k' root' p Hat').
    destruct (decide (field0 = field)) as [->|Hdiff]; [|].
    2: { rewrite Hbeside by done. revert Hother. destruct (attrs (p ++ [field0])%list root); unfold ret; intros ?; by simplify_eq. }
    rewrite Hold in Hother. rewrite Hread. unfold ret in *. cbn in Hother |- *. assert (c0 = default VNone (l !! j)) as -> by congruence.
    rewrite list_lookup_insert_ne; [done|]. intros <-. apply Hne. destruct Hfield as [-> | ->]; cbn in *; simplify_eq; congruence.
Qed.

Lemma find_container_same name kw k c k' : find_container name kw k = (Ok c, k') -> k' = k.
Proof.
  intros Hm. apply bind_Ok in Hm as ([field i] & k1 & Hl & Hm).
  assert (Hat : exists root p, pod_at kw k root p)
    by (pose proof Hl as Hl'; apply bind_Ok in Hl' as (? & ? & Hl' & _); by eapply pod_attr_somewhere).
  destruct Hat as (root & p & Hat). apply (locate_container_at name kw k root p (field, i) k1 Hat) in Hl as [-> _].
  unfold bind in Hm. rewrite (pod_attr_at kw k root p Hat) in Hm. destruct (attrs _ root); [|done]. by injection Hm as _ <-.
Qed.

(** ** Properties: environment variables *)

(** An entry of an [env] list with a plain value. *)
Definition env_entry (kv : string * pyval) : pyval := VDict [("name", VStr kv.1); ("value", kv.2)].

Lemma env_dict_entries old acc : env_dict (map env_entry old) acc = Ok (dict_update acc old).
Proof. revert acc. induction old as [|[k v] old IH]; intros acc; [done|]. simpl. by rewrite IH. Qed.

Lemma merge_env_run d old env :
  dict_get d "env" = Some (VList (map env_entry old)) ->
  merge_env env (VDict d) =
  Ok (VDict (dict_set d "env" (VList (map (fun kv => EnvVar kv.1 kv.2) (dict_update (dict_update [] old) env))))).
Proof.
  intros Hd. unfold merge_env. cbn [attr]. rewrite Hd. cbn [default id res_bind].
  assert (E : (if truthy (VList (map env_entry old)) then elements (VList (map env_entry old)) else Ok []) =
              Ok (map env_entry old)) by (by destruct old).
  rewrite E. cbn [res_bind]. rewrite env_dict_entries. reflexivity.
Qed.

(** The keys of a merge: the old ones in order, then the new ones in order. *)
Lemma dict_keys_update {K V} `{EqDecision K} (d e : dict K V) :
  NoDup (dict_keys e) ->
  dict_keys (dict_update d e) = (dict_keys d ++ List.filter (fun k => bool_decide (k ∉ dict_keys d)) (dict_keys e))%list.
Proof.
  unfold dict_update. revert d. induction e as [|[k v] e IH]; intros d; simpl; [by rewrite app_nil_r|].
  intros [Hni Hnd]%NoDup_cons. rewrite IH by done. rewrite dict_keys_set.
  destruct (decide (k ∈ dict_keys d)) as [Hin|Hout].
  - rewrite bool_decide_eq_false_2 by tauto. done.
  - rewrite bool_decide_eq_true_2 by done. rewrite <- app_assoc. f_equal. simpl. f_equal.
    apply list_filter_ext. intros k' Hk'. apply bool_decide_ext.
    rewrite not_elem_of_app, not_elem_of_cons. split; [tauto|].
    intros Hk. split; [done|]. split; [|apply not_elem_of_nil]. intros ->. done.
Qed.

(** [add_env_vars] on a container.  The variables of the container and the
    new ones become one list without duplicates: first the names the container
    had, in their order, then the new names in theirs; a variable given by the
    caller has the caller's value (as text), any other keeps the value of its
    last entry. *)
Theorem add_env_vars_merges d old env
    (Hd : dict_get d "env" = Some (VList (map env_entry old))) (Henv : dict_wf env) :
  exists new,
    merge_env env (VDict d) = Ok (VDict (dict_set d "env" (VList (map (fun kv => EnvVar kv.1 kv.2) new)))) /\
    NoDup (dict_keys new) /\
    dict_keys new = (dict_keys (dict_update [] old) ++
                     List.filter (fun k => bool_decide (k ∉ dict_keys (dict_update [] old))) (dict_keys env))%list /\
    (forall n, dict_get new n =
       match dict_get env n with Some v => Some v | None => dict_get (dict_update [] old) n end) /\
    (forall n v rest, old = (rest ++ [(n, v)])%list -> dict_get (dict_update [] old) n = Some v).
Proof.
  exists (dict_update (dict_update [] old) env). split; [by apply merge_env_run|].
  split; [apply dict_update_wf, dict_update_wf; by apply NoDup_nil|].
  split; [by apply dict_keys_update|].
  split; [intros n; by apply dict_get_update|].
  intros n v rest ->. rewrite dict_update_app. apply dict_get_set_eq.
Qed.

(** ** Properties: volumes *)

Definition scalar (v : pyval) : bool := match v with VList _ | VDict _ => false | _ => true end.

(** A volume mount: scalar fields, one of them the name of the volume. *)
Inductive mount : pyval -> string -> Prop :=
| mount_intro (fields : list (string * pyval)) (n : string) :
    dict_wf fields -> Forall (fun kv => scalar kv.2 = true) fields ->
    dict_get fields "name" = Some (VStr n) -> mount (VDict fields) n.

Lemma scalar_eqb_refl v : scalar v = true -> pyval_eqb v v = true.
Proof.
  destruct v as [|b|z|s|l|d]; simpl; intros; try done.
  - by destruct b.
  - apply Z.eqb_refl.
  - apply String.eqb_refl.
Qed.

Lemma mount_eqb_refl v n : mount v n -> pyval_eqb v v = true.
Proof.
  intros [d n0 Hwf Hs _]. cbn [pyval_eqb]. rewrite Nat.eqb_refl. cbn [andb].
  assert (Hin : forall kv, kv ∈ d -> dict_get d kv.1 = Some kv.2)
    by (intros [k x] Hk; by apply dict_in_get).
  match goal with |- ?g d = true =>
    assert (Hg : forall d1, (forall kv, kv ∈ d1 -> kv ∈ d) -> Forall (fun kv => scalar kv.2 = true) d1 -> g d1 = true)
  end; [|by apply Hg].
  intros d1 Hsub H1. induction H1 as [|[k x] d1 Hx H1 IH]; [done|].
  pose proof (Hin (k, x) (Hsub (k, x) (list_elem_of_here _ _))) as E. cbn in E. rewrite E. cbn [snd] in *. rewrite scalar_eqb_refl by done.
  apply IH. intros kv Hkv. apply Hsub. set_solver.
Qed.

Lemma mount_eqb_name v w n m : mount v n -> mount w m -> pyval_eqb v w = true -> n = m.
Proof.
  intros [d1 n1 _ _ Hn] [d2 n2 _ _ Hm]. cbn [pyval_eqb]. intros [_ Hgo]%andb_true_iff.
  induction d1 as [|[k x] d1 IH]; [done|]. apply andb_true_iff in Hgo as [Hx Hgo].
  cbn [dict_get] in Hn. case_decide as Hk; [|by apply IH]. subst. injection Hn as ->.
  rewrite Hm in Hx. by apply String.eqb_eq in Hx.
Qed.

Lemma remove_eq_app pre x suf n :
  mount x n -> Forall (fun y => exists m, mount y m /\ m <> n) pre ->
  remove_eq x (pre ++ x :: suf)%list = (pre ++ suf)%list.
Proof.
  intros Hx Hpre. induction Hpre as [|y pre (m & Hy & Hm) Hpre IH]; cbn [app remove_eq].
  - by rewrite (mount_eqb_refl _ _ Hx).
  - destruct (pyval_eqb y x) eqn:E; [|by rewrite IH].
    by rewrite (mount_eqb_name _ _ _ _ Hy Hx E) in Hm.
Qed.

(** No two neighbours are mounts of the volume. *)
Fixpoint no_adjacent (name : string) (ns : list string) : bool :=
  match ns with
  | a :: ((b :: _) as rest) => negb (String.eqb a name && String.eqb b name) && no_adjacent name rest
  | _ => true
  end.

Lemma mount_attr v n name : mount v n -> attr "name" v = Ok (VStr n) /\ is_str name (VStr n) = String.eqb name n.
Proof. intros [d n0 _ _ Hn]. cbn [attr is_str]. by rewrite Hn. Qed.

Lemma remove_mounts_skip name fuel pre y m suf :
  mount y m -> m <> name ->
  remove_mounts_loop (S fuel) name (length pre) (pre ++ y :: suf)%list =
  remove_mounts_loop fuel name (S (length pre)) (pre ++ y :: suf)%list.
Proof.
  intros Hy Hm. cbn [remove_mounts_loop]. rewrite list_lookup_middle by done.
  destruct (mount_attr y m name Hy) as [-> E]. cbn [res_bind]. rewrite E.
  by rewrite (proj2 (String.eqb_neq name m)) by congruence.
Qed.

Lemma remove_mounts_end name fuel i mounts :
  (length mounts <= i)%nat -> remove_mounts_loop fuel name i mounts = Ok mounts.
Proof. intros Hi. destruct fuel; [done|]. cbn [remove_mounts_loop]. by rewrite lookup_ge_None_2. Qed.

(** The loop, with the mounts before its position already clean. *)
Lemma remove_mounts_loop_spec name suf ns_suf :
  Forall2 mount suf ns_suf -> forall fuel pre,
  Forall (fun y => exists m, mount y m /\ m <> name) pre ->
  no_adjacent name ns_suf = true -> (length suf < fuel)%nat ->
  exists rest, remove_mounts_loop fuel name (length pre) (pre ++ suf)%list = Ok (pre ++ rest)%list /\
    Forall2 mount rest (List.filter (fun n => negb (String.eqb n name)) ns_suf) /\ sublist rest suf.
Proof.
  induction 1 as [|x n suf ns_suf Hx Hsuf IH]; intros fuel pre Hpre Hadj Hfuel.
  - exists []. rewrite app_nil_r, remove_mounts_end by done. by split_and!.
  - cbn [List.filter length] in *. destruct (String.eqb_spec n name) as [->|Hn]; cbn [negb].
    + destruct fuel as [|fuel]; [lia|]. cbn [remove_mounts_loop]. rewrite list_lookup_middle by done.
      destruct (mount_attr x name name Hx) as [-> E]. cbn [res_bind]. rewrite E, String.eqb_refl.
      rewrite (remove_eq_app _ _ _ name) by done.
      destruct Hsuf as [|y m suf ns_suf Hy Hsuf].
      { exists []. rewrite app_nil_r, remove_mounts_end by lia. split_and!; [done..|]. by apply sublist_nil_l. }
      cbn [no_adjacent] in Hadj. rewrite String.eqb_refl in Hadj. cbn [andb] in Hadj.
      apply andb_true_iff in Hadj as [Hm Hadj]. apply negb_true_iff, String.eqb_neq in Hm.
      rewrite <- (remove_mounts_skip name fuel pre y m) by done.
      destruct (IH (S fuel) pre Hpre Hadj) as (rest & Hr & Hf & Hs); [simpl in *; lia|].
      exists rest. split_and!; [done..|]. by apply sublist_cons.
    + assert (Hadj' : no_adjacent name ns_suf = true).
      { destruct ns_suf as [|m ns_suf]; [done|]. cbn [no_adjacent] in Hadj.
        by apply andb_true_iff in Hadj as [_ Hadj]. }
      destruct fuel as [|fuel]; [lia|].
      rewrite (remove_mounts_skip name fuel pre x n) by done.
      destruct (IH fuel (pre ++ [x])%list) as (rest & Hr & Hf & Hs); [|done|lia|].
      { apply Forall_app. split; [done|]. constructor; [by exists n|constructor]. }
      rewrite length_app, Nat.add_1_r, <- !app_assoc in Hr. cbn [app] in Hr.
      exists (x :: rest). split_and!; [done|by constructor|by apply sublist_skip].
Qed.

Definition mounts_of (c : list (string * pyval)) (mounts : list pyval) : Prop :=
  dict_get c "volumeMounts" = Some (VList mounts).

(** Removing a volume from a container.  When no two mounts of the volume
    stand next to each other in the container's list, the loop removes all of
    them and keeps the other mounts in their order. *)
Theorem remove_volume_unmounts name c mounts ns
    (Hc : mounts_of c mounts) (Hm : Forall2 mount mounts ns) (Hadj : no_adjacent name ns = true) :
  exists mounts',
    remove_mounts name (VDict c) = Ok (VDict (dict_set c "volumeMounts" (VList mounts'))) /\
    Forall2 mount mounts' (List.filter (fun n => negb (String.eqb n name)) ns) /\ sublist mounts' mounts.
Proof.
  destruct (remove_mounts_loop_spec name mounts ns Hm (S (length mounts)) [] (Forall_nil_2 _) Hadj)
    as (rest & Hr & Hf & Hs); [lia|].
  exists rest. split_and!; [|done..]. unfold remove_mounts, mounts_of in *. cbn [attr]. rewrite Hc.
  cbn [default id res_bind elements]. cbn [length app] in Hr. rewrite Hr. reflexivity.
Qed.

Definition mount0 (name mount_path : string) : pyval :=
  VDict [("name", VStr name); ("mountPath", VStr mount_path)].

(** Two mounts of the removed volume that stand next to each other: the
    second one is skipped by the loop and stays in the container, although the
    volume it refers to is gone. *)
Theorem remove_volume_skips_neighbour :
  exists name c mounts,
    mounts_of c mounts /\
    Forall2 mount mounts [name; name; "other"] /\
    remove_mounts name (VDict c) =
      Ok (VDict (dict_set c "volumeMounts" (VList [mount0 name "/b"; mount0 "other" "/c"]))).
Proof.
  exists "v", [("name", VStr "c"); ("volumeMounts", VList [mount0 "v" "/a"; mount0 "v" "/b"; mount0 "other" "/c"])],
    [mount0 "v" "/a"; mount0 "v" "/b"; mount0 "other" "/c"].
  split; [reflexivity|]. split; [|reflexivity].
  repeat constructor; apply (bool_decide_unpack _); vm_compute; exact I.
Qed.

Module Witness.
Definition container0 : list (string * pyval) :=
  [("name", VStr "benchmark");
   ("env", VList (map env_entry [("A", VStr "1"); ("B", VStr "2")]));
   ("volumeMounts", VList [mount0 "v" "/a"; mount0 "other" "/c"; mount0 "v" "/b"])].

Lemma add_env_vars_merges_witness :
  merge_env [("C", VInt 3); ("A", VStr "x")] (VDict container0) =
    Ok (VDict (dict_set container0 "env" (VList [EnvVar "A" (VStr "x"); EnvVar "B" (VStr "2"); EnvVar "C" (VInt 3)])))
  /\ exists new, dict_keys new = ["A"; "B"; "C"] /\ dict_get new "A" = Some (VStr "x").
Proof.
  split; [vm_compute; reflexivity|].
  destruct (add_env_vars_merges container0 [("A", VStr "1"); ("B", VStr "2")] [("C", VInt 3); ("A", VStr "x")])
    as (new & _ & _ & Hk & Hg & _).
  - reflexivity.
  - apply (bool_decide_unpack _). vm_compute. exact I.
  - exists new. rewrite Hk, Hg. vm_compute. auto.
Defined.

Lemma mount0_mount n p : mount (mount0 n p) n.
Proof. constructor; [apply (bool_decide_unpack _); vm_compute; exact I|repeat constructor|reflexivity]. Qed.

Lemma remove_volume_unmounts_witness :
  exists mounts', remove_mounts "v" (VDict container0) =
      Ok (VDict (dict_set container0 "volumeMounts" (VList mounts'))) /\ Forall2 mount mounts' ["other"].
Proof.
  destruct (remove_volume_unmounts "v" container0 [mount0 "v" "/a"; mount0 "other" "/c"; mount0 "v" "/b"]
    ["v"; "other"; "v"]) as (ms & Hr & Hf & _).
  - reflexivity.
  - do 3 (constructor; [apply mount0_mount|]). constructor.
  - reflexivity.
  - exists ms. split; [exact Hr|exact Hf].
Defined.
End Witness.
