(* ===== verification/K8sLabels.v ===== *)
(** * Labels of Kubernetes objects

    Correctness of the work list of [KubernetesRootObjectHelper._add_label]
    (transpiler/kubernetes_spec_logic.py): it visits every dictionary below the
    object, labels all of those with metadata, changes nothing else and ends. *)

From S2P Require Import Prelude PyStr K8sSpec.

(** ** Paths *)

(** The paths [p] and [c] part ways before either ends. *)
Inductive diverge : list string -> list string -> Prop :=
| diverge_here a b p c : a <> b -> diverge (a :: p) (b :: c)
| diverge_later a p c : diverge p c -> diverge (a :: p) (a :: c).

#[local] Hint Constructors diverge : py.

(** How two paths can relate: [p] extends [c], is above it, or diverges. *)
Lemma path_cmp (p c : list string) :
  (exists r, p = c ++ r)%list \/ (exists k r, c = p ++ k :: r)%list \/ diverge p c.
Proof.
  revert c. induction p as [|a p IH]; intros [|b c]; simpl; eauto.
  destruct (decide (a = b)) as [->|Hne]; [|eauto with py].
  destruct (IH c) as [[r ->]|[(k & r & ->)|Hd]]; eauto with py.
Qed.

Lemma diverge_app p c r : diverge p c -> diverge (p ++ r)%list c.
Proof. induction 1; simpl; eauto with py. Qed.

Lemma diverge_snoc p a b r1 r2 : a <> b -> diverge (p ++ a :: r1)%list (p ++ b :: r2)%list.
Proof. intros. induction p; simpl; eauto with py. Qed.

Lemma diverge_sym p c : diverge p c -> diverge c p.
Proof. induction 1; eauto with py. Qed.

Lemma diverge_not_extend c r : ~ diverge (c ++ r)%list c.
Proof. intros H. remember (c ++ r)%list as p. revert r Heqp. induction H; intros; simplify_eq/=; eauto. Qed.

Lemma lookup_path_app p r v :
  lookup_path (p ++ r) v = match lookup_path p v with Some w => lookup_path r w | None => None end.
Proof.
  revert v. induction p as [|k p IH]; intros v; simpl; [done|].
  destruct v as [| | | | |d]; try done. destruct (dict_get d k); [apply IH|done].
Qed.

(** ** A change at a path *)

Lemma modify_at_raises f c v e tree :
  lookup_path c tree = Some v -> f v = Raise e -> modify_at c f tree = Raise e.
Proof.
  intros Hl Hf. revert tree Hl. induction c as [|k c IH]; intros tree; simpl; [by intros [= ->]|].
  destruct tree as [| | | | |d]; try done. destruct (dict_get d k) as [w|]; [|done].
  intros Hw. simpl. by rewrite IH.
Qed.

Section Modify.
Context (f : pyval -> Res pyval) (c : list string) (v v' : pyval).
Context (Hf : f v = Ok v').

Lemma modify_at_ok tree : lookup_path c tree = Some v -> exists tree', modify_at c f tree = Ok tree'.
Proof.
  revert tree. induction c as [|k c' IH]; intros tree; simpl; [intros [= ->]; eauto|].
  destruct tree as [| | | | |d]; try done. destruct (dict_get d k) as [w|] eqn:E; [|done].
  intros Hw. simpl. destruct (IH w Hw) as [w' ->]. simpl. eauto.
Qed.

Context (tree tree' : pyval) (Hl : lookup_path c tree = Some v) (Hm : modify_at c f tree = Ok tree').

Lemma modify_at_inside r : lookup_path (c ++ r) tree' = lookup_path r v'.
Proof.
  revert tree tree' Hl Hm. induction c as [|k c' IH]; intros t t'; simpl; [intros [= ->]; by rewrite Hf; intros [= ->]|].
  destruct t as [| | | | |d]; try done. destruct (dict_get d k) as [w|] eqn:E; [|done].
  intros Hw. simpl. destruct (modify_at c' f w) as [w'|] eqn:Ew; [|done]. intros [= <-]. simpl.
  rewrite dict_get_set_eq. by apply (IH w).
Qed.

Lemma modify_at_outside p : diverge p c -> lookup_path p tree' = lookup_path p tree.
Proof.
  intros Hd. revert tree tree' Hl Hm.
  induction Hd as [a b p c0 Hne|a p c0 Hd IH]; intros t t'; simpl;
    (destruct t as [| | | | |d]; try done); (destruct (dict_get d _) as [w|] eqn:E; [|done]); intros Hw; simpl;
    (destruct (modify_at c0 f w) as [w'|] eqn:Ew; [|done]); intros [= <-]; simpl.
  - by rewrite dict_get_set_ne by congruence.
  - rewrite dict_get_set_eq. by apply IH.
Qed.

(** Above the change a dictionary stays one, with the same keys and the same
    values off the path. *)
Lemma modify_at_above p k r : c = (p ++ k :: r)%list ->
  exists d d', lookup_path p tree = Some (VDict d) /\ lookup_path p tree' = Some (VDict d') /\
    dict_keys d' = dict_keys d /\ (forall k', k' <> k -> dict_get d' k' = dict_get d k').
Proof.
  intros Hc. revert c tree tree' Hl Hm Hc.
  induction p as [|a p IH]; intros c0 t t' Hl0 Hm0 ->; simpl in *.
  - destruct t as [| | | | |d]; try done. destruct (dict_get d k) as [w|] eqn:E; [|done]. simpl in Hm0.
    destruct (modify_at r f w) as [w'|]; [|done]. injection Hm0 as <-.
    exists d, (dict_set d k w'). split_and!; [done..| |].
    + rewrite dict_keys_set, decide_True; [done|]. apply dict_get_is_Some. by rewrite E.
    + intros k' Hk'. by apply dict_get_set_ne.
  - destruct t as [| | | | |d]; try done. destruct (dict_get d a) as [w|] eqn:E; [|done]. simpl in Hm0.
    destruct (modify_at (p ++ k :: r) f w) as [w'|] eqn:Ew; [|done]. injection Hm0 as <-.
    destruct (IH _ w w' Hl0 Ew eq_refl) as (d0 & d1 & H0 & H1 & H2 & H3).
    exists d0, d1. rewrite dict_get_set_eq. done.
Qed.
End Modify.

(** ** One visit *)

(** The loop does not look into a value that is no dictionary. *)
Definition leaf (v : pyval) : bool := match v with VDict _ => false | _ => true end.

Lemma scalar_leaf v : scalar v = true -> leaf v = true.
Proof. by destruct v. Qed.

Section Visit.
Context (key : string) (value : pyval) (Hvalue : scalar value = true).

Lemma label_node_cases d v' :
  label_node key value (VDict d) = Ok v' ->
  (v' = VDict d /\ forall m, dict_get d "metadata" = Some m -> truthy m = false) \/
  exists m l, dict_get d "metadata" = Some (VDict m) /\ truthy (VDict m) = true /\
    (dict_get m "labels" = Some (VDict l) \/
     l = [] /\ forall x, dict_get m "labels" = Some x -> truthy x = false) /\
    v' = VDict (dict_set d "metadata" (VDict (dict_set m "labels" (VDict (dict_set l key value))))).
Proof.
  cbn [label_node]. destruct (dict_get d "metadata") as [md|] eqn:E; [|intros [= <-]; left; naive_solver].
  destruct (truthy md) eqn:Et; [|intros [= <-]; left; naive_solver].
  destruct md as [| | | | |m]; try done.
  destruct (dict_get m "labels") as [x|] eqn:El; cbn [default id].
  - destruct (truthy x) eqn:Ex; cbv iota.
    + destruct x as [| | | | |l]; try done. intros [= <-]. right. exists m, l. naive_solver.
    + intros [= <-]. right. exists m, []. split_and!; [done..| |done]. right. naive_solver.
  - cbn [truthy]. intros [= <-]. right. exists m, []. split_and!; [done..| |done]. right. naive_solver.
Qed.

Definition labelled (tree : pyval) (p : list string) : Prop :=
  lookup_path (p ++ ["metadata"; "labels"; key])%list tree = Some value.

(** A visited dictionary is labelled; its entries other than the metadata, and
    the labels and other entries of its metadata, are as before. *)
Lemma label_node_labels d v' :
  label_node key value (VDict d) = Ok v' ->
  exists d', v' = VDict d' /\ dict_keys d' = dict_keys d /\
    (forall m, dict_get d' "metadata" = Some m -> truthy m = true -> labelled v' []) /\
    (forall k r, k <> "metadata" -> lookup_path (k :: r) v' = lookup_path (k :: r) (VDict d)).
Proof.
  intros [[-> Hno]|(m & l & Hmd & Ht & Hl & ->)]%label_node_cases.
  - exists d. split_and!; [done..| |done]. intros m Hm Htr. by rewrite (Hno m Hm) in Htr.
  - eexists. split; [done|]. split_and!.
    + rewrite dict_keys_set, decide_True; [done|]. apply dict_get_is_Some. by rewrite Hmd.
    + intros _ _ _. unfold labelled. simpl. rewrite !dict_get_set_eq. done.
    + intros k r Hk. simpl. by rewrite dict_get_set_ne.
Qed.

Lemma leaf_no_path v k r w : leaf v = true -> lookup_path (k :: r) v = Some w -> False.
Proof. by destruct v. Qed.

(** A label survives the visit of a dictionary that is not above it. *)
Lemma labelled_visit c d v' tree tree' p :
  key <> "metadata" ->
  lookup_path c tree = Some (VDict d) -> label_node key value (VDict d) = Ok v' ->
  modify_at c (label_node key value) tree = Ok tree' ->
  (exists k r, c = p ++ k :: r)%list \/ diverge p c ->
  labelled tree p -> labelled tree' p.
Proof.
  intros Hkey Hl Hv Hm Hcase Hlab. unfold labelled in *.
  assert (Hsame : forall q k, k <> "metadata" -> c = q ->
            forall r, lookup_path (q ++ k :: r)%list tree' = lookup_path (q ++ k :: r)%list tree).
  { intros q k Hk <- r. rewrite (modify_at_inside _ _ _ _ Hv _ _ Hl Hm), lookup_path_app, Hl.
    destruct (label_node_labels d v' Hv) as (d' & _ & _ & _ & Hk'). by apply Hk'. }
  destruct Hcase as [(k & r & Hc)|Hd].
  2: { rewrite (modify_at_outside _ _ _ _ _ Hl Hm); [done|]. by apply diverge_app. }
  pose proof (modify_at_outside _ _ _ _ _ Hl Hm (p ++ ["metadata"; "labels"; key])%list) as Hout.
  destruct (decide (k = "metadata")) as [->|Hk]; [|rewrite Hout; [done|subst c; apply diverge_snoc; congruence]].
  destruct r as [|r1 r].
  { pose proof (Hsame (p ++ ["metadata"])%list "labels" ltac:(done) Hc [key]) as Hs.
    rewrite <- app_assoc in Hs. cbn [app] in Hs. by rewrite Hs. }
  destruct (decide (r1 = "labels")) as [->|Hr1].
  2: { rewrite Hout; [done|]. subst c. change (p ++ "metadata" :: ?x)%list with (p ++ ["metadata"] ++ x)%list.
       rewrite !app_assoc. apply diverge_snoc. congruence. }
  destruct r as [|r2 r].
  { specialize (Hsame (p ++ ["metadata"; "labels"])%list key Hkey Hc []).
    rewrite <- app_assoc in Hsame. cbn [app] in Hsame. by rewrite Hsame. }
  destruct (decide (r2 = key)) as [->|Hr2].
  2: { rewrite Hout; [done|]. subst c. change (p ++ "metadata" :: "labels" :: ?x)%list with (p ++ ["metadata"; "labels"] ++ x)%list.
       rewrite !app_assoc. apply diverge_snoc. congruence. }
  exfalso. subst c. change (p ++ "metadata" :: "labels" :: key :: r)%list with
    (p ++ ["metadata"; "labels"; key] ++ r)%list in Hl.
  rewrite app_assoc, lookup_path_app, Hlab in Hl. destruct r as [|k r]; simpl in Hl.
  - by simplify_eq.
  - apply (leaf_no_path value k r (VDict d)); [by apply scalar_leaf|done].
Qed.

(** ** The loop *)

(** Every dictionary with metadata is labelled or below a pending reference. *)
Definition pending_or_labelled (nodes : list (list string)) (tree : pyval) : Prop :=
  forall p d m, lookup_path p tree = Some (VDict d) -> dict_get d "metadata" = Some m -> truthy m = true ->
    (exists q r, q ∈ nodes /\ p = q ++ r)%list \/ labelled tree p.

Lemma truthy_dict_keys d d' : dict_keys d' = dict_keys d -> truthy (VDict d') = truthy (VDict d).
Proof. by destruct d as [|[] ?], d' as [|[] ?]. Qed.

Lemma pending_step c d v' tree tree' nodes :
  key <> "metadata" ->
  lookup_path c tree = Some (VDict d) -> label_node key value (VDict d) = Ok v' ->
  modify_at c (label_node key value) tree = Ok tree' ->
  pending_or_labelled (c :: nodes) tree ->
  pending_or_labelled (nodes ++ map (fun k => c ++ [k]) (keys_of v'))%list tree'.
Proof.
  intros Hkey Hl Hv Hm Hinv p d1 m Hp Hmd Ht.
  destruct (label_node_labels d v' Hv) as (d' & -> & Hkeys & Hlab & Hrest).
  pose proof (modify_at_inside _ _ _ _ Hv _ _ Hl Hm) as Hin.
  destruct (path_cmp p c) as [[[|k r] ->]|Hcase].
  - right. rewrite Hin in Hp. injection Hp as <-. unfold labelled.
    rewrite app_nil_r, Hin. by apply (Hlab m).
  - left. exists (c ++ [k])%list, r. rewrite <- app_assoc. split; [|done].
    rewrite Hin in Hp. apply elem_of_app. right. apply list_elem_of_fmap. exists k. split; [done|].
    simpl in Hp |- *. destruct (dict_get d' k) eqn:E; [|done]. apply dict_get_is_Some. by rewrite E.
  - assert (Hold : exists d0 m0, lookup_path p tree = Some (VDict d0) /\
              dict_get d0 "metadata" = Some m0 /\ truthy m0 = true).
    { destruct Hcase as [(k & r & Hc)|Hd].
      2: { rewrite (modify_at_outside _ _ _ _ _ Hl Hm _ Hd) in Hp. eauto. }
      destruct (modify_at_above _ _ _ _ _ Hl Hm p k r Hc) as (d0 & d2 & Hd0 & Hd2 & Hk & Hoff).
      rewrite Hp in Hd2. injection Hd2 as <-.
      destruct (decide (k = "metadata")) as [->|Hne]; [|rewrite Hoff in Hmd by congruence; eauto].
      exists d0. rewrite Hc, lookup_path_app, Hd0 in Hl. simpl in Hl.
      destruct (dict_get d0 "metadata") as [m0|] eqn:Em; [|done]. exists m0. split_and!; try done.
      destruct r as [|k2 r]; simpl in Hl.
      - injection Hl as ->. pose proof (Hin []) as Hv'. rewrite app_nil_r in Hv'. simpl in Hv'.
        rewrite Hc, lookup_path_app, Hp in Hv'. simpl in Hv'. rewrite Hmd in Hv'. injection Hv' as ->.
        by rewrite <- (truthy_dict_keys _ _ Hkeys).
      - destruct m0 as [| | | | |[|kv m0]]; done. }
    destruct Hold as (d0 & m0 & Hp0 & Hm0 & Ht0).
    destruct (Hinv p d0 m0 Hp0 Hm0 Ht0) as [(q & r & [->|Hq]%elem_of_cons & Hr)|Hl0].
    + exfalso. destruct Hcase as [(k & r' & Hc)|Hd].
      * rewrite Hr in Hc. apply (f_equal length) in Hc. rewrite !length_app in Hc. simpl in Hc. lia.
      * rewrite Hr in Hd. by apply diverge_not_extend in Hd.
    + left. exists q, r. split; [|done]. set_solver.
    + right. by apply (labelled_visit c d (VDict d') tree).
Qed.

Lemma label_loop_labels fuel nodes tree tree' :
  key <> "metadata" ->
  pending_or_labelled nodes tree -> label_loop fuel key value nodes tree = Some (Ok tree') ->
  pending_or_labelled [] tree'.
Proof.
  intros Hkey. revert nodes tree.
  induction fuel as [|fuel IH]; intros [|c nodes] tree Hinv; cbn [label_loop]; try done; try by intros [= <-].
  destruct (lookup_path c tree) as [w|] eqn:Hl.
  2: { apply IH. intros p d m Hp Hmd Ht.
       destruct (Hinv p d m Hp Hmd Ht) as [(q & r & [->|Hq]%elem_of_cons & ->)|]; [|left; eauto|by right].
       rewrite lookup_path_app, Hl in Hp. done. }
  destruct w as [| | | | |d].
  1-5: (apply IH; intros p d m Hp Hmd Ht;
        destruct (Hinv p d m Hp Hmd Ht) as [(q & r & [->|Hq]%elem_of_cons & ->)|]; [|left; eauto|by right];
        rewrite lookup_path_app, Hl in Hp; by destruct r).
  destruct (modify_at c (label_node key value) tree) as [t|e] eqn:Hm; [|done].
  destruct (label_node key value (VDict d)) as [v'|e] eqn:Hv.
  - pose proof (modify_at_inside _ _ _ _ Hv _ _ Hl Hm []) as Hin. rewrite app_nil_r in Hin. rewrite Hin.
    cbn [default id lookup_path]. apply IH. by eapply pending_step.
  - by rewrite (modify_at_raises _ _ _ _ _ Hl Hv) in Hm.
Qed.

(** ** What is left alone *)

(** A value that is no dictionary, not below the label and not empty labels. *)
Definition untouched (p : list string) (w : pyval) : Prop :=
  leaf w = true /\ (truthy w = true \/ forall q, p <> q ++ ["metadata"; "labels"])%list /\
  (forall q r, p <> q ++ ["metadata"; "labels"; key] ++ r)%list.

Lemma label_node_frame d v' c r w :
  label_node key value (VDict d) = Ok v' -> untouched (c ++ r) w ->
  lookup_path r (VDict d) = Some w -> lookup_path r v' = Some w.
Proof.
  intros Hv (Hs & Ht & Hp) Hr. destruct r as [|k r]; [simpl in Hr; by simplify_eq|].
  apply label_node_cases in Hv as [[-> _]|(m & l & Hmd & _ & Hl & ->)]; [done|].
  destruct (decide (k = "metadata")) as [->|Hk]; [|simpl in Hr |- *; by rewrite dict_get_set_ne].
  simpl in Hr |- *. rewrite Hmd in Hr. rewrite dict_get_set_eq.
  destruct r as [|k2 r]; [simpl in Hr; by simplify_eq|].
  destruct (decide (k2 = "labels")) as [->|Hk2]; [|simpl in Hr |- *; by rewrite dict_get_set_ne].
  simpl in Hr |- *. rewrite dict_get_set_eq. destruct (dict_get m "labels") as [x|] eqn:El; [|done].
  destruct Hl as [[= ->]|[-> Hx]].
  - destruct r as [|k3 r]; [simpl in Hr; by simplify_eq|]. simpl in Hr |- *.
    rewrite dict_get_set_ne; [done|]. intros <-. by apply (Hp c r).
  - specialize (Hx x eq_refl). destruct r as [|k3 r]; simpl in Hr.
    + simplify_eq. destruct Ht as [Ht|Ht]; [congruence|by destruct (Ht c)].
    + by destruct x as [| | | | |[|]].
Qed.

Lemma frame_step c d v' tree tree' p w :
  lookup_path c tree = Some (VDict d) -> label_node key value (VDict d) = Ok v' ->
  modify_at c (label_node key value) tree = Ok tree' ->
  untouched p w -> lookup_path p tree = Some w -> lookup_path p tree' = Some w.
Proof.
  intros Hl Hv Hm Hu Hp. destruct (path_cmp p c) as [[r ->]|[(k & r & Hc)|Hd]].
  - rewrite (modify_at_inside _ _ _ _ Hv _ _ Hl Hm). rewrite lookup_path_app, Hl in Hp.
    by eapply label_node_frame.
  - exfalso. destruct Hu as [Hs _]. rewrite Hc, lookup_path_app, Hp in Hl. by eapply leaf_no_path.
  - by rewrite (modify_at_outside _ _ _ _ _ Hl Hm).
Qed.

Lemma label_loop_frame fuel nodes tree tree' p w :
  label_loop fuel key value nodes tree = Some (Ok tree') ->
  untouched p w -> lookup_path p tree = Some w -> lookup_path p tree' = Some w.
Proof.
  intros Hloop Hu. revert nodes tree Hloop.
  induction fuel as [|fuel IH]; intros [|c nodes] tree; cbn [label_loop]; try done; try by intros [= <-].
  destruct (lookup_path c tree) as [[| | | | |d]|] eqn:Hl; try apply IH.
  destruct (modify_at c (label_node key value) tree) as [t|e] eqn:Hm; [|done].
  destruct (label_node key value (VDict d)) as [v'|e] eqn:Hv.
  - intros Hloop Hp. eapply IH; [exact Hloop|]. by eapply frame_step.
  - by rewrite (modify_at_raises _ _ _ _ _ Hl Hv) in Hm.
Qed.

(** ** Termination *)

(** In every dictionary of the object the keys are distinct. *)
Fixpoint tree_wfb (v : pyval) : bool :=
  match v with
  | VDict d =>
      bool_decide (NoDup (dict_keys d)) &&
      (fix go (d : list (string * pyval)) : bool :=
         match d with [] => true | (_, w) :: d' => tree_wfb w && go d' end) d
  | _ => true
  end.

Definition tree_wf (tree : pyval) : Prop := forall p d, lookup_path p tree = Some (VDict d) -> dict_wf d.

Lemma tree_wfb_wf tree : tree_wfb tree = true -> tree_wf tree.
Proof.
  intros H p. revert tree H. induction p as [|k p IH]; intros tree H d; simpl.
  - intros [= ->]. cbn [tree_wfb] in H. apply andb_true_iff in H as [H _].
    by apply bool_decide_eq_true in H.
  - destruct tree as [| | | | |d0]; try done. destruct (dict_get d0 k) as [w|] eqn:E; [|done].
    apply IH. cbn [tree_wfb] in H. apply andb_true_iff in H as [_ H]. apply dict_get_Some_in in E.
    clear IH. induction d0 as [|[k' w'] d0 IH]; [by apply elem_of_nil in E|].
    apply andb_true_iff in H as [Hw H]. apply elem_of_cons in E as [[= -> ->]|E]; auto.
Qed.

Lemma tree_wf_step c d v' tree tree' :
  lookup_path c tree = Some (VDict d) -> label_node key value (VDict d) = Ok v' ->
  modify_at c (label_node key value) tree = Ok tree' -> tree_wf tree -> tree_wf tree'.
Proof.
  intros Hl Hv Hm Hwf p d1 Hp. destruct (path_cmp p c) as [[r ->]|[(k & r & Hc)|Hd]].
  - assert (Hold : forall r d, lookup_path (c ++ r) tree = Some (VDict d) -> dict_wf d) by (intros; by eapply Hwf).
    rewrite (modify_at_inside _ _ _ _ Hv _ _ Hl Hm) in Hp.
    assert (Hd : forall r d2, lookup_path r (VDict d) = Some (VDict d2) -> dict_wf d2)
      by (intros r' d2 Hr'; apply (Hold r'); by rewrite lookup_path_app, Hl).
    apply label_node_cases in Hv as [[-> _]|(m & l & Hmd & _ & Hll & ->)]; [by eapply Hd|].
    assert (Hm' : dict_wf m) by (apply (Hd ["metadata"]); simpl; by rewrite Hmd).
    assert (Hl' : dict_wf l).
    { destruct Hll as [Hll|[-> _]]; [|by apply NoDup_nil]. apply (Hd ["metadata"; "labels"]). simpl. by rewrite Hmd, Hll. }
    destruct r as [|k r]; simpl in Hp; [simplify_eq; apply dict_set_wf; by apply (Hd [])|].
    rewrite dict_get_set in Hp. case_decide as Ek; [subst|by apply (Hd (k :: r))].
    destruct r as [|k2 r]; simpl in Hp; [simplify_eq; by apply dict_set_wf|].
    rewrite dict_get_set in Hp. case_decide as Ek2; [subst|by apply (Hd ("metadata" :: k2 :: r)); simpl; rewrite Hmd].
    destruct r as [|k3 r]; simpl in Hp; [simplify_eq; by apply dict_set_wf|].
    rewrite dict_get_set in Hp. case_decide as Ek3.
    + destruct r; simpl in Hp; [by simplify_eq|]. by destruct value.
    + destruct Hll as [Hll|[-> _]]; [|done].
      apply (Hd ("metadata" :: "labels" :: k3 :: r)). simpl. by rewrite Hmd, Hll.
  - destruct (modify_at_above _ _ _ _ _ Hl Hm p k r Hc) as (d0 & d2 & Hd0 & Hd2 & Hk & _).
    rewrite Hp in Hd2. injection Hd2 as <-. unfold dict_wf. rewrite Hk. by apply (Hwf p).
  - rewrite (modify_at_outside _ _ _ _ _ Hl Hm _ Hd) in Hp. by apply (Hwf p).
Qed.
End Visit.

(** The visits that a node can still cause: its dictionaries, and for each one
    with metadata a new dictionary of labels with its entry. *)
Fixpoint weight (v : pyval) : nat :=
  match v with
  | VDict d =>
      ((if dict_mem "metadata" d then 3 else 1) +
       (fix go (d : list (string * pyval)) : nat :=
          match d with [] => O | (_, w) :: d' => weight w + go d' end) d)%nat
  | _ => 1
  end.

Definition wsum (d : list (string * pyval)) : nat := sum_list (map (fun kv => weight kv.2) d).

Lemma weight_dict d : weight (VDict d) = ((if dict_mem "metadata" d then 3 else 1) + wsum d)%nat.
Proof. cbn [weight]. f_equal. unfold wsum. induction d as [|[k w] d IH]; [done|]. simpl. by rewrite IH. Qed.

Lemma weight_pos v : (1 <= weight v)%nat.
Proof. destruct v as [| | | | |d]; try (simpl; lia). rewrite weight_dict. destruct (dict_mem _ _); lia. Qed.

Lemma weight_label_fuel v : (weight v <= label_fuel v)%nat.
Proof.
  revert v. fix IH 1. intros [| | | | |d]; try (simpl; lia). rewrite weight_dict. cbn [label_fuel].
  assert (H : (wsum d <= (fix go (d : list (string * pyval)) : nat :=
             match d with [] => O | (_, w) :: d' => label_fuel w + go d' end) d)%nat).
  { unfold wsum. induction d as [|[k w] d IHd]; [simpl; lia|]. simpl. specialize (IH w). lia. }
  destruct (dict_mem _ _); lia.
Qed.

Lemma wsum_set d k w :
  (wsum (dict_set d k w) + match dict_get d k with Some w0 => weight w0 | None => 0 end = wsum d + weight w)%nat.
Proof.
  unfold wsum. induction d as [|[k' w'] d IH]; simpl; [lia|]. case_decide; simpl; lia.
Qed.

(** The children of a dictionary by their keys. *)
Lemma wsum_keys d :
  dict_wf d -> sum_list (map (fun k => weight (default VNone (dict_get d k))) (dict_keys d)) = wsum d.
Proof.
  intros Hwf. unfold wsum, dict_keys.
  assert (H : forall d1, (forall kv, kv ∈ d1 -> kv ∈ d) ->
    sum_list (map (fun k => weight (default VNone (dict_get d k))) (map fst d1)) =
    sum_list (map (fun kv => weight kv.2) d1)); [|by apply H].
  induction d1 as [|[k v] d1 IH]; intros Hin; [done|]. simpl.
  rewrite (dict_in_get d k v Hwf) by (apply Hin; set_solver). simpl.
  rewrite IH; [done|]. intros kv Hkv. apply Hin. set_solver.
Qed.

Lemma dict_mem_set_ne {V} (d : dict string V) k k' v : k <> k' -> dict_mem k' (dict_set d k v) = dict_mem k' d.
Proof. intros. unfold dict_mem. by rewrite dict_get_set_ne. Qed.

(** Pending references stand side by side. *)
Fixpoint antichain (l : list (list string)) : Prop :=
  match l with [] => True | x :: l' => Forall (diverge x) l' /\ antichain l' end.

Lemma antichain_app l1 l2 :
  antichain l1 -> antichain l2 -> (forall x y, x ∈ l1 -> y ∈ l2 -> diverge x y) -> antichain (l1 ++ l2)%list.
Proof.
  induction l1 as [|x l1 IH]; simpl; [done|]. intros [Hx H1] H2 H12. split.
  - apply Forall_app. split; [done|]. apply Forall_forall. intros y Hy. apply H12; set_solver.
  - apply IH; [done..|]. intros. apply H12; set_solver.
Qed.

Lemma antichain_children c ks : NoDup ks -> antichain (map (fun k => c ++ [k])%list ks).
Proof.
  induction 1 as [|k ks Hni Hnd IH]; simpl; [done|]. split; [|done].
  apply Forall_forall. intros y (k' & -> & Hk')%list_elem_of_fmap. apply diverge_snoc. intros ->. done.
Qed.

Definition total (tree : pyval) (nodes : list (list string)) : nat :=
  sum_list (map (fun q => weight (default VNone (lookup_path q tree))) nodes).

Lemma total_app tree l1 l2 : total tree (l1 ++ l2)%list = (total tree l1 + total tree l2)%nat.
Proof. unfold total. rewrite map_app. induction (map _ l1); simpl; lia. Qed.

Section Termination.
Context (key : string) (value : pyval) (Hvalue : scalar value = true) (Hkey : key <> "metadata").

Lemma scalar_weight v : scalar v = true -> weight v = 1%nat.
Proof. by destruct v. Qed.

(** One visit uses up at least one unit of the node's weight. *)
Lemma visit_weight d d' :
  label_node key value (VDict d) = Ok (VDict d') -> (S (wsum d') <= weight (VDict d))%nat.
Proof.
  intros [[[= ->] _]|(m & l & Hmd & _ & Hl & [= ->])]%label_node_cases; rewrite weight_dict.
  - case_match; lia.
  - unfold dict_mem at 1. rewrite Hmd.
    pose proof (wsum_set d "metadata" (VDict (dict_set m "labels" (VDict (dict_set l key value))))) as H1.
    rewrite Hmd, !weight_dict in H1. rewrite dict_mem_set_ne in H1 by done.
    pose proof (wsum_set m "labels" (VDict (dict_set l key value))) as H2. rewrite weight_dict in H2.
    rewrite dict_mem_set_ne in H2 by done.
    pose proof (wsum_set l key value) as H3. rewrite (scalar_weight value Hvalue) in H3.
    destruct Hl as [Hl|[-> Hl]].
    + rewrite Hl, weight_dict in H2. repeat case_match; lia.
    + destruct (dict_get m "labels") as [x|]; [pose proof (weight_pos x)|];
        cbn in H3; cbn [dict_mem dict_get] in *; unfold wsum in *; simpl in *; repeat case_match; lia.
Qed.

Lemma total_diverge c f v v' tree tree' nodes :
  f v = Ok v' -> lookup_path c tree = Some v -> modify_at c f tree = Ok tree' ->
  Forall (diverge c) nodes -> total tree' nodes = total tree nodes.
Proof.
  intros Hf Hl Hm Hd. unfold total. induction Hd as [|q nodes Hq Hd IH]; [done|]. simpl. rewrite IH.
  by rewrite (modify_at_outside _ _ _ _ _ Hl Hm) by by apply diverge_sym.
Qed.

Lemma label_loop_ends fuel nodes tree :
  tree_wf tree -> antichain nodes -> (total tree nodes <= fuel)%nat ->
  exists r, label_loop fuel key value nodes tree = Some r.
Proof.
  revert nodes tree. induction fuel as [|fuel IH]; intros [|c nodes] tree Hwf Hanti Hfuel; cbn [label_loop]; eauto.
  { unfold total in Hfuel. simpl in Hfuel. pose proof (weight_pos (default VNone (lookup_path c tree))). lia. }
  change (c :: nodes) with ([c] ++ nodes)%list in Hfuel. rewrite total_app in Hfuel. destruct Hanti as [Hc Hanti].
  unfold total at 1 in Hfuel. simpl in Hfuel.
  destruct (lookup_path c tree) as [w|] eqn:Hl; [|apply IH; simpl in Hfuel; [done..|lia]].
  simpl in Hfuel. pose proof (weight_pos w).
  destruct w as [| | | | |d]; try (apply IH; [done..|lia]).
  destruct (label_node key value (VDict d)) as [v'|e] eqn:Hv.
  2: { rewrite (modify_at_raises _ _ _ _ _ Hl Hv). eauto. }
  destruct (modify_at_ok (label_node key value) c _ _ Hv tree Hl) as [tree' Hm]. rewrite Hm.
  pose proof (modify_at_inside _ _ _ _ Hv _ _ Hl Hm) as Hin.
  pose proof (Hin []) as Hin0. rewrite app_nil_r in Hin0. rewrite Hin0. cbn [lookup_path default id].
  destruct (label_node_labels key value d v' Hv) as (d' & -> & Hkeys & _ & _). cbn [keys_of].
  assert (Hwf' : tree_wf tree') by (eapply (tree_wf_step key value); [exact Hvalue|exact Hl|exact Hv|exact Hm|exact Hwf]).
  assert (Hd' : dict_wf d') by (apply (Hwf' c); by rewrite Hin0).
  apply IH; [done| |].
  - apply antichain_app; [done|by apply antichain_children|].
    intros x y Hx (k & -> & Hk)%list_elem_of_fmap. apply diverge_sym, diverge_app.
    rewrite Forall_forall in Hc. by apply Hc.
  - rewrite total_app, (total_diverge c _ _ _ _ _ _ Hv Hl Hm Hc).
    replace (total tree' _) with (wsum d').
    + pose proof (visit_weight d d' Hv). lia.
    + rewrite <- (wsum_keys d') by done. unfold total. rewrite map_map. f_equal. apply map_ext. intros k.
      rewrite Hin. simpl. by destruct (dict_get d' k).
Qed.
End Termination.

(** What [add_label] leaves alone, in one object. *)
Lemma add_label_obj_frame key value obj obj' p w :
  scalar value = true -> add_label_obj key value obj = Ok obj' ->
  untouched key p w -> lookup_path p obj = Some w -> lookup_path p obj' = Some w.
Proof.
  intros Hvalue Hadd Hu. unfold add_label_obj in Hadd. destruct (truthy obj); [|by injection Hadd as <-].
  destruct (label_loop _ _ _ _ _) as [r|] eqn:E; [|done]. subst r. intros Hp.
  by eapply label_loop_frame.
Qed.

Lemma untouched_path key p w :
  leaf w = true -> "metadata" ∉ p -> untouched key p w.
Proof.
  intros Hl Hp. split; [done|]. split; [right; intros q ->|intros q r ->]; apply Hp; set_solver.
Qed.

(** ** Properties *)

(** C36: [add_label] on one object, for a label whose key is not the word
    metadata.  It ends; and when it succeeds, every dictionary below the object
    (reached through dictionaries) that has metadata carries the label there,
    and every value that is no dictionary, unless it is empty where labels go or
    below such a label, is still in its place. *)
Theorem add_label_everywhere key value obj
    (Hkey : key <> "metadata") (Hvalue : scalar value = true) (Hwf : tree_wfb obj = true)
    (Hobj : truthy obj = true) :
  (exists r, label_loop (label_fuel obj) key value [[]] obj = Some r) /\
  forall obj', add_label_obj key value obj = Ok obj' ->
    (forall p d m, lookup_path p obj' = Some (VDict d) -> dict_get d "metadata" = Some m -> truthy m = true ->
       lookup_path (p ++ ["metadata"; "labels"; key])%list obj' = Some value) /\
    (forall p w, untouched key p w -> lookup_path p obj = Some w -> lookup_path p obj' = Some w).
Proof.
  assert (Hend : exists r, label_loop (label_fuel obj) key value [[]] obj = Some r).
  { apply label_loop_ends; [done..|by apply tree_wfb_wf|simpl; by split|].
    unfold total. simpl. pose proof (weight_label_fuel obj). lia. }
  split; [done|]. intros obj' Hadd. unfold add_label_obj in Hadd. rewrite Hobj in Hadd.
  destruct Hend as [r Hr]. rewrite Hr in Hadd. subst r. split.
  - intros p d m Hp Hmd Ht.
    assert (H0 : pending_or_labelled key value [[]] obj).
    { intros p0 d0 m0 _ _ _. left. exists [], p0. split; [set_solver|done]. }
    destruct (label_loop_labels key value Hvalue (label_fuel obj) [[]] obj obj' Hkey H0 Hr p d m Hp Hmd Ht)
      as [(q & r & Hq & _)|Hl]; [by apply elem_of_nil in Hq|done].
  - intros p w Hu Hp. by apply (label_loop_frame key value (label_fuel obj) [[]] obj obj').
Qed.

(** ** A label called metadata *)

(** The labels of the object itself hold a text under the key metadata, and
    the loop has not visited them yet. *)
Definition poisoned (value : string) (nodes : list (list string)) (tree : pyval) : Prop :=
  (exists l, lookup_path ["metadata"; "labels"] tree = Some (VDict l) /\
             dict_get l "metadata" = Some (VStr value)) /\
  exists q r, q ∈ nodes /\ ["metadata"; "labels"] = (q ++ r)%list.

Lemma poisoned_step value c d d' tree tree' nodes :
  value <> "" -> lookup_path c tree = Some (VDict d) ->
  label_node "metadata" (VStr value) (VDict d) = Ok (VDict d') ->
  modify_at c (label_node "metadata" (VStr value)) tree = Ok tree' ->
  poisoned value (c :: nodes) tree -> poisoned value (nodes ++ map (fun k => c ++ [k]) (dict_keys d'))%list tree'.
Proof.
  intros Hvalue Hl Hv Hm [(l & Hll & Hlm) (q & r & Hq & Hqr)].
  pose proof (modify_at_inside _ _ _ _ Hv _ _ Hl Hm) as Hin.
  assert (Hkeep : exists l', lookup_path ["metadata"; "labels"] tree' = Some (VDict l') /\
                             dict_get l' "metadata" = Some (VStr value)).
  { destruct (path_cmp ["metadata"; "labels"] c) as [[r0 Hc]|[(k & r0 & Hc)|Hd]].
    - rewrite Hc in Hll |- *. rewrite Hin. rewrite lookup_path_app, Hl in Hll.
      apply label_node_cases in Hv as [[[= ->] _]|(m & l0 & Hmd & _ & Hl0 & [= ->])]; [eauto|].
      destruct c as [|c1 [|c2 c]]; simplify_eq/=.
      + rewrite dict_get_set_eq. simpl. rewrite dict_get_set_eq. rewrite Hmd in Hll.
        exists (dict_set l0 "metadata" (VStr value)). split; [done|]. apply dict_get_set_eq.
      + rewrite dict_get_set_ne by done. eauto.
      + destruct c; simplify_eq/=.
    - destruct (modify_at_above _ _ _ _ _ Hl Hm ["metadata"; "labels"] k r0 Hc) as (d0 & d1 & H0 & H1 & _ & Hoff).
      exists d1. split; [done|]. rewrite Hll in H0. injection H0 as <-.
      rewrite Hoff; [done|]. intros <-. subst c. change ("metadata" :: "labels" :: "metadata" :: r0)
        with (["metadata"; "labels"] ++ "metadata" :: r0)%list in Hl.
      rewrite lookup_path_app, Hll in Hl. cbn [lookup_path] in Hl. rewrite Hlm in Hl. by destruct r0.
    - exists l. by rewrite (modify_at_outside _ _ _ _ _ Hl Hm). }
  split; [done|]. apply elem_of_cons in Hq as [->|Hq]; [|exists q, r; set_solver].
  destruct Hkeep as (l' & Hl' & _). destruct r as [|k r].
  - rewrite app_nil_r in Hqr. subst c. rewrite Hll in Hl. injection Hl as <-.
    cbn [label_node] in Hv. rewrite Hlm in Hv. cbn [truthy] in Hv.
    apply String.eqb_neq in Hvalue. by rewrite Hvalue in Hv.
  - exists (c ++ [k])%list, r. rewrite <- app_assoc. split; [|done].
    rewrite Hqr, Hin in Hl'. cbn [lookup_path] in Hl'.
    destruct (dict_get d' k) eqn:E; [|done].
    apply elem_of_app. right. apply list_elem_of_fmap. exists k. split; [done|].
    apply dict_get_is_Some. by rewrite E.
Qed.

Lemma poisoned_loop value fuel nodes tree tree' :
  value <> "" -> poisoned value nodes tree -> label_loop fuel "metadata" (VStr value) nodes tree <> Some (Ok tree').
Proof.
  intros Hvalue. revert nodes tree.
  induction fuel as [|fuel IH]; intros [|c nodes] tree Hp; cbn [label_loop]; try done;
    try (destruct Hp as [_ (q & r & Hq & _)]; by apply elem_of_nil in Hq).
  assert (Hskip : (forall d, lookup_path c tree <> Some (VDict d)) -> poisoned value nodes tree).
  { intros Hno. destruct Hp as [(l & Hl & Hlm) (q & r & [->|Hq]%elem_of_cons & Hqr)]; [|split; eauto].
    exfalso. rewrite Hqr in Hl. rewrite lookup_path_app in Hl.
    destruct (lookup_path c tree) as [w|] eqn:E; [|done]. destruct r as [|k r]; simpl in Hl; simplify_eq.
    - by apply (Hno l).
    - destruct w as [| | | | |d]; try done. by apply (Hno d). }
  destruct (lookup_path c tree) as [[| | | | |d]|] eqn:Hl; try (apply IH, Hskip; congruence).
  destruct (label_node "metadata" (VStr value) (VDict d)) as [v'|e] eqn:Hv.
  2: { rewrite (modify_at_raises _ _ _ _ _ Hl Hv). done. }
  destruct (modify_at c (label_node "metadata" (VStr value)) tree) as [t|e] eqn:Hm; [|done].
  pose proof (modify_at_inside _ _ _ _ Hv _ _ Hl Hm []) as Hin0. rewrite app_nil_r in Hin0. rewrite Hin0.
  cbn [lookup_path default id]. apply IH.
  destruct (label_node_labels "metadata" (VStr value) d v' Hv) as (d' & -> & _).
  by apply (poisoned_step value c d d' tree t nodes).
Qed.

(** A custom label called metadata, which the label syntax allows, makes
    [add_label] fail on every object that has labels: the loop meets its own
    label below the metadata and takes it for metadata. *)
Theorem add_label_metadata_fails value d m l
    (Hd : dict_get d "metadata" = Some (VDict m)) (Hm : dict_get m "labels" = Some (VDict l))
    (Hl : l <> []) (Hvalue : value <> "") obj' :
  add_label_obj "metadata" (VStr value) (VDict d) <> Ok obj'.
Proof.
  unfold add_label_obj. destruct d as [|kv d]; [done|]. cbn [truthy]. set (obj := VDict (kv :: d)) in *.
  assert (Hv : label_node "metadata" (VStr value) obj =
    Ok (VDict (dict_set (kv :: d) "metadata" (VDict (dict_set m "labels" (VDict (dict_set l "metadata" (VStr value)))))))).
  { unfold obj. cbn [label_node]. rewrite Hd. destruct m as [|mv m]; [done|]. cbn [truthy]. rewrite Hm.
    cbn [default id]. by destruct l. }
  destruct (label_fuel obj) as [|fuel] eqn:Hf; [discriminate Hf|]. cbn [label_loop lookup_path].
  unfold obj at 1. cbn [modify_at]. rewrite Hv. cbn [default id lookup_path keys_of].
  destruct (label_loop fuel _ _ _ _) as [[t|e]|] eqn:E; try done.
  exfalso. revert E. apply poisoned_loop; [done|]. split.
  - cbn [lookup_path]. rewrite dict_get_set_eq. cbn [lookup_path]. rewrite dict_get_set_eq.
    eexists. split; [reflexivity|]. apply dict_get_set_eq.
  - exists ["metadata"], ["labels"]. split; [|done]. cbn [app]. apply list_elem_of_fmap.
    exists "metadata". split; [done|]. rewrite dict_keys_set. case_decide; [done|]. set_solver.
Qed.

Module Witness.
Definition job : pyval :=
  VDict [("kind", VStr "Job"); ("metadata", VDict [("name", VStr "b-1")]);
         ("spec", VDict [("template", VDict [("metadata", VDict [("labels", VDict [("app", VStr "x")])]);
                                             ("spec", VDict [("restartPolicy", VStr "Never")])])])].

Lemma add_label_everywhere_witness :
  exists job', add_label_obj "team" (VStr "a") job = Ok job' /\
    lookup_path ["metadata"; "labels"; "team"] job' = Some (VStr "a") /\
    lookup_path ["spec"; "template"; "metadata"; "labels"; "team"] job' = Some (VStr "a") /\
    lookup_path ["spec"; "template"; "spec"; "restartPolicy"] job' = Some (VStr "Never").
Proof.
  destruct (add_label_everywhere "team" (VStr "a") job) as [_ H]; [discriminate|reflexivity..|].
  destruct (add_label_obj "team" (VStr "a") job) as [job'|e] eqn:E; [|vm_compute in E; discriminate].
  destruct (H job' eq_refl) as [Hlab Hframe]. exists job'. split; [reflexivity|].
  injection E as <-. split; [|split].
  - eapply (Hlab []); reflexivity.
  - eapply (Hlab ["spec"; "template"]); reflexivity.
  - apply Hframe; [|reflexivity]. split; [reflexivity|]. split; [by left|].
    intros [|q1 [|q2 [|q3 [|q4 [|q5 q]]]]] r Hq; simplify_eq/=.
Defined.

Definition job2 : list (string * pyval) := [("metadata", VDict [("labels", VDict [("app", VStr "x")])])].

Lemma add_label_metadata_fails_witness :
  add_label_obj "metadata" (VStr "a") (VDict job2) = Raise (AttributeError "object has no attribute") /\
  forall obj', add_label_obj "metadata" (VStr "a") (VDict job2) <> Ok obj'.
Proof.
  split; [vm_compute; reflexivity|]. intros obj'.
  by apply (add_label_metadata_fails "a" job2 [("labels", VDict [("app", VStr "x")])] [("app", VStr "x")]).
Defined.
End Witness.
