(* ===== verification/BaiKnowledge.v ===== *)
(** * The transpiler (transpiler/bai_knowledge.py, transpiler/config.py)

    From a benchmark descriptor to Kubernetes documents: the builders that fill
    a template and edit the parsed objects, one per strategy, and the functions
    that choose the builder.  A builder shares its descriptor with the others;
    computing the metrics encodes the patterns inside it, so the descriptor is
    part of the state. *)

From S2P Require Import Prelude PyStr PyLib Events Descriptor K8sSpec.

(** ** Configuration *)

Record BaiConfig := mkBaiConfig {
  puller_mount_chmod : string;
  puller_docker_image : string;
  cron_job_docker_image : string;
  metrics_pusher_docker_image : string;
  metrics_extractor_docker_image : string;
  job_status_trigger_docker_image : string;
  suppress_job_affinity : bool
}.

Record EnvironmentInfo := mkEnvInfo { availability_zones : dict string string }.

Record ExecutorConfig := mkExecutorConfig {
  descriptor_config : DescriptorConfig;
  bai_config : BaiConfig;
  environment_info : EnvironmentInfo;
  kubectl : string;
  valid_execution_engines : list string
}.

Record BaiScriptSource := mkScript { script_scheme : string; script_bucket : string; script_object : string }.

(** [BaiScriptSource.__init__]. *)
Definition BaiScriptSource_init (fetched_script : FileSystemObject) : Res BaiScriptSource :=
  parsed_uri <~ urlparse (fso_dst fetched_script) ;;
  if String.eqb (lower (scheme parsed_uri)) "s3" then
    Ok (mkScript (scheme parsed_uri) (netloc parsed_uri) (str_drop 1 (path parsed_uri)))
  else Raise (DescriptorError ("Unexpected scheme in script src: " +:+ scheme parsed_uri +:+
                ". Fetched script is FileSystemObject(dst='" +:+ fso_dst fetched_script +:+ "')")).

(** ** Constants *)

Definition SERVICE_NAME : string := "executor".
Definition SCRIPT_UNPACK_MODIFICATOR : string := "unpack_in_place".
Definition SCRIPT_PULLER_CHMOD : Z := 777.
Definition BENCHMARK_CONTAINER : string := "benchmark".
Definition DATA_PULLER_CONTAINER : string := "data-puller".
Definition METRICS_PUSHER_CONTAINER : string := "metrics-pusher".
Definition METRICS_EXTRACTOR_CONTAINER : string := "metrics-extractor".
Definition DATASETS_VOLUME_NAME : string := "datasets-volume".
Definition SCRIPTS_VOLUME_NAME : string := "scripts-volume".
Definition SCRIPTS_PULLER_CONTAINER : string := "script-puller".
Definition INFERENCE_SERVER_LOCK_CONTAINER : string := "inference-server-lock".
Definition INFERENCE_SERVER_CONTAINER : string := "inference-server".
Definition SCRIPTS_MOUNT_PATH : string := "/bai/scripts".
Definition SHARED_MEMORY_VOLUME : string := "dshm".
Definition SHARED_MEMORY_VOLUME_MOUNT : string := "/dev/shm".
Definition BENCHMARK_SERVICE_ACCOUNT : string := "benchmark".
Definition INFERENCE_SERVER_SERVICE_ACCOUNT : string := "inference-benchmark".
Definition METRICS_PUSHER_CUSTOM_LABEL_PREFIX : string := "custom_label_".

Record PullerDataSource := mkPuller { puller_name : string; puller_path : string }.

(** ** Pure parts *)

(** [random_object.choice(l)]; [rand] is the draw. *)
Definition random_choice (rand : nat) (l : list string) : Res string :=
  match l with
  | [] => Raise (IndexError "Cannot choose from an empty sequence")
  | x :: _ => Ok (nth (rand mod length l) l x)
  end.

Definition choose_availability_zone (descriptor : BenchmarkDescriptor) (environment_info : EnvironmentInfo)
    (rand : nat) : Res string :=
  let hw := bh_hardware (hardware descriptor) in
  let zones := availability_zones environment_info in
  if str_truthy (hw_availability_zone hw) then
    let az := default "" (hw_availability_zone hw) in
    if bool_decide (az ∈ dict_values zones) then Ok az
    else Raise (DescriptorError ("Invalid zone name " +:+ az))
  else if str_truthy (hw_aws_zone_id hw) then
    let id := default "" (hw_aws_zone_id hw) in
    match dict_get zones id with
    | Some az => Ok az
    | None => Raise (DescriptorError ("Invalid zone id " +:+ id))
    end
  else random_choice rand (dict_values zones).

(** [_get_data_mounts]: one mount per distinct path, named after the first
    source with that path. *)
Fixpoint data_mounts_from (idx : nat) (data_sources : list DownloadableContent)
    (data_vols : dict string PullerDataSource) : dict string PullerDataSource :=
  match data_sources with
  | [] => data_vols
  | s :: rest =>
      let data_vols :=
        if dict_mem (dc_path s) data_vols then data_vols
        else let name := "p" +:+ pretty idx in
             dict_set data_vols (dc_path s) (mkPuller name ("/data/" +:+ name)) in
      data_mounts_from (S idx) rest data_vols
  end.

Definition get_data_mounts (data_sources : list DownloadableContent) : dict string PullerDataSource :=
  data_mounts_from 0 data_sources [].

Definition VolumeMount (name mount_path : string) (sub_path : option string) : pyval :=
  VDict ([("name", VStr name); ("mountPath", VStr mount_path)] ++
         match sub_path with Some s => [("subPath", VStr s)] | None => [] end)%list.

Definition get_container_volume_mounts (data_volumes : dict string PullerDataSource) : list pyval :=
  map (fun '(dest_path, vol) => VolumeMount DATASETS_VOLUME_NAME dest_path (Some (puller_name vol))) data_volumes.

(** [split_args]. *)
Definition split_args (command : option string) : Res (list string) :=
  if str_truthy command then shlex_split (default "" command) else Ok [].

(** The strings of a list, as a value. *)
Definition VStrs (l : list string) : pyval := VList (map VStr l).

Definition create_scripts (scripts : list FileSystemObject) : Res (list BaiScriptSource) :=
  res_map BaiScriptSource_init scripts.

(** The values that a template can refer to; the descriptor is a reference. *)
Inductive TVar : Type :=
| TDescriptorRef
| TDescriptor (d : BenchmarkDescriptor)
| TConfig (c : BaiConfig)
| TEvent (e : Event)
| TStr (s : string).

Definition resolve_var (d : BenchmarkDescriptor) (v : TVar) : TVar :=
  match v with TDescriptorRef => TDescriptor d | _ => v end.

(** ** The state of a builder *)

Record Bld := mkBld {
  b_job_id : string;
  b_inference_server_job_id : string;
  b_template : ConfigTemplate (V := TVar);
  b_config : BaiConfig;
  b_event : Event;
  b_root : option KRoot;
  b_data_sources : list DownloadableContent;
  b_scripts : list BaiScriptSource;
  b_environment_info : EnvironmentInfo;
  b_fetched_models : list DownloadableContent;
  b_rand : nat;
  b_internal_env_vars : dict string pyval;
  b_descriptor : BenchmarkDescriptor
}.

Definition set_b_root (r : option KRoot) (b : Bld) : Bld :=
  mkBld (b_job_id b) (b_inference_server_job_id b) (b_template b) (b_config b) (b_event b) r
    (b_data_sources b) (b_scripts b) (b_environment_info b) (b_fetched_models b) (b_rand b)
    (b_internal_env_vars b) (b_descriptor b).
Definition set_b_template (t : ConfigTemplate) (b : Bld) : Bld :=
  mkBld (b_job_id b) (b_inference_server_job_id b) t (b_config b) (b_event b) (b_root b)
    (b_data_sources b) (b_scripts b) (b_environment_info b) (b_fetched_models b) (b_rand b)
    (b_internal_env_vars b) (b_descriptor b).
Definition set_b_internal (e : dict string pyval) (b : Bld) : Bld :=
  mkBld (b_job_id b) (b_inference_server_job_id b) (b_template b) (b_config b) (b_event b) (b_root b)
    (b_data_sources b) (b_scripts b) (b_environment_info b) (b_fetched_models b) (b_rand b) e (b_descriptor b).
Definition set_b_descriptor (d : BenchmarkDescriptor) (b : Bld) : Bld :=
  mkBld (b_job_id b) (b_inference_server_job_id b) (b_template b) (b_config b) (b_event b) (b_root b)
    (b_data_sources b) (b_scripts b) (b_environment_info b) (b_fetched_models b) (b_rand b)
    (b_internal_env_vars b) d.

(** An operation of [self.root]. *)
Definition on_root {A} (m : M KRoot A) : M Bld A :=
  fun b => match b_root b with
           | None => (Raise (AttributeError "'NoneType' object has no attribute"), b)
           | Some k => let (r, k') := m k in (r, set_b_root (Some k') b)
           end.

Definition feed_one (k : string) (v : TVar) : M Bld unit :=
  modify (fun b => set_b_template (feed [(k, v)] (b_template b)) b).

(** [for label, value in self.descriptor.info.labels.items()]. *)
Definition for_labels (f : string -> string -> M Bld unit) : M Bld unit :=
  d <- gets b_descriptor ;;
  match info_labels (info d) with
  | Some labels => for_each (fun '(label, value) => f label value) labels
  | None => raise (AttributeError "'NoneType' object has no attribute 'items'")
  end.

(** ** Metrics *)

Definition encode_metric (m : MetricDescriptor) : MetricDescriptor :=
  mkMetric (metric_name m) (metric_units m) (b64encode (metric_pattern m)).

Definition metric_asdict (m : MetricDescriptor) : pyval :=
  VDict [("name", VStr (metric_name m)); ("units", VStr (metric_units m)); ("pattern", VStr (metric_pattern m))].

Definition encode_output (o : OutputDescriptor) : OutputDescriptor :=
  mkOutput (map encode_metric (output_metrics o)).

Definition set_output (o : option OutputDescriptor) (d : BenchmarkDescriptor) : BenchmarkDescriptor :=
  mkDescriptor (spec_version d) (info d) (hardware d) (env d) o (ml d) (data d) (custom_params d) (server d).

Definition set_server_output (o : option OutputDescriptor) (d : BenchmarkDescriptor) : BenchmarkDescriptor :=
  mkDescriptor (spec_version d) (info d) (hardware d) (env d) (output d) (ml d) (data d) (custom_params d)
    ((fun s => mkServer (server_hardware s) (server_env s) (server_models s) o) <$> server d).

Definition dump_metrics (o : OutputDescriptor) : string :=
  json_dumps (VList (map metric_asdict (output_metrics o))).

(** [get_metrics_from_descriptor]: the patterns are encoded in place. *)
Definition get_metrics_from_descriptor : M Bld string :=
  d <- gets b_descriptor ;;
  match output d with
  | None => ret (json_dumps (VList []))
  | Some o =>
      let o' := encode_output o in
      modify (set_b_descriptor (set_output (Some o') d)) ;; ret (dump_metrics o')
  end.

Definition get_server_metrics_from_descriptor : M Bld string :=
  d <- gets b_descriptor ;;
  if is_inference_strategy d then
    match server d with
    | None => raise (AttributeError "'NoneType' object has no attribute 'output'")
    | Some srv =>
        match server_output srv with
        | None => ret (json_dumps (VList []))
        | Some o =>
            let o' := encode_output o in
            modify (set_b_descriptor (set_server_output (Some o') d)) ;; ret (dump_metrics o')
        end
    end
  else ret (json_dumps (VList [])).

(** ** The edits *)

Section Builder.
(** Package data and other packages: the text of a template, [str.format] with
    the YAML parser, the YAML dumper, [event.to_json()] and the [repr] of a
    downloaded content (for an error message). *)
Context (read_template : string -> string).
Context (load_docs : string -> dict string TVar -> Res (list pyval)).
Context (dump_all : list pyval -> string).
Context (event_to_json : Event -> string).
Context (repr_content : DownloadableContent -> string).

(** [BaiKubernetesObjectBuilder.__init__].  The fields that only the subclasses
    have start empty: the base class never reads them. *)
Definition builder_init (job_id : string) (descriptor : BenchmarkDescriptor) (config : BaiConfig)
    (template_name : string) (event : Event) : Bld :=
  let jid := lower job_id in
  let is_jid := "is-" +:+ jid in
  let t := feed [("descriptor", TDescriptorRef)] (mkTemplate (read_template template_name) []) in
  let t := feed [("config", TConfig config)] t in
  let t := feed [("event", TEvent event)] t in
  let t := feed [("service_name", TStr SERVICE_NAME)] t in
  let t := feed [("job_id", TStr jid)] t in
  let t := feed [("inference_server_job_id", TStr is_jid)] t in
  mkBld jid is_jid t config event None [] [] (mkEnvInfo []) [] 0 [] descriptor.

(** [BenchmarkKubernetesObjectBuilder.__init__]; [random_object] is the draw. *)
Definition benchmark_builder_init (descriptor : BenchmarkDescriptor) (config : BaiConfig)
    (data_sources : list DownloadableContent) (scripts : list BaiScriptSource) (job_id template_name : string)
    (event : Event) (environment_info : EnvironmentInfo) (random_object : nat) : Bld :=
  let b := builder_init job_id descriptor config template_name event in
  mkBld (b_job_id b) (b_inference_server_job_id b) (b_template b) (b_config b) (b_event b) (b_root b)
    data_sources scripts environment_info (b_fetched_models b) random_object [] (b_descriptor b).

(** [InferenceServerJobKubernetedObjectBuilder.__init__]. *)
Definition inference_server_builder_init (descriptor : BenchmarkDescriptor) (config : BaiConfig) (job_id : string)
    (fetched_models : list DownloadableContent) (event : Event) (environment_info : EnvironmentInfo)
    (random_object : nat) : Bld :=
  let b := benchmark_builder_init descriptor config [] [] job_id "inference_server_job.yaml" event environment_info
             random_object in
  mkBld (b_job_id b) (b_inference_server_job_id b) (b_template b) (b_config b) (b_event b) (b_root b)
    (b_data_sources b) (b_scripts b) (b_environment_info b) fetched_models (b_rand b) (b_internal_env_vars b)
    (b_descriptor b).

(** [ScheduledBenchmarkKubernetedObjectBuilder.__init__]. *)
Definition scheduled_builder_init (descriptor : BenchmarkDescriptor) (config : BaiConfig) (job_id : string)
    (event : Event) : Bld := builder_init job_id descriptor config "cron_job.yaml" event.

(** [self.config_template.build()]. *)
Definition build_root : M Bld unit :=
  b <- get ;;
  let t := b_template b in
  let vars := map (fun '(k, v) => (k, resolve_var (b_descriptor b) v)) (template_variables t) in
  k <- lift (template_build load_docs (mkTemplate (yaml_template_contents t) vars)) ;;
  modify (set_b_root (Some k)).

(** [build], over the two methods that the subclasses define; the result tells
    whether it returned the builder. *)
Definition build (feed_additional update_root : M Bld unit) : M Bld bool :=
  b <- get ;;
  match b_root b with
  | Some _ => ret false
  | None =>
      feed_additional ;;
      build_root ;;
      for_labels (fun label value => on_root (add_label label (VStr value))) ;;
      update_root ;;
      ret true
  end.

(** [BenchmarkKubernetesObjectBuilder._feed_additional_template_values]. *)
Definition feed_benchmark_values : M Bld unit :=
  b <- get ;;
  availability_zone <- lift (choose_availability_zone (b_descriptor b) (b_environment_info b) (b_rand b)) ;;
  feed_one "availability_zone" (TStr availability_zone) ;;
  metrics <- get_metrics_from_descriptor ;;
  feed_one "metrics" (TStr metrics).

Definition append_env (name : string) (value : pyval) (container : pyval) : Res pyval :=
  match container with
  | VDict d =>
      match dict_get d "env" with
      | None => Ok container
      | Some (VList l) =>
          Ok (VDict (dict_set d "env" (VList (l ++ [VDict [("name", VStr name); ("value", value)]])%list)))
      | Some _ => attribute_error
      end
  | _ => attribute_error
  end.

Definition add_metrics_pusher_env_var (key : string) (value : pyval) (prefix : string) (kw : Kw) : M Bld unit :=
  let env_var_name := upper prefix +:+ upper key in
  found <- try_except (on_root (find_container METRICS_PUSHER_CONTAINER kw) ;; ret true)
             (fun e => match e with ValueError _ => ret false | _ => raise e end) ;;
  if (found : bool)
  then on_root (modify_container METRICS_PUSHER_CONTAINER kw (append_env env_var_name value))
  else ret tt.

Definition server_of : M Bld ServerDescriptor :=
  d <- gets b_descriptor ;;
  match server d with
  | Some s => ret s
  | None => raise (AttributeError "'NoneType' object has no attribute 'env'")
  end.

Definition server_port_vars (ports : list Z) : dict string pyval :=
  imap (fun index port => ("INFERENCE_SERVER_PORT_" +:+ pretty (index + 1)%nat, VInt port)) ports.

(** The guard of [add_server_env_vars] tests a method, which is true. *)
Definition add_server_env_vars : M Bld unit :=
  b <- get ;;
  srv <- server_of ;;
  match senv_ports (server_env srv) with
  | [] => raise (IndexError "list index out of range")
  | port :: ports =>
      let env_vars :=
        dict_update [("INFERENCE_SERVER_HOST", VStr (b_inference_server_job_id b +:+ ".default"));
                     ("INFERENCE_SERVER_PORT", VInt port)] (server_port_vars ports) in
      on_root (k_add_env_vars BENCHMARK_CONTAINER env_vars None)
  end.

Definition set_and_pop (set : string) (value : list string) (pop : string) (container : pyval) : Res pyval :=
  c <~ set_attr set (VStrs value) container ;; pop_attr pop c.

Definition add_benchmark_cmd_to_container (kw : Kw) : M Bld unit :=
  _ <- on_root (find_container BENCHMARK_CONTAINER kw) ;;
  d <- gets b_descriptor ;;
  let code := match ml d with Some m => ml_benchmark_code m | None => None end in
  let args := match ml d with Some m => ml_args m | None => None end in
  if str_truthy code then
    cmd <- lift (split_args code) ;;
    args <- lift (split_args args) ;;
    on_root (modify_container BENCHMARK_CONTAINER kw (set_and_pop "command" (cmd ++ args)%list "args"))
  else if str_truthy args then
    args <- lift (split_args args) ;;
    on_root (modify_container BENCHMARK_CONTAINER kw (set_and_pop "args" args "command"))
  else
    on_root (modify_container BENCHMARK_CONTAINER kw
      (fun c => c <~ pop_attr "command" c ;; pop_attr "args" c)).

Definition newline_char : ascii := "010".

Definition strip_lines (s : string) : string :=
  join (String newline_char "") (map strip (split_char newline_char s)).

Definition add_benchmark_cmd_to_config_map (kw : Kw) : M Bld unit :=
  b <- get ;;
  let d := b_descriptor b in
  let code := match ml d with Some m => ml_benchmark_code m | None => None end in
  let args := match ml d with Some m => ml_args m | None => None end in
  if str_truthy code then
    let benchmark_cmd := strip_lines (default "" code +:+ default "" args) in
    on_root (modify_config_map ("entrypoint-" +:+ b_job_id b)
      (modify_at ["data"; "entrypoint.sh"] (fun _ => Ok (VStr benchmark_cmd))))
  else add_benchmark_cmd_to_container kw.

Definition add_benchmark_cmd (kw : Kw) : M Bld unit :=
  d <- gets b_descriptor ;;
  match bh_strategy (hardware d) with
  | SINGLE_NODE | INFERENCE => add_benchmark_cmd_to_container None
  | HOROVOD => add_benchmark_cmd_to_config_map kw
  end.

(** [_get_s3_bucket_and_object_from_uri]; without a destination the parsed
    scheme is empty too. *)
Definition get_s3_bucket_and_object (content : DownloadableContent) : Res (string * string) :=
  let unexpected sch := Raise (DescriptorError ("Unexpected scheme in data source src: " +:+ sch +:+
                                 ". Fetched content is " +:+ repr_content content)) in
  match dc_dst content with
  | None => unexpected "b''"
  | Some dst =>
      parsed_uri <~ urlparse dst ;;
      if String.eqb (lower (scheme parsed_uri)) "s3"
      then Ok (netloc parsed_uri, str_drop 1 (path parsed_uri))
      else unexpected (scheme parsed_uri)
  end.

Definition puller_object (chmod : string) (data_volumes : dict string PullerDataSource)
    (s : DownloadableContent) : Res string :=
  bo <~ get_s3_bucket_and_object s ;;
  match dict_get data_volumes (dc_path s) with
  | Some vol => Ok (bo.2 +:+ "," +:+ chmod +:+ "," +:+ puller_name vol)
  | None => Raise (KeyError (dc_path s))
  end.

Definition update_data_puller (data_volumes : dict string PullerDataSource)
    (data_sources : list DownloadableContent) (kw : Kw) : M Bld unit :=
  match data_sources with
  | [] =>
      on_root (remove_container DATA_PULLER_CONTAINER kw) ;;
      on_root (remove_volume DATASETS_VOLUME_NAME kw)
  | first :: _ =>
      _ <- on_root (find_container DATA_PULLER_CONTAINER kw) ;;
      b <- get ;;
      '(s3_bucket, _) <- lift (get_s3_bucket_and_object first) ;;
      s3_objects <- lift (res_map (puller_object (puller_mount_chmod (b_config b)) data_volumes) data_sources) ;;
      on_root (modify_container DATA_PULLER_CONTAINER kw
        (set_attr "args" (VStrs [s3_bucket; join ":" s3_objects])))
  end.

Definition extend_list (k : string) (new : list pyval) (v : pyval) : Res pyval :=
  old <~ attr k v ;;
  match old with
  | VList l => set_attr k (VList (l ++ new)%list) v
  | VDict _ => Raise (TypeError "'Dict' object is not callable")
  | _ => attribute_error
  end.

Definition add_data_volume_mounts (data_sources : list DownloadableContent) (container : string) (kw : Kw)
    : M Bld unit :=
  _ <- on_root (find_container container kw) ;;
  let data_mounts := get_data_mounts data_sources in
  update_data_puller data_mounts data_sources kw ;;
  on_root (modify_container container kw (extend_list "volumeMounts" (get_container_volume_mounts data_mounts))).

Definition remove_metrics_sidecars (kw : Kw) : M Bld unit :=
  on_root (remove_container METRICS_EXTRACTOR_CONTAINER kw) ;;
  on_root (remove_container METRICS_PUSHER_CONTAINER kw).

Definition add_extended_shm (container : string) (kw : Kw) : M Bld unit :=
  vols <- on_root (pod_attr kw "volumes") ;;
  c <- on_root (find_container container kw) ;;
  _ <- lift (attr "volumeMounts" c) ;;
  on_root (modify_pod kw "volumes" (fun v =>
    match v with
    | VList l => Ok (VList (l ++ [VDict [("name", VStr SHARED_MEMORY_VOLUME);
                                         ("emptyDir", VDict [("medium", VStr "Memory")])]])%list)
    | VDict _ => Raise (TypeError "'Dict' object is not callable")
    | _ => attribute_error
    end)) ;;
  on_root (modify_container container kw
    (extend_list "volumeMounts" [VolumeMount SHARED_MEMORY_VOLUME SHARED_MEMORY_VOLUME_MOUNT None])).

Definition add_shared_memory (kw : Kw) : M Bld unit :=
  d <- gets b_descriptor ;;
  if env_extended_shm (env d) then add_extended_shm BENCHMARK_CONTAINER kw else ret tt.

Definition str_vars (vars : dict string string) : dict string pyval := map (fun kv => (kv.1, VStr kv.2)) vars.

Definition add_env_vars (kw : Kw) : M Bld unit :=
  b <- get ;;
  on_root (k_add_env_vars BENCHMARK_CONTAINER (str_vars (env_vars (env (b_descriptor b)))) kw) ;;
  on_root (k_add_env_vars BENCHMARK_CONTAINER (b_internal_env_vars b) kw).

Definition script_object_arg (inx : nat) (s : BaiScriptSource) : string :=
  script_object s +:+ "," +:+ pretty SCRIPT_PULLER_CHMOD +:+ "," +:+
  SCRIPTS_MOUNT_PATH +:+ "/s" +:+ pretty inx +:+ "," +:+ SCRIPT_UNPACK_MODIFICATOR.

Definition add_scripts (scripts : list BaiScriptSource) (kw : Kw) : M Bld unit :=
  match scripts with
  | [] =>
      on_root (remove_container SCRIPTS_PULLER_CONTAINER kw) ;;
      on_root (remove_volume SCRIPTS_VOLUME_NAME kw)
  | first :: _ =>
      _ <- on_root (find_container SCRIPTS_PULLER_CONTAINER kw) ;;
      let s3_objects := imap script_object_arg scripts in
      on_root (modify_container SCRIPTS_PULLER_CONTAINER kw
        (set_attr "args" (VStrs [script_bucket first; join ":" s3_objects]))) ;;
      modify (fun b => set_b_internal
        (dict_set (b_internal_env_vars b) "BAI_SCRIPTS_PATH" (VStr SCRIPTS_MOUNT_PATH)) b)
  end.

(** ** The three builders *)

Definition opt_val (o : option string) : pyval := match o with Some s => VStr s | None => VNone end.

(** The block for a benchmark with metrics, which the three builders repeat:
    the custom labels go to the metrics pusher; a dashboard and a region also
    become labels.  The label of the region gets the dashboard as its value. *)
Definition add_custom_labels (kw : Kw) : M Bld unit :=
  for_labels (fun label value =>
    add_metrics_pusher_env_var label (VStr value) METRICS_PUSHER_CUSTOM_LABEL_PREFIX kw) ;;
  d <- gets b_descriptor ;;
  match custom_params d with
  | None => ret tt
  | Some cp =>
      (if str_truthy (cp_dashboard cp) then
         on_root (add_label "dashboard-name" (opt_val (cp_dashboard cp))) ;;
         add_metrics_pusher_env_var "dashboard-name" (opt_val (cp_dashboard cp))
           METRICS_PUSHER_CUSTOM_LABEL_PREFIX kw
       else ret tt) ;;
      (if str_truthy (cp_region cp) then
         on_root (add_label "region" (opt_val (cp_dashboard cp))) ;;
         add_metrics_pusher_env_var "region" (opt_val (cp_region cp)) METRICS_PUSHER_CUSTOM_LABEL_PREFIX kw
       else ret tt)
  end.

Definition add_parent_label : M Bld unit :=
  b <- get ;;
  if str_truthy (parent_action_id (b_event b))
  then on_root (add_label "parent-action-id" (opt_val (parent_action_id (b_event b)))) else ret tt.

Definition add_parent_label_and_env (kw : Kw) : M Bld unit :=
  b <- get ;;
  if str_truthy (parent_action_id (b_event b)) then
    on_root (add_label "parent-action-id" (opt_val (parent_action_id (b_event b)))) ;;
    add_metrics_pusher_env_var "parent-action-id" (opt_val (parent_action_id (b_event b)))
      METRICS_PUSHER_CUSTOM_LABEL_PREFIX kw
  else ret tt.

Definition suppress_affinity (kw : Kw) : M Bld unit :=
  b <- get ;;
  if suppress_job_affinity (b_config b) then on_root (remove_affinity kw) else ret tt.

(** [SingleRunBenchmarkKubernetesObjectBuilder._update_root_k8s_object]. *)
Definition single_run_update : M Bld unit :=
  b <- get ;;
  on_root (set_service_account BENCHMARK_SERVICE_ACCOUNT None) ;;
  add_data_volume_mounts (b_data_sources b) BENCHMARK_CONTAINER None ;;
  add_scripts (b_scripts b) None ;;
  add_shared_memory None ;;
  add_env_vars None ;;
  add_benchmark_cmd None ;;
  (if bool_decide (is_Some (output (b_descriptor b))) then add_custom_labels None
   else remove_metrics_sidecars None) ;;
  add_parent_label_and_env None ;;
  suppress_affinity None ;;
  match bh_strategy (hardware (b_descriptor b)) with
  | INFERENCE =>
      on_root (set_service_account INFERENCE_SERVER_SERVICE_ACCOUNT None) ;;
      add_server_env_vars
  | SINGLE_NODE => on_root (remove_container INFERENCE_SERVER_LOCK_CONTAINER None)
  | HOROVOD => ret tt
  end.

(** [HorovodJobKubernetesObjectBuilder._update_root_k8s_object]. *)
Definition horovod_update : M Bld unit :=
  b <- get ;;
  add_data_volume_mounts (b_data_sources b) BENCHMARK_CONTAINER (Some MPI_JOB_WORKER) ;;
  add_benchmark_cmd (Some MPI_JOB_LAUNCHER) ;;
  for_each (fun replica_type =>
    let kw := Some replica_type in
    on_root (set_service_account BENCHMARK_SERVICE_ACCOUNT kw) ;;
    add_scripts (b_scripts b) kw ;;
    add_shared_memory kw ;;
    add_env_vars kw ;;
    (if bool_decide (is_Some (output (b_descriptor b))) then add_custom_labels kw
     else remove_metrics_sidecars kw) ;;
    add_parent_label_and_env kw ;;
    suppress_affinity kw) [MPI_JOB_LAUNCHER; MPI_JOB_WORKER].

(** [InferenceServerJobKubernetedObjectBuilder]. *)
Definition feed_server_values : M Bld unit :=
  feed_benchmark_values ;;
  server_metrics <- get_server_metrics_from_descriptor ;;
  feed_one "server_metrics" (TStr server_metrics).

Definition add_server_command_to_container : M Bld unit :=
  _ <- on_root (find_container INFERENCE_SERVER_CONTAINER None) ;;
  srv <- server_of ;;
  cmd <- lift (split_args (Some (senv_start_command (server_env srv)))) ;;
  args <- lift (split_args (senv_start_command_args (server_env srv))) ;;
  on_root (modify_container INFERENCE_SERVER_CONTAINER None (set_and_pop "command" (cmd ++ args)%list "args")).

Definition inference_server_update : M Bld unit :=
  b <- get ;;
  on_root (set_service_account INFERENCE_SERVER_SERVICE_ACCOUNT None) ;;
  srv <- server_of ;;
  (if senv_extended_shm (server_env srv) then add_extended_shm INFERENCE_SERVER_CONTAINER None else ret tt) ;;
  add_server_command_to_container ;;
  add_data_volume_mounts (b_fetched_models b) INFERENCE_SERVER_CONTAINER None ;;
  on_root (k_add_env_vars INFERENCE_SERVER_CONTAINER (str_vars (senv_vars (server_env srv))) None) ;;
  on_root (add_tcp_ports_to_service (b_inference_server_job_id b) (senv_ports (server_env srv))) ;;
  on_root (add_container_ports_to_container INFERENCE_SERVER_CONTAINER (senv_ports (server_env srv))) ;;
  match senv_readiness_probe (server_env srv) with
  | None => ret tt
  | Some probe =>
      match senv_ports (server_env srv) with
      | [] => raise (IndexError "list index out of range")
      | default_port :: _ => on_root (add_readiness_probe INFERENCE_SERVER_CONTAINER probe default_port)
      end
  end ;;
  add_parent_label ;;
  (if bool_decide (is_Some (server_output srv)) then add_custom_labels None else remove_metrics_sidecars None) ;;
  suppress_affinity None.

(** [ScheduledBenchmarkKubernetedObjectBuilder]: nothing to edit. *)
Definition feed_scheduled_values : M Bld unit :=
  b <- get ;;
  feed_one "event_json_str" (TStr (json_dumps (VStr (event_to_json (b_event b))))).

(** ** Creating the documents *)

(** The table of [create_single_run_benchmark_bai_k8s_builder]: the template
    and the class of a strategy. *)
Record StrategyMetadata := mkStrategyMetadata {
  template_name : string;
  strategy_type_init : BenchmarkDescriptor -> BaiConfig -> list DownloadableContent -> list BaiScriptSource ->
    string -> string -> Event -> EnvironmentInfo -> nat -> Bld;
  strategy_feed : M Bld unit;
  strategy_update : M Bld unit
}.

(** The two classes, whose constructors and feeds are the inherited ones. *)
Definition SingleRunBenchmarkKubernetesObjectBuilder (template : string) : StrategyMetadata :=
  mkStrategyMetadata template benchmark_builder_init feed_benchmark_values single_run_update.
Definition HorovodJobKubernetesObjectBuilder (template : string) : StrategyMetadata :=
  mkStrategyMetadata template benchmark_builder_init feed_benchmark_values horovod_update.

Definition distributed_strategy_metadata (s : DistributedStrategy) : StrategyMetadata :=
  match s with
  | SINGLE_NODE | INFERENCE => SingleRunBenchmarkKubernetesObjectBuilder "job_single_node.yaml"
  | HOROVOD => HorovodJobKubernetesObjectBuilder "mpi_job_horovod.yaml"
  end.

Definition built (r : Res bool * Bld) : Res Bld :=
  match r with (Ok _, b) => Ok b | (Raise e, _) => Raise e end.

Definition create_single_run_builder (descriptor : BenchmarkDescriptor) (config : BaiConfig)
    (fetched_data_sources : list DownloadableContent) (scripts : list FileSystemObject) (job_id : string)
    (event : Event) (environment_info : EnvironmentInfo) (rand : nat) : Res Bld :=
  let metadata := distributed_strategy_metadata (bh_strategy (hardware descriptor)) in
  bai_scripts <~ create_scripts scripts ;;
  built (build (strategy_feed metadata) (strategy_update metadata)
    (strategy_type_init metadata descriptor config fetched_data_sources bai_scripts job_id (template_name metadata)
       event environment_info rand)).

Definition create_inference_server_builder (descriptor : BenchmarkDescriptor) (config : BaiConfig)
    (job_id : string) (fetched_models : list DownloadableContent) (event : Event)
    (environment_info : EnvironmentInfo) (rand : nat) : Res Bld :=
  built (build feed_server_values inference_server_update
    (inference_server_builder_init descriptor config job_id fetched_models event environment_info rand)).

Definition create_scheduled_builder (descriptor : BenchmarkDescriptor) (config : BaiConfig)
    (job_id : string) (event : Event) : Res Bld :=
  built (build feed_scheduled_values (ret tt) (scheduled_builder_init descriptor config job_id event)).

(** [BenchmarkKubernetesObjectBuilder.dump_yaml_string]; the one of the base
    class, which the scheduled builder has, builds the object if need be. *)
Definition dump_yaml_string (b : Bld) : Res string := (on_root (to_yaml dump_all) b).1.

Definition base_dump_yaml_string (feed_additional update_root : M Bld unit) (b : Bld) : Res string :=
  ((_ <- build feed_additional update_root ;; on_root (to_yaml dump_all)) b).1.

(** [create_job_yaml_spec] and [create_scheduled_job_yaml_spec], with the
    packages of [from_dict]; [rands] are the two draws of the zone. *)
Context (cron_is_valid : option string -> bool).
Context (dacite : DaciteArgs -> list (string * pyval) -> Res BenchmarkDescriptor).

Definition create_job_yaml_spec (descriptor_contents : list (string * pyval)) (cfg : ExecutorConfig)
    (fetched_data_sources fetched_models : list DownloadableContent) (scripts : list FileSystemObject)
    (job_id : string) (event : Event) (rands : nat * nat) : Res string :=
  descriptor <~ from_dict cron_is_valid dacite descriptor_contents (Some (descriptor_config cfg)) ;;
  job_builder <~ create_single_run_builder descriptor (bai_config cfg) fetched_data_sources scripts job_id
                   event (environment_info cfg) rands.1 ;;
  if negb (is_inference_strategy descriptor) then dump_yaml_string job_builder
  else
    server_builder <~ create_inference_server_builder (b_descriptor job_builder) (bai_config cfg) job_id
                        fetched_models event (environment_info cfg) rands.2 ;;
    y1 <~ dump_yaml_string job_builder ;;
    y2 <~ dump_yaml_string server_builder ;;
    Ok (y1 +:+ "---" +:+ String newline_char "" +:+ y2).

Definition create_scheduled_job_yaml_spec (descriptor_contents : list (string * pyval)) (cfg : ExecutorConfig)
    (job_id : string) (event : Event) : Res string :=
  descriptor <~ from_dict cron_is_valid dacite descriptor_contents (Some (descriptor_config cfg)) ;;
  b <~ create_scheduled_builder descriptor (bai_config cfg) job_id event ;;
  base_dump_yaml_string feed_scheduled_values (ret tt) b.
End Builder.

(** ** Lemmas *)

Lemma data_mounts_keys idx srcs vols p :
  is_Some (dict_get (data_mounts_from idx srcs vols) p) <-> is_Some (dict_get vols p) \/ p ∈ map dc_path srcs.
Proof.
  revert idx vols. induction srcs as [|s srcs IH]; intros idx vols; simpl.
  - split; [auto|]. intros [H|H]; [done|]. by apply elem_of_nil in H.
  - rewrite IH, elem_of_cons. unfold dict_mem. destruct (dict_get vols (dc_path s)) eqn:E.
    + split; [tauto|]. intros [H|[->|H]]; auto.
    + rewrite dict_get_set. case_decide; subst; naive_solver.
Qed.

(** What is there stays; a new path gets the index of its first source. *)
Lemma data_mounts_first idx srcs vols p vol :
  dict_get (data_mounts_from idx srcs vols) p = Some vol ->
  dict_get vols p = Some vol \/
  dict_get vols p = None /\ exists i s, srcs !! i = Some s /\ dc_path s = p /\
    (forall j s', (j < i)%nat -> srcs !! j = Some s' -> dc_path s' <> p) /\
    puller_name vol = "p" +:+ pretty (idx + i)%nat.
Proof.
  revert idx vols. induction srcs as [|s srcs IH]; intros idx vols; simpl; [auto|].
  intros H. apply IH in H. unfold dict_mem in H.
  destruct (decide (dc_path s = p)) as [<-|Hne].
  - destruct (dict_get vols (dc_path s)) as [v|] eqn:E; [naive_solver|].
    rewrite dict_get_set_eq in H. destruct H as [[= <-]|[[=] _]]. right. split; [done|].
    exists 0%nat, s. rewrite Nat.add_0_r. split_and!; [done..|lia|done].
  - assert (Hv : dict_get (if match dict_get vols (dc_path s) with Some _ => true | None => false end then vols
                 else dict_set vols (dc_path s) (mkPuller ("p" +:+ pretty idx) ("/data/" +:+ "p" +:+ pretty idx))) p
               = dict_get vols p) by (destruct (dict_get vols (dc_path s)); [done|by apply dict_get_set_ne]).
    rewrite Hv in H. destruct H as [H|(Hn & i & s' & Hi & Hp & Hfst & Hname)]; [auto|]. right. split; [done|].
    exists (S i), s'. split_and!; [done..| |].
    + intros [|j] s'' Hj Hs; simpl in Hs; [by simplify_eq|]. eapply Hfst; [|done]. lia.
    + by rewrite Hname, Nat.add_succ_r.
Qed.

(** ** Properties *)

(** The data volumes.  Every data source's path is mounted exactly once;
    sources with the same path share the volume of the first of them, and
    different paths have different volumes, so no two data sets with different
    paths are downloaded into the same directory. *)
Theorem data_mounts_spec srcs :
  let vols := get_data_mounts srcs in
  (forall p, is_Some (dict_get vols p) <-> p ∈ map dc_path srcs) /\
  (forall p q v w, dict_get vols p = Some v -> dict_get vols q = Some w -> puller_name v = puller_name w -> p = q) /\
  (forall p v, dict_get vols p = Some v ->
     exists i s, srcs !! i = Some s /\ dc_path s = p /\ puller_name v = "p" +:+ pretty i /\
       forall j s', (j < i)%nat -> srcs !! j = Some s' -> dc_path s' <> p).
Proof.
  assert (Hfirst : forall p v, dict_get (get_data_mounts srcs) p = Some v ->
     exists i s, srcs !! i = Some s /\ dc_path s = p /\ puller_name v = "p" +:+ pretty i /\
       forall j s', (j < i)%nat -> srcs !! j = Some s' -> dc_path s' <> p).
  { intros p v Hv. apply data_mounts_first in Hv as [[=]|(_ & i & s & ? & ? & ? & ?)]. by exists i, s. }
  split_and!; [| |done].
  - intros p. unfold get_data_mounts. rewrite data_mounts_keys. simpl.
    split; [intros [[? [=]]|]; done|auto].
  - intros p q v w Hp Hq E. destruct (Hfirst _ _ Hp) as (i & s & Hi & <- & Hv & _).
    destruct (Hfirst _ _ Hq) as (j & s' & Hj & <- & Hw & _).
    rewrite Hv, Hw in E. apply str_app_inj_l, (inj pretty) in E. subst. congruence.
Qed.

(** The availability zone.  A zone that the descriptor names is used if
    the environment has it, and a zone id is translated by the environment; an
    unknown one is a descriptor error; without either, some zone of the
    environment is drawn.  A chosen zone is always one of the environment. *)
Theorem choose_availability_zone_spec d envi rand :
  let zones := availability_zones envi in
  match choose_availability_zone d envi rand with
  | Ok az =>
      az ∈ dict_values zones /\
      (forall n, hw_availability_zone (bh_hardware (hardware d)) = Some n -> n <> "" -> az = n) /\
      (forall id, str_truthy (hw_availability_zone (bh_hardware (hardware d))) = false ->
         hw_aws_zone_id (bh_hardware (hardware d)) = Some id -> id <> "" -> dict_get zones id = Some az)
  | Raise (DescriptorError _) =>
      (exists n, hw_availability_zone (bh_hardware (hardware d)) = Some n /\ n ∉ dict_values zones) \/
      (exists id, hw_aws_zone_id (bh_hardware (hardware d)) = Some id /\ dict_get zones id = None)
  | Raise e => zones = [] /\ exists m, e = IndexError m
  end.
Proof.
  unfold choose_availability_zone. simpl. set (zones := availability_zones envi).
  set (name := hw_availability_zone (bh_hardware (hardware d))).
  set (zid := hw_aws_zone_id (bh_hardware (hardware d))).
  destruct (str_truthy name) eqn:En.
  - destruct name as [n|]; [|done]. simpl in *. case_bool_decide as Hin; [|left; eauto].
    split_and!; [done| |done]. by intros ? [= <-].
  - assert (Hno : forall n, name = Some n -> n = "").
    { intros n ->. simpl in En. by apply negb_false_iff, String.eqb_eq in En. }
    destruct (str_truthy zid) eqn:Ez.
    + destruct zid as [id|]; [|done]. simpl in *. destruct (dict_get zones id) as [az|] eqn:Eg; [|right; eauto].
      split_and!; [|naive_solver..]. apply dict_get_Some_in in Eg. apply list_elem_of_fmap. by exists (id, az).
    + assert (Hid : forall n, zid = Some n -> n = "").
      { intros n ->. simpl in Ez. by apply negb_false_iff, String.eqb_eq in Ez. }
      unfold random_choice. destruct (dict_values zones) as [|x l] eqn:El.
      * split; [|eauto]. by destruct zones.
      * split_and!; [|naive_solver..]. apply list_elem_of_In, nth_In. apply Nat.mod_upper_bound. done.
Qed.

(** ** The data puller *)

Lemma on_root_Ok {A} (m : M KRoot A) b a b' :
  on_root m b = (Ok a, b') -> exists k k', b_root b = Some k /\ m k = (Ok a, k') /\ b' = set_b_root (Some k') b.
Proof.
  unfold on_root. destruct (b_root b) as [k|]; [|done]. destruct (m k) as [r k'] eqn:E. intros [= -> <-]. by exists k, k'.
Qed.

Lemma data_mounts_wf idx srcs vols : dict_wf vols -> dict_wf (data_mounts_from idx srcs vols).
Proof.
  revert idx vols. induction srcs as [|s srcs IH]; intros idx vols Hw; [done|]. cbn [data_mounts_from]. apply IH.
  destruct (dict_mem _ _); [done|]. by apply dict_set_wf.
Qed.

(** The index of the first source with the path. *)
Definition first_with (p : string) (srcs : list DownloadableContent) (j : nat) : Prop :=
  (exists s, srcs !! j = Some s /\ dc_path s = p) /\
  forall j' s', (j' < j)%nat -> srcs !! j' = Some s' -> dc_path s' <> p.

Lemma get_data_mounts_first srcs p vol :
  dict_get (get_data_mounts srcs) p = Some vol -> exists j, first_with p srcs j /\ puller_name vol = "p" +:+ pretty j.
Proof.
  intros H. apply data_mounts_first in H as [[=]|(_ & j & s & Hj & Hp & Hfst & Hname)]. exists j. split; [|done]. split; [by exists s|done].
Qed.

(** The entries of the puller's argument. *)
Lemma puller_objects_spec repr chmod srcs objs :
  res_map (puller_object repr chmod (get_data_mounts srcs)) srcs = Ok objs ->
  length objs = length srcs /\
  forall i s, srcs !! i = Some s ->
    exists bucket key j,
      get_s3_bucket_and_object repr s = Ok (bucket, key) /\ first_with (dc_path s) srcs j /\
      objs !! i = Some (key +:+ "," +:+ chmod +:+ "," +:+ "p" +:+ pretty j) /\
      VolumeMount DATASETS_VOLUME_NAME (dc_path s) (Some ("p" +:+ pretty j)) ∈ get_container_volume_mounts (get_data_mounts srcs).
Proof.
  intros Hobjs. apply res_map_Forall2 in Hobjs. split; [symmetry; by eapply Forall2_length|].
  intros i s Hs. destruct (Forall2_lookup_l _ _ _ _ _ Hobjs Hs) as (o & Ho & Hp).
  unfold puller_object, res_bind in Hp. destruct (get_s3_bucket_and_object repr s) as [[bucket key]|]; [|done].
  destruct (dict_get (get_data_mounts srcs) (dc_path s)) as [vol|] eqn:E; [|done]. injection Hp as <-.
  destruct (get_data_mounts_first _ _ _ E) as (j & Hj & Hname). rewrite Hname in *. exists bucket, key, j. split_and!; [done..|].
  apply dict_get_Some_in in E. apply list_elem_of_fmap. exists (dc_path s, vol). by rewrite Hname.
Qed.

Lemma extend_list_keeps_name k new : k <> "name" -> keeps_name (extend_list k new).
Proof.
  intros Hk c c'. unfold extend_list. destruct (attr k c) as [old|]; [|done]. cbn [res_bind]. destruct old; try done. by apply set_attr_keeps_name.
Qed.

Lemma extend_list_reads k new c c' :
  extend_list k new c = Ok c' -> exists old, attr k c = Ok (VList old) /\ attr k c' = Ok (VList (old ++ new)%list).
Proof.
  unfold extend_list. destruct (attr k c) as [old|]; [|done]. cbn [res_bind]. destruct old; try done. intros H. apply set_attr_reads in H. eauto.
Qed.

(** [_update_data_puller] with sources: it changes the arguments of the puller,
    and no other container. *)
Lemma update_data_puller_run repr vols first rest kw b b' k :
  b_root b = Some k -> update_data_puller repr vols (first :: rest) kw b = (Ok tt, b') ->
  exists bucket key objs puller k',
    get_s3_bucket_and_object repr first = Ok (bucket, key) /\
    res_map (puller_object repr (puller_mount_chmod (b_config b)) vols) (first :: rest) = Ok objs /\
    b' = set_b_root (Some k') b /\ find_container DATA_PULLER_CONTAINER kw k' = (Ok puller, k') /\
    attr "args" puller = Ok (VStrs [bucket; join ":" objs]) /\
    forall other c, other <> DATA_PULLER_CONTAINER -> find_container other kw k = (Ok c, k) -> find_container other kw k' = (Ok c, k').
Proof.
  intros Hk H. cbn [update_data_puller] in H. apply bind_Ok in H as (c0 & b1 & Hfind & H).
  apply on_root_Ok in Hfind as (k0 & k1 & Hk0 & Hfind & ->). apply find_container_same in Hfind as ->. simplify_eq.
  unfold bind at 1, get in H. apply bind_Ok in H as ([bucket key] & b2 & Hb & H). apply lift_Ok in Hb as [Hb ->].
  apply bind_Ok in H as (objs & b2 & Ho & H). apply lift_Ok in Ho as [Ho ->].
  apply on_root_Ok in H as (k2 & k' & Hk2 & H & ->). cbn in Hk2. injection Hk2 as <-.
  apply modify_container_found in H as (c & c' & _ & Hset & Hfound & Hother); [|by apply set_attr_keeps_name].
  apply set_attr_reads in Hset. exists bucket, key, objs, c', k'. by split_and!.
Qed.

(** C37: the data puller and the volume mounts agree.  When the data of a
    benchmark has been added to the job, the data puller is told one bucket, that
    of the first source, and one entry per source: the object of the source and
    the directory [p<j>], where [j] is the index of the first source with the same
    path; the container has got a mount of that directory at the source's path, so
    that sources with different paths never share a directory; its other mounts
    stay; and an argument whose entries have no colon is read back as the entries. *)
Theorem data_puller_consistent repr first rest container kw b b'
    (Hcontainer : container <> DATA_PULLER_CONTAINER)
    (Hrun : add_data_volume_mounts repr (first :: rest) container kw b = (Ok tt, b')) :
  exists k k' bucket key objs puller c c' old mounts,
    b_root b = Some k /\ b_root b' = Some k' /\
    get_s3_bucket_and_object repr first = Ok (bucket, key) /\
    find_container DATA_PULLER_CONTAINER kw k' = (Ok puller, k') /\
    attr "args" puller = Ok (VStrs [bucket; join ":" objs]) /\
    find_container container kw k = (Ok c, k) /\ attr "volumeMounts" c = Ok (VList old) /\
    find_container container kw k' = (Ok c', k') /\ attr "volumeMounts" c' = Ok (VList (old ++ mounts)%list) /\
    length objs = length (first :: rest) /\
    (forall i s, (first :: rest) !! i = Some s ->
       exists bucket_i key_i j,
         get_s3_bucket_and_object repr s = Ok (bucket_i, key_i) /\ first_with (dc_path s) (first :: rest) j /\
         objs !! i = Some (key_i +:+ "," +:+ puller_mount_chmod (b_config b) +:+ "," +:+ "p" +:+ pretty j) /\
         VolumeMount DATASETS_VOLUME_NAME (dc_path s) (Some ("p" +:+ pretty j)) ∈ mounts) /\
    (forall m, m ∈ mounts -> exists p j, first_with p (first :: rest) j /\ m = VolumeMount DATASETS_VOLUME_NAME p (Some ("p" +:+ pretty j))) /\
    (Forall (fun o => no_char ":" o = true) objs -> split_char ":" (join ":" objs) = objs).
Proof.
  apply bind_Ok in Hrun as (c & b1 & Hfind & Hrun). apply on_root_Ok in Hfind as (k & k1 & Hk & Hfind & ->).
  pose proof (find_container_same _ _ _ _ _ Hfind) as ->. cbv zeta in Hrun. apply bind_Ok in Hrun as ([] & b2 & Hpull & Hext).
  apply (update_data_puller_run _ _ _ _ _ _ _ k) in Hpull as (bucket & key & objs & puller & k2 & Hb & Ho & -> & Hp & Hargs & Hkeep); [|done].
  apply on_root_Ok in Hext as (k3 & k' & Hk3 & Hext & ->). cbn in Hk3. injection Hk3 as <-.
  apply modify_container_found in Hext as (c1 & c' & Hc1 & Hset & Hc' & Hother); [|by apply extend_list_keeps_name].
  assert (c1 = c) as -> by (pose proof (Hkeep _ _ Hcontainer Hfind); congruence).
  apply extend_list_reads in Hset as (old & Hold & Hnew). destruct (puller_objects_spec _ _ _ _ Ho) as [Hlen Hobjs].
  exists k, k', bucket, key, objs, puller, c, c', old, (get_container_volume_mounts (get_data_mounts (first :: rest))).
  split_and!; [done..|by apply Hother|done|done|done|done|done|done|exact Hobjs| |].
  - intros m Hm. apply list_elem_of_fmap in Hm as ([p vol] & -> & Hin). apply dict_in_get in Hin; [|by apply data_mounts_wf, NoDup_nil].
    destruct (get_data_mounts_first _ _ _ Hin) as (j & Hj & ->). by exists p, j.
  - intros Hno. apply split_join; [|done]. by destruct objs.
Qed.

Module Witness.
Definition content (path dst : string) : DownloadableContent :=
  mkContent "http://x" path None None (Some dst) None None None None.

Definition container1 (name : string) : pyval :=
  VDict [("name", VStr name); ("volumeMounts", VList [VolumeMount "shared" "/shared" None])].

Definition job1 : pyval :=
  VDict [("spec", VDict [("template", VDict [("spec", VDict
    [("containers", VList [container1 "benchmark"]); ("initContainers", VList [container1 "data-puller"])])])])].

Definition descriptor1 : BenchmarkDescriptor :=
  mkDescriptor "0.1.0" (mkInfo "d" None None None None) (mkBenchHardware (mkHardware "p3.8xlarge" 1 None None) SINGLE_NODE None None)
    (mkEnvDesc "image" false true []) None None None None None.

Definition builder0 : Bld :=
  mkBld "job" "" (mkTemplate "" []) (mkBaiConfig "700" "" "" "" "" "" false) (event0 (PAny VNone))
    (Some (mkKRoot (Some job1) [] [] [])) [] [] (mkEnvInfo []) [] 0 [] descriptor1.

Definition srcs0 : list DownloadableContent :=
  [content "/train" "s3://data/k1"; content "/test" "s3://data/k2"; content "/train" "s3://data/k3"].

(** The arguments of the data puller afterwards. *)
Definition puller_args (srcs : list DownloadableContent) : option (Res pyval) :=
  match b_root (add_data_volume_mounts (fun _ => "") srcs "benchmark" None builder0).2 with
  | Some k => Some (c <~ (find_container DATA_PULLER_CONTAINER None k).1 ;; attr "args" c)
  | None => None
  end.

Lemma data_puller_consistent_witness :
  exists b' objs mounts, add_data_volume_mounts (fun _ => "") srcs0 "benchmark" None builder0 = (Ok tt, b') /\
    length objs = 3%nat /\ objs !! 2%nat = Some "k3,700,p0" /\
    VolumeMount DATASETS_VOLUME_NAME "/train" (Some "p0") ∈ (mounts : list pyval).
Proof.
  exists (add_data_volume_mounts (fun _ => "") srcs0 "benchmark" None builder0).2.
  destruct (data_puller_consistent (fun _ => "") (content "/train" "s3://data/k1") (drop 1 srcs0) "benchmark" None builder0
    (add_data_volume_mounts (fun _ => "") srcs0 "benchmark" None builder0).2)
    as (k & k' & bucket & key & objs & puller & c & c' & old & mounts & _ & _ & _ & _ & _ & _ & _ & _ & _ & Hlen & Hobjs & _).
  - discriminate.
  - vm_compute. reflexivity.
  - exists objs, mounts. split; [vm_compute; reflexivity|]. split; [exact Hlen|].
    destruct (Hobjs 2%nat (content "/train" "s3://data/k3") eq_refl) as (bk & ky & j & Hloc & [(s & Hs & _) Hfirst] & Ho & Hm).
    assert (j = 0%nat) as ->.
    { destruct j as [|j]; [reflexivity|]. exfalso. apply (Hfirst 0%nat (content "/train" "s3://data/k1")); [lia|reflexivity|reflexivity]. }
    assert (ky = "k3") as -> by (vm_compute in Hloc; congruence). split; [exact Ho|exact Hm].
Defined.

(** Every object is looked for in the bucket of the first source, whatever
    bucket its own location names. *)
Theorem puller_bucket_of_first :
  puller_args [content "/train" "s3://data/k1"; content "/test" "s3://other/k2"] =
  Some (Ok (VStrs ["data"; "k1,700,p0:k2,700,p1"])).
Proof. vm_compute. reflexivity. Qed.
End Witness.
