(* ===== verification/PodModel.v ===== *)
(** * The pod of a Kubernetes object, abstractly

    What the edits of the transpiler do to the containers of a pod and to their
    mounts: an abstract pod is the names of the containers with the volumes they
    mount, and the names of the volumes.  The operations of K8sSpec.v and of the
    builders of BaiKnowledge.v refine operations on it. *)

From S2P Require Import Prelude PyStr Events Descriptor K8sSpec K8sLabels BaiKnowledge.

(** ** Values with distinct keys everywhere *)

Fixpoint deep_wf (v : pyval) : bool :=
  match v with
  | VList l => forallb deep_wf l
  | VDict d =>
      bool_decide (NoDup (dict_keys d)) &&
      (fix go (d : list (string * pyval)) : bool :=
         match d with [] => true | (_, w) :: d' => deep_wf w && go d' end) d
  | _ => true
  end.

Lemma deep_wf_dict d : deep_wf (VDict d) = true <-> dict_wf d /\ Forall (fun kv => deep_wf kv.2 = true) d.
Proof.
  cbn [deep_wf]. rewrite andb_true_iff, bool_decide_eq_true. unfold dict_wf.
  enough (H : (fix go (d : list (string * pyval)) : bool :=
     match d with [] => true | (_, w) :: d' => deep_wf w && go d' end) d = true <-> Forall (fun kv => deep_wf kv.2 = true) d)
    by by rewrite H.
  induction d as [|[k w] d IH]; [by split|]. rewrite andb_true_iff, Forall_cons, IH. done.
Qed.

Lemma deep_wf_list l : deep_wf (VList l) = true <-> Forall (fun v => deep_wf v = true) l.
Proof. cbn [deep_wf]. induction l as [|v l IH]; [by split|]. cbn [forallb]. by rewrite andb_true_iff, Forall_cons, IH. Qed.

Lemma pyval_eqb_refl v : deep_wf v = true -> pyval_eqb v v = true.
Proof.
  revert v. fix IH 1. intros [|b|z|s|l|d] Hw; cbn [pyval_eqb].
  - done.
  - by destruct b.
  - apply Z.eqb_refl.
  - apply String.eqb_refl.
  - apply deep_wf_list in Hw. induction l as [|v l IHl]; [done|]. apply Forall_cons in Hw as [Hv Hl].
    by rewrite IH, IHl.
  - rewrite Nat.eqb_refl. cbn [andb]. apply deep_wf_dict in Hw as [Hd Hall].
    assert (Hin : forall kv, kv ∈ d -> dict_get d kv.1 = Some kv.2) by (intros [k x] Hk; by apply dict_in_get).
    match goal with |- ?g d = true =>
      assert (Hg : forall d1, (forall kv, kv ∈ d1 -> kv ∈ d) -> Forall (fun kv => deep_wf kv.2 = true) d1 -> g d1 = true)
    end; [|by apply Hg].
    clear Hd. intros d1. induction d1 as [|[k x] d1 IHd]; intros Hsub H1; [done|]. apply Forall_cons in H1 as [Hx H1].
    pose proof (Hin (k, x) (Hsub (k, x) (list_elem_of_here _ _))) as E. cbn in E. rewrite E. cbn [snd] in *.
    rewrite (IH x Hx). apply IHd; [|done]. intros kv Hkv. apply Hsub. set_solver.
Qed.

Lemma deep_wf_set d k v : deep_wf (VDict d) = true -> deep_wf v = true -> deep_wf (VDict (dict_set d k v)) = true.
Proof.
  rewrite !deep_wf_dict. intros [Hd Hall] Hv. split; [by apply dict_set_wf|]. clear Hd.
  induction Hall as [|[k' w] d Hw Hall IH]; cbn [dict_set]; [by repeat constructor|].
  case_decide; constructor; cbn [snd] in *; done.
Qed.

Lemma deep_wf_get d k v : deep_wf (VDict d) = true -> dict_get d k = Some v -> deep_wf v = true.
Proof.
  rewrite deep_wf_dict. intros [_ Hall] Hk%dict_get_Some_in. rewrite Forall_forall in Hall. by apply (Hall (k, v)).
Qed.

Lemma deep_wf_strs l : deep_wf (VStrs l) = true.
Proof. apply deep_wf_list, Forall_fmap, Forall_true. done. Qed.

Lemma deep_wf_pop d k : deep_wf (VDict d) = true -> deep_wf (VDict (dict_pop d k)) = true.
Proof.
  rewrite !deep_wf_dict. unfold dict_wf, dict_keys, dict_pop. intros [Hd Hall].
  induction d as [|[k' v] d IH]; [done|]. cbn [fmap list_fmap fst List.filter] in *.
  apply NoDup_cons in Hd as [Hn Hd]. apply Forall_cons in Hall as [Hv Hall]. destruct (IH Hd Hall) as [IH1 IH2].
  case_bool_decide; [|done]. split; [|by constructor]. cbn [fmap list_fmap fst]. constructor; [|done].
  intros Hin. apply Hn. apply list_elem_of_fmap in Hin as ([k2 v2] & -> & Hin). apply list_elem_of_In, filter_In in Hin as [Hin _].
  apply list_elem_of_fmap. exists (k2, v2). split; [done|]. by apply list_elem_of_In.
Qed.

(** ** Containers and volumes *)

(** A container: its name and the volumes that it mounts. *)
Definition mounts_named (d : dict string pyval) (ns : list string) : Prop :=
  match dict_get d "volumeMounts" with
  | Some (VList l) => Forall2 mount l ns
  | Some _ => False
  | None => ns = []
  end.

Definition container (c : pyval) (a : string * list string) : Prop :=
  exists d, c = VDict d /\ dict_get d "name" = Some (VStr a.1) /\ deep_wf c = true /\ mounts_named d a.2.

Definition volume (v : pyval) (n : string) : Prop :=
  exists d, v = VDict d /\ dict_get d "name" = Some (VStr n) /\ deep_wf v = true.

Lemma container_name c a : container c a -> attr "name" c = Ok (VStr a.1).
Proof. intros (d & -> & Hn & _). cbn [attr]. by rewrite Hn. Qed.

Lemma volume_name v n : volume v n -> attr "name" v = Ok (VStr n).
Proof. intros (d & -> & Hn & _). cbn [attr]. by rewrite Hn. Qed.

Lemma container_wf c a : container c a -> deep_wf c = true.
Proof. by intros (d & _ & _ & Hw & _). Qed.

Lemma volume_wf v n : volume v n -> deep_wf v = true.
Proof. by intros (d & _ & _ & Hw). Qed.

Lemma set_attr_dict k w d : set_attr k w (VDict d) = Ok (VDict (dict_set d k w)).
Proof. reflexivity. Qed.

(** The edits of a container other than those of its mounts. *)
Lemma container_set_attr k w c c' a :
  k <> "name" -> k <> "volumeMounts" -> deep_wf w = true -> container c a -> set_attr k w c = Ok c' -> container c' a.
Proof.
  intros Hn Hm Hw (d & -> & Hname & Hwf & Hmounts). rewrite set_attr_dict. intros [= <-].
  exists (dict_set d k w). unfold mounts_named. rewrite !dict_get_set_ne by congruence.
  split_and!; [done..|by apply deep_wf_set|done].
Qed.

Lemma container_pop_attr k c c' a :
  k <> "name" -> k <> "volumeMounts" -> container c a -> pop_attr k c = Ok c' -> container c' a.
Proof.
  intros Hn Hm (d & -> & Hname & Hwf & Hmounts). cbn [pop_attr]. intros [= <-].
  exists (dict_pop d k). unfold mounts_named. rewrite !dict_get_pop, !decide_False by congruence.
  split_and!; [done..|by apply deep_wf_pop|done].
Qed.

Lemma container_set_and_pop set value pop c c' a :
  set <> "name" -> set <> "volumeMounts" -> pop <> "name" -> pop <> "volumeMounts" ->
  container c a -> set_and_pop set value pop c = Ok c' -> container c' a.
Proof.
  intros H1 H2 H3 H4 Hc. unfold set_and_pop. destruct (set_attr set (VStrs value) c) as [c1|] eqn:E; [|done]. cbn [res_bind].
  intros Hp. apply (container_pop_attr pop c1); [done|done| |done].
  apply (container_set_attr set (VStrs value) c); [done|done|apply deep_wf_strs|done|done].
Qed.

Lemma deep_wf_env_var kv : deep_wf (EnvVar kv.1 kv.2) = true.
Proof. reflexivity. Qed.

Lemma container_merge_env env c c' a : container c a -> merge_env env c = Ok c' -> container c' a.
Proof.
  intros Hc. unfold merge_env. destruct (attr "env" c); [|done]. cbn [res_bind].
  destruct (if truthy a0 then elements a0 else Ok []) as [l|]; [|done]. cbn [res_bind].
  destruct (env_dict l []) as [old|]; [|done]. cbn [res_bind]. apply container_set_attr; [done|done| |done].
  apply deep_wf_list, Forall_fmap, Forall_true. intros kv. apply deep_wf_env_var.
Qed.

Lemma container_append_env name value c c' a :
  deep_wf value = true -> container c a -> append_env name value c = Ok c' -> container c' a.
Proof.
  intros Hv Hc. pose proof Hc as (d & -> & _ & Hwf & _). cbn [append_env].
  destruct (dict_get d "env") as [[| | | |l|]|] eqn:E; try done; [|by intros [= <-]].
  rewrite <- set_attr_dict. apply container_set_attr; [done..| |done].
  apply deep_wf_list, Forall_app. split.
  - apply deep_wf_list. by apply (deep_wf_get d "env").
  - repeat constructor. apply deep_wf_dict. split; [by apply (bool_decide_unpack _)|]. by repeat constructor.
Qed.

(** The edits of the mounts. *)
Lemma container_extend new ns c c' a :
  Forall2 mount new ns -> Forall (fun v => deep_wf v = true) new -> container c a ->
  extend_list "volumeMounts" new c = Ok c' -> container c' (a.1, (a.2 ++ ns)%list).
Proof.
  intros Hnew Hwfn (d & -> & Hname & Hwf & Hm). unfold extend_list. cbn [attr res_bind]. unfold mounts_named in Hm.
  destruct (dict_get d "volumeMounts") as [v|] eqn:E; cbn [default id]; [|done].
  destruct v as [| | | |l|]; try done. rewrite set_attr_dict. intros [= <-].
  eexists. split; [reflexivity|]. unfold mounts_named. rewrite dict_get_set_eq, dict_get_set_ne by done. cbn [fst snd].
  split_and!; [done| |by apply Forall2_app]. apply deep_wf_set; [done|]. apply deep_wf_list, Forall_app. split; [|done].
  apply deep_wf_list. by apply (deep_wf_get d "volumeMounts").
Qed.

Lemma container_remove_mounts name c c' a :
  no_adjacent name a.2 = true -> container c a -> remove_mounts name c = Ok c' ->
  container c' (a.1, List.filter (fun n => negb (String.eqb n name)) a.2).
Proof.
  intros Hadj (d & -> & Hname & Hwf & Hm). unfold remove_mounts. cbn [attr res_bind]. unfold mounts_named in Hm.
  destruct (dict_get d "volumeMounts") as [v|] eqn:E; cbn [default id].
  - destruct v as [| | | |l|]; try done. cbn [elements res_bind].
    destruct (remove_mounts_loop_spec name l a.2 Hm (S (length l)) [] (Forall_nil_2 _) Hadj) as (rest & Hr & Hf & Hs); [lia|].
    cbn [length app] in Hr. rewrite Hr. cbn [res_bind]. rewrite set_attr_dict. intros [= <-].
    eexists. split; [reflexivity|]. unfold mounts_named. rewrite dict_get_set_eq, dict_get_set_ne by done. cbn [fst snd].
    split_and!; [done| |done]. apply deep_wf_set; [done|]. apply deep_wf_list.
    eapply deep_wf_get, deep_wf_list in E; [|done]. rewrite Forall_forall in E |- *. intros x Hx. apply E. by eapply elem_of_sublist.
  - cbn [elements res_bind]. intros [= <-]. exists d. unfold mounts_named. rewrite E, Hm. cbn [fst snd]. by split_and!.
Qed.

(** ** Abstract pods *)

Record APod := mkAPod {
  ap_containers : list (string * list string);
  ap_inits : list (string * list string);
  ap_volumes : list string
}.

Definition ap_names (P : APod) : list string := (ap_containers P ++ ap_inits P)%list.*1.
Definition ap_wf (P : APod) : Prop := NoDup (ap_names P) /\ NoDup (ap_volumes P).

Definition edit (name : string) (g : list string -> list string) (l : list (string * list string)) : list (string * list string) :=
  map (fun a => if bool_decide (a.1 = name) then (a.1, g a.2) else a) l.
Definition a_edit (name : string) (g : list string -> list string) (P : APod) : APod :=
  mkAPod (edit name g (ap_containers P)) (edit name g (ap_inits P)) (ap_volumes P).

Definition without (name : string) (l : list (string * list string)) : list (string * list string) :=
  List.filter (fun a => negb (String.eqb a.1 name)) l.
Definition a_remove_container (name : string) (P : APod) : APod :=
  mkAPod (without name (ap_containers P)) (without name (ap_inits P)) (ap_volumes P).

Definition others (name : string) (ns : list string) : list string := List.filter (fun n => negb (String.eqb n name)) ns.
Definition unmount (name : string) (l : list (string * list string)) : list (string * list string) :=
  map (fun a => (a.1, others name a.2)) l.
Definition a_remove_volume (name : string) (P : APod) : APod :=
  mkAPod (unmount name (ap_containers P)) (unmount name (ap_inits P)) (others name (ap_volumes P)).

Definition a_add_volume (name : string) (P : APod) : APod :=
  mkAPod (ap_containers P) (ap_inits P) (ap_volumes P ++ [name])%list.

(** No container mounts the volume twice in a row, see [remove_volume_skips_neighbour]. *)
Definition not_adjacent (name : string) (P : APod) : Prop :=
  Forall (fun a => no_adjacent name a.2 = true) (ap_containers P ++ ap_inits P)%list.

(** Every mount is of a volume of the pod. *)
Definition mounts_bound (P : APod) : Prop :=
  forall a n, a ∈ (ap_containers P ++ ap_inits P)%list -> n ∈ a.2 -> n ∈ ap_volumes P.

(** ** The pod of a document *)

Definition pod_path (kw : Kw) : list string :=
  match kw with
  | None => ["spec"; "template"; "spec"]
  | Some replica => ["spec"; "mpiReplicaSpecs"; replica; "template"; "spec"]
  end.

Definition pod_of (kw : Kw) (doc : pyval) (P : APod) : Prop :=
  exists cs ics vs,
    lookup_path (pod_path kw ++ ["containers"]) doc = Some (VList cs) /\ Forall2 container cs (ap_containers P) /\
    lookup_path (pod_path kw ++ ["initContainers"]) doc = Some (VList ics) /\ Forall2 container ics (ap_inits P) /\
    lookup_path (pod_path kw ++ ["volumes"]) doc = Some (VList vs) /\ Forall2 volume vs (ap_volumes P).

(** The states of the helper with such a pod, and the operations that take one
    such state to another when they succeed. *)
Definition kpod (kw : Kw) (P : APod) (k : KRoot) : Prop := exists doc, k_root k = Some doc /\ pod_of kw doc P.

Definition ktriple (kw : Kw) (P : APod) {A} (m : M KRoot A) (P' : APod) : Prop :=
  forall k a k', kpod kw P k -> m k = (Ok a, k') -> kpod kw P' k'.

(** ** Paths *)

Lemma lookup_attrs p v w : lookup_path p v = Some w -> attrs p v = Ok w.
Proof.
  revert v. induction p as [|k p IH]; intros v; cbn [lookup_path attrs]; [by intros [= ->]|].
  destruct v as [| | | | |d]; try done. destruct (dict_get d k) as [x|] eqn:E; [|done].
  intros Hw. cbn [attr]. rewrite E. cbn [default id res_bind]. by apply IH.
Qed.

Lemma lookup_parent p k v w :
  lookup_path (p ++ [k])%list v = Some w -> exists d, lookup_path p v = Some (VDict d) /\ dict_get d k = Some w.
Proof.
  rewrite lookup_path_app. destruct (lookup_path p v) as [[| | | | |d]|]; try done. cbn [lookup_path].
  destruct (dict_get d k) eqn:E; [|done]. intros [= <-]. eauto.
Qed.

Lemma dict_get_truthy d k v : dict_get d k = Some v -> truthy (VDict d) = true.
Proof. by destruct d. Qed.

(** A change leaves the places off its path alone, even when it makes the path. *)
Lemma modify_at_frame p c f tree tree' :
  diverge p c -> modify_at c f tree = Ok tree' -> lookup_path p tree' = lookup_path p tree.
Proof.
  intros Hd. revert tree tree'. induction Hd as [a b p c Hne|a p c Hd IH]; intros tree tree'; cbn [modify_at];
    (destruct tree as [| | | | |d]; try done);
    (destruct (modify_at c f _) as [w|] eqn:Em; [|done]); cbn [res_bind]; intros [= <-]; cbn [lookup_path].
  - by rewrite dict_get_set_ne by congruence.
  - rewrite dict_get_set_eq. apply IH in Em. rewrite Em. destruct (dict_get d a) as [x|]; [done|].
    destruct Hd; reflexivity.
Qed.

Lemma modify_at_at c f tree tree' v v' r :
  lookup_path c tree = Some v -> f v = Ok v' -> modify_at c f tree = Ok tree' -> lookup_path (c ++ r)%list tree' = lookup_path r v'.
Proof. intros Hl Hf Hm. by apply (modify_at_inside f c v v' Hf tree). Qed.

Lemma modify_at_value c f tree tree' v :
  lookup_path c tree = Some v -> modify_at c f tree = Ok tree' -> exists v', f v = Ok v'.
Proof.
  intros Hl Hm. destruct (f v) as [v'|e] eqn:E; [eauto|]. by rewrite (modify_at_raises f c v e tree Hl E) in Hm.
Qed.

(** ** Looking at the pod *)

Section Pod.
Context (kw : Kw).

Definition with_root (doc : pyval) (k : KRoot) : KRoot := mkKRoot (Some doc) (config_maps k) (role_bindings k) (services k).

Lemma pod_dict doc P : pod_of kw doc P -> exists pod, lookup_path (pod_path kw) doc = Some (VDict pod) /\ truthy (VDict pod) = true.
Proof.
  intros (cs & ics & vs & Hc & _). apply lookup_parent in Hc as (pod & Hpod & Hcs). exists pod. split; [done|].
  by eapply dict_get_truthy.
Qed.

Lemma pod_spec_path_run k doc P :
  k_root k = Some doc -> pod_of kw doc P -> pod_spec_path kw k = (Ok (pod_path kw), k).
Proof.
  intros Hk Hp. destruct (pod_dict doc P Hp) as (pod & Hpod & Ht). unfold pod_spec_path, pod_path_in, get_root, bind, get. rewrite Hk.
  unfold ret, lift. destruct kw as [replica|]; cbn [pod_path] in *.
  - rewrite (lookup_attrs _ _ _ Hpod). cbn [res_bind]. by rewrite Ht.
  - destruct (lookup_parent ["spec"; "template"] "spec" doc _ Hpod) as (t & Htd & Hs).
    rewrite (lookup_attrs _ _ _ Htd). cbn [res_bind]. by rewrite (dict_get_truthy t "spec" (VDict pod)).
Qed.

Lemma pod_attr_run k doc P key v :
  k_root k = Some doc -> pod_of kw doc P -> lookup_path (pod_path kw ++ [key])%list doc = Some v ->
  pod_attr kw key k = (Ok v, k).
Proof.
  intros Hk Hp Hv. unfold pod_attr, get_pod_spec, bind. rewrite (pod_spec_path_run k doc P Hk Hp).
  unfold get_root, bind, get. rewrite Hk. unfold ret, lift.
  apply lookup_parent in Hv as (d & Hd & Hkey). rewrite (lookup_attrs _ _ _ Hd). cbn [attr]. by rewrite Hkey.
Qed.

Lemma modify_pod_run k k' doc P key f a :
  k_root k = Some doc -> pod_of kw doc P -> modify_pod kw key f k = (Ok a, k') ->
  exists doc', modify_at (pod_path kw ++ [key])%list f doc = Ok doc' /\ k' = with_root doc' k.
Proof.
  intros Hk Hp. unfold modify_pod, bind. rewrite (pod_spec_path_run k doc P Hk Hp).
  unfold get_root, bind, get. rewrite Hk. unfold ret, lift.
  destruct (modify_at _ f doc) as [doc'|e]; [|done]. unfold set_root, modify. intros [= _ <-]. eauto.
Qed.

(** One of the three lists changes, the others stay. *)
Lemma pod_path_diverge key1 key2 : key1 <> key2 -> diverge (pod_path kw ++ [key1])%list (pod_path kw ++ [key2])%list.
Proof. apply diverge_snoc. Qed.

Lemma modify_other doc doc' key key' f :
  key <> key' -> modify_at (pod_path kw ++ [key])%list f doc = Ok doc' ->
  lookup_path (pod_path kw ++ [key'])%list doc' = lookup_path (pod_path kw ++ [key'])%list doc.
Proof. intros Hne Hm. eapply modify_at_frame; [|exact Hm]. apply pod_path_diverge. congruence. Qed.

Ltac other_lists Hm :=
  match type of Hm with
  | modify_at (_ ++ [?key])%list _ _ = _ =>
      try rewrite (modify_other _ _ key "containers" _ ltac:(done) Hm);
      try rewrite (modify_other _ _ key "initContainers" _ ltac:(done) Hm);
      try rewrite (modify_other _ _ key "volumes" _ ltac:(done) Hm)
  end.

(** An attribute that is none of the three lists. *)
Lemma modify_pod_unlisted P key f :
  key <> "containers" -> key <> "initContainers" -> key <> "volumes" -> ktriple kw P (modify_pod kw key f) P.
Proof.
  intros H1 H2 H3 k a k' (doc & Hk & Hp) Hrun.
  destruct (modify_pod_run _ _ _ _ _ _ _ Hk Hp Hrun) as (doc' & Hm & ->). exists doc'. split; [done|].
  destruct Hp as (cs & ics & vs & Hc & Hcs & Hi & His & Hv & Hvs). exists cs, ics, vs.
  other_lists Hm. by split_and!.
Qed.

(** A change of one of the lists. *)
Lemma modify_pod_containers P f cs' :
  (forall cs v', Forall2 container cs (ap_containers P) -> f (VList cs) = Ok v' ->
     exists l, v' = VList l /\ Forall2 container l cs') ->
  ktriple kw P (modify_pod kw "containers" f) (mkAPod cs' (ap_inits P) (ap_volumes P)).
Proof.
  intros Hf k a k' (doc & Hk & Hp) Hrun.
  destruct (modify_pod_run _ _ _ _ _ _ _ Hk Hp Hrun) as (doc' & Hm & ->). exists doc'. split; [done|].
  destruct Hp as (cs & ics & vs & Hc & Hcs & Hi & His & Hv & Hvs).
  destruct (modify_at_value _ _ _ _ _ Hc Hm) as [v' Hv']. destruct (Hf _ _ Hcs Hv') as (l & -> & Hl).
  exists l, ics, vs. other_lists Hm.
  split; [|by split_and!]. pose proof (modify_at_at _ _ _ _ _ _ [] Hc Hv' Hm) as E. by rewrite app_nil_r in E.
Qed.

Lemma modify_pod_inits P f ics' :
  (forall ics v', Forall2 container ics (ap_inits P) -> f (VList ics) = Ok v' ->
     exists l, v' = VList l /\ Forall2 container l ics') ->
  ktriple kw P (modify_pod kw "initContainers" f) (mkAPod (ap_containers P) ics' (ap_volumes P)).
Proof.
  intros Hf k a k' (doc & Hk & Hp) Hrun.
  destruct (modify_pod_run _ _ _ _ _ _ _ Hk Hp Hrun) as (doc' & Hm & ->). exists doc'. split; [done|].
  destruct Hp as (cs & ics & vs & Hc & Hcs & Hi & His & Hv & Hvs).
  destruct (modify_at_value _ _ _ _ _ Hi Hm) as [v' Hv']. destruct (Hf _ _ His Hv') as (l & -> & Hl).
  exists cs, l, vs. other_lists Hm.
  split_and!; try done. pose proof (modify_at_at _ _ _ _ _ _ [] Hi Hv' Hm) as E. by rewrite app_nil_r in E.
Qed.

Lemma modify_pod_volumes P f vs' :
  (forall vs v', Forall2 volume vs (ap_volumes P) -> f (VList vs) = Ok v' ->
     exists l, v' = VList l /\ Forall2 volume l vs') ->
  ktriple kw P (modify_pod kw "volumes" f) (mkAPod (ap_containers P) (ap_inits P) vs').
Proof.
  intros Hf k a k' (doc & Hk & Hp) Hrun.
  destruct (modify_pod_run _ _ _ _ _ _ _ Hk Hp Hrun) as (doc' & Hm & ->). exists doc'. split; [done|].
  destruct Hp as (cs & ics & vs & Hc & Hcs & Hi & His & Hv & Hvs).
  destruct (modify_at_value _ _ _ _ _ Hv Hm) as [v' Hv']. destruct (Hf _ _ Hvs Hv') as (l & -> & Hl).
  exists cs, ics, l. other_lists Hm.
  split_and!; try done. pose proof (modify_at_at _ _ _ _ _ _ [] Hv Hv' Hm) as E. by rewrite app_nil_r in E.
Qed.
End Pod.

(** ** Finding by name *)

(** A container is, like a volume, a dictionary with a name. *)
Lemma container_volume c a : container c a -> volume c a.1.
Proof. intros (d & -> & Hn & Hw & _). by exists d. Qed.

Lemma containers_volumes cs l : Forall2 container cs l -> Forall2 volume cs l.*1.
Proof. induction 1; constructor; [by apply container_volume|done]. Qed.

Lemma eqb_names v w n m : volume v n -> volume w m -> pyval_eqb v w = true -> n = m.
Proof.
  intros (d1 & -> & Hn & _) (d2 & -> & Hm & _). cbn [pyval_eqb]. intros [_ Hgo]%andb_true_iff.
  induction d1 as [|[k x] d1 IH]; [done|]. apply andb_true_iff in Hgo as [Hx Hgo].
  cbn [dict_get] in Hn. case_decide as Hk; [|by apply IH]. subst. injection Hn as ->.
  rewrite Hm in Hx. by apply String.eqb_eq in Hx.
Qed.

Lemma remove_named l1 x l2 n pre :
  Forall2 volume l1 pre -> n ∉ pre -> volume x n -> remove_eq x (l1 ++ x :: l2)%list = (l1 ++ l2)%list.
Proof.
  intros Hl Hn Hx. induction Hl as [|y m l1 pre Hy Hl IH]; cbn [app remove_eq].
  - by rewrite (pyval_eqb_refl x) by by eapply volume_wf.
  - apply not_elem_of_cons in Hn as [Hnm Hn]. destruct (pyval_eqb y x) eqn:E; [|by rewrite IH].
    by rewrite (eqb_names _ _ _ _ Hy Hx E) in Hnm.
Qed.

(** The first of the name, or none. *)
Lemma index_named_run name l ns :
  Forall2 volume l ns ->
  (name ∉ ns /\ index_named name l = Ok None) \/
  (exists pre suf, ns = (pre ++ name :: suf)%list /\ name ∉ pre /\ index_named name l = Ok (Some (length pre))).
Proof.
  induction 1 as [|v n l ns Hv Hl IH]; [left; split; [apply not_elem_of_nil|done]|].
  cbn [index_named]. rewrite (volume_name _ _ Hv). cbn [res_bind is_str].
  destruct (String.eqb_spec name n) as [<-|Hne].
  - right. exists [], ns. split_and!; [done|apply not_elem_of_nil|done].
  - destruct IH as [[Hn ->]|(pre & suf & -> & Hn & ->)]; cbn [res_bind fmap option_fmap option_map].
    + left. split; [by apply not_elem_of_cons|done].
    + right. exists (n :: pre), suf. split_and!; [done|by apply not_elem_of_cons|done].
Qed.

Lemma edit_absent name g l : name ∉ l.*1 -> edit name g l = l.
Proof.
  intros Hn. unfold edit. rewrite <- (map_id l) at 2. apply map_ext_in. intros a Ha. rewrite bool_decide_false; [done|].
  intros <-. apply Hn. apply list_elem_of_fmap. exists a. split; [done|]. by apply list_elem_of_In.
Qed.

Lemma without_absent name l : name ∉ l.*1 -> without name l = l.
Proof.
  intros Hn. unfold without. induction l as [|a l IH]; [done|]. cbn [fmap list_fmap] in Hn. apply not_elem_of_cons in Hn as [Ha Hl].
  cbn [List.filter]. rewrite (proj2 (String.eqb_neq a.1 name)) by congruence. cbn [negb]. by rewrite IH.
Qed.

Lemma others_absent name ns : name ∉ ns -> others name ns = ns.
Proof.
  intros Hn. unfold others. induction ns as [|n ns IH]; [done|]. apply not_elem_of_cons in Hn as [Hne Hn].
  cbn [List.filter]. rewrite (proj2 (String.eqb_neq n name)) by congruence. cbn [negb]. by rewrite IH.
Qed.

(** With distinct names the edits act on one element. *)
Lemma edit_one name g pre ns suf :
  name ∉ pre.*1 -> name ∉ suf.*1 -> edit name g (pre ++ (name, ns) :: suf)%list = (pre ++ (name, g ns) :: suf)%list.
Proof.
  intros Hp Hs. unfold edit. rewrite map_app. cbn [map fst snd]. rewrite bool_decide_true by done.
  by rewrite (edit_absent name g pre Hp : map _ pre = pre), (edit_absent name g suf Hs : map _ suf = suf).
Qed.

Lemma without_one name pre ns suf :
  name ∉ pre.*1 -> name ∉ suf.*1 -> without name (pre ++ (name, ns) :: suf)%list = (pre ++ suf)%list.
Proof.
  intros Hp Hs. unfold without. rewrite List.filter_app. cbn [List.filter fst]. rewrite String.eqb_refl. cbn [negb].
  by rewrite (without_absent name pre Hp : List.filter _ pre = pre), (without_absent name suf Hs : List.filter _ suf = suf).
Qed.

Lemma others_one name pre suf :
  name ∉ pre -> name ∉ suf -> others name (pre ++ name :: suf)%list = (pre ++ suf)%list.
Proof.
  intros Hp Hs. unfold others. rewrite List.filter_app. cbn [List.filter]. rewrite String.eqb_refl. cbn [negb].
  by rewrite (others_absent name pre Hp : List.filter _ pre = pre), (others_absent name suf Hs : List.filter _ suf = suf).
Qed.

Lemma split_names (l : list (string * list string)) pre name suf :
  l.*1 = (pre ++ name :: suf)%list -> exists lp ns ls, l = (lp ++ (name, ns) :: ls)%list /\ lp.*1 = pre /\ ls.*1 = suf.
Proof.
  intros (lp & l2 & -> & Hl2 & ->)%fmap_app_inv. destruct l2 as [|[n ns] ls]; [done|]. injection Hl2 as -> ->.
  by exists lp, ns, ls.
Qed.

(** ** The operations of the helper *)

Section Operations.
Context (kw : Kw).

(** Where a container is found. *)
Definition located (name : string) (P : APod) (field : string) (i : nat) : Prop :=
  (field = "containers" /\ exists pre ns suf, ap_containers P = (pre ++ (name, ns) :: suf)%list /\ i = length pre) \/
  (field = "initContainers" /\ exists pre ns suf, ap_inits P = (pre ++ (name, ns) :: suf)%list /\ i = length pre).

Lemma locate_run name k k' P field i :
  kpod kw P k -> locate_container name kw k = (Ok (field, i), k') -> k' = k /\ located name P field i.
Proof.
  intros (doc & Hk & Hp). pose proof Hp as (cs & ics & vs & Hc & Hcs & Hi & His & _).
  unfold locate_container, bind. rewrite (pod_attr_run kw k doc P _ _ Hk Hp Hc), (pod_attr_run kw k doc P _ _ Hk Hp Hi).
  unfold lift, ret, raise. cbn [elements].
  destruct (index_named_run name cs _ (containers_volumes _ _ Hcs)) as [[Hn ->]|(pre & suf & Hns & Hn & ->)].
  2: { intros [= <- <- <-]. split; [done|]. left. split; [done|].
       apply split_names in Hns as (lp & ns & ls & Hl & <- & _). exists lp, ns, ls. by rewrite length_fmap. }
  destruct (index_named_run name ics _ (containers_volumes _ _ His)) as [[Hn2 ->]|(pre & suf & Hns & Hn2 & ->)].
  - unfold not_found, bind, lift, raise. by destruct (names_of _).
  - intros [= <- <- <-]. split; [done|]. right. split; [done|].
    apply split_names in Hns as (lp & ns & ls & Hl & <- & _). exists lp, ns, ls. by rewrite length_fmap.
Qed.

Lemma find_container_keeps P name : ktriple kw P (find_container name kw) P.
Proof.
  intros k a k' Hk. unfold find_container, bind. destruct (locate_container name kw k) as [[[field i]|e] k1] eqn:E; [|done].
  apply (locate_run name k k1 P) in E as [-> _]; [|done]. destruct (pod_attr kw field k) as [[l|e] k2] eqn:E2; [|done].
  unfold ret. intros [= _ <-]. revert E2. unfold pod_attr, get_pod_spec, bind, get_root, bind, get.
  destruct Hk as (doc & Hk & Hp). rewrite (pod_spec_path_run kw k doc P Hk Hp), Hk. unfold ret, lift.
  destruct (attrs _ doc); [|done]. intros [= _ <-]. by exists doc.
Qed.

(** The names before and behind a located container are others. *)
Lemma located_names name P pre ns suf :
  ap_wf P -> (ap_containers P = (pre ++ (name, ns) :: suf)%list -> name ∉ pre.*1 /\ name ∉ suf.*1 /\ name ∉ (ap_inits P).*1) /\
  (ap_inits P = (pre ++ (name, ns) :: suf)%list -> name ∉ pre.*1 /\ name ∉ suf.*1 /\ name ∉ (ap_containers P).*1).
Proof.
  intros [Hnd _]. unfold ap_names in Hnd. rewrite fmap_app in Hnd. apply NoDup_app in Hnd as (Hc & Hdis & Hi).
  split; intros E; rewrite E, fmap_app in *; cbn [fmap list_fmap fst] in *.
  - apply NoDup_app in Hc as (_ & H1 & H2). apply NoDup_cons in H2 as [H2 _]. split_and!.
    + intros Hin. by apply (H1 name Hin), list_elem_of_here.
    + done.
    + apply Hdis, elem_of_app. right. apply list_elem_of_here.
  - apply NoDup_app in Hi as (_ & H1 & H2). apply NoDup_cons in H2 as [H2 _]. split_and!.
    + intros Hin. by apply (H1 name Hin), list_elem_of_here.
    + done.
    + intros Hin. apply (Hdis name Hin), elem_of_app. right. apply list_elem_of_here.
Qed.

Lemma modify_nth_run l pre a a' suf f v' :
  Forall2 container l (pre ++ a :: suf)%list ->
  (forall c c', container c a -> f c = Ok c' -> container c' a') ->
  modify_nth (length pre) f (VList l) = Ok v' ->
  exists l', v' = VList l' /\ Forall2 container l' (pre ++ a' :: suf)%list.
Proof.
  intros Hall Hf. apply Forall2_app_inv_r in Hall as (l1 & l2 & Hl1 & Hl2 & ->).
  apply Forall2_cons_inv_r in Hl2 as (x & l3 & Hx & Hl3 & ->).
  cbn [modify_nth]. rewrite <- (Forall2_length _ _ _ Hl1), list_lookup_middle by done.
  destruct (f x) as [y|] eqn:E; [|done]. cbn [res_bind]. intros [= <-].
  eexists. split; [reflexivity|]. rewrite <- (Nat.add_0_r (length l1)), insert_app_r. cbn [insert list_insert].
  apply Forall2_app; [done|]. constructor; [by apply (Hf x)|done].
Qed.

(** ** Composition *)

Lemma ktriple_bind P Q R {A B} (m : M KRoot A) (f : A -> M KRoot B) :
  ktriple kw P m Q -> (forall a, ktriple kw Q (f a) R) -> ktriple kw P (bind m f) R.
Proof.
  intros Hm Hf k b k' Hk. unfold bind. destruct (m k) as [[a|e] k1] eqn:E; [|done]. by apply Hf, (Hm k a).
Qed.

Lemma ktriple_ret P {A} (a : A) : ktriple kw P (ret a) P.
Proof. intros k b k' Hk. by intros [= _ <-]. Qed.

Lemma ktriple_lift P {A} (r : Res A) : ktriple kw P (lift r) P.
Proof. intros k b k' Hk. unfold lift. destruct r; [|done]. by intros [= _ <-]. Qed.

Lemma modify_container_edits P name f g :
  ap_wf P -> (forall c c' ns, container c (name, ns) -> f c = Ok c' -> container c' (name, g ns)) ->
  ktriple kw P (modify_container name kw f) (a_edit name g P).
Proof.
  intros Hwf Hf k a k' Hk. unfold modify_container, bind.
  destruct (locate_container name kw k) as [[[field i]|e] k1] eqn:E; [|done].
  apply (locate_run name k k1 P) in E as [-> Hloc]; [|done].
  destruct Hloc as [(-> & pre & ns & suf & HP & ->)|(-> & pre & ns & suf & HP & ->)].
  - destruct (located_names name P pre ns suf Hwf) as [H1 _]. destruct (H1 HP) as (Hp & Hs & Hi).
    unfold a_edit. rewrite HP, (edit_one name g pre ns suf Hp Hs), (edit_absent name g _ Hi).
    revert k a k' Hk. apply modify_pod_containers. intros cs v' Hcs. rewrite HP in Hcs.
    by eapply modify_nth_run; [exact Hcs|intros; eapply Hf].
  - destruct (located_names name P pre ns suf Hwf) as [_ H1]. destruct (H1 HP) as (Hp & Hs & Hi).
    unfold a_edit. rewrite HP, (edit_one name g pre ns suf Hp Hs), (edit_absent name g _ Hi).
    revert k a k' Hk. apply modify_pod_inits. intros cs v' Hcs. rewrite HP in Hcs.
    by eapply modify_nth_run; [exact Hcs|intros; eapply Hf].
Qed.

(** An edit that keeps the mounts keeps the pod. *)
Lemma edit_id name l : edit name (fun ns => ns) l = l.
Proof. unfold edit. rewrite <- (map_id l) at 2. apply map_ext. intros [n ns]. cbn. by case_bool_decide. Qed.

Lemma a_edit_id name P : a_edit name (fun ns => ns) P = P.
Proof. unfold a_edit. rewrite !edit_id. by destruct P. Qed.

Lemma modify_container_keeps P name f :
  ap_wf P -> (forall c c' a, container c a -> f c = Ok c' -> container c' a) ->
  ktriple kw P (modify_container name kw f) P.
Proof.
  intros Hwf Hf. rewrite <- (a_edit_id name P) at 2. apply modify_container_edits; [done|]. intros c c' ns. apply Hf.
Qed.

Lemma remove_located l pre name ns suf v' :
  Forall2 container l (pre ++ (name, ns) :: suf)%list -> name ∉ pre.*1 ->
  (fun v => match v with VList l => Ok (VList (remove_eq (nth_of (length pre) v) l)) | _ => Ok v end) (VList l) = Ok v' ->
  exists l', v' = VList l' /\ Forall2 container l' (pre ++ suf)%list.
Proof.
  intros Hall Hn. apply Forall2_app_inv_r in Hall as (l1 & l2 & Hl1 & Hl2 & ->).
  apply Forall2_cons_inv_r in Hl2 as (x & l3 & Hx & Hl3 & ->). cbn [nth_of].
  rewrite <- (Forall2_length _ _ _ Hl1), list_lookup_middle by done. cbn [default id].
  rewrite (remove_named l1 x l3 name pre.*1); [|by apply containers_volumes|done|by apply (container_volume x (name, ns))].
  intros [= <-]. eexists. split; [reflexivity|]. by apply Forall2_app.
Qed.

Lemma remove_container_removes P name : ap_wf P -> ktriple kw P (remove_container name kw) (a_remove_container name P).
Proof.
  intros Hwf k a k' Hk. unfold remove_container, bind.
  destruct (locate_container name kw k) as [[[field i]|e] k1] eqn:E; [|done].
  apply (locate_run name k k1 P) in E as [-> Hloc]; [|done].
  destruct Hloc as [(-> & pre & ns & suf & HP & ->)|(-> & pre & ns & suf & HP & ->)].
  - destruct (located_names name P pre ns suf Hwf) as [H1 _]. destruct (H1 HP) as (Hp & Hs & Hi).
    unfold a_remove_container. rewrite HP, (without_one name pre ns suf Hp Hs), (without_absent name _ Hi).
    revert k a k' Hk. apply modify_pod_containers. intros cs v' Hcs. rewrite HP in Hcs. by apply (remove_located cs pre name ns).
  - destruct (located_names name P pre ns suf Hwf) as [_ H1]. destruct (H1 HP) as (Hp & Hs & Hi).
    unfold a_remove_container. rewrite HP, (without_one name pre ns suf Hp Hs), (without_absent name _ Hi).
    revert k a k' Hk. apply modify_pod_inits. intros cs v' Hcs. rewrite HP in Hcs. by apply (remove_located cs pre name ns).
Qed.

(** The two passes of [remove_volume] over the containers. *)
Lemma unmount_run name l cs v' :
  Forall2 container cs l -> Forall (fun a => no_adjacent name a.2 = true) l ->
  map_list (remove_mounts name) (VList cs) = Ok v' -> exists l', v' = VList l' /\ Forall2 container l' (unmount name l).
Proof.
  intros Hcs Hadj. unfold map_list. cbn [elements res_bind].
  destruct (res_map (remove_mounts name) cs) as [l'|e] eqn:E; [|done]. cbn [res_bind]. intros [= <-].
  exists l'. split; [done|]. revert l' E. induction Hcs as [|c a cs l Hc Hcs IH]; intros l'; cbn [res_map]; [intros [= <-]; constructor|].
  apply Forall_cons in Hadj as [Ha Hadj]. destruct (remove_mounts name c) as [c'|] eqn:Ec; [|done]. cbn [res_bind].
  destruct (res_map (remove_mounts name) cs) as [l1|] eqn:E1; [|done]. cbn [res_bind]. intros [= <-].
  constructor; [by apply (container_remove_mounts name c)|by apply IH].
Qed.

Lemma remove_volume_removes P name :
  ap_wf P -> not_adjacent name P -> ktriple kw P (remove_volume name kw) (a_remove_volume name P).
Proof.
  intros [_ Hnd] [Hac Hai]%Forall_app k a k' Hk. pose proof Hk as (doc & Hdoc & Hp).
  pose proof Hp as (cs & ics & vs & _ & _ & _ & _ & Hv & Hvs).
  unfold remove_volume, bind at 1. rewrite (pod_attr_run kw k doc P _ _ Hdoc Hp Hv).
  unfold bind at 1, lift at 1. cbn [elements]. unfold bind at 1, lift.
  destruct (index_named_run name vs _ Hvs) as [[Hn ->]|(pre & suf & Hns & Hn & ->)].
  { unfold not_found, bind, lift, raise. by destruct (names_of _). }
  revert k a k' doc Hk Hdoc Hp Hv. intros k a k' doc Hk _ _ _. revert k a k' Hk.
  apply ktriple_bind with (mkAPod (ap_containers P) (ap_inits P) (others name (ap_volumes P))).
  { apply modify_pod_volumes. intros vs2 v' _ [= <-]. eexists. split; [reflexivity|].
    rewrite Hns in Hvs, Hnd |- *. apply NoDup_app in Hnd as (_ & _ & Hs). apply NoDup_cons in Hs as [Hs _].
    rewrite (others_one name pre suf Hn Hs).
    apply Forall2_app_inv_r in Hvs as (l1 & l2 & Hl1 & Hl2 & ->). apply Forall2_cons_inv_r in Hl2 as (x & l3 & Hx & Hl3 & ->).
    rewrite <- (Forall2_length _ _ _ Hl1), list_lookup_middle by done. cbn [default id].
    rewrite (remove_named l1 x l3 name pre) by done. by apply Forall2_app. }
  intros _. apply ktriple_bind with (mkAPod (unmount name (ap_containers P)) (ap_inits P) (others name (ap_volumes P))).
  { apply (modify_pod_containers kw (mkAPod (ap_containers P) (ap_inits P) (others name (ap_volumes P)))).
    intros cs2 v' Hcs2. by apply unmount_run. }
  intros _. apply (modify_pod_inits kw (mkAPod (unmount name (ap_containers P)) (ap_inits P) (others name (ap_volumes P)))).
  intros ics2 v' Hcs2. by apply unmount_run.
Qed.

(** The edits that do not touch the lists. *)
Lemma set_service_account_keeps P name : ktriple kw P (set_service_account name kw) P.
Proof. by apply modify_pod_unlisted. Qed.

Lemma remove_affinity_keeps P : ktriple kw P (remove_affinity kw) P.
Proof.
  intros k a k' (doc & Hk & Hp). destruct (pod_dict kw doc P Hp) as (pod & Hpod & _).
  unfold remove_affinity, get_pod_spec, bind. rewrite (pod_spec_path_run kw k doc P Hk Hp).
  unfold get_root, bind, get. rewrite Hk. unfold ret, lift. rewrite (lookup_attrs _ _ _ Hpod).
  destruct (dict_mem "affinity" pod); [|done]. rewrite (pod_spec_path_run kw k doc P Hk Hp), Hk.
  destruct (modify_at (pod_path kw) (pop_attr "affinity") doc) as [doc'|e] eqn:Hm; [|done].
  unfold set_root, modify. intros [= _ <-]. exists doc'. split; [done|].
  destruct Hp as (cs & ics & vs & Hc & Hcs & Hi & His & Hv & Hvs).
  assert (Hkey : forall key, key <> "affinity" ->
    lookup_path (pod_path kw ++ [key])%list doc' = lookup_path (pod_path kw ++ [key])%list doc).
  { intros key Hne. rewrite (modify_at_at _ _ _ _ _ (VDict (dict_pop pod "affinity")) [key] Hpod eq_refl Hm).
    rewrite lookup_path_app, Hpod. cbn [lookup_path]. by rewrite dict_get_pop, decide_False by congruence. }
  exists cs, ics, vs. rewrite !Hkey by done. by split_and!.
Qed.

Lemma pod_path_metadata : kw <> Some "metadata" -> "metadata" ∉ pod_path kw.
Proof. intros Hkw. destruct kw as [r|]; cbn [pod_path]; rewrite !not_elem_of_cons; (split_and!; try done; try apply not_elem_of_nil). congruence. Qed.

Lemma add_label_keeps P key value : kw <> Some "metadata" -> scalar value = true -> ktriple kw P (add_label key value) P.
Proof.
  intros Hkw Hs k a k' (doc & Hk & Hp). unfold add_label, bind, get_root, bind, get. rewrite Hk. unfold ret, lift.
  destruct (add_label_obj key value doc) as [doc'|e] eqn:E; [|done].
  unfold set_root, modify. cbn [k_root config_maps role_bindings services].
  destruct (res_map _ (config_maps k)) as [cms|]; [|done]. destruct (res_map _ (role_bindings k)) as [rbs|]; [|done].
  destruct (res_map _ (services k)) as [svcs|]; [|done]. unfold put. intros [= _ <-]. exists doc'. split; [done|].
  assert (Hkey : forall field l, field <> "metadata" ->
    lookup_path (pod_path kw ++ [field])%list doc = Some (VList l) -> lookup_path (pod_path kw ++ [field])%list doc' = Some (VList l)).
  { intros field l Hf. apply (add_label_obj_frame key value doc doc' _ _ Hs E). apply untouched_path; [done|].
    rewrite not_elem_of_app, not_elem_of_cons. split; [by apply pod_path_metadata|]. split; [congruence|apply not_elem_of_nil]. }
  destruct Hp as (cs & ics & vs & Hc & Hcs & Hi & His & Hv & Hvs). exists cs, ics, vs.
  split_and!; done || by apply Hkey.
Qed.

Lemma add_env_vars_keeps P name env : ap_wf P -> ktriple kw P (k_add_env_vars name env kw) P.
Proof.
  intros Hwf. unfold k_add_env_vars. destruct env as [|kv env]; [apply ktriple_ret|].
  apply modify_container_keeps; [done|]. intros c c' a. apply container_merge_env.
Qed.
End Operations.

(** Distinct names stay distinct. *)
Lemma edit_names name g l : (edit name g l).*1 = l.*1.
Proof. unfold edit. induction l as [|[n ns] l IH]; [done|]. cbn [map fmap list_fmap fst]. by case_bool_decide; cbn [fst]; f_equal. Qed.

Lemma unmount_names name l : (unmount name l).*1 = l.*1.
Proof. unfold unmount. induction l as [|[n ns] l IH]; [done|]. cbn [map fmap list_fmap fst]. by f_equal. Qed.

Lemma without_elem name l n : n ∈ (without name l).*1 -> n ∈ l.*1.
Proof.
  intros ([m ns] & -> & Hin)%list_elem_of_fmap. apply list_elem_of_In, filter_In in Hin as [Hin _].
  apply list_elem_of_fmap. exists (m, ns). split; [done|]. by apply list_elem_of_In.
Qed.

Lemma without_NoDup name l : NoDup l.*1 -> NoDup (without name l).*1.
Proof.
  unfold without. induction l as [|[m ns] l IH]; [done|]. cbn [fmap list_fmap fst List.filter]. intros [Hm Hl]%NoDup_cons.
  destruct (String.eqb m name); cbn [negb fmap list_fmap fst]; [by apply IH|]. constructor; [|by apply IH].
  intros Hin. by apply Hm, (without_elem name).
Qed.

Lemma ap_wf_edit name g P : ap_wf P -> ap_wf (a_edit name g P).
Proof. unfold ap_wf, ap_names, a_edit. cbn [ap_containers ap_inits ap_volumes]. by rewrite !fmap_app, !edit_names. Qed.

Lemma ap_wf_remove_container name P : ap_wf P -> ap_wf (a_remove_container name P).
Proof.
  unfold ap_wf, ap_names, a_remove_container. cbn [ap_containers ap_inits ap_volumes]. intros [Hn Hv]. split; [|done].
  rewrite fmap_app in *. apply NoDup_app in Hn as (H1 & H2 & H3). apply NoDup_app. split_and!; [by apply without_NoDup| |by apply without_NoDup].
  intros x Hx Hy. by apply (H2 x); eapply without_elem.
Qed.

Lemma ap_wf_remove_volume name P : ap_wf P -> ap_wf (a_remove_volume name P).
Proof.
  unfold ap_wf, ap_names, a_remove_volume. cbn [ap_containers ap_inits ap_volumes]. rewrite !fmap_app, !unmount_names.
  intros [Hn Hv]. split; [done|]. apply NoDup_ListNoDup, List.NoDup_filter. by apply NoDup_ListNoDup.
Qed.

Lemma ap_wf_add_volume name P : name ∉ ap_volumes P -> ap_wf P -> ap_wf (a_add_volume name P).
Proof.
  intros Hn [H1 H2]. split; [done|]. cbn [a_add_volume ap_volumes]. apply NoDup_app. split_and!; [done| |apply NoDup_singleton].
  intros x Hx ->%list_elem_of_singleton. done.
Qed.

#[export] Hint Resolve ap_wf_edit ap_wf_remove_container ap_wf_remove_volume : py.

(** ** The operations of the builders *)

Section BuilderOps.
Context (kw : Kw) (d : BenchmarkDescriptor).

(** A builder with such an object, whose descriptor the edits only read. *)
Definition bpod (P : APod) (b : Bld) : Prop := b_descriptor b = d /\ exists k, b_root b = Some k /\ kpod kw P k.

Definition btriple (P : APod) {A} (m : M Bld A) (P' : APod) : Prop :=
  forall b a b', bpod P b -> m b = (Ok a, b') -> bpod P' b'.

Lemma btriple_bind P Q R {A B} (m : M Bld A) (f : A -> M Bld B) :
  btriple P m Q -> (forall a, btriple Q (f a) R) -> btriple P (bind m f) R.
Proof. intros Hm Hf b a b' Hb. unfold bind. destruct (m b) as [[x|e] b1] eqn:E; [|done]. by apply Hf, (Hm b x). Qed.

Lemma btriple_gets P Q {B} (f : BenchmarkDescriptor -> M Bld B) : btriple P (f d) Q -> btriple P (bind (gets b_descriptor) f) Q.
Proof. intros Hf b a b' Hb. unfold bind, gets. pose proof Hb as [-> _]. by apply Hf. Qed.

Lemma btriple_get P Q {B} (f : Bld -> M Bld B) :
  (forall b0, b_descriptor b0 = d -> btriple P (f b0) Q) -> btriple P (bind get f) Q.
Proof. intros Hf b a b' Hb. unfold bind, get. apply Hf; [by destruct Hb|done]. Qed.

Lemma btriple_ret P {A} (a : A) : btriple P (ret a) P.
Proof. intros b x b' Hb. by intros [= _ <-]. Qed.

Lemma btriple_raise P Q {A} e : btriple P (raise (A := A) e) Q.
Proof. by intros b x b' Hb. Qed.

Lemma btriple_lift P {A} (r : Res A) : btriple P (lift r) P.
Proof. intros b x b' Hb. unfold lift. destruct r; [|done]. by intros [= _ <-]. Qed.

Lemma btriple_root P P' {A} (m : M KRoot A) : ktriple kw P m P' -> btriple P (on_root m) P'.
Proof.
  intros Hm b a b' [Hd (k & Hk & Hp)]. unfold on_root. rewrite Hk. destruct (m k) as [r k'] eqn:E. intros [= -> <-].
  split; [done|]. exists k'. split; [done|]. by apply (Hm k a).
Qed.

Lemma btriple_for_each P {A} (f : A -> M Bld unit) l : (forall x, btriple P (f x) P) -> btriple P (for_each f l) P.
Proof.
  intros Hf. induction l as [|x l IH]; cbn [for_each]; [apply btriple_ret|]. apply btriple_bind with P; [done|by intros _].
Qed.

Lemma btriple_try P Q {A} (m : M Bld A) (h : exn -> M Bld A) :
  btriple P m Q -> (forall e b b1, bpod P b -> m b = (Raise e, b1) -> forall a b', h e b1 = (Ok a, b') -> bpod Q b') ->
  btriple P (try_except m h) Q.
Proof.
  intros Hm Hh b a b' Hb. unfold try_except. destruct (m b) as [[x|e] b1] eqn:E; [|by apply (Hh e b)].
  intros [= _ <-]. by apply (Hm b x).
Qed.

(** [find_container] only looks. *)
Definition looks {A} (m : M KRoot A) : Prop := forall k, (m k).2 = k.

Lemma looks_bind {A B} (m : M KRoot A) (f : A -> M KRoot B) : looks m -> (forall a, looks (f a)) -> looks (bind m f).
Proof. intros Hm Hf k. unfold bind. specialize (Hm k). destruct (m k) as [[a|e] k1]; cbn [snd] in *; subst; [apply Hf|done]. Qed.

Lemma looks_lift {A} (r : Res A) : looks (lift r).
Proof. intros k. unfold lift. by destruct r. Qed.

Lemma looks_get_root : looks get_root.
Proof. intros k. unfold get_root, bind, get. by destruct (k_root k). Qed.

Lemma looks_pod_attr key : looks (pod_attr kw key).
Proof.
  unfold pod_attr, get_pod_spec, pod_spec_path, pod_path_in.
  repeat first [apply looks_get_root | apply looks_lift | apply looks_bind; [|intros]].
Qed.

Lemma looks_find_container name : looks (find_container name kw).
Proof.
  unfold find_container, locate_container. apply looks_bind.
  - apply looks_bind; [apply looks_pod_attr|intros c]. apply looks_bind; [apply looks_pod_attr|intros ic].
    apply looks_bind; [apply looks_lift|intros cs]. apply looks_bind; [apply looks_lift|intros [i|]]; [done|].
    apply looks_bind; [apply looks_lift|intros ics]. apply looks_bind; [apply looks_lift|intros [i|]]; [done|].
    unfold not_found. by apply looks_bind; [apply looks_lift|].
  - intros [field i]. by apply looks_bind; [apply looks_pod_attr|].
Qed.

Lemma add_metrics_pusher_env_var_keeps P key value prefix :
  ap_wf P -> deep_wf value = true -> btriple P (add_metrics_pusher_env_var key value prefix kw) P.
Proof.
  intros Hwf Hv. unfold add_metrics_pusher_env_var. apply btriple_bind with P.
  - apply btriple_try.
    + apply btriple_bind with P; [apply btriple_root, find_container_keeps|intros _; apply btriple_ret].
    + intros e b b1 [Hd (k & Hk & Hp)] Hrun a b'. unfold bind, on_root in Hrun. rewrite Hk in Hrun.
      pose proof (looks_find_container METRICS_PUSHER_CONTAINER k) as Hlook.
      destruct (find_container METRICS_PUSHER_CONTAINER kw k) as [[c|e'] k1]; cbn [snd] in Hlook; subst k1.
      * unfold ret in Hrun. done.
      * injection Hrun as <- <-. unfold raise, ret. destruct e'; try done. intros [= _ <-]. split; [done|]. by exists k.
  - intros [|]; [|apply btriple_ret]. apply btriple_root, modify_container_keeps; [done|].
    intros c c' a. by apply container_append_env.
Qed.

Lemma for_labels_keeps P f : (forall label value, btriple P (f label value) P) -> btriple P (for_labels f) P.
Proof.
  intros Hf. unfold for_labels. apply btriple_gets. destruct (info_labels (info d)) as [labels|]; [|apply btriple_raise].
  apply btriple_for_each. intros [label value]. apply Hf.
Qed.

Lemma deep_wf_opt_val o : deep_wf (opt_val o) = true.
Proof. by destruct o. Qed.

Context (Hkw : kw <> Some "metadata").

Lemma add_label_opt_keeps P key o : btriple P (on_root (add_label key (opt_val o))) P.
Proof. apply btriple_root, add_label_keeps; [done|]. by destruct o. Qed.

Lemma add_custom_labels_keeps P : ap_wf P -> btriple P (add_custom_labels kw) P.
Proof.
  intros Hwf. unfold add_custom_labels. apply btriple_bind with P.
  { apply for_labels_keeps. intros. by apply add_metrics_pusher_env_var_keeps. }
  intros _. apply btriple_gets. destruct (custom_params d) as [cp|]; [|apply btriple_ret].
  apply btriple_bind with P; [|intros _].
  - destruct (str_truthy (cp_dashboard cp)); [|apply btriple_ret].
    apply btriple_bind with P; [apply add_label_opt_keeps|intros _]. apply add_metrics_pusher_env_var_keeps; [done|apply deep_wf_opt_val].
  - destruct (str_truthy (cp_region cp)); [|apply btriple_ret].
    apply btriple_bind with P; [apply add_label_opt_keeps|intros _]. apply add_metrics_pusher_env_var_keeps; [done|apply deep_wf_opt_val].
Qed.

Lemma add_parent_label_and_env_keeps P : ap_wf P -> btriple P (add_parent_label_and_env kw) P.
Proof.
  intros Hwf. unfold add_parent_label_and_env. apply btriple_get. intros b0 _. destruct (str_truthy _); [|apply btriple_ret].
  apply btriple_bind with P; [apply add_label_opt_keeps|intros _]. apply add_metrics_pusher_env_var_keeps; [done|apply deep_wf_opt_val].
Qed.

Lemma suppress_affinity_keeps P : btriple P (suppress_affinity kw) P.
Proof.
  unfold suppress_affinity. apply btriple_get. intros b0 _. destruct (suppress_job_affinity _); [|apply btriple_ret].
  apply btriple_root, remove_affinity_keeps.
Qed.

Lemma add_benchmark_cmd_to_container_keeps P : ap_wf P -> btriple P (add_benchmark_cmd_to_container kw) P.
Proof.
  intros Hwf. unfold add_benchmark_cmd_to_container. apply btriple_bind with P; [apply btriple_root, find_container_keeps|intros _].
  apply btriple_gets. destruct (str_truthy _).
  - apply btriple_bind with P; [apply btriple_lift|intros cmd]. apply btriple_bind with P; [apply btriple_lift|intros args].
    apply btriple_root, modify_container_keeps; [done|]. intros c c' a. by apply container_set_and_pop.
  - destruct (str_truthy _).
    + apply btriple_bind with P; [apply btriple_lift|intros args].
      apply btriple_root, modify_container_keeps; [done|]. intros c c' a. by apply container_set_and_pop.
    + apply btriple_root, modify_container_keeps; [done|]. intros c c' a Hc.
      destruct (pop_attr "command" c) as [c1|] eqn:E; [|done]. cbn [res_bind].
      apply container_pop_attr; [done|done|]. by apply (container_pop_attr "command" c).
Qed.

Lemma add_env_vars_op_keeps P : ap_wf P -> btriple P (add_env_vars kw) P.
Proof.
  intros Hwf. unfold add_env_vars. apply btriple_get. intros b0 _.
  apply btriple_bind with P; [|intros _]; by apply btriple_root, add_env_vars_keeps.
Qed.

Lemma data_mounts_named (vols : dict string PullerDataSource) :
  Forall2 mount (get_container_volume_mounts vols) (repeat DATASETS_VOLUME_NAME (length vols)) /\
  Forall (fun v => deep_wf v = true) (get_container_volume_mounts vols).
Proof.
  induction vols as [|[path vol] vols [IH1 IH2]]; [by split|]. split; constructor; try done.
  constructor; [by apply (bool_decide_unpack _)|by repeat constructor|done].
Qed.

Definition a_add_data (data_sources : list DownloadableContent) (container : string) (P : APod) : APod :=
  a_edit container (fun ns => (ns ++ repeat DATASETS_VOLUME_NAME (length (get_data_mounts data_sources)))%list)
    match data_sources with
    | [] => a_remove_volume DATASETS_VOLUME_NAME (a_remove_container DATA_PULLER_CONTAINER P)
    | _ => P
    end.

Context (repr_content : DownloadableContent -> string).

Lemma add_data_volume_mounts_edits P data_sources name :
  ap_wf P -> (data_sources = [] -> not_adjacent DATASETS_VOLUME_NAME (a_remove_container DATA_PULLER_CONTAINER P)) ->
  btriple P (add_data_volume_mounts repr_content data_sources name kw) (a_add_data data_sources name P).
Proof.
  intros Hwf Hadj. unfold add_data_volume_mounts. apply btriple_bind with P; [apply btriple_root, find_container_keeps|intros _].
  apply btriple_bind with (match data_sources with
    | [] => a_remove_volume DATASETS_VOLUME_NAME (a_remove_container DATA_PULLER_CONTAINER P) | _ => P end).
  - unfold update_data_puller. destruct data_sources as [|first rest].
    + apply btriple_bind with (a_remove_container DATA_PULLER_CONTAINER P); [by apply btriple_root, remove_container_removes|intros _].
      apply btriple_root, remove_volume_removes; [auto with py|by apply Hadj].
    + apply btriple_bind with P; [apply btriple_root, find_container_keeps|intros _]. apply btriple_get. intros b0 _.
      apply btriple_bind with P; [apply btriple_lift|intros [bucket key]]. apply btriple_bind with P; [apply btriple_lift|intros objs].
      apply btriple_root, modify_container_keeps; [done|]. intros c c' a. apply container_set_attr; [done|done|apply deep_wf_strs].
  - intros _. apply btriple_root, modify_container_edits; [destruct data_sources; auto with py|].
    intros c c' ns Hc. destruct (data_mounts_named (get_data_mounts data_sources)) as [H1 H2].
    by apply (container_extend _ _ c c' (name, ns) H1 H2).
Qed.

Definition a_add_scripts (scripts : list BaiScriptSource) (P : APod) : APod :=
  match scripts with
  | [] => a_remove_volume SCRIPTS_VOLUME_NAME (a_remove_container SCRIPTS_PULLER_CONTAINER P)
  | _ => P
  end.

Lemma add_scripts_edits P scripts :
  ap_wf P -> (scripts = [] -> not_adjacent SCRIPTS_VOLUME_NAME (a_remove_container SCRIPTS_PULLER_CONTAINER P)) ->
  btriple P (add_scripts scripts kw) (a_add_scripts scripts P).
Proof.
  intros Hwf Hadj. unfold add_scripts, a_add_scripts. destruct scripts as [|first rest].
  - apply btriple_bind with (a_remove_container SCRIPTS_PULLER_CONTAINER P); [by apply btriple_root, remove_container_removes|intros _].
    apply btriple_root, remove_volume_removes; [auto with py|by apply Hadj].
  - apply btriple_bind with P; [apply btriple_root, find_container_keeps|intros _]. apply btriple_bind with P.
    + apply btriple_root, modify_container_keeps; [done|]. intros c c' a. apply container_set_attr; [done|done|apply deep_wf_strs].
    + intros _ b a b' [Hd (k & Hk & Hp)]. unfold modify. intros [= _ <-]. split; [done|]. by exists k.
Qed.

Definition a_add_shm (container : string) (P : APod) : APod :=
  a_edit container (fun ns => (ns ++ [SHARED_MEMORY_VOLUME])%list) (a_add_volume SHARED_MEMORY_VOLUME P).

Lemma add_extended_shm_edits P name :
  ap_wf P -> SHARED_MEMORY_VOLUME ∉ ap_volumes P -> btriple P (add_extended_shm name kw) (a_add_shm name P).
Proof.
  intros Hwf Hn. unfold add_extended_shm. apply btriple_bind with P.
  { apply btriple_root. intros k a k' Hk Hrun. pose proof (looks_pod_attr "volumes" k) as Hl. rewrite Hrun in Hl. cbn [snd] in Hl. by subst k'. }
  intros vols. apply btriple_bind with P; [apply btriple_root, find_container_keeps|intros c].
  apply btriple_bind with P; [apply btriple_lift|intros _].
  apply btriple_bind with (a_add_volume SHARED_MEMORY_VOLUME P).
  - apply btriple_root, modify_pod_volumes. intros vs v' Hvs [= <-]. eexists. split; [reflexivity|].
    apply Forall2_app; [done|]. constructor; [|constructor]. eexists. split; [reflexivity|]. split; reflexivity.
  - intros _. apply btriple_root, modify_container_edits; [by apply ap_wf_add_volume|]. intros c1 c' ns Hc.
    apply (container_extend _ [SHARED_MEMORY_VOLUME] c1 c' (name, ns)); [|by repeat constructor|done].
    constructor; [|constructor]. constructor; [by apply (bool_decide_unpack _)|by repeat constructor|done].
Qed.

Definition a_add_shared_memory (P : APod) : APod := if env_extended_shm (env d) then a_add_shm BENCHMARK_CONTAINER P else P.

Lemma add_shared_memory_edits P :
  ap_wf P -> SHARED_MEMORY_VOLUME ∉ ap_volumes P -> btriple P (add_shared_memory kw) (a_add_shared_memory P).
Proof.
  intros Hwf Hn. unfold add_shared_memory, a_add_shared_memory. apply btriple_gets.
  destruct (env_extended_shm (env d)); [by apply add_extended_shm_edits|apply btriple_ret].
Qed.

Definition a_remove_sidecars (P : APod) : APod :=
  a_remove_container METRICS_PUSHER_CONTAINER (a_remove_container METRICS_EXTRACTOR_CONTAINER P).

Lemma remove_metrics_sidecars_edits P : ap_wf P -> btriple P (remove_metrics_sidecars kw) (a_remove_sidecars P).
Proof.
  intros Hwf. unfold remove_metrics_sidecars. apply btriple_bind with (a_remove_container METRICS_EXTRACTOR_CONTAINER P).
  - by apply btriple_root, remove_container_removes.
  - intros _. apply btriple_root, remove_container_removes. auto with py.
Qed.
End BuilderOps.

(** ** What an operation leaves alone, however it ends *)

Definition preserved {S} (Q : S -> Prop) {A} (m : M S A) : Prop := forall s, Q s -> Q (m s).2.

Section Preserved.
Context {S : Type} (Q : S -> Prop).

Lemma preserved_bind {A B} (m : M S A) (f : A -> M S B) :
  preserved Q m -> (forall a, preserved Q (f a)) -> preserved Q (bind m f).
Proof. intros Hm Hf s Hs. unfold bind. specialize (Hm s Hs). destruct (m s) as [[a|e] s1]; [by apply Hf|done]. Qed.

Lemma preserved_ret {A} (a : A) : preserved Q (ret a).
Proof. by intros s. Qed.

Lemma preserved_raise {A} e : preserved Q (raise (A := A) e).
Proof. by intros s. Qed.

Lemma preserved_lift {A} (r : Res A) : preserved Q (lift r).
Proof. intros s. unfold lift. by destruct r. Qed.

Lemma preserved_get : preserved Q get.
Proof. by intros s. Qed.

Lemma preserved_gets {A} (f : S -> A) : preserved Q (gets f).
Proof. by intros s. Qed.

Lemma preserved_try {A} (m : M S A) h : preserved Q m -> (forall e, preserved Q (h e)) -> preserved Q (try_except m h).
Proof. intros Hm Hh s Hs. unfold try_except. specialize (Hm s Hs). destruct (m s) as [[a|e] s1]; [done|by apply Hh]. Qed.

Lemma preserved_for_each {A} (f : A -> M S unit) l : (forall x, x ∈ l -> preserved Q (f x)) -> preserved Q (for_each f l).
Proof. intros Hf s Hs. apply for_each_inv; [|done]. intros x s1 Hx. by apply Hf. Qed.
End Preserved.
