(* ===== verification/CronDocument.v ===== *)
(** * The document of a scheduled benchmark (transpiler/templates/cron_job.yaml)

    The template of the cron job as a function of the values it is filled with,
    and what the transpiler's edits leave of it: the program of the cron job
    gets the event of the submission in its environment. *)

From S2P Require Import Prelude PyStr PyLib Json Events Descriptor K8sSpec K8sLabels BaiKnowledge.

#[local] Arguments String.append !_ _ /.

(** ** The template *)

Section Template.
(** YAML: the value of a plain scalar and of one between double quotes. *)
Context (plain quoted : string -> pyval).

(** The labels of the cron job and of its pods. *)
Definition cron_labels (service_name : string) (event : Event) : pyval :=
  VDict [("app", plain "benchmark-ai"); ("action-id", plain (action_id event));
         ("client-id", plain (client_id event)); ("created-by", plain service_name)].

(** An environment variable from a key of a config map. *)
Definition env_from_config_map (name config_map key : string) : pyval :=
  VDict [("name", plain name);
         ("valueFrom", VDict [("configMapKeyRef", VDict [("name", plain config_map); ("key", plain key)])])].

Definition cron_env (service_name event_json_str : string) : list pyval :=
  [env_from_config_map "KAFKA_BOOTSTRAP_SERVERS" "outputs-infrastructure" "msk_bootstrap_brokers";
   env_from_config_map "PRODUCER_TOPIC" service_name "consumer_topic";
   env_from_config_map "STATUS_TOPIC" service_name "status_topic";
   VDict [("name", plain "BENCHMARK_EVENT"); ("value", plain event_json_str)]].

Definition cron_container (image service_name event_json_str : string) : list (string * pyval) :=
  [("name", plain "benchmark-starter"); ("image", plain image); ("env", VList (cron_env service_name event_json_str))].

Definition cron_document (descriptor : BenchmarkDescriptor) (config : BaiConfig) (event : Event)
    (service_name job_id event_json_str : string) : pyval :=
  let pod :=
    VDict [("serviceAccountName", plain "scheduled-benchmark");
           ("containers", VList [VDict (cron_container (cron_job_docker_image config) service_name event_json_str)]);
           ("nodeSelector", VDict [("node.type", plain "bai-services-cheap")]);
           ("restartPolicy", plain "Never")] in
  let template := VDict [("metadata", VDict [("labels", cron_labels service_name event)]); ("spec", pod)] in
  VDict [("apiVersion", plain "batch/v1beta1"); ("kind", plain "CronJob");
         ("metadata", VDict [("name", plain job_id); ("labels", cron_labels service_name event)]);
         ("spec", VDict [("schedule", quoted (opt_str (info_scheduling (info descriptor))));
                         ("jobTemplate", VDict [("spec", VDict [("template", template)])])])].
End Template.

(** ** What a pod of the cron job gets *)

Definition cron_containers_path : list string := ["spec"; "jobTemplate"; "spec"; "template"; "spec"; "containers"].

(** The plain value of an environment variable of a container. *)
Definition env_entry_value (name : string) (entry : pyval) : option string :=
  match entry with
  | VDict d =>
      match dict_get d "value", dict_get d "name" with
      | Some (VStr v), Some (VStr n) => if String.eqb n name then Some v else None
      | _, _ => None
      end
  | _ => None
  end.

Definition container_env (name : string) (container : pyval) : option string :=
  match lookup_path ["env"] container with
  | Some (VList entries) => head (omap (env_entry_value name) entries)
  | _ => None
  end.

(** The variable as the first container of the cron job among the documents
    gets it. *)
Definition cron_job_env (name : string) (docs : list pyval) : option string :=
  match last docs with
  | Some doc =>
      match lookup_path cron_containers_path doc with
      | Some (VList (container :: _)) => container_env name container
      | _ => None
      end
  | None => None
  end.

(** ** Labels leave the containers alone *)

(** The scheduled builder's object is one document, whose pods have these
    containers. *)
Definition cron_object (cs : list pyval) (b : Bld) : Prop :=
  exists doc, b_root b = Some (mkKRoot (Some doc) [] [] []) /\ lookup_path cron_containers_path doc = Some (VList cs).

Lemma add_label_cron cs label value b :
  cron_object cs b -> cron_object cs (on_root (add_label label (VStr value)) b).2.
Proof.
  intros (doc & Hroot & Hp). unfold on_root. rewrite Hroot.
  unfold add_label, get_root, set_root, bind, get, lift, ret, modify, put. cbn [k_root].
  destruct (add_label_obj label (VStr value) doc) as [doc'|e] eqn:E; cbn; [|by exists doc].
  exists doc'. split; [done|].
  eapply (add_label_obj_frame label (VStr value)); [done|exact E| |exact Hp].
  apply untouched_path; [done|]. apply (bool_decide_unpack _). vm_compute. exact I.
Qed.

(** ** YAML *)

(** The scalars of YAML 1.1 and 1.2 that are no strings although they are words. *)
Definition yaml_keywords : list string := ["true"; "false"; "null"; "yes"; "no"; "on"; "off"; "y"; "n"].

(** A letter, then letters, digits, underscores and hyphens, and no keyword. *)
Definition yaml_word (s : string) : bool :=
  match s with
  | "" => false
  | String c _ =>
      is_alpha c && str_forall (fun c => is_alpha c || is_digit c || Ascii.eqb c "_" || Ascii.eqb c "-") s &&
      bool_decide (lower s ∉ yaml_keywords)
  end.

(** The characters that YAML takes as they are. *)
Definition yaml_printable (c : ascii) : bool := (32 <=? byte c) && (byte c <? 127).

(** A text that is one plain scalar wherever it stands: no comment, indicator or
    mapping begins in it.  A colon stands between two other characters. *)
Definition token_char (c : ascii) : bool :=
  is_alpha c || is_digit c || Ascii.eqb c "-" || Ascii.eqb c "_" || Ascii.eqb c "." || Ascii.eqb c "/" || Ascii.eqb c ":".

Fixpoint colons_inside (s : string) : bool :=
  match s with
  | "" => true
  | String c "" => negb (Ascii.eqb c ":")
  | String _ s' => colons_inside s'
  end.

Definition yaml_token (s : string) : bool :=
  match s with
  | "" => true
  | String c _ => (is_alpha c || is_digit c) && str_forall token_char s && colons_inside s
  end.

Lemma token_lower s : yaml_token s = true -> yaml_token (lower s) = true.
Proof.
  assert (Halnum : forall c, is_alpha c || is_digit c = true -> is_alpha (ascii_lower c) || is_digit (ascii_lower c) = true)
    by (intros c; by destruct c as [[] [] [] [] [] [] [] []]).
  assert (Hchar : forall c, token_char c = true -> token_char (ascii_lower c) = true)
    by (intros c; by destruct c as [[] [] [] [] [] [] [] []]).
  assert (Hcolon : forall c, Ascii.eqb (ascii_lower c) ":" = Ascii.eqb c ":")
    by (intros c; by destruct c as [[] [] [] [] [] [] [] []]).
  destruct s as [|c s]; [done|]. unfold yaml_token, lower. cbn [str_map]. rewrite !andb_true_iff. intros [[Hc Hs] Hin].
  split_and!; [by apply Halnum| |].
  - change (String (ascii_lower c) (str_map ascii_lower s)) with (lower (String c s)). clear Hc Hin.
    induction (String c s) as [|a r IH]; [done|]. cbn [str_forall lower str_map] in *.
    apply andb_true_iff in Hs as [Ha Hr]. by rewrite Hchar, IH.
  - clear Hc Hs. revert c Hin. induction s as [|a r IH]; intros c; cbn [colons_inside str_map]; [by rewrite Hcolon|].
    intros Hin. by apply (IH a).
Qed.

Lemma token_prefix s : yaml_token s = true -> yaml_token ("b-" +:+ s) = true.
Proof.
  destruct s as [|c s]; [done|]. unfold yaml_token. rewrite !andb_true_iff. intros [[_ Hs] Hin].
  cbn [String.append str_forall colons_inside] in *. by rewrite Hs.
Qed.

(** A text that can stand between double quotes. *)
Definition yaml_quotable (s : string) : bool :=
  str_forall (fun c => yaml_printable c && negb (Ascii.eqb c dquote) && negb (Ascii.eqb c "\")) s.

(** The package ruamel.yaml: the value of a scalar, where a JSON string is a
    double-quoted scalar; the dumper and the loader, inverse to each other. *)
Class Yaml : Type := {
  yaml_plain : string -> pyval;
  yaml_quoted : string -> pyval;
  yaml_dump_all : list pyval -> string;
  yaml_load_all : string -> Res (list pyval)
}.

Class YamlLaws `{Yaml} : Prop := {
  plain_word : forall s, yaml_word s = true -> yaml_plain s = VStr s;
  plain_scalar : forall s, scalar (yaml_plain s) = true;
  plain_json : forall t, str_forall yaml_printable t = true -> yaml_plain (json_dumps (VStr t)) = VStr t;
  load_dump : forall docs, yaml_load_all (yaml_dump_all docs) = Ok docs
}.

Section Scheduled.
Context `{YamlLaws}.
Context (read_template : string -> string) (load_docs : string -> dict string TVar -> Res (list pyval)).
Context (event_to_json : Event -> string).
Context (cron_is_valid : option string -> bool) (dacite : DaciteArgs -> list (string * pyval) -> Res BenchmarkDescriptor).

(** The values of the template that end up in scalars are scalars. *)
Definition cron_values_safe (descriptor : BenchmarkDescriptor) (config : BaiConfig) (event : Event) (job_id : string) : Prop :=
  yaml_token (action_id event) = true /\ yaml_token (client_id event) = true /\ yaml_token job_id = true /\
  yaml_token (cron_job_docker_image config) = true /\
  yaml_quotable (opt_str (info_scheduling (info descriptor))) = true.

(** The template file, filled by [str.format] with such values and the text of a
    JSON string, and parsed. *)
Definition cron_template_file : Prop := forall descriptor config event service_name job_id is_job_id t,
  let event_json_str := json_dumps (VStr t) in
  cron_values_safe descriptor config event job_id -> yaml_token service_name = true ->
  str_forall yaml_printable t = true ->
  load_docs (read_template "cron_job.yaml")
    [("descriptor", TDescriptor descriptor); ("config", TConfig config); ("event", TEvent event);
     ("service_name", TStr service_name); ("job_id", TStr job_id); ("inference_server_job_id", TStr is_job_id);
     ("event_json_str", TStr event_json_str)] =
  Ok [cron_document yaml_plain yaml_quoted descriptor config event service_name job_id event_json_str].

(** The one container, with the empty list of mounts that the helper adds. *)
Definition filed_container (image service_name event_json_str : string) : pyval :=
  VDict (cron_container yaml_plain image service_name event_json_str ++ [("volumeMounts", VList [])])%list.

Lemma cron_helper_init descriptor config event service_name job_id event_json_str :
  exists doc,
    helper_init [cron_document yaml_plain yaml_quoted descriptor config event service_name job_id event_json_str]
      (mkKRoot None [] [] []) = (Ok tt, mkKRoot (Some doc) [] [] []) /\
    lookup_path cron_containers_path doc =
      Some (VList [filed_container (cron_job_docker_image config) service_name event_json_str]).
Proof.
  unfold cron_document. rewrite (plain_word "CronJob") by reflexivity.
  generalize (cron_labels yaml_plain service_name event). intros labels.
  generalize (yaml_quoted (opt_str (info_scheduling (info descriptor)))). intros schedule.
  unfold filed_container.
  eexists. split; [lazy; reflexivity|lazy; reflexivity].
Qed.

Context (Htemplate : cron_template_file).

Abbreviation scheduled_container config event :=
  (filed_container (cron_job_docker_image config) SERVICE_NAME (json_dumps (VStr (event_to_json event)))).

(** The builder fills the template and files the one document. *)
Lemma scheduled_root descriptor config job_id event :
  cron_values_safe descriptor config event (lower job_id) -> str_forall yaml_printable (event_to_json event) = true ->
  exists b1 b, feed_scheduled_values event_to_json (scheduled_builder_init read_template descriptor config job_id event) = (Ok tt, b1) /\
    build_root load_docs b1 = (Ok tt, b) /\ cron_object [scheduled_container config event] b.
Proof.
  intros Hsafe Hprint. set (b0 := scheduled_builder_init _ _ _ _ _). set (s := json_dumps (VStr (event_to_json event))).
  set (b1 := set_b_template (feed [("event_json_str", TStr s)] (b_template b0)) b0).
  destruct (cron_helper_init descriptor config event SERVICE_NAME (lower job_id) s) as (doc & Hinit & Hdoc).
  exists b1, (set_b_root (Some (mkKRoot (Some doc) [] [] [])) b1). split; [reflexivity|]. split; [|by exists doc].
  unfold build_root, bind at 1, get. unfold bind, lift, template_build.
  match goal with |- context [load_docs ?t ?v] =>
    change (load_docs t v) with (load_docs (read_template "cron_job.yaml")
      [("descriptor", TDescriptor descriptor); ("config", TConfig config); ("event", TEvent event);
       ("service_name", TStr SERVICE_NAME); ("job_id", TStr (lower job_id));
       ("inference_server_job_id", TStr ("is-" +:+ lower job_id)); ("event_json_str", TStr s)]) end.
  unfold s at 1. rewrite Htemplate by done. fold s. cbn [res_bind]. rewrite Hinit. reflexivity.
Qed.

Lemma for_labels_cron cs b : cron_object cs b ->
  cron_object cs (for_labels (fun label value => on_root (add_label label (VStr value))) b).2.
Proof.
  intros Hb. unfold for_labels, bind, gets. cbn [fst snd].
  destruct (info_labels (info (b_descriptor b))) as [labels|]; [|done].
  apply for_each_inv; [|done]. intros [label value] b' _. by apply add_label_cron.
Qed.

Lemma scheduled_builder_object descriptor config job_id event b :
  cron_values_safe descriptor config event (lower job_id) -> str_forall yaml_printable (event_to_json event) = true ->
  create_scheduled_builder read_template load_docs event_to_json descriptor config job_id event = Ok b ->
  cron_object [scheduled_container config event] b.
Proof.
  intros Hsafe Hprint. destruct (scheduled_root descriptor config job_id event Hsafe Hprint) as (b1 & b2 & Hfeed & Hroot & Hobj).
  unfold create_scheduled_builder, build. set (b0 := scheduled_builder_init _ _ _ _ _) in *.
  unfold bind at 1, get. change (b_root b0) with (@None KRoot). cbv iota.
  unfold bind at 1. rewrite Hfeed. unfold bind at 1. rewrite Hroot.
  apply for_labels_cron in Hobj as Hlab. unfold bind at 1.
  destruct (for_labels _ b2) as [[[]|e] b3]; [|done]. by intros [= <-].
Qed.

(** The document of a scheduled benchmark starts the cron job's program with
    the event of the submission. *)
Lemma scheduled_document_event contents cfg job_id event yaml :
  (forall descriptor, from_dict cron_is_valid dacite contents (Some (descriptor_config cfg)) = Ok descriptor ->
     cron_values_safe descriptor (bai_config cfg) event (lower job_id)) ->
  str_forall yaml_printable (event_to_json event) = true ->
  create_scheduled_job_yaml_spec read_template load_docs yaml_dump_all event_to_json cron_is_valid dacite
    contents cfg job_id event = Ok yaml ->
  exists docs, yaml_load_all yaml = Ok docs /\ cron_job_env "BENCHMARK_EVENT" docs = Some (event_to_json event).
Proof.
  intros Hsafe Hprint. unfold create_scheduled_job_yaml_spec.
  destruct (from_dict _ _ _ _) as [descriptor|]; [|done]. cbn [res_bind].
  destruct (create_scheduled_builder _ _ _ _ _ _ _) as [b|] eqn:Hb; [|done]. cbn [res_bind].
  apply scheduled_builder_object in Hb as (doc & Hroot & Hdoc); [|by apply Hsafe|done].
  unfold base_dump_yaml_string, build, bind, get, on_root, to_yaml, get_root, ret.
  rewrite !Hroot. unfold bind, get. cbn.
  intros [= <-]. exists [doc]. split; [apply load_dump|]. unfold cron_job_env. cbn [last]. rewrite Hdoc.
  unfold filed_container, cron_container, cron_env. rewrite plain_json by done.
  rewrite (plain_word "BENCHMARK_EVENT") by reflexivity. unfold container_env, env_from_config_map.
  generalize (event_to_json event). intros text. reflexivity.
Qed.
End Scheduled.

Module Witness.
(** A YAML of its own: a document's text is its tree, in binary. *)
Abbreviation tree := (gen_tree (unit + bool + Z + string)).

Fixpoint to_tree (v : pyval) : tree :=
  match v with
  | VNone => GenLeaf (inl (inl (inl tt)))
  | VBool b => GenLeaf (inl (inl (inr b)))
  | VInt z => GenLeaf (inl (inr z))
  | VStr s => GenLeaf (inr s)
  | VList l => GenNode 0 (map to_tree l)
  | VDict d => GenNode 1 (map (fun kv => GenNode 2 [GenLeaf (inr kv.1); to_tree kv.2]) d)
  end.

Fixpoint of_tree (t : tree) : pyval :=
  match t with
  | GenLeaf (inl (inl (inl _))) => VNone
  | GenLeaf (inl (inl (inr b))) => VBool b
  | GenLeaf (inl (inr z)) => VInt z
  | GenLeaf (inr s) => VStr s
  | GenNode 0 l => VList (map of_tree l)
  | GenNode _ l => VDict (map (fun e => match e with GenNode _ [GenLeaf (inr k); v] => (k, of_tree v) | _ => ("", VNone) end) l)
  end.

Lemma of_to_tree v : of_tree (to_tree v) = v.
Proof.
  revert v. fix IH 1. intros [| | | |l|d]; try reflexivity; cbn [to_tree of_tree]; f_equal.
  - induction l as [|v l IHl]; [done|]. cbn [map]. by rewrite IH, IHl.
  - induction d as [|[k v] d IHd]; [done|]. cbn [map fst snd]. by rewrite IH, IHd.
Qed.

Fixpoint bits (p : positive) : string :=
  match p with xH => "" | xO p => String "0" (bits p) | xI p => String "1" (bits p) end.

Fixpoint of_bits (s : string) : positive :=
  match s with "" => xH | String c s => if Ascii.eqb c "0" then xO (of_bits s) else xI (of_bits s) end.

Lemma of_bits_bits p : of_bits (bits p) = p.
Proof. induction p; cbn; by f_equal. Qed.

(** A double-quoted scalar is unescaped, any other is a string as it is. *)
Definition plain1 (s : string) : pyval :=
  match s with
  | String c s' => if Ascii.eqb c dquote then VStr (match scan_string s' with Some (t, _) => t | None => "" end) else VStr s
  | "" => VNone
  end.

#[global] Instance yaml1 : Yaml := {|
  yaml_plain := plain1;
  yaml_quoted := VStr;
  yaml_dump_all docs := bits (encode (map to_tree docs));
  yaml_load_all s := match decode (of_bits s) with Some l => Ok (map of_tree l) | None => Raise (ValueError "") end
|}.

#[global] Instance yaml_laws1 : YamlLaws.
Proof.
  split.
  - intros [|c s] Hs; [done|]. cbn. destruct (Ascii.eqb_spec c dquote) as [->|]; [|done].
    discriminate Hs.
  - intros [|c s]; [done|]. cbn. by destruct (Ascii.eqb c dquote).
  - intros t Ht. cbn [json_dumps yaml_plain yaml1]. rewrite json_str_cons. cbn [plain1].
    change (Ascii.eqb dquote dquote) with true. cbv iota. rewrite scan_json_chars; [done|].
    apply ascii_utf8. eapply str_forall_impl; [|exact Ht]. unfold yaml_printable. intros c ?. lia.
  - intros docs. cbn [yaml_load_all yaml_dump_all yaml1]. rewrite of_bits_bits, decode_encode, map_map.
    f_equal. rewrite <- (map_id docs) at 2. apply map_ext. apply of_to_tree.
Qed.

(** The template file's parse. *)
Definition cron_docs (vars : dict string TVar) : Res (list pyval) :=
  match vars with
  | [("descriptor", TDescriptor d); ("config", TConfig c); ("event", TEvent e); ("service_name", TStr sn);
     ("job_id", TStr jid); _; ("event_json_str", TStr s)] => Ok [cron_document plain1 VStr d c e sn jid s]
  | _ => Raise (KeyError "")
  end.
End Witness.
