(* ===== verification/SingleNode.v ===== *)
(** * The document of a single-node benchmark (transpiler/templates/job_single_node.yaml)

    The template of the job as a function of the values it is filled with, and
    the pod that the single-run builder of BaiKnowledge.v makes of it: which
    containers, mounts and volumes the job has, by what the benchmark asks
    for. *)

From S2P Require Import Prelude PyStr PyLib Json Events Descriptor K8sSpec K8sLabels BaiKnowledge PodModel CronDocument.

#[local] Arguments String.append !_ _ /.

(** ** The template *)

Section Template.
(** YAML: the value of a plain scalar; the quoted ones are the text itself. *)
Context (plain : string -> pyval).

(** [{x}] of a boolean. *)
Definition bool_str (b : bool) : string := if b then "True" else "False".

Definition env_value (name : string) (value : pyval) : pyval := VDict [("name", plain name); ("value", value)].

Definition env_from (name source : string) (fields : list (string * pyval)) : pyval :=
  VDict [("name", plain name); ("valueFrom", VDict [(source, VDict fields)])].

Definition config_map_ref (config_map key : string) : list (string * pyval) :=
  [("name", plain config_map); ("key", plain key)].
Definition optional_ref (config_map key : string) : list (string * pyval) :=
  (config_map_ref config_map key ++ [("optional", plain "true")])%list.
Definition field_ref (path : string) : list (string * pyval) := [("fieldPath", plain path)].

(** The environment that the two pullers share. *)
Definition puller_env : pyval :=
  VList [env_from "S3_ENDPOINT" "configMapKeyRef" (config_map_ref "outputs-infrastructure" "s3_endpoint");
         env_from "AWS_ACCESS_KEY_ID" "configMapKeyRef" (optional_ref "s3" "access-key-id");
         env_from "AWS_SECRET_ACCESS_KEY" "configMapKeyRef" (optional_ref "s3" "secret-access-key")].

Definition data_puller_container (config : BaiConfig) : pyval :=
  VDict [("name", plain "data-puller"); ("image", plain (puller_docker_image config)); ("env", puller_env);
         ("volumeMounts", VList [VDict [("name", plain "datasets-volume"); ("mountPath", plain "/data")]])].

Definition script_puller_container (config : BaiConfig) : pyval :=
  VDict [("name", plain "script-puller"); ("image", plain (puller_docker_image config));
         ("volumeMounts", VList [VDict [("name", plain "scripts-volume"); ("mountPath", plain "/bai/scripts")]]);
         ("env", puller_env)].

Definition lock_container (config : BaiConfig) (inference_server_job_id : string) : list (string * pyval) :=
  [("name", plain "inference-server-lock"); ("image", plain (job_status_trigger_docker_image config));
   ("env", VList [env_from "JOB_NAMESPACE" "fieldRef" (field_ref "metadata.namespace");
                  env_value "JOB_NAME" (plain inference_server_job_id);
                  env_value "TRIGGER_STATUSES" (VStr "[RUNNING_AT_MAIN_CONTAINERS]");
                  env_value "COMMAND" (VStr "exit 0");
                  env_value "JOB_NOT_FOUND_GRACE_PERIOD_SECONDS" (VStr "30")])].

Definition fifo_mount : pyval := VDict [("mountPath", plain "/tmp/benchmark-ai"); ("name", plain "benchmark-ai")].

Definition benchmark_container (descriptor : BenchmarkDescriptor) : pyval :=
  VDict [("name", plain "benchmark"); ("image", plain (env_docker_image (env descriptor)));
         ("resources", VDict [("limits", VDict
            [("nvidia.com/gpu", plain (pretty (hw_gpus_per_instance (bh_hardware (hardware descriptor)))))])]);
         ("command", VList []); ("args", VList []);
         ("securityContext", VDict [("privileged", plain (bool_str (env_privileged (env descriptor))))]);
         ("env", VList [env_value "BENCHMARK_AI" (VStr "fifo");
                        env_value "BENCHMARK_AI_FIFO_FILEPATH" (VStr "/tmp/benchmark-ai/fifo");
                        env_value "BENCHMARK_AI_FIFO_MAX_WAIT_TIME" (VStr "60")]);
         ("volumeMounts", VList [fifo_mount; VDict [("mountPath", plain "/bai/scripts"); ("name", plain "scripts-volume")]])].

Definition pusher_container (config : BaiConfig) (event : Event) : pyval :=
  VDict [("name", plain "metrics-pusher"); ("image", plain (metrics_pusher_docker_image config));
         ("env", VList [env_value "BENCHMARK_AI_FIFO_FILEPATH" (plain "/tmp/benchmark-ai/fifo");
                        env_value "BACKEND" (plain "kafka");
                        env_value "BACKEND_ARG_ACTION_ID" (plain (action_id event));
                        env_value "BACKEND_ARG_CLIENT_ID" (plain (client_id event));
                        env_from "BACKEND_ARG_BOOTSTRAP_SERVERS" "configMapKeyRef"
                          (config_map_ref "outputs-infrastructure" "msk_bootstrap_brokers");
                        env_value "BACKEND_ARG_KEY" (plain (client_id event));
                        env_value "BACKEND_ARG_TOPIC" (plain "BAI_METRICS");
                        env_from "POD_NAME" "fieldRef" (field_ref "metadata.name");
                        env_from "POD_NAMESPACE" "fieldRef" (field_ref "metadata.namespace")]);
         ("volumeMounts", VList [fifo_mount])].

Definition extractor_container (config : BaiConfig) (metrics : string) : pyval :=
  VDict [("name", plain "metrics-extractor"); ("image", plain (metrics_extractor_docker_image config));
         ("env", VList [env_from "ANUBIS_POD_NAME" "fieldRef" (field_ref "metadata.name");
                        env_from "ANUBIS_POD_NAMESPACE" "fieldRef" (field_ref "metadata.namespace");
                        env_value "ANUBIS_METRICS" (VStr metrics);
                        env_value "BENCHMARK_AI" (VStr "fifo");
                        env_value "BENCHMARK_AI_FIFO_FILEPATH" (VStr "/tmp/benchmark-ai/fifo")]);
         ("volumeMounts", VList [fifo_mount])].

(** The pods of different benchmarks keep apart. *)
Definition pod_anti_affinity : pyval :=
  VDict [("podAntiAffinity", VDict [("requiredDuringSchedulingIgnoredDuringExecution", VList [VDict
    [("labelSelector", VDict [("matchExpressions", VList [VDict
        [("key", plain "app"); ("operator", plain "In"); ("values", VList [plain "benchmark-ai"])]])]);
     ("topologyKey", plain "kubernetes.io/hostname")]])])].

Definition empty_dir (name : string) : pyval := VDict [("name", plain name); ("emptyDir", VDict [])].

Definition node_selector (descriptor : BenchmarkDescriptor) (availability_zone : string) : pyval :=
  VDict [("beta.kubernetes.io/instance-type", plain (hw_instance_type (bh_hardware (hardware descriptor))));
         ("node.type", plain "bai-worker"); ("failure-domain.beta.kubernetes.io/zone", plain availability_zone)].

(** The job around its containers and volumes. *)
Definition single_node_frame (labels selector : pyval) (job_id : string) (containers init_containers volumes : list pyval) : pyval :=
  let pod :=
    VDict [("serviceAccountName", plain "TBD"); ("affinity", pod_anti_affinity);
           ("initContainers", VList init_containers); ("containers", VList containers);
           ("nodeSelector", selector); ("restartPolicy", plain "OnFailure"); ("volumes", VList volumes)] in
  let metadata := VDict [("labels", labels); ("annotations", VDict [("iam.amazonaws.com/role", plain "benchmark-host")])] in
  VDict [("apiVersion", plain "batch/v1"); ("kind", plain "Job");
         ("metadata", VDict [("name", plain job_id); ("labels", labels)]);
         ("spec", VDict [("template", VDict [("metadata", metadata); ("spec", pod)]); ("backoffLimit", plain "4")])].

Definition single_node_document (descriptor : BenchmarkDescriptor) (config : BaiConfig) (event : Event)
    (service_name job_id inference_server_job_id availability_zone metrics : string) : pyval :=
  single_node_frame (cron_labels plain service_name event) (node_selector descriptor availability_zone) job_id
    [benchmark_container descriptor; pusher_container config event; extractor_container config metrics]
    [data_puller_container config; script_puller_container config; VDict (lock_container config inference_server_job_id)]
    [empty_dir "benchmark-ai"; empty_dir "datasets-volume"; empty_dir "scripts-volume"].
End Template.

(** ** The pod of the template *)

Definition template_pod : APod :=
  mkAPod [("benchmark", ["benchmark-ai"; "scripts-volume"]); ("metrics-pusher", ["benchmark-ai"]);
          ("metrics-extractor", ["benchmark-ai"])]
         [("data-puller", ["datasets-volume"]); ("script-puller", ["scripts-volume"]); ("inference-server-lock", [])]
         ["benchmark-ai"; "datasets-volume"; "scripts-volume"].

Lemma scalar_wf v : scalar v = true -> deep_wf v = true.
Proof. by destruct v. Qed.

Section Trees.
Context `{YamlLaws}.

Lemma plain_wf s : deep_wf (yaml_plain s) = true.
Proof. apply scalar_wf, plain_scalar. Qed.

Lemma template_mount fields name :
  dict_wf fields -> Forall (fun kv => scalar kv.2 = true) fields -> yaml_word name = true ->
  dict_get fields "name" = Some (yaml_plain name) -> mount (VDict fields) name.
Proof. intros Hd Hs Hw Hn. constructor; [done..|]. by rewrite Hn, plain_word. Qed.

Lemma fifo_mounted : mount (fifo_mount yaml_plain) "benchmark-ai".
Proof.
  apply template_mount; [by apply (bool_decide_unpack _)| |reflexivity..]. repeat constructor; apply plain_scalar.
Qed.

Lemma template_container c fields name mounts ns :
  c = VDict fields -> yaml_word name = true -> dict_get fields "name" = Some (yaml_plain name) -> deep_wf c = true ->
  dict_get fields "volumeMounts" = Some (VList mounts) -> Forall2 mount mounts ns -> container c (name, ns).
Proof.
  intros -> Hw Hn Hwf Hm Hns. exists fields. unfold mounts_named. rewrite Hm. split_and!; [done| |done..].
  cbn [fst]. by rewrite Hn, plain_word.
Qed.
End Trees.

(** Trees of constants and plain scalars. *)
Ltac wf_tree :=
  repeat first
    [ apply plain_wf | reflexivity
    | apply deep_wf_list; repeat apply List.Forall_cons; try apply List.Forall_nil
    | apply deep_wf_dict; split; [by apply (bool_decide_unpack _)|repeat apply List.Forall_cons; try apply List.Forall_nil; cbn [snd]] ].

(** A container of the template. *)
Ltac template_container :=
  eapply template_container; [reflexivity|reflexivity|reflexivity|unfold puller_env, env_from, env_value, fifo_mount; wf_tree|reflexivity|];
  repeat match goal with |- Forall2 _ (_ :: _) _ => apply Forall2_cons_2 | |- Forall2 _ _ _ => apply Forall2_nil_2 end;
  first [apply fifo_mounted | apply template_mount; [by apply (bool_decide_unpack _)| |reflexivity..];
         repeat constructor; apply plain_scalar].

Section TemplatePods.
Context `{YamlLaws}.

Abbreviation plain := yaml_plain.

Lemma data_puller_abs config : container (data_puller_container plain config) ("data-puller", ["datasets-volume"]).
Proof. template_container. Qed.

Lemma script_puller_abs config : container (script_puller_container plain config) ("script-puller", ["scripts-volume"]).
Proof. template_container. Qed.

Lemma benchmark_abs descriptor : container (benchmark_container plain descriptor) ("benchmark", ["benchmark-ai"; "scripts-volume"]).
Proof. template_container. Qed.

Lemma pusher_abs config event : container (pusher_container plain config event) ("metrics-pusher", ["benchmark-ai"]).
Proof. template_container. Qed.

Lemma extractor_abs config metrics : container (extractor_container plain config metrics) ("metrics-extractor", ["benchmark-ai"]).
Proof. template_container. Qed.

Lemma lock_abs config is_job_id : container (VDict (lock_container plain config is_job_id)) ("inference-server-lock", []).
Proof.
  eexists. split; [reflexivity|]. split; [by cbn; rewrite plain_word|]. split; [unfold lock_container, env_from, env_value; wf_tree|done].
Qed.

Lemma empty_dir_abs name : yaml_word name = true -> volume (empty_dir plain name) name.
Proof.
  intros Hw. eexists. split; [reflexivity|]. split; [by cbn; rewrite plain_word|]. wf_tree.
Qed.

(** The helper files the one document; every container has its mounts. *)
Lemma single_helper_init descriptor config event service_name job_id is_job_id availability_zone metrics :
  exists doc,
    helper_init [single_node_document plain descriptor config event service_name job_id is_job_id availability_zone metrics]
      (mkKRoot None [] [] []) = (Ok tt, mkKRoot (Some doc) [] [] []) /\
    pod_of None doc template_pod.
Proof.
  exists (single_node_document plain descriptor config event service_name job_id is_job_id availability_zone metrics).
  unfold single_node_document. generalize (cron_labels plain service_name event) (node_selector plain descriptor availability_zone).
  intros labels selector. split.
  - unfold single_node_frame. rewrite (plain_word "Job") by reflexivity. lazy. reflexivity.
  - do 3 eexists. split; [reflexivity|]. split; [|split; [reflexivity|]]; [|split; [|split; [reflexivity|]]].
    + by repeat apply Forall2_cons_2; [apply benchmark_abs|apply pusher_abs|apply extractor_abs|].
    + by repeat apply Forall2_cons_2; [apply data_puller_abs|apply script_puller_abs|apply lock_abs|].
    + by repeat apply Forall2_cons_2; [apply empty_dir_abs..|].
Qed.
End TemplatePods.

(** ** What a benchmark asks for *)

Definition nonempty {A} (l : list A) : bool := match l with [] => false | _ => true end.

(** The pod of a single-node or inference benchmark: the mounts of the benchmark
    container, the sidecars of the metrics, the pullers and the lock of the
    inference server. *)
Definition benchmark_mounts (data : nat) (scripts shm : bool) : list string :=
  (["benchmark-ai"] ++ (if scripts then ["scripts-volume"] else []) ++ repeat "datasets-volume" data ++
   (if shm then ["dshm"] else []))%list.

Definition requested_pod (data_sources : list DownloadableContent) (scripts shm output inference : bool) : APod :=
  let data := nonempty data_sources in
  mkAPod
    (("benchmark", benchmark_mounts (length (get_data_mounts data_sources)) scripts shm) ::
     (if output then [("metrics-pusher", ["benchmark-ai"]); ("metrics-extractor", ["benchmark-ai"])] else []))
    ((if data then [("data-puller", ["datasets-volume"])] else []) ++
     (if scripts then [("script-puller", ["scripts-volume"])] else []) ++
     (if inference then [("inference-server-lock", [])] else []))%list
    (["benchmark-ai"] ++ (if data then ["datasets-volume"] else []) ++
     (if scripts then ["scripts-volume"] else []) ++ (if shm then ["dshm"] else []))%list.

(** Every mount of it is of one of its volumes. *)
Lemma requested_mounts_bound srcs scripts shm out inf : mounts_bound (requested_pod srcs scripts shm out inf).
Proof.
  assert (Hrep : forall n, n ∈ repeat "datasets-volume" (length (get_data_mounts srcs)) -> srcs <> [] /\ n = "datasets-volume").
  { intros n Hn%list_elem_of_In. split; [by intros ->|by apply repeat_spec in Hn]. }
  unfold mounts_bound, requested_pod, benchmark_mounts. cbn [ap_containers ap_inits ap_volumes].
  revert Hrep. generalize (repeat "datasets-volume" (length (get_data_mounts srcs))). intros r Hr a n Ha Hn.
  destruct srcs, scripts, shm, out, inf; cbn [app nonempty] in Ha;
    repeat (apply elem_of_cons in Ha as [->|Ha]; [cbn [snd app] in Hn|]); try (by apply elem_of_nil in Ha); set_solver.
Qed.

(** ** What the edits make of the template *)

Definition edited (d : BenchmarkDescriptor) (srcs : list DownloadableContent) (scripts : list BaiScriptSource) : APod :=
  let P := a_add_shared_memory d (a_add_scripts scripts (a_add_data srcs BENCHMARK_CONTAINER template_pod)) in
  let P := if bool_decide (is_Some (output d)) then P else a_remove_sidecars P in
  if is_inference_strategy d then P else a_remove_container INFERENCE_SERVER_LOCK_CONTAINER P.

Lemma no_adjacent_absent name ns : name ∉ ns -> no_adjacent name (name :: ns) = true /\ no_adjacent name ns = true.
Proof.
  induction ns as [|n ns IH]; [done|]. intros [Hn Hns]%not_elem_of_cons. destruct (IH Hns) as [H1 H2].
  assert (E : String.eqb n name = false) by (apply String.eqb_neq; congruence).
  cbn [no_adjacent]. rewrite E. destruct ns; [by rewrite andb_false_r|]. by rewrite andb_false_r, H2.
Qed.

Section Edits.
Context (srcs : list DownloadableContent).

Abbreviation data := (repeat "datasets-volume" (length (get_data_mounts srcs))).

Lemma data_no_scripts : SCRIPTS_VOLUME_NAME ∉ data.
Proof. intros Hn%list_elem_of_In. by apply repeat_spec in Hn. Qed.

Lemma edited_requested d (scripts : list BaiScriptSource) :
  edited d srcs scripts =
  requested_pod srcs (nonempty scripts) (env_extended_shm (env d)) (bool_decide (is_Some (output d))) (is_inference_strategy d).
Proof.
  unfold edited, requested_pod, a_add_shared_memory, a_add_scripts, a_add_data.
  pose proof (others_absent _ _ data_no_scripts) as Hdata. unfold benchmark_mounts.
  destruct srcs as [|src l].
  - by destruct (bool_decide _), (is_inference_strategy d), (env_extended_shm (env d)), scripts.
  - unfold DATASETS_VOLUME_NAME. revert Hdata. generalize (repeat "datasets-volume" (length (get_data_mounts (src :: l)))). intros r Hdata.
    destruct scripts, (env_extended_shm (env d)), (bool_decide _), (is_inference_strategy d);
      cbv match; rewrite ?app_nil_r; lazy in Hdata |- *; rewrite ?Hdata; reflexivity.
Qed.

Lemma data_puller_apart : not_adjacent DATASETS_VOLUME_NAME (a_remove_container DATA_PULLER_CONTAINER template_pod).
Proof. repeat (apply List.Forall_cons; [reflexivity|]). apply List.Forall_nil. Qed.

Lemma script_puller_apart :
  not_adjacent SCRIPTS_VOLUME_NAME (a_remove_container SCRIPTS_PULLER_CONTAINER (a_add_data srcs BENCHMARK_CONTAINER template_pod)).
Proof.
  destruct (no_adjacent_absent _ _ data_no_scripts) as [Hd _]. revert Hd. unfold a_add_data, DATASETS_VOLUME_NAME.
  generalize (repeat "datasets-volume" (length (get_data_mounts srcs))). intros r Hd.
  destruct srcs; (repeat (apply List.Forall_cons; [first [exact Hd|reflexivity]|]); apply List.Forall_nil).
Qed.

Lemma shared_memory_new (scripts : list BaiScriptSource) :
  SHARED_MEMORY_VOLUME ∉ ap_volumes (a_add_scripts scripts (a_add_data srcs BENCHMARK_CONTAINER template_pod)).
Proof. destruct srcs, scripts; by apply (bool_decide_unpack _). Qed.
End Edits.

(** ** The builder *)

Section Builder.
Context `{YamlLaws}.
Context (read_template : string -> string) (load_docs : string -> dict string TVar -> Res (list pyval)).
Context (repr_content : DownloadableContent -> string).

(** The metrics as the container of the extractor gets them. *)
Definition metrics_text (descriptor : BenchmarkDescriptor) : string :=
  match output descriptor with
  | Some o => dump_metrics (encode_output o)
  | None => json_dumps (VList [])
  end.

(** A text that can stand between single quotes. *)
Definition yaml_single_quotable (s : string) : bool := str_forall (fun c => yaml_printable c && negb (Ascii.eqb c "'")) s.

(** The values that end up in scalars are scalars. *)
Definition single_values_safe (descriptor : BenchmarkDescriptor) (config : BaiConfig) (event : Event) (job_id : string) : Prop :=
  yaml_token (action_id event) = true /\ yaml_token (client_id event) = true /\ yaml_token job_id = true /\
  yaml_token (puller_docker_image config) = true /\ yaml_token (metrics_pusher_docker_image config) = true /\
  yaml_token (metrics_extractor_docker_image config) = true /\ yaml_token (job_status_trigger_docker_image config) = true /\
  yaml_token (env_docker_image (env descriptor)) = true /\
  yaml_token (hw_instance_type (bh_hardware (hardware descriptor))) = true.

(** The template file, filled by [str.format] with such values and the metrics
    between single quotes, and parsed. *)
Definition single_node_template_file : Prop :=
  forall descriptor config event service_name job_id is_job_id availability_zone metrics,
  single_values_safe descriptor config event job_id -> yaml_token service_name = true -> yaml_token is_job_id = true ->
  yaml_token availability_zone = true -> yaml_single_quotable metrics = true ->
  load_docs (read_template "job_single_node.yaml")
    [("descriptor", TDescriptor descriptor); ("config", TConfig config); ("event", TEvent event);
     ("service_name", TStr service_name); ("job_id", TStr job_id); ("inference_server_job_id", TStr is_job_id);
     ("availability_zone", TStr availability_zone); ("metrics", TStr metrics)] =
  Ok [single_node_document yaml_plain descriptor config event service_name job_id is_job_id availability_zone metrics].

Lemma template_pod_wf : ap_wf template_pod.
Proof. split; by apply (bool_decide_unpack _). Qed.

Lemma add_server_env_vars_keeps d P : ap_wf P -> btriple None d P add_server_env_vars P.
Proof.
  intros Hwf. unfold add_server_env_vars. apply btriple_get. intros b0 _. apply btriple_bind with P.
  { unfold server_of. apply btriple_gets. destruct (server d); [apply btriple_ret|apply btriple_raise]. }
  intros srv. destruct (senv_ports (server_env srv)); [apply btriple_raise|]. by apply btriple_root, add_env_vars_keeps.
Qed.

Lemma add_benchmark_cmd_keeps d P :
  bh_strategy (hardware d) <> HOROVOD -> ap_wf P -> btriple None d P (add_benchmark_cmd None) P.
Proof.
  intros Hs Hwf. unfold add_benchmark_cmd. apply btriple_gets.
  destruct (bh_strategy (hardware d)); [|done|]; by apply add_benchmark_cmd_to_container_keeps.
Qed.

Lemma a_add_data_wf srcs name P : ap_wf P -> ap_wf (a_add_data srcs name P).
Proof. intros Hwf. unfold a_add_data. destruct srcs; auto with py. Qed.

Lemma a_add_scripts_wf scripts P : ap_wf P -> ap_wf (a_add_scripts scripts P).
Proof. intros Hwf. unfold a_add_scripts. destruct scripts; auto with py. Qed.

Lemma a_add_shared_memory_wf d P : SHARED_MEMORY_VOLUME ∉ ap_volumes P -> ap_wf P -> ap_wf (a_add_shared_memory d P).
Proof. intros Hn Hwf. unfold a_add_shared_memory, a_add_shm. destruct (env_extended_shm (env d)); [|done]. by apply ap_wf_edit, ap_wf_add_volume. Qed.

(** A builder that first reads itself. *)
Lemma btriple_read d P Q {B} (f : Bld -> M Bld B) b :
  btriple None d P (f b) Q -> bpod None d P b -> forall a b', bind get f b = (Ok a, b') -> bpod None d Q b'.
Proof. intros Hf Hb a b'. by apply Hf. Qed.

(** The name of the server's job stays. *)
Definition server_named (name : string) (b : Bld) : Prop := b_inference_server_job_id b = name.

Lemma on_root_named name {A} (m : M KRoot A) : preserved (server_named name) (on_root m).
Proof. intros b Hb. unfold on_root. destruct (b_root b) as [k|]; [|done]. by destruct (m k). Qed.

Lemma set_internal_named name e : preserved (server_named name) (modify (fun b => set_b_internal (e b) b)).
Proof. by intros b. Qed.

Ltac named :=
  repeat match goal with
  | |- forall _, _ => intros ?
  | |- preserved _ (bind _ _) => apply preserved_bind
  | |- preserved _ (on_root _) => apply on_root_named
  | |- preserved _ (modify _) => apply set_internal_named
  | |- preserved _ (ret _) => apply preserved_ret
  | |- preserved _ (raise _) => apply preserved_raise
  | |- preserved _ (lift _) => apply preserved_lift
  | |- preserved _ get => apply preserved_get
  | |- preserved _ (gets _) => apply preserved_gets
  | |- preserved _ (try_except _ _) => apply preserved_try
  | |- preserved _ (for_each _ _) => apply preserved_for_each
  | |- preserved _ (match ?x with _ => _ end) => destruct x
  end.

(** From one pod to another, under the same name. *)
Definition named_triple (name : string) (d : BenchmarkDescriptor) (P : APod) {A} (m : M Bld A) (P' : APod) : Prop :=
  btriple None d P m P' /\ preserved (server_named name) m.

(** What is done by the strategy, after the edits that all benchmarks have. *)
Definition strategy_edits (d : BenchmarkDescriptor) : M Bld unit :=
  match bh_strategy (hardware d) with
  | INFERENCE => on_root (set_service_account INFERENCE_SERVER_SERVICE_ACCOUNT None) ;; add_server_env_vars
  | SINGLE_NODE => on_root (remove_container INFERENCE_SERVER_LOCK_CONTAINER None)
  | HOROVOD => ret tt
  end.

Lemma named_bind name d P P1 (Q : Bld -> Prop) {A B} (m : M Bld A) (f : A -> M Bld B) :
  named_triple name d P m P1 ->
  (forall a0 b, bpod None d P1 b -> server_named name b -> forall a b', f a0 b = (Ok a, b') -> Q b') ->
  forall b, bpod None d P b -> server_named name b -> forall a b', bind m f b = (Ok a, b') -> Q b'.
Proof.
  intros [Ht Hn] Hf b Hb Hname a b'. unfold bind. specialize (Hn b Hname). destruct (m b) as [[x|e] b1] eqn:E; [|done].
  apply Hf; [by apply (Ht b x)|done].
Qed.

(** The pod before the edits of the strategy, and a run of the update up to
    them. *)
Definition common_edited (d : BenchmarkDescriptor) (srcs : list DownloadableContent) (scripts : list BaiScriptSource) : APod :=
  let P := a_add_shared_memory d (a_add_scripts scripts (a_add_data srcs BENCHMARK_CONTAINER template_pod)) in
  if bool_decide (is_Some (output d)) then P else a_remove_sidecars P.

Lemma common_edited_wf d srcs scripts : ap_wf (common_edited d srcs scripts).
Proof.
  assert (H3 : ap_wf (a_add_shared_memory d (a_add_scripts scripts (a_add_data srcs BENCHMARK_CONTAINER template_pod)))).
  { apply a_add_shared_memory_wf; [apply shared_memory_new|]. apply a_add_scripts_wf, a_add_data_wf, template_pod_wf. }
  unfold common_edited. destruct (bool_decide _); [done|]. unfold a_remove_sidecars. auto with py.
Qed.

Lemma single_run_common d b (Q : Bld -> Prop) :
  bh_strategy (hardware d) <> HOROVOD -> bpod None d template_pod b ->
  (forall b4, bpod None d (common_edited d (b_data_sources b) (b_scripts b)) b4 -> server_named (b_inference_server_job_id b) b4 ->
     forall a b', strategy_edits d b4 = (Ok a, b') -> Q b') ->
  forall a b', single_run_update repr_content b = (Ok a, b') -> Q b'.
Proof.
  intros Hs Hb HQ a b' Hrun. pose proof Hb as [Hd _]. unfold single_run_update, bind at 1, get in Hrun. rewrite Hd in Hrun.
  assert (Hname : server_named (b_inference_server_job_id b) b) by done. revert Hname a b' Hrun. revert HQ.
  generalize (b_inference_server_job_id b) (b_data_sources b) (b_scripts b). intros name srcs scripts HQ Hname. clear Hd.
  revert b Hb Hname. change (match bh_strategy (hardware d) with INFERENCE => _ | SINGLE_NODE => _ | HOROVOD => _ end) with (strategy_edits d).
  pose proof template_pod_wf as Hwf0. pose proof (a_add_data_wf srcs BENCHMARK_CONTAINER _ Hwf0) as Hwf1.
  pose proof (a_add_scripts_wf scripts _ Hwf1) as Hwf2. pose proof (shared_memory_new srcs scripts) as Hshm.
  pose proof (a_add_shared_memory_wf d _ Hshm Hwf2) as Hwf3. pose proof (common_edited_wf d srcs scripts) as Hwf4.
  apply named_bind with template_pod; [split; [apply btriple_root, set_service_account_keeps|named]|intros _].
  apply named_bind with (a_add_data srcs BENCHMARK_CONTAINER template_pod).
  { split; [apply add_data_volume_mounts_edits; [done|]; intros _; apply data_puller_apart|].
    unfold add_data_volume_mounts, update_data_puller. named. }
  intros _. apply named_bind with (a_add_scripts scripts (a_add_data srcs BENCHMARK_CONTAINER template_pod)).
  { split; [apply add_scripts_edits; [done|]; intros _; apply script_puller_apart|]. unfold add_scripts. named. }
  intros _. revert HQ Hwf4. unfold common_edited. set (P3 := a_add_shared_memory d _) in *. intros HQ Hwf4.
  apply named_bind with P3; [split; [by apply add_shared_memory_edits|unfold add_shared_memory, add_extended_shm; named]|intros _].
  apply named_bind with P3; [split; [by apply add_env_vars_op_keeps|unfold add_env_vars; named]|intros _].
  apply named_bind with P3.
  { split; [by apply add_benchmark_cmd_keeps|].
    unfold add_benchmark_cmd, add_benchmark_cmd_to_config_map, add_benchmark_cmd_to_container. named. }
  intros _. set (P4 := if bool_decide (is_Some (output d)) then P3 else a_remove_sidecars P3) in *.
  apply named_bind with P4.
  { split; [unfold P4; destruct (bool_decide _); [by apply add_custom_labels_keeps|by apply remove_metrics_sidecars_edits]|].
    unfold add_custom_labels, for_labels, add_metrics_pusher_env_var, remove_metrics_sidecars. named. }
  intros _. apply named_bind with P4.
  { split; [by apply add_parent_label_and_env_keeps|]. unfold add_parent_label_and_env, add_metrics_pusher_env_var. named. }
  intros _. apply named_bind with P4; [split; [apply suppress_affinity_keeps|unfold suppress_affinity; named]|intros _].
  exact HQ.
Qed.

Lemma single_run_edits d b a b' :
  bh_strategy (hardware d) <> HOROVOD -> bpod None d template_pod b -> single_run_update repr_content b = (Ok a, b') ->
  bpod None d (edited d (b_data_sources b) (b_scripts b)) b'.
Proof.
  intros Hs Hb. apply (single_run_common d b); [done..|]. intros b4 Hb4 _. revert b4 Hb4.
  pose proof (common_edited_wf d (b_data_sources b) (b_scripts b)) as Hwf4. unfold edited. fold (common_edited d (b_data_sources b) (b_scripts b)).
  set (P4 := common_edited _ _ _) in *. unfold strategy_edits, is_inference_strategy.
  destruct (bh_strategy (hardware d)); [|done|]; intros b4 Hb4 x b5; revert b4 x b5 Hb4.
  - by apply btriple_root, remove_container_removes.
  - rewrite bool_decide_true by done.
    apply btriple_bind with P4; [apply btriple_root, set_service_account_keeps|]. intros _. by apply add_server_env_vars_keeps.
Qed.

(** The descriptor whose patterns are encoded. *)
Definition encoded (d : BenchmarkDescriptor) : BenchmarkDescriptor :=
  match output d with Some o => set_output (Some (encode_output o)) d | None => d end.

Lemma get_metrics_run b :
  get_metrics_from_descriptor b = (Ok (metrics_text (b_descriptor b)), set_b_descriptor (encoded (b_descriptor b)) b).
Proof.
  unfold get_metrics_from_descriptor, metrics_text, encoded, bind, gets, modify, ret.
  destruct (output (b_descriptor b)); [done|]. by destruct b.
Qed.

Lemma encoded_same d :
  hardware (encoded d) = hardware d /\ env (encoded d) = env d /\
  bool_decide (is_Some (output (encoded d))) = bool_decide (is_Some (output d)) /\
  info (encoded d) = info d /\ server (encoded d) = server d.
Proof.
  unfold encoded. destruct (output d) as [o|] eqn:E; [|by rewrite E]. split_and!; [done|done| |done|done].
  by rewrite !bool_decide_true by eauto.
Qed.

Context (Htemplate : single_node_template_file).

Lemma token_is_prefix s : yaml_token s = true -> yaml_token ("is-" +:+ s) = true.
Proof.
  destruct s as [|c s]; [done|]. unfold yaml_token. rewrite !andb_true_iff. intros [[_ Hs] Hin].
  cbn [String.append str_forall colons_inside] in *. by rewrite Hs.
Qed.

(** The builder fills the template and files the one document. *)
Lemma single_root descriptor config srcs scripts job_id event envi rand availability_zone :
  single_values_safe descriptor config event (lower job_id) -> yaml_single_quotable (metrics_text descriptor) = true ->
  choose_availability_zone descriptor envi rand = Ok availability_zone -> yaml_token availability_zone = true ->
  exists b1 b2,
    feed_benchmark_values (benchmark_builder_init read_template descriptor config srcs scripts job_id "job_single_node.yaml" event envi rand) =
      (Ok tt, b1) /\
    build_root load_docs b1 = (Ok tt, b2) /\
    bpod None (encoded descriptor) template_pod b2 /\ b_data_sources b2 = srcs /\ b_scripts b2 = scripts /\
    b_inference_server_job_id b2 = "is-" +:+ lower job_id.
Proof.
  intros Hsafe Hm Haz Ht. set (b0 := benchmark_builder_init _ _ _ _ _ _ _ _ _ _).
  set (bz := set_b_template (feed [("availability_zone", TStr availability_zone)] (b_template b0)) b0).
  set (bm := set_b_descriptor (encoded descriptor) bz).
  set (b1 := set_b_template (feed [("metrics", TStr (metrics_text descriptor))] (b_template bm)) bm).
  destruct (single_helper_init (encoded descriptor) config event SERVICE_NAME (lower job_id) ("is-" +:+ lower job_id)
    availability_zone (metrics_text descriptor)) as (doc & Hinit & Hdoc).
  exists b1, (set_b_root (Some (mkKRoot (Some doc) [] [] [])) b1). split_and!.
  - unfold feed_benchmark_values, bind at 1, get. change (b_descriptor b0) with descriptor.
    change (b_environment_info b0) with envi. change (b_rand b0) with rand. rewrite Haz. unfold bind at 1, lift.
    unfold bind at 1, feed_one at 1, modify. fold bz. unfold bind. rewrite get_metrics_run. reflexivity.
  - unfold build_root, bind at 1, get. unfold bind, lift, template_build.
    match goal with |- context [load_docs ?t ?v] =>
      change (load_docs t v) with (load_docs (read_template "job_single_node.yaml")
        [("descriptor", TDescriptor (encoded descriptor)); ("config", TConfig config); ("event", TEvent event);
         ("service_name", TStr SERVICE_NAME); ("job_id", TStr (lower job_id));
         ("inference_server_job_id", TStr ("is-" +:+ lower job_id));
         ("availability_zone", TStr availability_zone); ("metrics", TStr (metrics_text descriptor))]) end.
    rewrite Htemplate; [|by unfold single_values_safe in *; destruct (encoded_same descriptor) as (-> & -> & _)|done| |done|done].
    + cbn [res_bind]. rewrite Hinit. reflexivity.
    + apply token_is_prefix. by destruct Hsafe as (_ & _ & Hj & _).
  - split; [done|]. eexists. split; [done|]. by exists doc.
  - done.
  - done.
  - done.
Qed.

Lemma feed_zone b a b1 :
  feed_benchmark_values b = (Ok a, b1) ->
  exists zone, choose_availability_zone (b_descriptor b) (b_environment_info b) (b_rand b) = Ok zone.
Proof.
  unfold feed_benchmark_values, bind at 1, get. unfold bind at 1, lift. destruct (choose_availability_zone _ _ _); [eauto|done].
Qed.

(** The zones are those of the environment. *)
Lemma zone_token descriptor envi rand zone :
  Forall (fun zone => yaml_token zone = true) (dict_values (availability_zones envi)) ->
  choose_availability_zone descriptor envi rand = Ok zone -> yaml_token zone = true.
Proof.
  intros Hzones Hzone. rewrite Forall_forall in Hzones. apply Hzones.
  pose proof (choose_availability_zone_spec descriptor envi rand) as Hz. cbv zeta in Hz. rewrite Hzone in Hz. apply Hz.
Qed.

(** Labels leave the other fields alone. *)
Definition same_fields (b b' : Bld) : Prop :=
  b_data_sources b' = b_data_sources b /\ b_scripts b' = b_scripts b /\ b_fetched_models b' = b_fetched_models b /\
  b_inference_server_job_id b' = b_inference_server_job_id b.

Lemma labels_same_fields b :
  same_fields b (for_labels (fun label value => on_root (add_label label (VStr value))) b).2.
Proof.
  unfold for_labels, bind, gets. destruct (info_labels (info (b_descriptor b))) as [labels|]; [|by split_and!].
  apply for_each_inv with (P := same_fields b); [|by split_and!].
  intros [label value] b1 _ H1. unfold on_root. destruct (b_root b1); [|done]. by destruct (add_label _ _ _).
Qed.

Lemma labels_keep_pod d P : btriple None d P (for_labels (fun label value => on_root (add_label label (VStr value)))) P.
Proof. apply for_labels_keeps. intros. by apply btriple_root, add_label_keeps. Qed.

(** The update starts from the pod of the template. *)
Lemma built_update descriptor config srcs scripts job_id event envi rand a b :
  single_values_safe descriptor config event (lower job_id) -> yaml_single_quotable (metrics_text descriptor) = true ->
  Forall (fun zone => yaml_token zone = true) (dict_values (availability_zones envi)) ->
  build load_docs feed_benchmark_values (single_run_update repr_content)
    (benchmark_builder_init read_template descriptor config srcs scripts job_id "job_single_node.yaml" event envi rand) = (Ok a, b) ->
  exists b3 u, bpod None (encoded descriptor) template_pod b3 /\ b_data_sources b3 = srcs /\ b_scripts b3 = scripts /\
    b_inference_server_job_id b3 = "is-" +:+ lower job_id /\ single_run_update repr_content b3 = (Ok u, b).
Proof.
  intros Hsafe Hm Hzones. set (b0 := benchmark_builder_init _ _ _ _ _ _ _ _ _ _).
  unfold build, bind at 1, get. change (b_root b0) with (@None KRoot). cbv iota.
  unfold bind at 1. destruct (feed_benchmark_values b0) as [[u|e] b1] eqn:Hfeed; [|done].
  destruct (feed_zone _ _ _ Hfeed) as [zone Hzone].
  change (choose_availability_zone descriptor envi rand = Ok zone) in Hzone. pose proof (zone_token _ _ _ _ Hzones Hzone) as Ht.
  destruct (single_root descriptor config srcs scripts job_id event envi rand zone Hsafe Hm Hzone Ht)
    as (b1' & b2 & Hfeed' & Hroot & Hb2 & Hfields).
  fold b0 in Hfeed'. rewrite Hfeed in Hfeed'. injection Hfeed' as -> ->. unfold bind at 1. rewrite Hroot.
  unfold bind at 1. destruct (for_labels _ b2) as [[u1|e] b3] eqn:Hl; [|done].
  pose proof (labels_same_fields b2) as Hsame. rewrite Hl in Hsame. destruct Hsame as (H1 & H2 & _ & H4). cbn [snd] in *.
  unfold bind. destruct (single_run_update repr_content b3) as [[u2|e] b4] eqn:Hu; [|done]. unfold ret. intros [= _ <-].
  exists b3, u2. rewrite H1, H2, H4. split; [by apply (labels_keep_pod (encoded descriptor) template_pod b2 u1)|]. by destruct Hfields as (-> & -> & ->).
Qed.

Lemma built_pod descriptor config srcs scripts job_id event envi rand a b :
  bh_strategy (hardware descriptor) <> HOROVOD -> single_values_safe descriptor config event (lower job_id) ->
  yaml_single_quotable (metrics_text descriptor) = true ->
  Forall (fun zone => yaml_token zone = true) (dict_values (availability_zones envi)) ->
  build load_docs feed_benchmark_values (single_run_update repr_content)
    (benchmark_builder_init read_template descriptor config srcs scripts job_id "job_single_node.yaml" event envi rand) = (Ok a, b) ->
  exists k, b_root b = Some k /\ kpod None (requested_pod srcs (nonempty scripts) (env_extended_shm (env descriptor))
    (bool_decide (is_Some (output descriptor))) (is_inference_strategy descriptor)) k.
Proof.
  intros Hs Hsafe Hm Hzones Hb. destruct (built_update _ _ _ _ _ _ _ _ _ _ Hsafe Hm Hzones Hb) as (b3 & u & Hb3 & <- & <- & _ & Hu).
  destruct (encoded_same descriptor) as (Hhw & Henv & Hout & _).
  apply (single_run_edits (encoded descriptor) b3 u b) in Hu as [_ (k & Hk & Hpod)]; [|by rewrite Hhw|done].
  exists k. split; [done|]. rewrite edited_requested, Henv, Hout in Hpod.
  unfold is_inference_strategy in *. by rewrite Hhw in Hpod.
Qed.

(** C35: the pod of a single-node or inference benchmark.  From the template's
    file, with values that are scalars, the single-run builder makes the pod
    that the benchmark asks for: the benchmark container mounts the scripts, one
    volume per path of the data and the shared memory; the pullers, the sidecars
    of the metrics and the lock of the inference server are there when they have
    something to do and not otherwise; no other container or volume is there,
    and every mount, after all the removals, is of a volume that the pod still
    has.  The pod is that of the last document that the builder dumps. *)
Theorem single_node_pod descriptor config srcs scripts job_id event envi rand b
    (Hstrategy : bh_strategy (hardware descriptor) <> HOROVOD)
    (Hsafe : single_values_safe descriptor config event (lower job_id))
    (Hmetrics : yaml_single_quotable (metrics_text descriptor) = true)
    (Hzones : Forall (fun zone => yaml_token zone = true) (dict_values (availability_zones envi)))
    (Hb : create_single_run_builder read_template load_docs repr_content descriptor config srcs scripts job_id event envi rand = Ok b) :
  let P := requested_pod srcs (nonempty scripts) (env_extended_shm (env descriptor))
             (bool_decide (is_Some (output descriptor))) (is_inference_strategy descriptor) in
  exists docs doc, dump_yaml_string yaml_dump_all b = Ok (yaml_dump_all docs) /\ last docs = Some doc /\
    pod_of None doc P /\ mounts_bound P.
Proof.
  cbv zeta. revert Hb. unfold create_single_run_builder. destruct (create_scripts scripts) as [bai_scripts|] eqn:Escripts; [|done].
  assert (Hmeta : distributed_strategy_metadata read_template repr_content (bh_strategy (hardware descriptor)) =
    SingleRunBenchmarkKubernetesObjectBuilder read_template repr_content "job_single_node.yaml") by (by destruct (bh_strategy _)).
  rewrite Hmeta. cbn [res_bind strategy_feed strategy_update strategy_type_init template_name SingleRunBenchmarkKubernetesObjectBuilder].
  set (b0 := benchmark_builder_init _ _ _ _ _ _ _ _ _ _). destruct (build _ _ _ b0) as [[a|e] b2] eqn:Hbuild; [|done].
  cbn [built]. intros [= ->]. apply built_pod in Hbuild as (k & Hk & doc & Hdoc & Hpod); [|done..].
  exists (yaml_docs k), doc. split_and!.
  - unfold dump_yaml_string, on_root, to_yaml, get_root, bind, get. by rewrite Hk, Hdoc.
  - unfold yaml_docs. by rewrite Hdoc, !app_assoc, last_snoc.
  - replace (nonempty scripts) with (nonempty bai_scripts); [done|].
    apply res_map_Forall2 in Escripts. by destruct Escripts.
  - apply requested_mounts_bound.
Qed.
End Builder.

Module Witness.
Import BaiKnowledge.Witness CronDocument.Witness.

(** The template file's parse. *)
Definition single_docs (vars : dict string TVar) : Res (list pyval) :=
  match vars with
  | [("descriptor", TDescriptor d); ("config", TConfig c); ("event", TEvent e); ("service_name", TStr sn); ("job_id", TStr jid);
     ("inference_server_job_id", TStr isj); ("availability_zone", TStr az); ("metrics", TStr m)] =>
      Ok [single_node_document plain1 d c e sn jid isj az m]
  | _ => Raise (KeyError "")
  end.

Definition load1 (_ : string) : dict string TVar -> Res (list pyval) := single_docs.

Lemma load1_file : single_node_template_file (fun n => n) load1.
Proof. intros ?. intros. reflexivity. Qed.

(** A benchmark with three data sources on two paths, a metric and no scripts. *)
Definition descriptor1 : BenchmarkDescriptor :=
  mkDescriptor "0.1.0" (mkInfo "d" None (Some EE_DEFAULT) (Some "single_run") (Some [("team", "a-1")]))
    (mkBenchHardware (mkHardware "p3.8xlarge" 4 None None) SINGLE_NODE None None)
    (mkEnvDesc "jlcont/benchmarking:270219" false true [("A", "1")])
    (Some (mkOutput [mkMetric "accuracy" "pct" "accuracy=([-+]?\d*\.\d+|\d+)"]))
    (Some (mkML NONE (Some "python3 train.py") None None None)) None None None.

Definition config1 : BaiConfig := mkBaiConfig "700" "bai/puller:1" "bai/cron-job:1" "bai/metrics-pusher:1" "bai/metrics-extractor:1" "bai/trigger:1" true.

Definition event1 : Event := event0 (PAny VNone).

Definition zones1 : EnvironmentInfo := mkEnvInfo [("use1-az1", "us-east-1a")].

Abbreviation run1 :=
  (create_single_run_builder (fun n => n) load1 (fun _ => "") descriptor1 config1 srcs0 [] "b-ACTION" event1 zones1 0).
Definition builder1 : Bld :=
  match run1 with Ok b => b | Raise _ => benchmark_builder_init (fun n => n) descriptor1 config1 [] [] "" "" event1 zones1 0 end.

Lemma run1_ok : run1 = Ok builder1.
Proof. assert (H : is_ok run1 = true) by (vm_compute; reflexivity). unfold builder1. by destruct run1. Qed.

Lemma single_node_pod_witness :
  exists docs doc, dump_yaml_string yaml_dump_all builder1 = Ok (yaml_dump_all docs) /\ last docs = Some doc /\
    pod_of None doc (mkAPod
      [("benchmark", ["benchmark-ai"; "datasets-volume"; "datasets-volume"; "dshm"]); ("metrics-pusher", ["benchmark-ai"]);
       ("metrics-extractor", ["benchmark-ai"])]
      [("data-puller", ["datasets-volume"])] ["benchmark-ai"; "datasets-volume"; "dshm"]).
Proof.
  destruct (single_node_pod (fun n => n) load1 (fun _ => "") load1_file
    descriptor1 config1 srcs0 [] "b-ACTION" event1 zones1 0 builder1) as (docs & doc & Hdump & Hlast & Hpod & _).
  - discriminate.
  - split_and!; reflexivity.
  - vm_compute. reflexivity.
  - repeat constructor.
  - exact run1_ok.
  - exists docs, doc. split_and!; [exact Hdump|exact Hlast|exact Hpod].
Defined.

(** Labels of the descriptor are added after the template's own, also under the
    names by which the services find an action's objects. *)
Definition relabelled : BenchmarkDescriptor :=
  mkDescriptor "0.1.0" (mkInfo "d" None (Some EE_DEFAULT) (Some "single_run") (Some [("action-id", "other")]))
    (hardware descriptor1) (env descriptor1) None None None None None.

Abbreviation run2 :=
  (create_single_run_builder (fun n => n) load1 (fun _ => "") relabelled config1 [] [] "b-action" event1 zones1 0).

Definition root_label (label : string) (r : Res Bld) : option pyval :=
  match r with
  | Ok b =>
      match b_root b with
      | Some (mkKRoot (Some doc) _ _ _) => lookup_path ["metadata"; "labels"; label] doc
      | _ => None
      end
  | Raise _ => None
  end.

(** A descriptor that the validation accepts takes the label of its action away
    from its own job. *)
Theorem custom_label_replaces_action_id :
  descriptor_post_init (fun _ => true) relabelled = Ok relabelled /\
  action_id event1 = "action" /\ root_label "action-id" run2 = Some (VStr "other").
Proof. split_and!; vm_compute; reflexivity. Qed.
End Witness.
