(* ===== verification/InferenceServer.v ===== *)
(** * The documents of an inference benchmark (transpiler/templates/inference_server_job.yaml)

    The template of the inference server, a service and a job, as a function of
    the values it is filled with; what the builder of the server makes of it,
    and that the server's documents and the benchmark's job fit each other. *)

From S2P Require Import Prelude PyStr PyLib Json Events Descriptor K8sSpec K8sLabels BaiKnowledge PodModel CronDocument.
From S2P Require Import SingleNode.

#[local] Arguments String.append !_ _ /.

(** ** The template *)

Section Template.
Context (plain : string -> pyval).

Definition service_document (event : Event) (service_name inference_server_job_id : string) : pyval :=
  let labels := VDict [("action-id", plain (action_id event)); ("client-id", plain (client_id event));
                       ("created-by", plain service_name)] in
  VDict [("apiVersion", plain "v1"); ("kind", plain "Service");
         ("metadata", VDict [("name", plain inference_server_job_id); ("labels", labels)]);
         ("spec", VDict [("selector", VDict [("inference-server-name", plain inference_server_job_id)]); ("ports", VList [])])].

(** The labels of the server's job and of its pods. *)
Definition server_labels (event : Event) (service_name inference_server_job_id : string) : pyval :=
  VDict [("app", plain "benchmark-ai"); ("action-id", plain (action_id event)); ("client-id", plain (client_id event));
         ("created-by", plain service_name); ("inference-server-name", plain inference_server_job_id)].

Definition server_container (srv : ServerDescriptor) : list (string * pyval) :=
  [("name", plain "inference-server"); ("image", plain (senv_docker_image (server_env srv)));
   ("resources", VDict [("limits", VDict [("nvidia.com/gpu", plain (pretty (hw_gpus_per_instance (server_hardware srv))))])]);
   ("command", VList []); ("args", VList []);
   ("securityContext", VDict [("privileged", plain (bool_str (senv_privileged (server_env srv))))])].

Definition client_lock_container (config : BaiConfig) (job_id inference_server_job_id : string) : list (string * pyval) :=
  [("name", plain "client-lock"); ("image", plain (job_status_trigger_docker_image config));
   ("env", VList [env_from plain "JOB_NAMESPACE" "fieldRef" (field_ref plain "metadata.namespace");
                  env_value plain "JOB_NAME" (plain job_id);
                  env_value plain "TRIGGER_STATUSES" (VStr "[SUCCEEDED, FAILED, JOB_NOT_FOUND]");
                  env_value plain "COMMAND" (VStr ("/opt/env/bin/kubectl delete job,service " +:+ inference_server_job_id));
                  env_value plain "JOB_NOT_FOUND_GRACE_PERIOD_SECONDS" (VStr "30")])].

Definition server_extractor_container (config : BaiConfig) (server_metrics : string) : pyval :=
  VDict [("name", plain "metrics-extractor"); ("image", plain (metrics_extractor_docker_image config));
         ("env", VList [env_from plain "ANUBIS_POD_NAME" "fieldRef" (field_ref plain "metadata.name");
                        env_from plain "ANUBIS_POD_NAMESPACE" "fieldRef" (field_ref plain "metadata.namespace");
                        env_value plain "ANUBIS_POD_CONTAINER" (VStr "inference-server");
                        env_value plain "ANUBIS_METRICS" (VStr server_metrics);
                        env_value plain "BENCHMARK_AI" (VStr "fifo");
                        env_value plain "BENCHMARK_AI_FIFO_FILEPATH" (VStr "/tmp/benchmark-ai/fifo")]);
         ("volumeMounts", VList [fifo_mount plain])].

Definition server_node_selector (srv : ServerDescriptor) (availability_zone : string) : pyval :=
  VDict [("beta.kubernetes.io/instance-type", plain (hw_instance_type (server_hardware srv)));
         ("node.type", plain "bai-worker"); ("failure-domain.beta.kubernetes.io/zone", plain availability_zone)].

(** The job around its containers and volumes. *)
Definition server_frame (labels selector : pyval) (inference_server_job_id : string)
    (containers init_containers volumes : list pyval) : pyval :=
  let pod :=
    VDict [("serviceAccountName", plain "metrics-pusher"); ("affinity", pod_anti_affinity plain);
           ("initContainers", VList init_containers); ("containers", VList containers);
           ("nodeSelector", selector); ("restartPolicy", plain "OnFailure"); ("volumes", VList volumes)] in
  let metadata := VDict [("labels", labels); ("annotations", VDict [("iam.amazonaws.com/role", plain "benchmark-host")])] in
  VDict [("apiVersion", plain "batch/v1"); ("kind", plain "Job");
         ("metadata", VDict [("name", plain inference_server_job_id); ("labels", labels)]);
         ("spec", VDict [("template", VDict [("metadata", metadata); ("spec", pod)]); ("backoffLimit", plain "4")])].

Definition server_job_document (srv : ServerDescriptor) (config : BaiConfig) (event : Event)
    (service_name job_id inference_server_job_id availability_zone server_metrics : string) : pyval :=
  server_frame (server_labels event service_name inference_server_job_id) (server_node_selector srv availability_zone)
    inference_server_job_id
    [VDict (server_container srv); VDict (client_lock_container config job_id inference_server_job_id);
     pusher_container plain config event; server_extractor_container config server_metrics]
    [data_puller_container plain config]
    [empty_dir plain "benchmark-ai"; empty_dir plain "datasets-volume"].
End Template.

(** ** The pod of the template *)

Definition server_template_pod : APod :=
  mkAPod [("inference-server", []); ("client-lock", []); ("metrics-pusher", ["benchmark-ai"]);
          ("metrics-extractor", ["benchmark-ai"])]
         [("data-puller", ["datasets-volume"])] ["benchmark-ai"; "datasets-volume"].

(** Where the labels of the job's pods are. *)
Definition pod_label_path (key : string) : list string := ["spec"; "template"; "metadata"; "labels"; key].

Section ServerPod.
Context `{YamlLaws}.

Abbreviation plain := yaml_plain.

(** The helper adds the empty list of mounts. *)
Lemma server_abs srv :
  container (VDict (server_container plain srv ++ [("volumeMounts", VList [])])%list) ("inference-server", []).
Proof. template_container. Qed.

Lemma client_lock_abs config job_id is_job_id :
  container (VDict (client_lock_container plain config job_id is_job_id ++ [("volumeMounts", VList [])])%list) ("client-lock", []).
Proof. template_container. Qed.

Lemma server_extractor_abs config metrics :
  container (server_extractor_container plain config metrics) ("metrics-extractor", ["benchmark-ai"]).
Proof. template_container. Qed.

Lemma server_helper_init srv config event service_name job_id is_job_id availability_zone metrics :
  exists doc,
    helper_init [service_document plain event service_name is_job_id;
                 server_job_document plain srv config event service_name job_id is_job_id availability_zone metrics]
      (mkKRoot None [] [] []) = (Ok tt, mkKRoot (Some doc) [] [] [service_document plain event service_name is_job_id]) /\
    pod_of None doc server_template_pod /\
    lookup_path (pod_label_path "inference-server-name") doc = Some (plain is_job_id).
Proof.
  exists (server_frame plain (server_labels plain event service_name is_job_id) (server_node_selector plain srv availability_zone) is_job_id
    [VDict (server_container plain srv ++ [("volumeMounts", VList [])])%list;
     VDict (client_lock_container plain config job_id is_job_id ++ [("volumeMounts", VList [])])%list;
     pusher_container plain config event; server_extractor_container plain config metrics]
    [data_puller_container plain config]
    [empty_dir plain "benchmark-ai"; empty_dir plain "datasets-volume"]).
  split; [|split; [|reflexivity]].
  - unfold server_job_document, server_frame. generalize (server_labels plain event service_name is_job_id) (server_node_selector plain srv availability_zone).
    intros labels selector. unfold service_document.
    rewrite (plain_word "Job"), (plain_word "Service") by reflexivity. lazy. reflexivity.
  - do 3 eexists. split; [reflexivity|]. split; [|split; [reflexivity|]]; [|split; [|split; [reflexivity|]]].
    + by repeat apply Forall2_cons_2; [apply server_abs|apply client_lock_abs|apply pusher_abs|apply server_extractor_abs|].
    + by repeat apply Forall2_cons_2; [apply data_puller_abs|].
    + by repeat apply Forall2_cons_2; [apply empty_dir_abs..|].
Qed.
End ServerPod.

(** ** What the benchmark asks for *)

Definition requested_server_pod (models : list DownloadableContent) (shm output : bool) : APod :=
  mkAPod
    (("inference-server", ((if shm then ["dshm"] else []) ++ repeat "datasets-volume" (length (get_data_mounts models)))%list) ::
     ("client-lock", []) ::
     (if output then [("metrics-pusher", ["benchmark-ai"]); ("metrics-extractor", ["benchmark-ai"])] else []))
    (if nonempty models then [("data-puller", ["datasets-volume"])] else [])
    (["benchmark-ai"] ++ (if nonempty models then ["datasets-volume"] else []) ++ (if shm then ["dshm"] else []))%list.

Lemma server_mounts_bound models shm out : mounts_bound (requested_server_pod models shm out).
Proof.
  assert (Hrep : forall n, n ∈ repeat "datasets-volume" (length (get_data_mounts models)) -> models <> [] /\ n = "datasets-volume").
  { intros n Hn%list_elem_of_In. split; [by intros ->|by apply repeat_spec in Hn]. }
  unfold mounts_bound, requested_server_pod. cbn [ap_containers ap_inits ap_volumes].
  revert Hrep. generalize (repeat "datasets-volume" (length (get_data_mounts models))). intros r Hrep a n Ha Hn.
  destruct models, shm, out; cbn [app nonempty] in Ha;
    repeat (apply elem_of_cons in Ha as [->|Ha]; [cbn [snd app] in Hn|]); try (by apply elem_of_nil in Ha); set_solver.
Qed.

(** What the edits make of the template. *)
Definition edited_server (srv : ServerDescriptor) (models : list DownloadableContent) : APod :=
  let P := if senv_extended_shm (server_env srv) then a_add_shm INFERENCE_SERVER_CONTAINER server_template_pod
           else server_template_pod in
  let P := a_add_data models INFERENCE_SERVER_CONTAINER P in
  if bool_decide (is_Some (server_output srv)) then P else a_remove_sidecars P.

Lemma edited_server_requested srv models :
  edited_server srv models =
  requested_server_pod models (senv_extended_shm (server_env srv)) (bool_decide (is_Some (server_output srv))).
Proof.
  unfold edited_server, requested_server_pod, a_add_data, DATASETS_VOLUME_NAME.
  destruct models as [|m l]; [by destruct (bool_decide _), (senv_extended_shm _)|].
  generalize (repeat "datasets-volume" (length (get_data_mounts (m :: l)))). intros r.
  by destruct (bool_decide _), (senv_extended_shm _).
Qed.

(** ** What the edits leave alone *)

(** The server's name on its pods and on its service, and the service's ports. *)
Definition serves (name : string) (ports : list pyval) (k : KRoot) : Prop :=
  (exists doc, k_root k = Some doc /\ lookup_path (pod_label_path "inference-server-name") doc = Some (VStr name)) /\
  (exists svc, services k = [svc] /\ lookup_path ["metadata"; "name"] svc = Some (VStr name) /\
     lookup_path ["spec"; "selector"; "inference-server-name"] svc = Some (VStr name) /\
     lookup_path ["spec"; "ports"] svc = Some (VList ports)).

Section Serves.
Context (name : string) (ports : list pyval).
Abbreviation keeps m := (preserved (serves name ports) m).

Lemma get_root_keeps : keeps get_root.
Proof. intros k Hk. unfold get_root, bind, get. by destruct (k_root k). Qed.

(** The ways to the pod. *)
Inductive pod_place : list string -> Prop :=
| replica_place replica : pod_place ["spec"; "mpiReplicaSpecs"; replica; "template"; "spec"]
| template_place : pod_place ["spec"; "template"; "spec"]
| cron_place : pod_place ["spec"; "jobTemplate"; "spec"; "template"; "spec"]
| cron_pod_place : pod_place ["spec"; "jobTemplate"; "spec"].

Lemma pod_spec_path_place kw k p k' : pod_spec_path kw k = (Ok p, k') -> k' = k /\ pod_place p.
Proof.
  unfold pod_spec_path, pod_path_in, get_root, bind, get. destruct (k_root k) as [doc|]; [|done]. unfold ret, lift.
  destruct kw as [replica|].
  - destruct (attrs _ doc) as [v|]; [|done]. cbn [res_bind]. destruct (truthy v); [|done]. intros [= <- <-]. split; [done|constructor].
  - destruct (attrs _ doc) as [t|]; [|done]. cbn [res_bind]. destruct (truthy t); [intros [= <- <-]; split; [done|constructor]|].
    destruct (attrs _ doc) as [j|]; [|done]. cbn [res_bind]. destruct (truthy j); [|done].
    destruct (attrs _ j) as [jt|]; [|done]. cbn [res_bind]. destruct (truthy jt); intros [= <- <-]; (split; [done|constructor]).
Qed.

Lemma pod_place_label p r key : pod_place p -> diverge (pod_label_path key) (p ++ r)%list.
Proof. intros Hp. unfold pod_label_path. destruct Hp; cbn [app]; repeat constructor; discriminate. Qed.

Lemma pod_spec_path_keeps kw : keeps (pod_spec_path kw).
Proof.
  intros k Hk. destruct (pod_spec_path kw k) as [[p|e] k'] eqn:E; cbn [snd].
  - by apply pod_spec_path_place in E as [-> _].
  - revert E. unfold pod_spec_path, pod_path_in, get_root, bind, get. destruct (k_root k); [|by intros [= _ <-]]. unfold ret, lift.
    by destruct (match kw with Some _ => _ | None => _ end); intros [= _ <-].
Qed.

(** A change at or below the pod. *)
Lemma change_pod_keeps kw r (f : pyval -> Res pyval) :
  keeps (p <- pod_spec_path kw ;; root <- get_root ;; root' <- lift (modify_at (p ++ r)%list f root) ;; set_root root').
Proof.
  intros k Hk. unfold bind at 1. destruct (pod_spec_path kw k) as [[p|e] k'] eqn:E; cbn [snd].
  2: { pose proof (pod_spec_path_keeps kw k Hk) as H1. by rewrite E in H1. }
  apply pod_spec_path_place in E as [-> Hp]. destruct Hk as [(doc & Hdoc & Hl) Hsvc].
  unfold get_root, bind, get. rewrite Hdoc. unfold ret, lift. destruct (modify_at (p ++ r) f doc) as [doc'|] eqn:Em; [|by split; [exists doc|]].
  split; [|done]. exists doc'. split; [done|]. rewrite <- Hl. eapply modify_at_frame; [|exact Em]. by apply pod_place_label.
Qed.

Lemma modify_pod_keeps_service kw key f : keeps (modify_pod kw key f).
Proof. apply change_pod_keeps. Qed.

Lemma pod_attr_keeps kw key : keeps (pod_attr kw key).
Proof. intros k Hk. by rewrite (looks_pod_attr kw key k). Qed.

Lemma find_container_keeps_service c kw : keeps (find_container c kw).
Proof. intros k Hk. by rewrite (looks_find_container kw c k). Qed.

Ltac keep :=
  repeat match goal with
  | |- forall _, _ => intros ?
  | |- preserved _ (bind _ _) => apply preserved_bind
  | |- preserved _ (ret _) => apply preserved_ret
  | |- preserved _ (raise _) => apply preserved_raise
  | |- preserved _ (lift _) => apply preserved_lift
  | |- preserved _ get => apply preserved_get
  | |- preserved _ get_root => apply get_root_keeps
  | |- preserved _ (pod_attr _ _) => apply pod_attr_keeps
  | |- preserved _ (find_container _ _) => apply find_container_keeps_service
  | |- preserved _ (modify_pod _ _ _) => apply modify_pod_keeps_service
  | |- preserved _ (let '(_, _) := ?x in _) => destruct x
  | |- preserved _ (match ?x with _ => _ end) => destruct x
  end.

Lemma locate_container_keeps c kw : keeps (locate_container c kw).
Proof. unfold locate_container, not_found. keep. Qed.

Lemma modify_container_keeps_service c kw f : keeps (modify_container c kw f).
Proof. unfold modify_container. apply preserved_bind; [apply locate_container_keeps|keep]. Qed.

Lemma remove_container_keeps_service c kw : keeps (remove_container c kw).
Proof. unfold remove_container. apply preserved_bind; [apply locate_container_keeps|keep]. Qed.

Lemma remove_volume_keeps_service v kw : keeps (remove_volume v kw).
Proof. unfold remove_volume, not_found. keep. Qed.

Lemma remove_affinity_keeps_service kw : keeps (remove_affinity kw).
Proof.
  unfold remove_affinity. apply preserved_bind; [unfold get_pod_spec; apply preserved_bind; [apply pod_spec_path_keeps|keep]|].
  intros [| | | | |d]; try apply preserved_raise. destruct (dict_mem "affinity" d); [|apply preserved_raise].
  intros k Hk. pose proof (change_pod_keeps kw [] (pop_attr "affinity") k Hk) as H. revert H.
  unfold bind. destruct (pod_spec_path kw k) as [[p|e] k1]; [|done]. by rewrite app_nil_r.
Qed.

Lemma add_env_vars_keeps_service c env kw : keeps (k_add_env_vars c env kw).
Proof. unfold k_add_env_vars. destruct env; [apply preserved_ret|apply modify_container_keeps_service]. Qed.

Lemma container_ports_keeps_service c ps : keeps (add_container_ports_to_container c ps).
Proof. unfold add_container_ports_to_container. keep. apply modify_container_keeps_service. Qed.

Lemma readiness_probe_keeps_service c probe port : keeps (add_readiness_probe c probe port).
Proof. unfold add_readiness_probe. keep. apply modify_container_keeps_service. Qed.

(** Labels under other names. *)
Lemma label_untouched key q w : key <> "inference-server-name" -> leaf w = true -> truthy w = true ->
  q = pod_label_path "inference-server-name" \/ q = ["metadata"; "name"] \/ q = ["spec"; "selector"; "inference-server-name"] ->
  untouched key q w.
Proof.
  intros Hkey Hl Ht Hq. split; [done|]. split; [by left|]. intros q1 r E.
  destruct Hq as [->|[->| ->]]; unfold pod_label_path in E;
    repeat (destruct q1 as [|? q1]; cbn [app] in E; [congruence|injection E as <- E]); by destruct q1.
Qed.

Lemma add_label_keeps_service key value :
  key <> "inference-server-name" -> name <> "" -> scalar value = true -> keeps (add_label key value).
Proof.
  intros Hkey Hname Hs k Hk. pose proof Hk as [(doc & Hdoc & Hl) (svc & Hsvc & Hn & Hsel & Hp)].
  assert (Ht : truthy (VStr name) = true) by (cbn; by destruct name).
  unfold add_label, bind, get_root, bind, get. rewrite Hdoc. unfold ret, lift.
  destruct (add_label_obj key value doc) as [doc'|e] eqn:E; [|done]. unfold set_root, modify. cbn [k_root config_maps role_bindings services].
  assert (Hl' : lookup_path (pod_label_path "inference-server-name") doc' = Some (VStr name)).
  { apply (add_label_obj_frame key value doc doc' _ _ Hs E); [|done]. apply label_untouched; auto. }
  assert (Hmid : serves name ports (mkKRoot (Some doc') (config_maps k) (role_bindings k) (services k))).
  { split; [by exists doc'|by exists svc]. }
  destruct (res_map _ (config_maps k)) as [cms|]; [|done]. destruct (res_map _ (role_bindings k)) as [rbs|]; [|done].
  rewrite Hsvc. cbn [res_map]. destruct (add_label_obj key value svc) as [svc'|] eqn:E2; [|by rewrite Hsvc in Hmid].
  cbn [res_bind put]. split; [by exists doc'|]. exists svc'. split; [done|].
  assert (Hf : forall q w, untouched key q w -> lookup_path q svc = Some w -> lookup_path q svc' = Some w)
    by (intros q w; by apply (add_label_obj_frame key value svc svc')).
  split_and!; (apply Hf; [|done]); [apply label_untouched; auto..|]. apply untouched_path; [done|]. set_solver.
Qed.
End Serves.

(** The ports of the service. *)
Lemma add_tcp_ports_served name ports0 ports k a k' :
  serves name ports0 k -> add_tcp_ports_to_service name ports k = (Ok a, k') ->
  serves name (ports0 ++ imap tcp_port ports)%list k' /\ k_root k' = k_root k.
Proof.
  intros [(doc & Hdoc & Hl) (svc & Hsvc & Hn & Hsel & Hp)]. unfold add_tcp_ports_to_service, bind, get. rewrite Hsvc.
  cbn [res_map extend_first_service].
  destruct svc as [| | | | |d]; try done. cbn [lookup_path] in Hn, Hsel, Hp.
  destruct (dict_get d "metadata") as [md|] eqn:Emd; [|done]. destruct md as [| | | | |m]; try done.
  destruct (dict_get m "name") as [nm|] eqn:Enm; [|done]. injection Hn as ->.
  destruct (dict_get d "spec") as [sp|] eqn:Esp; [|done]. destruct sp as [| | | | |spec]; try done.
  destruct (dict_get spec "ports") as [ps|] eqn:Eps; [|done]. injection Hp as ->.
  unfold service_named, extend_service_ports. cbn [attr]. rewrite Emd. cbn [default id res_bind attr]. rewrite Enm.
  cbn [default id res_bind is_str lift ret]. rewrite String.eqb_refl, Esp, Eps. cbn [res_bind lift put].
  intros [= _ <-]. split; [|done]. split; [by exists doc|]. eexists. split; [reflexivity|]. cbn [lookup_path].
  rewrite dict_get_set_ne, Emd, Enm by done. rewrite !dict_get_set_eq. rewrite dict_get_set_ne by done.
  by destruct (dict_get spec "selector").
Qed.

(** ** The operations of the builder of the server *)

Section ServerOps.
Context (d : BenchmarkDescriptor) (name : string).
Context (Hlabels : forall labels, info_labels (info d) = Some labels -> "inference-server-name" ∉ dict_keys labels).
Context (Hname : name <> "").

Definition bserves (ports : list pyval) (b : Bld) : Prop :=
  b_descriptor b = d /\ exists k, b_root b = Some k /\ serves name ports k.

Section Keeps.
Context (ports : list pyval).
Abbreviation keeps m := (preserved (bserves ports) m).

Lemma on_root_serves {A} (m : M KRoot A) : preserved (serves name ports) m -> keeps (on_root m).
Proof.
  intros Hm b [Hd (k & Hk & Hs)]. unfold on_root. rewrite Hk. specialize (Hm k Hs). destruct (m k) as [r k'].
  split; [done|]. by exists k'.
Qed.

Lemma opt_label_serves key o : key <> "inference-server-name" -> keeps (on_root (add_label key (opt_val o))).
Proof. intros Hkey. apply on_root_serves, add_label_keeps_service; [done..|]. by destruct o. Qed.

Lemma for_labels_serves f :
  (forall label value, label <> "inference-server-name" -> keeps (f label value)) -> keeps (for_labels f).
Proof.
  intros Hf b Hb. pose proof Hb as [Hd _]. unfold for_labels, bind, gets. rewrite Hd.
  destruct (info_labels (info d)) as [labels|] eqn:E; [|done]. apply preserved_for_each; [|done].
  intros [label value] Hin. apply Hf. intros ->. apply (Hlabels labels eq_refl), list_elem_of_fmap. by exists ("inference-server-name", value).
Qed.

Lemma pusher_env_serves key value prefix kw : keeps (add_metrics_pusher_env_var key value prefix kw).
Proof.
  unfold add_metrics_pusher_env_var. apply preserved_bind.
  - apply preserved_try; [apply preserved_bind|].
    + apply on_root_serves, find_container_keeps_service.
    + intros _. apply preserved_ret.
    + intros []; first [apply preserved_ret|apply preserved_raise].
  - intros [|]; [|apply preserved_ret]. apply on_root_serves, modify_container_keeps_service.
Qed.

Lemma custom_labels_serve kw : keeps (add_custom_labels kw).
Proof.
  unfold add_custom_labels. apply preserved_bind; [apply for_labels_serves; intros; apply pusher_env_serves|intros _].
  apply preserved_bind; [apply preserved_gets|]. intros d0. destruct (custom_params d0) as [cp|]; [|apply preserved_ret].
  apply preserved_bind; [|intros _]; (destruct (str_truthy _); [|apply preserved_ret]);
    (apply preserved_bind; [by apply opt_label_serves|intros _; apply pusher_env_serves]).
Qed.

Lemma shm_serves c kw : keeps (add_extended_shm c kw).
Proof.
  unfold add_extended_shm. apply preserved_bind; [apply on_root_serves, pod_attr_keeps|intros _].
  apply preserved_bind; [apply on_root_serves, find_container_keeps_service|intros x].
  apply preserved_bind; [apply preserved_lift|intros _].
  apply preserved_bind; [apply on_root_serves, modify_pod_keeps_service|intros _].
  apply on_root_serves, modify_container_keeps_service.
Qed.

Context (repr_content : DownloadableContent -> string).

Lemma data_serve srcs c kw : keeps (add_data_volume_mounts repr_content srcs c kw).
Proof.
  unfold add_data_volume_mounts. apply preserved_bind; [apply on_root_serves, find_container_keeps_service|intros _].
  apply preserved_bind; [|intros _; apply on_root_serves, modify_container_keeps_service].
  unfold update_data_puller. destruct srcs.
  - apply preserved_bind; [apply on_root_serves, remove_container_keeps_service|intros _; apply on_root_serves, remove_volume_keeps_service].
  - apply preserved_bind; [apply on_root_serves, find_container_keeps_service|intros _].
    apply preserved_bind; [apply preserved_get|intros b]. apply preserved_bind; [apply preserved_lift|intros [bucket key]].
    apply preserved_bind; [apply preserved_lift|intros objs]. apply on_root_serves, modify_container_keeps_service.
Qed.

Lemma sidecars_serve kw : keeps (remove_metrics_sidecars kw).
Proof.
  unfold remove_metrics_sidecars. apply preserved_bind; [|intros _]; apply on_root_serves, remove_container_keeps_service.
Qed.

Lemma server_of_serves : keeps server_of.
Proof. unfold server_of. apply preserved_bind; [apply preserved_gets|]. intros d0. destruct (server d0); [apply preserved_ret|apply preserved_raise]. Qed.

Lemma command_serves : keeps add_server_command_to_container.
Proof.
  unfold add_server_command_to_container. apply preserved_bind; [apply on_root_serves, find_container_keeps_service|intros _].
  apply preserved_bind; [apply server_of_serves|intros srv]. apply preserved_bind; [apply preserved_lift|intros cmd].
  apply preserved_bind; [apply preserved_lift|intros args]. apply on_root_serves, modify_container_keeps_service.
Qed.

Lemma parent_label_serves : keeps add_parent_label.
Proof.
  unfold add_parent_label. apply preserved_bind; [apply preserved_get|intros b]. destruct (str_truthy _); [|apply preserved_ret].
  by apply opt_label_serves.
Qed.

Lemma affinity_serves kw : keeps (suppress_affinity kw).
Proof.
  unfold suppress_affinity. apply preserved_bind; [apply preserved_get|intros b]. destruct (suppress_job_affinity _); [|apply preserved_ret].
  apply on_root_serves, remove_affinity_keeps_service.
Qed.
End Keeps.
End ServerOps.

(** ** The edits of the server's builder *)

Section ServerUpdate.
Context (d : BenchmarkDescriptor) (srv : ServerDescriptor) (name : string).
Context (Hlabels : forall labels, info_labels (info d) = Some labels -> "inference-server-name" ∉ dict_keys labels).
Context (Hname : name <> "") (Hsrv : server d = Some srv).
Context (repr_content : DownloadableContent -> string).

(** From a pod and the ports of the service to others. *)
Definition both (P : APod) (ports : list pyval) {A} (m : M Bld A) (P' : APod) (ports' : list pyval) : Prop :=
  forall b a b', bpod None d P b -> bserves d name ports b -> m b = (Ok a, b') -> bpod None d P' b' /\ bserves d name ports' b'.

Lemma both_step P ports {A} (m : M Bld A) P' :
  btriple None d P m P' -> preserved (bserves d name ports) m -> both P ports m P' ports.
Proof. intros Hm Hs b a b' Hp Hb E. split; [by apply (Hm b a)|]. specialize (Hs b Hb). by rewrite E in Hs. Qed.

Lemma both_bind P ports P1 ports1 P2 ports2 {A B} (m : M Bld A) (f : A -> M Bld B) :
  both P ports m P1 ports1 -> (forall a, both P1 ports1 (f a) P2 ports2) -> both P ports (bind m f) P2 ports2.
Proof.
  intros Hm Hf b a b' Hp Hb. unfold bind. destruct (m b) as [[x|e] b1] eqn:E; [|done].
  destruct (Hm b x b1 Hp Hb E) as [Hp1 Hb1]. by apply Hf.
Qed.

Lemma both_server P ports P' ports' {B} (f : ServerDescriptor -> M Bld B) :
  both P ports (f srv) P' ports' -> both P ports (bind server_of f) P' ports'.
Proof. intros Hf b a b' Hp Hb. unfold server_of, bind, gets. pose proof Hp as [-> _]. rewrite Hsrv. by apply Hf. Qed.

Lemma both_tcp_ports P ports : both P [] (on_root (add_tcp_ports_to_service name ports)) P (imap tcp_port ports).
Proof.
  intros b a b' [Hd (k & Hk & Hp)] [_ (k1 & Hk1 & Hs)] E. rewrite Hk in Hk1. injection Hk1 as <-.
  unfold on_root in E. rewrite Hk in E. destruct (add_tcp_ports_to_service name ports k) as [r k'] eqn:Ek.
  injection E as -> <-. destruct (add_tcp_ports_served _ _ _ _ _ _ Hs Ek) as [Hs' Hroot]. split.
  - split; [done|]. exists k'. split; [done|]. unfold kpod in *. by rewrite Hroot.
  - split; [done|]. exists k'. split; [done|exact Hs'].
Qed.

Lemma server_command_keeps P : ap_wf P -> btriple None d P add_server_command_to_container P.
Proof.
  intros Hwf. unfold add_server_command_to_container.
  apply btriple_bind with P; [apply btriple_root, find_container_keeps|intros _].
  apply btriple_bind with P.
  { unfold server_of. apply btriple_gets. rewrite Hsrv. apply btriple_ret. }
  intros srv1. apply btriple_bind with P; [apply btriple_lift|intros cmd]. apply btriple_bind with P; [apply btriple_lift|intros args].
  apply btriple_root, modify_container_keeps; [done|]. intros c c' a. by apply container_set_and_pop.
Qed.

Lemma deep_wf_fields fields :
  dict_wf fields -> Forall (fun kv => deep_wf kv.2 = true) fields -> deep_wf (VDict fields) = true.
Proof. intros. by apply deep_wf_dict. Qed.

Lemma container_ports_keep P ports : ap_wf P -> btriple None d P (on_root (add_container_ports_to_container INFERENCE_SERVER_CONTAINER ports)) P.
Proof.
  intros Hwf. apply btriple_root. unfold add_container_ports_to_container.
  apply ktriple_bind with P; [apply find_container_keeps|intros c0]. destruct (truthy c0); [|apply ktriple_ret].
  apply modify_container_keeps; [done|]. intros c c' a Hc. pose proof Hc as (fields & -> & _ & Hwfc & _).
  destruct (if truthy _ then _ else _) as [| | | |l|] eqn:E; try done. rewrite <- set_attr_dict.
  apply container_set_attr; [done|done| |done]. apply deep_wf_list, Forall_app. split.
  - apply Forall_fmap, Forall_true. intros p. apply deep_wf_fields; [by apply (bool_decide_unpack _)|]. by repeat constructor.
  - apply deep_wf_list. destruct (dict_get fields "ports") as [v|] eqn:Ep; cbn [default id] in E.
    + destruct (truthy v); [subst v; by apply (deep_wf_get fields "ports")|by injection E as <-].
    + by injection E as <-.
Qed.

Lemma readiness_probe_keeps P probe port : ap_wf P -> btriple None d P (on_root (add_readiness_probe INFERENCE_SERVER_CONTAINER probe port)) P.
Proof.
  intros Hwf. apply btriple_root. unfold add_readiness_probe.
  apply ktriple_bind with P; [apply find_container_keeps|intros c0]. destruct (truthy c0); [|apply ktriple_ret].
  destruct (probe_spec probe port) as [spec|e] eqn:E; [|by intros k a k' _].
  assert (Hw : deep_wf spec = true).
  { revert E. unfold probe_spec. destruct (probe_scheme probe); [|done]. intros [= <-].
    destruct (probe_port probe), (probe_initial_delay_seconds probe), (probe_period_seconds probe),
      (probe_timeout_seconds probe), (probe_success_threshold probe), (probe_failure_threshold probe); reflexivity. }
  intros k a k' Hk. unfold bind, lift. revert k a k' Hk.
  apply modify_container_keeps; [done|]. intros c c' a. by apply container_set_attr.
Qed.

Lemma parent_label_keeps P : btriple None d P add_parent_label P.
Proof.
  unfold add_parent_label. apply btriple_get. intros b0 _. destruct (str_truthy _); [|apply btriple_ret].
  by apply add_label_opt_keeps.
Qed.

Lemma server_template_wf : ap_wf server_template_pod.
Proof. split; by apply (bool_decide_unpack _). Qed.

Lemma server_puller_apart :
  let P := if senv_extended_shm (server_env srv) then a_add_shm INFERENCE_SERVER_CONTAINER server_template_pod else server_template_pod in
  ap_wf P /\ not_adjacent DATASETS_VOLUME_NAME (a_remove_container DATA_PULLER_CONTAINER P).
Proof.
  cbv zeta. destruct (senv_extended_shm _); (split; [split; by apply (bool_decide_unpack _)|]);
    repeat (apply List.Forall_cons; [reflexivity|]); apply List.Forall_nil.
Qed.

Lemma both_read P ports P' ports' {B} (f : Bld -> M Bld B) b :
  both P ports (f b) P' ports' -> bpod None d P b -> bserves d name ports b ->
  forall a b', bind get f b = (Ok a, b') -> bpod None d P' b' /\ bserves d name ports' b'.
Proof. intros Hf Hp Hb a b'. by apply Hf. Qed.

Lemma server_edits b a b' :
  b_inference_server_job_id b = name -> bpod None d server_template_pod b -> bserves d name [] b ->
  inference_server_update repr_content b = (Ok a, b') ->
  bpod None d (edited_server srv (b_fetched_models b)) b' /\ bserves d name (imap tcp_port (senv_ports (server_env srv))) b'.
Proof.
  intros Hjob Hp Hb. revert a b'. apply (both_read server_template_pod []); [|done..]. rewrite Hjob.
  generalize (b_fetched_models b). intros models. clear b Hjob Hp Hb.
  apply both_bind with server_template_pod [].
  { apply both_step; [apply btriple_root, set_service_account_keeps|apply on_root_serves, modify_pod_keeps_service]. }
  intros _. apply both_server. unfold edited_server. destruct server_puller_apart as [Hwf1 Hapart].
  set (P1 := if senv_extended_shm _ then _ else _) in *. apply both_bind with P1 [].
  { apply both_step; unfold P1; (destruct (senv_extended_shm _); [|first [apply btriple_ret|apply preserved_ret]]).
    - apply add_extended_shm_edits; [apply server_template_wf|by apply (bool_decide_unpack _)].
    - apply shm_serves. }
  intros _. apply both_bind with P1 []; [by apply both_step; [apply server_command_keeps|apply command_serves]|intros _].
  set (P2 := a_add_data models INFERENCE_SERVER_CONTAINER P1).
  assert (Hwf2 : ap_wf P2) by (unfold P2, a_add_data; destruct models; auto with py).
  apply both_bind with P2 []; [apply both_step; [by apply add_data_volume_mounts_edits|apply data_serve]|intros _].
  apply both_bind with P2 []; [apply both_step; [by apply btriple_root, add_env_vars_keeps|apply on_root_serves, add_env_vars_keeps_service]|intros _].
  set (ports := senv_ports (server_env srv)). apply both_bind with P2 (imap tcp_port ports); [apply both_tcp_ports|intros _].
  apply both_bind with P2 (imap tcp_port ports);
    [apply both_step; [by apply container_ports_keep|apply on_root_serves, container_ports_keeps_service]|intros _].
  apply both_bind with P2 (imap tcp_port ports).
  { destruct (senv_readiness_probe _) as [probe|]; [destruct ports as [|port ports']|]; apply both_step;
      first [apply btriple_raise|apply preserved_raise|apply btriple_ret|apply preserved_ret|by apply readiness_probe_keeps
            |apply on_root_serves, readiness_probe_keeps_service]. }
  intros _. apply both_bind with P2 (imap tcp_port ports); [apply both_step; [apply parent_label_keeps|by apply parent_label_serves]|intros _].
  set (P3 := if bool_decide (is_Some (server_output srv)) then P2 else a_remove_sidecars P2).
  apply both_bind with P3 (imap tcp_port ports).
  { unfold P3. destruct (bool_decide _); apply both_step;
      [by apply add_custom_labels_keeps|by apply custom_labels_serve|by apply remove_metrics_sidecars_edits|apply sidecars_serve]. }
  intros _. apply both_step; [apply suppress_affinity_keeps|apply affinity_serves].
Qed.
End ServerUpdate.

(** ** The address of the server in the benchmark's environment *)

(** An environment variable of the container with the name among the
    containers of the pod. *)
Definition pod_env (doc : pyval) (container_name name : string) (value : pyval) : Prop :=
  exists field l fields env,
    lookup_path ["spec"; "template"; "spec"; field] doc = Some (VList l) /\ VDict fields ∈ l /\
    dict_get fields "name" = Some (VStr container_name) /\ dict_get fields "env" = Some (VList env) /\
    EnvVar name value ∈ env.

Lemma merge_env_entries env c c' n v :
  dict_wf env -> dict_get env n = Some v -> merge_env env c = Ok c' ->
  exists fields l, c = VDict fields /\ c' = VDict (dict_set fields "env" (VList l)) /\ EnvVar n v ∈ l.
Proof.
  intros Hwf Hn. unfold merge_env. destruct c as [| | | | |fields]; try done. cbn [attr res_bind].
  destruct (if truthy _ then _ else _) as [l|]; [|done]. cbn [res_bind]. destruct (env_dict l []) as [old|]; [|done].
  cbn [res_bind]. rewrite set_attr_dict. intros [= <-]. eexists _, _. split_and!; [reflexivity..|].
  apply list_elem_of_fmap. exists (n, v). split; [done|]. apply dict_get_Some_in. rewrite dict_get_update by done. by rewrite Hn.
Qed.

(** The variables that a container gets are in it afterwards. *)
Lemma add_env_vars_effect P name env k a k' :
  ap_wf P -> kpod None P k -> dict_wf env -> k_add_env_vars name env None k = (Ok a, k') -> env <> [] ->
  exists doc, k_root k' = Some doc /\ forall n v, dict_get env n = Some v -> pod_env doc name n v.
Proof.
  intros Hwf Hk Henv Hrun Hne. pose proof Hk as (doc & Hdoc & Hp). unfold k_add_env_vars in Hrun. destruct env as [|e env]; [done|].
  revert Hrun. unfold modify_container, bind. destruct (locate_container name None k) as [[[field i]|] k1] eqn:E; [|done].
  apply (locate_run None name k k1 P) in E as [-> Hloc]; [|done]. intros Hrun.
  destruct (modify_pod_run None k k' doc P _ _ _ Hdoc Hp Hrun) as (doc' & Hm & ->).
  exists doc'. split; [done|]. intros n v Hn. destruct Hp as (cs & ics & vs & Hc & Hcs & Hi & His & _).
  assert (H : exists l pre ns suf, lookup_path (pod_path None ++ [field])%list doc = Some (VList l) /\
    Forall2 container l (pre ++ (name, ns) :: suf)%list /\ i = length pre).
  { destruct Hloc as [(-> & pre & ns & suf & HP & Hl)|(-> & pre & ns & suf & HP & Hl)]; rewrite HP in *; eauto 10. }
  destruct H as (l & pre & ns & suf & Hl & Hall & ->).
  destruct (modify_at_value _ _ _ _ _ Hl Hm) as [v' Hv'].
  pose proof (modify_at_at _ _ _ _ _ _ [] Hl Hv' Hm) as Hlook. rewrite app_nil_r in Hlook.
  apply Forall2_app_inv_r in Hall as (l1 & l2 & Hl1 & Hl2 & ->). apply Forall2_cons_inv_r in Hl2 as (x & l3 & Hx & Hl3 & ->).
  revert Hv'. cbn [modify_nth]. rewrite <- (Forall2_length _ _ _ Hl1), list_lookup_middle by done.
  destruct (merge_env (e :: env) x) as [y|] eqn:Ey; [|done]. cbn [res_bind]. intros [= <-].
  destruct (merge_env_entries _ _ _ _ _ Henv Hn Ey) as (fields & vars & -> & -> & Hin).
  destruct Hx as (fields' & [= <-] & Hname & _). cbn [fst] in Hname.
  exists field, (l1 ++ VDict (dict_set fields "env" (VList vars)) :: l3)%list, (dict_set fields "env" (VList vars)), vars.
  split_and!; [|set_solver|by rewrite dict_get_set_ne|apply dict_get_set_eq|done].
  cbn [lookup_path] in Hlook |- *. rewrite <- (Nat.add_0_r (length l1)), insert_app_r in Hlook. exact Hlook.
Qed.

(** ** The builder of the server *)

Section ServerBuilder.
Context `{YamlLaws}.
Context (read_template : string -> string) (load_docs : string -> dict string TVar -> Res (list pyval)).
Context (repr_content : DownloadableContent -> string).

(** The server's metrics as the container of the extractor gets them. *)
Definition server_metrics_text (srv : ServerDescriptor) : string :=
  match server_output srv with
  | Some o => dump_metrics (encode_output o)
  | None => json_dumps (VList [])
  end.

(** The values that end up in scalars are scalars. *)
Definition server_values_safe (srv : ServerDescriptor) (config : BaiConfig) (event : Event) (job_id : string) : Prop :=
  yaml_token (action_id event) = true /\ yaml_token (client_id event) = true /\ yaml_token job_id = true /\
  yaml_token (puller_docker_image config) = true /\ yaml_token (metrics_pusher_docker_image config) = true /\
  yaml_token (metrics_extractor_docker_image config) = true /\ yaml_token (job_status_trigger_docker_image config) = true /\
  yaml_token (senv_docker_image (server_env srv)) = true /\ yaml_token (hw_instance_type (server_hardware srv)) = true.

(** The template file, filled by [str.format] with such values, and parsed. *)
Definition inference_server_template_file : Prop :=
  forall descriptor srv config event service_name job_id is_job_id availability_zone metrics server_metrics,
  server descriptor = Some srv -> server_values_safe srv config event job_id ->
  yaml_token service_name = true -> yaml_word is_job_id = true ->
  yaml_token availability_zone = true -> yaml_single_quotable server_metrics = true ->
  load_docs (read_template "inference_server_job.yaml")
    [("descriptor", TDescriptor descriptor); ("config", TConfig config); ("event", TEvent event);
     ("service_name", TStr service_name); ("job_id", TStr job_id); ("inference_server_job_id", TStr is_job_id);
     ("availability_zone", TStr availability_zone); ("metrics", TStr metrics); ("server_metrics", TStr server_metrics)] =
  Ok [service_document yaml_plain event service_name is_job_id;
      server_job_document yaml_plain srv config event service_name job_id is_job_id availability_zone server_metrics].

(** The server whose patterns are encoded. *)
Definition encoded_server (srv : ServerDescriptor) : ServerDescriptor :=
  match server_output srv with
  | Some o => mkServer (server_hardware srv) (server_env srv) (server_models srv) (Some (encode_output o))
  | None => srv
  end.
Definition server_encoded (d : BenchmarkDescriptor) (srv : ServerDescriptor) : BenchmarkDescriptor :=
  match server_output srv with Some o => set_server_output (Some (encode_output o)) d | None => d end.

Lemma server_encoded_same d srv : server d = Some srv ->
  server (server_encoded d srv) = Some (encoded_server srv) /\ info (server_encoded d srv) = info d /\
  server_env (encoded_server srv) = server_env srv /\ server_hardware (encoded_server srv) = server_hardware srv /\
  bool_decide (is_Some (server_output (encoded_server srv))) = bool_decide (is_Some (server_output srv)).
Proof.
  intros Hs. unfold server_encoded, encoded_server. destruct (server_output srv) as [o|] eqn:E; [|by rewrite E].
  unfold set_server_output. cbn [server info]. rewrite Hs. split_and!; [done..|]. cbn [server_output]. by rewrite !bool_decide_true by eauto.
Qed.

Lemma get_server_metrics_run b srv :
  bh_strategy (hardware (b_descriptor b)) = INFERENCE -> server (b_descriptor b) = Some srv ->
  get_server_metrics_from_descriptor b = (Ok (server_metrics_text srv), set_b_descriptor (server_encoded (b_descriptor b) srv) b).
Proof.
  intros Hi Hs. unfold get_server_metrics_from_descriptor, bind, gets, is_inference_strategy. rewrite Hi, bool_decide_true, Hs by done.
  unfold server_metrics_text, server_encoded. destruct (server_output srv); [done|]. by destruct b.
Qed.

Context (Htemplate : inference_server_template_file).

Lemma server_root d srv config models job_id event envi rand availability_zone :
  let name := "is-" +:+ lower job_id in
  bh_strategy (hardware d) = INFERENCE -> server d = Some srv ->
  server_values_safe srv config event (lower job_id) -> yaml_single_quotable (server_metrics_text srv) = true ->
  yaml_word name = true ->
  choose_availability_zone d envi rand = Ok availability_zone -> yaml_token availability_zone = true ->
  exists b1 b2,
    feed_server_values (inference_server_builder_init read_template d config job_id models event envi rand) = (Ok tt, b1) /\
    build_root load_docs b1 = (Ok tt, b2) /\
    bpod None (server_encoded (encoded d) srv) server_template_pod b2 /\
    bserves (server_encoded (encoded d) srv) name [] b2 /\ b_fetched_models b2 = models /\ b_inference_server_job_id b2 = name.
Proof.
  intros name Hi Hs Hsafe Hm Hname Haz Ht. set (b0 := inference_server_builder_init _ _ _ _ _ _ _ _).
  destruct (encoded_same d) as (Hhw & _ & _ & _ & Hsrv). rewrite Hs in Hsrv.
  set (d2 := server_encoded (encoded d) srv). destruct (server_encoded_same (encoded d) srv Hsrv) as (Hs2 & _ & Henv2 & Hhw2 & _). fold d2 in Hs2.
  set (bz := set_b_template (feed [("availability_zone", TStr availability_zone)] (b_template b0)) b0).
  set (bm := set_b_descriptor (encoded d) bz).
  set (b1 := set_b_template (feed [("metrics", TStr (metrics_text d))] (b_template bm)) bm).
  set (bs := set_b_descriptor d2 b1).
  set (b2 := set_b_template (feed [("server_metrics", TStr (server_metrics_text srv))] (b_template bs)) bs).
  destruct (server_helper_init (encoded_server srv) config event SERVICE_NAME (lower job_id) name availability_zone
    (server_metrics_text srv)) as (doc & Hinit & Hdoc & Hlab).
  exists b2, (set_b_root (Some (mkKRoot (Some doc) [] [] [service_document yaml_plain event SERVICE_NAME name])) b2). split_and!.
  - unfold feed_server_values, bind at 1.
    assert (Hfeed : feed_benchmark_values b0 = (Ok tt, b1)).
    { unfold feed_benchmark_values, bind at 1, get. change (b_descriptor b0) with d.
      change (b_environment_info b0) with envi. change (b_rand b0) with rand. rewrite Haz. unfold bind at 1, lift.
      unfold bind at 1, feed_one at 1, modify. fold bz. unfold bind. rewrite get_metrics_run. reflexivity. }
    rewrite Hfeed. unfold bind. rewrite (get_server_metrics_run b1 srv); [reflexivity|by change (b_descriptor b1) with (encoded d); rewrite Hhw|done].
  - unfold build_root, bind at 1, get. unfold bind, lift, template_build.
    match goal with |- context [load_docs ?t ?v] =>
      change (load_docs t v) with (load_docs (read_template "inference_server_job.yaml")
        [("descriptor", TDescriptor d2); ("config", TConfig config); ("event", TEvent event);
         ("service_name", TStr SERVICE_NAME); ("job_id", TStr (lower job_id)); ("inference_server_job_id", TStr name);
         ("availability_zone", TStr availability_zone); ("metrics", TStr (metrics_text d));
         ("server_metrics", TStr (server_metrics_text srv))]) end.
    rewrite (Htemplate d2 (encoded_server srv)); [|done| |done|done|done|done].
    + cbn [res_bind]. rewrite Hinit. reflexivity.
    + unfold server_values_safe in *. by rewrite Henv2, Hhw2.
  - split; [done|]. eexists. split; [done|]. by exists doc.
  - split; [done|]. eexists. split; [done|]. rewrite (plain_word name Hname) in Hlab. split; [by exists doc|].
    eexists. split; [reflexivity|]. unfold service_document. rewrite (plain_word name Hname). by split_and!.
  - done.
  - done.
Qed.

(** What the builder leaves: the service and the job, among the documents. *)
Lemma server_built d srv config models job_id event envi rand b :
  let name := "is-" +:+ lower job_id in
  bh_strategy (hardware d) = INFERENCE -> server d = Some srv ->
  (forall labels, info_labels (info d) = Some labels -> "inference-server-name" ∉ dict_keys labels) ->
  server_values_safe srv config event (lower job_id) -> yaml_single_quotable (server_metrics_text srv) = true ->
  yaml_word name = true -> Forall (fun zone => yaml_token zone = true) (dict_values (availability_zones envi)) ->
  create_inference_server_builder read_template load_docs repr_content d config job_id models event envi rand = Ok b ->
  exists k, b_root b = Some k /\
    kpod None (requested_server_pod models (senv_extended_shm (server_env srv)) (bool_decide (is_Some (server_output srv)))) k /\
    serves name (imap tcp_port (senv_ports (server_env srv))) k.
Proof.
  intros name Hi Hs Hlabels Hsafe Hm Hname Hzones. unfold create_inference_server_builder.
  destruct (build _ _ _ _) as [[a|e] b'] eqn:Hbuild; [|done]. cbn [built]. intros [= ->]. revert Hbuild.
  set (b0 := inference_server_builder_init _ _ _ _ _ _ _ _).
  unfold build, bind at 1, get. change (b_root b0) with (@None KRoot). cbv iota.
  unfold bind at 1. destruct (feed_server_values b0) as [[u|e] b1] eqn:Hfeed; [|done].
  assert (Hz : exists zone, choose_availability_zone d envi rand = Ok zone).
  { revert Hfeed. unfold feed_server_values, bind at 1. destruct (feed_benchmark_values b0) as [[u0|e] b00] eqn:E; [|done].
    intros _. exact (feed_zone _ _ _ E). }
  destruct Hz as [zone Hzone]. pose proof (zone_token _ _ _ _ Hzones Hzone) as Ht.
  destruct (server_root d srv config models job_id event envi rand zone Hi Hs Hsafe Hm Hname Hzone Ht)
    as (b1' & b2 & Hfeed' & Hroot & Hpod & Hserves & Hmodels & Hjob).
  fold b0 in Hfeed'. rewrite Hfeed in Hfeed'. injection Hfeed' as -> ->. unfold bind at 1. rewrite Hroot.
  destruct (encoded_same d) as (_ & _ & _ & Hinfo & Hsrv). rewrite Hs in Hsrv.
  destruct (server_encoded_same (encoded d) srv Hsrv) as (Hs2 & Hinfo2 & Henv2 & _ & Hout2). fold name in Hserves, Hjob.
  set (d2 := server_encoded (encoded d) srv) in *. rewrite Hinfo in Hinfo2.
  assert (Hlabels2 : forall labels, info_labels (info d2) = Some labels -> "inference-server-name" ∉ dict_keys labels) by by rewrite Hinfo2.
  assert (Hne : name <> "") by done.
  unfold bind at 1. destruct (for_labels _ b2) as [[u1|e] b3] eqn:Hl; [|done].
  pose proof (labels_same_fields b2) as Hsame. rewrite Hl in Hsame. destruct Hsame as (_ & _ & H3 & H4). cbn [snd] in *.
  apply (labels_keep_pod d2 server_template_pod b2 u1 b3 Hpod) in Hl as Hpod3.
  assert (Hserves3 : bserves d2 name [] b3).
  { pose proof (for_labels_serves d2 name Hlabels2 [] (fun label value => on_root (add_label label (VStr value)))) as H5.
    specialize (H5 ltac:(intros; by apply on_root_serves, add_label_keeps_service) b2 Hserves). by rewrite Hl in H5. }
  unfold bind. destruct (inference_server_update repr_content b3) as [[u2|e] b4] eqn:Hu; [|done]. unfold ret. intros [= _ <-].
  apply (server_edits d2 (encoded_server srv) name Hlabels2 Hne Hs2 repr_content b3 u2 b4) in Hu as [[_ (k & Hk & Hkpod)] [_ (k1 & Hk1 & Hks)]];
    [|by rewrite H4|done|done].
  rewrite Hk in Hk1. injection Hk1 as <-. exists k. split; [done|]. rewrite H3, Hmodels, edited_server_requested, Henv2, Hout2 in Hkpod.
  rewrite Henv2 in Hks. done.
Qed.

(** The variables with the address of the server. *)
Lemma port_vars_absent (base : dict string pyval) ports n :
  (forall s, n <> "INFERENCE_SERVER_PORT_" +:+ s) -> dict_get (dict_update base (server_port_vars ports)) n = dict_get base n.
Proof.
  intros Hn. assert (Hk : n ∉ dict_keys (server_port_vars ports)).
  { unfold dict_keys, server_port_vars. intros ([n' v] & -> & Hin)%list_elem_of_fmap.
    apply list_elem_of_lookup_1 in Hin as (i & Hi). apply list_lookup_imap_Some in Hi as (port & _ & [= -> ->]). by eapply Hn. }
  revert Hk. generalize (server_port_vars ports). intros e. revert base. unfold dict_update.
  induction e as [|[k v] e IH]; intros base; [done|]. cbn [dict_keys fmap list_fmap fst fold_left].
  intros [Hk He]%not_elem_of_cons. rewrite IH by done. by apply dict_get_set_ne.
Qed.

Lemma port_vars_wf ports : dict_wf (server_port_vars ports).
Proof.
  unfold dict_wf, dict_keys, server_port_vars. apply NoDup_fmap_fst.
  - intros k v1 v2 H1 H2. apply list_elem_of_lookup_1 in H1 as (i & Hi). apply list_elem_of_lookup_1 in H2 as (j & Hj).
    apply list_lookup_imap_Some in Hi as (p1 & Hp1 & [= -> ->]). apply list_lookup_imap_Some in Hj as (p2 & Hp2 & [= E ->]).
    apply (inj pretty) in E. assert (i = j) by lia. subst. congruence.
  - apply NoDup_alt. intros i j x Hi Hj. apply list_lookup_imap_Some in Hi as (p1 & _ & ->).
    apply list_lookup_imap_Some in Hj as (p2 & _ & [= E _]). apply (inj pretty) in E. lia.
Qed.

(** The edits of an inference benchmark end with the address of its server. *)
Lemma server_address d srv name P b4 a b :
  bh_strategy (hardware d) = INFERENCE -> server d = Some srv -> ap_wf P -> bpod None d P b4 -> server_named name b4 ->
  strategy_edits d b4 = (Ok a, b) ->
  exists k doc port ports, b_root b = Some k /\ k_root k = Some doc /\ senv_ports (server_env srv) = port :: ports /\
    pod_env doc "benchmark" "INFERENCE_SERVER_HOST" (VStr (name +:+ ".default")) /\
    pod_env doc "benchmark" "INFERENCE_SERVER_PORT" (VInt port).
Proof.
  intros Hi Hs Hwf Hb Hn. unfold strategy_edits. rewrite Hi. unfold bind at 1.
  destruct (on_root (set_service_account _ _) b4) as [[u|e] b5] eqn:E5; [|done].
  pose proof (on_root_named name (set_service_account INFERENCE_SERVER_SERVICE_ACCOUNT None) b4 Hn) as Hn5. rewrite E5 in Hn5. cbn [snd] in Hn5.
  assert (Hb5 : bpod None d P b5) by (by eapply (btriple_root None d P P), E5; [apply set_service_account_keeps|]).
  unfold add_server_env_vars, bind at 1, get. unfold server_of, bind at 1, bind at 1, gets. pose proof Hb5 as [-> (k & Hk & Hkp)].
  rewrite Hs. unfold ret at 1. destruct (senv_ports (server_env srv)) as [|port ports]; [done|]. rewrite Hn5.
  unfold on_root. rewrite Hk. set (vars := dict_update _ _).
  destruct (k_add_env_vars BENCHMARK_CONTAINER vars None k) as [r k'] eqn:Ek. intros [= -> <-].
  destruct (add_env_vars_effect P BENCHMARK_CONTAINER vars k a k' Hwf Hkp) as (doc & Hdoc & Henv).
  - unfold vars. apply dict_update_wf. by apply (bool_decide_unpack _).
  - done.
  - intros E. assert (Hh : dict_get vars "INFERENCE_SERVER_PORT" = Some (VInt port)) by (unfold vars; by rewrite port_vars_absent).
    by rewrite E in Hh.
  - exists k', doc, port, ports. split_and!; [done..| |]; apply Henv; unfold vars; by rewrite port_vars_absent.
Qed.
End ServerBuilder.

(** ** The two builders *)

Section Inference.
Context `{YamlLaws}.
Context (read_template : string -> string) (load_docs : string -> dict string TVar -> Res (list pyval)).
Context (repr_content : DownloadableContent -> string).
Context (Hsingle : single_node_template_file read_template load_docs).
Context (Hserver : inference_server_template_file read_template load_docs).

Lemma dumped b k doc : b_root b = Some k -> k_root k = Some doc ->
  dump_yaml_string yaml_dump_all b = Ok (yaml_dump_all (yaml_docs k)) /\ last (yaml_docs k) = Some doc.
Proof.
  intros Hk Hdoc. split.
  - unfold dump_yaml_string, on_root, to_yaml, get_root, bind, get. by rewrite Hk, Hdoc.
  - unfold yaml_docs. by rewrite Hdoc, !app_assoc, last_snoc.
Qed.

(** C32: the documents of an inference benchmark fit each other.  From the two
    template files, with values that are scalars, the benchmark's job and the
    server's documents agree: the benchmark gets the name of the service and
    the first of the server's ports as the address of its server; the service of
    that name has a port for each port of the server and selects the pods of the
    server's job, unless a label of the descriptor takes the selecting label
    away; and the pod of the server has the containers, mounts and volumes that
    the descriptor asks for, every mount of one of its volumes. *)
Theorem inference_documents_fit descriptor srv config srcs models scripts job_id event envi rand rand' jb sb
    (Hstrategy : bh_strategy (hardware descriptor) = INFERENCE) (Hsrv : server descriptor = Some srv)
    (Hlabels : forall labels, info_labels (info descriptor) = Some labels -> "inference-server-name" ∉ dict_keys labels)
    (Hname : yaml_word ("is-" +:+ lower job_id) = true)
    (Hsafe : single_values_safe descriptor config event (lower job_id) /\ server_values_safe srv config event (lower job_id))
    (Hmetrics : yaml_single_quotable (metrics_text descriptor) = true /\ yaml_single_quotable (server_metrics_text srv) = true)
    (Hzones : Forall (fun zone => yaml_token zone = true) (dict_values (availability_zones envi)))
    (Hjob : create_single_run_builder read_template load_docs repr_content descriptor config srcs scripts job_id event envi rand = Ok jb)
    (Hsb : create_inference_server_builder read_template load_docs repr_content (b_descriptor jb) config job_id models event envi rand' = Ok sb) :
  let name := "is-" +:+ lower job_id in
  let P := requested_server_pod models (senv_extended_shm (server_env srv)) (bool_decide (is_Some (server_output srv))) in
  exists jdocs jdoc sdocs svc sdoc port ports,
    dump_yaml_string yaml_dump_all jb = Ok (yaml_dump_all jdocs) /\ last jdocs = Some jdoc /\
    dump_yaml_string yaml_dump_all sb = Ok (yaml_dump_all sdocs) /\ svc ∈ sdocs /\ last sdocs = Some sdoc /\
    senv_ports (server_env srv) = port :: ports /\
    pod_env jdoc "benchmark" "INFERENCE_SERVER_HOST" (VStr (name +:+ ".default")) /\
    pod_env jdoc "benchmark" "INFERENCE_SERVER_PORT" (VInt port) /\
    lookup_path ["metadata"; "name"] svc = Some (VStr name) /\
    lookup_path ["spec"; "ports"] svc = Some (VList (imap tcp_port (port :: ports))) /\
    lookup_path ["spec"; "selector"; "inference-server-name"] svc = Some (VStr name) /\
    lookup_path ["spec"; "template"; "metadata"; "labels"; "inference-server-name"] sdoc = Some (VStr name) /\
    pod_of None sdoc P /\ mounts_bound P.
Proof.
  intros name P. destruct Hsafe as [Hsafe1 Hsafe2]. destruct Hmetrics as [Hm1 Hm2].
  revert Hjob. unfold create_single_run_builder. destruct (create_scripts scripts) as [bai_scripts|]; [|done].
  assert (Hmeta : distributed_strategy_metadata read_template repr_content (bh_strategy (hardware descriptor)) =
    SingleRunBenchmarkKubernetesObjectBuilder read_template repr_content "job_single_node.yaml") by by rewrite Hstrategy.
  rewrite Hmeta. cbn [res_bind strategy_feed strategy_update strategy_type_init template_name SingleRunBenchmarkKubernetesObjectBuilder].
  destruct (build _ _ _ _) as [[a|e] b2] eqn:Hbuild; [|done]. cbn [built]. intros [= ->].
  destruct (built_update _ _ _ Hsingle _ _ _ _ _ _ _ _ _ _ Hsafe1 Hm1 Hzones Hbuild) as (b3 & u & Hb3 & _ & _ & Hn3 & Hu).
  destruct (encoded_same descriptor) as (Hhw & _ & _ & Hinfo & Hsrv'). rewrite Hsrv in Hsrv'.
  assert (Hs3 : bh_strategy (hardware (encoded descriptor)) = INFERENCE) by by rewrite Hhw.
  assert (Hd : b_descriptor jb = encoded descriptor).
  { destruct (single_run_edits repr_content (encoded descriptor) b3 u jb) as [Hd _]; [by rewrite Hs3|done..]. }
  destruct (server_built read_template load_docs repr_content Hserver (b_descriptor jb) srv config models job_id event envi rand' sb)
    as (sk & Hsk & (sdoc & Hsdoc & Hpod) & (sdoc' & Hsdoc' & Hlab) & (svc & Hsvc & Hsn & Hsel & Hports));
    [by rewrite Hd|by rewrite Hd|by rewrite Hd, Hinfo|done..|].
  rewrite Hsdoc in Hsdoc'. injection Hsdoc' as <-.
  destruct (single_run_common repr_content (encoded descriptor) b3
    (fun b => exists k doc port ports, b_root b = Some k /\ k_root k = Some doc /\ senv_ports (server_env srv) = port :: ports /\
      pod_env doc "benchmark" "INFERENCE_SERVER_HOST" (VStr (name +:+ ".default")) /\
      pod_env doc "benchmark" "INFERENCE_SERVER_PORT" (VInt port))) with (a := u) (b' := jb)
    as (jk & jdoc & port & ports & Hjk & Hjdoc & Hp & Hhost & Hport); [by rewrite Hs3|done| |done|].
  { intros b4 Hb4 Hn4 a4 b5 Hrun. rewrite Hn3 in Hn4. by eapply server_address, Hrun; [..|apply common_edited_wf|exact Hb4|]. }
  destruct (dumped jb jk jdoc Hjk Hjdoc) as [Hd1 Hl1]. destruct (dumped sb sk sdoc Hsk Hsdoc) as [Hd2 Hl2].
  exists (yaml_docs jk), jdoc, (yaml_docs sk), svc, sdoc, port, ports. rewrite Hp in Hports.
  split_and!; try done; [unfold yaml_docs; rewrite Hsvc; set_solver|apply server_mounts_bound].
Qed.
End Inference.

Module Witness.
Import BaiKnowledge.Witness CronDocument.Witness SingleNode.Witness.

(** The parses of the two template files. *)
Definition load3 (template : string) (vars : dict string TVar) : Res (list pyval) :=
  if String.eqb template "job_single_node.yaml" then single_docs vars else
  match vars with
  | [("descriptor", TDescriptor d); ("config", TConfig c); ("event", TEvent e); ("service_name", TStr sn); ("job_id", TStr jid);
     ("inference_server_job_id", TStr isj); ("availability_zone", TStr az); _; ("server_metrics", TStr m)] =>
      match server d with
      | Some srv => Ok [service_document plain1 e sn isj; server_job_document plain1 srv c e sn jid isj az m]
      | None => Raise (AttributeError "")
      end
  | _ => Raise (KeyError "")
  end.

Lemma load3_single : single_node_template_file (fun n => n) load3.
Proof. intros ?. intros. reflexivity. Qed.

Lemma load3_server : inference_server_template_file (fun n => n) load3.
Proof. intros d srv config event sn jid isj az m sm Hs. intros. unfold load3. cbn [String.eqb Ascii.eqb]. rewrite Hs. reflexivity. Qed.

Definition server3 : ServerDescriptor :=
  mkServer (mkHardware "c5.large" 0 None None)
    (mkServerEnv "jlcont/server:1" [8080; 8081] "serve --fast" false true [("B", "2")] None None)
    None (Some (mkOutput [mkMetric "latency" "ms" "latency=(\d+)"])).

(** A benchmark of a server with two ports, which loads the models of two
    paths. *)
Definition descriptor3 : BenchmarkDescriptor :=
  mkDescriptor "0.1.0" (mkInfo "d" None (Some EE_DEFAULT) (Some "single_run") (Some [("team", "a-1")]))
    (mkBenchHardware (mkHardware "p3.8xlarge" 4 None None) INFERENCE None None)
    (mkEnvDesc "jlcont/benchmarking:270219" false true [("A", "1")]) None
    (Some (mkML NONE (Some "python3 client.py") None None None)) None None (Some server3).

Abbreviation job3 :=
  (create_single_run_builder (fun n => n) load3 (fun _ => "") descriptor3 config1 [] [] "b-ACTION" event1 zones1 0).
Definition builder3 : Bld :=
  match job3 with Ok b => b | Raise _ => benchmark_builder_init (fun n => n) descriptor3 config1 [] [] "" "" event1 zones1 0 end.
Abbreviation srv3 :=
  (create_inference_server_builder (fun n => n) load3 (fun _ => "") (b_descriptor builder3) config1 "b-ACTION" srcs0 event1 zones1 0).
Definition server_builder3 : Bld := match srv3 with Ok b => b | Raise _ => builder3 end.

Lemma job3_ok : job3 = Ok builder3.
Proof. assert (H : is_ok job3 = true) by (vm_compute; reflexivity). unfold builder3. by destruct job3. Qed.

Lemma srv3_ok : srv3 = Ok server_builder3.
Proof. assert (H : is_ok srv3 = true) by (vm_compute; reflexivity). unfold server_builder3. by destruct srv3. Qed.

Lemma inference_documents_fit_witness :
  exists jdocs jdoc sdocs svc sdoc,
    dump_yaml_string yaml_dump_all builder3 = Ok (yaml_dump_all jdocs) /\ last jdocs = Some jdoc /\
    dump_yaml_string yaml_dump_all server_builder3 = Ok (yaml_dump_all sdocs) /\ svc ∈ sdocs /\ last sdocs = Some sdoc /\
    pod_env jdoc "benchmark" "INFERENCE_SERVER_HOST" (VStr "is-b-action.default") /\
    pod_env jdoc "benchmark" "INFERENCE_SERVER_PORT" (VInt 8080) /\
    lookup_path ["metadata"; "name"] svc = Some (VStr "is-b-action") /\
    lookup_path ["spec"; "ports"] svc = Some (VList [tcp_port 0 8080; tcp_port 1 8081]) /\
    pod_of None sdoc (mkAPod
      [("inference-server", ["dshm"; "datasets-volume"; "datasets-volume"]); ("client-lock", []);
       ("metrics-pusher", ["benchmark-ai"]); ("metrics-extractor", ["benchmark-ai"])]
      [("data-puller", ["datasets-volume"])] ["benchmark-ai"; "datasets-volume"; "dshm"]).
Proof.
  destruct (inference_documents_fit (fun n => n) load3 (fun _ => "") load3_single load3_server
    descriptor3 server3 config1 [] srcs0 [] "b-ACTION" event1 zones1 0 0 builder3 server_builder3)
    as (jdocs & jdoc & sdocs & svc & sdoc & port & ports & H1 & H2 & H3 & H4 & H5 & Hp & Hh & Hport & Hn & Hps & _ & _ & Hpod & _).
  - reflexivity.
  - reflexivity.
  - intros labels [= <-]. apply (bool_decide_unpack _). vm_compute. exact I.
  - reflexivity.
  - split; split_and!; reflexivity.
  - split; vm_compute; reflexivity.
  - repeat constructor.
  - exact job3_ok.
  - exact srv3_ok.
  - injection Hp as <- <-. exists jdocs, jdoc, sdocs, svc, sdoc. split_and!; assumption.
Defined.
End Witness.
