(* ===== verification/MetricsExtractor.v ===== *)
(** * The metrics extractor (metrics-extractor/src/anubis_metrics_extractor/log_listener.py)

    The sidecar that reads the log of the benchmark's container, matches the
    patterns of the descriptor and emits every match through the client
    library.  The patterns travel in an environment variable that the transpiler
    writes (BaiKnowledge.v); [base64.b64decode] undoes its [b64encode]. *)

From S2P Require Import Prelude PyStr PyLib Json Descriptor BaiKnowledge.

#[local] Arguments String.append !_ _ /.

(** ** [base64.b64decode] *)

Definition b64_val (c : ascii) : option Z :=
  let n := byte c in
  if (65 <=? n) && (n <=? 90) then Some (n - 65)
  else if (97 <=? n) && (n <=? 122) then Some (n - 71)
  else if (48 <=? n) && (n <=? 57) then Some (n + 4)
  else if n =? 43 then Some 62
  else if n =? 47 then Some 63
  else None.

(** The next character that is of the alphabet or a pad. *)
Fixpoint next_valid (s : string) : option ascii :=
  match s with
  | "" => None
  | String c s' => if bool_decide (is_Some (b64_val c)) || Ascii.eqb c "=" then Some c else next_valid s'
  end.

(** The six-bit values of a text, and whether a pad ended it.  Characters
    outside the alphabet are skipped, and so is a pad that comes too early. *)
Fixpoint b64_scan (s : string) (quad_pos : nat) : list Z * bool :=
  match s with
  | "" => ([], false)
  | String c s' =>
      if Ascii.eqb c "=" then
        if (quad_pos <? 2)%nat || ((quad_pos =? 2)%nat && negb (bool_decide (next_valid s' = Some "="%char)))
        then b64_scan s' quad_pos
        else ([], true)
      else
        match b64_val c with
        | Some v => let (l, p) := b64_scan s' ((quad_pos + 1) mod 4) in (v :: l, p)
        | None => b64_scan s' quad_pos
        end
  end.

Fixpoint b64_bytes (l : list Z) : string :=
  match l with
  | a :: b :: c :: d :: l' =>
      let n := ((a * 64 + b) * 64 + c) * 64 + d in
      String (chr (n / 65536)) (String (chr (n / 256 mod 256)) (String (chr (n mod 256)) (b64_bytes l')))
  | [a; b; c] =>
      let n := (a * 64 + b) * 64 + c in String (chr (n / 1024)) (String (chr (n / 4 mod 256)) "")
  | [a; b] => String (chr ((a * 64 + b) / 16)) ""
  | _ => ""
  end.

Definition b64decode (s : string) : Res string :=
  let (l, padded) := b64_scan s 0 in
  if padded || (length l mod 4 =? 0)%nat then Ok (b64_bytes l) else Raise (ValueError "Incorrect padding").

(** ** The re module

    Compiled patterns; [findall] gives the matches of a text, strings or, for a
    pattern with several groups, tuples of strings. *)
Class Re `{PyFloat} : Type := {
  pattern : Type;
  re_compile : string -> Res pattern;
  findall : pattern -> string -> list jval
}.

(** What is found in a text consists of texts. *)
Definition finds_text `{Re} : Prop :=
  forall p s, utf8_valid s = true -> Forall (fun m => jwf m = true) (findall p s).

(** ** The metrics to look for *)

(** The namedtuple; its fields are whatever the JSON text holds. *)
Record Metric `{PyFloat} := mkM { name : jval; pattern_text : jval; units : jval }.

Definition metric_fields : list string := ["name"; "pattern"; "units"].

(** [Metric( **m_object)]. *)
Definition Metric_of `{PyFloat} (v : jval) : Res Metric :=
  match v with
  | JObj d =>
      if forallb (fun k => bool_decide (k ∈ metric_fields)) d.*1 then
        match dict_get d "name", dict_get d "pattern", dict_get d "units" with
        | Some n, Some p, Some u => Ok (mkM _ n p u)
        | _, _, _ => Raise (TypeError "__new__() missing a required argument")
        end
      else Raise (TypeError "__new__() got an unexpected keyword argument")
  | _ => Raise (TypeError "argument after ** must be a mapping")
  end.

(** [EnvironmentReader.get_metrics]. *)
Definition get_metrics `{PyFloat} (environment : string) : Res (list Metric) :=
  if String.eqb environment "" then Ok []
  else
    v <~ json_loads environment ;;
    match v with
    | JList l => res_map Metric_of l
    | _ => m <~ Metric_of v ;; Ok [m]
    end.

(** The key of a metric among [self.metrics]: its three fields, compared by
    their text; numbers of different types are told apart. *)
Definition metric_key `{PyFloat} (m : Metric) : string * string * string :=
  (jdumps (name m), jdumps (pattern_text m), jdumps (units m)).

Definition hashable `{PyFloat} (v : jval) : bool :=
  match v with JList _ | JObj _ => false | _ => true end.

(** A scalar as a key of a JSON object. *)
Definition json_key `{PyFloat} (v : jval) : string :=
  match v with JStr s => s | _ => jdumps v end.

Record LogExtractorOptions `{PyFloat} := mkOptions {
  pod_name : string;
  pod_namespace : string;
  metrics : list Metric;
  pod_container : option string
}.

Definition MAX_ATTEMPTS : nat := 3.

Section Extractor.
Context `{Re} {X A : Type}.
(** [read_namespaced_pod_log(...).stream()]: the pieces of the log, in bytes. *)
Context (read_namespaced_pod_log : string -> string -> option string -> M X (list string)).
Context (emit : jval -> M X A).

(** [self.metrics], with the metric itself beside its pattern. *)
Definition Patterns : Type := dict (string * string * string) (Metric * pattern).

(** [add_metric]. *)
Definition add_metric (ms : Patterns) (m : Metric) : Res Patterns :=
  match pattern_text m with
  | JStr text =>
      bytes <~ b64decode text ;;
      source <~ decode_utf8 bytes ;;
      p <~ re_compile source ;;
      if hashable (name m) && hashable (units m)
      then Ok (dict_set ms (metric_key m) (m, p))
      else Raise (TypeError "unhashable type")
  | _ => Raise (TypeError "argument should be a bytes-like object or ASCII string")
  end.

(** [LogExtractor.__init__]. *)
Fixpoint add_metrics (ms : Patterns) (l : list Metric) : Res Patterns :=
  match l with
  | [] => Ok ms
  | m :: l' => ms' <~ add_metric ms m ;; add_metrics ms' l'
  end.

Definition LogExtractor_init (options : LogExtractorOptions) : Res Patterns := add_metrics [] (metrics options).

(** [_kubectl_logs]: the container is named when the option is given. *)
Definition kubectl_logs (options : LogExtractorOptions) : M X (list string) :=
  read_namespaced_pod_log (pod_name options) (pod_namespace options)
    (if str_truthy (pod_container options) then pod_container options else None).

(** [_get_log_stream]. *)
Fixpoint log_attempts (attempts : nat) (options : LogExtractorOptions) : M X (list string) :=
  match attempts with
  | O => raise (RuntimeError ("Could not acquire logs for pod " +:+ pod_name options))
  | S n =>
      stream <- try_except (l <- kubectl_logs options ;; ret (Some l))
        (fun err => match err with ApiException _ => ret None | _ => raise err end) ;;
      match stream with
      | Some l => ret l
      | None => log_attempts n options
      end
  end.

Definition get_log_stream (options : LogExtractorOptions) : M X (list string) := log_attempts MAX_ATTEMPTS options.

(** The body of the loop over the log. *)
Definition match_line (ms : Patterns) (line : string) : M X unit :=
  text <- lift (decode_utf8 line) ;;
  for_each (fun mp : Metric * pattern =>
    for_each (fun m => emit (JObj [(json_key (name mp.1), m)]) ;; ret tt) (findall mp.2 text))
    (dict_values ms).

(** [listen]. *)
Definition listen (options : LogExtractorOptions) (ms : Patterns) : M X unit :=
  match ms with
  | [] => ret tt
  | _ =>
      stream <- get_log_stream options ;;
      for_each (match_line ms) stream
  end.

(** [main] after the parser and the loading of the cluster's configuration. *)
Definition extractor_main (pod namespace : string) (container : option string) (environment : string) : M X unit :=
  ms <- lift (get_metrics environment) ;;
  let options := mkOptions _ pod namespace ms container in
  extractor <- lift (LogExtractor_init options) ;;
  listen options extractor.

(** Without metrics the log is not even asked for. *)
Lemma extractor_main_idle pod namespace container s :
  extractor_main pod namespace container "" s = (Ok tt, s).
Proof. reflexivity. Qed.

(** What a line makes the extractor emit, in order. *)
Definition emissions (ms : Patterns) (line : string) : list jval :=
  concat (map (fun mp : Metric * pattern => map (fun m => JObj [(json_key (name mp.1), m)]) (findall mp.2 line))
            (dict_values ms)).

Lemma for_each_map {B C} (f : B -> M X unit) (g : C -> B) l s :
  for_each f (map g l) s = for_each (fun x => f (g x)) l s.
Proof. revert s. induction l as [|x l IH]; intros s; [done|]. cbn. unfold bind. destruct (f (g x) s) as [[[]|e] s']; auto. Qed.

Lemma for_each_concat {B C} (f : B -> M X unit) (g : C -> list B) l s :
  for_each f (concat (map g l)) s = for_each (fun x => for_each f (g x)) l s.
Proof.
  revert s. induction l as [|x l IH]; intros s; [done|]. cbn [map concat for_each].
  rewrite for_each_app. unfold bind. destruct (for_each f (g x) s) as [[[]|e] s']; auto.
Qed.

Lemma for_each_ext {B} (f g : B -> M X unit) l s :
  (forall x s, x ∈ l -> f x s = g x s) -> for_each f l s = for_each g l s.
Proof.
  revert s. induction l as [|x l IH]; intros s Hfg; [done|]. cbn. unfold bind.
  rewrite Hfg by set_solver. destruct (g x s) as [[[]|e] s']; [|done]. apply IH. set_solver.
Qed.

Lemma match_line_run ms line s :
  utf8_valid line = true ->
  match_line ms line s = for_each (fun m => emit m ;; ret tt) (emissions ms line) s.
Proof.
  intros Hl. unfold match_line, decode_utf8, bind at 1, lift. rewrite Hl. unfold emissions.
  rewrite for_each_concat. apply for_each_ext. intros mp s' _. by rewrite for_each_map.
Qed.

Lemma match_lines_run ms stream s :
  Forall (fun line => utf8_valid line = true) stream ->
  for_each (match_line ms) stream s =
  for_each (fun m => emit m ;; ret tt) (concat (map (emissions ms) stream)) s.
Proof.
  intros Hs. rewrite for_each_concat. apply for_each_ext. intros line s' Hin.
  apply match_line_run. rewrite Forall_forall in Hs. by apply Hs.
Qed.

(** Every emission is a dictionary with one metric, of texts. *)
Lemma emissions_wf ms line :
  finds_text -> utf8_valid line = true -> Forall (fun mp : Metric * pattern => utf8_valid (json_key (name mp.1)) = true) (dict_values ms) ->
  Forall (fun m => jwf m = true) (emissions ms line).
Proof.
  intros Hf Hl Hn. unfold emissions. apply Forall_concat, Forall_fmap. eapply Forall_impl; [exact Hn|].
  intros [m p] Hname. cbn. apply Forall_fmap. eapply Forall_impl; [apply (Hf p line Hl)|].
  intros v Hv. cbn in *. by rewrite Hname, Hv.
Qed.
End Extractor.

(** ** Decoding base64 *)

Lemma b64_val_char n : 0 <= n < 64 -> b64_val (b64_char n) = Some n /\ Ascii.eqb (b64_char n) "=" = false.
Proof.
  intros H. assert (Hn : (Z.to_nat n < 64)%nat) by lia. replace n with (Z.of_nat (Z.to_nat n)) by lia.
  generalize dependent (Z.to_nat n). clear n H. intros k Hk.
  do 64 (destruct k as [|k]; [split; reflexivity|]). lia.
Qed.

Lemma b64_scan_char n q r :
  0 <= n < 64 ->
  b64_scan (String (b64_char n) r) q = (let (l, p) := b64_scan r ((q + 1) mod 4) in (n :: l, p)).
Proof. intros H. destruct (b64_val_char n H) as [H1 H2]. cbn [b64_scan]. by rewrite H2, H1. Qed.

Lemma sextet n k : 0 <= n -> 0 <= k -> Z.land (Z.shiftr n k) 63 = n / 2 ^ k mod 64.
Proof. intros Hn Hk. rewrite Z.shiftr_div_pow2 by done. by rewrite (Z.land_ones _ 6). Qed.

Lemma div_bounds a b m : 0 < b -> 0 <= a < b * m -> 0 <= a / b < m.
Proof. intros Hb Ha. split; [apply Z.div_pos; lia|apply Z.div_lt_upper_bound; lia]. Qed.

(** A division, as quotient and remainder for [lia]. *)
Ltac quot a b q :=
  let r := fresh "r" in
  pose proof (Z.div_mod a b ltac:(lia)); pose proof (Z.mod_pos_bound a b ltac:(lia));
  set (q := a / b) in *; set (r := a mod b) in *; clearbody q r.

Lemma b64_three a b c :
  let n := (byte a * 256 + byte b) * 256 + byte c in
  let v1 := Z.shiftr n 18 in let v2 := Z.land (Z.shiftr n 12) 63 in
  let v3 := Z.land (Z.shiftr n 6) 63 in let v4 := Z.land n 63 in
  (0 <= v1 < 64 /\ 0 <= v2 < 64 /\ 0 <= v3 < 64 /\ 0 <= v4 < 64) /\
  ((v1 * 64 + v2) * 64 + v3) * 64 + v4 = n.
Proof.
  cbv zeta. pose proof (byte_bound a). pose proof (byte_bound b). pose proof (byte_bound c).
  set (n := (byte a * 256 + byte b) * 256 + byte c). assert (Hn : 0 <= n < 16777216) by lia. clearbody n.
  rewrite !sextet, (Z.land_ones _ 6), Z.shiftr_div_pow2 by lia.
  change (2 ^ 18) with (64 * 64 * 64). change (2 ^ 12) with (64 * 64). change (2 ^ 6) with 64.
  rewrite <- !Z.div_div by lia. quot n 64 q. quot q 64 q0. quot q0 64 q1. lia.
Qed.

Lemma b64_two a b :
  let n := byte a * 256 + byte b in
  let v1 := Z.shiftr n 10 in let v2 := Z.land (Z.shiftr n 4) 63 in let v3 := Z.shiftl (Z.land n 15) 2 in
  (0 <= v1 < 64 /\ 0 <= v2 < 64 /\ 0 <= v3 < 64) /\ (v1 * 64 + v2) * 64 + v3 = n * 4.
Proof.
  cbv zeta. pose proof (byte_bound a). pose proof (byte_bound b).
  set (n := byte a * 256 + byte b). assert (Hn : 0 <= n < 65536) by lia. clearbody n.
  rewrite sextet, (Z.land_ones _ 4), Z.shiftr_div_pow2, Z.shiftl_mul_pow2 by lia.
  change (2 ^ 10) with (16 * 64). change (2 ^ 4) with 16. change (2 ^ 2) with 4.
  rewrite <- !Z.div_div by lia. quot n 16 q. quot q 64 q0. lia.
Qed.

Lemma b64_one a :
  let n := byte a in
  let v1 := Z.shiftr n 2 in let v2 := Z.shiftl (Z.land n 3) 4 in
  (0 <= v1 < 64 /\ 0 <= v2 < 64) /\ v1 * 64 + v2 = n * 16.
Proof.
  cbv zeta. pose proof (byte_bound a). set (n := byte a) in *. clearbody n.
  rewrite (Z.land_ones _ 2), Z.shiftr_div_pow2, Z.shiftl_mul_pow2 by lia.
  change (2 ^ 4) with 16. change (2 ^ 2) with 4. quot n 4 q. lia.
Qed.

Lemma b64_scan_encode s :
  exists l p, b64_scan (b64encode s) 0 = (l, p) /\ b64_bytes l = s /\ (p = true \/ (length l mod 4 = 0)%nat).
Proof.
  remember (String.length s) as k eqn:Hk. revert s Hk.
  induction (lt_wf k) as [k _ IH]. intros s ->.
  destruct s as [|a [|b [|c s]]].
  - exists [], false. split_and!; [done|done|by right].
  - cbn [b64encode]. destruct (b64_one a) as [[H1 H2] E]. set (v1 := Z.shiftr _ _) in *. set (v2 := Z.shiftl _ _) in *.
    clearbody v1 v2. exists [v1; v2], true. rewrite !b64_scan_char by lia.
    split_and!; [reflexivity| |by left]. cbn [b64_bytes]. rewrite E, Z.div_mul by lia. by rewrite chr_byte.
  - cbn [b64encode]. cbv zeta. destruct (b64_two a b) as [(H1 & H2 & H3) E].
    set (v1 := Z.shiftr _ 10) in *. set (v2 := Z.land (Z.shiftr _ _) _) in *. set (v3 := Z.shiftl _ _) in *.
    clearbody v1 v2 v3. exists [v1; v2; v3], true. rewrite !b64_scan_char by lia.
    split_and!; [reflexivity| |by left]. cbn [b64_bytes]. rewrite E.
    pose proof (byte_bound a). pose proof (byte_bound b).
    rewrite (chr_of_byte ((byte a * 256 + byte b) * 4 / 1024) a)
      by (symmetry; apply Z.div_unique with (byte b * 4); lia).
    by rewrite Z.div_mul, (chr_of_byte _ b) by (lia || (symmetry; apply Z.mod_unique with (byte a); lia)).
  - destruct (IH (String.length s) ltac:(simpl; lia) s eq_refl) as (l & p & Hl & Hb & Hp).
    cbn [b64encode]. cbv zeta. destruct (b64_three a b c) as [(H1 & H2 & H3 & H4) E].
    set (v1 := Z.shiftr _ 18) in *. set (v2 := Z.land (Z.shiftr _ 12) _) in *.
    set (v3 := Z.land (Z.shiftr _ 6) _) in *. set (v4 := Z.land ((byte a * 256 + byte b) * 256 + byte c) 63) in *. clearbody v1 v2 v3 v4.
    exists (v1 :: v2 :: v3 :: v4 :: l), p. rewrite !b64_scan_char by lia. change (((((0 + 1) mod 4 + 1) mod 4 + 1) mod 4 + 1) mod 4)%nat with 0%nat.
    split_and!; [by rewrite Hl| |destruct Hp as [-> | Hp]; [by left|right]].
    + cbn [b64_bytes]. rewrite E, Hb. pose proof (byte_bound a). pose proof (byte_bound b). pose proof (byte_bound c).
      set (n := (byte a * 256 + byte b) * 256 + byte c).
      rewrite (chr_of_byte (n / 65536) a) by (symmetry; apply Z.div_unique with (byte b * 256 + byte c); lia).
      replace (n / 256) with (byte a * 256 + byte b) by (apply Z.div_unique with (byte c); lia).
      rewrite (chr_of_byte _ b) by (symmetry; apply Z.mod_unique with (byte a); lia).
      by rewrite (chr_of_byte _ c) by (symmetry; apply Z.mod_unique with (byte a * 256 + byte b); lia).
    + cbn [length]. change (S (S (S (S (length l))))) with (1 * 4 + length l)%nat.
      by rewrite Nat.add_comm, Nat.Div0.mod_add.
Qed.

Lemma b64decode_encode s : b64decode (b64encode s) = Ok s.
Proof.
  destruct (b64_scan_encode s) as (l & p & Hl & Hb & Hp). unfold b64decode. rewrite Hl, Hb.
  destruct Hp as [-> | Hp]; [done|]. rewrite Hp. by rewrite orb_true_r.
Qed.

(** ** From the descriptor to the extractor *)

Lemma b64_char_ascii n : (byte (b64_char n) <? 128) = true.
Proof.
  unfold b64_char. destruct (Z.to_nat n) as [|k]; [reflexivity|].
  do 63 (destruct k as [|k]; [reflexivity|]). by destruct k.
Qed.

Lemma b64encode_ascii s : str_forall (fun c => byte c <? 128) (b64encode s) = true.
Proof.
  remember (String.length s) as k eqn:Hk. revert s Hk.
  induction (lt_wf k) as [k _ IH]. intros s ->.
  destruct s as [|a [|b [|c s]]]; cbn [b64encode]; cbv zeta; cbn [str_forall]; rewrite ?b64_char_ascii; try done.
  apply (IH (String.length s)); simpl; done || lia.
Qed.

(** A metric of the descriptor as the extractor sees it. *)
Definition env_metric `{PyFloat} (m : MetricDescriptor) : Metric :=
  mkM _ (JStr (metric_name m)) (JStr (b64encode (metric_pattern m))) (JStr (metric_units m)).

(** The texts of a metric are texts. *)
Definition metric_texts (m : MetricDescriptor) : bool :=
  utf8_valid (metric_name m) && utf8_valid (metric_units m) && utf8_valid (metric_pattern m).

Section FromDescriptor.
Context `{Re}.

Definition metric_json (m : MetricDescriptor) : jval :=
  JObj [("name", JStr (metric_name m)); ("units", JStr (metric_units m)); ("pattern", JStr (b64encode (metric_pattern m)))].

Lemma dump_metrics_json o :
  dump_metrics (encode_output o) = jdumps (JList (map metric_json (output_metrics o))).
Proof.
  unfold dump_metrics. rewrite json_dumps_jval. cbn [encode_output output_metrics jval_of_pyval].
  by rewrite !map_map.
Qed.

Lemma metric_json_wf m : metric_texts m = true -> jwf (metric_json m) = true.
Proof.
  unfold metric_texts. rewrite !andb_true_iff. intros [[H1 H2] _]. cbn [metric_json jwf forallb fst snd].
  rewrite H1, H2, (ascii_utf8 _ (b64encode_ascii _)). reflexivity.
Qed.

Lemma add_metrics_descriptor ms l :
  Forall (fun m => metric_texts m = true) l ->
  add_metrics ms (map env_metric l) =
  (ps <~ res_map (fun m => re_compile (metric_pattern m)) l ;;
   Ok (dict_update ms (zip_with (fun m p => (metric_key (env_metric m), (env_metric m, p))) l ps))).
Proof.
  intros Hl. revert ms. induction Hl as [|m l Hm Hl IH]; intros ms; [done|].
  cbn [map add_metrics res_map]. unfold add_metric. cbn [env_metric pattern_text name units hashable].
  rewrite b64decode_encode. cbn [res_bind]. unfold decode_utf8.
  unfold metric_texts in Hm. rewrite !andb_true_iff in Hm. destruct Hm as [_ ->]. cbn [res_bind].
  destruct (re_compile (metric_pattern m)) as [p|e]; [|done]. cbn [res_bind andb].
  rewrite IH. by destruct (res_map _ l).
Qed.

(** The extractor gets the metrics of the descriptor: the variable that the
    transpiler writes is read back as the same metrics in the same order, and
    the extractor compiles exactly the patterns of the descriptor, each under
    its own metric. *)
Theorem extractor_reads_descriptor o pod namespace container
    (Ho : Forall (fun m => metric_texts m = true) (output_metrics o)) :
  get_metrics (dump_metrics (encode_output o)) = Ok (map env_metric (output_metrics o)) /\
  LogExtractor_init (mkOptions _ pod namespace (map env_metric (output_metrics o)) container) =
  (ps <~ res_map (fun m => re_compile (metric_pattern m)) (output_metrics o) ;;
   Ok (dict_update [] (zip_with (fun m p => (metric_key (env_metric m), (env_metric m, p))) (output_metrics o) ps))).
Proof.
  split; [|by apply add_metrics_descriptor].
  unfold get_metrics. rewrite dump_metrics_json, loads_dumps.
  - replace (String.eqb _ "") with false by reflexivity. cbn [res_bind].
    induction (output_metrics o) as [|m l IH]; [done|]. cbn [map res_map].
    replace (Metric_of (metric_json m)) with (Ok (env_metric m)) by reflexivity. cbn [res_bind].
    apply Forall_cons in Ho as [_ Ho]. by rewrite IH.
  - cbn [jwf]. apply forallb_forall. intros v Hv. apply in_map_iff in Hv as (m & <- & Hm).
    apply metric_json_wf. rewrite Forall_forall in Ho. apply Ho. by apply list_elem_of_In.
Qed.
End FromDescriptor.

Module Witness.
#[local] Existing Instance literal_floats.

(** A regular expression module for ASCII literals: each occurrence is a
    match. *)
Fixpoint occurrences (n : nat) (p s : string) : list jval :=
  match n with
  | O => []
  | S n' =>
      match s with
      | "" => []
      | String _ s' => if startswith p s then JStr p :: occurrences n' p (str_drop (String.length p) s)
                       else occurrences n' p s'
      end
  end.

Definition literal_re : Re := {|
  pattern := string;
  re_compile p := if String.eqb p "(" then Raise (ValueError "missing )") else Ok p;
  findall p s :=
    if String.eqb p "" || negb (str_forall (fun c => byte c <? 128) p) then []
    else occurrences (S (String.length s)) p s
|}.
#[local] Existing Instance literal_re.

Lemma literal_re_text : finds_text.
Proof.
  intros p s _. cbn [findall literal_re]. destruct (_ || _) eqn:E; [constructor|].
  apply orb_false_iff in E as [_ E]. apply negb_false_iff, ascii_utf8 in E.
  generalize (S (String.length s)). intros n. revert s. induction n as [|n IH]; intros s; [constructor|].
  cbn [occurrences]. destruct s as [|c s]; [constructor|]. destruct (startswith p (String c s)); [|apply IH].
  constructor; [exact E|apply IH].
Qed.

Definition output0 : OutputDescriptor := mkOutput [mkMetric "accuracy" "ratio" "acc=1"; mkMetric "loss" "" "loss"].

Lemma extractor_reads_descriptor_witness :
  get_metrics (dump_metrics (encode_output output0)) = Ok (map env_metric (output_metrics output0)) /\
  LogExtractor_init (mkOptions _ "pod" "default" (map env_metric (output_metrics output0)) (Some "benchmark")) =
  (ps <~ res_map (fun m => re_compile (metric_pattern m)) (output_metrics output0) ;;
   Ok (dict_update [] (zip_with (fun m p => (metric_key (env_metric m), (env_metric m, p))) (output_metrics output0) ps))).
Proof. apply extractor_reads_descriptor. repeat constructor. Defined.
End Witness.
