(* ===== verification/MetricsPusher.v ===== *)
(** * The metrics pusher (metrics-pusher/src/bai_metrics_pusher)

    The sidecar at the other end of the FIFO: it reads lines of JSON and hands
    them to a backend (loop.py), which sends them to Kafka, to Elasticsearch or
    to the log (backends/); its configuration comes from environment variables
    (args.py), and a thread watches the benchmark's container and sends SIGTERM
    when it ends (kubernetes_pod_watcher.py).  Sidecars.v adds its command
    line, and MetricsFlow.v composes it with the other parts of a metric's way. *)

From Stdlib Require Import SpecFloat.
From S2P Require Import Prelude PyStr PyLib Json ClientLib MetricsExtractor.

#[local] Arguments String.append !_ _ /.

(** ** Backends *)

Record Backend `{PyFloat} (X : Type) := mkBackend { emit : jval -> M X unit; close : M X unit }.
Arguments mkBackend {_ X}.
Arguments emit {_ X}.
Arguments close {_ X}.

Record KafkaExporterMetric `{PyFloat} := mkExporterMetric {
  kem_name : string;
  kem_value : jval;
  kem_timestamp : option Z;
  kem_labels : dict string string
}.

(** The Kafka producer, the Elasticsearch client, the clock and the logger. *)
Class PusherWorld `{PyFloat} (X : Type) : Type := {
  new_producer : list string -> M X unit;
  producer_send : string -> KafkaExporterMetric -> option string -> M X unit;
  producer_close : M X unit;
  utcnow_timestamp : M X Z;
  utcnow_isoformat : M X string;
  es_index : string -> M X unit;
  log_info : string -> M X unit
}.

Section Backends.
Context `{PusherWorld X}.

Definition jstrs (d : dict string string) : list (string * jval) := map (fun kv => (kv.1, JStr kv.2)) d.

(** [LoggingBackend.emit]: only a dictionary has string keys to assign. *)
Definition logging_emit (labels : dict string string) (metrics : jval) : M X unit :=
  match metrics with
  | JObj d => log_info (jdumps (JObj (dict_set d "labels" (JObj (jstrs labels)))))
  | _ => raise (TypeError "object does not support item assignment")
  end.

Definition LoggingBackend (labels : dict string string) : Backend X := mkBackend (logging_emit labels) (ret tt).

(** [KafkaBackend.__init__] sets the labels; [emit] sends one record for each
    metric, with one time for all. *)
Definition kafka_labels (action_id client_id : string) (labels : dict string string) : dict string string :=
  dict_update [("action-id", action_id); ("client-id", client_id)] labels.

Definition kafka_emit (labels : dict string string) (topic : string) (key : option string) (metrics : jval) : M X unit :=
  now <- utcnow_timestamp ;;
  match metrics with
  | JObj d =>
      for_each (fun kv : string * jval =>
        producer_send topic (mkExporterMetric _ kv.1 kv.2 (Some (now * 1000)) labels) key) d
  | _ => raise (AttributeError "object has no attribute 'items'")
  end.

Definition KafkaBackend (action_id client_id : string) (labels : dict string string) (topic : string)
    (key : option string) : Backend X :=
  mkBackend (kafka_emit (kafka_labels action_id client_id labels) topic key) producer_close.

(** [ElasticsearchBackend.emit]: the document, in the order of its display. *)
Definition es_document (action_id client_id : string) (labels : dict string string) (timestamp : string)
    (metrics : jval) : jval :=
  JObj (dict_update []
          ([("action-id", JStr action_id); ("client-id", JStr client_id)] ++ jstrs labels ++
           [("timestamp", JStr timestamp); ("metrics", metrics);
            ("tracing", JObj [("service", JStr "metrics-pusher")])])%list).

Definition es_emit (action_id client_id : string) (labels : dict string string) (metrics : jval) : M X unit :=
  timestamp <- utcnow_isoformat ;;
  es_index (jdumps (es_document action_id client_id labels timestamp metrics)).

Definition ElasticsearchBackend (action_id client_id : string) (labels : dict string string) : Backend X :=
  mkBackend (es_emit action_id client_id labels) (ret tt).
End Backends.

(** ** The configuration (args.py) *)

(** The annotations of the backends' constructors. *)
Inductive ParamType : Set := TStrP | TIntP | TListStr | TListInt | TDictStr.

(** [inspect.signature] of the backend classes. *)
Definition signatures : dict string (dict string ParamType) :=
  [("stdout", [("labels", TDictStr)]);
   ("elasticsearch", [("action_id", TStrP); ("client_id", TStrP); ("labels", TDictStr); ("hostname", TStrP); ("port", TIntP)]);
   ("kafka", [("action_id", TStrP); ("client_id", TStrP); ("labels", TDictStr); ("topic", TStrP);
              ("bootstrap_servers", TListStr); ("key", TStrP)])].

(** A value of the lowered environment: a text, or the labels that were put
    there. *)
Inductive EnvVal : Type := EStr (s : string) | ELabels (d : dict string string).

Inductive ArgVal : Type :=
| AStr (s : string)
| AInt (z : Z)
| AStrs (l : list string)
| AInts (l : list Z)
| ADict (d : dict string string).

Definition METRICS_PUSHER_BACKEND_ARG_PREFIX : string := "backend_arg_".
Definition CUSTOM_LABEL_PREFIX : string := "custom_label_".

(** The conversion of one value by the annotation of its parameter. *)
Definition convert_arg (ty : ParamType) (v : EnvVal) : Res ArgVal :=
  match v with
  | ELabels d => Ok (ADict d)
  | EStr s =>
      match ty with
      | TListStr => Ok (AStrs (split_char "," s))
      | TListInt => l <~ res_map py_int (split_char "," s) ;; Ok (AInts l)
      | TStrP => Ok (AStr s)
      | TIntP => z <~ py_int s ;; Ok (AInt z)
      | TDictStr => Raise (TypeError "Type Dict cannot be instantiated")
      end
  end.

(** [create_dict_of_parameter_values_for_callable]. *)
Fixpoint unknown_arg (prefix : string) (values : dict string EnvVal) (signature : dict string ParamType) : option string :=
  match values with
  | [] => None
  | (key, _) :: values' =>
      let argname := str_drop (String.length prefix) key in
      if startswith prefix key && negb (dict_mem argname signature) then Some argname
      else unknown_arg prefix values' signature
  end.

Fixpoint collect_args (prefix : string) (values : dict string EnvVal) (signature : dict string ParamType)
    : Res (dict string ArgVal) :=
  match signature with
  | [] => Ok []
  | (argname, ty) :: signature' =>
      match dict_get values (prefix +:+ argname) with
      | None => Raise (ValueError ("Parameter `" +:+ argname +:+ "` is missing from the specified values"))
      | Some v => a <~ convert_arg ty v ;; args <~ collect_args prefix values signature' ;; Ok ((argname, a) :: args)
      end
  end.

Definition create_dict_of_parameter_values_for_callable (prefix : string) (values : dict string EnvVal)
    (signature : dict string ParamType) : Res (dict string ArgVal) :=
  match unknown_arg prefix values signature with
  | Some argname => Raise (KeyError ("Parameter `" +:+ argname +:+ "` does not exist"))
  | None => collect_args prefix values signature
  end.

(** [create_dict_of_custom_labels]. *)
Definition create_dict_of_custom_labels (values : dict string string) (prefix : string) : dict string string :=
  fold_left (fun labels kv =>
    if startswith prefix (lower kv.1)
    then dict_set labels (lower (str_drop (String.length prefix) kv.1)) kv.2 else labels) values [].

Record InputValue := mkInput {
  in_backend : string;
  in_pod_name : option string;
  in_pod_namespace : option string;
  in_backend_args : dict string ArgVal
}.

(** The environment with lower-case names, and the labels among it. *)
Definition lowered_environ (environ : dict string string) : dict string EnvVal :=
  dict_set (fold_left (fun d kv => dict_set d (lower kv.1) (EStr kv.2)) environ [])
    (lower METRICS_PUSHER_BACKEND_ARG_PREFIX +:+ "labels")
    (ELabels (create_dict_of_custom_labels environ CUSTOM_LABEL_PREFIX)).

(** [get_input], after the parser: [--backend] is one of the backends. *)
Definition get_input (backend : string) (pod_name pod_namespace : option string) (environ : dict string string)
    : Res InputValue :=
  match dict_get signatures backend with
  | None => Raise (KeyError backend)
  | Some signature =>
      args <~ create_dict_of_parameter_values_for_callable METRICS_PUSHER_BACKEND_ARG_PREFIX
                (lowered_environ environ) signature ;;
      Ok (mkInput backend pod_name pod_namespace args)
  end.

(** [create_backend(backend, **backend_args)]: the constructors, applied to
    their arguments. *)
Section Create.
Context `{PusherWorld X}.

Definition arg_str (args : dict string ArgVal) (k : string) : Res string :=
  match dict_get args k with Some (AStr s) => Ok s | _ => Raise (TypeError ("argument: '" +:+ k +:+ "'")) end.
Definition arg_dict (args : dict string ArgVal) (k : string) : Res (dict string string) :=
  match dict_get args k with Some (ADict d) => Ok d | _ => Raise (TypeError ("argument: '" +:+ k +:+ "'")) end.
Definition arg_strs (args : dict string ArgVal) (k : string) : Res (list string) :=
  match dict_get args k with Some (AStrs l) => Ok l | _ => Raise (TypeError ("argument: '" +:+ k +:+ "'")) end.

Definition create_backend (backend : string) (args : dict string ArgVal) : M X (Backend X) :=
  if String.eqb backend "stdout" then
    labels <- lift (arg_dict args "labels") ;;
    ret (LoggingBackend labels)
  else if String.eqb backend "elasticsearch" then
    action_id <- lift (arg_str args "action_id") ;;
    client_id <- lift (arg_str args "client_id") ;;
    labels <- lift (arg_dict args "labels") ;;
    ret (ElasticsearchBackend action_id client_id labels)
  else if String.eqb backend "kafka" then
    action_id <- lift (arg_str args "action_id") ;;
    client_id <- lift (arg_str args "client_id") ;;
    labels <- lift (arg_dict args "labels") ;;
    topic <- lift (arg_str args "topic") ;;
    bootstrap_servers <- lift (arg_strs args "bootstrap_servers") ;;
    key <- lift (arg_str args "key") ;;
    new_producer bootstrap_servers ;;
    ret (KafkaBackend action_id client_id labels topic (Some key))
  else raise (KeyError backend).
End Create.

(** ** The loop (loop.py) *)

(** What the FIFO's path is. *)
Inductive PathKind : Set := Missing | IsFifo | NotFifo.

(** The path, the text still to be read from it, the reads so far, whether the
    file is open, and the state of the backend's world. *)
Record Pusher (X : Type) := mkPusher {
  pu_path : PathKind;
  pu_text : string;
  pu_reads : nat;
  pu_open : bool;
  pu_ext : X
}.
Arguments mkPusher {X}.
Arguments pu_path {X}.
Arguments pu_text {X}.
Arguments pu_reads {X}.
Arguments pu_open {X}.
Arguments pu_ext {X}.

(** The calls of loop.py besides those of the back end: the opening of the FIFO,
    the reads, its closing at the end of the [with], and the messages of the
    handler of [SigtermReceived] and of the [finally] block. *)
Inductive Place : Set := AtOpen | AtRead (n : nat) | AtFifoClose | AtExcept | AtFinally.

(** [_deserialize]: the value, [None] for a line that is no JSON. *)
Definition deserialize `{PyFloat} (line : string) : Res jval :=
  match json_loads line with
  | Ok v => Ok v
  | Raise (JSONDecodeError _) => Ok JNull
  | Raise e => Raise e
  end.

Section Loop.
Context `{PyFloat} {X : Type} (backend : Backend X).
(** What a call raises instead of its result: the handler of SIGTERM raises
    [SigtermReceived] out of whatever the main thread is at, and a read whose
    bytes are no text raises [UnicodeDecodeError].  The calls of the back end
    raise what they raise, the signal included. *)
Context (raises : Place -> option exn).

Definition on_world {A} (m : M X A) : M (Pusher X) A :=
  fun p => let (r, x) := m (pu_ext p) in (r, mkPusher (pu_path p) (pu_text p) (pu_reads p) (pu_open p) x).

Definition set_path (k : PathKind) : M (Pusher X) unit :=
  modify (fun p => mkPusher k (pu_text p) (pu_reads p) (pu_open p) (pu_ext p)).
Definition set_open (b : bool) : M (Pusher X) unit :=
  modify (fun p => mkPusher (pu_path p) (pu_text p) (pu_reads p) b (pu_ext p)).

Definition call (at_ : Place) : M (Pusher X) unit :=
  match raises at_ with Some e => raise e | None => ret tt end.

(** [_get_fifo]. *)
Definition get_fifo : M (Pusher X) unit :=
  p <- get ;;
  (match pu_path p with
   | IsFifo => ret tt
   | NotFifo => raise (RuntimeError "File is not a FIFO")
   | Missing => set_path IsFifo
   end) ;;
  call AtOpen ;;
  set_open true.

(** [fifo.readline()]; bytes that are no text, like errors of the file and the
    signal, are exceptions of the read. *)
Definition read_line : M (Pusher X) string :=
  p <- get ;;
  call (AtRead (pu_reads p)) ;;
  let (line, rest) := readline (pu_text p) in
  put (mkPusher (pu_path p) rest (S (pu_reads p)) (pu_open p) (pu_ext p)) ;;
  ret line.

(** The [while True] loop; [None] when the fuel runs out. *)
Fixpoint read_loop (fuel : nat) : M (Pusher X) (option unit) :=
  match fuel with
  | O => ret None
  | S fuel' =>
      line <- read_line ;;
      if String.eqb line "" then ret (Some tt)
      else
        metrics <- lift (deserialize line) ;;
        on_world (emit backend metrics) ;;
        read_loop fuel'
  end.

(** [listen_to_fifo_and_emit_metrics]: the [with] closes the file.  A line has
    at least one character, so the text's length bounds the reads. *)
Definition listen_to_fifo_and_emit_metrics : M (Pusher X) (option unit) :=
  get_fifo ;;
  finally (p <- get ;; read_loop (S (String.length (pu_text p)))) (set_open false ;; call AtFifoClose).

(** The [except] and the [finally] of [start_loop], each with its message. *)
Definition on_sigterm (e : exn) : M (Pusher X) (option unit) :=
  match e with SigtermReceived => call AtExcept ;; ret (Some tt) | _ => raise e end.
Definition close_backend : M (Pusher X) unit := call AtFinally ;; on_world (close backend).

(** [start_loop] from the backend on. *)
Definition start_loop : M (Pusher X) (option unit) :=
  finally (try_except listen_to_fifo_and_emit_metrics on_sigterm) close_backend.

(** ** Lemmas of the loop *)

Lemma read_line_run {A} (k : string -> M (Pusher X) A) p :
  (line <- read_line ;; k line) p =
  match raises (AtRead (pu_reads p)) with
  | Some e => (Raise e, p)
  | None =>
      let (line, rest) := readline (pu_text p) in
      k line (mkPusher (pu_path p) rest (S (pu_reads p)) (pu_open p) (pu_ext p))
  end.
Proof.
  unfold read_line, call, bind, get, put, ret, raise. destruct (raises (AtRead (pu_reads p))); [done|].
  by destruct (readline (pu_text p)).
Qed.

(** The loop never runs out of its fuel. *)
Lemma read_loop_enough fuel p :
  (String.length (pu_text p) < fuel)%nat -> (read_loop fuel p).1 <> Ok None.
Proof.
  revert p. induction fuel as [|fuel IH]; intros p Hf; [lia|]. cbn [read_loop]. rewrite read_line_run.
  destruct (raises _); [done|]. destruct (readline (pu_text p)) as [line rest] eqn:E.
  destruct (String.eqb_spec line "") as [->|Hl]; [done|].
  unfold bind at 1, lift. destruct (deserialize line) as [v|e]; [|done].
  unfold bind, on_world. destruct (emit backend v _) as [[[]|e] x]; [|done]. apply IH. cbn.
  destruct (decide (pu_text p = "")) as [E0|E0]; [rewrite E0 in E; cbn in E; by injection E as <- <-|].
  destruct (readline_length _ _ _ E E0). lia.
Qed.

End Loop.

Section LoopLemmas.
Context `{PyFloat} {X : Type} (backend : Backend X).

(** Nothing is interrupted. *)
Definition never (at_ : Place) : option exn := None.

Lemma deserialize_line m : jwf m = true -> deserialize (jdumps m +:+ String "010" "") = Ok m.
Proof. intros Hm. unfold deserialize. by rewrite loads_dumps_line. Qed.

Lemma dumped_one_line m : one_line (jdumps m) = true.
Proof. unfold one_line. by destruct (jdumps_one_line m) as [-> ->]. Qed.

Lemma line_nonempty s : String.eqb (s +:+ String "010" "") "" = false.
Proof. by destruct s. Qed.

(** One line of the loop. *)
Lemma read_loop_line fuel p s rest :
  pu_text p = s +:+ String "010" rest -> one_line s = true ->
  read_loop backend never (S fuel) p =
  (metrics <- lift (deserialize (s +:+ String "010" "")) ;;
   on_world (emit backend metrics) ;;
   read_loop backend never fuel) (mkPusher (pu_path p) rest (S (pu_reads p)) (pu_open p) (pu_ext p)).
Proof.
  intros Hp Hs. cbn [read_loop]. rewrite read_line_run. unfold never at 1. rewrite Hp, readline_line by done.
  by rewrite line_nonempty.
Qed.

(** Dumped metrics are handed to the backend one by one. *)
Lemma read_loop_lines ms fuel p rest x :
  pu_text p = lines_of (map jdumps ms) +:+ rest ->
  Forall (fun m => jwf m = true) ms -> (length ms <= fuel)%nat ->
  for_each (emit backend) ms (pu_ext p) = (Ok tt, x) ->
  read_loop backend never fuel p =
  read_loop backend never (fuel - length ms) (mkPusher (pu_path p) rest (pu_reads p + length ms) (pu_open p) x).
Proof.
  intros Hp Hms. revert fuel p Hp. induction Hms as [|m ms Hm Hms IH]; intros fuel p Hp Hf He.
  - cbn in He, Hp. injection He as <-. subst rest. cbn [length]. rewrite Nat.sub_0_r, Nat.add_0_r. by destruct p.
  - destruct fuel as [|fuel]; [cbn in Hf; lia|]. cbn [map lines_of] in Hp. rewrite str_app_assoc in Hp.
    rewrite (read_loop_line _ _ _ _ Hp (dumped_one_line m)), deserialize_line by done.
    rewrite bind_lift_ok. unfold bind, on_world. cbn [pu_ext pu_path pu_text pu_reads pu_open].
    cbn [for_each] in He. unfold bind in He. destruct (emit backend m (pu_ext p)) as [[[]|e] x1]; [|done].
    rewrite (IH fuel); [|done|cbn in Hf; lia|done].
    cbn [pu_ext pu_path pu_text pu_reads pu_open length].
    by replace (pu_reads p + S (length ms))%nat with (S (pu_reads p) + length ms)%nat by lia.
Qed.

Lemma read_loop_eof fuel p :
  pu_text p = "" -> (0 < fuel)%nat ->
  read_loop backend never fuel p = (Ok (Some tt), mkPusher (pu_path p) "" (S (pu_reads p)) (pu_open p) (pu_ext p)).
Proof. intros Hp Hf. destruct fuel as [|fuel]; [lia|]. cbn [read_loop]. rewrite read_line_run. unfold never. by rewrite Hp. Qed.

Lemma lines_length l : (length l <= String.length (lines_of l))%nat.
Proof. induction l as [|s l IH]; [done|]. cbn [lines_of length]. rewrite str_length_app. simpl. lia. Qed.

(** The start of the loop on a path that is not something else. *)
Lemma start_loop_reads p :
  pu_path p <> NotFifo ->
  start_loop backend never p =
  finally
    (try_except
       (finally (read_loop backend never (S (String.length (pu_text p)))) (set_open false)) (on_sigterm never))
    (on_world (close backend))
    (mkPusher IsFifo (pu_text p) (pu_reads p) true (pu_ext p)).
Proof. intros Hp. destruct p as [[] t n o x]; try reflexivity. by destruct Hp. Qed.

(** The pipe delivers: what a client emits over the FIFO reaches the
    backend of the metrics pusher as the same dictionaries in the same order,
    after which the pusher sees the end of the file, closes the FIFO and the
    backend, and ends. *)
Lemma pipe_delivers float_text ex ms path x x1 x2
    (Hms : Forall (fun m => is_metrics m = true /\ jwf m = true) ms)
    (Hex : ex 0%nat = true) (Hpath : path <> NotFifo)
    (Hemit : for_each (emit backend) ms x = (Ok tt, x1)) (Hclose : close backend x1 = (Ok tt, x2)) :
  start_loop backend never
    (mkPusher path (cl_written (emit_all (default_config ex) float_text 22 ms client0).2) 0 false x) =
  (Ok (Some tt), mkPusher IsFifo "" (S (length ms)) false x2).
Proof.
  assert (Hw : cl_written (emit_all (default_config ex) float_text 22 ms client0).2 = lines_of (map jdumps ms)).
  { destruct ms as [|m ms]; [done|]. inversion_clear Hms as [|? ? [Hm Hwf] Hms'].
    cbn [emit_all]. unfold bind. rewrite emit_first by done.
    replace (first_seen ex (cl_slept client0) 21) with 0%nat by (cbn; by rewrite Hex).
    change (0 + cl_slept client0)%nat with 0%nat. rewrite Hex. cbn match. unfold open_fifo, modify. cbn [snd].
    erewrite emit_all_open; [cbn|reflexivity|].
    - by rewrite str_app_assoc.
    - apply forallb_forall. intros v Hv. apply list_elem_of_In in Hv. rewrite Forall_forall in Hms'. by apply Hms'. }
  rewrite start_loop_reads, Hw by done. cbn [pu_text pu_ext pu_reads].
  unfold finally, try_except.
  rewrite (read_loop_lines ms _ _ "" x1); cbn [pu_text pu_ext pu_reads pu_path pu_open].
  - pose proof (lines_length (map jdumps ms)) as Hl. rewrite length_map in Hl.
    rewrite read_loop_eof by (done || lia). cbn [pu_text pu_ext pu_reads pu_path pu_open].
    unfold set_open, modify, on_world. cbn. by rewrite Hclose.
  - by rewrite str_app_nil_r.
  - eapply Forall_impl; [exact Hms|]. by intros m [_ ?].
  - pose proof (lines_length (map jdumps ms)) as Hl. rewrite length_map in Hl. lia.
  - done.
Qed.
End LoopLemmas.

(** ** Every way out *)

Section Closing.
Context `{PyFloat} {X : Type} (backend : Backend X) (raises : Place -> option exn).
(** How often the back end was told to close. *)
Context (closes : X -> nat).
Context (emit_keeps : forall m x, closes (emit backend m x).2 = closes x).
Context (close_counts : forall x, closes (close backend x).2 = S (closes x)).

Lemma read_loop_keeps fuel p :
  closes (pu_ext (read_loop backend raises fuel p).2) = closes (pu_ext p).
Proof using emit_keeps.
  revert p. induction fuel as [|fuel IH]; intros p; [done|]. cbn [read_loop]. rewrite read_line_run.
  destruct (raises _); [done|]. destruct (readline (pu_text p)) as [line rest].
  destruct (String.eqb line ""); [done|]. unfold bind at 1, lift. destruct (deserialize line) as [v|e]; [|done].
  unfold bind, on_world. cbn [pu_ext]. pose proof (emit_keeps v (pu_ext p)) as E.
  destruct (emit backend v (pu_ext p)) as [[[]|e] x]; cbn in *; [|done]. by rewrite IH.
Qed.

Lemma get_fifo_keeps (p : Pusher X) : pu_open p = false ->
  pu_ext (get_fifo raises p).2 = pu_ext p /\
  ((get_fifo raises p).1 <> Ok tt -> pu_open (get_fifo raises p).2 = false).
Proof.
  intros Hp. unfold get_fifo, call, bind, get, set_path, set_open, modify, ret, raise.
  destruct p as [[] t n o x]; cbn in Hp; subst o; cbn; try done; by destruct (raises AtOpen).
Qed.

(** The FIFO is closed behind the loop, which ends by itself. *)
Lemma listen_keeps p (l := listen_to_fifo_and_emit_metrics backend raises p) :
  pu_open p = false -> closes (pu_ext l.2) = closes (pu_ext p) /\ pu_open l.2 = false /\ l.1 <> Ok None.
Proof using emit_keeps.
  intros Hp.
  assert (l = match get_fifo raises p with
              | (Ok _, p1) => finally (p <- get ;; read_loop backend raises (S (String.length (pu_text p))))
                                (set_open false ;; call raises AtFifoClose) p1
              | (Raise e, p1) => (Raise e, p1)
              end) as -> by reflexivity.
  destruct (get_fifo_keeps p Hp) as [Hx Ho].
  destruct (get_fifo raises p) as [[[]|e] p1]; cbn [fst snd] in *; [|split_and!; [by rewrite Hx|by apply Ho|done]].
  rewrite <- Hx. pose proof (read_loop_keeps (S (String.length (pu_text p1))) p1) as Hk.
  pose proof (read_loop_enough backend raises (S (String.length (pu_text p1))) p1 ltac:(lia)) as He.
  unfold finally, bind, get. set (fuel := S (String.length (pu_text p1))) in *. clearbody fuel.
  destruct (read_loop _ _ _ p1) as [r p2]. cbn in *. unfold set_open, call, modify, ret, raise.
  destruct (raises AtFifoClose); cbn; by split_and!.
Qed.

Lemma on_sigterm_keeps e (p : Pusher X) :
  (on_sigterm raises e p).2 = p /\ (on_sigterm raises e p).1 <> Ok None /\
  ((on_sigterm raises e p).1 = Raise SigtermReceived -> raises AtExcept = Some SigtermReceived).
Proof.
  unfold on_sigterm, call, bind, ret, raise. destruct e; cbn; try (by split_and!).
  destruct (raises AtExcept) as [e'|]; cbn; split_and!; try done. by intros [= ->].
Qed.

(** C27: whatever ends the loop (the end of the file, SIGTERM or an error at
    the opening, at any read, in the back end or at the closing of the FIFO, a
    path that is no FIFO), the loop ends by itself and the FIFO is closed; the
    back end is told to close exactly once, unless the [finally] block is
    interrupted before it does, and then it is not; and the signal escapes only
    if it comes (once more) after the loop: to the handler's own message, to the
    [finally] block or while the back end closes. *)
Theorem start_loop_closes p (Hp : pu_open p = false) :
  let r := start_loop backend raises p in
  r.1 <> Ok None /\ pu_open r.2 = false /\
  closes (pu_ext r.2) = (closes (pu_ext p) + match raises AtFinally with None => 1 | Some _ => 0 end)%nat /\
  (r.1 = Raise SigtermReceived ->
   raises AtExcept = Some SigtermReceived \/ raises AtFinally = Some SigtermReceived \/
   exists x, (close backend x).1 = Raise SigtermReceived).
Proof using emit_keeps close_counts.
  destruct (listen_keeps p Hp) as (H1 & H2 & H3). cbv zeta. unfold start_loop, finally, try_except.
  destruct (listen_to_fifo_and_emit_metrics backend raises p) as [r p1]. cbn [fst snd] in *.
  set (m := match r with Ok a => (Ok a, p1) | Raise e => on_sigterm raises e p1 end).
  assert (Hm : m.2 = p1 /\ m.1 <> Ok None /\ (m.1 = Raise SigtermReceived -> raises AtExcept = Some SigtermReceived)).
  { unfold m. destruct r as [o|e]; [by split_and!|apply on_sigterm_keeps]. }
  clearbody m. destruct m as [r' p2]. cbn [fst snd] in Hm. destruct Hm as (-> & Hn & He).
  unfold close_backend, call, bind, ret, raise, on_world.
  destruct (raises AtFinally) as [e|] eqn:Ef; cbn [fst snd].
  - split_and!; [done|done|lia|]. intros [= ->]. by right; left.
  - pose proof (close_counts (pu_ext p1)) as Hc. destruct (close backend (pu_ext p1)) as [[u|e] x] eqn:Ecl; cbn in *;
      (split_and!; [done|done|lia|]).
    + intros Hr. left. by apply He.
    + intros [= ->]. right; right. exists (pu_ext p1). by rewrite Ecl.
Qed.

(** A SIGTERM that comes when the loop has ended, as the one of the pod's
    watcher does, leaves the back end open and ends the program. *)
Theorem late_sigterm_escapes p (Hp : pu_open p = false) (Hlate : raises AtFinally = Some SigtermReceived) :
  let r := start_loop backend raises p in r.1 = Raise SigtermReceived /\ closes (pu_ext r.2) = closes (pu_ext p).
Proof using emit_keeps.
  destruct (listen_keeps p Hp) as (H1 & _ & _). cbv zeta. unfold start_loop, finally, try_except.
  destruct (listen_to_fifo_and_emit_metrics backend raises p) as [r p1]. cbn [fst snd] in *.
  set (m := match r with Ok a => (Ok a, p1) | Raise e => on_sigterm raises e p1 end).
  assert (Hm : m.2 = p1) by (unfold m; destruct r as [o|e]; [done|apply on_sigterm_keeps]).
  clearbody m. destruct m as [r' p2]. cbn [snd] in Hm. subst p2. unfold close_backend, call, bind, raise. by rewrite Hlate.
Qed.
End Closing.

(** ** Lines that are no JSON *)

Section Malformed.
Context `{PusherWorld X}.

(** A line that is no JSON ends the pusher when the backend is Kafka's:
    the metrics before it are delivered, then [emit(None)] raises AttributeError,
    the backend is closed, and nothing after the line is read. *)
Theorem malformed_line_stops ms bad rest action_id client_id labels topic key x x1 x2 now x3 msg n
    (backend := KafkaBackend action_id client_id labels topic key)
    (Hms : Forall (fun m => jwf m = true) ms)
    (Hbad : one_line bad = true) (Hjson : json_loads (bad +:+ String "010" "") = Raise (JSONDecodeError msg))
    (Hemit : for_each (emit backend) ms x = (Ok tt, x1))
    (Hclock : utcnow_timestamp x1 = (Ok now, x2)) (Hclose : producer_close x2 = (Ok tt, x3)) :
  start_loop backend never
    (mkPusher IsFifo (lines_of (map jdumps ms) +:+ bad +:+ String "010" rest) n false x) =
  (Raise (AttributeError "object has no attribute 'items'"),
   mkPusher IsFifo rest (n + length ms + 1) false x3).
Proof.
  rewrite start_loop_reads by done. cbn [pu_text pu_ext pu_reads]. unfold finally, try_except.
  pose proof (lines_length (map jdumps ms)) as Hl. rewrite length_map in Hl.
  rewrite (read_loop_lines backend ms _ _ (bad +:+ String "010" rest) x1) by (rewrite ?str_length_app; done || lia).
  cbn [pu_text pu_ext pu_reads pu_path pu_open].
  rewrite !str_length_app. cbn [String.length].
  set (f := (S _ - length ms)%nat). assert (Hf : (0 < f)%nat) by (unfold f; lia). clearbody f.
  destruct f as [|f]; [lia|].
  rewrite (read_loop_line backend _ _ bad rest) by done. unfold deserialize. rewrite Hjson.
  unfold bind, lift, on_world. cbn [pu_text pu_ext pu_reads pu_path pu_open backend KafkaBackend emit].
  unfold kafka_emit, bind. rewrite Hclock. unfold raise, set_open, modify. cbn.
  rewrite Hclose. cbn. by rewrite Nat.add_1_r.
Qed.
End Malformed.

(** ** The configuration *)

(** Values of the annotated types. *)
Definition has_type (ty : ParamType) (a : ArgVal) : bool :=
  match ty, a with
  | TStrP, AStr _ | TIntP, AInt _ | TListStr, AStrs _ | TListInt, AInts _ | TDictStr, ADict _ => true
  | _, _ => false
  end.

Definition is_text (v : EnvVal) : bool := match v with EStr _ => true | ELabels _ => false end.

Lemma convert_arg_typed ty v a :
  (ty = TDictStr <-> is_text v = false) -> convert_arg ty v = Ok a -> has_type ty a = true.
Proof.
  destruct v as [s|d]; cbn [is_text convert_arg].
  - intros _. destruct ty; cbn; try (by intros [= <-]).
    + destruct (py_int s); [|done]. by intros [= <-].
    + destruct (res_map py_int _); [|done]. by intros [= <-].
  - intros [_ Ht]. rewrite Ht by done. by intros [= <-].
Qed.

Lemma texts_only environ d k v :
  Forall (fun kv => is_text kv.2 = true) d ->
  dict_get (fold_left (fun d kv => dict_set d (lower kv.1) (EStr kv.2)) environ d) k = Some v -> is_text v = true.
Proof.
  revert d. induction environ as [|kv environ IH]; intros d Hd; cbn [fold_left].
  - intros Hv. apply dict_get_Some_in in Hv. rewrite Forall_forall in Hd. by apply (Hd _ Hv).
  - apply IH. clear IH. induction Hd as [|[k' v'] d Hv Hd IH]; cbn [dict_set]; [by repeat constructor|].
    destruct (decide (lower kv.1 = k')); constructor; done.
Qed.

(** Only the labels of the lowered environment are no text. *)
Lemma lowered_environ_text environ argname v :
  dict_get (lowered_environ environ) (METRICS_PUSHER_BACKEND_ARG_PREFIX +:+ argname) = Some v ->
  argname = "labels" <-> is_text v = false.
Proof.
  unfold lowered_environ. rewrite dict_get_set.
  destruct (decide (lower METRICS_PUSHER_BACKEND_ARG_PREFIX +:+ "labels" = METRICS_PUSHER_BACKEND_ARG_PREFIX +:+ argname)) as [E|E].
  - intros [= <-]. apply str_app_inj_l in E. done.
  - intros Hv. apply texts_only in Hv; [|constructor]. rewrite Hv. split; [|done]. intros ->. by destruct E.
Qed.

Lemma collect_args_typed environ sig args :
  Forall (fun p : string * ParamType => p.1 = "labels" <-> p.2 = TDictStr) sig ->
  collect_args METRICS_PUSHER_BACKEND_ARG_PREFIX (lowered_environ environ) sig = Ok args ->
  Forall2 (fun p a => p.1 = a.1 /\ has_type p.2 a.2 = true) sig args.
Proof.
  intros Hs. revert args. induction Hs as [|[n ty] sig Hn Hs IH]; intros args; cbn [collect_args]; [by intros [= <-]|].
  destruct (dict_get _ _) as [v|] eqn:Ev; [|done].
  destruct (convert_arg ty v) as [a|] eqn:Ea; [|done]. cbn [res_bind].
  destruct (collect_args _ _ sig) as [args'|]; [|done]. intros [= <-]. constructor; [|by apply IH].
  split; [done|]. cbn in Hn |- *. apply (convert_arg_typed _ v); [|done].
  rewrite <- Hn. by eapply lowered_environ_text.
Qed.

Lemma signatures_labels backend sig :
  dict_get signatures backend = Some sig -> Forall (fun p : string * ParamType => p.1 = "labels" <-> p.2 = TDictStr) sig.
Proof.
  cbn. repeat case_decide; intros [= <-]; repeat constructor; done.
Qed.

(** C28: the arguments that the pusher computes from its environment are typed:
    exactly the parameters of the backend's constructor in their order, each
    with a value of its annotated type, so the constructor accepts them. *)
Theorem backend_args_typed `{PusherWorld X} backend pod_name pod_namespace environ input
    (Hin : get_input backend pod_name pod_namespace environ = Ok input) :
  exists sig, dict_get signatures backend = Some sig /\
  Forall2 (fun p a => p.1 = a.1 /\ has_type p.2 a.2 = true) sig (in_backend_args input) /\
  forall x, (forall l, (new_producer l x).1 = Ok tt) ->
            is_ok (create_backend (in_backend input) (in_backend_args input) x).1 = true.
Proof.
  unfold get_input in Hin. destruct (dict_get signatures backend) as [sig|] eqn:Es; [|done].
  exists sig. split; [done|]. unfold create_dict_of_parameter_values_for_callable in Hin.
  destruct (unknown_arg _ _ _); [done|].
  destruct (collect_args _ _ sig) as [args|] eqn:Ea; [|done]. cbn in Hin. injection Hin as <-. cbn [in_backend in_backend_args].
  pose proof (collect_args_typed _ _ _ (signatures_labels _ _ Es) Ea) as Ht. split; [done|]. clear Ea.
  intros x Hx. revert Es. cbn [dict_get signatures].
  repeat case_decide; subst; intros [= <-];
    repeat match goal with
      | Hf : Forall2 _ (_ :: _) _ |- _ => apply Forall2_cons_inv_l in Hf as ([? []] & ? & [? ?] & Hf & ->); simplify_eq/=
      | Hf : Forall2 _ [] _ |- _ => apply Forall2_nil_inv_l in Hf as ->
      end; try done.
  unfold create_backend, bind, lift. cbn match.
  repeat match goal with
    | |- context [arg_str ?a ?k] => let r := eval vm_compute in (arg_str a k) in change (arg_str a k) with r
    | |- context [arg_dict ?a ?k] => let r := eval vm_compute in (arg_dict a k) in change (arg_dict a k) with r
    | |- context [arg_strs ?a ?k] => let r := eval vm_compute in (arg_strs a k) in change (arg_strs a k) with r
    end.
  cbn.
  match goal with |- context [new_producer ?l x] => specialize (Hx l); destruct (new_producer l x) as [[[]|] x'] end; done.
Qed.

(** ** The custom labels *)

Lemma ascii_lower_upper c : ascii_lower (ascii_upper c) = ascii_lower c.
Proof. by destruct c as [[] [] [] [] [] [] [] []]. Qed.

Lemma lower_upper s : lower (upper s) = lower s.
Proof. unfold lower, upper. induction s as [|c s IH]; [done|]. cbn [str_map]. by rewrite ascii_lower_upper, IH. Qed.

Lemma str_map_app f a b : str_map f (a +:+ b) = str_map f a +:+ str_map f b.
Proof. induction a as [|c a IH]; [done|]. cbn [String.append str_map]. by rewrite IH. Qed.

(** The variable of a label, as [add_metrics_pusher_env_var] names it. *)
Definition label_var (kv : string * string) : string * string := (upper CUSTOM_LABEL_PREFIX +:+ upper kv.1, kv.2).

Lemma lower_label_var kv : lower (label_var kv).1 = CUSTOM_LABEL_PREFIX +:+ lower kv.1.
Proof.
  unfold label_var. cbn [fst]. unfold lower at 1. rewrite str_map_app.
  change (lower (upper CUSTOM_LABEL_PREFIX) +:+ lower (upper kv.1) = CUSTOM_LABEL_PREFIX +:+ lower kv.1).
  by rewrite !lower_upper.
Qed.

Lemma fold_left_filter {A B} (p : B -> bool) (f : A -> B -> A) l a :
  fold_left (fun a x => if p x then f a x else a) l a = fold_left f (List.filter p l) a.
Proof. revert a. induction l as [|x l IH]; intros a; [done|]. cbn. by destruct (p x); cbn; rewrite IH. Qed.

(** Labels survive the environment: when the variables with the prefix are
    the ones that the transpiler made for a benchmark's labels, the pusher's
    labels are those labels, in lower case and in their order. *)
Theorem custom_labels_roundtrip environ labels
    (Hwf : dict_wf labels) (Hlow : Forall (fun kv => lower kv.1 = kv.1) labels)
    (Henv : List.filter (fun kv => startswith CUSTOM_LABEL_PREFIX (lower kv.1)) environ = map label_var labels) :
  create_dict_of_custom_labels environ CUSTOM_LABEL_PREFIX = labels.
Proof.
  unfold create_dict_of_custom_labels.
  rewrite (fold_left_filter (fun kv => startswith CUSTOM_LABEL_PREFIX (lower kv.1))
             (fun labels kv => dict_set labels (lower (str_drop (String.length CUSTOM_LABEL_PREFIX) kv.1)) kv.2)).
  rewrite Henv. transitivity (dict_update [] labels).
  - unfold dict_update. clear Henv Hwf. generalize (@nil (string * string)).
    induction Hlow as [|kv labels Hkv Hl IH]; intros acc; [done|]. cbn [map fold_left]. rewrite IH.
    do 2 f_equal. unfold label_var. cbn [fst].
    change (String.length CUSTOM_LABEL_PREFIX) with (String.length (upper CUSTOM_LABEL_PREFIX)).
    rewrite str_drop_app, lower_upper. exact Hkv.
  - rewrite dict_update_disjoint; [done|done|]. intros k _. apply not_elem_of_nil.
Qed.

(** ** The watcher of the benchmark's container (kubernetes_pod_watcher.py)

    One poll gives the names of the container statuses with whether their state
    is terminated, or raises. *)
Fixpoint watch_kubernetes_pod (polls : list (Res (option (list (string * bool))))) : Res bool :=
  match polls with
  | [] => Ok false
  | poll :: polls' =>
      container_statuses <~ poll ;;
      match container_statuses with
      | None => Raise (TypeError "'NoneType' object is not iterable")
      | Some l =>
          match dict_get (dict_update [] l) "benchmark" with
          | None => Raise (KeyError "benchmark")
          | Some terminated => if (terminated : bool) then Ok true else watch_kubernetes_pod polls'
          end
      end
  end.

(** SIGTERM is sent at the first poll that shows the benchmark terminated, when
    the polls before it show it running. *)
Lemma watch_pod_terminates before l after :
  Forall (fun p => exists s, p = Ok (Some s) /\ dict_get (dict_update [] s) "benchmark" = Some false) before ->
  dict_get (dict_update [] l) "benchmark" = Some true ->
  watch_kubernetes_pod (before ++ Ok (Some l) :: after)%list = Ok true.
Proof.
  intros Hb Hl. induction Hb as [|p before (s & -> & Hs) Hb IH]; cbn [app watch_kubernetes_pod res_bind].
  - by rewrite Hl.
  - by rewrite Hs.
Qed.

(** ** Examples *)

Module Witness.
#[local] Existing Instance literal_floats.

(** A world that records the records, the closings and the log. *)
Record World := mkWorld {
  w_sends : list (string * option string * string * jval * dict string string);
  w_closed : nat;
  w_log : list string
}.

#[local] Instance world : PusherWorld World := {|
  new_producer _ := ret tt;
  producer_send t m k := modify (fun w =>
    mkWorld (w_sends w ++ [(t, k, kem_name m, kem_value m, kem_labels m)])%list (w_closed w) (w_log w));
  producer_close := modify (fun w => mkWorld (w_sends w) (S (w_closed w)) (w_log w));
  utcnow_timestamp := ret 1500000000;
  utcnow_isoformat := ret "2020-01-01T00:00:00";
  es_index s := modify (fun w => mkWorld (w_sends w) (w_closed w) (w_log w ++ [s])%list);
  log_info s := modify (fun w => mkWorld (w_sends w) (w_closed w) (w_log w ++ [s])%list)
|}.

Definition world0 : World := mkWorld [] 0 [].
Definition kafka0 : Backend World := KafkaBackend "action" "client" [("task_name", "t")] "BAI_METRICS" (Some "client").

Lemma kafka0_keeps m x : w_closed (emit kafka0 m x).2 = w_closed x.
Proof.
  cbn [emit kafka0 KafkaBackend]. unfold kafka_emit, bind. cbn [utcnow_timestamp world]. unfold ret.
  destruct m as [| | | | | | | |d]; try done. revert x. induction d as [|kv d IH]; intros x; [done|].
  cbn [for_each]. unfold bind. cbn [producer_send world]. unfold modify at 1.
  match goal with |- context [for_each _ d ?y] => exact (IH y) end.
Qed.

Definition pusher0 : Pusher World := mkPusher Missing "{}
not json
" 0 false world0.

(** SIGTERM at the second read. *)
Definition second_read (at_ : Place) : option exn := match at_ with AtRead 1 => Some SigtermReceived | _ => None end.

Lemma start_loop_closes_witness :
  let r := start_loop kafka0 second_read pusher0 in
  w_closed (pu_ext r.2) = 1%nat /\ pu_open r.2 = false /\ r.1 <> Raise SigtermReceived /\ r.1 <> Ok None.
Proof.
  destruct (start_loop_closes kafka0 second_read w_closed kafka0_keeps (fun _ => eq_refl) pusher0 eq_refl) as (H1 & H2 & H3 & H4).
  split; [exact H3|]. split; [exact H2|]. split; [|exact H1].
  intros E. destruct (H4 E) as [Ha|[Ha|[x Ha]]]; discriminate Ha.
Defined.

Definition at_the_end (at_ : Place) : option exn := match at_ with AtFinally => Some SigtermReceived | _ => None end.

Lemma late_sigterm_escapes_witness :
  let r := start_loop kafka0 at_the_end (mkPusher Missing "" 0 false world0) in
  r.1 = Raise SigtermReceived /\ w_closed (pu_ext r.2) = 0%nat.
Proof. apply (late_sigterm_escapes kafka0 at_the_end w_closed kafka0_keeps); reflexivity. Defined.

Definition m1 : jval := JObj [("accuracy", JStr "0.9")].

Lemma malformed_line_stops_witness :
  start_loop kafka0 never
    (mkPusher IsFifo (lines_of (map jdumps [m1]) +:+ "oops" +:+ String "010" (lines_of (map jdumps [m1]))) 0 false world0) =
  (Raise (AttributeError "object has no attribute 'items'"),
   mkPusher IsFifo (lines_of (map jdumps [m1])) 2 false (producer_close (for_each (emit kafka0) [m1] world0).2).2).
Proof.
  apply (malformed_line_stops [m1] "oops" (lines_of (map jdumps [m1])) "action" "client" [("task_name", "t")]
           "BAI_METRICS" (Some "client") world0 (for_each (emit kafka0) [m1] world0).2
           (for_each (emit kafka0) [m1] world0).2 1500000000
           (producer_close (for_each (emit kafka0) [m1] world0).2).2 "Expecting value" 0);
    try reflexivity. repeat constructor.
Defined.

Definition environ0 : dict string string :=
  [("PATH", "/bin"); ("CUSTOM_LABEL_TASK_NAME", "t"); ("BACKEND_ARG_ACTION_ID", "a"); ("BACKEND_ARG_CLIENT_ID", "c");
   ("BACKEND_ARG_TOPIC", "BAI_METRICS"); ("BACKEND_ARG_BOOTSTRAP_SERVERS", "k1:9092,k2:9092"); ("BACKEND_ARG_KEY", "c")].

Definition input0 : InputValue :=
  mkInput "kafka" (Some "pod") None
    [("action_id", AStr "a"); ("client_id", AStr "c"); ("labels", ADict [("task_name", "t")]); ("topic", AStr "BAI_METRICS");
     ("bootstrap_servers", AStrs ["k1:9092"; "k2:9092"]); ("key", AStr "c")].

Lemma backend_args_typed_witness :
  exists sig, dict_get signatures "kafka" = Some sig /\
  Forall2 (fun p a => p.1 = a.1 /\ has_type p.2 a.2 = true) sig (in_backend_args input0) /\
  forall x : World, (forall l, (new_producer l x).1 = Ok tt) ->
            is_ok (create_backend (in_backend input0) (in_backend_args input0) x).1 = true.
Proof. apply (backend_args_typed "kafka" (Some "pod") None environ0 input0). vm_compute. reflexivity. Defined.

Lemma custom_labels_roundtrip_witness :
  create_dict_of_custom_labels environ0 CUSTOM_LABEL_PREFIX = [("task_name", "t")].
Proof.
  apply (custom_labels_roundtrip environ0 [("task_name", "t")]).
  - apply (bool_decide_unpack _). vm_compute. exact I.
  - repeat constructor.
  - vm_compute. reflexivity.
Defined.
End Witness.
