(* ===== verification/MetricsFlow.v ===== *)
(** * From a line of the log to CloudWatch

    The composition of the metrics extractor (MetricsExtractor.v), the client
    library (ClientLib.v), the metrics pusher (MetricsPusher.v) and the
    CloudWatch exporter (CloudWatch.v), with the codec of the messages between
    the last two (bai_kafka_utils/kafka_client.py) and the start of the
    exporter (cloudwatch_exporter.py). *)

From Stdlib Require Import SpecFloat.
From S2P Require Import Prelude PyStr PyLib Json CloudWatch ClientLib MetricsExtractor MetricsPusher KafkaClient.

#[local] Arguments String.append !_ _ /.

(** ** The messages on the topic *)

(** [to_json] of a record of the pusher and [MetricsEvent.from_json]. *)
Class MetricsJson `{PyFloat} : Type := {
  metric_to_json : KafkaExporterMetric -> string;
  metric_from_json : string -> Res MetricsMessage
}.

(** [metrics_json_deserializer]: nothing escapes. *)
Definition metrics_json_deserializer `{MetricsJson} (msg_value : string) : option MetricsMessage :=
  match (text <~ decode_utf8 msg_value ;; metric_from_json text) with Ok event => Some event | Raise _ => None end.

(** The labels of a record: texts, each name once. *)
Definition labels_dumpable (labels : dict string string) : Prop := labels_text labels /\ NoDup labels.*1.

(** A record whose texts and value can be dumped. *)
Definition dumpable `{PyFloat} (m : KafkaExporterMetric) : Prop :=
  utf8_valid (kem_name m) = true /\ jwf (kem_value m) = true /\ labels_dumpable (kem_labels m).

(** What dataclasses_json documents of the two classes, which have the same
    fields: what the pusher dumps is read back. *)
Class MetricsJsonLaws `{MetricsJson} : Type := {
  metric_text : forall m, utf8_valid (metric_to_json m) = true;
  metric_read_back : forall m t, dumpable m -> kem_timestamp m = Some t ->
    metric_from_json (metric_to_json m) = Ok (mkMetrics _ (kem_name m) (kem_value m) t (Some (kem_labels m)))
}.

(** ** The exporter as a service *)

Section Exporter.
Context {F : PyFloat} {J : MetricsJson} {X : Type} {C : CloudWatch X} (float_of : jval -> Res pyfloat).

(** [create_service]: the exporter makes no topics and listens to one. *)
Definition create_exporter_clients `{KafkaLib K} (cfg : KafkaServiceConfig) : M K unit :=
  create_kafka_consumer (bootstrap_servers cfg) (consumer_group_id cfg) [consumer_topic cfg] ;;
  create_kafka_producer (bootstrap_servers cfg).

(** The loop of KafkaService.v for messages of this class, over the one callback
    of the exporter: whatever the handler raises, the next message follows. *)
Definition exporter_handle (msg : option MetricsMessage) : M X unit :=
  try_except
    (match msg with
     | None => raise (KafkaServiceCallbackException "Empty message received (no event found)")
     | Some event => export_event float_of event
     end)
    (fun _ => ret tt).

Definition exporter_records (topic : string) (records : list (string * list string)) : M X unit :=
  for_each (fun '(t, record) =>
    if String.eqb t topic then for_each (fun bytes => exporter_handle (metrics_json_deserializer bytes)) record
    else ret tt) records.
End Exporter.

(** ** From the topic to CloudWatch *)

(** The limits that CloudWatch documents for the texts of a data point: names of
    1 to 255 characters, values of 1 to 1024, in ASCII and not all blank; the
    name of a dimension does not begin with a colon. *)
Definition text_limits (most : nat) (s : string) : bool :=
  (1 <=? String.length s)%nat && (String.length s <=? most)%nat &&
  str_forall (fun c => byte c <? 128) s && negb (str_forall is_space s).
Definition dimension_limits (kv : string * string) : bool :=
  text_limits 255 kv.1 && text_limits 1024 kv.2 && negb (startswith ":" kv.1).
Definition datum_limits `{PyFloat} (d : MetricDatum) : bool :=
  text_limits 255 (md_name d) && forallb dimension_limits (md_dimensions d).

(** The data points of CloudWatch, which only [put_metric_data] makes: a put
    makes its point when CloudWatch accepts it.  It may refuse a point, for its
    texts, its value or its time, or for too many calls; a point beyond the
    limits is always refused. *)
Class MetricStore {F : PyFloat} (X : Type) `{!CloudWatch X} : Type := {
  metric_data : X -> list (string * MetricDatum);
  accepts : X -> MetricDatum -> bool;
  accepts_limits : forall x d, accepts x d = true -> datum_limits d = true;
  put_metric_data_law : forall ns d x,
    metric_data (put_metric_data ns [d] x).2 = (metric_data x ++ if accepts x d then [(ns, d)] else [])%list;
  list_dashboards_data : forall x, metric_data (list_dashboards x).2 = metric_data x;
  get_dashboard_data : forall n x, metric_data (get_dashboard n x).2 = metric_data x;
  put_dashboard_data : forall n body x, metric_data (put_dashboard n body x).2 = metric_data x
}.

Section Exported.
Context {F : PyFloat} `{!MetricsJson} `{!MetricsJsonLaws} {X : Type} `{!CloudWatch X} `{!MetricStore X}.
Context (float_of : jval -> Res pyfloat).

Definition keeps_data {A} (m : M X A) : Prop := forall x, metric_data (m x).2 = metric_data x.

Lemma keeps_data_bind {A B} (m : M X A) (k : A -> M X B) :
  keeps_data m -> (forall a, keeps_data (k a)) -> keeps_data (bind m k).
Proof.
  intros Hm Hk x. unfold bind. specialize (Hm x). destruct (m x) as [[a|e] x']; [|done]. by rewrite Hk.
Qed.
Lemma keeps_data_lift {A} (r : Res A) : keeps_data (lift r).
Proof. done. Qed.
Lemma keeps_data_ret {A} (a : A) : keeps_data (ret a).
Proof. done. Qed.
Lemma keeps_data_raise {A} e : keeps_data (raise (A := A) e).
Proof. done. Qed.

(** Looking after a dashboard makes no data points. *)
Lemma check_dashboard_data labels m : keeps_data (check_dashboard labels m).
Proof.
  unfold check_dashboard, update_dashboard, create_dashboard.
  repeat first [progress intros | apply keeps_data_bind | apply keeps_data_lift | apply keeps_data_ret | apply keeps_data_raise
               | intro; apply list_dashboards_data | intro; apply get_dashboard_data | intro; apply put_dashboard_data | case_match].
Qed.

(** The data point of a record whose value is a number. *)
Definition datum_of (m : KafkaExporterMetric) : option MetricDatum :=
  match kem_timestamp m, float_of (kem_value m) with
  | Some t, Ok v => Some (mkDatum _ (kem_name m) (metric_dimensions (kem_labels m)) "None" v t 1)
  | _, _ => None
  end.

(** The exporter's handling of a record. *)
Definition export (m : KafkaExporterMetric) : M X unit :=
  exporter_handle float_of (metrics_json_deserializer (metric_to_json m)).

(** The points that CloudWatch accepts of a sequence of records, each at the
    moment when it is put. *)
Fixpoint taken (x : X) (ms : list KafkaExporterMetric) : list MetricDatum :=
  match ms with
  | [] => []
  | m :: ms' =>
      (match datum_of m with Some d => if accepts x d then [d] else [] | None => [] end ++ taken (export m x).2 ms')%list
  end.

Lemma taken_limits x ms : Forall (fun d => datum_limits d = true) (taken x ms).
Proof.
  revert x. induction ms as [|m ms IH]; intros x; [done|]. cbn [taken]. apply Forall_app. split; [|apply IH].
  destruct (datum_of m) as [d|]; [|done]. destruct (accepts x d) eqn:E; [|done]. constructor; [by eapply accepts_limits|done].
Qed.

(** When CloudWatch accepts them all, these are the points of all the records
    that have a number. *)
Lemma taken_all x ms : (forall y d, d ∈ omap datum_of ms -> accepts y d = true) -> taken x ms = omap datum_of ms.
Proof.
  revert x. induction ms as [|m ms IH]; intros x Hall; [done|]. cbn [taken omap list_omap].
  destruct (datum_of m) as [d|] eqn:E.
  - rewrite Hall by (cbn; rewrite E; left). cbn [app]. f_equal. apply IH. intros y d' Hd. apply Hall. cbn. rewrite E. by right.
  - apply IH. intros y d' Hd. apply Hall. cbn. by rewrite E.
Qed.

(** A label without a text, or one that CloudWatch refuses, loses the points of
    the metric. *)
Lemma unusable_label_lost x m kv :
  kv ∈ metric_dimensions (kem_labels m) -> dimension_limits kv = false -> taken x [m] = [].
Proof.
  intros Hkv Hbad. cbn [taken]. rewrite app_nil_r. destruct (datum_of m) as [d|] eqn:E; [|done].
  destruct (accepts x d) eqn:Ea; [|done]. exfalso. apply accepts_limits in Ea. unfold datum_limits in Ea.
  apply andb_true_iff in Ea as [_ Ea]. rewrite forallb_forall in Ea. specialize (Ea kv). rewrite Hbad in Ea.
  enough (false = true) by done. apply Ea, list_elem_of_In. unfold datum_of in E.
  destruct (kem_timestamp m), (float_of (kem_value m)); try done. by injection E as <-.
Qed.

Lemma export_run m t x :
  dumpable m -> kem_timestamp m = Some t ->
  exists x', export m x = (Ok tt, x') /\
    metric_data x' = (metric_data x ++
      map (pair NAMESPACE) match datum_of m with Some d => if accepts x d then [d] else [] | None => [] end)%list.
Proof.
  intros Hm Ht. unfold export, metrics_json_deserializer, decode_utf8. rewrite metric_text. cbn [res_bind].
  rewrite (metric_read_back m t) by done. unfold exporter_handle, try_except, export_event, datum_of. cbn [me_labels me_value me_name me_timestamp].
  rewrite Ht, bind_lift_ok. destruct (float_of (kem_value m)) as [v|e]; [|exists x; cbn; by rewrite app_nil_r].
  rewrite bind_lift_ok. unfold bind. set (d := mkDatum _ _ _ _ _ _ _).
  pose proof (put_metric_data_law NAMESPACE d x) as Hx1.
  assert (E : map (pair NAMESPACE) (if accepts x d then [d] else []) = if accepts x d then [(NAMESPACE, d)] else [])
    by by destruct (accepts x d).
  rewrite E. destruct (put_metric_data NAMESPACE [d] x) as [[[]|e] x1]; cbn [snd] in Hx1; [|by exists x1].
  match goal with |- context [check_dashboard ?labels ?n x1] => pose proof (check_dashboard_data labels n x1) as Hx2;
    destruct (check_dashboard labels n x1) as [[[]|e] x2] end; exists x2; cbn in Hx2 |- *; by rewrite Hx2, Hx1.
Qed.

(** Each record of the topic is exported, whatever became of the ones before. *)
Lemma exporter_records_run topic ms x :
  Forall dumpable ms -> Forall (fun m => is_Some (kem_timestamp m)) ms ->
  exists x', exporter_records float_of topic [(topic, map metric_to_json ms)] x = (Ok tt, x') /\
    metric_data x' = (metric_data x ++ map (pair NAMESPACE) (taken x ms))%list.
Proof.
  intros Hd Ht. unfold exporter_records. cbn [for_each]. rewrite String.eqb_refl. unfold bind at 1.
  assert (Hrun : exists x', for_each (fun bytes => exporter_handle float_of (metrics_json_deserializer bytes)) (map metric_to_json ms) x = (Ok tt, x') /\
    metric_data x' = (metric_data x ++ map (pair NAMESPACE) (taken x ms))%list); [|destruct Hrun as (x' & -> & Hx'); by exists x'].
  revert x. induction Hd as [|m ms Hm _ IH]; intros x; [exists x; cbn; by rewrite app_nil_r|].
  inversion_clear Ht as [|? ? [t Hm'] Hms]. cbn [map for_each taken]. unfold bind.
  destruct (export_run m t x Hm Hm') as (x1 & E & Hx1). rewrite E. unfold export in E. rewrite E. cbn [snd].
  destruct (IH Hms x1) as (x2 & -> & Hx2). exists x2. split; [done|]. by rewrite Hx2, Hx1, <- app_assoc, <- map_app.
Qed.
End Exported.

(** ** From the log to Kafka *)

Section EndToEnd.
Context {F : PyFloat} {X : Type} {R : Re} {W : PusherWorld X}.
Context (read_namespaced_pod_log : string -> string -> option string -> M Client (list string)).
Context (float_text : spec_float -> string) (ex : nat -> bool).

(** The extractor's [emit] is the client library's, over the FIFO. *)
Definition pipe_emit : jval -> M Client (option unit) := emit_to_fifo (default_config ex) float_text 22.

Lemma emit_all_each l c c' :
  emit_all (default_config ex) float_text 22 l c = (Ok (Some tt), c') ->
  for_each (fun m => pipe_emit m ;; ret tt) l c = (Ok tt, c').
Proof.
  revert c. induction l as [|m l IH]; intros c; [by intros [= <-]|].
  cbn [emit_all for_each]. unfold bind, pipe_emit.
  destruct (emit_to_fifo _ _ _ m c) as [[[[]|]|e] c1]; [apply IH|done|done].
Qed.

(** What a record says, its time apart. *)
Definition told (m : KafkaExporterMetric) : string * jval * dict string string := (kem_name m, kem_value m, kem_labels m).

(** A metric with the labels of the benchmark. *)
Definition labelled (labels : dict string string) (kv : string * jval) : string * jval * dict string string := (kv.1, kv.2, labels).

(** Every record of the pusher has a time. *)
Definition timed (m : KafkaExporterMetric) : Prop := is_Some (kem_timestamp m).

Context (sends : X -> list (string * option string * KafkaExporterMetric)).
Context (send_appends : forall topic m key x,
  (producer_send topic m key x).1 = Ok tt /\
  sends (producer_send topic m key x).2 = (sends x ++ [(topic, key, m)])%list).
Context (clock_runs : forall x, is_ok (utcnow_timestamp x).1 = true /\ sends (utcnow_timestamp x).2 = sends x).
Context (close_runs : forall x, (producer_close x).1 = Ok tt /\ sends (producer_close x).2 = sends x).

Definition items (m : jval) : list (string * jval) := match m with JObj d => d | _ => [] end.

(** Records on a topic with a key. *)
Definition addressed (topic : string) (key : option string) (m : KafkaExporterMetric) := (topic, key, m).

Lemma kafka_emit_sends labels topic key m x :
  is_metrics m = true -> exists records,
  (kafka_emit labels topic key m x).1 = Ok tt /\
  sends (kafka_emit labels topic key m x).2 = (sends x ++ map (addressed topic key) records)%list /\
  map told records = map (labelled labels) (items m) /\ Forall timed records.
Proof using send_appends clock_runs.
  intros Hm. unfold kafka_emit, bind. destruct (clock_runs x) as [Hok Hs].
  destruct (utcnow_timestamp x) as [[now|e] x1]; [|done]. cbn in Hs. rewrite <- Hs.
  destruct m as [| | | | | | | |d]; try done. cbn [items]. clear Hm Hs Hok.
  exists (map (fun kv => mkExporterMetric _ kv.1 kv.2 (Some (now * 1000)) labels) d). revert x1.
  induction d as [|kv d IH]; intros x1; cbn [for_each map]; [split_and!; [done|by rewrite app_nil_r|done|done]|].
  unfold bind. set (r := mkExporterMetric _ _ _ _ _).
  destruct (send_appends topic r key x1) as [Hx1 Hx2].
  destruct (producer_send topic r key x1) as [r1 x2]. cbn in Hx1, Hx2. subst r1.
  destruct (IH x2) as (Hx3 & Hx4 & Hx5 & Hx6). split_and!; [done| |by rewrite Hx5|constructor; [by eexists|done]].
  rewrite Hx4, Hx2, <- app_assoc. done.
Qed.

Lemma kafka_emits_sends action_id client_id labels topic key ms x :
  Forall (fun m => is_metrics m = true) ms ->
  exists x1 records, for_each (emit (KafkaBackend action_id client_id labels topic key)) ms x = (Ok tt, x1) /\
  sends x1 = (sends x ++ map (addressed topic key) records)%list /\
  map told records = concat (map (fun m => map (labelled (kafka_labels action_id client_id labels)) (items m)) ms) /\
  Forall timed records.
Proof using send_appends clock_runs.
  intros Hms. revert x. induction Hms as [|m ms Hm Hms IH]; intros x.
  - exists x, []. cbn. by rewrite app_nil_r.
  - cbn [for_each map concat]. unfold bind. cbn [emit KafkaBackend].
    destruct (kafka_emit_sends (kafka_labels action_id client_id labels) topic key m x Hm) as (rs & Hx1 & Hx2 & Hx3 & Hx4).
    destruct (kafka_emit _ _ _ m x) as [r x1]. cbn in Hx1, Hx2. subst r.
    destruct (IH x1) as (x2 & rs' & Hx5 & Hx6 & Hx7 & Hx8). exists x2, (rs ++ rs')%list.
    split; [exact Hx5|]. split; [by rewrite Hx6, Hx2, map_app, <- app_assoc|].
    split; [by rewrite map_app, Hx3, Hx7|by apply Forall_app].
Qed.

Lemma concat_map_concat {A B C} (f : B -> list C) (g : A -> list B) l :
  concat (map f (concat (map g l))) = concat (map (fun x => concat (map f (g x))) l).
Proof. induction l as [|x l IH]; [done|]. cbn. by rewrite map_app, concat_app, IH. Qed.

(** What is said about the matches of a line. *)
Definition matches (labels : dict string string) (ms : Patterns) (line : string) : list (string * jval * dict string string) :=
  concat (map (fun mp : Metric * pattern =>
    map (fun m => labelled labels (json_key (name mp.1), m)) (findall mp.2 line)) (dict_values ms)).

Lemma emissions_matches labels (ms : Patterns) line :
  concat (map (fun m => map (labelled labels) (items m)) (emissions ms line)) = matches labels ms line.
Proof.
  unfold emissions, matches. rewrite concat_map_concat. f_equal. apply map_ext. intros mp. rewrite map_map. cbn [items map].
  induction (findall mp.2 line) as [|m l IH]; [done|]. cbn. by rewrite IH.
Qed.

(** The metrics of a whole log. *)
Definition log_metrics (ms : Patterns) (stream : list string) : list jval := concat (map (emissions ms) stream).

Lemma log_metrics_wf (ms : Patterns) stream :
  finds_text ->
  Forall (fun mp : Metric * pattern => utf8_valid (json_key (name mp.1)) = true) (dict_values ms) ->
  Forall (fun line => utf8_valid line = true) stream ->
  Forall (fun m => is_metrics m = true /\ jwf m = true) (log_metrics ms stream).
Proof.
  intros Htext Hnames Hstream. apply Forall_concat, Forall_fmap. eapply Forall_impl; [exact Hstream|]. intros line Hline.
  cbn. apply Forall_and. split; [|by apply emissions_wf].
  unfold emissions. apply Forall_concat, Forall_fmap, Forall_forall. intros mp _. cbn. apply Forall_fmap, Forall_forall. done.
Qed.

(** With the FIFO there, the extractor writes the metrics of the log. *)
Lemma listen_writes options (ms : Patterns) stream :
  ms <> [] -> ex 0%nat = true ->
  (forall p n c, read_namespaced_pod_log p n c client0 = (Ok stream, client0)) ->
  finds_text ->
  Forall (fun mp : Metric * pattern => utf8_valid (json_key (name mp.1)) = true) (dict_values ms) ->
  Forall (fun line => utf8_valid line = true) stream ->
  exists c, listen read_namespaced_pod_log pipe_emit options ms client0 = (Ok tt, c) /\
    emit_all (default_config ex) float_text 22 (log_metrics ms stream) client0 = (Ok (Some tt), c).
Proof.
  intros Hms Hex Hlog Htext Hnames Hstream. pose proof (log_metrics_wf ms stream Htext Hnames Hstream) as Hl.
  assert (Hall : exists c, emit_all (default_config ex) float_text 22 (log_metrics ms stream) client0 = (Ok (Some tt), c)).
  { destruct Hl as [|m l' [Hm _] Hl']; [by eexists|].
    cbn [emit_all]. unfold bind. rewrite emit_first by done.
    replace (first_seen ex (cl_slept client0) 21) with 0%nat by (cbn; by rewrite Hex).
    change (0 + cl_slept client0)%nat with 0%nat. rewrite Hex. cbn match. eexists.
    eapply emit_all_open; [reflexivity|]. apply forallb_forall. intros v Hv. apply list_elem_of_In in Hv.
    by destruct (proj1 (Forall_forall _ _) Hl' v Hv). }
  destruct Hall as [c Hc]. exists c. split; [|done].
  unfold listen. destruct ms as [|mp ms']; [done|]. unfold bind, get_log_stream, MAX_ATTEMPTS. cbn [log_attempts].
  unfold bind, try_except, kubectl_logs. rewrite Hlog. cbn. rewrite match_lines_run by done. by apply emit_all_each.
Qed.

(** Records that say what well-formed metrics hold can be dumped. *)
Lemma told_dumpable labels l records :
  labels_dumpable labels -> Forall (fun m => is_metrics m = true /\ jwf m = true) l ->
  map told records = concat (map (fun m => map (labelled labels) (items m)) l) -> Forall dumpable records.
Proof.
  intros Hlabels Hl Htold.
  assert (Hok : Forall (fun t : string * jval * dict string string => utf8_valid t.1.1 = true /\ jwf t.1.2 = true /\ labels_dumpable t.2)
    (map told records)).
  { rewrite Htold. apply Forall_concat, Forall_fmap. eapply Forall_impl; [exact Hl|]. intros m [Hm Hwf].
    cbn. apply Forall_fmap. destruct m as [| | | | | | | |d]; try done. cbn in Hwf |- *.
    apply Forall_forall. intros [k v] Hkv. cbn.
    apply andb_true_iff in Hwf as [_ Hwf]. rewrite forallb_forall in Hwf. apply list_elem_of_In in Hkv.
    apply Hwf, andb_true_iff in Hkv as [Hk Hv]. by split_and!. }
  rewrite Forall_fmap in Hok. eapply Forall_impl; [exact Hok|]. by intros m.
Qed.

Context `{!MetricsJson} `{!MetricsJsonLaws} {E : Type} `{!CloudWatch E} `{!MetricStore E}.
Context (float_of : jval -> Res pyfloat).

(** C6: end to end: every match of every pattern in the log becomes exactly
    one record on the pusher's topic, with the metric's name, the matched text
    and the benchmark's labels, in the order of the log, of the metrics and of
    the matches; and the exporter that reads the topic puts one data point into
    CloudWatch for each record whose text is a number and whose point
    CloudWatch accepts when it is put, in that order, and survives the others.
    No point beyond the documented limits on texts is made, and when CloudWatch
    accepts every point, each record with a number has its own. *)
Theorem metrics_end_to_end options (ms : Patterns) stream action_id client_id labels topic key path x (cw : E)
    (Hms : ms <> []) (Htext : finds_text) (Hex : ex 0%nat = true) (Hpath : path <> NotFifo)
    (Hnames : Forall (fun mp : Metric * pattern => utf8_valid (json_key (name mp.1)) = true) (dict_values ms))
    (Hlabels : labels_dumpable (kafka_labels action_id client_id labels))
    (Hlog : forall p n c, read_namespaced_pod_log p n c client0 = (Ok stream, client0))
    (Hstream : Forall (fun line => utf8_valid line = true) stream) :
  let extracted := listen read_namespaced_pod_log pipe_emit options ms client0 in
  let pushed := start_loop (KafkaBackend action_id client_id labels topic key) never
                  (mkPusher path (cl_written extracted.2) 0 false x) in
  extracted.1 = Ok tt /\ pushed.1 = Ok (Some tt) /\
  exists records,
    sends (pu_ext pushed.2) = (sends x ++ map (addressed topic key) records)%list /\
    map told records = concat (map (matches (kafka_labels action_id client_id labels) ms) stream) /\
    Forall timed records /\
    exists cw', exporter_records float_of topic [(topic, map metric_to_json records)] cw = (Ok tt, cw') /\
      metric_data cw' = (metric_data cw ++ map (pair NAMESPACE) (taken float_of cw records))%list /\
      Forall (fun d => datum_limits d = true) (taken float_of cw records) /\
      ((forall y d, d ∈ omap (datum_of float_of) records -> accepts y d = true) ->
       taken float_of cw records = omap (datum_of float_of) records).
Proof using All.
  pose proof (log_metrics_wf ms stream Htext Hnames Hstream) as Hl.
  destruct (listen_writes options ms stream Hms Hex Hlog Htext Hnames Hstream) as (c & He & Hc).
  cbv zeta. rewrite He. cbn [snd fst]. split; [done|].
  destruct (kafka_emits_sends action_id client_id labels topic key (log_metrics ms stream) x)
    as (x1 & records & Hx1 & Hx2 & Htold & Htimed).
  { eapply Forall_impl; [exact Hl|]. by intros ? [? _]. }
  destruct (close_runs x1) as [Hc1 Hc2]. destruct (producer_close x1) as [rc x2] eqn:Ecl. cbn in Hc1, Hc2. subst rc.
  pose proof (pipe_delivers (KafkaBackend action_id client_id labels topic key) float_text ex
    (log_metrics ms stream) path x x1 x2 Hl Hex Hpath Hx1 Ecl) as Hp.
  rewrite Hc in Hp. cbn [snd] in Hp. rewrite Hp. cbn [fst snd pu_ext]. split; [done|].
  exists records. rewrite Hc2, Hx2. split; [done|]. split.
  - rewrite Htold. unfold log_metrics. rewrite concat_map_concat. f_equal. apply map_ext. intros line. apply emissions_matches.
  - split; [exact Htimed|]. destruct (exporter_records_run float_of topic records cw) as (cw' & Hrun & Hdata);
      [by eapply told_dumpable|exact Htimed|]. exists cw'. split_and!; [exact Hrun|exact Hdata|apply taken_limits|apply taken_all].
Qed.
End EndToEnd.

Module Witness.
#[local] Existing Instance literal_floats.
#[local] Existing Instance MetricsExtractor.Witness.literal_re.

(** The JSON of a record. *)
Definition record_json (m : KafkaExporterMetric) : jval :=
  JObj [("name", JStr (kem_name m)); ("value", kem_value m);
        ("timestamp", match kem_timestamp m with Some t => JInt t | None => JNull end);
        ("labels", JObj (map (fun kv => (kv.1, JStr kv.2)) (kem_labels m)))].

Definition label_pair (kv : string * jval) : option (string * string) :=
  match kv with (k, JStr v) => Some (k, v) | _ => None end.

Definition read_record (text : string) : Res MetricsMessage :=
  match json_loads text with
  | Ok (JObj [(_, JStr n); (_, v); (_, JInt t); (_, JObj labels)]) => Ok (mkMetrics _ n v t (Some (omap label_pair labels)))
  | _ => Raise (ValueError "not a record")
  end.

#[local] Instance record_codec : MetricsJson := {| metric_to_json m := jdumps (record_json m); metric_from_json := read_record |}.

Lemma record_jwf m t : dumpable m -> kem_timestamp m = Some t -> jwf (record_json m) = true.
Proof.
  intros (Hn & Hv & Hl & Hd) Ht. unfold record_json. rewrite Ht. cbn [jwf forallb fst snd]. rewrite Hn, Hv.
  rewrite bool_decide_true by (repeat constructor; set_solver).
  replace (forallb _ (map _ (kem_labels m))) with true.
  - rewrite bool_decide_true; [done|]. rewrite <- list_fmap_compose. exact Hd.
  - symmetry. apply forallb_forall. intros ? ([k v] & <- & Hkv)%in_map_iff. unfold labels_text in Hl. rewrite Forall_forall in Hl.
    destruct (Hl (k, v)) as [Hk Hv']; [by apply list_elem_of_In|]. apply andb_true_iff. done.
Qed.

#[local] Instance record_laws : MetricsJsonLaws.
Proof.
  constructor.
  - intros m. apply ascii_utf8. eapply str_forall_impl; [|apply jdumps_printable]. unfold printable. intros c ?. lia.
  - intros m t Hm Ht. cbn [metric_to_json metric_from_json record_codec]. unfold read_record.
    rewrite loads_dumps by (by eapply record_jwf). unfold record_json. rewrite Ht. repeat f_equal.
    induction (kem_labels m) as [|[k v] l IH]; [done|]. cbn in *. by rewrite IH.
Defined.

(** The records that were sent. *)
#[local] Instance world : PusherWorld (list (string * option string * KafkaExporterMetric)) := {|
  new_producer _ := ret tt;
  producer_send t m k := modify (fun w => (w ++ [(t, k, m)])%list);
  producer_close := ret tt;
  utcnow_timestamp := ret 1500000000;
  utcnow_isoformat := ret "2020-01-01T00:00:00";
  es_index _ := ret tt;
  log_info _ := ret tt
|}.

(** The data points that were put; one beyond the limits is refused. *)
#[local] Instance cloud : CloudWatch (list (string * MetricDatum)) := {|
  put_metric_data ns data := fun w =>
    if forallb datum_limits data then (Ok tt, (w ++ map (pair ns) data)%list)
    else (Raise (ClientError "InvalidParameterValue"), w);
  list_dashboards := ret [];
  get_dashboard _ := raise (ClientError "ResourceNotFound");
  put_dashboard _ _ := ret "{}"
|}.

#[local] Instance cloud_data : MetricStore (list (string * MetricDatum)).
Proof.
  refine {| metric_data w := w; accepts _ d := datum_limits d |}; try done.
  intros ns d w. cbn [put_metric_data cloud forallb]. rewrite andb_true_r. destruct (datum_limits d); [done|].
  by rewrite app_nil_r.
Defined.

(** Three metrics: one whose text is a number, one whose text is none, and one
    without a name, which CloudWatch refuses. *)
Definition metric_of (name regex : string) : Metric := mkM _ (JStr name) (JStr regex) (JStr "").
Definition metrics0 : list (Metric * string) :=
  [(metric_of "accuracy" "MQ==", "1"); (metric_of "loss" "YWNj", "acc"); (metric_of "" "MQ==", "1")].
Definition patterns0 : Patterns := map (fun mp => (metric_key mp.1, mp)) metrics0.
Definition options0 : LogExtractorOptions := mkOptions _ "pod" "default" [] (Some "benchmark").
Definition labels0 : dict string string := [("action-id", "action"); ("client-id", "client"); ("task_name", "t")].
Definition stream0 : list string := ["acc=1"; "done"].

(** [float] of the texts. *)
Definition float0 (v : jval) : Res pyfloat :=
  match v with
  | JStr "1" => Ok (literal_of "1.0")
  | _ => Raise (ValueError "could not convert string to float")
  end.

(** What becomes of the three records. *)
Lemma taken0 w records :
  map told records = [("accuracy", JStr "1", labels0); ("loss", JStr "acc", labels0); ("", JStr "1", labels0)] ->
  Forall timed records ->
  map (fun d => (md_name d, md_dimensions d)) (taken float0 w records) = [("accuracy", [("task_name", "t")])].
Proof.
  intros Htold Ht. destruct records as [|[n1 v1 t1 l1] [|[n2 v2 t2 l2] [|[n3 v3 t3 l3] [|? ?]]]]; try done.
  cbn in Htold. injection Htold as -> -> -> -> -> -> -> -> ->.
  inversion_clear Ht as [|? ? [t1' E1] Ht2]. inversion_clear Ht2 as [|? ? [t2' E2] Ht3]. inversion_clear Ht3 as [|? ? [t3' E3] _].
  cbn in E1, E2, E3. subst. reflexivity.
Qed.

Lemma metrics_end_to_end_witness :
  let extracted := listen (fun _ _ _ => ret stream0) (pipe_emit (fun _ => "0.500000") (fun _ => true)) options0 patterns0 client0 in
  let pushed := start_loop (KafkaBackend "action" "client" [("task_name", "t")] "BAI_METRICS" (Some "client")) never
                  (mkPusher Missing (cl_written extracted.2) 0 false []) in
  extracted.1 = Ok tt /\ pushed.1 = Ok (Some tt) /\
  exists records, pu_ext pushed.2 = map (addressed "BAI_METRICS" (Some "client")) records /\
  map told records = [("accuracy", JStr "1", labels0); ("loss", JStr "acc", labels0); ("", JStr "1", labels0)] /\
  exists cw, exporter_records float0 "BAI_METRICS" [("BAI_METRICS", map metric_to_json records)] [] = (Ok tt, cw) /\
    map (fun p => (p.1, md_name p.2, md_dimensions p.2)) cw = [(NAMESPACE, "accuracy", [("task_name", "t")])].
Proof.
  destruct (metrics_end_to_end (fun _ _ _ => ret stream0) (fun _ => "0.500000") (fun _ => true) (fun w => w)
           ltac:(done) ltac:(done) ltac:(done) float0
           options0 patterns0 stream0 "action" "client" [("task_name", "t")] "BAI_METRICS" (Some "client")
           Missing [] []) as (H1 & H2 & records & H3 & H4 & H5 & cw & H6 & H7 & _); try done.
  - apply MetricsExtractor.Witness.literal_re_text.
  - repeat constructor.
  - split; [repeat constructor|]. repeat constructor; set_solver.
  - repeat constructor.
  - split; [exact H1|]. split; [exact H2|]. exists records. split; [exact H3|]. split; [exact H4|]. exists cw. split; [exact H6|].
    cbn [metric_data cloud_data app] in H7. rewrite H7, map_map. cbn [fst snd].
    pose proof (taken0 [] records H4 H5) as Ht. apply (f_equal (map (fun x => (NAMESPACE, x.1, x.2)))) in Ht.
    rewrite map_map in Ht. exact Ht.
Defined.
End Witness.
