(* ===== verification/BaiClient.v ===== *)
(** * The client of the REST service (blackbox-tests/src/bai_client/client.py)

    Submitting a descriptor and reading the status messages of a benchmark.  The
    machine of the user and the HTTP session are the class [ClientWorld]; the
    JSON codec of events is the class of KafkaClient.v; that it finds the members of
    a status message by their names is [StatusJson]. *)

From S2P Require Import Prelude PyStr PyLib Json Events MetricsExtractor KafkaClient.

#[local] Arguments String.append !_ _ /.

Record Response := mkResponse { status_code : Z; reason : string; response_text : string }.

(** [environ] raises [KeyError] for a variable that is not set; [copy2] gives the
    destination; [file_text] reads with universal newlines, [file_bytes] without;
    [utcnow] is the formatted date, and the seconds of its time stamp. *)
Class ClientWorld (X : Type) : Type := {
  environ : string -> M X string;
  copy2 : string -> string -> M X string;
  makedirs : string -> M X unit;
  file_exists : string -> M X bool;
  file_text : string -> M X string;
  file_bytes : string -> M X string;
  getuser : M X string;
  gethostname : M X string;
  uuid4 : M X string;
  utcnow : M X (string * Z);
  http_get : string -> M X Response;
  post_file : string -> string -> string -> M X Response
}.

(** [SubmitEvent]; its payload is a [BenchmarkDoc]. *)
Record SubmitEvent := mkSubmit {
  se_message_id : string;
  se_client_id : string;
  se_client_version : string;
  se_client_sha1 : string;
  se_client_username : string;
  se_date : string;
  se_visited : list VisitedService;
  se_toml : BenchmarkDoc
}.

Definition CLIENT_SERVICE_NAME : string := "anubis-client".
Definition CLIENT_VERSION : string := "0.1.0".

(** [str(Path(s))]: empty and [.] parts go; two leading slashes stay two. *)
Definition path_root (s : string) : string :=
  if startswith "///" s then "/" else if startswith "//" s then "//" else if startswith "/" s then "/" else "".

Definition path_str (s : string) : string :=
  match path_root s, List.filter (fun part => negb (String.eqb part "" || String.eqb part ".")) (split_char "/" s) with
  | "", [] => "."
  | root, parts => root +:+ join "/" parts
  end.

(** [Path(a).joinpath(b)]. *)
Definition path_join (a b : string) : string :=
  path_str (if startswith "/" b || String.eqb a "" then b else if endswith "/" a then a +:+ b else a +:+ "/" +:+ b).

(** The characters of a text, and what a [for] loop over a value goes through. *)
Fixpoint str_chars (s : string) : list string :=
  match s with
  | "" => []
  | String c s' =>
      match str_chars s' with
      | String c' t :: l => if is_cont c' then String c (String c' t) :: l else String c "" :: String c' t :: l
      | l => String c "" :: l
      end
  end.

Definition jiter {F : PyFloat} (v : jval) : Res (list jval) :=
  match v with
  | JList l => Ok l
  | JObj d => Ok (map (fun kv => JStr kv.1) d)
  | JStr s => Ok (map JStr (str_chars s))
  | _ => Raise (TypeError "object is not iterable")
  end.

Section Client.
Context {F : PyFloat} `{ClientWorld X} (sha1 : string -> string).

(** [get_client_id]. *)
Definition get_client_id : M X string :=
  username <- getuser ;;
  hostname <- gethostname ;;
  ret (sha1 (username +:+ "+" +:+ hostname)).

(** [create_submit_event]. *)
Definition create_submit_event (descriptor_filename : string) : M X SubmitEvent :=
  '(date, timestamp) <- utcnow ;;
  text <- file_text descriptor_filename ;;
  bytes <- file_bytes descriptor_filename ;;
  message_id <- uuid4 ;;
  client_id <- get_client_id ;;
  hashed_user <- getuser ;;
  user <- getuser ;;
  ret (mkSubmit (upper message_id) client_id CLIENT_VERSION (sha1 hashed_user) user date
    [mkVisited CLIENT_SERVICE_NAME (timestamp * 1000) CLIENT_VERSION None]
    (mkDoc [] (b64encode bytes) (sha1 text) (Some descriptor_filename) (Some false))).

(** [to_dict], and the three keys that are deleted. *)
Definition jopt (o : option string) : jval := match o with Some s => JStr s | None => JNull end.

Definition visited_to_dict (v : VisitedService) : dict string jval :=
  [("svc", JStr (vs_svc v)); ("tstamp", JInt (vs_tstamp v)); ("version", JStr (vs_version v)); ("node", jopt (vs_node v))].

Definition toml_to_dict (d : BenchmarkDoc) : dict string jval :=
  [("contents", JObj []); ("doc", JStr (doc_doc d)); ("sha1", JStr (doc_sha1 d));
   ("descriptor_filename", jopt (doc_descriptor_filename d));
   ("verified", match doc_verified d with Some b => JBool b | None => JNull end)].

Definition del_first_node (visited : list VisitedService) : list jval :=
  match visited with
  | [] => []
  | v :: rest => JObj (dict_pop (visited_to_dict v) "node") :: map (fun v => JObj (visited_to_dict v)) rest
  end.

Definition submit_to_dict (e : SubmitEvent) : jval :=
  JObj [("message_id", JStr (se_message_id e)); ("client_id", JStr (se_client_id e));
        ("client_version", JStr (se_client_version e)); ("client_sha1", JStr (se_client_sha1 e));
        ("client_username", JStr (se_client_username e)); ("date", JStr (se_date e));
        ("visited", JList (del_first_node (se_visited e)));
        ("payload", JObj [("toml", JObj (dict_pop (dict_pop (toml_to_dict (se_toml e)) "contents") "verified"))])].

(** [_handle_response]. *)
Definition handle_response (response : Response) : M X unit :=
  if status_code response =? 200 then ret tt
  else raise (ValueError ("Bad response: " +:+ pretty (status_code response) +:+ " - " +:+ reason response)).

(** [__init__]: the end point, given or that of the last build. *)
Definition client_endpoint (given : option string) : M X string :=
  match given with
  | Some endpoint => ret endpoint
  | None =>
      src <- environ "CODEBUILD_SRC_DIR_service_endpoint_bai_bff" ;;
      home <- environ "HOME" ;;
      let artifact := path_str (src +:+ "/bai-bff/service_endpoint") in
      let anubis_home := path_join home ".anubis" in
      found <- file_exists anubis_home ;;
      (if found then ret tt else makedirs anubis_home) ;;
      service_endpoint_file <- copy2 artifact (path_str (anubis_home +:+ "/service_endpoint")) ;;
      copied <- file_exists service_endpoint_file ;;
      if copied then
        text <- file_text service_endpoint_file ;;
        ret ("http://" +:+ py_replace (String "010" "") "" (py_replace (String "034" "") "" text))
      else
        has_artifact <- file_exists artifact ;;
        if negb has_artifact then raise (OtherException "Exception" ("artifact_output_file not found at " +:+ artifact))
        else raise (OtherException "Exception" ("service_endpoint not found at " +:+ service_endpoint_file))
  end.

Context (endpoint : string).

(** [submit]: the action id. *)
Definition submit (descriptor_filename : string) : M X string :=
  found <- file_exists descriptor_filename ;;
  if negb found then raise (ValueError ("Descriptor file does not exist: " +:+ path_str descriptor_filename))
  else
    event <- create_submit_event descriptor_filename ;;
    response <- post_file (endpoint +:+ "/api/job/descriptor") "submit-event" (jdumps (submit_to_dict event)) ;;
    handle_response response ;;
    ret (response_text response).

(** [_convert_status_json_response]; [d["visited"][-1]["svc"]] for a message that
    cannot be read. *)
Definition last_service (d : jval) : Res jval :=
  visited <~ jget d "visited" ;;
  last <~ match visited with
          | JList l => match List.rev l with x :: _ => Ok x | [] => Raise (IndexError "list index out of range") end
          | _ => Raise (TypeError "not a list")
          end ;;
  jget last "svc".

Fixpoint convert_messages `{EventJson} (messages : list jval) : Res (list Event) :=
  match messages with
  | [] => Ok []
  | d :: rest =>
      match from_json StatusMessageBenchmarkEvent (jdumps d) with
      | Ok e => es <~ convert_messages rest ;; Ok (e :: es)
      | Raise (KeyError k) =>
          svc <~ last_service d ;;
          if (match svc with JStr s => String.eqb s "bai-bff" | _ => false end) then convert_messages rest
          else Raise (KeyError k)
      | Raise e => Raise e
      end
  end.

Definition convert_status_json_response `{EventJson} (json_string : string) : Res (list Event) :=
  status_messages <~ json_loads json_string ;;
  messages <~ jiter status_messages ;;
  convert_messages messages.

(** [status]: [None] for a benchmark that is not known. *)
Definition status `{EventJson} (action_id : string) (client_id : option string) : M X (option (list Event)) :=
  client_id <- match client_id with Some c => ret c | None => get_client_id end ;;
  response <- http_get (endpoint +:+ "/api/job/" +:+ client_id +:+ "/" +:+ action_id +:+ "?since=0") ;;
  if status_code response =? 404 then ret None
  else
    handle_response response ;;
    messages <- lift (convert_status_json_response (response_text response)) ;;
    ret (Some messages).

(** [ping]; the retries are those of the session. *)
Definition ping : M X Z :=
  response <- http_get (endpoint +:+ "/ready") ;;
  handle_response response ;;
  ret (status_code response).
End Client.

(** ** The specification *)

(** A machine whose readings are those of its files and its user; only [post_file]
    is seen by the server. *)
Class ClientLaws `{ClientWorld X} : Type := {
  files : X -> string -> option (string * string);
  user_of : X -> string;
  host_of : X -> string;
  posts : X -> list (string * string);
  server_text : X -> string -> Response;
  same_machine : X -> X -> Prop := fun x y =>
    files y = files x /\ user_of y = user_of x /\ host_of y = host_of x /\ server_text y = server_text x;
  file_exists_law : forall p x, file_exists p x = (Ok (bool_decide (is_Some (files x p))), x);
  file_text_law : forall p x text bytes, files x p = Some (text, bytes) -> file_text p x = (Ok text, x);
  file_bytes_law : forall p x text bytes, files x p = Some (text, bytes) -> file_bytes p x = (Ok bytes, x);
  getuser_law : forall x, getuser x = (Ok (user_of x), x);
  gethostname_law : forall x, gethostname x = (Ok (host_of x), x);
  uuid4_law : forall x, exists u x', uuid4 x = (Ok u, x') /\ str_forall (fun c => byte c <? 128) u = true /\
    same_machine x x' /\ posts x' = posts x;
  utcnow_law : forall x, exists d t, utcnow x = (Ok (d, t), x) /\ utf8_valid d = true;
  http_get_law : forall url x, http_get url x = (Ok (server_text x url), x);
  post_file_law : forall url field body x, exists r x', post_file url field body x = (Ok r, x') /\
    same_machine x x' /\ posts x' = (posts x ++ [(url, body)])%list
}.

Lemma upper_ascii s : str_forall (fun c => byte c <? 128) s = true -> str_forall (fun c => byte c <? 128) (upper s) = true.
Proof.
  unfold upper. induction s as [|c s IH]; [done|]. cbn [str_forall str_map]. intros [Hc Hs]%andb_true_iff.
  rewrite (IH Hs), andb_true_r. clear IH Hs. by destruct c as [[] [] [] [] [] [] [] []].
Qed.

Lemma upper_text u : str_forall (fun c => byte c <? 128) u = true -> utf8_valid (upper u) = true.
Proof. intros H. by apply ascii_utf8, upper_ascii. Qed.

(** The member of an object at the end of a path of keys. *)
Definition jgets {F : PyFloat} (v : jval) (path : list string) : Res jval :=
  fold_left (fun r k => o <~ r ;; jget o k) path (Ok v).

Section Submission.
Context {F : PyFloat} `{ClientLaws X} (sha1 : string -> string) (sha1_text : forall s, utf8_valid (sha1 s) = true).
Context (endpoint : string).

(** The identity of the user on the machine. *)
Definition client_of (x : X) : string := sha1 (user_of x +:+ "+" +:+ host_of x).

Lemma get_client_id_run x : get_client_id sha1 x = (Ok (client_of x), x).
Proof. unfold get_client_id, bind. by rewrite getuser_law, gethostname_law. Qed.

(** The message of a file, but for its own identifier and its time. *)
Lemma create_submit_event_run p text bytes x :
  files x p = Some (text, bytes) ->
  exists u d t x', create_submit_event sha1 p x =
    (Ok (mkSubmit (upper u) (client_of x) CLIENT_VERSION (sha1 (user_of x)) (user_of x) d
           [mkVisited CLIENT_SERVICE_NAME (t * 1000) CLIENT_VERSION None]
           (mkDoc [] (b64encode bytes) (sha1 text) (Some p) (Some false))), x') /\
    utf8_valid (upper u) = true /\ utf8_valid d = true /\ same_machine x x' /\ posts x' = posts x.
Proof.
  intros Hp. destruct (utcnow_law x) as (d & t & Hnow & Hd). destruct (uuid4_law x) as (u & x' & Hu & Hascii & Hx' & Hposts).
  destruct (id Hx') as (_ & Huser & Hhost & _).
  exists u, d, t, x'. split_and!; [|by apply upper_text|done|done|done].
  unfold create_submit_event. unfold bind at 1. rewrite Hnow. unfold bind at 1. rewrite (file_text_law _ _ _ _ Hp).
  unfold bind at 1. rewrite (file_bytes_law _ _ _ _ Hp). unfold bind at 1. rewrite Hu. unfold bind at 1. rewrite get_client_id_run.
  unfold bind. rewrite !getuser_law. unfold ret, client_of. by rewrite Huser, Hhost.
Qed.

Lemma visited_no_node t :
  dict_pop (visited_to_dict (mkVisited CLIENT_SERVICE_NAME t CLIENT_VERSION None)) "node" =
  [("svc", JStr CLIENT_SERVICE_NAME); ("tstamp", JInt t); ("version", JStr CLIENT_VERSION)].
Proof. reflexivity. Qed.

Lemma toml_members doc dsha p :
  dict_pop (dict_pop (toml_to_dict (mkDoc [] doc dsha (Some p) (Some false))) "contents") "verified" =
  [("doc", JStr doc); ("sha1", JStr dsha); ("descriptor_filename", JStr p)].
Proof. reflexivity. Qed.

(** What is posted is JSON when its texts are valid. *)
Lemma submit_to_dict_wf id client csha user date t doc dsha p :
  utf8_valid id = true -> utf8_valid client = true -> utf8_valid csha = true -> utf8_valid user = true ->
  utf8_valid date = true -> utf8_valid doc = true -> utf8_valid dsha = true -> utf8_valid p = true ->
  jwf (submit_to_dict (mkSubmit id client CLIENT_VERSION csha user date
    [mkVisited CLIENT_SERVICE_NAME t CLIENT_VERSION None] (mkDoc [] doc dsha (Some p) (Some false)))) = true.
Proof.
  intros Hid Hcl Hcs Hus Hda Hdo Hds Hp. unfold submit_to_dict. cbn [se_message_id se_client_id se_client_version
    se_client_sha1 se_client_username se_date se_visited se_toml del_first_node map].
  rewrite visited_no_node, toml_members. cbn [jwf forallb fst snd].
  repeat lazymatch goal with |- (_ && _) = true => apply andb_true_iff; split end;
    lazymatch goal with |- utf8_valid ?s = true => first [is_var s; assumption | vm_compute; reflexivity] | _ => vm_compute; reflexivity end.
Qed.

(** A file that is there is posted once; the server reads back an object that
    names the user and holds the bytes of the file, and none of the members that
    the front end refuses.  The action is what the server answers with 200. *)
Lemma submit_posts p text bytes x
    (Hp : files x p = Some (text, bytes)) (Hname : utf8_valid p = true) (Huser : utf8_valid (user_of x) = true) :
  exists body v doc r x', submit sha1 endpoint p x =
      ((if status_code r =? 200 then Ok (response_text r)
        else Raise (ValueError ("Bad response: " +:+ pretty (status_code r) +:+ " - " +:+ reason r))), x') /\
    posts x' = (posts x ++ [(endpoint +:+ "/api/job/descriptor", body)])%list /\ same_machine x x' /\
    json_loads body = Ok v /\
    jgets v ["client_id"] = Ok (JStr (client_of x)) /\
    jgets v ["payload"; "toml"; "doc"] = Ok (JStr doc) /\ b64decode doc = Ok bytes /\
    jgets v ["payload"; "toml"; "sha1"] = Ok (JStr (sha1 text)) /\
    jgets v ["payload"; "toml"; "contents"] = Raise (KeyError "contents") /\
    jgets v ["payload"; "toml"; "verified"] = Raise (KeyError "verified") /\
    (first <~ (l <~ jgets v ["visited"] ;; jfirst l) ;; jget first "node") = Raise (KeyError "node").
Proof.
  destruct (create_submit_event_run p text bytes x Hp) as (u & d & t & x1 & Hrun & Hu & Hd & Hx1 & Hposts1).
  set (e := mkSubmit _ _ _ _ _ _ _ _) in Hrun.
  destruct (post_file_law (endpoint +:+ "/api/job/descriptor") "submit-event" (jdumps (submit_to_dict e)) x1)
    as (r & x2 & Hpost & Hx2 & Hposts2).
  exists (jdumps (submit_to_dict e)), (submit_to_dict e), (b64encode bytes), r, x2.
  split_and!; try done.
  - unfold submit. unfold bind at 1. rewrite file_exists_law, Hp, bool_decide_true by done. cbn [negb].
    unfold bind at 1. rewrite Hrun. unfold bind at 1. rewrite Hpost. unfold bind, handle_response.
    by destruct (status_code r =? 200).
  - by rewrite Hposts2, Hposts1.
  - destruct Hx1 as (? & ? & ? & ?), Hx2 as (? & ? & ? & ?). split_and!; congruence.
  - apply loads_dumps, submit_to_dict_wf; [assumption|apply sha1_text|apply sha1_text|assumption|assumption| |apply sha1_text|assumption].
    apply ascii_utf8, b64encode_ascii.
  - apply b64decode_encode.
Qed.

Lemma submit_missing p x :
  files x p = None -> submit sha1 endpoint p x = (Raise (ValueError ("Descriptor file does not exist: " +:+ path_str p)), x).
Proof.
  intros Hp. unfold submit, bind. rewrite file_exists_law, bool_decide_false; [done|]. rewrite Hp. by intros [? ?].
Qed.
End Submission.

(** ** Reading the status *)

(** The same JSON value, but for the order of the members of its objects down to a
    depth. *)
Inductive reordered {F : PyFloat} : nat -> jval -> jval -> Prop :=
| reordered_eq n v : reordered n v v
| reordered_obj n d d' :
    (forall k, option_Forall2 (reordered n) (dict_get d k) (dict_get d' k)) -> reordered (S n) (JObj d) (JObj d').

(** [from_json] of a status message finds the members of the event, of its payload
    and of the event that it is about by their names, wherever they stand. *)
Class StatusJson {F : PyFloat} `{EventJson} : Prop :=
  status_members : forall s t v w e,
    json_loads s = Ok v -> json_loads t = Ok w -> reordered 3 v w ->
    from_json StatusMessageBenchmarkEvent s = Ok e -> from_json StatusMessageBenchmarkEvent t = Ok e.

Section Reading.
Context {F : PyFloat} `{EventJson}.

Definition read_message (d : jval) : Res Event := from_json StatusMessageBenchmarkEvent (jdumps d).

(** The messages of the front end that are passed over. *)
Definition skipped (d : jval) : bool :=
  match read_message d, last_service d with
  | Raise (KeyError _), Ok (JStr svc) => String.eqb svc "bai-bff"
  | _, _ => false
  end.

Definition message_of (d : jval) : option Event := match read_message d with Ok e => Some e | Raise _ => None end.

Definition acceptable (d : jval) : bool := is_ok (read_message d) || skipped d.

(** The result is the messages that can be read, in their order, when the others
    are ones that are passed over. *)
Lemma convert_messages_ok ms :
  Forall (fun d => acceptable d = true) ms -> convert_messages ms = Ok (omap message_of ms).
Proof.
  induction 1 as [|d ms Hd _ IH]; [done|]. cbn [convert_messages omap list_omap]. unfold acceptable, skipped, message_of in *.
  change (from_json _ (jdumps d)) with (read_message d). destruct (read_message d) as [e|[]]; cbn in Hd |- *; try done.
  { by rewrite IH. }
  destruct (last_service d) as [[]|]; try done. cbn. by rewrite Hd.
Qed.

(** One that is not acceptable makes the whole call fail. *)
Lemma convert_messages_error ms d ms' :
  Forall (fun d => acceptable d = true) ms -> acceptable d = false ->
  exists err, convert_messages (ms ++ d :: ms') = Raise err.
Proof.
  induction 1 as [|d0 ms Hd0 _ IH]; intros Hd; cbn [app convert_messages].
  - unfold acceptable, skipped in Hd. change (from_json _ (jdumps d)) with (read_message d).
    destruct (read_message d) as [e|[]]; cbn in Hd |- *; try done; try (by eexists).
    destruct (last_service d) as [[]|]; cbn; try (by eexists). cbn in Hd. rewrite Hd. by eexists.
  - destruct (IH Hd) as (err & Herr). unfold acceptable, skipped in Hd0.
    change (from_json _ (jdumps d0)) with (read_message d0). rewrite Herr.
    destruct (read_message d0) as [e|[]]; cbn in Hd0 |- *; try done; try (by eexists).
    destruct (last_service d0) as [[]|]; try done. cbn. rewrite Hd0. by eexists.
Qed.
End Reading.

Section Status.
Context {F : PyFloat} `{ClientLaws X} `{EventJsonLaws} {members : StatusJson} (sha1 : string -> string) (endpoint : string).

Definition status_url (client action : string) : string := endpoint +:+ "/api/job/" +:+ client +:+ "/" +:+ action +:+ "?since=0".

Definition status_client (x : X) (client_id : option string) : string := default (client_of sha1 x) client_id.

Lemma status_run action client x (r := server_text x (status_url (status_client x client) action)) :
  status sha1 endpoint action client x =
    (if status_code r =? 404 then Ok None
     else if status_code r =? 200 then es <~ convert_status_json_response (response_text r) ;; Ok (Some es)
     else Raise (ValueError ("Bad response: " +:+ pretty (status_code r) +:+ " - " +:+ reason r)), x).
Proof.
  assert (E : (match client with Some c => ret c | None => get_client_id sha1 end) x = (Ok (status_client x client), x)).
  { destruct client; [done|]. apply get_client_id_run. }
  unfold status. unfold bind at 1. rewrite E. unfold bind at 1. rewrite http_get_law. fold (status_url (status_client x client) action). fold r.
  destruct (status_code r =? 404); [done|]. unfold bind at 1, handle_response.
  destruct (status_code r =? 200); [|done]. unfold ret at 1, bind, lift. by destruct (convert_status_json_response _).
Qed.

(** A message of a service, as the server relays it. *)
Definition relayed (e : Event) (d : jval) : Prop :=
  encodable e /\ payload_matches StatusMessageBenchmarkEvent (payload e) = true /\
  exists v, json_loads (to_json e) = Ok v /\ reordered 3 v d.

Lemma relayed_read e d : relayed e d -> jwf d = true -> read_message d = Ok e.
Proof.
  intros (Henc & Hpay & v & Hv & Hre) Hd. eapply status_members; [exact Hv|by apply loads_dumps|exact Hre|]. by apply from_to_json.
Qed.

Lemma relayed_messages ms es :
  jwf (JList ms) = true -> Forall2 relayed es (List.filter (fun d => negb (skipped d)) ms) ->
  Forall (fun d => acceptable d = true) ms /\ omap message_of ms = es.
Proof.
  revert es. induction ms as [|d ms IH]; intros es Hms Hes; cbn [List.filter] in Hes.
  { apply Forall2_nil_inv_r in Hes as ->. by split. }
  cbn [jwf forallb] in Hms. apply andb_true_iff in Hms as [Hd Hms]. destruct (skipped d) eqn:Ed; cbn [negb] in Hes.
  - destruct (IH es Hms Hes) as [Hall Homap]. split; [constructor; [unfold acceptable; by rewrite Ed, orb_true_r|done]|].
    cbn. unfold message_of at 1. unfold skipped in Ed. by destruct (read_message d) as [|[]].
  - apply Forall2_cons_inv_r in Hes as (e & es' & He & Hes & ->). destruct (IH es' Hms Hes) as [Hall Homap].
    pose proof (relayed_read e d He Hd) as Hread.
    split; [constructor; [unfold acceptable; by rewrite Hread|done]|]. cbn. unfold message_of at 1. rewrite Hread. by f_equal.
Qed.

Lemma convert_messages_unacceptable ms d :
  d ∈ ms -> acceptable d = false -> exists err, convert_messages ms = Raise err.
Proof.
  intros Hin Hd. destruct (decide (Forall (fun d => acceptable d = true) ms)) as [Hall|Hex].
  - rewrite Forall_forall in Hall. apply Hall in Hin. congruence.
  - clear Hin Hd d. apply not_Forall_Exists in Hex; [|intros ?; apply _].
    induction ms as [|d ms IH]; [by apply Exists_nil in Hex|]. destruct (acceptable d) eqn:Ed.
    + apply Exists_cons in Hex as [Hex|Hex]; [done|]. destruct (IH Hex) as (err & Herr). cbn [convert_messages]. rewrite Herr.
      unfold acceptable, skipped in Ed. change (from_json _ (jdumps d)) with (read_message d).
      destruct (read_message d) as [e|[]]; cbn in Ed |- *; try done; try (by eexists).
      destruct (last_service d) as [[]|]; try done. cbn. rewrite Ed. by eexists.
    + by apply (convert_messages_error [] d ms).
Qed.

(** C39: the status of a benchmark, for every answer of the server.  It is [None]
    exactly when the server does not know the benchmark (404); any other answer
    than 200 is an error that names it, and so is a body that is not JSON.  From a
    list of messages the result is the events that the services sent, in the order
    of the server, without the messages of the front end that have no status;
    another message that cannot be read makes the call fail, so no event is lost
    in silence. *)
Theorem status_reads_back action client x
    (r := server_text x (status_url (status_client x client) action)) (result := (status sha1 endpoint action client x).1) :
  (status_code r = 404 <-> result = Ok None) /\
  (status_code r <> 404 -> status_code r <> 200 ->
     result = Raise (ValueError ("Bad response: " +:+ pretty (status_code r) +:+ " - " +:+ reason r))) /\
  (status_code r = 200 ->
     (forall e, json_loads (response_text r) = Raise e -> result = Raise e) /\
     forall ms, json_loads (response_text r) = Ok (JList ms) -> jwf (JList ms) = true ->
       (forall es, Forall2 relayed es (List.filter (fun d => negb (skipped d)) ms) -> result = Ok (Some es)) /\
       (forall d, d ∈ ms -> acceptable d = false -> exists err, result = Raise err)).
Proof.
  subst result. rewrite status_run. fold r. cbn [fst]. split_and!.
  - destruct (Z.eqb_spec (status_code r) 404) as [E|E]; [done|]. split; [done|].
    destruct (status_code r =? 200); [|done]. by destruct (convert_status_json_response _).
  - intros Hn4 Hn2. by rewrite (proj2 (Z.eqb_neq _ _) Hn4), (proj2 (Z.eqb_neq _ _) Hn2).
  - intros ->. cbn [Z.eqb Pos.eqb]. unfold convert_status_json_response. split; [by intros e ->|].
    intros ms -> Hms. cbn [res_bind jiter]. split.
    + intros es Hes. destruct (relayed_messages _ _ Hms Hes) as [Hall <-]. by rewrite convert_messages_ok.
    + intros d Hin Hd. destruct (convert_messages_unacceptable _ _ Hin Hd) as (err & ->). by exists err.
Qed.
End Status.

Module Witness.
#[local] Existing Instance literal_floats.
#[local] Existing Instance env0.

Definition status0 : Event := event0 (PStatus "done" SUCCEEDED None).

(** A codec that knows one event, as an object with a payload. *)
Definition event_obj (e : Event) : jval := JObj [("message_id", JStr (message_id e)); ("payload", JObj [])].

#[local] Instance json0 : EventJson := {|
  to_json e := jdumps (event_obj e);
  envelope_type s := if String.eqb s (jdumps (event_obj status0)) then Ok (type status0) else Raise (JSONDecodeError "");
  from_json cls s :=
    match json_loads s with
    | Ok (JObj d) => if dict_mem "payload" d && bool_decide (cls = StatusMessageBenchmarkEvent) then Ok status0 else Raise (KeyError "payload")
    | Ok _ => Raise (TypeError "")
    | Raise e => Raise e
    end
|}.

Lemma event_obj_wf : jwf (event_obj status0) = true.
Proof. vm_compute. reflexivity. Qed.

#[local] Instance json_laws0 : EventJsonLaws.
Proof.
  refine {| encodable e := e = status0 |}.
  - intros e. apply ascii_utf8. eapply str_forall_impl; [|apply jdumps_printable]. unfold printable. intros c ?. lia.
  - intros e ->. cbn [envelope_type json0 to_json]. by rewrite String.eqb_refl.
  - intros cls e -> Hcls. cbn [from_json json0 to_json]. rewrite loads_dumps by apply event_obj_wf. by destruct cls.
Defined.

#[local] Instance status_json0 : StatusJson.
Proof.
  intros s t v w e Hs Ht Hre. cbn [from_json json0]. rewrite Hs, Ht. inversion Hre as [|n d d' Hd]; subst; [done|].
  unfold dict_mem. destruct (Hd "payload"); [|done]. done.
Qed.

(** What the server answers, on a line of its own: a message of its own, without
    a payload, and the event with its members in another order; or an error. *)
Definition bff0 : jval := JObj [("visited", JList [JObj [("svc", JStr "bai-bff")]])].
Definition relayed0 : jval := JObj [("payload", JObj []); ("message_id", JStr (message_id status0))].
Definition answers (url : string) : Response :=
  if endswith "known?since=0" url then mkResponse 200 "OK" (jdumps (JList [bff0; relayed0]) +:+ String "010" "")
  else if endswith "broken?since=0" url then mkResponse 500 "Server error" ""
  else mkResponse 404 "Not found" "".

(** A machine without files, and the posts that were made. *)
Definition Machine : Type := list (string * string).

#[local] Instance machine0 : ClientWorld Machine := {|
  environ k := raise (KeyError k);
  copy2 _ d := ret d;
  makedirs _ := ret tt;
  file_exists _ := ret false;
  file_text _ := raise (RuntimeError "");
  file_bytes _ := raise (RuntimeError "");
  getuser := ret "user";
  gethostname := ret "host";
  uuid4 := ret "u";
  utcnow := ret ("date", 0);
  http_get url := ret (answers url);
  post_file url _ body := fun w => (Ok (mkResponse 200 "OK" "id"), (w ++ [(url, body)])%list)
|}.

#[local] Instance machine_laws0 : ClientLaws.
Proof.
  refine {| files _ _ := None; user_of _ := "user"; host_of _ := "host"; posts w := w;
            server_text _ := answers |}; try done.
  - intros x. by exists "u", x.
  - intros x. by exists "date", 0.
  - intros url field body x. by eexists _, _.
Defined.

Lemma relayed0_ok : relayed status0 relayed0.
Proof.
  split_and!; [done..|]. exists (event_obj status0). split; [apply loads_dumps, event_obj_wf|].
  constructor. intros k. cbn [dict_get]. repeat case_decide; subst; try done; constructor; constructor.
Qed.

Lemma status_reads_back_witness :
  (status (fun s => s) "http://host" "known" None []).1 = Ok (Some [status0]) /\
  (status (fun s => s) "http://host" "other" None []).1 = Ok None /\
  (status (fun s => s) "http://host" "broken" None []).1 = Raise (ValueError "Bad response: 500 - Server error").
Proof.
  split; [|split].
  - destruct (status_reads_back (fun s => s) "http://host" "known" None []) as (_ & _ & H200).
    destruct (H200 eq_refl) as [_ Hlist]. destruct (Hlist [bff0; relayed0]) as [Hes _].
    + apply loads_dumps_line. vm_compute. reflexivity.
    + vm_compute. reflexivity.
    + apply Hes.
      assert (E : List.filter (fun d => negb (skipped d)) [bff0; relayed0] = [relayed0]).
      { cbn [List.filter]. unfold skipped. rewrite (relayed_read status0 relayed0 relayed0_ok) by (vm_compute; reflexivity).
        unfold read_message. cbn [from_json json0]. rewrite loads_dumps by (vm_compute; reflexivity). reflexivity. }
      rewrite E. repeat constructor; apply relayed0_ok.
  - destruct (status_reads_back (fun s => s) "http://host" "other" None []) as (Hnone & _). apply Hnone. reflexivity.
  - destruct (status_reads_back (fun s => s) "http://host" "broken" None []) as (_ & Hother & _).
    apply Hother; vm_compute; discriminate.
Defined.
End Witness.
