(* ===== verification/K8sEngine.v ===== *)
(** * The Kubernetes engine (executor/k8s_execution_engine.py)

    The execution engine behind the interface of Executor.v: it applies and
    deletes Kubernetes objects by running kubectl, an external program that
    acts on the state [X] of the cluster. *)

From S2P Require Import Prelude PyStr Events Descriptor K8sSpec BaiKnowledge ServiceLabels KafkaService CmdCallback.
From S2P Require Import Executor.

Definition EXTRA_K8S_YAML : string := "k8s_yaml".
Definition JOB_ID_PREFIX : string := "b-".
Definition ALL_K8S_RESOURCE_TYPES : list string :=
  ["jobs"; "cronjobs"; "mpijobs"; "configmaps"; "rolebindings"; "services"].

Section Engine.
Context {X : Type}.
(** [check_output(cmd, input=...)]. *)
Context (check_output : list string -> string -> M X string).
(** The transpiler with its packages and its draws, see BaiKnowledge.v. *)
Context (job_yaml : list (string * pyval) -> list DownloadableContent -> list DownloadableContent ->
                    list FileSystemObject -> string -> Event -> Res string).
Context (scheduled_yaml : list (string * pyval) -> string -> Event -> Res string).
Context (config_kubectl : string).

Definition kubernetes_apply (yaml : string) : M X unit :=
  _ <- check_output [config_kubectl; "apply"; "-f"; "-"] yaml ;; ret tt.

(** The two handlers around the transpiler and kubectl. *)
Definition engine_errors {A} (m : M X A) : M X A :=
  try_except m (fun e =>
    match e with
    | DescriptorError msg => raise (ExecutionEngineException ("Error parsing descriptor file: " +:+ msg))
    | CalledProcessError msg => raise (ExecutionEngineException ("Error executing benchmark: " +:+ msg))
    | _ => raise e
    end).

(** [K8SExecutionEngine.run]. *)
Definition k8s_run (event : Event) : M X BenchmarkJob :=
  p <- lift (as_fetcher_payload (payload event)) ;;
  let job_id := JOB_ID_PREFIX +:+ action_id event in
  yaml <- engine_errors (
    yaml <- lift (job_yaml (doc_contents (fp_toml p)) (fp_datasets p) (fp_models p) (fp_scripts p) job_id event) ;;
    kubernetes_apply yaml ;;
    ret yaml) ;;
  ret (mkJob job_id None [(EXTRA_K8S_YAML, yaml)]).

(** [K8SExecutionEngine.schedule]. *)
Definition k8s_schedule (event : Event) : M X BenchmarkJob :=
  toml <- lift (payload_toml (payload event)) ;;
  let job_id := JOB_ID_PREFIX +:+ action_id event in
  yaml <- engine_errors (
    yaml <- lift (scheduled_yaml (doc_contents toml) job_id event) ;;
    kubernetes_apply yaml ;;
    ret yaml) ;;
  ret (mkJob job_id None [(EXTRA_K8S_YAML, yaml)]).

Definition create_label_selector (client_id action_id : string) (as_parent : bool) : string :=
  if as_parent then get_label_selector_as_parent SERVICE_NAME client_id action_id
  else get_label_selector SERVICE_NAME client_id (Some action_id).

Definition delete_k8s_resources (label_selector : string) : M X string :=
  if String.eqb label_selector ""
  then raise (RuntimeError "Attempting to delete kubernetes resources without label selector")
  else
    let resource_types := join "," ALL_K8S_RESOURCE_TYPES in
    result <- check_output [config_kubectl; "delete"; resource_types; "--selector"; label_selector] "" ;;
    if contains "No resources found" result
    then raise (NoK8sResourcesFoundError ("No resources found matching selector " +:+ label_selector))
    else ret result.

Definition cancel_resources (client_id action_id : string) (as_parent : bool) : M X string :=
  delete_k8s_resources (create_label_selector client_id action_id as_parent).

(** [K8SExecutionEngine.cancel]. *)
Definition k8s_cancel (client_id action_id : string) (cascade : bool) : M X pyval :=
  results <- try_except
    (r <- cancel_resources client_id action_id false ;; ret [VStr r])
    (fun e => match e with
              | NoK8sResourcesFoundError _ =>
                  if cascade then ret [] else raise (NoResourcesFoundException action_id)
              | _ => raise (ExecutionEngineException (str_of_exn e))
              end) ;;
  if cascade then
    r <- try_except (cancel_resources client_id action_id true)
      (fun e => match e with
                | NoK8sResourcesFoundError _ => raise (NoResourcesFoundException action_id)
                | _ => raise (ExecutionEngineException (str_of_exn e))
                end) ;;
    ret (VList (results ++ [VStr r])%list)
  else ret (VList results).

Definition k8s_engine : ExecutionEngine X := mkEngine k8s_run k8s_cancel.

(** ** Properties *)

Lemma is_engine_exn_cases e :
  is_ExecutionEngineException e = true ->
  (exists m, e = ExecutionEngineException m) \/ (exists a, e = NoResourcesFoundException a).
Proof. destruct e; naive_solver. Qed.

(** [cancel] keeps the promise of the interface on every path: whatever
    kubectl does, the only exceptions that leave it are
    [ExecutionEngineException] and [NoResourcesFoundException]. *)
Theorem k8s_cancel_exceptions client action cascade x :
  match (k8s_cancel client action cascade x).1 with
  | Raise e => is_ExecutionEngineException e = true
  | Ok _ => True
  end.
Proof.
  unfold k8s_cancel, try_except, bind.
  destruct (cancel_resources client action false x) as [[r|e] x1].
  - destruct cascade; [|done]. simpl. destruct (cancel_resources client action true x1) as [[r2|e2] x2]; [done|].
    by destruct e2.
  - destruct e; try done. destruct cascade; [|done]. simpl.
    destruct (cancel_resources client action true x1) as [[r2|e2] x2]; [done|]. by destruct e2.
Qed.

(** [run], when all goes well. *)
Lemma k8s_run_ok event p yaml out x x' :
  payload event = PFetcher p ->
  job_yaml (doc_contents (fp_toml p)) (fp_datasets p) (fp_models p) (fp_scripts p) (JOB_ID_PREFIX +:+ action_id event) event = Ok yaml ->
  check_output [config_kubectl; "apply"; "-f"; "-"] yaml x = (Ok out, x') ->
  k8s_run event x = (Ok (mkJob (JOB_ID_PREFIX +:+ action_id event) None [(EXTRA_K8S_YAML, yaml)]), x').
Proof.
  intros Hp Hy Hk. unfold k8s_run, engine_errors, kubernetes_apply, lift, try_except, bind, ret. rewrite Hp. cbn [as_fetcher_payload].
  by rewrite Hy, Hk.
Qed.

Lemma k8s_schedule_ok event toml yaml out x x' :
  payload_toml (payload event) = Ok toml ->
  scheduled_yaml (doc_contents toml) (JOB_ID_PREFIX +:+ action_id event) event = Ok yaml ->
  check_output [config_kubectl; "apply"; "-f"; "-"] yaml x = (Ok out, x') ->
  k8s_schedule event x = (Ok (mkJob (JOB_ID_PREFIX +:+ action_id event) None [(EXTRA_K8S_YAML, yaml)]), x').
Proof.
  intros Hp Hy Hk. unfold k8s_schedule, engine_errors, kubernetes_apply, lift, try_except, bind, ret. rewrite Hp. by rewrite Hy, Hk.
Qed.

(** [run].  A job is returned only if the transpiler
    produced a document and kubectl applied exactly that document, which is
    also in the extras of the job; the job id is the prefixed action id.
    Descriptor errors and failures of kubectl become engine exceptions. *)
Theorem k8s_run_spec event p x (Hp : payload event = PFetcher p) :
  let jid := "b-" +:+ action_id event in
  match job_yaml (doc_contents (fp_toml p)) (fp_datasets p) (fp_models p) (fp_scripts p) jid event with
  | Raise (DescriptorError msg) =>
      k8s_run event x = (Raise (ExecutionEngineException ("Error parsing descriptor file: " +:+ msg)), x)
  | Raise (CalledProcessError msg) =>
      k8s_run event x = (Raise (ExecutionEngineException ("Error executing benchmark: " +:+ msg)), x)
  | Raise e => k8s_run event x = (Raise e, x)
  | Ok yaml =>
      match check_output [config_kubectl; "apply"; "-f"; "-"] yaml x with
      | (Ok _, x') => k8s_run event x = (Ok (mkJob jid None [("k8s_yaml", yaml)]), x')
      | (Raise (CalledProcessError msg), x') =>
          k8s_run event x = (Raise (ExecutionEngineException ("Error executing benchmark: " +:+ msg)), x')
      | (Raise (DescriptorError msg), x') =>
          k8s_run event x = (Raise (ExecutionEngineException ("Error parsing descriptor file: " +:+ msg)), x')
      | (Raise e, x') => k8s_run event x = (Raise e, x')
      end
  end.
Proof.
  unfold k8s_run, engine_errors, kubernetes_apply, lift, try_except, bind, ret. rewrite Hp. simpl.
  unfold JOB_ID_PREFIX. destruct (job_yaml _ _ _ _ _ _) as [yaml|e]; [|by destruct e].
  destruct (check_output _ yaml x) as [[out|e] x']; [done|]. by destruct e.
Qed.
End Engine.

(** ** kubectl delete *)

(** An object of the cluster, for the deletions: its kind and its labels. *)
Record Resource := mkResource { res_kind : string; res_labels : dict string string }.

Section Delete.
Context {X : Type} (check_output : list string -> string -> M X string) (resources : X -> list Resource).

Definition selected (types sel : string) (r : Resource) : bool :=
  bool_decide (res_kind r ∈ split_char "," types) && matches_selector sel (res_labels r).

(** What kubectl documents of [delete TYPES --selector SEL]: the objects of
    these types that match are deleted, no others, and the command says so when
    there are none. *)
Definition kubectl_deletes : Prop :=
  forall kubectl types sel x,
    exists out x', check_output [kubectl; "delete"; types; "--selector"; sel] "" x = (Ok out, x') /\
      resources x' = List.filter (fun r => negb (selected types sel r)) (resources x) /\
      contains "No resources found" out = negb (existsb (selected types sel) (resources x)).

Hypothesis Hkubectl : kubectl_deletes.
Context (config_kubectl client action : string).
Hypothesis (Hcl : label_value client = true) (Hact : label_value action = true) (Hne : action <> "").

(** The objects of the benchmark itself, and those it spawned. *)
Definition has_kind (r : Resource) : bool := bool_decide (res_kind r ∈ ALL_K8S_RESOURCE_TYPES).
Definition executor_labels (r : Resource) (id_label : string) : bool :=
  bool_decide (dict_get (res_labels r) CREATED_BY_LABEL = Some "executor" /\
               dict_get (res_labels r) CLIENT_ID_LABEL = Some client /\
               dict_get (res_labels r) id_label = Some action).
Definition own (r : Resource) : bool := has_kind r && executor_labels r ACTION_ID_LABEL.
Definition spawned (r : Resource) : bool := has_kind r && executor_labels r PARENT_ACTION_ID_LABEL.

Lemma selected_own r : selected (join "," ALL_K8S_RESOURCE_TYPES) (create_label_selector client action false) r = own r.
Proof.
  unfold selected, own, has_kind, create_label_selector. rewrite matches_action by done. reflexivity.
Qed.

Lemma selected_spawned r :
  selected (join "," ALL_K8S_RESOURCE_TYPES) (create_label_selector client action true) r = spawned r.
Proof.
  unfold selected, spawned, has_kind, create_label_selector. rewrite matches_parent by done. reflexivity.
Qed.

Definition selects (as_parent : bool) : Resource -> bool := if as_parent then spawned else own.

Lemma selected_selects as_parent r :
  selected (join "," ALL_K8S_RESOURCE_TYPES) (create_label_selector client action as_parent) r = selects as_parent r.
Proof. destruct as_parent; [apply selected_spawned|apply selected_own]. Qed.

Lemma existsb_ext {A} (f g : A -> bool) l : (forall x, f x = g x) -> existsb f l = existsb g l.
Proof. intros Hfg. induction l as [|x l IH]; [done|]. simpl. by rewrite Hfg, IH. Qed.

Lemma cancel_resources_run as_parent x :
  exists out x', resources x' = List.filter (fun r => negb (selects as_parent r)) (resources x) /\
    cancel_resources check_output config_kubectl client action as_parent x =
    (if existsb (selects as_parent) (resources x) then Ok out
     else Raise (NoK8sResourcesFoundError ("No resources found matching selector " +:+
                   create_label_selector client action as_parent)), x').
Proof.
  unfold cancel_resources, delete_k8s_resources, bind, ret, raise.
  replace (String.eqb (create_label_selector client action as_parent) "") with false by by destruct as_parent.
  destruct (Hkubectl config_kubectl (join "," ALL_K8S_RESOURCE_TYPES)
              (create_label_selector client action as_parent) x) as (out & x' & -> & Hres & Hout).
  exists out, x'. rewrite Hres, Hout. split.
  - apply list_filter_ext. intros r _. by rewrite selected_selects.
  - rewrite (existsb_ext _ _ _ (selected_selects as_parent)). by destruct (existsb (selects as_parent) (resources x)).
Qed.

(** C33: cancelling, given what kubectl documents.  Without cascading, exactly
    the objects that the executor created for the action are deleted, and the
    call succeeds if there was one.  With cascading, the objects spawned with
    the action as their parent go too, and the call succeeds if one of those
    was there.  Everything else in the cluster stays. *)
Theorem k8s_cancel_deletes cascade x :
  exists result x',
    k8s_cancel check_output config_kubectl client action cascade x = (result, x') /\
    resources x' = List.filter (fun r => negb (own r) && negb (cascade && spawned r)) (resources x) /\
    (is_ok result = true <-> if cascade then existsb (fun r => negb (own r) && spawned r) (resources x) = true
                             else existsb own (resources x) = true) /\
    (is_ok result = false -> result = Raise (NoResourcesFoundException action)).
Proof.
  destruct (cancel_resources_run false x) as (out1 & x1 & Hres1 & Hrun1).
  destruct (cancel_resources_run true x1) as (out2 & x2 & Hres2 & Hrun2). cbn [selects] in *.
  assert (Hex : existsb spawned (resources x1) = existsb (fun r => negb (own r) && spawned r) (resources x)).
  { rewrite Hres1. generalize (resources x). clear. intros l. induction l as [|r l IH]; [done|]. simpl. destruct (own r); simpl; by rewrite IH. }
  assert (Hfil : resources x2 = List.filter (fun r => negb (own r) && negb (spawned r)) (resources x)).
  { rewrite Hres2, Hres1. generalize (resources x). clear. intros l. induction l as [|r l IH]; [done|]. simpl.
    destruct (own r); simpl; [done|]. destruct (spawned r); simpl; by rewrite IH. }
  assert (Hfil1 : resources x1 = List.filter (fun r => negb (own r) && negb (false && spawned r)) (resources x)).
  { rewrite Hres1. apply list_filter_ext. intros r _. by rewrite andb_true_r. }
  unfold k8s_cancel, try_except, bind. rewrite Hrun1. rewrite Hex in Hrun2.
  destruct (existsb own (resources x)) eqn:E1; destruct cascade; simpl.
  2, 4: by do 2 eexists; split; [reflexivity|].
  all: rewrite Hrun2; destruct (existsb (fun r => negb (own r) && spawned r) (resources x)) eqn:E2; simpl;
    by do 2 eexists; split; [reflexivity|].
Qed.

(** Cascading on a benchmark that has spawned nothing, such as a scheduled
    benchmark before its first run: its own objects are deleted, and still the
    call reports that no resources were found. *)
Theorem k8s_cancel_cascade_misreports x
    (Hown : existsb own (resources x) = true) (Hnone : existsb spawned (resources x) = false) :
  exists x', k8s_cancel check_output config_kubectl client action true x =
      (Raise (NoResourcesFoundException action), x') /\
    resources x' = List.filter (fun r => negb (own r)) (resources x).
Proof.
  destruct (cancel_resources_run false x) as (out1 & x1 & Hres1 & Hrun1).
  destruct (cancel_resources_run true x1) as (out2 & x2 & Hres2 & Hrun2). cbn [selects] in *.
  assert (Hno : forall r, r ∈ resources x -> spawned r = false).
  { intros r Hr. destruct (spawned r) eqn:E; [|done]. exfalso. apply not_true_iff_false in Hnone. apply Hnone.
    apply existsb_exists. exists r. by rewrite list_elem_of_In in Hr. }
  assert (E2 : existsb spawned (resources x1) = false).
  { apply not_true_iff_false. intros (r & Hr & Hs)%existsb_exists. rewrite Hres1 in Hr.
    apply list_elem_of_In, elem_of_list_filter_b in Hr as [Hr _]. by rewrite Hno in Hs. }
  exists x2. unfold k8s_cancel, try_except, bind. rewrite Hrun1, Hown. simpl. rewrite Hrun2, E2. split; [done|].
  rewrite Hres2, Hres1. revert Hno. generalize (resources x). clear. intros l Hno.
  induction l as [|r l IH]; [done|]. simpl. destruct (own r); simpl.
  - apply IH. intros r' Hr'. apply Hno. set_solver.
  - rewrite Hno by set_solver. simpl. f_equal. apply IH. intros r' Hr'. apply Hno. set_solver.
Qed.
End Delete.

Module Witness.
(** A cluster that is just its list of objects, and a kubectl for it. *)
Definition kubectl0 (cmd : list string) (input : string) : M (list Resource) string :=
  match cmd with
  | [_; verb; types; flag; sel] =>
      if String.eqb verb "delete" && String.eqb flag "--selector" then
        l <- get ;;
        put (List.filter (fun r => negb (selected types sel r)) l) ;;
        ret (if existsb (selected types sel) l then "deleted" else "No resources found")
      else raise (CalledProcessError "unknown command")
  | [_; verb; _; _] =>
      if String.eqb verb "apply"
      then modify (fun l => (l ++ [mkResource "jobs" (get_labels "executor" "client" input)])%list) ;; ret "created"
      else raise (CalledProcessError "unknown command")
  | _ => raise (CalledProcessError "unknown command")
  end.

Lemma kubectl0_deletes : kubectl_deletes kubectl0 (fun l => l).
Proof.
  intros kubectl types sel x. unfold kubectl0. cbn [String.eqb Ascii.eqb Bool.eqb andb]. unfold bind, get, put, ret.
  do 2 eexists. split; [reflexivity|]. split; [reflexivity|]. by destruct (existsb (selected types sel) x).
Qed.

Definition own1 : Resource := mkResource "cronjobs" (get_labels "executor" "joe" "a").
Definition other1 : Resource := mkResource "jobs" (get_labels "executor" "joe" "b").
Definition child1 : Resource :=
  mkResource "jobs" (("parent-action-id", "a") :: get_labels "executor" "joe" "c").

Lemma k8s_cancel_deletes_witness :
  exists result, k8s_cancel kubectl0 "kubectl" "joe" "a" true [own1; other1; child1] = (result, [other1]) /\
    is_ok result = true.
Proof.
  destruct (k8s_cancel_deletes kubectl0 (fun l => l) kubectl0_deletes "kubectl" "joe" "a"
    eq_refl eq_refl ltac:(discriminate) true [own1; other1; child1]) as (r & x' & Hrun & Hres & Hok & _).
  exists r. rewrite Hrun. split.
  - f_equal. rewrite Hres. vm_compute. reflexivity.
  - apply Hok. vm_compute. reflexivity.
Defined.

Lemma k8s_cancel_cascade_misreports_witness :
  exists x', k8s_cancel kubectl0 "kubectl" "joe" "a" true [own1; other1] =
    (Raise (NoResourcesFoundException "a"), x') /\ x' = [other1].
Proof.
  destruct (k8s_cancel_cascade_misreports kubectl0 (fun l => l) kubectl0_deletes "kubectl" "joe" "a"
    eq_refl eq_refl ltac:(discriminate) [own1; other1]) as (x' & Hrun & Hres); [vm_compute; reflexivity..|].
  exists x'. split; [exact Hrun|]. rewrite Hres. vm_compute. reflexivity.
Defined.

Definition yaml0 (contents : list (string * pyval)) (_ _ : list DownloadableContent) (_ : list FileSystemObject)
    (job_id : string) (_ : Event) : Res string :=
  match contents with [] => Raise (DescriptorError "empty") | _ => Ok job_id end.

Lemma k8s_run_spec_witness :
  k8s_run kubectl0 yaml0 "kubectl" (event0 (PFetcher (mkFetcherPayload (doc0 [("a", VNone)]) [] [] []))) [] =
    (Ok (mkJob "b-action" None [("k8s_yaml", "b-action")]),
     [mkResource "jobs" (get_labels "executor" "client" "b-action")]).
Proof.
  pose proof (k8s_run_spec kubectl0 yaml0 "kubectl"
    (event0 (PFetcher (mkFetcherPayload (doc0 [("a", VNone)]) [] [] []))) _ [] eq_refl) as H.
  exact H.
Defined.
End Witness.
