(* ===== verification/ZkLocker.v ===== *)
(** * Distributed read/write locks (bai_zk_utils/zk_locker.py)

    [DistributedRWLockManager]: the ZooKeeper recipe for shared locks.  The
    functions on node paths are those of the code; the protocol is a step
    relation between states of ZooKeeper and of the processes that run
    [_acquire_lock_loop], one step per call to ZooKeeper, so that any
    interleaving of the processes is a run. *)

From S2P Require Import Prelude PyStr.

(** ** Paths *)

Definition READLOCK_SUFFIX : string := "readlock-".
Definition WRITELOCK_SUFFIX : string := "writelock-".

Inductive Mode : Set := Read | Write.

#[export] Instance Mode_eq_dec : EqDecision Mode.
Proof. solve_decision. Defined.

Definition mode_suffix (m : Mode) : string := match m with Read => READLOCK_SUFFIX | Write => WRITELOCK_SUFFIX end.

Definition get_abs_path (parent child : string) : string := parent +:+ "/" +:+ child.

(** [get_lock_node_parent_path], [_get_read_lock_path], [_get_write_lock_path]. *)
Definition get_lock_node_parent_path {S} (prefix : string) (get_path : S -> string) (state : S) : string :=
  get_abs_path prefix (get_path state).
Definition get_lock_path {S} (prefix : string) (get_path : S -> string) (m : Mode) (state : S) : string :=
  get_abs_path (get_lock_node_parent_path prefix get_path state) (mode_suffix m).

Definition get_sequence_index (path : string) : Res Z :=
  match rfind_char "-" path with
  | None => Raise (ValueError "substring not found")
  | Some last_delim => py_int (str_drop (last_delim + 1) path)
  end.

(** [_incompatible_with_read] and [_incompatible_with_write]. *)
Definition is_incompat (m : Mode) (node_path : string) : bool :=
  match m with Read => contains WRITELOCK_SUFFIX node_path | Write => true end.

(** The nodes before [my_index] that the lock has to wait for. *)
Fixpoint locks_before (my_index : Z) (m : Mode) (children : list string) : Res (list string) :=
  match children with
  | [] => Ok []
  | path :: rest =>
      i <~ get_sequence_index path ;;
      l <~ locks_before my_index m rest ;;
      Ok (if (i <? my_index) && is_incompat m path then path :: l else l)
  end.

(** One turn of the loop after [get_children]: [None] when the lock is taken,
    otherwise the node whose existence is asked for next. *)
Definition lock_turn (my_node_path : string) (m : Mode) (children : list string) : Res (option string) :=
  my_index <~ get_sequence_index my_node_path ;;
  l <~ locks_before my_index m children ;;
  Ok (head l).

(** ** Names of sequence nodes

    What ZooKeeper documents of [create] with [sequence=True]: the counter of
    the parent, in ten digits, is appended to the path. *)
Definition node_name (m : Mode) (n : nat) : string := mode_suffix m +:+ print_digits 10 (Z.of_nat n).

(** The counter is a signed 32-bit number. *)
Definition MAX_SEQUENCE : nat := Z.to_nat 2147483647.

Lemma max_sequence_bound n : (n <= MAX_SEQUENCE)%nat -> 0 <= Z.of_nat n < 10 ^ 10.
Proof. unfold MAX_SEQUENCE. lia. Qed.

#[local] Arguments String.append !_ _ /.
Opaque print_digits MAX_SEQUENCE.

Lemma digits_no_char k n c : is_digit c = false -> no_char c (print_digits k n) = true.
Proof.
  intros Hc. unfold no_char. eapply str_forall_impl; [|apply print_digits_digits].
  intros x Hx. apply negb_true_iff, Ascii.eqb_neq. intros ->. congruence.
Qed.

Lemma sequence_index_of parent m n :
  (n <= MAX_SEQUENCE)%nat -> get_sequence_index (parent +:+ node_name m n) = Ok (Z.of_nat n).
Proof.
  intros Hn. unfold get_sequence_index.
  assert (E : exists pre, parent +:+ node_name m n = pre +:+ String "-" (print_digits 10 (Z.of_nat n))).
  { destruct m; [exists (parent +:+ "readlock")|exists (parent +:+ "writelock")];
      rewrite str_app_assoc; reflexivity. }
  destruct E as [pre ->]. rewrite rfind_char_app by by apply digits_no_char.
  change (String "-" ?s) with ("-" +:+ s). rewrite <- str_app_assoc.
  replace (String.length pre + 1)%nat with (String.length (pre +:+ "-")) by by rewrite str_length_app.
  rewrite str_drop_app. unfold py_int. rewrite int_print_digits; [done|by apply max_sequence_bound].
Qed.

Lemma contains_no_char c p s : no_char c s = true -> contains (String c p) s = false.
Proof.
  unfold contains, no_char. induction s as [|x s IH]; simpl; [done|].
  rewrite andb_true_iff, negb_true_iff. intros [Hx Hs]. rewrite Ascii.eqb_sym, Hx. simpl.
  specialize (IH Hs). by destruct (str_find (String c p) s).
Qed.

Definition conflict (m m' : Mode) : bool :=
  match m, m' with Read, Read => false | _, _ => true end.

Lemma is_incompat_name m m' n : is_incompat m (node_name m' n) = conflict m m'.
Proof.
  destruct m; [|by destruct m']. cbn [is_incompat]. destruct m'.
  - apply contains_no_char. unfold node_name, no_char. rewrite str_forall_app.
    apply andb_true_iff. split; [reflexivity|]. by apply digits_no_char.
  - unfold contains. unfold node_name, mode_suffix.
    assert (H : startswith WRITELOCK_SUFFIX (WRITELOCK_SUFFIX +:+ print_digits 10 (Z.of_nat n)) = true)
      by apply startswith_app.
    destruct (WRITELOCK_SUFFIX +:+ print_digits 10 (Z.of_nat n)) as [|c s]; [done|]. cbn [str_find]. by rewrite H.
Qed.

Lemma node_name_inj m m' n n' :
  (n <= MAX_SEQUENCE)%nat -> (n' <= MAX_SEQUENCE)%nat -> node_name m n = node_name m' n' -> m = m' /\ n = n'.
Proof.
  intros Hn Hn' E. pose proof (sequence_index_of "" m n Hn) as H1. pose proof (sequence_index_of "" m' n' Hn') as H2.
  simpl in H1, H2. rewrite E, H2 in H1. injection H1 as ->%Nat2Z.inj. split; [|done].
  by destruct m, m'.
Qed.

(** ** States of the system *)

(** Where a process is: about to call [get_children], about to ask whether a
    node exists, waiting for the watch on a node, or in the critical section. *)
Inductive PC : Type :=
| PRun
| PCheck (rel_lock : string)
| PWait (rel_lock : string)
| PHeld.

(** The nodes below the state's path, and the processes that own them, by the
    sequence number.  A process that has released its lock or died is gone. *)
Record Zk := mkZk { zk_next : nat; zk_nodes : gmap nat Mode; zk_procs : gmap nat (Mode * PC) }.

Definition zk_init : Zk := mkZk 0 ∅ ∅.

Definition child_names (s : Zk) : list string := (fun '(n, m) => node_name m n) <$> map_to_list (zk_nodes s).

(** A watch fires: the callback starts the loop again. *)
Definition wake (name : string) (p : Mode * PC) : Mode * PC :=
  match p with
  | (m, PWait r) => if String.eqb r name then (m, PRun) else p
  | _ => p
  end.

(** The deletion of a node, which fires the watches on it. *)
Definition delete_node (n : nat) (m : Mode) (s : Zk) : Zk :=
  mkZk (zk_next s) (delete n (zk_nodes s)) (wake (node_name m n) <$> delete n (zk_procs s)).

Definition set_pc (n : nat) (m : Mode) (pc : PC) (s : Zk) : Zk :=
  mkZk (zk_next s) (zk_nodes s) (<[n := (m, pc)]> (zk_procs s)).

(** The order of [get_children] is not specified, hence any permutation. *)
Inductive step (parent : string) : Zk -> Zk -> Prop :=
| step_acquire m s :
    (zk_next s < MAX_SEQUENCE)%nat ->
    step parent s (mkZk (S (zk_next s)) (<[zk_next s := m]> (zk_nodes s))
                     (<[zk_next s := (m, PRun)]> (zk_procs s)))
| step_lock n m children s :
    zk_procs s !! n = Some (m, PRun) -> children ≡ₚ child_names s ->
    lock_turn (parent +:+ node_name m n) m children = Ok None ->
    step parent s (set_pc n m PHeld s)
| step_blocked n m children rel s :
    zk_procs s !! n = Some (m, PRun) -> children ≡ₚ child_names s ->
    lock_turn (parent +:+ node_name m n) m children = Ok (Some rel) ->
    step parent s (set_pc n m (PCheck rel) s)
| step_exists n m rel s :
    zk_procs s !! n = Some (m, PCheck rel) -> rel ∈ child_names s ->
    step parent s (set_pc n m (PWait rel) s)
| step_retry n m rel s :
    zk_procs s !! n = Some (m, PCheck rel) -> rel ∉ child_names s ->
    step parent s (set_pc n m PRun s)
| step_release n m s :
    zk_procs s !! n = Some (m, PHeld) -> step parent s (delete_node n m s)
| step_expire n m pc s :
    zk_procs s !! n = Some (m, pc) -> step parent s (delete_node n m s).

Inductive reachable (parent : string) : Zk -> Prop :=
| reach_init : reachable parent zk_init
| reach_step s s' : reachable parent s -> step parent s s' -> reachable parent s'.

(** ** One turn of the loop *)

Definition blocks (n : nat) (m : Mode) (km : nat * Mode) : bool := (km.1 <? n)%nat && conflict m km.2.

Lemma locks_before_names n m (l : list (nat * Mode)) :
  Forall (fun km => (km.1 <= MAX_SEQUENCE)%nat) l ->
  locks_before (Z.of_nat n) m ((fun '(k, m') => node_name m' k) <$> l) =
  Ok ((fun '(k, m') => node_name m' k) <$> List.filter (blocks n m) l).
Proof.
  induction 1 as [|[k m'] l Hk Hl IH]; [done|]. cbn [fmap list_fmap locks_before].
  rewrite (sequence_index_of "" m' k Hk : get_sequence_index (node_name m' k) = _). cbn [res_bind].
  change (list_fmap _ _ ?f l) with (f <$> l). rewrite IH. cbn [res_bind List.filter].
  change (blocks n m (k, m')) with ((k <? n)%nat && conflict m m').
  rewrite is_incompat_name. replace (Z.of_nat k <? Z.of_nat n) with (k <? n)%nat
    by (destruct (Nat.ltb_spec k n), (Z.ltb_spec (Z.of_nat k) (Z.of_nat n)); lia || done).
  by destruct ((k <? n)%nat && conflict m m').
Qed.

(** ** The invariant *)

Record inv (s : Zk) : Prop := mkInv {
  inv_bound : (zk_next s <= MAX_SEQUENCE)%nat;
  inv_nodes : forall n m, zk_nodes s !! n = Some m <-> exists pc, zk_procs s !! n = Some (m, pc);
  inv_next : forall n, is_Some (zk_nodes s !! n) -> (n < zk_next s)%nat;
  inv_check : forall n m r, zk_procs s !! n = Some (m, PCheck r) ->
    exists t tm, r = node_name tm t /\ (t < n)%nat /\ conflict m tm = true;
  inv_wait : forall n m r, zk_procs s !! n = Some (m, PWait r) ->
    exists t tm, r = node_name tm t /\ zk_nodes s !! t = Some tm /\ (t < n)%nat /\ conflict m tm = true;
  inv_held : forall n m, zk_procs s !! n = Some (m, PHeld) ->
    forall t tm, zk_nodes s !! t = Some tm -> (t < n)%nat -> conflict m tm = false
}.

Lemma inv_proc_bound s n p : inv s -> zk_procs s !! n = Some p -> (n < zk_next s)%nat.
Proof.
  intros Hi Hp. destruct p as [m pc]. apply (inv_next s Hi). exists m. apply (inv_nodes s Hi). eauto.
Qed.

Lemma elem_child_names s r :
  r ∈ child_names s <-> exists n m, r = node_name m n /\ zk_nodes s !! n = Some m.
Proof.
  unfold child_names. rewrite list_elem_of_fmap. split.
  - intros ([n m] & -> & H). apply elem_of_map_to_list in H. eauto.
  - intros (n & m & -> & H). exists (n, m). split; [done|]. by apply elem_of_map_to_list.
Qed.

(** What [lock_turn] finds in a state that satisfies the invariant. *)
Lemma lock_turn_spec parent s n m children r :
  inv s -> (n <= MAX_SEQUENCE)%nat -> children ≡ₚ child_names s ->
  lock_turn (parent +:+ node_name m n) m children = Ok r ->
  match r with
  | None => forall t tm, zk_nodes s !! t = Some tm -> (t < n)%nat -> conflict m tm = false
  | Some rel => exists t tm, rel = node_name tm t /\ zk_nodes s !! t = Some tm /\ (t < n)%nat /\
                             conflict m tm = true
  end.
Proof.
  intros Hi Hn Hperm. unfold lock_turn. rewrite sequence_index_of by done. cbn [res_bind].
  apply Permutation_map_inv in Hperm as (l & -> & Hl).
  rewrite locks_before_names.
  2: { rewrite Forall_forall. intros [k m'] Hk. rewrite <- Hl in Hk. apply elem_of_map_to_list in Hk.
       pose proof (inv_next s Hi k (ex_intro _ _ Hk)). pose proof (inv_bound s Hi). simpl. lia. }
  cbn [res_bind]. intros [= <-].
  assert (Hin : forall k m', (k, m') ∈ List.filter (blocks n m) l <->
            zk_nodes s !! k = Some m' /\ (k < n)%nat /\ conflict m m' = true).
  { intros k m'. rewrite elem_of_list_filter_b, <- Hl, elem_of_map_to_list. unfold blocks. cbn [fst snd].
    by rewrite andb_true_iff, Nat.ltb_lt. }
  destruct (List.filter (blocks n m) l) as [|[k m'] rest]; cbn [fmap list_fmap head].
  - intros t tm Ht Htn. destruct (conflict m tm) eqn:E; [|done].
    assert (Hf : (t, tm) ∈ ([] : list (nat * Mode))) by by apply Hin. by apply elem_of_nil in Hf.
  - exists k, m'. split; [done|]. apply Hin. set_solver.
Qed.

Lemma conflict_sym m m' : conflict m m' = conflict m' m.
Proof. by destruct m, m'. Qed.

Lemma inv_init : inv zk_init.
Proof.
  constructor; cbn [zk_init zk_next zk_nodes zk_procs].
  - lia.
  - intros n m. rewrite lookup_empty. split; [done|]. intros [pc H]. by rewrite lookup_empty in H.
  - intros n [m H]. by rewrite lookup_empty in H.
  - intros n m r H. by rewrite lookup_empty in H.
  - intros n m r H. by rewrite lookup_empty in H.
  - intros n m H. by rewrite lookup_empty in H.
Qed.

(** Changing the place of a process keeps the nodes. *)
Lemma inv_set_pc s n m pc0 pc :
  inv s -> zk_procs s !! n = Some (m, pc0) ->
  (forall r, pc = PCheck r -> exists t tm, r = node_name tm t /\ (t < n)%nat /\ conflict m tm = true) ->
  (forall r, pc = PWait r -> exists t tm, r = node_name tm t /\ zk_nodes s !! t = Some tm /\
                                          (t < n)%nat /\ conflict m tm = true) ->
  (pc = PHeld -> forall t tm, zk_nodes s !! t = Some tm -> (t < n)%nat -> conflict m tm = false) ->
  inv (set_pc n m pc s).
Proof.
  intros Hi Hn Hcheck Hwait Hheld. destruct Hi as [H1 H2 H3 H4 H5 H6].
  constructor; unfold set_pc; cbn [zk_next zk_nodes zk_procs]; try done.
  - intros k mk. rewrite H2. destruct (decide (n = k)) as [<-|Hne].
    + rewrite lookup_insert_eq. split; intros [pc' Hk]; naive_solver.
    + by rewrite lookup_insert_ne.
  - intros k mk r. rewrite lookup_insert_Some. intros [[<- [= <- Hr]]|[_ Hk]]; eauto.
  - intros k mk r. rewrite lookup_insert_Some. intros [[<- [= <- Hr]]|[_ Hk]]; eauto.
  - intros k mk. rewrite lookup_insert_Some. intros [[<- [= <- Hr]]|[_ Hk]]; eauto.
Qed.

Lemma inv_acquire s m :
  inv s -> (zk_next s < MAX_SEQUENCE)%nat ->
  inv (mkZk (S (zk_next s)) (<[zk_next s := m]> (zk_nodes s)) (<[zk_next s := (m, PRun)]> (zk_procs s))).
Proof.
  intros Hi Hb. pose proof (inv_proc_bound s) as Hpb. destruct Hi as [H1 H2 H3 H4 H5 H6] eqn:E.
  assert (Hlt : forall k p, zk_procs s !! k = Some p -> (k < zk_next s)%nat) by (intros; by eapply Hpb).
  clear E Hpb. constructor; cbn [zk_next zk_nodes zk_procs]; [lia|..].
  - intros k mk. destruct (decide (zk_next s = k)) as [<-|Hne].
    + rewrite !lookup_insert_eq. naive_solver.
    + rewrite !lookup_insert_ne by done. apply H2.
  - intros k [mk Hk]. apply lookup_insert_Some in Hk as [[<- _]|[_ Hk]]; [lia|].
    pose proof (H3 k (ex_intro _ _ Hk)). lia.
  - intros k mk r. rewrite lookup_insert_Some. intros [[<- [=]]|[_ Hk]]. eauto.
  - intros k mk r. rewrite lookup_insert_Some. intros [[<- [=]]|[Hne Hk]].
    destruct (H5 _ _ _ Hk) as (t & tm & -> & Ht & Htk & Hc). exists t, tm. split_and!; try done.
    rewrite lookup_insert_ne; [done|]. pose proof (Hlt _ _ Hk). lia.
  - intros k mk. rewrite lookup_insert_Some. intros [[<- [=]]|[Hne Hk]] t tm Ht Htk.
    apply lookup_insert_Some in Ht as [[<- _]|[_ Ht]]; [|by eapply H6].
    pose proof (Hlt _ _ Hk). lia.
Qed.

Lemma wake_cases name p q :
  wake name p = q -> q = p \/ exists m, p = (m, PWait name) /\ q = (m, PRun).
Proof.
  destruct p as [m [| | r|]]; simpl; auto. destruct (String.eqb_spec r name) as [->|]; [|by left].
  intros <-. right. eauto.
Qed.

Lemma inv_delete s n m pc :
  inv s -> zk_procs s !! n = Some (m, pc) -> inv (delete_node n m s).
Proof.
  intros Hi Hn. pose proof (inv_proc_bound s) as Hpb. destruct Hi as [H1 H2 H3 H4 H5 H6] eqn:E. 
  assert (Hlt : forall k p, zk_procs s !! k = Some p -> (k < zk_next s)%nat) by (intros; by eapply Hpb).
  clear E Hpb.
  assert (Hget : forall k q, (wake (node_name m n) <$> delete n (zk_procs s)) !! k = Some q ->
            k <> n /\ exists p, zk_procs s !! k = Some p /\ wake (node_name m n) p = q).
  { intros k q. rewrite lookup_fmap_Some. intros (p & Hw & [Hk Hp]%lookup_delete_Some). eauto. }
  constructor; unfold delete_node; cbn [zk_next zk_nodes zk_procs]; [lia|..].
  - intros k mk. rewrite lookup_delete_Some, H2. split.
    + intros [Hne [pck Hk]]. exists (wake (node_name m n) (mk, pck)).2.
      rewrite lookup_fmap, lookup_delete_ne, Hk by done. simpl.
      by destruct pck as [| | r|]; simpl; try case_match.
    + intros [pck Hk]. apply Hget in Hk as (Hne & [mp pp] & Hp & Hw). split; [done|].
      apply wake_cases in Hw as [Hw|(m0 & Hw & Hw')]; simplify_eq; eauto.
  - intros k [mk [_ Hk]%lookup_delete_Some]. eauto.
  - intros k mk r Hk. apply Hget in Hk as (Hne & p & Hp & Hw).
    apply wake_cases in Hw as [<-|(m0 & _ & [=])]. eauto.
  - intros k mk r Hk. apply Hget in Hk as (Hne & p & Hp & Hw). pose proof Hw as Hw'.
    apply wake_cases in Hw as [<-|(m0 & _ & [=])].
    destruct (H5 _ _ _ Hp) as (t & tm & -> & Ht & Htk & Hc). exists t, tm. split_and!; try done.
    apply lookup_delete_Some. split; [|done]. intros <-.
    assert (zk_nodes s !! n = Some m) as Hnm by (apply H2; eauto). rewrite Hnm in Ht. injection Ht as <-.
    simpl in Hw'. by rewrite String.eqb_refl in Hw'.
  - intros k mk Hk. apply Hget in Hk as (Hne & p & Hp & Hw).
    apply wake_cases in Hw as [<-|(m0 & _ & [=])].
    intros t tm [_ Ht]%lookup_delete_Some. by eapply H6.
Qed.

Lemma inv_step parent s s' : inv s -> step parent s s' -> inv s'.
Proof.
  intros Hi Hstep. destruct Hstep as [m s Hb|n m ch s Hp Hch Hl|n m ch rel s Hp Hch Hl|n m rel s Hp Hr|n m rel s Hp Hr
    |n m s Hp|n m pc s Hp].
  - by apply inv_acquire.
  - assert (n <= MAX_SEQUENCE)%nat by (pose proof (inv_proc_bound _ _ _ Hi Hp); pose proof (inv_bound _ Hi); lia).
    eapply inv_set_pc; try done. intros _. by apply (lock_turn_spec parent s n m ch None).
  - assert (n <= MAX_SEQUENCE)%nat by (pose proof (inv_proc_bound _ _ _ Hi Hp); pose proof (inv_bound _ Hi); lia).
    eapply inv_set_pc; try done. intros r [= <-].
    destruct (lock_turn_spec parent s n m ch (Some rel)) as (t & tm & ? & _ & ? & ?); try done. by exists t, tm.
  - eapply inv_set_pc; try done. intros r [= <-].
    destruct (inv_check s Hi _ _ _ Hp) as (t & tm & -> & Ht & Hc). exists t, tm. split_and!; try done.
    apply elem_child_names in Hr as (t' & tm' & Heq & Hn').
    assert (t <= MAX_SEQUENCE)%nat by (pose proof (inv_proc_bound _ _ _ Hi Hp); pose proof (inv_bound _ Hi); lia).
    assert (t' <= MAX_SEQUENCE)%nat
      by (pose proof (inv_next _ Hi _ (ex_intro _ _ Hn')); pose proof (inv_bound _ Hi); lia).
    apply node_name_inj in Heq as [-> ->]; done.
  - by eapply inv_set_pc.
  - by eapply inv_delete.
  - by eapply inv_delete.
Qed.

Lemma reachable_inv parent s : reachable parent s -> inv s.
Proof. induction 1; [apply inv_init|by eapply inv_step]. Qed.

(** ** Runs *)

Inductive steps (parent : string) : Zk -> Zk -> Prop :=
| steps_refl s : steps parent s s
| steps_step s1 s2 s3 : steps parent s1 s2 -> step parent s2 s3 -> steps parent s1 s3.

(** The conflicting nodes before a process. *)
Definition before (s : Zk) (n : nat) (m : Mode) : gset nat :=
  dom (filter (fun km : nat * Mode => blocks n m km = true) (zk_nodes s)).

Lemma elem_before s n m t :
  t ∈ before s n m <-> exists tm, zk_nodes s !! t = Some tm /\ (t < n)%nat /\ conflict m tm = true.
Proof.
  unfold before. rewrite elem_of_dom. unfold is_Some. setoid_rewrite map_lookup_filter_Some.
  unfold blocks. cbn [fst snd]. setoid_rewrite andb_true_iff. setoid_rewrite Nat.ltb_lt. done.
Qed.

Lemma step_next parent s s' : step parent s s' -> (zk_next s <= zk_next s')%nat.
Proof. destruct 1; simpl; lia. Qed.

(** Nobody comes in before a process that is already there. *)
Lemma step_old_node parent s s' t tm :
  step parent s s' -> (t < zk_next s)%nat -> zk_nodes s' !! t = Some tm -> zk_nodes s !! t = Some tm.
Proof.
  intros Hstep Hn Ht. destruct Hstep; cbn [set_pc delete_node zk_nodes] in Ht; try done.
  - apply lookup_insert_Some in Ht as [[<- _]|[_ Ht]]; [lia|done].
  - by apply lookup_delete_Some in Ht as [_ Ht].
  - by apply lookup_delete_Some in Ht as [_ Ht].
Qed.

Lemma steps_old_node parent s s' :
  steps parent s s' -> (zk_next s <= zk_next s')%nat /\
  forall t tm, (t < zk_next s)%nat -> zk_nodes s' !! t = Some tm -> zk_nodes s !! t = Some tm.
Proof.
  induction 1 as [|s1 s2 s3 H12 [Hle IH] H23]; [done|].
  pose proof (step_next _ _ _ H23). split; [lia|]. intros t tm Ht Hg. apply IH; [done|].
  eapply step_old_node; [done|lia|done].
Qed.

(** [lock_turn] does not raise. *)
Lemma lock_turn_ok parent s n m :
  inv s -> (n <= MAX_SEQUENCE)%nat -> exists r, lock_turn (parent +:+ node_name m n) m (child_names s) = Ok r.
Proof.
  intros Hi Hn. unfold lock_turn, child_names. rewrite sequence_index_of by done. cbn [res_bind].
  rewrite locks_before_names; [simpl; eauto|].
  rewrite Forall_forall. intros [k m'] Hk. apply elem_of_map_to_list in Hk.
  pose proof (inv_next s Hi k (ex_intro _ _ Hk)). pose proof (inv_bound s Hi). simpl. lia.
Qed.

(** ** Properties *)

(** The sequence number of a node is read back from its path, whatever the
    path of its parent, for every value of ZooKeeper's 32-bit counter. *)
Theorem sequence_index_roundtrip parent m n (Hn : (n <= MAX_SEQUENCE)%nat) :
  get_sequence_index (get_abs_path parent (node_name m n)) = Ok (Z.of_nat n).
Proof. unfold get_abs_path. rewrite <- str_app_assoc. by apply sequence_index_of. Qed.

(** C3: mutual exclusion.  In every reachable state, two processes in their
    critical sections at the same time are both readers. *)
Theorem mutual_exclusion parent s n1 m1 n2 m2
    (Hs : reachable parent s) (Hne : n1 <> n2)
    (H1 : zk_procs s !! n1 = Some (m1, PHeld)) (H2 : zk_procs s !! n2 = Some (m2, PHeld)) :
  m1 = Read /\ m2 = Read.
Proof.
  pose proof (reachable_inv _ _ Hs) as Hi.
  assert (Hc : conflict m1 m2 = false).
  { assert (N1 : zk_nodes s !! n1 = Some m1) by (apply (inv_nodes s Hi); eauto).
    assert (N2 : zk_nodes s !! n2 = Some m2) by (apply (inv_nodes s Hi); eauto).
    destruct (decide (n1 < n2)%nat).
    - rewrite conflict_sym. by apply (inv_held s Hi n2 m2 H2 n1).
    - apply (inv_held s Hi n1 m1 H1 n2); [done|lia]. }
  by destruct m1, m2.
Qed.

(** C14: no wake-up is lost.  A waiting process waits for a node that is there,
    that belongs to a live process with a smaller number, and whose deletion,
    by release or by the death of its owner, makes the process run again. *)
Theorem no_lost_wakeup parent s n m r
    (Hs : reachable parent s) (Hw : zk_procs s !! n = Some (m, PWait r)) :
  exists t tm pc, r = node_name tm t /\ (t < n)%nat /\ conflict m tm = true /\
    zk_nodes s !! t = Some tm /\ zk_procs s !! t = Some (tm, pc) /\
    zk_procs (delete_node t tm s) !! n = Some (m, PRun).
Proof.
  pose proof (reachable_inv _ _ Hs) as Hi.
  destruct (inv_wait s Hi _ _ _ Hw) as (t & tm & -> & Ht & Htn & Hc).
  destruct (proj1 (inv_nodes s Hi t tm) Ht) as [pc Hpc].
  exists t, tm, pc. split_and!; try done. unfold delete_node. cbn [zk_procs].
  rewrite lookup_fmap, lookup_delete_ne by lia. rewrite Hw. simpl. by rewrite String.eqb_refl.
Qed.

(** C15: no deadlock.  In every reachable state with processes, one of them
    holds its lock or can take a step of its loop. *)
Theorem deadlock_freedom parent s (Hs : reachable parent s) (Hne : zk_procs s <> ∅) :
  exists n m pc, zk_procs s !! n = Some (m, pc) /\
    (pc = PHeld \/ exists pc', step parent s (set_pc n m pc' s)).
Proof.
  pose proof (reachable_inv _ _ Hs) as Hi.
  assert (Hmin : forall k, (exists p, zk_procs s !! k = Some p) ->
            exists n m pc, zk_procs s !! n = Some (m, pc) /\ forall r, pc <> PWait r).
  { induction k as [k IH] using (well_founded_induction lt_wf). intros [[m pc] Hk].
    destruct pc as [|r|r|]; [by do 3 eexists|by do 3 eexists| |by do 3 eexists].
    destruct (inv_wait s Hi _ _ _ Hk) as (t & tm & _ & Ht & Htk & _).
    apply (IH t Htk). destruct (proj1 (inv_nodes s Hi t tm) Ht) as [pc Hpc]. eauto. }
  apply map_choose in Hne as (k & p & Hk). destruct (Hmin k) as (n & m & pc & Hn & Hpc); [eauto|].
  exists n, m, pc. split; [done|].
  assert (n <= MAX_SEQUENCE)%nat by (pose proof (inv_proc_bound _ _ _ Hi Hn); pose proof (inv_bound _ Hi); lia).
  destruct pc as [|r|r|]; [|..|by left]; right.
  - destruct (lock_turn_ok parent s n m Hi) as [[rel|] Hl]; [done|..].
    + eexists. by eapply step_blocked.
    + eexists. by eapply step_lock.
  - destruct (decide (r ∈ child_names s)); eexists; [by eapply step_exists|by eapply step_retry].
  - by destruct (Hpc r).
Qed.

(** First come, first served.  A process with no conflicting node before
    it takes the lock in its next turn, whatever the order of the children; so
    a writer is only ever kept waiting by earlier nodes. *)
Theorem first_takes_lock parent s n m children
    (Hs : reachable parent s) (Hn : zk_procs s !! n = Some (m, PRun)) (Hch : children ≡ₚ child_names s)
    (Hfirst : before s n m = ∅) :
  lock_turn (parent +:+ node_name m n) m children = Ok None.
Proof.
  pose proof (reachable_inv _ _ Hs) as Hi.
  assert (Hb : (n <= MAX_SEQUENCE)%nat) by (pose proof (inv_proc_bound _ _ _ Hi Hn); pose proof (inv_bound _ Hi); lia).
  pose proof (fun r => lock_turn_spec parent s n m children r Hi Hb Hch) as Hspec.
  assert (Hok : exists r, lock_turn (parent +:+ node_name m n) m children = Ok r).
  { unfold lock_turn. rewrite sequence_index_of by done. cbn [res_bind].
    apply Permutation_map_inv in Hch as (l & -> & Hl). rewrite locks_before_names; [simpl; eauto|].
    rewrite Forall_forall. intros [k m'] Hk. rewrite <- Hl in Hk. apply elem_of_map_to_list in Hk.
    pose proof (inv_next s Hi k (ex_intro _ _ Hk)). pose proof (inv_bound s Hi). simpl. lia. }
  destruct Hok as [[rel|] Hr]; [|done]. destruct (Hspec _ Hr) as (t & tm & _ & Ht & Htn & Hc).
  assert (t ∈ before s n m) by (apply elem_before; eauto). set_solver.
Qed.

(** The loop ends.  Between the turn in which a process saw a conflicting
    node and a later state in which that node is gone, so that the loop goes
    round again, the number of conflicting nodes before the process has become
    smaller, whatever the other processes did; so a process turns at most once
    per node that was before it. *)
Theorem retry_makes_progress parent s s' n m children rel
    (Hs : reachable parent s) (Hn : zk_procs s !! n = Some (m, PRun)) (Hch : children ≡ₚ child_names s)
    (Hturn : lock_turn (parent +:+ node_name m n) m children = Ok (Some rel))
    (Hrun : steps parent s s') (Hgone : rel ∉ child_names s') :
  (size (before s' n m) < size (before s n m))%nat.
Proof.
  pose proof (reachable_inv _ _ Hs) as Hi. pose proof (inv_proc_bound _ _ _ Hi Hn) as Hlt.
  pose proof (inv_bound _ Hi) as Hb.
  destruct (lock_turn_spec parent s n m children (Some rel) Hi) as (t & tm & -> & Ht & Htn & Hc); [lia|done..|].
  destruct (steps_old_node parent s s' Hrun) as [_ Hold].
  apply subset_size. split.
  - intros k (km & Hk & Hkn & Hkc)%elem_before. apply elem_before. exists km. split_and!; try done. apply Hold; [lia|done].
  - intros Hsup. assert (Hin : t ∈ before s' n m) by (apply Hsup, elem_before; eauto).
    apply elem_before in Hin as (tm' & Ht' & _ & _). apply Hgone, elem_child_names. exists t, tm'. split; [|done].
    assert (Hs' : zk_nodes s !! t = Some tm') by (apply Hold; [lia|done]). congruence.
Qed.

Module Witness.
Definition s1 : Zk := mkZk 1 {[0%nat := Write]} {[0%nat := (Write, PRun)]}.
Definition s2 : Zk := set_pc 0 Write PHeld s1.
Definition s3 : Zk := mkZk 2 (<[1%nat := Read]> (zk_nodes s2)) (<[1%nat := (Read, PRun)]> (zk_procs s2)).
Definition s4 : Zk := set_pc 1 Read (PCheck (node_name Write 0)) s3.
Definition s5 : Zk := set_pc 1 Read (PWait (node_name Write 0)) s4.

Lemma max_pos n : (n < 10)%nat -> (n < MAX_SEQUENCE)%nat.
Proof. Transparent MAX_SEQUENCE. unfold MAX_SEQUENCE. lia. Qed.

Lemma reach1 : reachable "p/" s1.
Proof. eapply reach_step; [apply reach_init|]. apply (step_acquire "p/" Write zk_init). apply max_pos. simpl. lia. Qed.

Lemma reach2 : reachable "p/" s2.
Proof.
  eapply reach_step; [apply reach1|]. apply (step_lock "p/" 0 Write (child_names s1) s1); [reflexivity|done|].
  vm_compute. reflexivity.
Qed.

Lemma reach3 : reachable "p/" s3.
Proof. eapply reach_step; [apply reach2|]. apply (step_acquire "p/" Read s2). apply max_pos. simpl. lia. Qed.

Lemma reach4 : reachable "p/" s4.
Proof.
  eapply reach_step; [apply reach3|]. apply (step_blocked "p/" 1 Read (child_names s3) _ s3); [reflexivity|done|].
  vm_compute. reflexivity.
Qed.

Lemma reach5 : reachable "p/" s5.
Proof.
  eapply reach_step; [apply reach4|]. apply (step_exists "p/" 1 Read _ s4); [reflexivity|].
  apply elem_child_names. by exists 0%nat, Write.
Qed.

(** The writer releases; the reader, still waiting, runs again and locks, and
    another reader joins it. *)
Definition s6 : Zk := delete_node 0 Write s5.
Definition s7 : Zk := set_pc 1 Read PHeld s6.
Definition s8 : Zk := mkZk 3 (<[2%nat := Read]> (zk_nodes s7)) (<[2%nat := (Read, PRun)]> (zk_procs s7)).
Definition s9 : Zk := set_pc 2 Read PHeld s8.

Lemma reach6 : reachable "p/" s6.
Proof. eapply reach_step; [apply reach5|]. by apply (step_release "p/" 0 Write s5). Qed.

Lemma reach8 : reachable "p/" s8.
Proof.
  eapply reach_step; [|apply (step_acquire "p/" Read s7); apply max_pos; simpl; lia].
  eapply reach_step; [apply reach6|]. apply (step_lock "p/" 1 Read (child_names s6) s6); [reflexivity|done|].
  vm_compute. reflexivity.
Qed.

Lemma reach9 : reachable "p/" s9.
Proof.
  eapply reach_step; [apply reach8|]. apply (step_lock "p/" 2 Read (child_names s8) s8); [reflexivity|done|].
  vm_compute. reflexivity.
Qed.

Lemma sequence_index_roundtrip_witness : get_sequence_index "locks/a-b/writelock-0000000004" = Ok 4.
Proof.
  pose proof (sequence_index_roundtrip "locks/a-b" Write 4) as H.
  replace (get_abs_path "locks/a-b" (node_name Write 4)) with "locks/a-b/writelock-0000000004" in H
    by (vm_compute; reflexivity).
  apply H. apply Nat.lt_le_incl, max_pos. lia.
Defined.

Lemma mutual_exclusion_witness :
  zk_procs s9 !! 1%nat = Some (Read, PHeld) /\ zk_procs s9 !! 2%nat = Some (Read, PHeld) /\ Read = Read.
Proof.
  split; [reflexivity|]. split; [reflexivity|].
  by destruct (mutual_exclusion "p/" s9 1 Read 2 Read reach9) as [H _].
Defined.

Lemma no_lost_wakeup_witness :
  exists t tm, node_name Write 0 = node_name tm t /\ zk_procs (delete_node t tm s5) !! 1%nat = Some (Read, PRun).
Proof.
  destruct (no_lost_wakeup "p/" s5 1 Read (node_name Write 0) reach5) as (t & tm & pc & H1 & _ & _ & _ & _ & H2);
    [reflexivity|]. by exists t, tm.
Defined.

Lemma deadlock_freedom_witness :
  exists n m pc, zk_procs s5 !! n = Some (m, pc) /\ (pc = PHeld \/ exists pc', step "p/" s5 (set_pc n m pc' s5)).
Proof. apply (deadlock_freedom "p/" s5 reach5). intros H. discriminate (f_equal (lookup 0%nat) H). Defined.

Lemma first_takes_lock_witness :
  lock_turn ("p/" +:+ node_name Read 1) Read (child_names s6) = Ok None.
Proof. apply (first_takes_lock "p/" s6 1 Read (child_names s6) reach6); [reflexivity|done|vm_compute; reflexivity]. Defined.

Lemma retry_makes_progress_witness :
  (size (before (delete_node 0 Write s4) 1 Read) < size (before s3 1 Read))%nat.
Proof.
  apply (retry_makes_progress "p/" s3 (delete_node 0 Write s4) 1 Read (child_names s3) (node_name Write 0) reach3).
  - reflexivity.
  - done.
  - vm_compute. reflexivity.
  - eapply steps_step; [eapply steps_step; [apply steps_refl|]|].
    + apply (step_blocked "p/" 1 Read (child_names s3) (node_name Write 0) s3); [reflexivity|done|vm_compute; reflexivity].
    + by apply (step_release "p/" 0 Write s4).
  - apply (bool_decide_unpack _). vm_compute. exact I.
Defined.
End Witness.
