(* ===== verification/IoUtils.v ===== *)
(** * Transfers: hashes, S3, HTTP and size estimates

    bai_io_utils (md5sum.py, s3_utils.py, http_utils.py, failures.py) and the
    preflight package of the fetcher (estimator.py, s3_estimator.py,
    http_estimator.py).  The calls of boto3 and pycurl that the code makes are
    the operations of two classes over a state [W] of the outside world. *)

From S2P Require Import Prelude PyStr Events.

#[local] Arguments String.append !_ _ /.

(** [try: m except ClientError as e: h(e)]. *)
Definition except_client {W A} (m : M W A) (h : string -> M W A) : M W A :=
  try_except m (fun e => match e with ClientError msg => h msg | _ => raise e end).

(** ** md5sum.py *)

Section Digests.
(** The digest of [hashlib.md5], as bytes and in hexadecimal. *)
Context (md5 hex : string -> string).

Record DigestPair := mkDigest { dp_md5 : string; dp_s3_etag : string }.

Definition S3_MAX_CHUNK_BYTES : nat := Z.to_nat (8 * 1024 * 1024).

(** The loop over [iter(lambda: fp.read(chunk_size), b"")].  A hash object is
    the data it was fed with; [global] is that of the whole file. *)
Fixpoint digest_loop (fuel : nat) (chunk_size : nat) (rest global : string) (md5s : list string) (first : bool) :
    option (string * list string) :=
  match fuel with
  | O => None
  | S fuel =>
      let data := str_take chunk_size rest in
      if String.eqb data "" then Some (global, md5s)
      else
        let global := global +:+ data in
        let md5s := (md5s ++ [if first then md5 global else md5 data])%list in
        digest_loop fuel chunk_size (str_drop chunk_size rest) global md5s false
  end.

Definition calculate_md5_and_etag (chunk_size : nat) (content : string) : option DigestPair :=
  match digest_loop (S (String.length content)) chunk_size content "" [] true with
  | None => None
  | Some (global, md5s) =>
      let global_md5 := hex (md5 global) in
      Some (mkDigest global_md5
        (if (1 <? length md5s)%nat
         then hex (md5 (join "" md5s)) +:+ "-" +:+ pretty (Z.of_nat (length md5s))
         else global_md5))
  end.

(** The parts of a multipart upload: [n]-byte blocks, the last one shorter. *)
Fixpoint parts_of (fuel n : nat) (s : string) : list string :=
  match fuel with
  | O => []
  | S fuel => if String.eqb s "" then [] else str_take n s :: parts_of fuel n (str_drop n s)
  end.
Definition parts (n : nat) (s : string) : list string := parts_of (String.length s) n s.

(** What S3 documents of ETags: the MD5 of the object for a single-part upload,
    and for a multipart one the MD5 of the MD5s of the parts with their number. *)
Definition s3_etag_of (n : nat) (s : string) : string :=
  if (String.length s <=? n)%nat then hex (md5 s)
  else hex (md5 (join "" (map md5 (parts n s)))) +:+ "-" +:+ pretty (Z.of_nat (length (parts n s))).

Lemma str_take_drop n s : str_take n s +:+ str_drop n s = s.
Proof. revert s. induction n as [|n IH]; intros [|c s]; simpl; try done. f_equal. apply IH. Qed.

Lemma str_take_empty n s : (0 < n)%nat -> String.eqb (str_take n s) "" = String.eqb s "".
Proof. destruct n, s; simpl; try lia; done. Qed.

Lemma parts_of_fuel f1 f2 n s :
  (0 < n)%nat -> (String.length s <= f1)%nat -> (String.length s <= f2)%nat -> parts_of f1 n s = parts_of f2 n s.
Proof.
  intros Hn. revert f2 s. induction f1 as [|f1 IH]; intros [|f2] s H1 H2; simpl.
  - done.
  - destruct s; [done|simpl in H1; lia].
  - destruct s; [done|simpl in H2; lia].
  - destruct (String.eqb_spec s "") as [|Hne]; [done|]. f_equal.
    assert (0 < String.length s)%nat by (destruct s; [done|simpl; lia]).
    apply IH; rewrite str_drop_length; lia.
Qed.

Lemma parts_cons n s :
  (0 < n)%nat -> s <> "" -> parts n s = str_take n s :: parts n (str_drop n s).
Proof.
  intros Hn Hs. unfold parts. destruct s as [|c s']; [done|]. set (s := String c s') in *.
  change (String.length s) with (S (String.length s')). simpl parts_of. f_equal.
  apply parts_of_fuel; [done|rewrite str_drop_length; unfold s; simpl; lia..].
Qed.

Lemma digest_loop_rest fuel n rest global md5s :
  (0 < n)%nat -> (String.length rest < fuel)%nat ->
  digest_loop fuel n rest global md5s false = Some (global +:+ rest, (md5s ++ map md5 (parts n rest))%list).
Proof.
  intros Hn. revert rest global md5s.
  induction fuel as [|fuel IH]; intros rest global md5s Hf; [lia|]. simpl.
  rewrite str_take_empty by done. destruct (String.eqb_spec rest "") as [->|Hne].
  - simpl. by rewrite app_nil_r, str_app_nil_r.
  - rewrite IH.
    + rewrite str_app_assoc, str_take_drop, (parts_cons n rest) by done. simpl. by rewrite <- app_assoc.
    + rewrite str_drop_length. destruct rest; [done|]. simpl in *. lia.
Qed.

Lemma digest_loop_all n s :
  (0 < n)%nat ->
  digest_loop (S (String.length s)) n s "" [] true = Some (s, map md5 (parts n s)).
Proof.
  intros Hn. cbn [digest_loop]. rewrite str_take_empty by done.
  destruct (String.eqb_spec s "") as [->|Hne]; [done|].
  rewrite digest_loop_rest; [|done|].
  - cbn [String.append app]. by rewrite str_take_drop, (parts_cons n s).
  - rewrite str_drop_length. destruct s; [done|]. simpl. lia.
Qed.

Lemma parts_length n s : (0 < n)%nat -> (1 <? length (parts n s))%nat = negb (String.length s <=? n)%nat.
Proof.
  intros Hn. destruct (String.eqb_spec s "") as [->|Hne]; [done|].
  rewrite (parts_cons n s) by done. simpl length.
  destruct (String.eqb_spec (str_drop n s) "") as [E|E].
  - rewrite E. simpl. pose proof (str_drop_length n s) as L. rewrite E in L. simpl in L.
    symmetry. apply negb_false_iff, Nat.leb_le. lia.
  - rewrite (parts_cons n (str_drop n s)) by done. simpl. pose proof (str_drop_length n s) as L.
    symmetry. apply negb_true_iff, Nat.leb_gt.
    destruct (str_drop n s); [done|]. simpl in L. lia.
Qed.

(** C40: the one-pass computation of the two hashes, which hashes the first
    block through the hash of the file, always ends, and gives the MD5 of the
    content and the ETag that S3 computes for an upload in parts of that size. *)
Theorem calculate_md5_and_etag_spec n s (Hn : (0 < n)%nat) :
  calculate_md5_and_etag n s = Some (mkDigest (hex (md5 s)) (s3_etag_of n s)).
Proof.
  unfold calculate_md5_and_etag, s3_etag_of. rewrite digest_loop_all by done.
  rewrite length_map, parts_length by done. by destruct (String.length s <=? n)%nat.
Qed.
End Digests.

(** ** s3_utils.py *)

Record S3Object := mkS3 { s3_bucket : string; s3_key : string }.

#[export] Instance S3Object_eq_dec : EqDecision S3Object.
Proof. solve_decision. Defined.

(** [S3Object.parse] and [S3Object.__str__]. *)
Definition s3_parse (url : string) : Res S3Object :=
  dst_url <~ urlparse url ;;
  Ok (mkS3 (netloc dst_url) (str_drop 1 (path dst_url))).

Definition s3_str (o : S3Object) : string := "s3://" +:+ s3_bucket o +:+ "/" +:+ s3_key o.

(** The fields of an object summary that the code reads. *)
Record ObjectSummary := mkSummary { os_key : string; os_size : Z; os_e_tag : string }.

(** The calls of boto3.  A listing is read page by page while it is iterated:
    an entry [Raise e] stands for a page that could not be fetched. *)
Class S3Api (W : Type) : Type := {
  content_length : S3Object -> M W Z;
  e_tag : S3Object -> M W string;
  list_objects : string -> string -> M W (list (Res ObjectSummary));
  get_object_tagging : S3Object -> M W (list (string * string));
  put_object_tagging : S3Object -> list (string * string) -> M W unit;
  get_object_if_match : S3Object -> string -> M W unit;
  upload_fileobj : string -> S3Object -> M W unit;
  download_fileobj : S3Object -> M W string;
  copy_object : S3Object -> S3Object -> M W unit
}.

Definition MD5_TAG : string := "MD5".

Section S3.
Context {W : Type} `{S3Api W}.

Definition upload_to_s3 (fp : string) (dst : S3Object) : M W unit :=
  except_client (upload_fileobj fp dst) (fun _ => raise (S3Error "")).

Definition update_s3_hash_tagging (dst : S3Object) (md5 : string) : M W unit :=
  except_client (put_object_tagging dst [(MD5_TAG, md5)]) (fun _ => raise (S3Error "")).

Definition check_s3_for_etag (dst : S3Object) (etag : string) : M W bool :=
  except_client (get_object_if_match dst etag ;; ret true) (fun _ => ret false).

(** [None] when the object has no MD5 tag: the check goes on with the ETag. *)
Definition md5_tag_check (dst : S3Object) (md5 : string) : M W (option bool) :=
  except_client
    (tags <- get_object_tagging dst ;;
     let md5s := map snd (List.filter (fun kv => String.eqb kv.1 "MD5") tags) in
     match md5s with
     | m :: _ => ret (Some (String.eqb md5 m))
     | [] => ret None
     end)
    (fun _ => ret (Some false)).

Definition check_s3_for_md5 (dst : S3Object) (md5 : string) : M W bool :=
  r <- md5_tag_check dst md5 ;;
  match r with
  | Some b => ret b
  | None => check_s3_for_etag dst md5
  end.

Definition download_from_s3 (src : string) : M W string :=
  s3src <- lift (s3_parse src) ;;
  except_client (_ <- content_length s3src ;; download_fileobj s3src) (fun _ => raise (S3Error "")).

(** The loop of [is_s3_file] over the objects under the prefix. *)
Fixpoint is_s3_file_loop (key : string) (any_object : bool) (l : list (Res ObjectSummary)) : Res bool :=
  match l with
  | [] => if any_object then Ok true else Raise (S3Error "Object not found")
  | Raise e :: _ => Raise e
  | Ok sub_obj :: l' => if String.eqb (os_key sub_obj) key then is_s3_file_loop key true l' else Ok false
  end.

Definition is_s3_file (obj : S3Object) : M W bool :=
  accessible <- except_client (n <- content_length obj ;; ret (0 <? n)) (fun _ => ret false) ;;
  if accessible then ret true
  else
    except_client
      (l <- list_objects (s3_bucket obj) (s3_key obj) ;;
       lift (is_s3_file_loop (s3_key obj) false l))
      (fun _ => raise (S3Error "")).

(** ** preflight/s3_estimator.py *)

(** The loop over the objects: count, total and maximum of the non-empty ones. *)
Fixpoint size_loop (cnt total_size max_size : Z) (l : list (Res ObjectSummary)) : Res ContentSizeInfo :=
  match l with
  | [] => Ok (mkSize total_size cnt max_size)
  | Raise e :: _ => Raise e
  | Ok sub_obj :: l' =>
      let size := os_size sub_obj in
      if size =? 0 then size_loop cnt total_size max_size l'
      else size_loop (cnt + 1) (total_size + size) (Z.max max_size size) l'
  end.

Definition s3_estimate_size (src : string) : M W ContentSizeInfo :=
  obj <- lift (s3_parse src) ;;
  single <- except_client
    (n <- content_length obj ;; ret (if 0 <? n then Some (mkSize n 1 n) else None))
    (fun _ => ret None) ;;
  match single with
  | Some info => ret info
  | None =>
      except_client
        (l <- list_objects (s3_bucket obj) (s3_key obj) ;; lift (size_loop 0 0 0 l))
        (fun msg => raise (S3Error msg))
  end.
End S3.

(** ** http_utils.py *)

(** The options set on a [pycurl.Curl], and what it reports afterwards. *)
Record CurlOptions := mkCurl {
  curl_url : string;
  curl_followlocation : bool;
  curl_maxredirs : Z;
  curl_connecttimeout : Z;
  curl_timeout : Z;
  curl_nobody : bool
}.
Record CurlInfo := mkInfo { http_code : Z; content_length_download : Z; curl_body : string }.

(** [curl.perform()] with the [getinfo]s; a failure is a [pycurl.error]. *)
Class Curl (W : Type) : Type := { perform : CurlOptions -> M W CurlInfo }.

Definition is_pycurl_error (e : exn) : bool :=
  match e with OtherException "pycurl.error" _ => true | _ => false end.

Inductive HTTPFamily : Set := INFORMATIONAL | SUCCESS | REDIRECT | CLIENT_ERROR | SERVER_ERROR.

#[export] Instance HTTPFamily_eq_dec : EqDecision HTTPFamily.
Proof. solve_decision. Defined.

Definition from_status (status_code : Z) : Res HTTPFamily :=
  let v := status_code - status_code mod 100 in
  if v =? 100 then Ok INFORMATIONAL
  else if v =? 200 then Ok SUCCESS
  else if v =? 300 then Ok REDIRECT
  else if v =? 400 then Ok CLIENT_ERROR
  else if v =? 500 then Ok SERVER_ERROR
  else Raise (ValueError (pretty v +:+ " is not a valid HTTPFamily")).

Definition check_status (status_code : Z) : Res unit :=
  family <~ from_status status_code ;;
  match family with
  | CLIENT_ERROR => Raise HttpClientError
  | SERVER_ERROR => Raise HttpServerError
  | _ => Ok tt
  end.

Section Http.
Context {W : Type} `{Curl W}.

Definition http_perform (curl : CurlOptions) : M W CurlInfo :=
  info <- try_except (perform curl) (fun e => if is_pycurl_error e then raise CurlError else raise e) ;;
  lift (check_status (http_code info)) ;;
  ret info.

Definition http_download (src : string) : M W string :=
  info <- http_perform (mkCurl src true 5 30 (60 * 60 * 24) false) ;;
  ret (curl_body info).

(** ** preflight/http_estimator.py *)

Definition http_estimate_size (src : string) : M W ContentSizeInfo :=
  info <- http_perform (mkCurl src true 5 30 60 true) ;;
  let content_length := content_length_download info in
  ret (mkSize content_length 1 content_length).
End Http.

(** ** preflight/estimator.py *)

(** What the package retrying documents of [stop_max_attempt_number=n] with
    [retry_on_exception=p]: the function is called again after an exception that
    [p] accepts, until [n] calls were made; the last outcome is the result. *)
Fixpoint attempts {W A} (p : exn -> bool) (n : nat) (m : M W A) : M W A :=
  match n with
  | O | S O => m
  | S n' => try_except m (fun e => if p e then attempts p n' m else raise e)
  end.

Class Retrying : Type := {
  retry : forall {W A : Type}, (exn -> bool) -> nat -> M W A -> M W A;
  retry_attempts : forall W A p n (m : M W A) w, retry p n m w = attempts p n m w
}.

Definition MAX_ATTEMPTS : nat := 3.

Section Estimator.
Context {W : Type} `{S3Api W} `{Curl W} `{Retrying}.

Definition estimate_once (src : string) : M W ContentSizeInfo :=
  parsed <- lift (urlparse src) ;;
  if String.eqb (scheme parsed) "http" || String.eqb (scheme parsed) "https" then http_estimate_size src
  else if String.eqb (scheme parsed) "s3" then s3_estimate_size src
  else raise (UnknownSchemeException ("Unknown scheme '" +:+ scheme parsed +:+ "' in '" +:+ src +:+ "'")).

Definition estimate_fetch_size (src : string) : M W ContentSizeInfo :=
  retry is_RetryableError MAX_ATTEMPTS (estimate_once src).
End Estimator.

(** ** Lemmas and properties *)

Lemma span_stop stop a c b :
  str_forall (fun x => negb (stop x)) a = true -> stop c = true -> span stop (a +:+ String c b) = (a, String c b).
Proof.
  intros Ha Hc. induction a as [|x a IH]; simpl; [by rewrite Hc|]. simpl in Ha.
  apply andb_true_iff in Ha as [Hx Ha]. apply negb_true_iff in Hx. by rewrite Hx, IH.
Qed.

(** The characters of a bucket name and of a key that survive [urlparse]. *)
Definition bucket_char (c : ascii) : bool := negb (is_netloc_end c || Ascii.eqb c "[" || Ascii.eqb c "]").
Definition key_char (c : ascii) : bool := negb (Ascii.eqb c "?" || Ascii.eqb c "#").

Lemma no_char_forall c p s : str_forall p s = true -> p c = false -> no_char c s = true.
Proof.
  intros Hs Hc. unfold no_char. eapply str_forall_impl; [|exact Hs].
  intros x Hx. apply negb_true_iff, Ascii.eqb_neq. congruence.
Qed.

(** An S3 URL printed by [S3Object.__str__] parses back to the object, for
    the bucket names that URLs allow and for keys without [?] and [#]. *)
Theorem s3_object_roundtrip o
    (Hb : str_forall bucket_char (s3_bucket o) = true) (Hk : str_forall key_char (s3_key o) = true) :
  s3_parse (s3_str o) = Ok o.
Proof.
  destruct o as [b k]. cbn [s3_bucket s3_key] in *. unfold s3_parse, s3_str, urlparse. cbn [s3_bucket s3_key].
  change (split_scheme ("s3://" +:+ b +:+ "/" +:+ k)) with ("s3", "//" +:+ b +:+ "/" +:+ k).
  cbn [split_netloc String.append]. rewrite span_stop; [|eapply str_forall_impl; [|exact Hb]|done].
  2:{ intros x. unfold bucket_char. destruct (is_netloc_end x); done. }
  unfold bad_ipv6. rewrite !(no_char_forall _ _ b Hb) by done. cbn [eqb negb].
  rewrite !before_char_id; [done|..]; cbn [no_char str_forall].
  all: try (rewrite before_char_id); unfold no_char; cbn [str_forall]; cbn [Ascii.eqb negb andb Bool.eqb].
  all: by apply (no_char_forall _ _ k Hk).
Qed.

(** The reference for the size of a directory: over the non-empty objects. *)
Definition sizes (l : list ObjectSummary) : list Z := List.filter (fun n => negb (n =? 0)) (map os_size l).
Definition sum_list (l : list Z) : Z := foldr Z.add 0 l.
Definition max_list (l : list Z) : Z := foldr Z.max 0 l.

Lemma size_loop_run l cnt total mx :
  0 <= mx ->
  size_loop cnt total mx (map Ok l) =
  Ok (mkSize (total + sum_list (sizes l)) (cnt + Z.of_nat (length (sizes l))) (Z.max mx (max_list (sizes l)))).
Proof.
  unfold sizes. revert cnt total mx. induction l as [|o l IH]; intros cnt total mx Hmx; simpl.
  - do 2 f_equal; lia.
  - destruct (os_size o =? 0); simpl; rewrite IH by lia; do 2 f_equal; lia.
Qed.

Lemma sizes_bounds l :
  Forall (fun o => 0 <= os_size o) l ->
  max_list (sizes l) <= sum_list (sizes l) <= Z.of_nat (length (sizes l)) * max_list (sizes l) /\
  0 <= max_list (sizes l).
Proof.
  unfold sizes. induction 1 as [|o l Ho Hl IH]; simpl; [lia|].
  destruct (Z.eqb_spec (os_size o) 0); cbn [negb List.filter]; [done|].
  cbn [sum_list max_list foldr length].
  fold (sum_list (List.filter (fun n => negb (n =? 0)) (map os_size l))).
  fold (max_list (List.filter (fun n => negb (n =? 0)) (map os_size l))). nia.
Qed.

Section Properties.
Context {W : Type} `{S3Api W} `{Curl W}.

(** The size of an S3 source.  An object with content is taken alone;
    otherwise the objects under the prefix are added up: the total, the number
    and the maximum of the non-empty ones, with the maximum at most the total
    and the total at most the number times the maximum.  A listing that fails
    is an [S3Error], which is not retried. *)
Theorem s3_estimate_size_spec src obj w (Hparse : s3_parse src = Ok obj) :
  match content_length obj w with
  | (Raise (ClientError _), w1) | (Ok 0, w1) =>
      match list_objects (s3_bucket obj) (s3_key obj) w1 with
      | (Raise (ClientError msg), w2) => s3_estimate_size src w = (Raise (S3Error msg), w2)
      | (Raise e, w2) => s3_estimate_size src w = (Raise e, w2)
      | (Ok entries, w2) =>
          forall l, entries = map Ok l -> Forall (fun o => 0 <= os_size o) l ->
          exists info, s3_estimate_size src w = (Ok info, w2) /\
            total_size info = sum_list (sizes l) /\
            file_count info = Z.of_nat (length (sizes l)) /\
            max_size info = max_list (sizes l) /\
            max_size info <= total_size info <= file_count info * max_size info
      end
  | (Ok (Zpos n), w1) => s3_estimate_size src w = (Ok (mkSize (Zpos n) 1 (Zpos n)), w1)
  | (Ok (Zneg _), _) => True
  | (Raise e, w1) => s3_estimate_size src w = (Raise e, w1)
  end.
Proof.
  unfold s3_estimate_size, except_client, lift, bind, try_except. rewrite Hparse.
  assert (Hlist : forall w1,
    match list_objects (s3_bucket obj) (s3_key obj) w1 with
    | (Ok entries, w2) => forall l, entries = map Ok l -> Forall (fun o => 0 <= os_size o) l ->
        exists info, size_loop 0 0 0 entries = Ok info /\ total_size info = sum_list (sizes l) /\
            file_count info = Z.of_nat (length (sizes l)) /\ max_size info = max_list (sizes l) /\
            max_size info <= total_size info <= file_count info * max_size info
    | _ => True end).
  { intros w1. destruct (list_objects _ _ w1) as [[entries|] w2]; [|done]. intros l -> Hl.
    rewrite size_loop_run by lia. eexists. split; [done|]. simpl.
    pose proof (sizes_bounds l Hl). rewrite Z.max_r by lia. repeat split; lia. }
  destruct (content_length obj w) as [[[|n|n]|e] w1]; simpl; try done.
  - specialize (Hlist w1). destruct (list_objects _ _ w1) as [[entries|[]] w2]; try done.
    intros l Hl Hp. destruct (Hlist l Hl Hp) as (info & -> & ?). by exists info.
  - destruct e; try done. simpl.
    specialize (Hlist w1). destruct (list_objects _ _ w1) as [[entries|[]] w2]; try done.
    intros l Hl Hp. destruct (Hlist l Hl Hp) as (info & -> & ?). by exists info.
Qed.

Context `{Retrying}.

(** The estimate by scheme.  A source that is neither HTTP nor S3 is
    refused without any request; an HTTP source is asked at most three times,
    again only after an answer of the 5xx family, and its last answer is the
    result; an S3 source is asked once. *)
Theorem estimate_fetch_size_spec src u w (Hurl : urlparse src = Ok u) :
  if String.eqb (scheme u) "http" || String.eqb (scheme u) "https" then
    estimate_fetch_size src w =
      match http_estimate_size src w with
      | (Raise HttpServerError, w1) =>
          match http_estimate_size src w1 with
          | (Raise HttpServerError, w2) => http_estimate_size src w2
          | r => r
          end
      | r => r
      end
  else if String.eqb (scheme u) "s3" then
    (forall w', (s3_estimate_size src w').1 <> Raise HttpServerError) ->
    estimate_fetch_size src w = s3_estimate_size src w
  else estimate_fetch_size src w =
    (Raise (UnknownSchemeException ("Unknown scheme '" +:+ scheme u +:+ "' in '" +:+ src +:+ "'")), w).
Proof.
  unfold estimate_fetch_size. rewrite retry_attempts. cbn [MAX_ATTEMPTS attempts].
  unfold estimate_once, try_except, lift, bind. rewrite Hurl.
  destruct (String.eqb (scheme u) "http" || String.eqb (scheme u) "https").
  - destruct (http_estimate_size src w) as [[i|[]] w1]; try done. simpl.
    by destruct (http_estimate_size src w1) as [[i|[]] w2].
  - destruct (String.eqb (scheme u) "s3"); [|done]. intros Hs. specialize (Hs w).
    destruct (s3_estimate_size src w) as [[i|[]] w1]; try done.
Qed.
End Properties.

(** ** A concrete world, and witnesses *)

Module World.
(** Objects with their content and tags, the answers of a web server in the
    order it gives them, and the requests it got. *)
Record World := mkWorld {
  objects : list (S3Object * (string * list (string * string)));
  answers : list CurlInfo;
  requests : list string
}.

Definition size (body : string) : Z := Z.of_nat (String.length body).

Definition with_object {A} (o : S3Object) (k : string * list (string * string) -> Res A) : M World A :=
  fun w => (match dict_get (objects w) o with
            | Some b => k b
            | None => Raise (ClientError "Not Found")
            end, w).

Definition put (o : S3Object) (b : string * list (string * string)) : M World unit :=
  modify (fun w => mkWorld (dict_set (objects w) o b) (answers w) (requests w)).

(** S3 over such a world, for a way to compute the ETags. *)
Section Api.
Context (etag : string -> string).

Definition s3_with : S3Api World := {|
  content_length o := with_object o (fun b => Ok (size b.1));
  e_tag o := with_object o (fun b => Ok (etag b.1));
  list_objects bucket prefix :=
    gets (fun w => map (fun ob => Ok (mkSummary (s3_key ob.1) (size ob.2.1) (etag ob.2.1)))
      (List.filter (fun ob => String.eqb (s3_bucket ob.1) bucket && startswith prefix (s3_key ob.1)) (objects w)));
  get_object_tagging o := with_object o (fun b => Ok b.2);
  put_object_tagging o tags := b <- with_object o Ok ;; put o (b.1, tags);
  get_object_if_match o t :=
    with_object o (fun b => if String.eqb (etag b.1) t then Ok tt else Raise (ClientError "Precondition Failed"));
  upload_fileobj body o := put o (body, []);
  download_fileobj o := with_object o (fun b => Ok b.1);
  copy_object src dst := b <- with_object src Ok ;; put dst b
|}.
End Api.

#[export] Instance s3 : S3Api World := s3_with (fun body => "etag:" +:+ body).

#[export] Instance curl : Curl World := {|
  perform o := fun w =>
    match answers w with
    | [] => (Raise (OtherException "pycurl.error" "timeout"), w)
    | a :: rest => (Ok a, mkWorld (objects w) rest (requests w ++ [curl_url o])%list)
    end
|}.

#[export] Instance retrying : Retrying := {|
  retry W A := @attempts W A;
  retry_attempts W A p n m w := eq_refl
|}.
End World.

Module Witness.
Import World.

Definition w0 : World :=
  mkWorld [(mkS3 "b" "dir/", ("", [])); (mkS3 "b" "dir/x", ("abc", [])); (mkS3 "b" "dir/y", ("abcde", []));
           (mkS3 "c" "dir/z", ("z", []))]
    [mkInfo 503 0 ""; mkInfo 500 0 ""; mkInfo 200 77 ""; mkInfo 200 78 ""] [].

Lemma calculate_md5_and_etag_spec_witness :
  calculate_md5_and_etag (fun s => "<" +:+ s +:+ ">") (fun s => s) 2 "abcde" =
  Some (mkDigest "<abcde>" "<<ab><cd><e>>-3").
Proof.
  rewrite (calculate_md5_and_etag_spec (fun s => "<" +:+ s +:+ ">") (fun s => s) 2 "abcde"); [|lia].
  vm_compute. reflexivity.
Defined.

Lemma s3_object_roundtrip_witness : s3_parse "s3://my-bucket/a/b;c.txt" = Ok (mkS3 "my-bucket" "a/b;c.txt").
Proof. exact (s3_object_roundtrip (mkS3 "my-bucket" "a/b;c.txt") eq_refl eq_refl). Defined.

Lemma s3_estimate_size_spec_witness :
  exists info, s3_estimate_size "s3://b/dir/" w0 = (Ok info, w0) /\ total_size info = 8 /\ file_count info = 2 /\
    max_size info = 5.
Proof.
  pose proof (s3_estimate_size_spec "s3://b/dir/" (mkS3 "b" "dir/") w0 eq_refl) as Hspec.
  simpl in Hspec.
  destruct (Hspec [mkSummary "dir/" 0 "etag:"; mkSummary "dir/x" 3 "etag:abc"; mkSummary "dir/y" 5 "etag:abcde"])
    as (info & Hrun & Ht & Hc & Hm & _).
  - reflexivity.
  - repeat constructor; simpl; lia.
  - by exists info.
Defined.

Lemma estimate_fetch_size_spec_witness :
  (estimate_fetch_size "http://host/f" w0).1 = Ok (mkSize 77 1 77) /\
  length (requests (estimate_fetch_size "http://host/f" w0).2) = 3%nat.
Proof.
  pose proof (estimate_fetch_size_spec "http://host/f" (mkParse "http" "host" "/f") w0 eq_refl) as Hspec.
  simpl String.eqb in Hspec. cbn [orb] in Hspec. rewrite Hspec. vm_compute. by split.
Defined.
End Witness.
