(* ===== verification/FetcherJob.v ===== *)
(** * The fetcher job (bai_fetcher_job)

    The program that a Kubernetes job runs for one source: it copies the source
    to the S3 bucket of the service, checking the hash on the way
    (transfer_to_s3.py, http_to_s3.py, s3_to_s3.py), and writes the outcome to
    the ZooKeeper node of the request (fetcher.py, bai_zk_utils/zk_client.py). *)

From S2P Require Import Prelude PyStr Events IoUtils.

#[local] Arguments String.append !_ _ /.

(** ** bai_zk_utils/states.py *)

Record FetcherResult := mkResult {
  fr_status : FetcherStatus;
  fr_type : option FetchedType;
  fr_message : option string
}.

#[export] Instance FetcherResult_eq_dec : EqDecision FetcherResult.
Proof. solve_decision. Defined.

(** [FetcherResult.update(data_set)]. *)
Definition fr_update (r : FetcherResult) (d : DownloadableContent) : DownloadableContent :=
  if fs_success (fr_status r)
  then mkContent (dc_src d) (dc_path d) (dc_id d) (dc_md5 d) (dc_dst d) (fr_type r) (Some (fr_status r))
         (dc_message d) (dc_size_info d)
  else mkContent (dc_src d) (dc_path d) (dc_id d) (dc_md5 d) None (fr_type r) (Some (fr_status r))
         (fr_message r) (dc_size_info d).

(** [to_binary] and [from_binary]: the JSON codec that dataclasses_json derives. *)
Class ResultCodec : Type := {
  to_binary : FetcherResult -> string;
  from_binary : string -> Res FetcherResult;
  from_to_binary : forall r, from_binary (to_binary r) = Ok r
}.

(** ** The configuration (args.py) *)

Record FetcherJobConfig := mkJobConfig {
  fj_src : string;
  fj_dst : string;
  fj_md5 : option string;
  fj_zk_node_path : option string;
  fj_zookeeper_ensemble_hosts : string;
  fj_max_attempts : nat
}.

(** The client of kazoo that the job makes: [start] with the servers, [set]
    without a version, and [stop]. *)
Class Kazoo (W : Type) : Type := {
  kazoo_start : string -> M W unit;
  kazoo_set : string -> string -> M W unit;
  kazoo_stop : M W unit
}.

(** [update_zk_node] of zk_client.py. *)
Definition zk_client_update `{ResultCodec} `{Kazoo W} (zk_node_path zookeeper_ensemble : string) (state : FetcherResult) : M W unit :=
  kazoo_start zookeeper_ensemble ;;
  kazoo_set zk_node_path (to_binary state) ;;
  kazoo_stop.

Section Job.
Context {W : Type} `{S3Api W} `{Curl W} `{Retrying} `{ResultCodec} `{Kazoo W}.
Context (md5 hex : string -> string).

(** ** transfer_to_s3.py *)

Definition file_hashes (content : string) : Res DigestPair :=
  match calculate_md5_and_etag md5 hex S3_MAX_CHUNK_BYTES content with
  | Some p => Ok p
  | None => Raise (OtherException "OutOfFuel" "")
  end.

(** What is done with the temporary file once [download] filled it. *)
Definition store_download (content : string) (s3dst : S3Object) (expected : option string) : M W unit :=
  hash_pair <- lift (file_hashes content) ;;
  if str_truthy expected && negb (String.eqb (dp_md5 hash_pair) (default "" expected))
  then raise InvalidDigestError
  else
    present <- check_s3_for_etag s3dst (dp_s3_etag hash_pair) ;;
    (if negb present then upload_to_s3 content s3dst else ret tt) ;;
    update_s3_hash_tagging s3dst (dp_md5 hash_pair).

Definition transfer_to_s3 (download : string -> M W string) (src dst : string) (expected : option string) : M W unit :=
  s3dst <- lift (s3_parse dst) ;;
  found <- (if str_truthy expected then check_s3_for_md5 s3dst (default "" expected) else ret false) ;;
  if found then ret tt
  else
    content <- download src ;;
    store_download content s3dst expected.

Definition http_to_s3 (src dst : string) (expected : option string) : M W unit :=
  transfer_to_s3 http_download src dst expected.

(** ** s3_to_s3.py *)

(** [_s3_to_s3_check_etag(src, src_obj, dst_obj)]; the ETag of the source is
    read again from the service unless a listing gave it. *)
Definition s3_to_s3_check_etag (src : S3Object) (src_etag : M W string) (src_length : M W Z) (dst : S3Object) : M W unit :=
  new_obj_etag <- except_client (t <- e_tag dst ;; ret (Some t)) (fun _ => ret None) ;;
  t <- src_etag ;;
  if bool_decide (Some t = new_obj_etag) then ret tt
  else
    _ <- src_length ;;
    copy_object src dst.

Definition s3_to_s3_single (src dst : S3Object) : M W unit :=
  s3_to_s3_check_etag src (e_tag src) (content_length src) dst.

Definition s3_to_s3_deep (src dst : S3Object) : M W unit :=
  objects <- list_objects (s3_bucket src) (s3_key src) ;;
  for_each (fun entry =>
    obj <- lift entry ;;
    let dst_key := py_replace (s3_key src) (s3_key dst) (os_key obj) in
    s3_to_s3_check_etag (mkS3 (s3_bucket src) (os_key obj)) (ret (os_e_tag obj)) (ret (os_size obj))
      (mkS3 (s3_bucket dst) dst_key)) objects.

Definition s3_to_s3 (src dst : string) (expected : option string) : M W FetchedType :=
  s3src <- lift (s3_parse src) ;;
  s3dst <- lift (s3_parse dst) ;;
  file <- is_s3_file s3src ;;
  if file then
    (if str_truthy expected then transfer_to_s3 download_from_s3 src dst expected
     else s3_to_s3_single s3src s3dst) ;;
    ret FT_FILE
  else
    s3_to_s3_deep s3src s3dst ;;
    ret FT_DIRECTORY.

(** ** fetcher.py *)

(** [None] for a scheme that is not handled. *)
Definition fetch (cfg : FetcherJobConfig) : M W (option FetchedType) :=
  src_scheme <- lift (urlparse (fj_src cfg)) ;;
  if String.eqb (scheme src_scheme) "http" || String.eqb (scheme src_scheme) "https" then
    http_to_s3 (fj_src cfg) (fj_dst cfg) (fj_md5 cfg) ;;
    ret (Some FT_FILE)
  else if String.eqb (scheme src_scheme) "s3" then
    t <- s3_to_s3 (fj_src cfg) (fj_dst cfg) (fj_md5 cfg) ;;
    ret (Some t)
  else ret None.

Definition update_zk_node (cfg : FetcherJobConfig) (result : FetcherResult) : M W unit :=
  if str_truthy (fj_zk_node_path cfg)
  then zk_client_update (default "" (fj_zk_node_path cfg)) (fj_zookeeper_ensemble_hosts cfg) result
  else ret tt.

Definition SUCCESS_MESSAGE : string := "Success".

Definition retrying_fetch (cfg : FetcherJobConfig) : M W unit :=
  fetched_type <- try_except
    (t <- retry is_RetryableError (fj_max_attempts cfg) (fetch cfg) ;; ret (Some t))
    (fun ex =>
       if is_RetryableError ex || is_UnRetryableError ex then
         update_zk_node cfg (mkResult FS_FAILED None (Some (str_of_exn ex))) ;;
         ret None
       else raise ex) ;;
  match fetched_type with
  | None => ret tt
  | Some t => update_zk_node cfg (mkResult FS_DONE t (Some SUCCESS_MESSAGE))
  end.
End Job.

(** ** What S3 promises *)

Record StoredObject := mkStored { so_body : string; so_etag : string; so_tags : list (string * string) }.

(** The documented effects, over the objects [lookup] sees in a state of the
    world: reads change no object and report the stored one, a failed call
    changes nothing, [put_object_tagging] replaces the tags, and an uploaded
    object has the ETag of its parts and no tags. *)
Class S3Laws (W : Type) `{S3Api W} (etag_of : string -> string) : Type := {
  lookup_s3 : W -> S3Object -> option StoredObject;
  get_tagging_law : forall o w, lookup_s3 (get_object_tagging o w).2 = lookup_s3 w /\
    (forall tags, (get_object_tagging o w).1 = Ok tags -> so_tags <$> lookup_s3 w o = Some tags);
  if_match_law : forall o t w, lookup_s3 (get_object_if_match o t w).2 = lookup_s3 w /\
    (forall u, (get_object_if_match o t w).1 = Ok u -> so_etag <$> lookup_s3 w o = Some t);
  upload_law : forall body o w,
    match upload_fileobj body o w with
    | (Ok _, w') => lookup_s3 w' o = Some (mkStored body (etag_of body) []) /\
                    (forall o', o' <> o -> lookup_s3 w' o' = lookup_s3 w o')
    | (Raise _, w') => lookup_s3 w' = lookup_s3 w
    end;
  put_tagging_law : forall o tags w,
    match put_object_tagging o tags w with
    | (Ok _, w') =>
        (exists b, lookup_s3 w o = Some b /\ lookup_s3 w' o = Some (mkStored (so_body b) (so_etag b) tags)) /\
        (forall o', o' <> o -> lookup_s3 w' o' = lookup_s3 w o')
    | (Raise _, w') => lookup_s3 w' = lookup_s3 w
    end
}.

(** The first MD5 tag of an object. *)
Definition md5_tag (b : StoredObject) : option string :=
  head (map snd (List.filter (fun kv => String.eqb kv.1 "MD5") (so_tags b))).

Section TransferProperties.
Context {W : Type} `{S3Api W} `{Curl W}.
Context (md5 hex : string -> string).
Abbreviation hash c := (hex (md5 c)).
Abbreviation etag c := (s3_etag_of md5 hex S3_MAX_CHUNK_BYTES c).
Context `{!S3Laws W (fun c => s3_etag_of md5 hex S3_MAX_CHUNK_BYTES c)}.

Lemma file_hashes_run c : file_hashes md5 hex c = Ok (mkDigest (hash c) (etag c)).
Proof.
  unfold file_hashes. rewrite calculate_md5_and_etag_spec; [done|]. unfold S3_MAX_CHUNK_BYTES. lia.
Qed.

Lemma check_etag_run o t w :
  lookup_s3 (check_s3_for_etag o t w).2 = lookup_s3 w /\
  ((check_s3_for_etag o t w).1 = Ok true -> so_etag <$> lookup_s3 w o = Some t).
Proof.
  destruct (if_match_law o t w) as [Hst Hok]. unfold check_s3_for_etag, except_client, try_except, bind, ret, raise in *.
  destruct (get_object_if_match o t w) as [[[]|e] w']; cbn [fst snd] in *.
  - split; [done|]. intros _. by eapply Hok.
  - by destruct e.
Qed.

(** The object is known to be the wanted one: by its tag or by its ETag. *)
Definition known_good (expected : string) (b : StoredObject) : Prop :=
  md5_tag b = Some expected \/ (md5_tag b = None /\ so_etag b = expected).

Lemma check_md5_run o expected w :
  lookup_s3 (check_s3_for_md5 o expected w).2 = lookup_s3 w /\
  ((check_s3_for_md5 o expected w).1 = Ok true -> exists b, lookup_s3 w o = Some b /\ known_good expected b).
Proof.
  destruct (get_tagging_law o w) as [Hst Hok].
  unfold check_s3_for_md5, md5_tag_check, except_client, try_except, bind, ret, raise in *.
  destruct (get_object_tagging o w) as [[tags|e] w']; cbn [fst snd] in *.
  - specialize (Hok tags eq_refl). destruct (lookup_s3 w o) as [b|] eqn:E; [|done]. simpl in Hok.
    unfold known_good, md5_tag. injection Hok as <-.
    destruct (map snd _) as [|m ms] eqn:Em; cbn [fst snd].
    + destruct (check_etag_run o expected w') as [H1 H2]. rewrite H1. split; [done|].
      intros Ht. specialize (H2 Ht). rewrite Hst, E in H2. injection H2 as Ht'. exists b. rewrite Em. auto.
    + split; [done|]. intros [= Hm]. apply String.eqb_eq in Hm. subst m. exists b. rewrite Em. auto.
  - destruct e; cbn [fst snd]; split; done.
Qed.

Lemma upload_run c o w :
  match upload_to_s3 c o w with
  | (Ok _, w') => lookup_s3 w' o = Some (mkStored c (etag c) []) /\
                  (forall o', o' <> o -> lookup_s3 w' o' = lookup_s3 w o')
  | (Raise _, w') => lookup_s3 w' = lookup_s3 w
  end.
Proof.
  pose proof (upload_law c o w) as Hlaw. unfold upload_to_s3, except_client, try_except, raise.
  destruct (upload_fileobj c o w) as [[u|e] w']; [done|]. by destruct e.
Qed.

Lemma update_tagging_run o m w :
  match update_s3_hash_tagging o m w with
  | (Ok _, w') =>
      (exists b, lookup_s3 w o = Some b /\ lookup_s3 w' o = Some (mkStored (so_body b) (so_etag b) [("MD5", m)])) /\
      (forall o', o' <> o -> lookup_s3 w' o' = lookup_s3 w o')
  | (Raise _, w') => lookup_s3 w' = lookup_s3 w
  end.
Proof.
  pose proof (put_tagging_law o [(MD5_TAG, m)] w) as Hlaw.
  unfold update_s3_hash_tagging, except_client, try_except, raise.
  destruct (put_object_tagging o _ w) as [[u|e] w']; [done|]. by destruct e.
Qed.

(** The object holds the content and says so. *)
Definition holds (content : string) (b : StoredObject) : Prop :=
  so_tags b = [("MD5", hash content)] /\ (so_body b = content \/ so_etag b = etag content).

(** The last step: the tag of an object that has the content. *)
Lemma tagging_holds content o w w1 b :
  (forall o', o' <> o -> lookup_s3 w1 o' = lookup_s3 w o') ->
  lookup_s3 w1 o = Some b -> so_body b = content \/ so_etag b = etag content ->
  let r := update_s3_hash_tagging o (hash content) w1 in
  (forall o', o' <> o -> lookup_s3 r.2 o' = lookup_s3 w o') /\
  (r.1 = Ok tt -> exists b, lookup_s3 r.2 o = Some b /\ holds content b).
Proof.
  intros Hsame Hb Hc r. pose proof (update_tagging_run o (hash content) w1) as Hup. fold r in Hup.
  destruct r as [[[]|e] w2]; cbn [fst snd].
  - destruct Hup as [(b' & Hb' & Hup) Hrest]. rewrite Hb in Hb'. simplify_eq.
    split; [intros o' Ho; by rewrite Hrest, Hsame|]. intros _. eexists. split; [exact Hup|]. by split.
  - rewrite Hup. done.
Qed.

Lemma store_good_run content o w :
  let r := (present <- check_s3_for_etag o (etag content) ;;
            (if negb present then upload_to_s3 content o else ret tt) ;;
            update_s3_hash_tagging o (hash content)) w in
  (forall o', o' <> o -> lookup_s3 r.2 o' = lookup_s3 w o') /\
  (r.1 = Ok tt -> exists b, lookup_s3 r.2 o = Some b /\ holds content b).
Proof.
  unfold bind. destruct (check_etag_run o (etag content) w) as [Hsame Htag].
  destruct (check_s3_for_etag o (etag content) w) as [[[]|e] w1]; cbn [fst snd negb] in *.
  - specialize (Htag eq_refl). rewrite <- Hsame in Htag.
    destruct (lookup_s3 w1 o) as [b|] eqn:Hb; simplify_eq/=.
    eapply tagging_holds; [intros; by rewrite Hsame|exact Hb|by right].
  - pose proof (upload_run content o w1) as Hul.
    destruct (upload_to_s3 content o w1) as [[[]|e] w2]; cbn [fst snd].
    + destruct Hul as [Hb Hrest].
      eapply tagging_holds; [intros; by rewrite Hrest, Hsame|exact Hb|by left].
    + rewrite Hul. split; [intros; by rewrite Hsame|done].
  - split; [intros; by rewrite Hsame|done].
Qed.

Lemma store_download_run content o expected w :
  let r := store_download md5 hex content o expected w in
  (forall o', o' <> o -> lookup_s3 r.2 o' = lookup_s3 w o') /\
  (r.1 = Ok tt -> (exists b, lookup_s3 r.2 o = Some b /\ holds content b) /\
                  (str_truthy expected = true -> hash content = default "" expected)) /\
  (str_truthy expected = true -> hash content <> default "" expected -> r = (Raise InvalidDigestError, w)).
Proof.
  intros r. unfold r, store_download. rewrite file_hashes_run, bind_lift_ok. cbn [dp_md5 dp_s3_etag].
  destruct (str_truthy expected && negb (String.eqb (hash content) (default "" expected))) eqn:Hbad.
  - apply andb_true_iff in Hbad as [He Hne]. apply negb_true_iff, String.eqb_neq in Hne. split_and!; done.
  - assert (Hgood : str_truthy expected = true -> hash content = default "" expected).
    { intros He. rewrite He in Hbad. by apply negb_false_iff, String.eqb_eq in Hbad. }
    destruct (store_good_run content o w) as [H1 H2].
    split_and!; [done|auto|]. intros He Hne. by specialize (Hgood He).
Qed.

(** C19: the transfer of one file.  When it returns, the destination exists and
    is the wanted object: either it was known by its tag or its ETag and
    nothing was downloaded, or it carries as its only tag the MD5 of the
    download, which is the wanted MD5 if one is given, and its body is the
    download or has the ETag of it.  A download with the wrong hash raises
    [InvalidDigestError] before any object changes, and no object but the
    destination changes in any case. *)
Theorem transfer_to_s3_verified download src dst expected o w
    (Hdst : s3_parse dst = Ok o)
    (Hdl : forall s w, lookup_s3 (download s w).2 = lookup_s3 w) :
  let r := transfer_to_s3 md5 hex download src dst expected w in
  (forall o', o' <> o -> lookup_s3 r.2 o' = lookup_s3 w o') /\
  (r.1 = Ok tt -> exists b, lookup_s3 r.2 o = Some b /\
     ((str_truthy expected = true /\ known_good (default "" expected) b) \/
      exists content, holds content b /\ (str_truthy expected = true -> hash content = default "" expected))) /\
  (forall w0 w1 content, str_truthy expected = true ->
     check_s3_for_md5 o (default "" expected) w = (Ok false, w0) -> download src w0 = (Ok content, w1) ->
     hash content <> default "" expected ->
     r = (Raise InvalidDigestError, w1) /\ lookup_s3 w1 = lookup_s3 w).
Proof.
  intros r. unfold r, transfer_to_s3. rewrite Hdst, bind_lift_ok.
  assert (Hfound : exists found w0,
    (if str_truthy expected then check_s3_for_md5 o (default "" expected) else ret false) w = (found, w0) /\
    lookup_s3 w0 = lookup_s3 w /\
    (found = Ok true -> str_truthy expected = true /\
       exists b, lookup_s3 w0 o = Some b /\ known_good (default "" expected) b)).
  { destruct (str_truthy expected); [|by eexists _, w].
    destruct (check_md5_run o (default "" expected) w) as [Hs Hg].
    destruct (check_s3_for_md5 o _ w) as [f w0]; cbn [fst snd] in *. exists f, w0.
    rewrite Hs. naive_solver. }
  destruct Hfound as (found & w0 & Hrun & Hsame & Hgood). unfold bind. rewrite Hrun.
  destruct found as [[]|e]; cbn [fst snd ret].
  - destruct (Hgood eq_refl) as (He & b & Hb & Hk). split_and!; [intros; by rewrite Hsame|eauto|].
    intros w0' w1 content He' Hc. rewrite He', Hc in Hrun. done.
  - pose proof (Hdl src w0) as Hd. destruct (download src w0) as [[content|e] w1] eqn:Edl; cbn [fst snd] in *.
    + destruct (store_download_run content o expected w1) as (H1 & H2 & H3). split_and!.
      * intros o' Ho. by rewrite H1, Hd, Hsame.
      * intros Hok. destruct (H2 Hok) as [(b & Hb & Hh) Hg]. exists b. split; [done|]. right. by exists content.
      * intros w0' w1' c He Hc Hdl' Hne. rewrite He, Hc in Hrun. simplify_eq. rewrite Edl in Hdl'. simplify_eq.
        rewrite H3 by done. split; [done|]. congruence.
    + split_and!; [intros; by rewrite Hd, Hsame|done|].
      intros w0' w1' c He Hc Hdl' Hne. rewrite He, Hc in Hrun. simplify_eq. congruence.
  - split_and!; [intros; by rewrite Hsame|done|].
    intros w0' w1' c He Hc Hdl' Hne. rewrite He, Hc in Hrun. simplify_eq.
Qed.
End TransferProperties.

(** ** The outcome of the job *)

Lemma attempts_last {W A} p n (m : M W A) w : exists w0, attempts p n m w = m w0.
Proof.
  revert w. induction n as [|[|n] IH]; intros w; [by exists w|by exists w|].
  change (attempts p (S (S n)) m) with (try_except m (fun e => if p e then attempts p (S n) m else raise e)).
  unfold try_except, raise. destruct (m w) as [[a|e] w1] eqn:E; [by exists w|].
  destruct (p e); [apply IH|by exists w].
Qed.

Section OutcomeProperties.
Context {W : Type} `{S3Api W} `{Curl W} `{Retrying} `{ResultCodec} `{Kazoo W}.
Context (md5 hex : string -> string).
Abbreviation run_fetch := (fetch md5 hex).

(** What the job reports.  It writes to its node at most once, after the
    last attempt: [DONE] with the type of what was fetched when that attempt
    returned, [FAILED] with the message when it raised an error of one of the
    two families of failures.py; an exception of any other class leaves the
    job with nothing written. *)
Theorem retrying_fetch_reports cfg p w (Hpath : fj_zk_node_path cfg = Some p) (Hp : p <> "") :
  exists w0 r w1, run_fetch cfg w0 = (r, w1) /\
  match r with
  | Ok t => retrying_fetch md5 hex cfg w = zk_client_update p (fj_zookeeper_ensemble_hosts cfg) (mkResult FS_DONE t (Some "Success")) w1
  | Raise e =>
      retrying_fetch md5 hex cfg w =
      if is_RetryableError e || is_UnRetryableError e
      then zk_client_update p (fj_zookeeper_ensemble_hosts cfg) (mkResult FS_FAILED None (Some (str_of_exn e))) w1
      else (Raise e, w1)
  end.
Proof.
  destruct (attempts_last is_RetryableError (fj_max_attempts cfg) (run_fetch cfg) w) as [w0 Hlast].
  apply String.eqb_neq in Hp.
  exists w0, (run_fetch cfg w0).1, (run_fetch cfg w0).2. split; [by destruct (run_fetch cfg w0)|].
  unfold retrying_fetch, try_except, bind. rewrite retry_attempts, Hlast.
  unfold update_zk_node. rewrite Hpath. cbn [str_truthy default]. rewrite Hp. cbn [negb].
  destruct (run_fetch cfg w0) as [[t|e] w1]; [done|]. cbn [fst snd].
  destruct (is_RetryableError e || is_UnRetryableError e); [|done]. simpl.
  by destruct (zk_client_update p _ _ w1) as [[[]|e'] w2].
Qed.

(** A source that no transfer handles is reported as done. *)
Theorem unknown_scheme_reported_done cfg p u w (Hpath : fj_zk_node_path cfg = Some p) (Hp : p <> "")
    (Hurl : urlparse (fj_src cfg) = Ok u) (Hn : (scheme u ∉ ["http"; "https"; "s3"])) :
  retrying_fetch md5 hex cfg w = zk_client_update p (fj_zookeeper_ensemble_hosts cfg) (mkResult FS_DONE None (Some "Success")) w.
Proof.
  assert (Hf : run_fetch cfg w = (Ok None, w)).
  { unfold fetch. rewrite Hurl, bind_lift_ok.
    assert (scheme u <> "http" /\ scheme u <> "https" /\ scheme u <> "s3") as (H1' & H2' & H3') by set_solver.
    apply String.eqb_neq in H1', H2', H3'. by rewrite H1', H2', H3'. }
  apply String.eqb_neq in Hp.
  unfold retrying_fetch, try_except, bind. rewrite retry_attempts.
  assert (attempts is_RetryableError (fj_max_attempts cfg) (run_fetch cfg) w = (Ok None, w)) as ->.
  { destruct (fj_max_attempts cfg) as [|[|n]]; simpl; unfold try_except; by rewrite Hf. }
  unfold ret, update_zk_node. rewrite Hpath. cbn [str_truthy default]. by rewrite Hp.
Qed.
End OutcomeProperties.

(** ** The keys of a deep copy *)

(** The prefix is replaced by that of the destination, as long as it does not
    occur again in the rest of the key ... *)
Lemma str_find_None_drop old s :
  contains old s = false -> forall fuel new, old <> "" -> replace_fuel fuel old new s = s.
Proof.
  unfold contains. induction s as [|c s IH]; intros Hf [|fuel] new Ho; try done; simpl.
  - apply String.eqb_neq in Ho. rewrite Ho. by destruct old.
  - apply String.eqb_neq in Ho as Ho'. rewrite Ho'. simpl in Hf. destruct old as [|x old]; [done|].
    simpl in Hf |- *. destruct (Ascii.eqb x c && startswith old s); [done|].
    f_equal. apply IH; [|done]. by destruct (str_find (String x old) s).
Qed.

Theorem py_replace_prefix old new rest :
  old <> "" -> contains old rest = false -> py_replace old new (old +:+ rest) = new +:+ rest.
Proof.
  intros Ho Hr. unfold py_replace. cbn [replace_fuel]. apply String.eqb_neq in Ho as Ho'. rewrite Ho'.
  rewrite startswith_app, str_drop_app. f_equal. by apply str_find_None_drop.
Qed.

(** ... but it is replaced everywhere, and an empty prefix (a whole bucket)
    puts that of the destination before every character. *)
Example deep_copy_replaces_everywhere : py_replace "a/" "data/" "a/b/a/x" = "data/b/data/x".
Proof. reflexivity. Qed.
Example deep_copy_of_bucket : py_replace "" "data/" "xy" = "data/xdata/ydata/".
Proof. reflexivity. Qed.

(** ** Witnesses *)

Module Witness.
Import World.

Definition md5 (s : string) : string := "<" +:+ s +:+ ">".
Definition hex (s : string) : string := "h" +:+ s.
Abbreviation etag := (fun c => s3_etag_of md5 hex S3_MAX_CHUNK_BYTES c).

#[export] Instance api : S3Api World := s3_with etag.

Definition lookup_world (w : World) (o : S3Object) : option StoredObject :=
  (fun b => mkStored b.1 (etag b.1) b.2) <$> dict_get (objects w) o.

#[export] Instance laws : S3Laws World etag.
Proof.
  refine {| lookup_s3 := lookup_world |}.
  - intros o w. unfold lookup_world. simpl. unfold with_object. split; [done|].
    intros tags. simpl. destruct (dict_get _ o); [|done]. by intros; simplify_eq/=.
  - intros o t w. unfold lookup_world. simpl. unfold with_object. split; [done|].
    intros []. simpl. destruct (dict_get _ o) as [[body tags]|]; [|done]. simpl.
    destruct (String.eqb_spec (etag body) t); [by subst|done].
  - intros body o w. unfold lookup_world. simpl. unfold put, modify. simpl.
    rewrite dict_get_set_eq. split; [done|]. intros o' Ho. by rewrite dict_get_set_ne by done.
  - intros o tags w. unfold lookup_world. simpl. unfold with_object, bind, put, modify.
    destruct (dict_get (objects w) o) as [[body tags']|] eqn:E; simpl; [|done].
    split; [eexists; split; [done|]; by rewrite dict_get_set_eq|].
    intros o' Ho. by rewrite dict_get_set_ne by done.
Defined.

Definition w0 : World := mkWorld [(mkS3 "b" "x", ("abc", []))] [mkInfo 200 3 "abc"] [].

Lemma transfer_to_s3_verified_witness :
  transfer_to_s3 md5 hex (fun _ w => (Ok "abc", w)) "s3://b/x" "s3://c/y" (Some "h<abd>") w0 =
  (Raise InvalidDigestError, w0).
Proof.
  destruct (transfer_to_s3_verified md5 hex (fun _ w => (Ok "abc", w)) "s3://b/x" "s3://c/y" (Some "h<abd>")
    (mkS3 "c" "y") w0 eq_refl (fun s w => eq_refl)) as (_ & _ & Hbad).
  by destruct (Hbad w0 w0 "abc").
Defined.

(** A codec for the results. *)
Definition status_char (s : FetcherStatus) : string :=
  match s with FS_PENDING => "P" | FS_RUNNING => "R" | FS_DONE => "D" | FS_FAILED => "F" | FS_CANCELED => "C" end.
Definition type_char (t : option FetchedType) : string :=
  match t with None => "-" | Some FT_FILE => "f" | Some FT_DIRECTORY => "d" end.

#[export] Instance codec : ResultCodec.
Proof.
  refine {| to_binary r := status_char (fr_status r) +:+ type_char (fr_type r) +:+
              match fr_message r with None => "-" | Some m => "+" +:+ m end;
            from_binary s :=
              match s with
              | String a (String b (String c m)) =>
                  Ok (mkResult
                    (if Ascii.eqb a "P" then FS_PENDING else if Ascii.eqb a "R" then FS_RUNNING
                     else if Ascii.eqb a "D" then FS_DONE else if Ascii.eqb a "F" then FS_FAILED else FS_CANCELED)
                    (if Ascii.eqb b "-" then None else if Ascii.eqb b "f" then Some FT_FILE else Some FT_DIRECTORY)
                    (if Ascii.eqb c "-" then None else Some m))
              | _ => Raise (ValueError "no result")
              end |}.
  intros [[] [[]|] [m|]]; reflexivity.
Defined.

Definition log_requests (l : list string) : M World unit :=
  modify (fun w => mkWorld (objects w) (answers w) (requests w ++ l)%list).

#[export] Instance kazoo0 : Kazoo World := {|
  kazoo_start hosts := log_requests [hosts];
  kazoo_set p d := log_requests [p; d];
  kazoo_stop := ret tt
|}.

Definition cfg : FetcherJobConfig := mkJobConfig "s3://nowhere/x" "s3://c/y" None (Some "/node") "zk" 5.

Lemma retrying_fetch_reports_witness :
  requests (retrying_fetch md5 hex cfg w0).2 = ["zk"; "/node"; "F-+Object not found"] /\
  exists w r w1, fetch md5 hex cfg w = (r, w1) /\
    match r with
    | Ok t => retrying_fetch md5 hex cfg w0 = zk_client_update "/node" "zk" (mkResult FS_DONE t (Some "Success")) w1
    | Raise e =>
        retrying_fetch md5 hex cfg w0 =
        if is_RetryableError e || is_UnRetryableError e
        then zk_client_update "/node" "zk" (mkResult FS_FAILED None (Some (str_of_exn e))) w1 else (Raise e, w1)
    end.
Proof.
  split; [vm_compute; reflexivity|].
  exact (retrying_fetch_reports md5 hex cfg "/node" w0 eq_refl ltac:(discriminate)).
Defined.
End Witness.
