(* ===== verification/ZooKeeper.v ===== *)
(** * ZooKeeper

    What the fetcher relies on of ZooKeeper and of its client kazoo: the calls
    as the operations of a class over a state [T] of the ensemble, the
    documented behaviour of these calls as the laws of a second class, and a
    model that satisfies the laws. *)

From S2P Require Import Prelude PyStr.

#[local] Arguments String.append !_ _ /.

Inductive EventType : Set := CREATED | DELETED | CHANGED | CHILD.

#[export] Instance EventType_eq_dec : EqDecision EventType.
Proof. solve_decision. Defined.

(** A [WatchedEvent] that waits to be delivered to a handler. *)
Record WatchedEvent := mkWatched { we_type : EventType; we_path : string; we_content : nat }.

(** The calls of [KazooClient] that the code makes, with the content for whose
    handler a watch is set, and the delivery of the oldest notification. *)
Class ZooKeeper (T : Type) : Type := {
  zk_create : string -> string -> M T unit;
  zk_get : string -> option nat -> M T (string * Z);
  zk_set : string -> string -> Z -> M T unit;
  zk_delete : string -> M T unit;
  zk_get_children : string -> M T (list string);
  zk_next_event : M T (option WatchedEvent)
}.

(** The data and the version of a node at a later moment: other clients raise
    the version when they write, and do not create the node again. *)
Definition newer (o o' : option (string * Z)) : Prop :=
  match o, o' with
  | Some (d, v), Some (d', v') => v < v' \/ (d', v') = (d, v)
  | None, Some _ => False
  | _, None => True
  end.

(** The documented behaviour.  Before each call the other clients may act
    ([others]); they make finitely many more moves ([zk_moves]).  A read gives
    the data with the version; a conditional write succeeds exactly when the
    version is still the one that was read; a deletion removes the node; a
    watch and a delivery change no node. *)
Class ZooKeeperLaws (T : Type) `{ZooKeeper T} : Type := {
  zk_node : T -> string -> option (string * Z);
  zk_events : T -> list WatchedEvent;
  zk_moves : T -> nat;
  others : T -> T;
  written : string -> string -> T -> T;
  others_moves : forall z, (zk_moves (others z) < zk_moves z)%nat \/ others z = z;
  others_newer : forall z p, newer (zk_node z p) (zk_node (others z) p);
  get_law : forall p z,
    zk_get p None z = (match zk_node (others z) p with Some dv => Ok dv | None => Raise NoNodeError end, others z);
  set_law : forall p data v z,
    zk_set p data v z =
    match zk_node (others z) p with
    | Some (_, v') => if v' =? v then (Ok tt, written p data (others z)) else (Raise BadVersionError, others z)
    | None => (Raise NoNodeError, others z)
    end;
  written_node : forall p data z d v, zk_node z p = Some (d, v) -> zk_node (written p data z) p = Some (data, v + 1);
  written_other : forall p data z q, q <> p -> zk_node (written p data z) q = zk_node z q;
  written_moves : forall p data z, zk_moves (written p data z) = zk_moves z;
  children_law : forall p z,
    (zk_get_children p z).2 = others z /\
    match (zk_get_children p z).1 with
    | Ok _ => is_Some (zk_node (others z) p)
    | Raise e => e = NoNodeError /\ zk_node (others z) p = None
    end;
  watch_law : forall p c z, exists z',
    zk_get p (Some c) z = (match zk_node (others z) p with Some dv => Ok dv | None => Raise NoNodeError end, z') /\
    (forall q, zk_node z' q = zk_node (others z) q) /\ zk_moves z' = zk_moves (others z);
  delete_law : forall p z, is_Some (zk_node (others z) p) -> exists z',
    zk_delete p z = (Ok tt, z') /\ zk_node z' p = None /\
    (forall q, q <> p -> zk_node z' q = zk_node (others z) q) /\ zk_moves z' = zk_moves (others z);
  next_event_law : forall z ev rest, zk_events z = ev :: rest -> exists z',
    zk_next_event z = (Ok (Some ev), z') /\ zk_events z' = rest /\
    (forall q, zk_node z' q = zk_node z q) /\ zk_moves z' = zk_moves z
}.

(** When the others are done, nothing happens between the calls. *)
Lemma others_quiet {T} `{ZooKeeperLaws T} z : zk_moves z = 0%nat -> others z = z.
Proof. intros Hz. destruct (others_moves z) as [Hlt|Heq]; [lia|done]. Qed.

(** ** A model *)

Module Model.
Record Node := mkNode {
  nd_data : string;
  nd_version : Z;
  (** The handlers that watch the node, by the content they are for. *)
  nd_watches : list nat
}.

(** What another client does: [set] without a version, or the deletion of a node. *)
Inductive Act : Type :=
| ActSet (path data : string)
| ActDelete (path : string).

Record Zk := mkZk {
  zk_nodes : dict string Node;
  zk_queue : list WatchedEvent;
  (** What the others do before each of the next calls of this process. *)
  zk_others : list (list Act)
}.

(** A change fires the watches of the node, each once. *)
Definition fire (t : EventType) (p : string) (n : Node) : list WatchedEvent :=
  map (mkWatched t p) (nd_watches n).

Definition node_write (p data : string) (n : Node) (z : Zk) : Zk :=
  mkZk (dict_set (zk_nodes z) p (mkNode data (nd_version n + 1) []))
    (zk_queue z ++ fire CHANGED p n)%list (zk_others z).
Definition node_remove (p : string) (n : Node) (z : Zk) : Zk :=
  mkZk (dict_pop (zk_nodes z) p) (zk_queue z ++ fire DELETED p n)%list (zk_others z).

Definition act (z : Zk) (a : Act) : Zk :=
  match a with
  | ActSet p data => match dict_get (zk_nodes z) p with Some n => node_write p data n z | None => z end
  | ActDelete p => match dict_get (zk_nodes z) p with Some n => node_remove p n z | None => z end
  end.

(** The others act, then the call is made. *)
Definition interfere : M Zk unit :=
  fun z => match zk_others z with
           | [] => (Ok tt, z)
           | acts :: rest => (Ok tt, fold_left act acts (mkZk (zk_nodes z) (zk_queue z) rest))
           end.

Definition with_node {A} (p : string) (k : Node -> M Zk A) : M Zk A :=
  interfere ;;
  nodes <- gets zk_nodes ;;
  match dict_get nodes p with
  | None => raise NoNodeError
  | Some n => k n
  end.

(** The ancestors of a path, which [makepath=True] creates. *)
Fixpoint ancestors_from (pre : string) (segments : list string) : list string :=
  match segments with
  | [] | [_] => []
  | x :: rest => (pre +:+ "/" +:+ x) :: ancestors_from (pre +:+ "/" +:+ x) rest
  end.
Definition ancestors (p : string) : list string := ancestors_from "" (tail (split_char "/" p)).

Definition add_node (nodes : dict string Node) (p data : string) : dict string Node :=
  match dict_get nodes p with Some _ => nodes | None => dict_set nodes p (mkNode data 0 []) end.

Definition model_create (p data : string) : M Zk unit :=
  interfere ;;
  nodes <- gets zk_nodes ;;
  match dict_get nodes p with
  | Some _ => raise (OtherException "NodeExistsError" "")
  | None => modify (fun z =>
      mkZk (add_node (fold_left (fun ns a => add_node ns a "") (ancestors p) nodes) p data)
        (zk_queue z) (zk_others z))
  end.

(** [get(path, watch)]: the data and the version; the watch is set with the read. *)
Definition model_get (p : string) (watch : option nat) : M Zk (string * Z) :=
  with_node p (fun n =>
    modify (fun z => match watch with
      | None => z
      | Some c => mkZk (dict_set (zk_nodes z) p (mkNode (nd_data n) (nd_version n) (nd_watches n ++ [c])%list))
                    (zk_queue z) (zk_others z)
      end) ;;
    ret (nd_data n, nd_version n)).

Definition model_set (p data : string) (version : Z) : M Zk unit :=
  with_node p (fun n =>
    if nd_version n =? version then modify (node_write p data n) else raise BadVersionError).

Definition model_delete (p : string) : M Zk unit := with_node p (fun n => modify (node_remove p n)).

(** The names of the children: the last segment of the paths below [p]. *)
Definition child_of (p q : string) : option string :=
  if startswith (p +:+ "/") q
  then let c := str_drop (String.length (p +:+ "/")) q in if no_char "/" c then Some c else None
  else None.
Definition model_get_children (p : string) : M Zk (list string) :=
  with_node p (fun _ => gets (fun z => omap (child_of p) (dict_keys (zk_nodes z)))).

Definition model_next_event : M Zk (option WatchedEvent) :=
  fun z => match zk_queue z with
           | [] => (Ok None, z)
           | ev :: rest => (Ok (Some ev), mkZk (zk_nodes z) rest (zk_others z))
           end.

#[export] Instance zookeeper : ZooKeeper Zk := {|
  zk_create := model_create;
  zk_get := model_get;
  zk_set := model_set;
  zk_delete := model_delete;
  zk_get_children := model_get_children;
  zk_next_event := model_next_event
|}.

Definition node_of (z : Zk) (p : string) : option (string * Z) :=
  (fun n => (nd_data n, nd_version n)) <$> dict_get (zk_nodes z) p.
Definition after_others (z : Zk) : Zk := (interfere z).2.
Definition model_written (p data : string) (z : Zk) : Zk :=
  match dict_get (zk_nodes z) p with Some n => node_write p data n z | None => z end.

Lemma with_node_run {A} p (k : Node -> M Zk A) z :
  with_node p k z =
  match dict_get (zk_nodes (after_others z)) p with
  | Some n => k n (after_others z)
  | None => (Raise NoNodeError, after_others z)
  end.
Proof.
  unfold with_node, after_others, bind, gets.
  assert (Hr : (interfere z).1 = Ok tt) by (unfold interfere; by destruct (zk_others z)).
  destruct (interfere z) as [r z']. cbn [fst snd] in *. subst r. by destruct (dict_get (zk_nodes z') p).
Qed.

Lemma act_others z a : zk_others (act z a) = zk_others z.
Proof. destruct a; simpl; by destruct (dict_get (zk_nodes z) path). Qed.

Lemma acts_others acts z : zk_others (fold_left act acts z) = zk_others z.
Proof. revert z. induction acts as [|a acts IH]; intros z; [done|]. simpl. by rewrite IH, act_others. Qed.

Lemma after_others_moves z :
  (length (zk_others (after_others z)) < length (zk_others z))%nat \/ after_others z = z.
Proof.
  unfold after_others, interfere. destruct (zk_others z) as [|acts rest]; [by right|]. left.
  simpl. rewrite acts_others. simpl. lia.
Qed.

Lemma newer_refl o : newer o o.
Proof. destruct o as [[d v]|]; simpl; auto. Qed.

Lemma newer_trans a b c : newer a b -> newer b c -> newer a c.
Proof.
  destruct a as [[d v]|], b as [[d' v']|], c as [[d'' v'']|]; simpl; try done.
  intros [Hv1|Hv1] [Hv2|Hv2]; simplify_eq; auto with lia.
Qed.

Lemma newer_act p z a : newer (node_of z p) (node_of (act z a) p).
Proof.
  destruct a as [q data|q]; simpl; destruct (dict_get (zk_nodes z) q) as [n|] eqn:E; try apply newer_refl;
    unfold node_of; simpl.
  - rewrite dict_get_set. case_decide; [|apply newer_refl]. subst. rewrite E. simpl. lia.
  - change (List.filter _ (zk_nodes z)) with (dict_pop (zk_nodes z) q). rewrite dict_get_pop.
    case_decide; [|apply newer_refl]. subst. by rewrite E.
Qed.

Lemma newer_after_others z p : newer (node_of z p) (node_of (after_others z) p).
Proof.
  unfold after_others, interfere. destruct (zk_others z) as [|acts rest]; [apply newer_refl|]. cbn [snd].
  change (node_of z p) with (node_of (mkZk (zk_nodes z) (zk_queue z) rest) p).
  generalize (mkZk (zk_nodes z) (zk_queue z) rest). clear z rest.
  induction acts as [|a acts IH]; intros z; simpl; [apply newer_refl|].
  eapply newer_trans; [apply newer_act|apply IH].
Qed.

#[export] Instance zookeeper_laws : ZooKeeperLaws Zk.
Proof.
  refine {| zk_node := node_of; zk_events := zk_queue; zk_moves z := length (zk_others z);
            others := after_others; written := model_written |}.
  - apply after_others_moves.
  - apply newer_after_others.
  - intros p z. cbn [zk_get zookeeper]. unfold model_get, node_of. rewrite with_node_run.
    by destruct (dict_get (zk_nodes (after_others z)) p).
  - intros p data v z. cbn [zk_set zookeeper]. unfold model_set, node_of, model_written. rewrite with_node_run.
    destruct (dict_get (zk_nodes (after_others z)) p) as [n|]; [|done]. simpl. by destruct (nd_version n =? v).
  - intros p data z d v. unfold node_of, model_written. destruct (dict_get (zk_nodes z) p) as [n|]; [|done].
    simpl. intros; simplify_eq. by rewrite dict_get_set_eq.
  - intros p data z q Hq. unfold node_of, model_written. destruct (dict_get (zk_nodes z) p) as [n|]; [|done].
    simpl. by rewrite dict_get_set_ne.
  - intros p data z. unfold model_written. by destruct (dict_get (zk_nodes z) p).
  - intros p z. cbn [zk_get_children zookeeper]. unfold model_get_children, node_of. rewrite with_node_run.
    destruct (dict_get (zk_nodes (after_others z)) p) as [n|]; simpl; eauto.
  - intros p c z. cbn [zk_get zookeeper]. unfold model_get, node_of. rewrite with_node_run.
    destruct (dict_get (zk_nodes (after_others z)) p) as [n|] eqn:E; simpl; [|by eexists].
    eexists. split; [done|]. split; [|done]. intros q. simpl. rewrite dict_get_set.
    case_decide; [|done]. subst. by rewrite E.
  - intros p z. cbn [zk_delete zookeeper]. unfold model_delete, node_of. rewrite with_node_run.
    destruct (dict_get (zk_nodes (after_others z)) p) as [n|]; simpl; [|by intros [? ?]]. intros _.
    eexists. split; [done|]. cbn. change (List.filter _ (zk_nodes (after_others z))) with (dict_pop (zk_nodes (after_others z)) p).
    split; [by rewrite dict_get_pop, decide_True|]. split; [|done].
    intros q Hq. by rewrite dict_get_pop, decide_False.
  - intros z ev rest Hz. cbn [zk_next_event zookeeper]. unfold model_next_event. rewrite Hz. by eexists.
Defined.
End Model.
