(* ===== verification/DownloadManager.v ===== *)
(** * The download manager (fetcher_dispatcher/download_manager.py)

    [DownloadManager]: for each content it takes the write lock of the source,
    creates a ZooKeeper node, watches it, dispatches a fetcher job and reports
    the content as done once the node holds a final status; and the
    cancellation of the nodes of an action by compare-and-set.

    The contents are objects shared with the event they came in, so they live in
    a heap and are named by their position there.  ZooKeeper is the interface of
    ZooKeeper.v: before every call that this process makes, other clients
    (fetcher jobs, cancellations, expired sessions) may have acted. *)

From S2P Require Import Prelude PyStr PyLib Events KafkaService FetcherJob ZooKeeper.

#[local] Arguments String.append !_ _ /.

(** ** str(content)

    [repr] of a string, of the enumerations and of the dataclasses. *)

Definition repr_char (quote c : ascii) : string :=
  let n := Z.of_nat (nat_of_ascii c) in
  if Ascii.eqb c backslash then "\\"
  else if Ascii.eqb c quote then "\" +:+ String c ""
  else if n =? 10 then "\n" else if n =? 13 then "\r" else if n =? 9 then "\t"
  else if (n <? 32) || (n =? 127) then "\x" +:+ String (hex_digit (n / 16)) (String (hex_digit (n mod 16)) "")
  else String c "".

Fixpoint repr_chars (quote : ascii) (s : string) : string :=
  match s with "" => "" | String c s' => repr_char quote c +:+ repr_chars quote s' end.

(** Single quotes, unless there is one in the string and no double quote. *)
Definition py_repr (s : string) : string :=
  let quote := if negb (no_char squote s) && no_char dquote s then dquote else squote in
  String quote "" +:+ repr_chars quote s +:+ String quote "".

Definition repr_opt {A} (f : A -> string) (o : option A) : string :=
  match o with Some a => f a | None => "None" end.

Definition ft_value (t : FetchedType) : string := match t with FT_FILE => "FILE" | FT_DIRECTORY => "DIRECTORY" end.
Definition repr_fetched_type (t : FetchedType) : string :=
  "<FetchedType." +:+ ft_value t +:+ ": '" +:+ ft_value t +:+ "'>".
Definition repr_fetcher_status (s : FetcherStatus) : string :=
  "<FetcherStatus." +:+ fs_value s +:+ ": '" +:+ fs_value s +:+ "'>".
Definition repr_size_info (i : ContentSizeInfo) : string :=
  "ContentSizeInfo(total_size=" +:+ pretty (total_size i) +:+ ", file_count=" +:+ pretty (file_count i) +:+
  ", max_size=" +:+ pretty (max_size i) +:+ ")".

Definition str_of_content (c : DownloadableContent) : string :=
  "DownloadableContent(src=" +:+ py_repr (dc_src c) +:+ ", path=" +:+ py_repr (dc_path c) +:+
  ", id=" +:+ repr_opt py_repr (dc_id c) +:+ ", md5=" +:+ repr_opt py_repr (dc_md5 c) +:+
  ", dst=" +:+ repr_opt py_repr (dc_dst c) +:+ ", type=" +:+ repr_opt repr_fetched_type (dc_type c) +:+
  ", status=" +:+ repr_opt repr_fetcher_status (dc_status c) +:+
  ", message=" +:+ repr_opt py_repr (dc_message c) +:+
  ", size_info=" +:+ repr_opt repr_size_info (dc_size_info c) +:+ ")".

(** ** Cancellation *)

Section Cancel.
Context `{ResultCodec} {T : Type} `{ZooKeeper T}.

Definition result_of (data : string) : M T FetcherResult := lift (from_binary data).

(** The [while True] over one node, with the counter; a turn that lost the race
    goes on with the next one. *)
Fixpoint cancel_loop (fuel : nat) (abs_path : string) (number_of_nodes_updated : Z) : M T Z :=
  match fuel with
  | O => raise (OtherException "OutOfFuel" "")
  | S fuel =>
      ' (data, version) <- zk_get abs_path None ;;
      result <- result_of data ;;
      if fs_final (fr_status result) then ret number_of_nodes_updated
      else
        let new_data := to_binary (mkResult FS_CANCELED (fr_type result) (fr_message result)) in
        updated <- try_except (zk_set abs_path new_data version ;; ret true)
          (fun e => match e with BadVersionError => ret false | _ => raise e end) ;;
        if updated then ret (number_of_nodes_updated + 1)
        else cancel_loop fuel abs_path number_of_nodes_updated
  end.

(** One child; a node that vanished is skipped. *)
Definition cancel_child (fuel : nat) (abs_path : string) (n : Z) : M T Z :=
  try_except (cancel_loop fuel abs_path n) (fun e => match e with NoNodeError => ret n | _ => raise e end).

Fixpoint cancel_children (fuel : nat) (zk_node_path : string) (children : list string) (n : Z) : M T Z :=
  match children with
  | [] => ret n
  | child :: rest =>
      n' <- cancel_child fuel (zk_node_path +:+ "/" +:+ child) n ;;
      cancel_children fuel zk_node_path rest n'
  end.

Definition update_nodes_to_cancel (fuel : nat) (zk_node_path : string) : M T Z :=
  try_except
    (children <- zk_get_children zk_node_path ;;
     cancel_children fuel zk_node_path children 0)
    (fun e => match e with NoNodeError => ret 0 | _ => raise e end).
End Cancel.

(** ** Properties of the cancellation *)

Section CancelProperties.
Context `{ResultCodec} {T : Type} `{ZooKeeperLaws T}.

(** The result that cancels [r]. *)
Definition canceled (r : FetcherResult) : FetcherResult := mkResult FS_CANCELED (fr_type r) (fr_message r).

(** What a cancellation may do to ZooKeeper, with the number of its writes:
    it lets others act, and it turns a result that is not final at that moment
    into its canceled form. *)
Inductive cancels : nat -> T -> T -> Prop :=
| cancels_done z : cancels 0 z z
| cancels_others k z z' : cancels k (others z) z' -> cancels k z z'
| cancels_write k z z' p d v r :
    zk_node z p = Some (d, v) ->
    from_binary d = Ok r ->
    fs_final (fr_status r) = false ->
    cancels k (written p (to_binary (canceled r)) z) z' ->
    cancels (S k) z z'.

Lemma cancels_trans k1 k2 z1 z2 z3 : cancels k1 z1 z2 -> cancels k2 z2 z3 -> cancels (k1 + k2) z1 z3.
Proof. induction 1; simpl; [done|eauto using cancels..]. Qed.

Lemma others_le z : (zk_moves (others z) <= zk_moves z)%nat.
Proof. destruct (others_moves z) as [Hm|Hm]; [lia|by rewrite Hm]. Qed.

Lemma cancels_moves k z z' : cancels k z z' -> (zk_moves z' <= zk_moves z)%nat.
Proof.
  induction 1 as [|k z z' _ IH|k z z' p d v r _ _ _ _ IH]; [lia| |].
  - pose proof (others_le z). lia.
  - by rewrite written_moves in IH.
Qed.

(** An exception that a decoder raised. *)
Definition decode_error (e : exn) : Prop := exists data, from_binary data = Raise e.

(** One turn of the loop, spelled out. *)
Lemma cancel_loop_eq fuel p n z :
  cancel_loop (S fuel) p n z =
  let z1 := others z in let z2 := others z1 in
  match zk_node z1 p with
  | None => (Raise NoNodeError, z1)
  | Some (d, v) =>
      match from_binary d with
      | Raise e => (Raise e, z1)
      | Ok r =>
          if fs_final (fr_status r) then (Ok n, z1)
          else match zk_node z2 p with
               | None => (Raise NoNodeError, z2)
               | Some (_, v') =>
                   if v' =? v then (Ok (n + 1), written p (to_binary (canceled r)) z2)
                   else cancel_loop fuel p n z2
               end
      end
  end.
Proof.
  cbn [cancel_loop]. unfold bind at 1. rewrite get_law. cbv zeta.
  destruct (zk_node (others z) p) as [[d v]|]; [|done].
  unfold result_of, lift, bind at 1. destruct (from_binary d) as [r|e]; [|done].
  destruct (fs_final (fr_status r)); [done|].
  unfold bind at 1, try_except, bind at 1. rewrite set_law.
  destruct (zk_node (others (others z)) p) as [[d' v']|]; [|done].
  by destruct (v' =? v).
Qed.

Lemma cancel_loop_run fuel p n z :
  (zk_moves z < fuel)%nat ->
  exists k z', cancels k z z' /\
    (cancel_loop fuel p n z = (Ok (n + Z.of_nat k), z') \/
     cancel_loop fuel p n z = (Raise NoNodeError, z') /\ k = 0%nat \/
     exists e, cancel_loop fuel p n z = (Raise e, z') /\ k = 0%nat /\ decode_error e).
Proof.
  revert z. induction fuel as [|fuel IH]; intros z Hf; [lia|]. rewrite cancel_loop_eq. cbv zeta.
  destruct (zk_node (others z) p) as [[d v]|] eqn:E.
  2:{ exists 0%nat, (others z). split; [eauto using cancels|]. by right; left. }
  destruct (from_binary d) as [r|e] eqn:Er.
  2:{ exists 0%nat, (others z). split; [eauto using cancels|]. right. right. exists e.
      split; [done|]. split; [done|]. by exists d. }
  destruct (fs_final (fr_status r)) eqn:Efin.
  { exists 0%nat, (others z). split; [eauto using cancels|]. left. by rewrite Z.add_0_r. }
  pose proof (others_newer (others z) p) as Hnew. rewrite E in Hnew.
  destruct (zk_node (others (others z)) p) as [[d' v']|] eqn:E'.
  2:{ exists 0%nat, (others (others z)). split; [eauto using cancels|]. by right; left. }
  destruct (Z.eqb_spec v' v) as [Hv|Hv].
  - destruct Hnew as [Hlt|Heq]; [lia|injection Heq as -> ->]. exists 1%nat. eexists. split; [|by left].
    do 2 apply cancels_others. eapply cancels_write; eauto using cancels.
  - destruct (IH (others (others z))) as (k & z' & Hc & Hr).
    { pose proof (others_le z). destruct (others_moves (others z)) as [Hm|Hm]; [lia|].
      rewrite Hm, E in E'. congruence. }
    exists k, z'. split; [by do 2 apply cancels_others|]. exact Hr.
Qed.

Lemma cancel_children_run fuel path children n z :
  (zk_moves z < fuel)%nat ->
  exists k z', cancels k z z' /\
    (cancel_children fuel path children n z = (Ok (n + Z.of_nat k), z') \/
     exists e, cancel_children fuel path children n z = (Raise e, z') /\ e <> NoNodeError /\ decode_error e).
Proof.
  revert n z. induction children as [|c children IH]; intros n z Hf; cbn [cancel_children].
  { exists 0%nat, z. split; [constructor|]. left. by rewrite Z.add_0_r. }
  destruct (cancel_loop_run fuel (path +:+ "/" +:+ c) n z Hf) as (k & z1 & Hc & Hr).
  assert (Hf1 : (zk_moves z1 < fuel)%nat) by (apply cancels_moves in Hc; lia).
  unfold bind, cancel_child, try_except.
  destruct Hr as [->|[[-> ->]|(e & -> & -> & He)]].
  - destruct (IH (n + Z.of_nat k) z1 Hf1) as (k2 & z2 & Hc2 & Hr2).
    exists (k + k2)%nat, z2. split; [by eapply cancels_trans|].
    destruct Hr2 as [->|Hr2]; [left; do 2 f_equal; lia|by right].
  - destruct (IH n z1 Hf1) as (k2 & z2 & Hc2 & Hr2).
    exists k2, z2. split; [by apply (cancels_trans 0 k2 z z1 z2)|]. exact Hr2.
  - destruct (IH n z1 Hf1) as (k2 & z2 & Hc2 & Hr2).
    destruct (decide (e = NoNodeError)) as [->|Hne].
    + exists k2, z2. split; [by apply (cancels_trans 0 k2 z z1 z2)|]. exact Hr2.
    + exists 0%nat, z1. split; [done|]. right. exists e. split_and!; [by destruct e|done..].
Qed.

(** C4: the cancellation of an action ends, whatever the other clients do
    meanwhile: a turn of the inner loop is only repeated after another client
    wrote to the node.  It returns the number of the nodes it wrote to, and
    each of these writes replaced a result that was not final at that moment by
    its canceled form; so no final result is ever overwritten.  The only
    exceptions that leave it come from decoding a node. *)
Theorem cancel_only_unfinished fuel path z (Hfuel : (zk_moves z < fuel)%nat) :
  exists k z', cancels k z z' /\
    (update_nodes_to_cancel fuel path z = (Ok (Z.of_nat k), z') \/
     exists e, update_nodes_to_cancel fuel path z = (Raise e, z') /\ decode_error e).
Proof.
  unfold update_nodes_to_cancel, try_except, bind.
  destruct (children_law path z) as [Hz Hr]. destruct (zk_get_children path z) as [r z1]. cbn [fst snd] in *. subst z1.
  destruct r as [children|e].
  2:{ destruct Hr as [-> _]. exists 0%nat, (others z). split; [eauto using cancels|by left]. }
  destruct (cancel_children_run fuel path children 0 (others z)) as (k & z' & Hc & Hk).
  { pose proof (others_le z). lia. }
  exists k, z'. split; [by apply cancels_others|]. destruct Hk as [->|(e & -> & Hne & He)]; [by left|].
  right. exists e. split; [by destruct e|done].
Qed.
End CancelProperties.

(** ** Fetching *)

(** What the manager asks of a dispatcher and of a size estimator, over the
    state [W] of the outside world. *)
Class DownloadDispatcher (W : Type) : Type := {
  dispatch_fetch : DownloadableContent -> Event -> string -> M W unit;
  cancel_all : string -> option string -> M W (list string);
  dispatcher_cleanup : DownloadableContent -> Event -> M W unit
}.

Class ContentSizeEstimator (W : Type) : Type := { size_estimator : string -> M W ContentSizeInfo }.

(** The state of the manager and of its client [X]: the content objects, the
    requests that wait for their lock, and those that hold it. *)
Record DM (T W X : Type) := mkDM {
  dm_heap : list DownloadableContent;
  dm_zk : T;
  dm_world : W;
  dm_waiting : list nat;
  dm_locked : list nat;
  dm_client : X
}.
Arguments mkDM {T W X}.
Arguments dm_heap {T W X}.
Arguments dm_zk {T W X}.
Arguments dm_world {T W X}.
Arguments dm_waiting {T W X}.
Arguments dm_locked {T W X}.
Arguments dm_client {T W X}.

Definition set_size_info (i : ContentSizeInfo) (c : DownloadableContent) : DownloadableContent :=
  mkContent (dc_src c) (dc_path c) (dc_id c) (dc_md5 c) (dc_dst c) (dc_type c) (dc_status c) (dc_message c) (Some i).
Definition set_dst (d : string) (c : DownloadableContent) : DownloadableContent :=
  mkContent (dc_src c) (dc_path c) (dc_id c) (dc_md5 c) (Some d) (dc_type c) (dc_status c) (dc_message c) (dc_size_info c).

Section Manager.
Context `{Env} `{ResultCodec} {T W X : Type} `{ZooKeeper T} `{DownloadDispatcher W} `{ContentSizeEstimator W}.

Abbreviation St := (Svc (DM T W X)).

Definition on_zk {A} (m : M T A) : M St A :=
  on_ext (fun d => let (r, z) := m (dm_zk d) in
                   (r, mkDM (dm_heap d) z (dm_world d) (dm_waiting d) (dm_locked d) (dm_client d))).
Definition on_world {A} (m : M W A) : M St A :=
  on_ext (fun d => let (r, w) := m (dm_world d) in
                   (r, mkDM (dm_heap d) (dm_zk d) w (dm_waiting d) (dm_locked d) (dm_client d))).

(** The object named [c]; there is no code for a name that is not in the heap. *)
Definition read_content (c : nat) : M St DownloadableContent :=
  heap <- gets (fun s => dm_heap (svc_ext s)) ;;
  match heap !! c with
  | Some d => ret d
  | None => raise (OtherException "DanglingReference" "")
  end.
Definition update_content (c : nat) (f : DownloadableContent -> DownloadableContent) : M St unit :=
  on_ext (modify (fun d => mkDM (alter f c (dm_heap d)) (dm_zk d) (dm_world d) (dm_waiting d) (dm_locked d) (dm_client d))).

Definition get_lock_name (content : DownloadableContent) : string := md5sum (dc_src content).

Definition get_node_path (client : string) (action : option string) (content : option DownloadableContent) : string :=
  "/downloads/" +:+ client +:+
  (if str_truthy action then
     "/" +:+ default "" action +:+
     match content with Some c => "/" +:+ md5sum (str_of_content c) | None => "" end
   else "").

Definition INITIAL_DATA : string := to_binary (mkResult FS_PENDING None None).

(** [lock.release()]: deletes the node of the lock. *)
Definition release (c : nat) : M St unit :=
  on_ext (modify (fun d => mkDM (dm_heap d) (dm_zk d) (dm_world d) (dm_waiting d)
                             (List.filter (fun c' => negb (Nat.eqb c' c)) (dm_locked d)) (dm_client d))).

(** The event as it is now, and the [on_done] callback of the client. *)
Context (event : St -> Event) (on_done : nat -> M St unit).

Definition on_done_and_unlock (c : nat) : M St unit :=
  on_done c ;;
  content <- read_content c ;;
  ev <- gets event ;;
  on_world (dispatcher_cleanup content ev) ;;
  release c.

(** [__handle_node_state]; the watch it sets is for the same content. *)
Definition handle_node_state (zk_node_path : string) (c : nat) : M St unit :=
  ' (data, _) <- on_zk (zk_get zk_node_path (Some c)) ;;
  result <- lift (from_binary data) ;;
  if fs_final (fr_status result) then
    update_content c (fr_update result) ;;
    on_zk (zk_delete zk_node_path) ;;
    on_done_and_unlock c
  else ret tt.

(** [__on_zk_changed]. *)
Definition on_zk_changed (ev : WatchedEvent) : M St unit :=
  if bool_decide (we_type ev = DELETED) then ret tt else handle_node_state (we_path ev) (we_content ev).

(** The size estimate, stored in the content. *)
Definition estimate_size (c : nat) : M St unit :=
  content <- read_content c ;;
  info <- on_world (size_estimator (dc_src content)) ;;
  update_content c (set_size_info info).

Definition estimate_failed (c : nat) (e : exn) : M St unit :=
  content <- read_content c ;;
  let msg := "Failed to estimate the size of content " +:+ dc_src content +:+ ": " +:+ str_of_exn e in
  update_content c (fr_update (mkResult FS_FAILED None (Some msg))) ;;
  on_done c ;;
  release c.

(** What follows the creation of the node. *)
Definition start_fetch (c : nat) : M St unit :=
  content <- read_content c ;;
  ev <- gets event ;;
  let zk_node_path := get_node_path (client_id ev) (Some (action_id ev)) (Some content) in
  on_zk (zk_create zk_node_path INITIAL_DATA) ;;
  handle_node_state zk_node_path c ;;
  estimate_size c ;;
  content <- read_content c ;;
  ev <- gets event ;;
  on_world (dispatch_fetch content ev zk_node_path).

(** [on_content_locked]; [None] when the estimate failed. *)
Definition on_content_locked (c : nat) : M St unit :=
  failed <- try_except (estimate_size c ;; ret None) (fun e => ret (Some e)) ;;
  match failed with
  | Some e => estimate_failed c e
  | None => start_fetch c
  end.

(** [fetch]: the request for the lock; [grant] is the moment at which the lock
    manager runs [on_content_locked]. *)
Definition request_fetch (c : nat) : M St unit :=
  on_ext (modify (fun d => mkDM (dm_heap d) (dm_zk d) (dm_world d) (dm_waiting d ++ [c])%list (dm_locked d) (dm_client d))).

Definition take_lock (c : nat) : M St unit :=
  on_ext (modify (fun d => mkDM (dm_heap d) (dm_zk d) (dm_world d)
                             (List.filter (fun c' => negb (Nat.eqb c' c)) (dm_waiting d))
                             (dm_locked d ++ [c])%list (dm_client d))).
Definition grant (c : nat) : M St unit := take_lock c ;; on_content_locked c.

(** The delivery of the oldest notification. *)
Definition notify : M St unit :=
  next <- on_zk zk_next_event ;;
  match next with
  | None => ret tt
  | Some ev => on_zk_changed ev
  end.

(** [DownloadManager.cancel]; [fuel] bounds the turns of the inner loop, see
    [cancel_only_unfinished]. *)
Definition dm_cancel (fuel : nat) (client action : string) : M St (list string * Z) :=
  deleted <- on_world (cancel_all client (Some action)) ;;
  n <- on_zk (update_nodes_to_cancel fuel (get_node_path client (Some action) None)) ;;
  ret (deleted, n).
End Manager.

(** ** Witness *)

Module Witness.
Import ZooKeeper.Model.
#[local] Existing Instance FetcherJob.Witness.codec.

(** Two nodes; the job of the first one writes between the read and the write of
    the cancellation, and the second one is done. *)
Definition z0 : Zk :=
  mkZk [("/a", mkNode "" 0 []); ("/a/x", mkNode "P--" 0 [7%nat]); ("/a/y", mkNode "Df-" 3 [])] []
    [[]; []; [ActSet "/a/x" "R--"]].

Lemma cancel_only_unfinished_witness :
  exists k z', cancels k z0 z' /\ update_nodes_to_cancel 4 "/a" z0 = (Ok (Z.of_nat k), z') /\ k = 1%nat /\
    (nd_data <$> dict_get (zk_nodes z') "/a/x") = Some "C--" /\ (nd_data <$> dict_get (zk_nodes z') "/a/y") = Some "Df-".
Proof.
  destruct (cancel_only_unfinished 4 "/a" z0) as (k & z' & Hc & [Hr|(e & Hr & _)]); [simpl; lia| |].
  - exists k, z'. split; [exact Hc|]. split; [exact Hr|].
    assert (E : (update_nodes_to_cancel 4 "/a" z0).1 = Ok 1) by (vm_compute; reflexivity).
    rewrite Hr in E. injection E as Hk. split; [lia|].
    assert (z' = (update_nodes_to_cancel 4 "/a" z0).2) as -> by (rewrite Hr; reflexivity).
    vm_compute. split; reflexivity.
  - exfalso. vm_compute in Hr. discriminate.
Defined.
End Witness.
