(* ===== verification/FetcherService.v ===== *)
(** * The fetcher service (fetcher_dispatcher_service.py, content_pull.py)

    [FetcherEventHandler]: the downloads of one event, from the request to the
    moment the event goes on to the executors, and [DownloadCmdObject], the
    cancel command.  The model follows one event: its contents are the heap of
    the download manager, the data sets first, then the models.

    The code is given twice: as it is written, for what one call does, and cut
    at its points, for the two threads that run it; [run_point_code] says that
    these agree. *)

From S2P Require Import Prelude PyStr Events KafkaService CmdCallback FetcherJob ZooKeeper DownloadManager.

Create HintDb fetch.

#[local] Arguments String.append !_ _ /.

(** ** content_pull.py *)

Definition get_content_dst `{Env} (content : DownloadableContent) (s3_bucket : string) : Res string :=
  let s3uri := "s3://" +:+ s3_bucket +:+ "/data_sets/" +:+ md5sum (dc_src content) in
  let s3uri := if str_truthy (dc_md5 content) then s3uri +:+ "/" +:+ default "" (dc_md5 content) else s3uri in
  parsed <~ urlparse (dc_src content) ;;
  Ok (if negb (String.eqb (path parsed) "") then s3uri +:+ path parsed else s3uri).

(** ** FetcherEventHandler *)

(** What [execute_all] keeps: [pending]. *)
Record Session := mkSession { fs_pending : list nat }.

Definition has_status (st : FetcherStatus) (downloads : list DownloadableContent) : bool :=
  existsb (fun d => bool_decide (dc_status d = Some st)) downloads.

Definition collect_status (downloads : list DownloadableContent) : Status :=
  if has_status FS_CANCELED downloads then CANCELED
  else if has_status FS_FAILED downloads then FAILED
  else if has_status FS_PENDING downloads then PENDING
  else if has_status FS_RUNNING downloads then RUNNING
  else SUCCEEDED.

(** The message and the status that report a content. *)
Definition done_message (content : DownloadableContent) : Status * string :=
  match dc_status content with
  | Some FS_DONE => (PENDING, dc_src content +:+ " downloaded...")
  | Some FS_CANCELED => (CANCELED, dc_src content +:+ " download canceled...")
  | Some FS_FAILED =>
      (FAILED, dc_src content +:+ " download failed: '" +:+ default "None" (dc_message content) +:+ "'...")
  | Some FS_RUNNING | Some FS_PENDING => (PENDING, "Downloading " +:+ dc_src content +:+ "...")
  | None => (ERROR, "Unknown status None issued for " +:+ dc_src content)
  end.

(** [pending.remove(content)]: the first pending content that is equal. *)
Fixpoint remove_equal (heap : list DownloadableContent) (c : nat) (pending : list nat) : option (list nat) :=
  match pending with
  | [] => None
  | j :: rest =>
      if decide (heap !! j = heap !! c) then Some rest else cons j <$> remove_equal heap c rest
  end.

(** Where a thread can stand: the calls that are left, see [run_point]. *)
Inductive Point :=
| PExecute (c : nat) | PAnnounce (c : nat) | PRequest (c : nat) | PAcquire (c : nat)
| PLocked (c : nat) | PEstimate (c : nat) | PEstimateFailed (c : nat) (e : exn)
| PCreate (c : nat) | PSize (c : nat) | PDispatch (zk_node_path : string) (c : nat)
| PNotify | PLook (zk_node_path : string) (c : nat)
| PResult (zk_node_path : string) (c : nat) (result : FetcherResult) | PDelete (zk_node_path : string) (c : nat)
| PReport (c : nat) | PRemove (c : nat) | PTest | PAllDone | PForward | PSay (st : Status) (msg : string)
| PCleanup (c : nat) | PRelease (c : nat).

Section Handler.
Context `{Env} `{ResultCodec} {T W : Type} `{ZooKeeper T} `{DownloadDispatcher W} `{ContentSizeEstimator W}.

Abbreviation St := (Svc (DM T W Session)).

(** The handled event, whose payload holds [toml], [scripts] and the contents,
    of which the first [datasets] are data sets. *)
Context (handled : Event) (toml : BenchmarkDoc) (scripts : list FileSystemObject) (datasets : nat).
Context (producer_topic s3_download_bucket : string).

Definition payload_of (heap : list DownloadableContent) : FetcherPayload :=
  mkFetcherPayload toml (take datasets heap) (drop datasets heap) scripts.
Definition event_of (heap : list DownloadableContent) : Event :=
  mkEvent (action_id handled) (parent_action_id handled) (message_id handled) (client_id handled)
    (client_version handled) (client_username handled) (authenticated handled) (tstamp handled)
    (visited handled) (type handled) (PFetcher (payload_of heap)).
Definition event_now (s : St) : Event := event_of (dm_heap (svc_ext s)).

Definition modify_session (f : Session -> Session) : M St unit :=
  on_ext (modify (fun d => mkDM (dm_heap d) (dm_zk d) (dm_world d) (dm_waiting d) (dm_locked d) (f (dm_client d)))).

Definition send_status_now (st : Status) (msg : string) : M St unit :=
  ev <- gets event_now ;; ks_send_status ev st msg None.
Definition send_event_now : M St unit :=
  ev <- gets event_now ;; ks_send_event ev producer_topic.

Definition on_all_done : M St unit :=
  ds <- gets (fun s => take datasets (dm_heap (svc_ext s))) ;;
  let total_status := collect_status ds in
  match total_status with
  | SUCCEEDED => send_event_now ;; send_status_now total_status "All downloads processed"
  | CANCELED | FAILED => send_status_now total_status "Aborting execution"
  | _ => ret tt
  end.

(** [on_done]: the message, the removal from [pending], and the test. *)
Definition report (c : nat) : M St unit :=
  content <- read_content c ;;
  let '(status, msg) := done_message content in
  send_status_now status msg.

Definition remove_pending (c : nat) : M St unit :=
  heap <- gets (fun s => dm_heap (svc_ext s)) ;;
  pending <- gets (fun s => fs_pending (dm_client (svc_ext s))) ;;
  match remove_equal heap c pending with
  | None => raise (ValueError "list.remove(x): x not in list")
  | Some rest => modify_session (fun _ => mkSession rest)
  end.

Definition test_pending : M St unit :=
  pending <- gets (fun s => fs_pending (dm_client (svc_ext s))) ;;
  match pending with
  | [] => on_all_done
  | _ => ret tt
  end.

Definition on_done (c : nat) : M St unit := report c ;; remove_pending c ;; test_pending.

Definition assign_dst (c : nat) : M St unit :=
  content <- read_content c ;;
  dst <- lift (get_content_dst content s3_download_bucket) ;;
  update_content c (set_dst dst).

Definition announce (c : nat) : M St unit :=
  content <- read_content c ;;
  send_status_now PENDING ("Preparing " +:+ dc_src content +:+ " for download...").

Definition execute (c : nat) : M St unit := assign_dst c ;; announce c ;; request_fetch c.

(** The tasks: the contents without a destination. *)
Definition tasks (heap : list DownloadableContent) : list nat :=
  List.filter (fun c => match heap !! c with Some d => negb (str_truthy (dc_dst d)) | None => false end)
    (seq 0 (length heap)).

(** [handle_event] up to the loop over the tasks, which it returns. *)
Definition start_handling : M St (list nat) :=
  todo <- gets (fun s => tasks (dm_heap (svc_ext s))) ;;
  match todo with
  | [] => send_status_now SUCCEEDED "Nothing to fetch" ;; send_event_now ;; ret []
  | _ =>
      send_status_now PENDING "Initiating downloads..." ;;
      modify_session (fun _ => mkSession todo) ;;
      ret todo
  end.

(** [handle_event], when nothing else runs in between. *)
Definition fetcher_handle_event : M St unit :=
  todo <- start_handling ;;
  for_each execute todo.

Definition fetch_grant (c : nat) : M St unit := grant event_now on_done c.
Definition fetch_notify : M St unit := notify event_now on_done.

(** ** The threads

    Two threads of the process run this code on the same objects: the main one,
    which handles the events, and the one of kazoo, which runs the watches one
    after the other.  A [Point] is a place in the code at which a thread may be
    stopped, with the variables that its rest uses: between two points there is
    at most one access to what the threads share. *)

Definition clean_up (c : nat) : M St unit :=
  content <- read_content c ;;
  ev <- gets event_now ;;
  on_world (dispatcher_cleanup content ev).

Definition dispatch (zk_node_path : string) (c : nat) : M St unit :=
  content <- read_content c ;;
  ev <- gets event_now ;;
  on_world (dispatch_fetch content ev zk_node_path).

(** Runs a point; what the thread does next. *)
Definition run_point (p : Point) : M St (list Point) :=
  match p with
  | PExecute c => assign_dst c ;; ret [PAnnounce c]
  | PAnnounce c => announce c ;; ret [PRequest c]
  | PRequest c => request_fetch c ;; ret [PAcquire c]
  | PAcquire c => ret []
  | PLocked c => take_lock c ;; ret [PEstimate c]
  | PEstimate c =>
      failed <- try_except (estimate_size c ;; ret None) (fun e => ret (Some e)) ;;
      ret [match failed with Some e => PEstimateFailed c e | None => PCreate c end]
  | PEstimateFailed c e =>
      content <- read_content c ;;
      let msg := "Failed to estimate the size of content " +:+ dc_src content +:+ ": " +:+ str_of_exn e in
      update_content c (fr_update (mkResult FS_FAILED None (Some msg))) ;;
      ret [PReport c; PRelease c]
  | PCreate c =>
      content <- read_content c ;;
      ev <- gets event_now ;;
      let zk_node_path := get_node_path (client_id ev) (Some (action_id ev)) (Some content) in
      on_zk (zk_create zk_node_path INITIAL_DATA) ;;
      ret [PLook zk_node_path c; PSize c; PDispatch zk_node_path c]
  | PSize c => estimate_size c ;; ret []
  | PDispatch zk_node_path c => dispatch zk_node_path c ;; ret []
  | PNotify =>
      next <- on_zk zk_next_event ;;
      ret match next with
          | None => []
          | Some ev => if bool_decide (we_type ev = DELETED) then [] else [PLook (we_path ev) (we_content ev)]
          end
  | PLook zk_node_path c =>
      ' (data, _) <- on_zk (zk_get zk_node_path (Some c)) ;;
      result <- lift (from_binary data) ;;
      ret (if fs_final (fr_status result) then [PResult zk_node_path c result] else [])
  | PResult zk_node_path c result => update_content c (fr_update result) ;; ret [PDelete zk_node_path c]
  | PDelete zk_node_path c => on_zk (zk_delete zk_node_path) ;; ret [PReport c; PCleanup c; PRelease c]
  | PReport c => report c ;; ret [PRemove c]
  | PRemove c => remove_pending c ;; ret [PTest]
  | PTest =>
      pending <- gets (fun s => fs_pending (dm_client (svc_ext s))) ;;
      ret match pending with [] => [PAllDone] | _ => [] end
  | PAllDone =>
      ds <- gets (fun s => take datasets (dm_heap (svc_ext s))) ;;
      let total_status := collect_status ds in
      ret match total_status with
          | SUCCEEDED => [PForward; PSay total_status "All downloads processed"]
          | CANCELED | FAILED => [PSay total_status "Aborting execution"]
          | _ => []
          end
  | PForward => send_event_now ;; ret []
  | PSay st msg => send_status_now st msg ;; ret []
  | PCleanup c => clean_up c ;; ret []
  | PRelease c => release c ;; ret []
  end.

(** The code whose beginning a point is. *)
Definition code_of (p : Point) : M St unit :=
  match p with
  | PExecute c => execute c
  | PAnnounce c => announce c ;; request_fetch c
  | PRequest c => request_fetch c
  | PAcquire c => ret tt
  | PLocked c => fetch_grant c
  | PEstimate c => on_content_locked event_now on_done c
  | PEstimateFailed c e => estimate_failed on_done c e
  | PCreate c => start_fetch event_now on_done c
  | PSize c => estimate_size c
  | PDispatch zk_node_path c => dispatch zk_node_path c
  | PNotify => fetch_notify
  | PLook zk_node_path c => handle_node_state event_now on_done zk_node_path c
  | PResult zk_node_path c result =>
      update_content c (fr_update result) ;; on_zk (zk_delete zk_node_path) ;; on_done_and_unlock event_now on_done c
  | PDelete zk_node_path c => on_zk (zk_delete zk_node_path) ;; on_done_and_unlock event_now on_done c
  | PReport c => on_done c
  | PRemove c => remove_pending c ;; test_pending
  | PTest => test_pending
  | PAllDone => on_all_done
  | PForward => send_event_now
  | PSay st msg => send_status_now st msg
  | PCleanup c => clean_up c
  | PRelease c => release c
  end.

(** ** The life of an event

    A configuration is the state, what the two threads have left to do, and a
    record of what they did: the contents as they were whenever [on_all_done]
    looked at them, and as they were whenever it sent the event on. *)

Record Config := mkConfig {
  cf_state : St;
  cf_main : list Point;
  cf_listener : list Point;
  cf_verdicts : list (list DownloadableContent);
  cf_forwarded : list (list DownloadableContent)
}.

(** One point of a thread; an exception ends what the thread was doing: the
    handler of the event on the main one, the watch on the other. *)
Definition run_head (th : list Point) (s : St) : list Point * St :=
  match th with
  | [] => ([], s)
  | p :: rest =>
      match run_point p s with
      | (Ok next, s') => ((next ++ rest)%list, s')
      | (Raise _, s') => ([], s')
      end
  end.

Definition note_verdict (th : list Point) (s : St) (seen : list (list DownloadableContent)) :=
  match th with PAllDone :: _ => (seen ++ [dm_heap (svc_ext s)])%list | _ => seen end.
Definition note_forward (th : list Point) (s : St) (seen : list (list DownloadableContent)) :=
  match th with PForward :: _ => (seen ++ [dm_heap (svc_ext s)])%list | _ => seen end.

(** Whether a thread stands between [pending.remove] and the test. *)
Definition at_test (th : list Point) : bool := match th with PTest :: _ => true | _ => false end.

Definition lock_free (s : St) (c : nat) : bool :=
  forallb (fun c' => negb (bool_decide (get_lock_name <$> (dm_heap (svc_ext s) !! c') =
                                        get_lock_name <$> (dm_heap (svc_ext s) !! c)))) (dm_locked (svc_ext s)).
Definition may_take (s : St) (c : nat) : bool := bool_decide (c ∈ dm_waiting (svc_ext s)) && lock_free s c.

Definition set_zk (z : T) (s : St) : St :=
  set_ext (mkDM (dm_heap (svc_ext s)) z (dm_world (svc_ext s)) (dm_waiting (svc_ext s)) (dm_locked (svc_ext s))
             (dm_client (svc_ext s))) s.
Definition set_world (w : W) (s : St) : St :=
  set_ext (mkDM (dm_heap (svc_ext s)) (dm_zk (svc_ext s)) w (dm_waiting (svc_ext s)) (dm_locked (svc_ext s))
             (dm_client (svc_ext s))) s.

(** What can happen next.  A thread runs its next point; the main thread finds
    the lock of the content it asked for free, and holds it; the thread of
    kazoo, when idle, takes the next notification, or finds that a lock it waited
    for is free; and anything may happen to the nodes of ZooKeeper and to the
    world. *)
Inductive Turn := TMain | TMainLocked | TListener | TNotify | TGrant (c : nat) | TZk (z : T) | TWorld (w : W).

(** With [races] false, no thread runs while the other one stands between the
    removal and the test. *)
Definition turn (races : bool) (t : Turn) (cf : Config) : option Config :=
  let s := cf_state cf in
  match t with
  | TMain =>
      if at_test (cf_listener cf) && negb races then None
      else let '(main, s') := run_head (cf_main cf) s in
           Some (mkConfig s' main (cf_listener cf) (note_verdict (cf_main cf) s (cf_verdicts cf))
                   (note_forward (cf_main cf) s (cf_forwarded cf)))
  | TListener =>
      if at_test (cf_main cf) && negb races then None
      else let '(listener, s') := run_head (cf_listener cf) s in
           Some (mkConfig s' (cf_main cf) listener (note_verdict (cf_listener cf) s (cf_verdicts cf))
                   (note_forward (cf_listener cf) s (cf_forwarded cf)))
  | TMainLocked =>
      match cf_main cf with
      | PAcquire c :: rest =>
          if may_take s c
          then Some (mkConfig s (PLocked c :: rest) (cf_listener cf) (cf_verdicts cf) (cf_forwarded cf)) else None
      | _ => None
      end
  | TNotify =>
      match cf_listener cf with
      | [] => Some (mkConfig s (cf_main cf) [PNotify] (cf_verdicts cf) (cf_forwarded cf))
      | _ => None
      end
  | TGrant c =>
      match cf_listener cf with
      | [] => if may_take s c
              then Some (mkConfig s (cf_main cf) [PLocked c] (cf_verdicts cf) (cf_forwarded cf)) else None
      | _ => None
      end
  | TZk z => Some (mkConfig (set_zk z s) (cf_main cf) (cf_listener cf) (cf_verdicts cf) (cf_forwarded cf))
  | TWorld w => Some (mkConfig (set_world w s) (cf_main cf) (cf_listener cf) (cf_verdicts cf) (cf_forwarded cf))
  end.

(** The configuration from which the tasks of the event are executed. *)
Definition event_started (s0 : St) : Config :=
  match start_handling s0 with
  | (Ok todo, s) => mkConfig s (map PExecute todo) [] [] []
  | (Raise _, s) => mkConfig s [] [] [] []
  end.

(** The configurations that an event goes through from the moment it is handled. *)
Inductive reachable (races : bool) (s0 : St) : Config -> Prop :=
| reach_start : reachable races s0 (event_started s0)
| reach_turn cf t cf' : reachable races s0 cf -> turn races t cf = Some cf' -> reachable races s0 cf'.

Fixpoint run_turns (races : bool) (ts : list Turn) (cf : Config) : option Config :=
  match ts with
  | [] => Some cf
  | t :: ts => match turn races t cf with Some cf' => run_turns races ts cf' | None => None end
  end.

Lemma run_turns_reachable races s0 ts cf cf' :
  reachable races s0 cf -> run_turns races ts cf = Some cf' -> reachable races s0 cf'.
Proof.
  revert cf. induction ts as [|t ts IH]; intros cf Hr; cbn [run_turns]; [by intros [= <-]|].
  destruct (turn races t cf) as [cf1|] eqn:E; [|done]. apply IH. by eapply reach_turn.
Qed.
End Handler.

(** ** Invariants *)

Definition final_at (heap : list DownloadableContent) (c : nat) : bool :=
  match heap !! c with
  | Some d => match dc_status d with Some st => fs_final st | None => false end
  | None => false
  end.

Lemma remove_equal_in heap c pending rest :
  remove_equal heap c pending = Some rest ->
  exists j, heap !! j = heap !! c /\ (forall x, x ∈ pending -> x = j \/ x ∈ rest) /\ j ∈ pending.
Proof.
  revert rest. induction pending as [|j pending IH]; intros rest; simpl; [done|].
  case_decide as Hj.
  - intros; simplify_eq. exists j. split; [done|]. split; [|set_solver]. intros x Hx. set_solver.
  - destruct (remove_equal heap c pending) as [rest'|]; [|done]. simpl. intros; simplify_eq.
    destruct (IH rest' eq_refl) as (j' & Hj' & Hx & Hin). exists j'. split; [done|]. set_solver.
Qed.

Lemma remove_equal_Some heap c pending : c ∈ pending -> is_Some (remove_equal heap c pending).
Proof.
  induction pending as [|j pending IH]; [set_solver|]. simpl.
  case_decide as Hj; [eauto|]. intros [->|Hin]%elem_of_cons; [done|].
  destruct (IH Hin) as [rest ->]. eauto.
Qed.

Lemma final_at_alter f c heap x :
  (forall d, dc_status (f d) = dc_status d) -> final_at (alter f c heap) x = final_at heap x.
Proof.
  intros Hf. unfold final_at. destruct (decide (x = c)) as [->|Hne].
  - rewrite list_lookup_alter_eq. destruct (heap !! c) as [d|]; simpl; [|done]. by rewrite Hf.
  - by rewrite list_lookup_alter_ne.
Qed.

Lemma final_at_update r c heap x :
  fs_final (fr_status r) = true -> final_at heap x = true -> final_at (alter (fr_update r) c heap) x = true.
Proof.
  intros Hr Hx. unfold final_at in *. destruct (decide (x = c)) as [->|Hne].
  - rewrite list_lookup_alter_eq. destruct (heap !! c) as [d|]; simpl; [|done].
    unfold fr_update. by destruct (fs_success (fr_status r)).
  - by rewrite list_lookup_alter_ne.
Qed.

Lemma final_at_updated r c heap d :
  fs_final (fr_status r) = true -> heap !! c = Some d -> final_at (alter (fr_update r) c heap) c = true.
Proof.
  intros Hr Hc. unfold final_at. rewrite list_lookup_alter_eq, Hc. simpl.
  unfold fr_update. by destruct (fs_success (fr_status r)).
Qed.

Section Invariants.
Context `{Env} `{ResultCodec} {T W : Type} `{ZooKeeper T} `{DownloadDispatcher W} `{ContentSizeEstimator W}.
Abbreviation St := (Svc (DM T W Session)).
Context (handled : Event) (toml : BenchmarkDoc) (scripts : list FileSystemObject) (datasets : nat).
Context (producer_topic s3_download_bucket : string).

Abbreviation heap_of s := (dm_heap (svc_ext s)).
Abbreviation pending_of s := (fs_pending (dm_client (svc_ext s))).

(** What was sent on the producer topic. *)
Definition forwards (s : St) : list (string * string * Payload) :=
  List.filter (fun x => String.eqb x.1.1 producer_topic) (sends (svc_bus s)).

(** The forwarded event for the contents as they are in [heap]. *)
Definition forwarded_event (heap : list DownloadableContent) : string * string * Payload :=
  (producer_topic, action_id handled, PFetcher (payload_of toml scripts datasets heap)).

(** Whether the data sets had succeeded when [on_all_done] looked at [heap]. *)
Definition succeeded (heap : list DownloadableContent) : bool :=
  bool_decide (collect_status (take datasets heap) = SUCCEEDED).

(** *** The points are the code

    Without a switch, to run a point and then the code at what it returns is to
    run the code at the point. *)
Abbreviation Run := (run_point handled toml scripts datasets producer_topic s3_download_bucket).
Abbreviation Code := (code_of handled toml scripts datasets producer_topic s3_download_bucket).

Lemma for_each_one {S A} (f : A -> M S unit) x (s : S) : for_each f [x] s = f x s.
Proof. cbn [for_each]. unfold bind, ret. by destruct (f x s) as [[[]|e] s']. Qed.

Lemma for_each_cons {S A} (f : A -> M S unit) x y l (s : S) :
  for_each f (x :: y :: l) s = bind (f x) (fun _ => for_each f (y :: l)) s.
Proof. done. Qed.

Lemma bind_next {S A} (m : M S unit) (f : A -> M S unit) x (s : S) :
  bind (bind m (fun _ => ret [x])) (for_each f) s = bind m (fun _ => f x) s.
Proof. unfold bind, ret. destruct (m s) as [[[]|e] s']; [|done]. apply for_each_one. Qed.
Lemma bind_end {S A} (m : M S unit) (f : A -> M S unit) (s : S) :
  bind (bind m (fun _ => ret [])) (for_each f) s = m s.
Proof. unfold bind, ret. by destruct (m s) as [[[]|e] s']. Qed.
Lemma bind_assoc {S A B C} (m : M S A) (k : A -> M S B) (h : B -> M S C) s :
  bind (bind m k) h s = bind m (fun a => bind (k a) h) s.
Proof. unfold bind. by destruct (m s) as [[a|e] s']. Qed.
Lemma bind_ext {S A B} (m : M S A) (k k' : A -> M S B) s :
  (forall a s, k a s = k' a s) -> bind m k s = bind m k' s.
Proof. intros Hk. unfold bind. destruct (m s) as [[a|e] s']; [apply Hk|done]. Qed.

Lemma run_point_code p s : Code p s = (next <- Run p ;; for_each Code next) s.
Proof.
  destruct p; cbn [run_point code_of]; rewrite ?bind_next, ?bind_end; try done.
  - unfold on_content_locked. rewrite bind_assoc. apply bind_ext. intros [e'|] s'; [exact (eq_sym (for_each_one Code (PEstimateFailed c e') s'))|exact (eq_sym (for_each_one Code (PCreate c) s'))].
  - unfold estimate_failed. rewrite !bind_assoc. apply bind_ext. intros d s1. cbv zeta. rewrite !bind_assoc. apply bind_ext. intros _ s2.
    symmetry. etransitivity; [apply (for_each_cons Code (PReport c))|]. apply bind_ext. intros _ s3. apply (for_each_one Code (PRelease c)).
  - unfold start_fetch. rewrite !bind_assoc. apply bind_ext. intros d s1. rewrite !bind_assoc. apply bind_ext. intros ev s2.
    cbv zeta. rewrite bind_assoc. apply bind_ext. intros _ s3. symmetry.
    etransitivity; [apply (for_each_cons Code (PLook _ c))|]. apply bind_ext. intros _ s4.
    etransitivity; [apply (for_each_cons Code (PSize c))|]. apply bind_ext. intros _ s5. apply (for_each_one Code (PDispatch _ c)).
  - unfold fetch_notify, notify. rewrite bind_assoc. apply bind_ext. intros [ev|] s1; [|done]. unfold on_zk_changed.
    case_bool_decide; [done|]. exact (eq_sym (for_each_one Code (PLook (we_path ev) (we_content ev)) s1)).
  - unfold handle_node_state. rewrite !bind_assoc. apply bind_ext. intros [data v] s1. rewrite bind_assoc. apply bind_ext. intros r s2.
    destruct (fs_final (fr_status r)); [|done]. exact (eq_sym (for_each_one Code (PResult zk_node_path c r) s2)).
  - unfold on_done_and_unlock. rewrite bind_assoc. apply bind_ext. intros _ s1. symmetry.
    etransitivity; [apply (for_each_cons Code (PReport c))|]. apply bind_ext. intros _ s2.
    etransitivity; [apply (for_each_cons Code (PCleanup c))|]. cbn [code_of]. unfold clean_up. rewrite !bind_assoc. apply bind_ext. intros d s3. rewrite bind_assoc. apply bind_ext. intros ev s4. apply bind_ext. intros _ s5. apply (for_each_one Code (PRelease c)).
  - unfold test_pending. rewrite bind_assoc. apply bind_ext. intros [|x l] s1; [|done]. exact (eq_sym (for_each_one Code PAllDone s1)).
  - unfold on_all_done. rewrite bind_assoc. apply bind_ext. intros ds s1. cbv zeta.
    destruct (collect_status ds); try done;
      try exact (eq_sym (for_each_one Code (PSay _ "Aborting execution") s1)).
    symmetry. etransitivity; [apply (for_each_cons Code PForward)|]. apply bind_ext. intros _ s2.
    apply (for_each_one Code (PSay _ "All downloads processed")).
Qed.

Lemma handler_code s :
  fetcher_handle_event handled toml scripts datasets producer_topic s3_download_bucket s =
  (todo <- start_handling handled toml scripts datasets producer_topic ;; for_each Code (map PExecute todo)) s.
Proof.
  unfold fetcher_handle_event. apply bind_ext. intros todo. induction todo as [|c todo IH]; intros s'; [done|].
  cbn [map for_each]. apply bind_ext. intros _ s''. apply IH.
Qed.

(** *** What the points do to [pending], the statuses and the topic *)

Definition done_at (heap : list DownloadableContent) (c : nat) : Prop := heap !! c = None \/ final_at heap c = true.

(** The later state [s'] has the same tasks pending and the same events
    forwarded, and what was final is final. *)
Record keeps_tasks (s s' : St) : Prop := {
  keeps_topic : em_status_topic (svc_emitter s') = em_status_topic (svc_emitter s);
  keeps_pending : pending_of s' = pending_of s;
  keeps_forwards : forwards s' = forwards s;
  keeps_final : forall c, final_at (heap_of s) c = true -> final_at (heap_of s') c = true;
  keeps_none : forall c, heap_of s' !! c = None <-> heap_of s !! c = None
}.

Lemma keeps_refl s : keeps_tasks s s.
Proof. by constructor. Qed.
Lemma keeps_trans s1 s2 s3 : keeps_tasks s1 s2 -> keeps_tasks s2 s3 -> keeps_tasks s1 s3.
Proof. intros [] []. constructor; [congruence..| |]; [auto|]. intros c. by rewrite keeps_none1, keeps_none0. Qed.
Lemma keeps_done s s' c : keeps_tasks s s' -> done_at (heap_of s) c -> done_at (heap_of s') c.
Proof. intros Hk [Hc|Hc]; [left; by apply (keeps_none _ _ Hk)|right; by eapply keeps_final]. Qed.
Hint Resolve keeps_refl : fetch.

Section Quiet.
(** The status messages do not go to the topic of the producer. *)
Definition apart (s : St) : Prop := em_status_topic (svc_emitter s) <> Some producer_topic.

Definition quiet {A} (m : M St A) : Prop := forall s, apart s -> keeps_tasks s (m s).2.

Lemma quiet_bind {A B} (m : M St A) (k : A -> M St B) : quiet m -> (forall a, quiet (k a)) -> quiet (bind m k).
Proof.
  intros Hm Hk s Hs. unfold bind. specialize (Hm s Hs). destruct (m s) as [[a|e] s1]; [|done]. cbn [snd] in *.
  apply (keeps_trans _ s1); [done|]. apply Hk. unfold apart. by rewrite (keeps_topic _ _ Hm).
Qed.
Lemma quiet_try {A} (m : M St A) h : quiet m -> (forall e, quiet (h e)) -> quiet (try_except m h).
Proof.
  intros Hm Hh s Hs. unfold try_except. specialize (Hm s Hs). destruct (m s) as [[a|e] s1]; [done|]. cbn [snd] in *.
  apply (keeps_trans _ s1); [done|]. apply Hh. unfold apart. by rewrite (keeps_topic _ _ Hm).
Qed.
Lemma quiet_ret {A} (a : A) : quiet (ret a).
Proof. intros s _. apply keeps_refl. Qed.
Lemma quiet_raise {A} e : quiet (raise (A := A) e).
Proof. intros s _. apply keeps_refl. Qed.
Lemma quiet_gets {A} (f : St -> A) : quiet (gets f).
Proof. intros s _. apply keeps_refl. Qed.
Lemma quiet_lift {A} (r : Res A) : quiet (lift r).
Proof. intros s _. apply keeps_refl. Qed.
Lemma quiet_on_zk {A} (m : M T A) : quiet (on_zk m).
Proof. intros s _. unfold on_zk, on_ext. destruct (m (dm_zk (svc_ext s))). by constructor. Qed.
Lemma quiet_on_world {A} (m : M W A) : quiet (on_world m).
Proof. intros s _. unfold on_world, on_ext. destruct (m (dm_world (svc_ext s))). by constructor. Qed.
Lemma quiet_release c : quiet (release c).
Proof. intros s _. by constructor. Qed.
Lemma quiet_request c : quiet (request_fetch c).
Proof. intros s _. by constructor. Qed.
Lemma quiet_take_lock c : quiet (take_lock c).
Proof. intros s _. by constructor. Qed.

Lemma quiet_read c : quiet (read_content c).
Proof.
  unfold read_content. apply quiet_bind; [apply quiet_gets|]. intros heap.
  destruct (heap !! c); [apply quiet_ret|apply quiet_raise].
Qed.

Lemma alter_none {A} (f : A -> A) c (l : list A) x : alter f c l !! x = None <-> l !! x = None.
Proof.
  destruct (decide (x = c)) as [->|Hne]; [|by rewrite list_lookup_alter_ne].
  rewrite list_lookup_alter_eq. by destruct (l !! c).
Qed.

Lemma quiet_update c f :
  (forall heap x, final_at heap x = true -> final_at (alter f c heap) x = true) -> quiet (update_content c f).
Proof. intros Hf s _. constructor; try done; cbn; intros x; [apply Hf|apply alter_none]. Qed.

Lemma quiet_update_result c r : fs_final (fr_status r) = true -> quiet (update_content c (fr_update r)).
Proof. intros Hr. apply quiet_update. intros heap x. by apply final_at_update. Qed.
Lemma quiet_update_keep c f : (forall d, dc_status (f d) = dc_status d) -> quiet (update_content c f).
Proof. intros Hf. apply quiet_update. intros heap x. by rewrite final_at_alter. Qed.

Lemma quiet_send_status st msg : quiet (send_status_now handled toml scripts datasets st msg).
Proof.
  intros s Hs. unfold send_status_now, bind, gets. unfold ks_send_status, on_bus. rewrite send_status_run.
  destruct (em_status_topic (svc_emitter s)) as [t|] eqn:E; cbn [str_truthy]; [|by constructor].
  destruct (String.eqb_spec t ""); cbn [negb]; [by constructor|]. rewrite send_event_run.
  constructor; try done. unfold forwards, sends, bus_after. cbn. rewrite map_app, List.filter_app. cbn.
  destruct (String.eqb_spec t producer_topic); [|by rewrite app_nil_r]. unfold apart in Hs. congruence.
Qed.
End Quiet.

Hint Resolve quiet_bind quiet_try quiet_ret quiet_raise quiet_gets quiet_lift quiet_on_zk quiet_on_world quiet_release
  quiet_request quiet_take_lock quiet_read quiet_update_keep quiet_send_status : fetch.

Lemma quiet_estimate c : quiet (estimate_size c).
Proof. unfold estimate_size. eauto 10 with fetch. Qed.
Lemma quiet_report c : quiet (report handled toml scripts datasets c).
Proof. unfold report. apply quiet_bind; [apply quiet_read|]. intros d. destruct (done_message d). apply quiet_send_status. Qed.
Hint Resolve quiet_estimate quiet_report : fetch.

(** What a point needs when it is reached. *)
Definition ready (s : St) (p : Point) : Prop :=
  match p with
  | PResult _ _ r => fs_final (fr_status r) = true
  | PDelete _ c | PReport c => done_at (heap_of s) c
  | PRemove c => final_at (heap_of s) c = true
  | _ => True
  end.

(** The points between the removal and the end of [on_all_done]; and those that
    a thread may have still to reach. *)
Definition closing (p : Point) : bool := match p with PTest | PAllDone | PForward => true | _ => false end.
Definition later (p : Point) : bool :=
  match p with
  | PResult _ _ _ | PDelete _ _ | PReport _ | PRemove _ | PTest | PAllDone | PForward => false
  | _ => true
  end.

Lemma ready_later s p : later p = true -> ready s p.
Proof. by destruct p. Qed.
Definition finals (s s' : St) : Prop :=
  forall c, (final_at (heap_of s) c = true -> final_at (heap_of s') c = true) /\ (done_at (heap_of s) c -> done_at (heap_of s') c).
Lemma keeps_finals s s' : keeps_tasks s s' -> finals s s'.
Proof. intros Hk c. split; [apply (keeps_final _ _ Hk)|by apply keeps_done]. Qed.
Lemma ready_keeps s s' p : finals s s' -> ready s p -> ready s' p.
Proof. intros Hd. destruct p; cbn; try done; apply Hd. Qed.

(** What is left after a point that is not about [pending]. *)
Definition quiet_next (s : St) (next : list Point) : Prop :=
  match next with [] => True | q :: rest => ready s q /\ closing q = false /\ Forall (fun p => later p = true) rest end.

Definition pending_point (p : Point) : bool := match p with PRemove _ => true | _ => closing p end.

(** [m] runs from the states where [P] holds, keeping what a quiet operation
    keeps, to points that a thread may stand at. *)
Definition leads (P : St -> Prop) (m : M St (list Point)) : Prop :=
  forall s, apart s -> P s -> keeps_tasks s (m s).2 /\ forall next s', m s = (Ok next, s') -> quiet_next s' next.

Lemma leads_bind_with {A} (P : St -> Prop) (Q : A -> St -> Prop) (m : M St A) k :
  quiet m -> (forall s a s', P s -> keeps_tasks s s' -> m s = (Ok a, s') -> Q a s') -> (forall a, leads (Q a) (k a)) -> leads P (bind m k).
Proof.
  intros Hm HQ Hk s Hs HP. unfold bind. specialize (Hm s Hs). specialize (HQ s). destruct (m s) as [[a|e] s1]; cbn [snd] in *; [|done].
  destruct (Hk a s1) as [H1' H2']; [unfold apart; by rewrite (keeps_topic _ _ Hm)|by apply HQ|].
  split; [by apply (keeps_trans _ s1)|done].
Qed.
Lemma leads_bind {A} P (m : M St A) k : quiet m -> (forall a, leads (fun _ => True) (k a)) -> leads P (bind m k).
Proof. intros Hm Hk. by apply (leads_bind_with P (fun _ _ => True)). Qed.
Lemma leads_ret (P : St -> Prop) next : (forall s, P s -> quiet_next s next) -> leads P (ret next).
Proof. intros Hn s _ HP. split; [apply keeps_refl|]. intros l s' [= <- <-]. by apply Hn. Qed.

Lemma leads_done {A} P (m : M St A) : quiet m -> leads P (m ;; ret []).
Proof. intros Hm. apply leads_bind; [done|]. intros a. by apply leads_ret. Qed.
Lemma leads_one {A} P (m : M St A) p : quiet m -> later p = true -> leads P (m ;; ret [p]).
Proof.
  intros Hm Hp. apply leads_bind; [done|]. intros a. apply leads_ret. intros s _. split_and!; [by apply ready_later|by destruct p|done].
Qed.

Lemma updated_done r c (s s' : St) :
  fs_final (fr_status r) = true -> update_content c (fr_update r) s = (Ok tt, s') -> done_at (heap_of s') c.
Proof.
  intros Hr [= <-]. unfold done_at. cbn. destruct (heap_of s !! c) as [d|] eqn:Hc.
  - right. by eapply final_at_updated.
  - left. by rewrite list_lookup_alter_eq, Hc.
Qed.

Lemma run_quiet p : pending_point p = false -> leads (fun s => ready s p) (Run p).
Proof.
  intros Hp. destruct p; try done; cbn [run_point ready].
  - apply leads_one; [|done]. unfold assign_dst. eauto 10 with fetch.
  - apply leads_one; [|done]. unfold announce. eauto 10 with fetch.
  - apply leads_one; [apply quiet_request|done].
  - by apply leads_ret.
  - apply leads_one; [apply quiet_take_lock|done].
  - apply leads_bind; [eauto 10 with fetch|]. intros [e|]; apply leads_ret; by repeat split.
  - apply leads_bind; [apply quiet_read|]. intros d. cbv zeta.
    apply (leads_bind_with _ (fun _ s => done_at (heap_of s) c)); [by apply quiet_update_result| |].
    + intros s [] s' _ _ Hu. by eapply updated_done; [|exact Hu].
    + intros _. apply leads_ret. intros s Hd. split_and!; [done|done|by repeat constructor].
  - apply leads_bind; [apply quiet_read|]. intros d. apply leads_bind; [apply quiet_gets|]. intros ev.
    apply leads_bind; [apply quiet_on_zk|]. intros _. apply leads_ret. intros s _. split_and!; [done|done|by repeat constructor].
  - apply leads_done, quiet_estimate.
  - apply leads_done. unfold dispatch. eauto 10 with fetch.
  - apply leads_bind; [apply quiet_on_zk|]. intros [ev|]; apply leads_ret; intros s _; [|done]. by case_bool_decide.
  - apply leads_bind; [apply quiet_on_zk|]. intros [data v]. apply leads_bind; [apply quiet_lift|]. intros r.
    apply leads_ret. intros s _. by destruct (fs_final (fr_status r)) eqn:E.
  - destruct (fs_final (fr_status result)) eqn:E; [|by intros s _ Hr].
    apply (leads_bind_with _ (fun _ s => done_at (heap_of s) c)); [by apply quiet_update_result| |].
    + intros s [] s' _ _ Hu. by eapply updated_done; [|exact Hu].
    + intros _. apply leads_ret. intros s Hd. by split_and!.
  - apply (leads_bind_with _ (fun _ s => done_at (heap_of s) c)); [apply quiet_on_zk| |].
    + intros s u s' Hd Hk _. by eapply keeps_done.
    + intros _. apply leads_ret. intros s Hd. split_and!; [done|done|by repeat constructor].
  - apply (leads_bind_with _ (fun _ s => final_at (heap_of s) c = true)); [apply quiet_report| |].
    + intros s u s' [Hn|Hd] Hk Hrun; [|by apply (keeps_final _ _ Hk)].
      unfold report, bind, read_content, bind, gets in Hrun. by rewrite Hn in Hrun.
    + intros _. apply leads_ret. intros s Hd. by split_and!.
  - apply leads_done, quiet_send_status.
  - apply leads_done. unfold clean_up. eauto 10 with fetch.
  - apply leads_done, quiet_release.
Qed.
(** The points about [pending], on every branch. *)
Lemma run_remove c s :
  match Run (PRemove c) s with
  | (Raise _, s') => s' = s
  | (Ok next, s') =>
      next = [PTest] /\ exists j rest, heap_of s !! j = heap_of s !! c /\ j ∈ pending_of s /\
        (forall x, x ∈ pending_of s -> x = j \/ x ∈ rest) /\
        pending_of s' = rest /\ heap_of s' = heap_of s /\ forwards s' = forwards s /\ svc_emitter s' = svc_emitter s
  end.
Proof.
  cbn [run_point]. unfold remove_pending, bind, gets, ret.
  destruct (remove_equal (heap_of s) c (pending_of s)) as [rest|] eqn:Er; [|done].
  destruct (remove_equal_in _ _ _ _ Er) as (j & Hj & Hrest & Hin). cbn. split; [done|]. by exists j, rest.
Qed.

Lemma run_all_done s :
  exists next, Run PAllDone s = (Ok next, s) /\
    (next = [PForward; PSay SUCCEEDED "All downloads processed"] /\ succeeded (heap_of s) = true \/
     (match next with [] => True | q :: rest => closing q = false /\ later q = true /\ rest = [] end) /\ succeeded (heap_of s) = false).
Proof.
  cbn [run_point]. unfold bind, gets, ret, succeeded. eexists. split; [reflexivity|].
  destruct (collect_status (take datasets (heap_of s))); [..|]; try (right; split; [done|by apply bool_decide_eq_false]).
  left. by rewrite bool_decide_true.
Qed.

Lemma run_forward s :
  exists s', Run PForward s = (Ok [], s') /\ forwards s' = (forwards s ++ [forwarded_event (heap_of s)])%list /\
    svc_emitter s' = svc_emitter s /\ svc_ext s' = svc_ext s.
Proof.
  cbn [run_point]. unfold send_event_now, bind, gets, ret.
  destruct (ks_send_event_view (event_now handled toml scripts datasets s) producer_topic s) as (b & -> & Hb).
  exists (set_bus b s). split; [done|]. split; [|done]. unfold forwards. cbn. rewrite Hb, List.filter_app. cbn.
  by rewrite String.eqb_refl.
Qed.

Section OneEvent.
(** The tasks of the event. *)
Context (todo0 : list nat) (races : bool).

Definition all_final (heap : list DownloadableContent) : Prop := forall c, c ∈ todo0 -> final_at heap c = true.

Definition testing (th : list Point) : nat := match th with PTest :: _ | PAllDone :: _ => 1 | _ => 0 end.
Definition deciding (th : list Point) : bool := match th with PAllDone :: _ => true | _ => false end.
Definition sending (th : list Point) : nat := match th with PForward :: _ => 1 | _ => 0 end.

Definition thread_ok (s : St) (th : list Point) : Prop :=
  match th with [] => True | p :: rest => ready s p /\ Forall (fun p => later p = true) rest end.

(** The invariant, for a thread [th] and the other one. *)
Record Inv (s : St) (th other : list Point) (verdicts forwarded : list (list DownloadableContent)) : Prop := {
  inv_apart : apart s;
  inv_tasks : forall c, c ∈ todo0 -> c ∈ pending_of s \/ final_at (heap_of s) c = true;
  inv_forwards : forwards s = map forwarded_event forwarded;
  inv_verdicts : Forall all_final verdicts;
  inv_forwarded : Forall all_final forwarded;
  inv_thread : thread_ok s th;
  inv_other : thread_ok s other;
  inv_sends : (length forwarded + sending th + sending other)%nat = length (List.filter succeeded verdicts);
  inv_count :
    match pending_of s with
    | [] => (1 <= length verdicts + testing th + testing other <= if races then 2 else 1)%nat
    | _ => verdicts = [] /\ deciding th = false /\ deciding other = false
    end
}.

Lemma Inv_swap s th other v f : Inv s th other v f -> Inv s other th v f.
Proof.
  intros []. constructor; try done; [lia|]. destruct (pending_of s); [lia|naive_solver].
Qed.

Lemma thread_ok_keeps s s' th :
  finals s s' -> thread_ok s th -> thread_ok s' th.
Proof. intros Hd. destruct th as [|p rest]; [done|]. intros [Hr Hl]. split; [by eapply ready_keeps|done]. Qed.

Definition calm (th : list Point) : Prop := match th with [] => True | p :: _ => closing p = false end.
Lemma calm_counts th : calm th -> testing th = 0%nat /\ deciding th = false /\ sending th = 0%nat.
Proof. destruct th as [|[]]; cbn; done. Qed.

Lemma later_calm th : Forall (fun p => later p = true) th -> calm th.
Proof. destruct 1 as [|[]]; done. Qed.
Lemma later_ok s th : Forall (fun p => later p = true) th -> thread_ok s th.
Proof. destruct 1 as [|p th Hp Hth]; [done|]. split; [by apply ready_later|done]. Qed.

Lemma quiet_next_ok s next rest :
  quiet_next s next -> Forall (fun p => later p = true) rest -> thread_ok s (next ++ rest) /\ calm (next ++ rest)%list.
Proof.
  destruct next as [|q next]; cbn [app].
  - intros _ Hr. split; [by apply later_ok|by apply later_calm].
  - intros (Hq & Hc & Hn) Hr. split; [|done]. split; [done|]. by apply Forall_app.
Qed.

Lemma Inv_quiet s s' th th' other v f :
  keeps_tasks s s' -> calm th -> calm th' -> thread_ok s' th' -> Inv s th other v f -> Inv s' th' other v f.
Proof.
  intros Hk Hc Hc' Hok []. destruct (calm_counts _ Hc) as (E1 & E2 & E3), (calm_counts _ Hc') as (E1' & E2' & E3').
  pose proof Hk as [Kt Kp Kf Kfin Knone]. constructor; try done.
  - unfold apart. by rewrite Kt.
  - intros c Hin. rewrite Kp. destruct (inv_tasks0 c Hin); [by left|right; by apply Kfin].
  - by rewrite Kf.
  - eapply thread_ok_keeps; [by apply keeps_finals|done].
  - lia.
  - rewrite Kp. destruct (pending_of s); [lia|naive_solver].
Qed.

Abbreviation head_step := (run_head handled toml scripts datasets producer_topic s3_download_bucket).

(** The invariant after one point of [th], for each point about [pending]. *)
Definition step_keeps (p : Point) : Prop :=
  forall s rest other v f th' s',
    at_test other && negb races = false -> head_step (p :: rest) s = (th', s') ->
    Inv s (p :: rest) other v f -> Inv s' th' other (note_verdict (p :: rest) s v) (note_forward (p :: rest) s f).

Lemma step_remove c : step_keeps (PRemove c).
Proof.
  intros s rest other v f th' s' Hmay Hrun Hi. cbn [run_head] in Hrun. pose proof (run_remove c s) as Hrm.
  destruct (Run (PRemove c) s) as [[next|e] s1].
  2:{ injection Hrun as <- <-. subst s1. by apply (Inv_quiet s s (PRemove c :: rest)). }
  destruct Hrm as (-> & j & l & Hj & Hin & Hl & Hp & Hh & Hf & He). injection Hrun as <- <-.
  destruct Hi as [Ia It If Iv Iw [Ir Il] Io Is Ic]. cbn [ready] in Ir.
  assert (Hpend : v = [] /\ deciding other = false) by (destruct (pending_of s); [set_solver|naive_solver]).
  destruct Hpend as [-> Hdec]. cbn [note_verdict note_forward app].
  assert (Hfin : forall x, x ∈ todo0 -> x ∈ l \/ final_at (heap_of s) x = true).
  { intros x Hx. destruct (It x Hx) as [Hx'|]; [|by right]. destruct (Hl x Hx') as [->|]; [|by left].
    right. unfold final_at in *. by rewrite Hj. }
  constructor; rewrite ?Hh, ?Hp, ?Hf; try done.
  - unfold apart. by rewrite He.
  - eapply thread_ok_keeps; [|exact Io]. intros x. by rewrite Hh.
  - destruct l as [|y l]; [|done]. destruct other as [|[] ?]; cbn [testing deciding length at_test] in *; try done; destruct races; cbn in *; try lia; done.
Qed.

Lemma pending_nil s th other v f :
  Inv s th other v f -> v <> [] \/ deciding th = true -> pending_of s = [] /\ all_final (heap_of s).
Proof.
  intros Hi Hv. assert (Hp : pending_of s = []).
  { destruct (pending_of s) eqn:E; [done|]. pose proof (inv_count _ _ _ _ _ Hi) as Hc. rewrite E in Hc.
    destruct Hc as (? & ? & ?), Hv; congruence. }
  split; [done|]. intros c Hc. destruct (inv_tasks _ _ _ _ _ Hi c Hc); [|done]. rewrite Hp in *. set_solver.
Qed.

Lemma step_test : step_keeps PTest.
Proof.
  intros s rest other v f th' s' _ [= <- <-] [Ia It If Iv Iw [Ir Il] Io Is Ic]. cbn [note_verdict note_forward].
  destruct (calm_counts _ (later_calm _ Il)) as (E1 & E2 & E3).
  destruct (pending_of s) eqn:Hp; constructor; rewrite ?Hp; cbn [app testing sending deciding] in *; try done.
  - by apply later_ok.
  - lia.
  - naive_solver.
Qed.

Lemma step_all_done : step_keeps PAllDone.
Proof.
  intros s rest other v f th' s' _ Hrun Hi. cbn [run_head] in Hrun.
  destruct (run_all_done s) as (next & E & Hnext). rewrite E in Hrun. injection Hrun as <- <-.
  destruct (pending_nil _ _ _ _ _ Hi) as [Hp Hall]; [by right|].
  destruct Hi as [Ia It If Iv Iw [Ir Il] Io Is Ic]. rewrite Hp in *.
  destruct (calm_counts _ (later_calm _ Il)) as (E1 & E2 & E3).
  assert (Hnew : thread_ok s (next ++ rest) /\ testing (next ++ rest) = 0%nat /\
    sending (next ++ rest) = length (List.filter succeeded [heap_of s])).
  { cbn [List.filter]. destruct Hnext as [[-> ->]|[Hn ->]].
    - split_and!; [|done..]. split; [done|]. by constructor.
    - destruct next as [|q [|? ?]]; [by split_and!; [apply later_ok|..]| |by destruct Hn as (_ & _ & ?)].
      destruct Hn as (Hq & Hlq & _). destruct (calm_counts (q :: rest) Hq) as (? & ? & ?).
      split_and!; [|done..]. split; [by apply ready_later|done]. }
  destruct Hnew as (Hok & Ht & Hs). constructor; rewrite ?Hp; cbn [note_verdict note_forward]; try done.
  - by apply Forall_app; split; [|constructor].
  - rewrite List.filter_app, length_app. cbn [sending] in Is. lia.
  - rewrite length_app. cbn [length testing] in *. lia.
Qed.

Lemma step_forward : step_keeps PForward.
Proof.
  intros s rest other v f th' s' _ Hrun Hi. cbn [run_head] in Hrun.
  destruct (run_forward s) as (s1 & E & Hf & He & Hx). rewrite E in Hrun. injection Hrun as <- <-.
  destruct (pending_nil _ _ _ _ _ Hi) as [Hp Hall].
  { left. intros ->. pose proof (inv_sends _ _ _ _ _ Hi) as Hs. cbn in Hs. lia. }
  destruct Hi as [Ia It If Iv Iw [Ir Il] Io Is Ic]. rewrite Hp in *.
  destruct (calm_counts _ (later_calm _ Il)) as (E1 & E2 & E3).
  constructor; rewrite ?Hx, ?Hp; cbn [note_verdict note_forward app]; try done.
  - unfold apart. by rewrite He.
  - by rewrite Hf, If, map_app.
  - by apply Forall_app; split; [|constructor].
  - by apply later_ok.
  - eapply thread_ok_keeps; [|exact Io]. intros x. by rewrite Hx.
  - rewrite length_app. cbn [length sending] in *. lia.
  - cbn [testing] in *. lia.
Qed.

Lemma run_head_Inv s th other v f th' s' :
  at_test other && negb races = false -> head_step th s = (th', s') ->
  Inv s th other v f -> Inv s' th' other (note_verdict th s v) (note_forward th s f).
Proof.
  intros Hmay Hrun Hi. destruct th as [|p rest]; [by injection Hrun as <- <-|].
  destruct (pending_point p) eqn:Hp.
  - destruct p; try done.
    + by apply (step_remove _ s rest).
    + by apply (step_test s rest).
    + by apply (step_all_done s rest).
    + by apply (step_forward s rest).
  - assert (note_verdict (p :: rest) s v = v) as -> by by destruct p.
    assert (note_forward (p :: rest) s f = f) as -> by by destruct p.
    assert (Hcalm : calm (p :: rest)) by by destruct p.
    pose proof (inv_thread _ _ _ _ _ Hi) as [Hr Hl]. cbn [run_head] in Hrun.
    destruct (run_quiet p Hp s (inv_apart _ _ _ _ _ Hi) Hr) as [Hk Hnext].
    destruct (Run p s) as [[next|e] s1]; injection Hrun as <- <-; [|by apply (Inv_quiet s s1 (p :: rest))].
    destruct (quiet_next_ok s1 next rest (Hnext _ _ eq_refl) Hl) as [Hok Hc]. by apply (Inv_quiet s s1 (p :: rest)).
Qed.

Definition CInv (cf : Config) : Prop :=
  Inv (cf_state cf) (cf_main cf) (cf_listener cf) (cf_verdicts cf) (cf_forwarded cf).

Lemma turn_CInv t cf cf' :
  turn handled toml scripts datasets producer_topic s3_download_bucket races t cf = Some cf' -> CInv cf -> CInv cf'.
Proof.
  unfold CInv. intros Ht Hi. destruct cf as [s main listener v f]. cbn [cf_state cf_main cf_listener cf_verdicts cf_forwarded] in *.
  destruct t as [| | | |c|z|w]; cbn in Ht.
  - destruct (at_test listener && negb races) eqn:Hm; [done|].
    destruct (head_step main s) as [main' s'] eqn:E. injection Ht as <-. cbn. by eapply run_head_Inv.
  - destruct main as [|[] rest]; try done. case_match; [|done]. injection Ht as <-. cbn.
    pose proof (inv_thread _ _ _ _ _ Hi) as [Hr Hl].
    by apply (Inv_quiet s s (PAcquire c :: rest)); [apply keeps_refl|..].
  - destruct (at_test main && negb races) eqn:Hm; [done|].
    destruct (head_step listener s) as [listener' s'] eqn:E. injection Ht as <-. cbn.
    apply Inv_swap. apply Inv_swap in Hi. by eapply run_head_Inv.
  - destruct listener; [|done]. injection Ht as <-. cbn. apply Inv_swap. apply Inv_swap in Hi.
    by apply (Inv_quiet s s []); [apply keeps_refl|..].
  - destruct listener; [|done]. case_match; [|done]. injection Ht as <-. cbn. apply Inv_swap. apply Inv_swap in Hi.
    by apply (Inv_quiet s s []); [apply keeps_refl|..].
  - injection Ht as <-. by destruct Hi.
  - injection Ht as <-. by destruct Hi.
Qed.
End OneEvent.

Abbreviation Reachable := (reachable handled toml scripts datasets producer_topic s3_download_bucket).
Abbreviation Started := (event_started handled toml scripts datasets producer_topic).

Lemma started_CInv races s0 :
  apart s0 -> forwards s0 = [] -> tasks (heap_of s0) <> [] ->
  CInv (tasks (heap_of s0)) races (Started s0).
Proof.
  intros Ha Hf Hne. unfold event_started, start_handling, bind at 1, gets.
  destruct (tasks (heap_of s0)) as [|c rest] eqn:E; [done|].
  pose proof (quiet_send_status PENDING "Initiating downloads..." s0 Ha) as [Kt Kp Kf Kfin Knone].
  unfold bind. assert (Hrun : exists s1, send_status_now handled toml scripts datasets PENDING "Initiating downloads..." s0 = (Ok tt, s1)).
  { unfold send_status_now, bind, gets.
    destruct (ks_send_status_run (event_now handled toml scripts datasets s0) PENDING "Initiating downloads..." None s0) as [b Hb]. by exists (set_bus b s0). }
  destruct Hrun as [s1 Hrun]. rewrite Hrun in *. cbn [snd] in *.
  constructor; cbn [cf_state cf_main cf_listener cf_verdicts cf_forwarded modify_session on_ext modify]; try done.
  - unfold apart in *. cbn. congruence.
  - by left.
  - unfold forwards in *. cbn. congruence.
  - split; [done|]. apply Forall_map. by apply Forall_true.
Qed.

Lemma nothing_to_fetch s0 : apart s0 -> tasks (heap_of s0) = [] ->
  exists s, Started s0 = mkConfig s [] [] [] [] /\ forwards s = (forwards s0 ++ [forwarded_event (heap_of s0)])%list.
Proof.
  intros Ha Hno. unfold event_started, start_handling, bind at 1, gets. rewrite Hno.
  pose proof (quiet_send_status SUCCEEDED "Nothing to fetch" s0 Ha) as [_ _ Kf _ _].
  unfold send_status_now, send_event_now, bind, gets, ret in *.
  destruct (ks_send_status_run (event_now handled toml scripts datasets s0) SUCCEEDED "Nothing to fetch" None s0) as [b Hb].
  rewrite Hb in *. cbn [snd] in Kf.
  destruct (ks_send_event_view (event_now handled toml scripts datasets (set_bus b s0)) producer_topic (set_bus b s0)) as (b' & -> & Hb').
  eexists. split; [reflexivity|]. unfold forwards in *. cbn in *. rewrite Hb', List.filter_app, Kf. cbn. by rewrite String.eqb_refl.
Qed.

(** C1: when an event goes on to the executors.  The two threads of the service
    may be switched at any point, the locks may be granted and the
    notifications delivered in any order, and others may do anything to the
    nodes; in every configuration that an event with something to fetch can
    reach: each task is still pending or has a final status; what went on is
    the event with its contents as they were at these moments, when all the
    tasks were final; as long as something is pending, [on_all_done] did not run
    and nothing went on; it runs at most twice, and at most once if no thread
    runs while the other one stands between [pending.remove] and the test of
    [pending]; and once nothing is pending and both threads are done with the
    event, it did run, and the event went on once for each of its runs that
    found that the data sets had succeeded, and for no other. *)
Theorem fetch_forwarded_once races s0 cf
    (Htopic : em_status_topic (svc_emitter s0) <> Some producer_topic)
    (Hnew : forwards s0 = []) (Htasks : tasks (heap_of s0) <> [])
    (Hreach : Reachable races s0 cf) :
  (forall c, c ∈ tasks (heap_of s0) -> c ∈ pending_of (cf_state cf) \/ final_at (heap_of (cf_state cf)) c = true) /\
  forwards (cf_state cf) =
    map (fun heap => (producer_topic, action_id handled, PFetcher (payload_of toml scripts datasets heap))) (cf_forwarded cf) /\
  (forall heap c, heap ∈ cf_verdicts cf \/ heap ∈ cf_forwarded cf -> c ∈ tasks (heap_of s0) -> final_at heap c = true) /\
  (pending_of (cf_state cf) <> [] -> cf_verdicts cf = [] /\ cf_forwarded cf = []) /\
  (length (cf_verdicts cf) <= if races then 2 else 1)%nat /\
  (pending_of (cf_state cf) = [] -> cf_main cf = [] -> cf_listener cf = [] ->
   cf_verdicts cf <> [] /\
   length (cf_forwarded cf) =
     length (List.filter (fun heap => bool_decide (collect_status (take datasets heap) = SUCCEEDED)) (cf_verdicts cf))).
Proof.
  assert (Hi : CInv (tasks (heap_of s0)) races cf).
  { induction Hreach as [|cf t cf' _ IH Ht]; [by apply started_CInv|]. by eapply turn_CInv. }
  destruct Hi as [Ia It If Iv Iw _ _ Is Ic]. split_and!; try done.
  - intros heap c Hin Hc. rewrite Forall_forall in Iv, Iw. destruct Hin as [Hin|Hin]; [by apply Iv|by apply Iw].
  - intros Hp. destruct (pending_of (cf_state cf)); [done|]. destruct Ic as (Hv & _). rewrite Hv in *. split; [done|].
    cbn in Is. destruct (cf_forwarded cf); [done|cbn in Is; lia].
  - destruct (pending_of (cf_state cf)); [lia|]. destruct Ic as (-> & _). cbn. destruct races; lia.
  - intros Hp Hm Hl. rewrite Hp, Hm, Hl in *. cbn in Is, Ic. split; [|change (length (cf_forwarded cf) = length (List.filter succeeded (cf_verdicts cf))); lia].
    intros E. rewrite E in Ic. cbn in Ic. lia.
Qed.

(** ** A result reaches its task *)

(** What sending leaves alone. *)
Definition rest_of (s : St) := svc_ext s.

Lemma status_rest st msg s :
  exists s', send_status_now handled toml scripts datasets st msg s = (Ok tt, s') /\ rest_of s' = rest_of s.
Proof.
  unfold send_status_now, bind, gets.
  destruct (ks_send_status_run (event_now handled toml scripts datasets s) st msg None s) as [b ->].
  by eexists.
Qed.

Lemma all_done_rest s :
  exists s', on_all_done handled toml scripts datasets producer_topic s = (Ok tt, s') /\ rest_of s' = rest_of s.
Proof.
  unfold on_all_done, bind at 1, gets.
  destruct (collect_status _); try (by exists s); try apply status_rest.
  unfold bind, send_event_now, bind, gets.
  destruct (ks_send_event_view (event_now handled toml scripts datasets s) producer_topic s) as (b & -> & _).
  destruct (status_rest SUCCEEDED "All downloads processed" (set_bus b s)) as (s' & -> & Hr). by exists s'.
Qed.

Lemma on_done_run c d s rest :
  heap_of s !! c = Some d -> remove_equal (heap_of s) c (pending_of s) = Some rest ->
  exists s', on_done handled toml scripts datasets producer_topic c s = (Ok tt, s') /\
    rest_of s' = mkDM (heap_of s) (dm_zk (svc_ext s)) (dm_world (svc_ext s)) (dm_waiting (svc_ext s))
                   (dm_locked (svc_ext s)) (mkSession rest).
Proof.
  intros Hc Hr. unfold on_done, bind at 1, report, bind at 1, read_content, bind at 1, gets. rewrite Hc. unfold ret at 1.
  destruct (done_message d) as [st msg].
  destruct (status_rest st msg s) as (s1 & -> & Hs1). unfold bind at 1, remove_pending, bind, gets.
  unfold rest_of in Hs1. rewrite Hs1, Hr. unfold modify_session, on_ext, modify.
  set (s2 := set_ext _ s1).
  assert (Hs2 : rest_of s2 = mkDM (heap_of s) (dm_zk (svc_ext s)) (dm_world (svc_ext s)) (dm_waiting (svc_ext s))
                 (dm_locked (svc_ext s)) (mkSession rest)).
  { unfold rest_of, s2. cbn. by rewrite Hs1. }
  unfold test_pending, bind, gets. unfold rest_of in Hs2. rewrite Hs2. cbn [dm_client fs_pending].
  destruct rest as [|x rest]; [|by exists s2].
  destruct (all_done_rest s2) as (s3 & -> & Hs3). exists s3. split; [done|]. unfold rest_of in *. congruence.
Qed.

(** When the node of a download holds a final result and the notification
    of the change is delivered, the result reaches the content (a failed or
    canceled one loses its destination), the node is deleted, the content is no
    longer pending, and the lock of its source is released. *)
Theorem final_result_delivered `{!ZooKeeperLaws T} s queue p n v c r d
    (Hqueue : zk_events (dm_zk (svc_ext s)) = mkWatched CHANGED p c :: queue)
    (Hquiet : zk_moves (dm_zk (svc_ext s)) = 0%nat)
    (Hnode : zk_node (dm_zk (svc_ext s)) p = Some (n, v)) (Hres : from_binary n = Ok r)
    (Hfinal : fs_final (fr_status r) = true)
    (Hc : heap_of s !! c = Some d) (Hpend : c ∈ pending_of s)
    (Hclean : forall d ev, exists w', dispatcher_cleanup d ev (dm_world (svc_ext s)) = (Ok tt, w')) :
  exists s', fetch_notify handled toml scripts datasets producer_topic s = (Ok tt, s') /\
    heap_of s' !! c = Some (fr_update r d) /\
    (forall c', c' <> c -> heap_of s' !! c' = heap_of s !! c') /\
    zk_node (dm_zk (svc_ext s')) p = None /\
    remove_equal (heap_of s') c (pending_of s) = Some (pending_of s') /\
    c ∉ dm_locked (svc_ext s').
Proof.
  set (heap := alter (fr_update r) c (heap_of s)).
  destruct (remove_equal_Some heap c (pending_of s) Hpend) as [rest Hrest].
  assert (Hheap : heap !! c = Some (fr_update r d)) by (unfold heap; by rewrite list_lookup_alter_eq, Hc).
  destruct (next_event_law _ _ _ Hqueue) as (z1 & Hz1 & _ & Hn1 & Hm1).
  destruct (watch_law p c z1) as (z2 & Hz2 & Hn2 & Hm2).
  rewrite others_quiet, Hn1, Hnode in Hz2 by congruence. rewrite others_quiet in Hn2, Hm2 by congruence.
  destruct (delete_law p z2) as (z3 & Hz3 & Hgone & _ & _).
  { rewrite others_quiet, Hn2, Hn1, Hnode by congruence. eauto. }
  set (s1 := set_ext (mkDM heap z3 (dm_world (svc_ext s)) (dm_waiting (svc_ext s)) (dm_locked (svc_ext s))
                        (dm_client (svc_ext s))) s).
  assert (Hstart : fetch_notify handled toml scripts datasets producer_topic s =
    on_done_and_unlock (event_now handled toml scripts datasets)
      (on_done handled toml scripts datasets producer_topic) c s1).
  { unfold fetch_notify, notify, bind at 1, on_zk at 1, on_ext at 1. rewrite Hz1. cbv beta iota zeta.
    unfold on_zk_changed. cbn [we_type we_path we_content]. rewrite bool_decide_eq_false_2 by done.
    unfold handle_node_state, bind at 1, on_zk at 1, on_ext at 1. cbn [svc_ext set_ext dm_zk].
    rewrite Hz2. cbv beta iota zeta.
    unfold lift, bind at 1. rewrite Hres. cbv beta iota. rewrite Hfinal.
    unfold bind at 1, update_content, on_ext at 1, modify. cbn [svc_ext set_ext dm_zk].
    unfold bind at 1, on_zk at 1, on_ext at 1. cbn [svc_ext set_ext dm_zk].
    rewrite Hz3. done. }
  rewrite Hstart. unfold on_done_and_unlock, bind at 1.
  destruct (on_done_run c (fr_update r d) s1 rest) as (s2 & -> & Hs2); [done..|].
  unfold rest_of in Hs2. unfold read_content, bind, gets. rewrite Hs2. cbn [svc_ext s1 set_ext dm_heap]. rewrite Hheap.
  unfold ret, on_world, on_ext. rewrite Hs2. cbn [svc_ext s1 set_ext dm_world].
  match goal with |- context [dispatcher_cleanup ?d' ?ev _] => destruct (Hclean d' ev) as [w' ->] end.
  eexists. split; [done|]. cbn. split; [done|].
  split; [intros c' Hne; unfold heap; by rewrite list_lookup_alter_ne|].
  split; [done|]. split; [done|].
  rewrite elem_of_list_filter_b. rewrite Nat.eqb_refl. by intros [_ ?].
Qed.
End Invariants.

(** ** DownloadCmdObject *)

Section Command.
Context `{Env} `{ResultCodec} {T W : Type} `{ZooKeeper T} `{DownloadDispatcher W} (fuel : nat).
Abbreviation St := (Svc (DM T W Session)).

(** [DownloadCmdObject.cancel]. *)
Definition download_cancel (event : Event) (client_id target_action_id : string) : M St pyval :=
  ks_send_status event PENDING "Canceling downloads..." (Some target_action_id) ;;
  ' (k8s_delete_results, num_zk_nodes_updated) <- try_except (dm_cancel fuel client_id target_action_id)
    (fun err =>
       ks_send_status event FAILED
         ("An error occurred when attempting to delete resources related to " +:+ target_action_id
            +:+ ". Please check the status of the deletion command (" +:+ action_id event
            +:+ " for additional information.") (Some target_action_id) ;;
       raise err) ;;
  (if num_zk_nodes_updated =? 0
   then ks_send_status event SUCCEEDED "No downloads to cancel..." (Some target_action_id) else ret tt) ;;
  ret (VDict [("k8s_deletion_results", VList (map VStr k8s_delete_results));
              ("num_zookeeper_nodes_updated", VInt num_zk_nodes_updated)]).

Definition download_cancel_body (bound : dict string Arg) : M St pyval :=
  match dict_get bound "event", dict_get bound "client_id", dict_get bound "target_action_id" with
  | Some (AEvent event), Some (AVal client_id), Some (AVal target) =>
      download_cancel event (str_of_pyval client_id) (str_of_pyval target)
  | _, _, _ => raise (TypeError "")
  end.

Definition download_cmd_object : dict string (Attr (DM T W Session)) :=
  [("download_mgr", Uncallable VNone);
   ("cancel", Callable (mkMethod
      [mkParam "kafka_service" false; mkParam "event" false; mkParam "client_id" false;
       mkParam "target_action_id" false; mkParam "cascade" true] download_cancel_body))].
End Command.

(** ** Witnesses *)

Module Witness.
Import ZooKeeper.Model.
#[local] Existing Instance env0.
#[local] Existing Instance FetcherJob.Witness.codec.

#[local] Instance dispatcher : DownloadDispatcher unit := {|
  dispatch_fetch _ _ _ := ret tt;
  cancel_all _ _ := ret ["deleted"];
  dispatcher_cleanup _ _ := ret tt
|}.
(** The size of one source cannot be found out. *)
#[local] Instance estimator : ContentSizeEstimator unit := {|
  size_estimator src := if String.eqb src "http://host/bad" then raise (ValueError "404") else ret (mkSize 10 1 10)
|}.

Abbreviation St := (Svc (DM Zk unit Session)).

Definition content_of (src : string) : DownloadableContent := mkContent src "/data" None None None None None None None.
Definition handled0 : Event := event0 (PAny VNone).

Definition svc_of (heap : list DownloadableContent) : St :=
  mkSvc (mkBus [] 0 0) (mkEmitter "fetcher" "1" "pod" (Some "STATUS")) "fetcher" "pod" [] true
    (mkDM heap (mkZk [] [] []) tt [] [] (mkSession [])).

Abbreviation start := (event_started handled0 (doc0 []) [] 1 "OUT").
Abbreviation run := (run_turns handled0 (doc0 []) [] 1 "OUT" "bucket").
Abbreviation Reach := (reachable handled0 (doc0 []) [] 1 "OUT" "bucket").

(** The job of the first content ends. *)
Definition node_path (cf : Config (T := Zk) (W := unit)) : string :=
  default "" (head (rev (dict_keys (zk_nodes (dm_zk (svc_ext (cf_state cf))))))).
Definition job_done (cf : Config (T := Zk) (W := unit)) : Turn (T := Zk) (W := unit) :=
  TZk (act (dm_zk (svc_ext (cf_state cf))) (ActSet (node_path cf) (to_binary (mkResult FS_DONE (Some FT_FILE) None)))).

(** The main thread starts the download of the first content; the thread of
    kazoo is told of its end, up to the test of [pending]. *)
Definition begin_download : list (Turn (T := Zk) (W := unit)) := [TMain; TMain; TMain; TMainLocked] ++ repeat TMain 6.
Definition hear_end : list (Turn (T := Zk) (W := unit)) := TNotify :: repeat TListener 6.

Definition s0 : St := svc_of [content_of "http://host/a"].
Definition dispatched : Config := default (start s0) (run false begin_download (start s0)).
Definition finished : Config :=
  default (start s0) (run false (job_done dispatched :: hear_end ++ repeat TListener 6)%list dispatched).

Lemma fetch_forwarded_once_witness :
  fs_pending (dm_client (svc_ext (cf_state finished))) = [] /\ length (forwards "OUT" (cf_state finished)) = 1%nat /\
  length (cf_verdicts finished) = 1%nat.
Proof.
  assert (Hreach : Reach false s0 finished).
  { apply (run_turns_reachable _ _ _ _ _ _ _ _ (job_done dispatched :: hear_end ++ repeat TListener 6)%list dispatched).
    - apply (run_turns_reachable _ _ _ _ _ _ _ _ begin_download (start s0)); [constructor|].
      vm_compute. reflexivity.
    - vm_compute. reflexivity. }
  destruct (fetch_forwarded_once handled0 (doc0 []) [] 1 "OUT" "bucket" false s0 finished) as (_ & Hf & _ & _ & Hv & Hend).
  - vm_compute. discriminate.
  - reflexivity.
  - vm_compute. discriminate.
  - exact Hreach.
  - assert (Hp : fs_pending (dm_client (svc_ext (cf_state finished))) = []) by (vm_compute; reflexivity).
    split; [exact Hp|]. rewrite Hf, length_map.
    destruct Hend as [Hne Hlen]; [exact Hp|vm_compute; reflexivity..|]. rewrite Hlen. split; [vm_compute; reflexivity|].
    destruct (cf_verdicts finished) as [|x [|y l]]; [contradiction|reflexivity|]. cbn in Hv. lia.
Defined.

(** With a switch between the removal and the test, both threads find nothing
    pending: the download of the data set ends on the thread of kazoo while the
    size of the model cannot be found out on the main one, and the event goes on
    twice. *)
Definition s2 : St := svc_of [content_of "http://host/a"; content_of "http://host/bad"].
Definition dispatched2 : Config := default (start s2) (run true begin_download (start s2)).
Definition fail_second : list (Turn (T := Zk) (W := unit)) := [TMain; TMain; TMain; TMainLocked] ++ repeat TMain 5.
Definition twice : Config :=
  default (start s2) (run true (fail_second ++ job_done dispatched2 :: hear_end ++ repeat TListener 3 ++ repeat TMain 3)%list dispatched2).

Theorem fetch_forwarded_twice : Reach true s2 twice /\ length (forwards "OUT" (cf_state twice)) = 2%nat.
Proof.
  split; [|vm_compute; reflexivity].
  apply (run_turns_reachable _ _ _ _ _ _ _ _
    (fail_second ++ job_done dispatched2 :: hear_end ++ repeat TListener 3 ++ repeat TMain 3)%list dispatched2).
  - apply (run_turns_reachable _ _ _ _ _ _ _ _ begin_download (start s2)); [constructor|]. vm_compute. reflexivity.
  - vm_compute. reflexivity.
Qed.
End Witness.
