(* ===== verification/FetcherDispatcher.v ===== *)
(** * The Kubernetes dispatcher of the fetcher (fetcher_dispatcher/kubernetes_dispatcher.py)

    [KubernetesDispatcher] implements the dispatcher interface of
    DownloadManager.v: it builds the job, and a volume claim for a big source,
    and deletes them by label.  The sizes go through binary64 arithmetic, which
    is modelled on integers. *)

From S2P Require Import Prelude PyStr Binary64 Events ServiceLabels DownloadManager.

#[local] Arguments String.append !_ _ /.

(** ** Volume sizes *)

(** The literals 1.2 and 0.1, as multiples of 2^-52 and of 2^-55. *)
Definition FLOAT_1_2 : Z := 5404319552844595.
Definition FLOAT_0_1 : Z := 3602879701896397.

Definition BYTES_IN_MB : Z := 1024 * 1024.
Definition VOLUME_SIZE_ALIGN : Z := 4.

(** [_align]. *)
Definition align_to (n align : Z) : Z :=
  let r := n mod align in
  if r =? 0 then n else n + (align - r).

(** [ceil(n / BYTES_IN_MB)]: the quotient of two integers is rounded once. *)
Definition size_in_mb (n : Z) : Z := ceil_scaled 20 (round_float n).

Definition get_volume_size (size_info : ContentSizeInfo) : Z :=
  let total_mb := size_in_mb (total_size size_info) in
  let max_mb := size_in_mb (max_size size_info) in
  let required_mb :=
    ceil_scaled 55 (Z.max (8 * round_float (max_mb * FLOAT_1_2)) (round_float (total_mb * FLOAT_0_1))) in
  align_to required_mb VOLUME_SIZE_ALIGN.

(** ** The objects of a job *)

Record FetcherVolumeConfig := mkVolumeConfig { fv_min_size : Z; fv_storage_class : option string }.

Record FetcherJobSettings := mkJobSettings {
  fjs_image : string;
  fjs_namespace : string;
  fjs_pull_policy : option string;
  fjs_restart_policy : option string;
  fjs_ttl : option Z;
  fjs_node_selector : dict string string;
  fjs_volume : FetcherVolumeConfig
}.

Record V1ObjectMeta := mkMeta {
  meta_namespace : option string;
  meta_name : option string;
  meta_labels : dict string string;
  meta_annotations : dict string string
}.

(** A volume is backed by a claim or empty. *)
Inductive VolumeSource : Type := ClaimSource (claim_name : string) | EmptyDir.
Record V1Volume := mkVolume { vol_name : string; vol_source : VolumeSource }.

Record V1Container := mkContainer {
  ct_name : string;
  ct_image : string;
  ct_args : list (option string);
  ct_env : list (string * string);
  ct_pull_policy : option string;
  ct_volume_mounts : list (string * string)
}.

Record V1PodSpec := mkPodSpec {
  pod_containers : list V1Container;
  pod_volumes : list V1Volume;
  pod_restart_policy : option string;
  pod_node_selector : dict string string
}.

Record V1Job := mkV1Job {
  job_metadata : V1ObjectMeta;
  job_ttl : option Z;
  job_pod_metadata : V1ObjectMeta;
  job_pod_spec : V1PodSpec
}.

Record V1PersistentVolumeClaim := mkClaim {
  pvc_metadata : V1ObjectMeta;
  pvc_access_modes : list string;
  pvc_storage_class_name : option string;
  pvc_storage : string
}.

(** The calls of the kubernetes package, and the random names. *)
Class KubernetesApi (W : Type) : Type := {
  create_claim : string -> V1PersistentVolumeClaim -> M W unit;
  create_job : string -> V1Job -> M W unit;
  delete_jobs : string -> string -> M W string;
  delete_pods : string -> string -> M W string;
  delete_claims : string -> string -> M W string;
  id_generator : M W string
}.

Definition DATA_SET_HASH_LABEL : string := "data-set-md5".
Definition TMP_MOUNT_PATH : string := "/var/tmp/".
Definition TMP_VOLUME : string := "tmp-volume".

Section Dispatcher.
Context `{Env} {W : Type} `{KubernetesApi W}.
Context (service_name zk_ensemble : string) (fetcher_job : FetcherJobSettings).

Definition fetcher_labels (task : DownloadableContent) (event : Event) : dict string string :=
  dict_set (get_labels service_name (client_id event) (action_id event)) DATA_SET_HASH_LABEL (md5sum (dc_src task)).

Definition fetcher_label_selector (client : string) (action : option string) (data_set : option DownloadableContent) : string :=
  let selector := get_label_selector service_name client action in
  match data_set with
  | Some d => if str_truthy action then selector +:+ "," +:+ DATA_SET_HASH_LABEL +:+ "=" +:+ md5sum (dc_src d) else selector
  | None => selector
  end.

Definition get_job_name : M W string := r <- id_generator ;; ret ("fetcher-" +:+ r).
Definition get_volume_name : M W string := r <- id_generator ;; ret ("fetcher-pv-" +:+ r).

Definition get_args (task : DownloadableContent) (zk_node_path : string) : list (option string) :=
  [Some "--src"; Some (dc_src task); Some "--dst"; dc_dst task; Some "--zk-node-path"; Some zk_node_path;
   Some "--md5"; dc_md5 task].

Definition get_env : list (string * string) :=
  [("ZOOKEEPER_ENSEMBLE_HOSTS", zk_ensemble); ("TMP_DIR", TMP_MOUNT_PATH)].

Definition get_fetcher_container (task : DownloadableContent) (zk_node_path : string) : V1Container :=
  mkContainer "fetcher" (fjs_image fetcher_job) (get_args task zk_node_path) get_env (fjs_pull_policy fetcher_job)
    [(TMP_VOLUME, TMP_MOUNT_PATH)].

Definition get_fetcher_volume (volume_claim_name : option string) : V1Volume :=
  mkVolume TMP_VOLUME
    (if str_truthy volume_claim_name then ClaimSource (default "" volume_claim_name) else EmptyDir).

Definition get_fetcher_pod_spec (task : DownloadableContent) (zk_node_path : string) (volume_claim_name : option string) : V1PodSpec :=
  mkPodSpec [get_fetcher_container task zk_node_path] [get_fetcher_volume volume_claim_name]
    (fjs_restart_policy fetcher_job) (fjs_node_selector fetcher_job).

Definition get_fetcher_pod_annotations : dict string string := [("iam.amazonaws.com/role", "fetcher")].

Definition get_fetcher_job (task : DownloadableContent) (event : Event) (zk_node_path : string)
    (volume_claim_name : option string) : M W V1Job :=
  name <- get_job_name ;;
  ret (mkV1Job
    (mkMeta (Some (fjs_namespace fetcher_job)) (Some name) (fetcher_labels task event) [])
    (fjs_ttl fetcher_job)
    (mkMeta None None (fetcher_labels task event) get_fetcher_pod_annotations)
    (get_fetcher_pod_spec task zk_node_path volume_claim_name)).

Definition make_claim (task : DownloadableContent) (event : Event) (volume_size : Z) (name : string) : V1PersistentVolumeClaim :=
  mkClaim (mkMeta (Some (fjs_namespace fetcher_job)) (Some name) (fetcher_labels task event) [])
    ["ReadWriteOnce"] (fv_storage_class (fjs_volume fetcher_job)) (pretty volume_size +:+ "M").

(** [dispatch_fetch]; its handler only logs. *)
Definition k8s_dispatch_fetch (task : DownloadableContent) (event : Event) (zk_node_path : string) : M W unit :=
  match dc_size_info task with
  | None => raise (ValueError "Missing size_info data")
  | Some size_info =>
      let volume_size := get_volume_size size_info in
      volume_claim <-
        (if fv_min_size (fjs_volume fetcher_job) <=? volume_size then
           name <- get_volume_name ;;
           create_claim (fjs_namespace fetcher_job) (make_claim task event volume_size name) ;;
           ret (Some name)
         else ret None) ;;
      job <- get_fetcher_job task event zk_node_path volume_claim ;;
      create_job (fjs_namespace fetcher_job) job
  end.

Definition delete_by_selector (selector : string) : M W (list string) :=
  jobs_response <- delete_jobs (fjs_namespace fetcher_job) selector ;;
  pods_response <- delete_pods (fjs_namespace fetcher_job) selector ;;
  volumes_response <- delete_claims (fjs_namespace fetcher_job) selector ;;
  ret [jobs_response; pods_response; volumes_response].

Definition k8s_cancel_all (client : string) (action : option string) : M W (list string) :=
  delete_by_selector (fetcher_label_selector client action None).

Definition k8s_cleanup (task : DownloadableContent) (event : Event) : M W unit :=
  _ <- delete_by_selector (fetcher_label_selector (client_id event) (Some (action_id event)) (Some task)) ;;
  ret tt.

Definition kubernetes_dispatcher : DownloadDispatcher W := {|
  dispatch_fetch := k8s_dispatch_fetch;
  cancel_all := k8s_cancel_all;
  dispatcher_cleanup := k8s_cleanup
|}.
End Dispatcher.

(** ** Lemmas on rounding *)

Lemma size_in_mb_spec n : 0 <= n < 2 ^ 53 -> size_in_mb n = ceil_div n BYTES_IN_MB.
Proof.
  intros Hn. unfold size_in_mb. rewrite round_float_nonneg by lia. unfold round53.
  destruct (Z.ltb_spec n (2 ^ 53)); [|lia]. apply ceil_scaled_spec; [lia|].
  pose proof (ceil_div_spec n BYTES_IN_MB ltac:(unfold BYTES_IN_MB; lia)) as Hc.
  change (2 ^ 20) with BYTES_IN_MB. lia.
Qed.

(** The two products, at the scale 2^-55, lie between their exact ceilings. *)
Lemma float_product_1_2 m :
  0 <= m < 2 ^ 40 ->
  (ceil_div (6 * m) 5 - 1) * 2 ^ 55 < 8 * round_float (m * FLOAT_1_2) <= ceil_div (6 * m) 5 * 2 ^ 55.
Proof.
  intros Hm. rewrite round_float_nonneg by (unfold FLOAT_1_2; lia).
  pose proof (ceil_div_spec (6 * m) 5 ltac:(lia)) as Hc. set (c := ceil_div (6 * m) 5) in *.
  assert (Hn : 5 * (m * FLOAT_1_2) = 6 * m * 2 ^ 52 - m) by (unfold FLOAT_1_2; lia).
  set (n := m * FLOAT_1_2) in *. assert (Hn0 : 0 <= n) by (unfold n, FLOAT_1_2; lia). clearbody n.
  pose proof (round53_lower n Hn0) as Hlow.
  pose proof (round53_upper n 52 c 0) as Hup.
  change (2 ^ 55) with (8 * 2 ^ 52). change (2 ^ (52 + 53)) with (2 ^ 52 * 2 ^ 53) in Hup.
  change (2 ^ 52) with 4503599627370496 in *. change (2 ^ 53) with 9007199254740992 in *.
  change (2 ^ 40) with 1099511627776 in *. lia.
Qed.

Lemma float_product_0_1 t :
  0 <= t < 2 ^ 40 ->
  (ceil_div t 10 - 1) * 2 ^ 55 < round_float (t * FLOAT_0_1) <= ceil_div t 10 * 2 ^ 55.
Proof.
  intros Ht. rewrite round_float_nonneg by (unfold FLOAT_0_1; lia).
  pose proof (ceil_div_spec t 10 ltac:(lia)) as Hc. set (c := ceil_div t 10) in *.
  assert (Hn : 10 * (t * FLOAT_0_1) = t * 2 ^ 55 + 2 * t) by (unfold FLOAT_0_1; lia).
  set (n := t * FLOAT_0_1) in *. assert (Hn0 : 0 <= n) by (unfold n, FLOAT_0_1; lia). clearbody n.
  pose proof (round53_lower n Hn0) as Hlow.
  assert (Hup : round53 n <= c * 2 ^ 55).
  { destruct (Z.eq_dec t (10 * c)) as [Heq|Hne].
    - apply (round53_upper n 55 c (2 * c)); change (2 ^ (55 + 53)) with (2 ^ 55 * 2 ^ 53);
        change (2 ^ 55) with 36028797018963968 in *; change (2 ^ 53) with 9007199254740992 in *;
        change (2 ^ 40) with 1099511627776 in *; lia.
    - apply (round53_upper n 55 c 0); change (2 ^ (55 + 53)) with (2 ^ 55 * 2 ^ 53);
        change (2 ^ 55) with 36028797018963968 in *; change (2 ^ 53) with 9007199254740992 in *;
        change (2 ^ 40) with 1099511627776 in *; lia. }
  change (2 ^ 55) with 36028797018963968 in *. change (2 ^ 53) with 9007199254740992 in *.
  change (2 ^ 40) with 1099511627776 in *. lia.
Qed.

Lemma align_to_spec n align :
  0 < align -> align_to n align mod align = 0 /\ n <= align_to n align < n + align.
Proof.
  intros Ha. unfold align_to. pose proof (Z.mod_pos_bound n align Ha) as Hm.
  destruct (Z.eqb_spec (n mod align) 0) as [E|E]; [lia|]. split; [|lia].
  replace (n + (align - n mod align)) with ((n / align + 1) * align)
    by (pose proof (Z.div_mod n align ltac:(lia)); lia).
  apply Z_mod_mult.
Qed.

(** C38: the size of a volume.  The floating-point computation gives exactly the
    smallest multiple of 4 that is at least 1.2 times the biggest file and a
    tenth of the total, both rounded up to whole mebibytes; and a claim of that
    many megabytes, the unit Kubernetes is given, holds the biggest file. *)
Theorem volume_size_exact info
    (Htotal : 0 <= total_size info < 2 ^ 53) (Hmax : 0 <= max_size info < 2 ^ 53) :
  let max_mb := ceil_div (max_size info) BYTES_IN_MB in
  let total_mb := ceil_div (total_size info) BYTES_IN_MB in
  let v := get_volume_size info in
  v mod 4 = 0 /\ 6 * max_mb <= 5 * v /\ total_mb <= 10 * v /\
  (5 * (v - 4) < 6 * max_mb \/ 10 * (v - 4) < total_mb) /\
  max_size info <= v * 10 ^ 6.
Proof.
  intros max_mb total_mb v.
  pose proof (ceil_div_spec (max_size info) BYTES_IN_MB ltac:(done)) as Hmm. fold max_mb in Hmm.
  pose proof (ceil_div_spec (total_size info) BYTES_IN_MB ltac:(done)) as Htt. fold total_mb in Htt.
  set (req := Z.max (ceil_div (6 * max_mb) 5) (ceil_div total_mb 10)).
  assert (Hb : 0 <= max_mb < 2 ^ 40 /\ 0 <= total_mb < 2 ^ 40).
  { change (2 ^ 40) with 1099511627776. change (2 ^ 53) with 9007199254740992 in *.
    change BYTES_IN_MB with 1048576 in *. lia. }
  assert (Hv : v = align_to req 4).
  { unfold v, get_volume_size. rewrite !size_in_mb_spec by lia. fold max_mb total_mb.
    pose proof (float_product_1_2 max_mb ltac:(lia)). pose proof (float_product_0_1 total_mb ltac:(lia)).
    unfold VOLUME_SIZE_ALIGN. f_equal. apply ceil_scaled_spec; [lia|]. unfold req. lia. }
  destruct (align_to_spec req 4 ltac:(lia)) as [Ha1 Ha2]. rewrite <- Hv in *.
  pose proof (ceil_div_spec (6 * max_mb) 5 ltac:(lia)). pose proof (ceil_div_spec total_mb 10 ltac:(lia)).
  split; [done|]. change BYTES_IN_MB with 1048576 in *. change (10 ^ 6) with 1000000. lia.
Qed.

Section Selection.
Context `{Env}.

(** The clean-up after a download deletes what was created for it and
    nothing else: its selector matches the labels of an object exactly when the
    object was created by this service for the same client, the same action and
    a source with the same hash; and cancelling an action selects all of its
    downloads. *)
Theorem cleanup_selects_own svc task task' (ev ev' : Event)
    (Hsvc : label_value svc = true) (Hcl : label_value (client_id ev) = true)
    (Hac : label_value (action_id ev) = true) (Hne : action_id ev <> "")
    (Hmd5 : forall t, label_value (md5sum (dc_src t)) = true) :
  let labels := fetcher_labels svc task' ev' in
  matches_selector (fetcher_label_selector svc (client_id ev) (Some (action_id ev)) (Some task)) labels =
    bool_decide (client_id ev' = client_id ev /\ action_id ev' = action_id ev /\
                 md5sum (dc_src task') = md5sum (dc_src task)) /\
  matches_selector (fetcher_label_selector svc (client_id ev) (Some (action_id ev)) None) labels =
    bool_decide (client_id ev' = client_id ev /\ action_id ev' = action_id ev).
Proof.
  intros labels. apply String.eqb_neq in Hne as Hne'.
  assert (Hl : labels = [(ACTION_ID_LABEL, action_id ev'); (CLIENT_ID_LABEL, client_id ev'); (CREATED_BY_LABEL, svc);
                         (DATA_SET_HASH_LABEL, md5sum (dc_src task'))]) by reflexivity.
  split.
  - unfold fetcher_label_selector. cbn [str_truthy]. rewrite Hne'. cbn [negb].
    assert (Hsel : get_label_selector svc (client_id ev) (Some (action_id ev)) +:+ "," +:+ DATA_SET_HASH_LABEL +:+ "=" +:+
                   md5sum (dc_src task) =
                   build_label_selector svc (client_id ev)
                     [(ACTION_ID_LABEL, action_id ev); (DATA_SET_HASH_LABEL, md5sum (dc_src task))]).
    { unfold get_label_selector. cbn [str_truthy]. rewrite Hne'. cbn [negb default].
      unfold build_label_selector, label. simpl. rewrite !str_app_assoc. simpl. by rewrite !str_app_assoc. }
    assert (Hex : Forall (fun kv => no_char "=" kv.1 = true /\ no_char "," kv.1 = true /\ label_value kv.2 = true)
      [(ACTION_ID_LABEL, action_id ev); (DATA_SET_HASH_LABEL, md5sum (dc_src task))]).
    { apply Forall_cons. split; [done|]. apply Forall_cons. split; [|by apply Forall_nil]. split_and!; [done..|apply Hmd5]. }
    unfold matches_selector. rewrite Hsel, parse_build by done.
    rewrite Hl. apply Bool.eq_iff_eq_true. simpl.
    rewrite !andb_true_iff, !bool_decide_eq_true. clear. split; intros; destruct_and?; split_and?; congruence.
  - unfold fetcher_label_selector. rewrite matches_action by done. rewrite Hl. apply Bool.eq_iff_eq_true. simpl.
    rewrite !bool_decide_eq_true. clear. split; intros; destruct_and?; split_and?; congruence.
Qed.
End Selection.

(** ** Witnesses *)

Module Witness.
Lemma volume_size_exact_witness :
  get_volume_size (mkSize (10 * 2 ^ 30) 3 (5 * 2 ^ 30)) = 6144 /\
  5 * 2 ^ 30 <= get_volume_size (mkSize (10 * 2 ^ 30) 3 (5 * 2 ^ 30)) * 10 ^ 6.
Proof.
  split; [vm_compute; reflexivity|].
  destruct (volume_size_exact (mkSize (10 * 2 ^ 30) 3 (5 * 2 ^ 30))) as (_ & _ & _ & _ & Hm); [simpl; lia..|exact Hm].
Defined.

Definition task (src : string) : DownloadableContent := mkContent src "/p" None None None None None None None.

(** An environment whose hashes are label values. *)
#[local] Instance env_h : Env := {|
  env_clock := env_clock (Env := env0);
  env_uuid := env_uuid (Env := env0);
  env_md5 s := if String.eqb s "a" then "0cc1" else "92eb"
|}.

Lemma cleanup_selects_own_witness :
  let ev := event0 (PAny VNone) in
  matches_selector (fetcher_label_selector "fetcher" "client" (Some "action") (Some (task "a")))
    (fetcher_labels "fetcher" (task "b") ev) = false /\
  matches_selector (fetcher_label_selector "fetcher" "client" (Some "action") None)
    (fetcher_labels "fetcher" (task "b") ev) = true.
Proof.
  intros ev.
  destruct (cleanup_selects_own "fetcher" (task "a") (task "b") ev ev) as [H1 H2]; try reflexivity.
  - discriminate.
  - intros t. unfold md5sum. simpl. by destruct (String.eqb (dc_src t) "a").
  - split; [exact H1|exact H2].
Defined.
End Witness.
