(* ===== verification/JobStatus.v ===== *)
(** * The status of a benchmark job (bai_watcher/status_inferrers, the job watchers)

    How the watcher turns what Kubernetes and SageMaker say of a job into a
    [BenchmarkJobStatus] (status.py, single_node.py, kubernetes_job_watcher.py,
    sage_maker_job_watcher.py, bai_sagemaker_utils/utils.py), and that into what
    the users are told (kafka_service_watcher.py). *)

From S2P Require Import Prelude PyStr Events.

(** ** status.py *)

Inductive BenchmarkJobStatus : Set :=
| BJ_SUCCEEDED | BJ_FAILED
| NO_POD_SCHEDULED | JOB_NOT_FOUND
| FAILED_AT_BENCHMARK_CONTAINER | FAILED_AT_SIDECAR_CONTAINER | FAILED_AT_INIT_CONTAINERS
| PENDING_AT_BENCHMARK_CONTAINER | PENDING_AT_SIDECAR_CONTAINER | PENDING_AT_INIT_CONTAINERS | PENDING_NODE_SCALING
| RUNNING_AT_INIT_CONTAINERS | RUNNING_AT_MAIN_CONTAINERS
| SM_STOPPED | SM_INTERRUPTED | SM_FAILED_MAX_RUNTIME_EXCEEDED | SM_FAILED_MAX_WAITTIME_EXCEEDED
| SM_IN_PROGRESS_STARTING | SM_IN_PROGRESS_LAUNCHING_ML_INSTANCES | SM_IN_PROGRESS_PREP_TRAINING_STACK
| SM_IN_PROGRESS_DOWNLOADING | SM_IN_PROGRESS_DOWNLOADING_TRAINING_IMG | SM_IN_PROGRESS_TRAINING
| SM_IN_PROGRESS_UPLOADING | SM_UNKNOWN | SM_STOPPING.

#[export] Instance BenchmarkJobStatus_eq_dec : EqDecision BenchmarkJobStatus.
Proof. solve_decision. Defined.

Definition is_final (s : BenchmarkJobStatus) : bool :=
  bool_decide (s ∈ [BJ_SUCCEEDED; FAILED_AT_INIT_CONTAINERS; FAILED_AT_BENCHMARK_CONTAINER;
    FAILED_AT_SIDECAR_CONTAINER; JOB_NOT_FOUND; BJ_FAILED; SM_STOPPED; SM_FAILED_MAX_RUNTIME_EXCEEDED;
    SM_FAILED_MAX_WAITTIME_EXCEEDED; SM_INTERRUPTED; SM_UNKNOWN]).

Definition is_running (s : BenchmarkJobStatus) : bool :=
  bool_decide (s ∈ [RUNNING_AT_INIT_CONTAINERS; RUNNING_AT_MAIN_CONTAINERS; SM_IN_PROGRESS_DOWNLOADING;
    SM_IN_PROGRESS_STARTING; SM_IN_PROGRESS_LAUNCHING_ML_INSTANCES; SM_IN_PROGRESS_PREP_TRAINING_STACK;
    SM_IN_PROGRESS_DOWNLOADING; SM_IN_PROGRESS_DOWNLOADING_TRAINING_IMG; SM_IN_PROGRESS_TRAINING;
    SM_IN_PROGRESS_UPLOADING; SM_STOPPING]).

(** ** single_node.py *)

Record Terminated := mkTerminated { exit_code : Z; t_reason : option string; t_message : option string }.
Record Waiting := mkWaiting { w_reason : option string; w_message : option string }.

Record V1ContainerStatus := mkContainerStatus {
  cs_name : string;
  cs_terminated : option Terminated;
  cs_waiting : option Waiting;
  cs_running : option string
}.

Record V1Condition := mkCondition { cond_type : string; cond_reason : option string }.

Record V1PodStatus := mkPodStatus {
  phase : string;
  pod_conditions : list V1Condition;
  init_container_statuses : list V1ContainerStatus;
  (** [None] until the kubelet reports *)
  container_statuses : option (list V1ContainerStatus)
}.

Record V1JobStatus := mkJobStatus { succeeded : option Z; job_conditions : list V1Condition }.

Record ContainerInfo := mkContainerInfo { container_name : string; ci_message : string }.

#[export] Instance ContainerInfo_eq_dec : EqDecision ContainerInfo.
Proof. solve_decision. Defined.

Inductive ContainerState : Set := CS_FAILED | CS_PENDING | CS_RUNNING.

#[export] Instance ContainerState_eq_dec : EqDecision ContainerState.
Proof. solve_decision. Defined.

(** The order in which a set of containers is iterated is not specified. *)
Class ContainerOrder : Type := {
  iter_infos : list ContainerInfo -> list ContainerInfo;
  iter_infos_elem : forall l x, x ∈ iter_infos l <-> x ∈ l
}.

Definition FAILURE_REASONS : list string := ["BackoffLimitExceeded"].
Definition BENCHMARK_CONTAINER_NAME : string := "benchmark".

Definition opt_text (o : option string) : string := default "None" o.

(** [state_to_containers[st].add(obj)] of a [defaultdict(set)]. *)
Definition add_info (st : ContainerState) (obj : ContainerInfo) (d : dict ContainerState (list ContainerInfo)) :
    dict ContainerState (list ContainerInfo) :=
  dict_set d st (default [] (dict_get d st) ++ [obj])%list.

Definition collect_one (d : dict ContainerState (list ContainerInfo)) (status : V1ContainerStatus) :
    dict ContainerState (list ContainerInfo) :=
  let d :=
    match cs_terminated status with
    | Some t =>
        if negb (exit_code t =? 0)
        then add_info CS_FAILED (mkContainerInfo (cs_name status) (opt_text (t_reason t) +:+ " - " +:+ opt_text (t_message t))) d
        else d
    | None => d
    end in
  let d :=
    match cs_waiting status with
    | Some w => add_info CS_PENDING (mkContainerInfo (cs_name status) (opt_text (w_reason w) +:+ " - " +:+ opt_text (w_message w))) d
    | None => d
    end in
  match cs_running status with
  | Some started_at => add_info CS_RUNNING (mkContainerInfo (cs_name status) started_at) d
  | None => d
  end.

Definition collect_container_states (l : list V1ContainerStatus) : dict ContainerState (list ContainerInfo) :=
  fold_left collect_one l [].

Section Infer.
Context `{ContainerOrder}.

Definition has_succeeded (job : V1JobStatus) : bool :=
  match succeeded job with Some n => 0 <? n | None => false end.
Definition has_failure_reason (job : V1JobStatus) : bool :=
  existsb (fun c => match cond_reason c with Some r => bool_decide (r ∈ FAILURE_REASONS) | None => false end)
    (job_conditions job).

Definition infer_status_from_job (job : V1JobStatus) : option BenchmarkJobStatus :=
  if has_succeeded job then Some BJ_SUCCEEDED
  else if has_failure_reason job then Some BJ_FAILED
  else None.

Definition infer_status_from_pod (pods : list V1PodStatus) : option BenchmarkJobStatus :=
  match pods with
  | [] => Some NO_POD_SCHEDULED
  | pod :: _ =>
      if String.eqb (phase pod) "Running" then Some RUNNING_AT_MAIN_CONTAINERS
      else if String.eqb (phase pod) "Pending" then
        match pod_conditions pod with
        | condition :: _ =>
            if String.eqb (cond_type condition) "PodScheduled" && bool_decide (cond_reason condition = Some "Unschedulable")
            then Some PENDING_NODE_SCALING else None
        | [] => None
        end
      else None
  end.

(** The first of a set of containers decides. *)
Definition by_first (infos : list ContainerInfo) (benchmark sidecar : BenchmarkJobStatus) : option BenchmarkJobStatus :=
  match iter_infos infos with
  | [] => None
  | i :: _ => Some (if String.eqb (container_name i) BENCHMARK_CONTAINER_NAME then benchmark else sidecar)
  end.

(** The loop over the states of the main containers. *)
Fixpoint infer_main (states : dict ContainerState (list ContainerInfo)) : option BenchmarkJobStatus :=
  match states with
  | [] => None
  | (state, infos) :: rest =>
      match
        match state with
        | CS_PENDING => by_first infos PENDING_AT_BENCHMARK_CONTAINER PENDING_AT_SIDECAR_CONTAINER
        | CS_FAILED => by_first infos FAILED_AT_BENCHMARK_CONTAINER FAILED_AT_SIDECAR_CONTAINER
        | CS_RUNNING => None
        end
      with
      | Some s => Some s
      | None => infer_main rest
      end
  end.

Definition infer_status_from_containers (pods : list V1PodStatus) : Res (option BenchmarkJobStatus) :=
  match pods with
  | [] => Raise (IndexError "list index out of range")
  | pod :: _ =>
      match collect_container_states (init_container_statuses pod) with
      | (CS_PENDING, _) :: _ => Ok (Some PENDING_AT_INIT_CONTAINERS)
      | (CS_RUNNING, _) :: _ => Ok (Some RUNNING_AT_INIT_CONTAINERS)
      | (CS_FAILED, _) :: _ => Ok (Some FAILED_AT_INIT_CONTAINERS)
      | [] =>
          match container_statuses pod with
          | None => Raise (TypeError "'NoneType' object is not iterable")
          | Some statuses => Ok (infer_main (collect_container_states statuses))
          end
      end
  end.

(** [SingleNodeStrategyKubernetesStatusInferrer.status]. *)
Definition single_node_status (job : V1JobStatus) (pods : list V1PodStatus) : Res BenchmarkJobStatus :=
  match infer_status_from_job job with
  | Some s => Ok s
  | None =>
      match infer_status_from_pod pods with
      | Some s => Ok s
      | None =>
          r <~ infer_status_from_containers pods ;;
          match r with
          | Some s => Ok s
          | None => Raise (ValueError "Can't determine what is the job status (there is a bug in the code), erroring the watcher")
          end
      end
  end.
End Infer.

(** ** sage_maker_job_watcher.py, bai_sagemaker_utils/utils.py *)

(** [is_not_found_error]: a position after the first one. *)
Definition is_not_found_error (error_message : string) : bool :=
  match str_find "not found" (lower error_message) with Some i => (0 <? i)%nat | None => false end.

Definition secondary_statuses : dict string BenchmarkJobStatus :=
  [("Starting", SM_IN_PROGRESS_STARTING);
   ("LaunchingMLInstances", SM_IN_PROGRESS_LAUNCHING_ML_INSTANCES);
   ("PreparingTrainingStack", SM_IN_PROGRESS_PREP_TRAINING_STACK);
   ("Downloading", SM_IN_PROGRESS_DOWNLOADING);
   ("DownloadingTrainingImage", SM_IN_PROGRESS_DOWNLOADING_TRAINING_IMG);
   ("Training", SM_IN_PROGRESS_TRAINING);
   ("Stopped", SM_STOPPED);
   ("Stopping", SM_STOPPING);
   ("MaxRuntimeExceeded", SM_FAILED_MAX_RUNTIME_EXCEEDED);
   ("MaxWaitTimeExceeded", SM_FAILED_MAX_WAITTIME_EXCEEDED);
   ("Uploading", SM_IN_PROGRESS_UPLOADING);
   ("Interrupted", SM_INTERRUPTED);
   ("Completed", BJ_SUCCEEDED);
   ("Failed", BJ_FAILED)].

Definition primary_statuses : dict string BenchmarkJobStatus :=
  [("Failed", BJ_FAILED); ("Completed", BJ_SUCCEEDED); ("Stopped", SM_STOPPED); ("Stopping", SM_STOPPED)].

(** [_get_benchmark_status]: the chain of comparisons, the secondary status first. *)
Definition get_benchmark_status (primary secondary : string) : BenchmarkJobStatus :=
  match dict_get secondary_statuses secondary with
  | Some s => s
  | None => match dict_get primary_statuses primary with Some s => s | None => SM_UNKNOWN end
  end.

(** ** kafka_service_watcher.py: what is told of a status *)

Definition choose_status_from_benchmark_status (job_status : BenchmarkJobStatus) : Status * string :=
  match job_status with
  | FAILED_AT_SIDECAR_CONTAINER | FAILED_AT_INIT_CONTAINERS => (FAILED, "Benchmark failed")
  | FAILED_AT_BENCHMARK_CONTAINER => (FAILED, "Benchmark container failed - Please check your container")
  | BJ_FAILED => (FAILED, "Benchmark failed for an unknown reason")
  | BJ_SUCCEEDED => (SUCCEEDED, "Benchmark finished successfully")
  | NO_POD_SCHEDULED => (FAILED, "Benchmark was unable to run on the cluster")
  | JOB_NOT_FOUND => (CANCELED, "Benchmark cancelled - watch ended")
  | PENDING_AT_INIT_CONTAINERS | PENDING_AT_BENCHMARK_CONTAINER | PENDING_AT_SIDECAR_CONTAINER
  | RUNNING_AT_INIT_CONTAINERS => (PENDING, "Benchmark pending pod initialization")
  | PENDING_NODE_SCALING => (PENDING, "Benchmark pending node autoscaling")
  | RUNNING_AT_MAIN_CONTAINERS => (RUNNING, "Benchmark running")
  | SM_IN_PROGRESS_STARTING => (PENDING, "Benchmark starting")
  | SM_IN_PROGRESS_LAUNCHING_ML_INSTANCES => (PENDING, "Launching ML instances")
  | SM_IN_PROGRESS_PREP_TRAINING_STACK => (PENDING, "Preparing training stack")
  | SM_IN_PROGRESS_DOWNLOADING => (PENDING, "Downloading data")
  | SM_IN_PROGRESS_DOWNLOADING_TRAINING_IMG => (PENDING, "Downloading benchmark image")
  | SM_IN_PROGRESS_TRAINING => (PENDING, "Benchmark running")
  | SM_IN_PROGRESS_UPLOADING => (PENDING, "Uploading data")
  | SM_STOPPING => (PENDING, "Benchmark stopping")
  | SM_STOPPED => (FAILED, "Benchmark stopped")
  | SM_FAILED_MAX_RUNTIME_EXCEEDED => (FAILED, "Benchmark failed - Max runtime exceeded")
  | SM_FAILED_MAX_WAITTIME_EXCEEDED => (FAILED, "Benchmark failed - Max wait time exceeded")
  | SM_INTERRUPTED => (FAILED, "Benchmark interrupted")
  | SM_UNKNOWN => (FAILED, "Benchmark reached unknown state - Please contact your system administrator")
  end.

(** ** The watchers' queries *)

Class ClusterApi (W : Type) : Type := {
  read_job_status : string -> string -> M W V1JobStatus;
  list_pods : string -> string -> M W (list V1PodStatus)
}.

Class SageMakerApi (W : Type) : Type := { describe_training_job : string -> M W (string * string) }.

(** [KubernetesJobWatcher._get_status]. *)
Definition k8s_get_status {W} `{ClusterApi W} `{ContainerOrder} (namespace job_id : string) : M W BenchmarkJobStatus :=
  k8s_job <- try_except (j <- read_job_status job_id namespace ;; ret (Some j))
    (fun e => match e with
              | ApiException st => if st =? 404 then ret None else raise e
              | _ => raise e
              end) ;;
  match k8s_job with
  | None => ret JOB_NOT_FOUND
  | Some job =>
      pods <- list_pods namespace ("job-name=" +:+ job_id) ;;
      lift (single_node_status job pods)
  end.

(** [SageMakerTrainingJobWatcher._get_status]; a [ClientError] carries its message. *)
Definition sm_get_status {W} `{SageMakerApi W} (job_id : string) : M W BenchmarkJobStatus :=
  try_except
    (' (primary, secondary) <- describe_training_job job_id ;; ret (get_benchmark_status primary secondary))
    (fun e => match e with
              | ClientError msg => if is_not_found_error msg then ret JOB_NOT_FOUND else raise e
              | _ => raise e
              end).

(** ** Properties *)

(** Is a container in a state, as [collect_container_states] sees it? *)
Definition in_state (st : ContainerState) (c : V1ContainerStatus) : bool :=
  match st with
  | CS_FAILED => match cs_terminated c with Some t => negb (exit_code t =? 0) | None => false end
  | CS_PENDING => match cs_waiting c with Some _ => true | None => false end
  | CS_RUNNING => match cs_running c with Some _ => true | None => false end
  end.

Lemma collect_one_get d c st :
  default [] (dict_get (collect_one d c) st) =
  (default [] (dict_get d st) ++
   (if in_state st c then [mkContainerInfo (cs_name c)
      match st with
      | CS_FAILED => match cs_terminated c with Some t => opt_text (t_reason t) +:+ " - " +:+ opt_text (t_message t) | None => "" end
      | CS_PENDING => match cs_waiting c with Some w => opt_text (w_reason w) +:+ " - " +:+ opt_text (w_message w) | None => "" end
      | CS_RUNNING => default "" (cs_running c)
      end] else []))%list.
Proof.
  unfold collect_one, add_info, in_state.
  destruct (cs_terminated c) as [t|]; [destruct (negb (exit_code t =? 0))|];
    destruct (cs_waiting c); destruct (cs_running c); destruct st;
    repeat first [rewrite dict_get_set_eq | rewrite dict_get_set_ne by done]; cbn [default id];
    by rewrite ?app_nil_r.
Qed.

(** A key is only there for its containers. *)
Definition non_empty (d : dict ContainerState (list ContainerInfo)) : Prop :=
  dict_wf d /\ Forall (fun kv => kv.2 <> []) d.

Lemma dict_set_non_empty d st l : non_empty d -> l <> [] -> non_empty (dict_set d st l).
Proof.
  intros [Hw Hd] Hl. split; [by apply dict_set_wf|]. clear Hw.
  induction Hd as [|[k v] d Hk Hd IH]; simpl; [by repeat constructor|].
  case_decide; constructor; auto.
Qed.

Lemma collect_one_non_empty d c : non_empty d -> non_empty (collect_one d c).
Proof.
  intros Hd. unfold collect_one, add_info.
  assert (Happ : forall (l : list ContainerInfo) x, (l ++ [x])%list <> []) by by intros [].
  destruct (cs_terminated c) as [t|]; [destruct (negb (exit_code t =? 0))|];
    destruct (cs_waiting c); destruct (cs_running c); repeat (apply dict_set_non_empty; [|apply Happ]); done.
Qed.

Lemma collect_states_get l st :
  default [] (dict_get (collect_container_states l) st) =
  omap (fun c => if in_state st c then head (default [] (dict_get (collect_one [] c) st)) else None) l /\
  non_empty (collect_container_states l).
Proof.
  unfold collect_container_states. induction l as [|c l IH] using rev_ind; [split; [done|by repeat constructor]|].
  rewrite fold_left_app. simpl. destruct IH as [IH Hne]. split; [|by apply collect_one_non_empty].
  rewrite collect_one_get, IH, omap_app. f_equal. simpl. rewrite collect_one_get. simpl.
  by destruct (in_state st c).
Qed.

Lemma collect_states_in l st infos :
  dict_get (collect_container_states l) st = Some infos ->
  infos <> [] /\ (forall i, i ∈ infos -> exists c, c ∈ l /\ in_state st c = true /\ container_name i = cs_name c).
Proof.
  intros Hg. destruct (collect_states_get l st) as [Heq [_ Hne]]. rewrite Hg in Heq. simpl in Heq. split.
  - apply dict_get_Some_in in Hg. rewrite Forall_forall in Hne. by apply (Hne _ Hg).
  - intros i. rewrite Heq. intros (c & Hc & Hi)%list_elem_of_omap. exists c. split; [done|].
    rewrite collect_one_get in Hi. destruct (in_state st c); [|done]. simpl in Hi. by simplify_eq.
Qed.

Lemma collect_states_some l st c :
  c ∈ l -> in_state st c = true -> is_Some (dict_get (collect_container_states l) st).
Proof.
  intros Hc Hst. destruct (collect_states_get l st) as [Heq _].
  destruct (dict_get (collect_container_states l) st) as [infos|]; [eauto|]. simpl in Heq. exfalso.
  assert (Hin : mkContainerInfo (cs_name c)
      match st with
      | CS_FAILED => match cs_terminated c with Some t => opt_text (t_reason t) +:+ " - " +:+ opt_text (t_message t) | None => "" end
      | CS_PENDING => match cs_waiting c with Some w => opt_text (w_reason w) +:+ " - " +:+ opt_text (w_message w) | None => "" end
      | CS_RUNNING => default "" (cs_running c)
      end ∈ omap (fun c => if in_state st c then head (default [] (dict_get (collect_one [] c) st)) else None) l).
  { apply list_elem_of_omap. exists c. split; [done|]. rewrite collect_one_get, Hst. done. }
  rewrite <- Heq in Hin. set_solver.
Qed.

Section SingleNode.
Context `{ContainerOrder}.

Lemma infer_main_Some d s :
  infer_main d = Some s ->
  exists st infos i, (st, infos) ∈ d /\ i ∈ infos /\
    ((st = CS_PENDING /\ s = if String.eqb (container_name i) "benchmark" then PENDING_AT_BENCHMARK_CONTAINER
                             else PENDING_AT_SIDECAR_CONTAINER) \/
     (st = CS_FAILED /\ s = if String.eqb (container_name i) "benchmark" then FAILED_AT_BENCHMARK_CONTAINER
                            else FAILED_AT_SIDECAR_CONTAINER)).
Proof.
  induction d as [|[st infos] d IH]; simpl; [done|].
  assert (Hrest : infer_main d = Some s -> _) by exact IH. clear IH.
  assert (Hskip : infer_main d = Some s -> exists st' infos' i, (st', infos') ∈ (st, infos) :: d /\ i ∈ infos' /\
    ((st' = CS_PENDING /\ s = if String.eqb (container_name i) "benchmark" then PENDING_AT_BENCHMARK_CONTAINER
                             else PENDING_AT_SIDECAR_CONTAINER) \/
     (st' = CS_FAILED /\ s = if String.eqb (container_name i) "benchmark" then FAILED_AT_BENCHMARK_CONTAINER
                            else FAILED_AT_SIDECAR_CONTAINER))).
  { intros Hs. destruct (Hrest Hs) as (st' & infos' & i & Hin & Hi & Hc). exists st', infos', i. set_solver. }
  destruct st; [..|exact Hskip]; unfold by_first; destruct (iter_infos infos) as [|i l] eqn:E; try exact Hskip;
    intros [= <-]; eexists _, infos, i; (split; [left|]); (split; [rewrite <- iter_infos_elem, E; left|]); auto.
Qed.

Lemma infer_main_None d st infos :
  infer_main d = None -> (st, infos) ∈ d -> infos <> [] -> st = CS_RUNNING.
Proof.
  intros Hn Hin Hne. induction d as [|[st' infos'] d IH]; [set_solver|]. simpl in Hn.
  assert (Hiter : infos <> [] -> iter_infos infos <> []).
  { intros Hi Hit. destruct infos as [|x infos]; [done|].
    assert (Hx : x ∈ iter_infos (x :: infos)) by (rewrite iter_infos_elem; left). rewrite Hit in Hx. set_solver. }
  apply elem_of_cons in Hin as [Heq|Hin].
  - injection Heq as <- <-. destruct st; [..|done]; unfold by_first in Hn;
      destruct (iter_infos infos); [by destruct Hiter|done|by destruct Hiter|done].
  - apply IH; [|done]. unfold by_first in Hn. by destruct st', (iter_infos infos').
Qed.

(** A container of the list in a state, told apart by its name. *)
Definition some_container (l : list V1ContainerStatus) (st : ContainerState) (name_ok : bool -> Prop) : Prop :=
  exists c, c ∈ l /\ in_state st c = true /\ name_ok (String.eqb (cs_name c) "benchmark").

Lemma collect_head l st infos rest :
  collect_container_states l = (st, infos) :: rest -> some_container l st (fun _ => True).
Proof.
  intros E. destruct (collect_states_in l st infos) as [Hne Hin].
  { rewrite E. simpl. by rewrite decide_True. }
  destruct infos as [|i infos]; [done|]. destruct (Hin i) as (c & Hc & Hst & _); [left|]. by exists c.
Qed.

Lemma collect_nil l : collect_container_states l = [] -> forall c st, c ∈ l -> in_state st c = false.
Proof.
  intros E c st Hc. destruct (in_state st c) eqn:Hst; [|done].
  destruct (collect_states_some l st c Hc Hst) as [infos Hi]. by rewrite E in Hi.
Qed.

(** The evidence for a status that comes from the containers of a pod. *)
Definition container_evidence (pod : V1PodStatus) (s : BenchmarkJobStatus) : Prop :=
  let main := default [] (container_statuses pod) in
  match s with
  | PENDING_AT_INIT_CONTAINERS => some_container (init_container_statuses pod) CS_PENDING (fun _ => True)
  | RUNNING_AT_INIT_CONTAINERS => some_container (init_container_statuses pod) CS_RUNNING (fun _ => True)
  | FAILED_AT_INIT_CONTAINERS => some_container (init_container_statuses pod) CS_FAILED (fun _ => True)
  | PENDING_AT_BENCHMARK_CONTAINER => some_container main CS_PENDING (fun b => b = true)
  | PENDING_AT_SIDECAR_CONTAINER => some_container main CS_PENDING (fun b => b = false)
  | FAILED_AT_BENCHMARK_CONTAINER => some_container main CS_FAILED (fun b => b = true)
  | FAILED_AT_SIDECAR_CONTAINER => some_container main CS_FAILED (fun b => b = false)
  | _ => False
  end.

Definition evidence (job : V1JobStatus) (pods : list V1PodStatus) (s : BenchmarkJobStatus) : Prop :=
  match s with
  | BJ_SUCCEEDED => exists n, succeeded job = Some n /\ 0 < n
  | BJ_FAILED => has_succeeded job = false /\ has_failure_reason job = true
  | NO_POD_SCHEDULED => pods = []
  | RUNNING_AT_MAIN_CONTAINERS => exists pod rest, pods = pod :: rest /\ phase pod = "Running"
  | PENDING_NODE_SCALING => exists pod rest c cs, pods = pod :: rest /\ phase pod = "Pending" /\
      pod_conditions pod = c :: cs /\ cond_type c = "PodScheduled" /\ cond_reason c = Some "Unschedulable"
  | _ => exists pod rest, pods = pod :: rest /\ container_evidence pod s
  end.

Lemma containers_sound pod rest s :
  infer_status_from_containers (pod :: rest) = Ok (Some s) -> container_evidence pod s.
Proof.
  unfold infer_status_from_containers, container_evidence.
  destruct (collect_container_states (init_container_statuses pod)) as [|[st infos] l] eqn:Ei.
  2:{ apply collect_head in Ei. by destruct st; intros [= <-]. }
  destruct (container_statuses pod) as [statuses|]; [|done]. intros [= Hm].
  apply infer_main_Some in Hm as (st & infos & i & Hin & Hi & Hst).
  apply dict_in_get in Hin; [|apply (collect_states_get statuses CS_FAILED)].
  destruct (collect_states_in _ _ _ Hin) as [_ Hall]. destruct (Hall i Hi) as (c & Hc & Hcs & Hname).
  cbn [default id]. rewrite Hname in Hst.
  destruct Hst as [[-> ->]|[-> ->]]; destruct (String.eqb (cs_name c) "benchmark") eqn:En; by exists c.
Qed.

Lemma pod_sound job pods s : infer_status_from_pod pods = Some s -> evidence job pods s.
Proof.
  unfold infer_status_from_pod. destruct pods as [|pod rest]; [by intros [= <-]|].
  destruct (String.eqb_spec (phase pod) "Running"); [intros [= <-]; by exists pod, rest|].
  destruct (String.eqb_spec (phase pod) "Pending"); [|done].
  destruct (pod_conditions pod) as [|c cs] eqn:Ec; [done|].
  destruct (String.eqb_spec (cond_type c) "PodScheduled"); [|done]. simpl. case_bool_decide; [|done].
  intros [= <-]. by exists pod, rest, c, cs.
Qed.

(** C21: what an inferred status says is true of the job.  Each status is only
    returned with evidence for it: a success or a failure reason of the job, the
    absence or the phase of the pod, a container in the reported state, which is
    the benchmark's or another one as the status says. *)
Theorem single_node_status_sound job pods s (Hs : single_node_status job pods = Ok s) : evidence job pods s.
Proof.
  unfold single_node_status, infer_status_from_job in Hs.
  destruct (has_succeeded job) eqn:Hsucc.
  { injection Hs as <-. unfold has_succeeded in Hsucc. simpl. destruct (succeeded job) as [n|]; [|done].
    exists n. split; [done|]. by apply Z.ltb_lt. }
  destruct (has_failure_reason job) eqn:Hf; [by injection Hs as <-|].
  destruct (infer_status_from_pod pods) as [s'|] eqn:Hp; [injection Hs as <-; by apply pod_sound|].
  unfold res_bind in Hs. destruct (infer_status_from_containers pods) as [[s'|]|] eqn:Hc; simplify_eq.
  destruct pods as [|pod rest]; [done|]. apply containers_sound in Hc.
  unfold evidence. destruct s; try done; by exists pod, rest.
Qed.

(** C31: the watcher gives up on a job exactly when the job neither succeeded
    nor failed, its first pod is neither running nor unschedulable, its init
    containers are done, and either the main containers are not reported yet
    ([TypeError]) or none of them waits or has failed ([ValueError]). *)
Theorem single_node_status_error job pods :
  is_ok (single_node_status job pods) = false <->
  has_succeeded job = false /\ has_failure_reason job = false /\
  exists pod rest, pods = pod :: rest /\ infer_status_from_pod pods = None /\
    (forall c st, c ∈ init_container_statuses pod -> in_state st c = false) /\
    match container_statuses pod with
    | None => True
    | Some statuses => forall c, c ∈ statuses -> in_state CS_PENDING c = false /\ in_state CS_FAILED c = false
    end.
Proof.
  unfold single_node_status, infer_status_from_job.
  destruct (has_succeeded job); [split; [done|by intros [? _]]|].
  destruct (has_failure_reason job); [split; [done|by intros (_ & ? & _)]|].
  destruct pods as [|pod rest]; [split; [done|by intros (_ & _ & ? & ? & ? & _)]|].
  destruct (infer_status_from_pod (pod :: rest)) eqn:Hp.
  { split; [done|]. intros (_ & _ & ? & ? & [= <- <-] & ? & _). congruence. }
  unfold infer_status_from_containers.
  destruct (collect_container_states (init_container_statuses pod)) as [|[st infos] l] eqn:Ei.
  2:{ pose proof (collect_head _ _ _ _ Ei) as (c & Hc & Hst & _). split; [by destruct st|].
      intros (_ & _ & ? & ? & [= <- <-] & _ & Hno & _). rewrite (Hno c st Hc) in Hst. done. }
  pose proof (collect_nil _ Ei) as Hinit.
  destruct (container_statuses pod) as [statuses|] eqn:Ec.
  2:{ split; [|done]. intros _. split_and!; [done..|]. exists pod, rest. rewrite Ec. by split_and!. }
  cbn [res_bind]. destruct (infer_main (collect_container_states statuses)) as [s|] eqn:Em; (split; [try done|]).
  - intros (_ & _ & ? & ? & [= <- <-] & _ & _ & Hno). rewrite Ec in Hno. exfalso.
    apply infer_main_Some in Em as (st & infos & i & Hin & Hi & Hst).
    apply dict_in_get in Hin; [|apply (collect_states_get statuses CS_FAILED)].
    destruct (collect_states_in _ _ _ Hin) as [_ Hall]. destruct (Hall i Hi) as (c & Hc & Hcs & _).
    destruct (Hno c Hc). destruct Hst as [[-> _]|[-> _]]; congruence.
  - intros _. split_and!; [done..|]. exists pod, rest. rewrite Ec. split_and!; [done..|].
    intros c Hc.
    assert (Hno : forall st, st <> CS_RUNNING -> in_state st c = false).
    { intros st Hne. destruct (in_state st c) eqn:Hst; [|done]. exfalso. apply Hne.
      destruct (collect_states_some _ _ _ Hc Hst) as [infos Hi].
      eapply infer_main_None; [exact Em|by apply dict_get_Some_in|]. by apply (collect_states_in statuses st). }
    split; by apply Hno.
  - done.
Qed.
End SingleNode.

(** What the users are told ends when the watch ends.  The reported status
    is a terminal one exactly for the final job statuses, and for
    [NO_POD_SCHEDULED], which is reported as failed although the watch goes on;
    and no final status counts as running. *)
Theorem reported_terminal s :
  bool_decide ((choose_status_from_benchmark_status s).1 ∈ [SUCCEEDED; FAILED; CANCELED]) =
    (is_final s || bool_decide (s = NO_POD_SCHEDULED)) /\
  (is_final s && is_running s = false).
Proof. destruct s; vm_compute; by split. Qed.

(** ** Witnesses *)

Module Witness.
#[export] Instance order : ContainerOrder := {| iter_infos l := l; iter_infos_elem l x := iff_refl _ |}.
#[export] Instance order_rev : ContainerOrder.
Proof. refine {| iter_infos := @rev _ |}. intros l x. by rewrite !list_elem_of_In, <- in_rev. Defined.

Definition job0 : V1JobStatus := mkJobStatus None [].
Definition failed (name : string) : V1ContainerStatus :=
  mkContainerStatus name (Some (mkTerminated 1 (Some "Error") None)) None None.
Definition pods0 : list V1PodStatus :=
  [mkPodStatus "Failed" [] [mkContainerStatus "puller" (Some (mkTerminated 0 None None)) None None]
     (Some [failed "sidecar"; failed "benchmark"])].

Lemma single_node_status_sound_witness :
  single_node_status (H := order) job0 pods0 = Ok FAILED_AT_SIDECAR_CONTAINER /\
  evidence job0 pods0 FAILED_AT_SIDECAR_CONTAINER.
Proof.
  split; [vm_compute; reflexivity|].
  apply (single_node_status_sound (H := order) job0 pods0). vm_compute. reflexivity.
Defined.

(** When the benchmark and a sidecar failed, the order of the set decides. *)
Example failed_container_depends_on_order :
  single_node_status (H := order) job0 pods0 = Ok FAILED_AT_SIDECAR_CONTAINER /\
  single_node_status (H := order_rev) job0 pods0 = Ok FAILED_AT_BENCHMARK_CONTAINER.
Proof. vm_compute. by split. Qed.
End Witness.
