(* ===== verification/SageMaker.v ===== *)
(** * The SageMaker engine (sm-executor/src/sm_executor)

    The second execution engine behind the interface of Executor.v: it turns a
    descriptor into a training job of SageMaker (estimator_factory.py,
    source_dir.py), starts and stops it, and may merge its metrics into
    CloudWatch (sm_execution_engine.py).  The packages sagemaker and boto3 are
    behind the class [SageMaker]. *)

From S2P Require Import Prelude PyStr PyLib Json Binary64 Events KafkaService CmdCallback Descriptor Executor.
From S2P Require Import JobStatus CloudWatch.

#[local] Arguments String.append !_ _ /.

(** ** Configuration *)

Record SageMakerExecutorConfig := mkSmConfig {
  s3_output_bucket : string;
  sm_role : string;
  tmp_sources_dir : option string;
  s3_nodata : string;
  sm_descriptor_config : DescriptorConfig;
  security_group_ids : option (list string);
  subnets : option (list string);
  valid_execution_engines : list string
}.

(** The values of the options, as the parser of configargparse gives them; a
    list option comes as the text of its value, if it is given. *)
Record SageMakerArgs := mkSmArgs {
  sagemaker_output_bucket : string;
  sagemaker_role : string;
  arg_tmp_sources_dir : option string;
  sagemaker_nodataset : string;
  sagemaker_subnets : option string;
  sagemaker_security_group_ids : option string;
  arg_valid_execution_engines : option string;
  transpiler_valid_strategies : option string;
  transpiler_valid_frameworks : option string
}.

(** [list_str], on an option with the default [[]]. *)
Definition list_str (values : option string) : list string :=
  match values with Some v => split_char "," v | None => [] end.

Definition create_descriptor_config (args : SageMakerArgs) : DescriptorConfig :=
  mkDescriptorConfig (list_str (transpiler_valid_strategies args)) (list_str (transpiler_valid_frameworks args)).

Definition create_executor_config (args : SageMakerArgs) : SageMakerExecutorConfig :=
  mkSmConfig (sagemaker_output_bucket args) (sagemaker_role args) (arg_tmp_sources_dir args) (sagemaker_nodataset args)
    (create_descriptor_config args) (split_char "," <$> sagemaker_security_group_ids args)
    (split_char "," <$> sagemaker_subnets args) (list_str (arg_valid_execution_engines args)).

(** [CONFIG]: the strategies and frameworks that the engine takes; [run] uses
    it, not the configured [descriptor_config]. *)
Definition CONFIG : DescriptorConfig := mkDescriptorConfig ["single_node"; "horovod"] ["tensorflow"; "mxnet"].

Definition ENGINE_ID : string := "aws.sagemaker".

(** ** The source directory (source_dir.py) *)

Definition SHELL_SHEBANG : string := "#!/usr/bin/env bash".
Definition SHELL_ENTRY_POINT : string := "tmp_entry.sh".
Definition PYTHON_ENTRY_POINT : string := "tmp_entry.py".
Definition linesep : string := String "010" "".

Definition export_line (kv : string * string) : string :=
  "export " +:+ kv.1 +:+ "=" +:+ quoted kv.2 +:+ linesep.

(** [_create_shell_entrypoint]: the text of the file. *)
Definition create_shell_entrypoint (d : BenchmarkDescriptor) : Res string :=
  let head := SHELL_SHEBANG +:+ linesep +:+ join "" (map export_line (env_vars (env d))) in
  match ml d with
  | None => Raise (AttributeError "'NoneType' object has no attribute 'benchmark_code'")
  | Some m =>
      match ml_benchmark_code m with
      | None => Raise (TypeError "unsupported operand type(s) for +: 'NoneType' and 'str'")
      | Some code => Ok (head +:+ code +:+ linesep)
      end
  end.

(** [_create_python_shell_wrapper]. *)
Definition create_python_shell_wrapper : string :=
  "import os" +:+ linesep +:+ "myCmd = 'chmod 777 tmp_entry.sh && ./tmp_entry.sh'" +:+ linesep
    +:+ "os.system(myCmd)" +:+ linesep.

(** ** The estimator (estimator_factory.py) *)

Definition MPI_OPTIONS : string :=
  "-x HOROVOD_HIERARCHICAL_ALLREDUCE=1 -x HOROVOD_FUSION_THRESHOLD=16777216 -x TF_CPP_MIN_LOG_LEVEL=0".

(** The keyword arguments of the estimators; [ek_mpi] are the processes per host
    and the options of [distributions.mpi]. *)
Record EstimatorKwargs := mkKwargs {
  ek_source_dir : dict string string;
  ek_entry_point : string;
  ek_image_name : string;
  ek_py_version : string;
  ek_framework_version : string;
  ek_train_instance_type : string;
  ek_train_instance_count : Z;
  ek_role : string;
  ek_output_path : string;
  ek_security_group_ids : option (list string);
  ek_subnets : option (list string);
  ek_metric_definitions : option (list (string * string));
  ek_mpi : option (Z * string);
  ek_script_mode : bool;
  ek_hyperparameters : dict string pyval
}.

Definition get_hyper_params (d : BenchmarkDescriptor) : dict string pyval :=
  match custom_params d with Some cp => cp_hyper_params cp | None => [] end.

(** [get_metric_definitions]: names and patterns. *)
Definition get_metric_definitions (d : BenchmarkDescriptor) : list (string * string) :=
  match output d with
  | Some o => map (fun m => (metric_name m, metric_pattern m)) (output_metrics o)
  | None => []
  end.

(** [x or default]. *)
Definition str_or (o : option string) (dflt : string) : string :=
  match o with Some s => if String.eqb s "" then dflt else s | None => dflt end.

(** [_create_common_estimator_args]. *)
Definition create_common_estimator_args (d : BenchmarkDescriptor) (source_dir : dict string string)
    (config : SageMakerExecutorConfig) : Res EstimatorKwargs :=
  let metrics := get_metric_definitions d in
  let py_version := match custom_params d with Some cp => cp_python_version cp | None => Some "" end in
  match ml d, bh_distributed (hardware d) with
  | Some m, Some dist =>
      Ok (mkKwargs source_dir PYTHON_ENTRY_POINT (env_docker_image (env d)) (str_or py_version "py3")
            (str_or (ml_framework_version m) "") (hw_instance_type (bh_hardware (hardware d))) (num_instances dist)
            (sm_role config) ("s3://" +:+ s3_output_bucket config) (security_group_ids config) (subnets config)
            (match metrics with [] => None | _ => Some metrics end) None false [])
  | None, _ => Raise (AttributeError "'NoneType' object has no attribute 'framework_version'")
  | _, None => Raise (AttributeError "'NoneType' object has no attribute 'num_instances'")
  end.

Definition with_mpi (k : EstimatorKwargs) (mpi : option (Z * string)) (script_mode : bool) (hps : dict string pyval) : EstimatorKwargs :=
  mkKwargs (ek_source_dir k) (ek_entry_point k) (ek_image_name k) (ek_py_version k) (ek_framework_version k)
    (ek_train_instance_type k) (ek_train_instance_count k) (ek_role k) (ek_output_path k) (ek_security_group_ids k)
    (ek_subnets k) (ek_metric_definitions k) mpi script_mode hps.

(** [create_tensorflow_estimator] and [create_mxnet_estimator], up to the call
    of the package. *)
Definition tensorflow_kwargs (d : BenchmarkDescriptor) (source_dir : dict string string) (config : SageMakerExecutorConfig)
    : Res EstimatorKwargs :=
  k <~ create_common_estimator_args d source_dir config ;;
  mpi <~ (if bool_decide (bh_strategy (hardware d) = HOROVOD) then
            match bh_processes_per_instance (hardware d) with
            | Some n => Ok (Some (n, MPI_OPTIONS))
            | None => Raise (AttributeError "object has no attribute 'processes_per_instance'")
            end
          else Ok None) ;;
  Ok (with_mpi k mpi true (get_hyper_params d)).

Definition mxnet_kwargs (d : BenchmarkDescriptor) (source_dir : dict string string) (config : SageMakerExecutorConfig)
    : Res EstimatorKwargs :=
  k <~ create_common_estimator_args d source_dir config ;;
  Ok (with_mpi k None false (get_hyper_params d)).

(** The framework and the arguments of the estimator that [create_estimator]
    makes. *)
Definition estimator_call (d : BenchmarkDescriptor) (source_dir : dict string string) (config : SageMakerExecutorConfig)
    : Res (MLFramework * EstimatorKwargs) :=
  match ml d with
  | None => Raise (AttributeError "'NoneType' object has no attribute 'framework'")
  | Some m =>
      match ml_framework m with
      | MXNET => k <~ mxnet_kwargs d source_dir config ;; Ok (MXNET, k)
      | TENSORFLOW => k <~ tensorflow_kwargs d source_dir config ;; Ok (TENSORFLOW, k)
      | NONE => Raise (KeyError (framework_str NONE))
      end
  end.

(** ** The packages *)

(** A metric of a finished training job, as boto3 gives it. *)
Definition FinalMetric `{PyFloat} : Type := dict string jval.

Record TrainingJob `{PyFloat} := mkTrainingJob {
  tj_status : string;
  tj_final_metrics : option (list FinalMetric)
}.

(** [fit] gets the estimator with its volume size, the inputs, whether to wait
    and the name; the result is the name of the latest training job. *)
Class SageMaker `{PyFloat} (X : Type) : Type := {
  session_factory : M X unit;
  estimator : Type;
  new_estimator : MLFramework -> EstimatorKwargs -> M X estimator;
  train_volume_size : estimator -> Z;
  fit : estimator -> Z -> dict string (option string) -> bool -> string -> M X string;
  describe_training_job : option string -> M X TrainingJob;
  stop_training_job : string -> M X unit;
  put_metrics : string -> list FinalMetric -> M X unit;
  download_and_extract : string -> string -> M X (dict string string)
}.

(** ** Sizes *)

(** The literal 1.1, as a multiple of 2^-52. *)
Definition SAFETY_FACTOR : Z := 4953959590107546.

(** [sum([dataset.size_info.total_size for ...])]. *)
Fixpoint total_sizes (datasets : list DownloadableContent) : Res Z :=
  match datasets with
  | [] => Ok 0
  | c :: l =>
      match dc_size_info c with
      | None => Raise (AttributeError "'NoneType' object has no attribute 'total_size'")
      | Some s => n <~ total_sizes l ;; Ok (total_size s + n)
      end
  end.

(** [int(SAFETY_FACTOR * ceil(total / 1024 ** 3))]: the quotient and the product
    are rounded. *)
Definition size_gb (total : Z) : Z :=
  let n := ceil_scaled 30 (round_float total) in
  round_float (n * SAFETY_FACTOR) / 2 ^ 52.

Definition estimate_total_gb (datasets : list DownloadableContent) : Res Z :=
  total <~ total_sizes datasets ;; Ok (size_gb total).

(** ** Inputs *)

Definition dataset_id (inx : nat) (id : option string) : string := str_or id ("src" +:+ pretty inx).

Definition dataset_inputs (datasets : list DownloadableContent) : list (string * option string) :=
  imap (fun i c => (dataset_id i (dc_id c), dc_dst c)) datasets.

(** [_get_estimator_data]: a dict comprehension, or the placeholder. *)
Definition get_estimator_data (datasets : list DownloadableContent) (config : SageMakerExecutorConfig)
    : dict string (option string) :=
  match dict_update [] (dataset_inputs datasets) with
  | [] => [(dataset_id 0 None, Some (s3_nodata config))]
  | data => data
  end.

(** ** The engine (sm_execution_engine.py) *)

(** [metric.pop("Timestamp")], then the dimensions. *)
Definition tag_metric `{PyFloat} (dimensions : jval) (metric : FinalMetric) : Res FinalMetric :=
  match dict_get metric "Timestamp" with
  | None => Raise (KeyError "Timestamp")
  | Some _ => Ok (dict_set (dict_pop metric "Timestamp") "Dimensions" dimensions)
  end.

Definition tag_dimensions `{PyFloat} (labels : dict string string) (metric_data : list FinalMetric) : Res (list FinalMetric) :=
  res_map (tag_metric (JList (map (fun kv => JObj [("Name", JStr kv.1); ("Value", JStr kv.2)]) labels))) metric_data.

(** The fuel of the polling in [merge_metrics] ran out. *)
Definition still_polling : exn := OtherException "still polling" "".

Section Engine.
Context `{SageMaker X} {C : CloudWatch X}.
Context (cron_is_valid : option string -> bool).
Context (dacite_from_dict : DaciteArgs -> list (string * pyval) -> Res BenchmarkDescriptor).
Context (config : SageMakerExecutorConfig) (polls : nat).

(** [_download_script]: the files of the archive. *)
Definition download_script (file_obj : FileSystemObject) : M X (dict string string) :=
  parsed_uri <- lift (urlparse (fso_dst file_obj)) ;;
  download_and_extract (netloc parsed_uri) (str_drop 1 (path parsed_uri)).

Fixpoint download_scripts (files : dict string string) (scripts : list FileSystemObject) : M X (dict string string) :=
  match scripts with
  | [] => ret files
  | f :: l => extracted <- download_script f ;; download_scripts (dict_update files extracted) l
  end.

(** [ScriptSourceDirectory.create]: the files of the directory. *)
Definition source_dir_create (d : BenchmarkDescriptor) (scripts : list FileSystemObject) : M X (dict string string) :=
  entry <- lift (create_shell_entrypoint d) ;;
  download_scripts [(SHELL_ENTRY_POINT, entry); (PYTHON_ENTRY_POINT, create_python_shell_wrapper)] scripts.

(** [create_estimator]. *)
Definition create_estimator (d : BenchmarkDescriptor) (source_dir : dict string string) : M X estimator :=
  '(framework, kwargs) <- lift (estimator_call d source_dir config) ;;
  new_estimator framework kwargs.

(** [while "FinalMetricDataList" not in data]. *)
Fixpoint final_metrics (fuel : nat) (job_name : option string) : M X (list FinalMetric) :=
  match fuel with
  | O => raise still_polling
  | S n =>
      data <- describe_training_job job_name ;;
      match tj_final_metrics data with
      | Some l => ret l
      | None => final_metrics n job_name
      end
  end.

Definition metric_name_of (metric : FinalMetric) : Res string :=
  match dict_get metric "MetricName" with
  | Some (JStr s) => Ok s
  | Some _ => Raise (TypeError "")
  | None => Raise (KeyError "MetricName")
  end.

(** [merge_metrics]. *)
Definition merge_metrics (d : BenchmarkDescriptor) (cp : CustomParamsDescriptor) : M X unit :=
  data <- final_metrics polls (cp_sagemaker_job_name cp) ;;
  labels <- lift (match info_labels (info d) with
                  | Some l => Ok l
                  | None => Raise (TypeError "'NoneType' object is not iterable")
                  end) ;;
  metric_data <- lift (tag_dimensions labels data) ;;
  put_metrics NAMESPACE metric_data ;;
  if str_truthy (cp_dashboard cp) then
    let labels := dict_set labels "dashboard-name" (default "" (cp_dashboard cp)) in
    let labels := dict_set labels "region" (str_or (cp_region cp) DEFAULT_REGION) in
    for_each (fun metric => m <- lift (metric_name_of metric) ;; check_dashboard labels m) metric_data
  else ret tt.

(** The job's name, and whether its metrics are merged. *)
Definition job_name_of (d : BenchmarkDescriptor) (event : Event) : string :=
  match custom_params d with
  | Some cp => str_or (cp_sagemaker_job_name cp) (action_id event)
  | None => action_id event
  end.

Definition merges (d : BenchmarkDescriptor) : option CustomParamsDescriptor :=
  match custom_params d with
  | Some cp => if default false (cp_merge cp) then Some cp else None
  | None => None
  end.

(** The second [try] of [run]. *)
Definition fit_job (d : BenchmarkDescriptor) (event : Event) (est : estimator) (volume : Z)
    (data : dict string (option string)) : M X string :=
  try_except
    (match merges d with
     | Some cp =>
         name <- fit est volume data true (job_name_of d event) ;;
         merge_metrics d cp ;;
         ret name
     | None => fit est volume data false (job_name_of d event)
     end)
    (fun err => match err with
                | ClientError msg =>
                    raise (ExecutionEngineException ("Benchmark creation failed. SageMaker returned error: " +:+ msg))
                | _ => raise err
                end).

(** [SageMakerExecutionEngine.run]. *)
Definition sm_run (event : Event) : M X BenchmarkJob :=
  p <- lift (as_fetcher_payload (payload event)) ;;
  d <- try_except (lift (from_dict cron_is_valid dacite_from_dict (doc_contents (fp_toml p)) (Some CONFIG)))
         (fun e => match e with
                   | DescriptorError _ => raise (ExecutionEngineException "Cannot process the request")
                   | _ => raise e
                   end) ;;
  files <- source_dir_create d (fp_scripts p) ;;
  session_factory ;;
  est <- try_except (create_estimator d files)
           (fun _ => raise (ExecutionEngineException "Cannot create estimator")) ;;
  total_size_gb <- lift (estimate_total_gb (fp_datasets p)) ;;
  let volume := Z.max (train_volume_size est) total_size_gb in
  let data := get_estimator_data (fp_datasets p) config in
  name <- fit_job d event est volume data ;;
  ret (mkJob name None []).

(** [SageMakerExecutionEngine.cancel]. *)
Definition sm_cancel (client_id action_id : string) (cascade : bool) : M X pyval :=
  try_except
    (training_job <- describe_training_job (Some action_id) ;;
     if String.eqb (tj_status training_job) "InProgress" then stop_training_job action_id else ret tt)
    (fun err => match err with
                | ClientError msg =>
                    if is_not_found_error msg then raise (NoResourcesFoundException action_id)
                    else raise (ExecutionEngineException (str_of_exn err))
                | _ => raise err
                end) ;;
  ret VNone.

Definition sm_engine : ExecutionEngine X := mkEngine sm_run sm_cancel.
End Engine.

(** [create_execution_engines]. *)
Definition sm_engines (engine : nat) : dict string nat := [(ENGINE_ID, engine)].

(** ** Sizes: the floats are exact *)

Lemma size_gb_value total :
  0 <= total < 2 ^ 53 -> let gb := ceil_div total (2 ^ 30) in
  size_gb total = 11 * gb / 10 /\ total <= gb * 2 ^ 30.
Proof.
  intros Ht. cbv zeta. pose proof (ceil_div_spec total (2 ^ 30) ltac:(lia)) as Hc.
  assert (Hn : ceil_scaled 30 (round_float total) = ceil_div total (2 ^ 30)).
  { rewrite round_float_nonneg by lia. unfold round53. destruct (Z.ltb_spec total (2 ^ 53)); [|lia].
    apply ceil_scaled_spec; lia. }
  unfold size_gb. rewrite Hn. set (gb := ceil_div total (2 ^ 30)) in *.
  assert (Hgb : 0 <= gb < 2 ^ 24) by (change (2 ^ 53) with (2 ^ 23 * 2 ^ 30) in Ht; nia).
  clearbody gb. clear Hn.
  set (n := gb * SAFETY_FACTOR). assert (E : 10 * n = 11 * gb * 2 ^ 52 + 4 * gb) by (unfold n, SAFETY_FACTOR; lia).
  assert (Hn0 : 0 <= n) by (unfold n, SAFETY_FACTOR; lia). clearbody n.
  pose proof (Z.div_mod (11 * gb) 10 ltac:(lia)) as Hdm. pose proof (Z.mod_pos_bound (11 * gb) 10 ltac:(lia)) as Hm.
  set (q := 11 * gb / 10) in *. set (r := 11 * gb mod 10) in *. clearbody q r.
  assert (Hlow : q * 2 ^ 52 <= round53 n).
  { apply round53_lower_mult; [|lia|lia]. change (2 ^ (52 + 53)) with (2 ^ 53 * 2 ^ 52).
    change (2 ^ 24) with 16777216 in *. change (2 ^ 53) with 9007199254740992. lia. }
  pose proof (round53_error n Hn0) as Hup.
  assert (Hq : round_float n / 2 ^ 52 = q).
  { rewrite round_float_nonneg by done. symmetry. apply Z.div_unique with (round53 n - q * 2 ^ 52); [left|lia].
    change (2 ^ 52) with 4503599627370496 in *. change (2 ^ 53) with 9007199254740992 in *.
    change (2 ^ 24) with 16777216 in *. lia. }
  split; [done|lia].
Qed.


Lemma size_gb_holds total : 0 <= total < 2 ^ 53 -> total <= size_gb total * 2 ^ 30.
Proof.
  intros Ht. destruct (size_gb_value total Ht) as [-> Hc]. revert Hc. set (gb := ceil_div _ _). intros Hc.
  pose proof (Z.div_mod (11 * gb) 10 ltac:(lia)) as Hdm. pose proof (Z.mod_pos_bound (11 * gb) 10 ltac:(lia)) as Hm.
  set (q := 11 * gb / 10) in *. assert (0 <= gb) by lia. assert (gb <= q) by lia. lia.
Qed.

(** C29: the volume size computed with floats is exactly eleven tenths of the
    whole gigabytes, rounded down: it always holds the data, and below ten
    gigabytes the safety factor adds nothing. *)
Theorem size_gb_exact total (Ht : 0 <= total < 2 ^ 53) :
  let gb := ceil_div total (2 ^ 30) in
  size_gb total = 11 * gb / 10 /\ total <= size_gb total * 2 ^ 30 /\ (gb < 10 -> size_gb total = gb).
Proof.
  cbv zeta. destruct (size_gb_value total Ht) as [Hv Hc]. split; [done|]. split; [by apply size_gb_holds|].
  intros Hlt. rewrite Hv. revert Hlt Hc. set (gb := ceil_div _ _). intros Hlt Hc.
  symmetry. apply Z.div_unique with gb; lia.
Qed.

(** ** What a run asks of SageMaker *)

Section Run.
Context `{SageMaker X} {C : CloudWatch X}.
Context (cron_is_valid : option string -> bool).
Context (dacite_from_dict : DaciteArgs -> list (string * pyval) -> Res BenchmarkDescriptor).
Context (config : SageMakerExecutorConfig) (polls : nat).

#[local] Notation run := (sm_run cron_is_valid dacite_from_dict config polls).
#[local] Notation accepted contents := (from_dict cron_is_valid dacite_from_dict contents (Some CONFIG)).

(** The arguments of the estimator, from the descriptor. *)
Record kwargs_of (d : BenchmarkDescriptor) (files : dict string string) (framework : MLFramework) (k : EstimatorKwargs) : Prop := {
  kw_framework : exists m, ml d = Some m /\ framework = ml_framework m /\ ek_framework_version k = default "" (ml_framework_version m);
  kw_known : framework = TENSORFLOW \/ framework = MXNET;
  kw_source : ek_source_dir k = files /\ ek_entry_point k = "tmp_entry.py";
  kw_image : ek_image_name k = env_docker_image (env d);
  kw_instance_type : ek_train_instance_type k = hw_instance_type (bh_hardware (hardware d));
  kw_instance_count : num_instances <$> bh_distributed (hardware d) = Some (ek_train_instance_count k);
  kw_placement : ek_role k = sm_role config /\ ek_security_group_ids k = security_group_ids config /\ ek_subnets k = subnets config;
  kw_hyperparameters : ek_hyperparameters k = get_hyper_params d;
  kw_metrics : default [] (ek_metric_definitions k) = get_metric_definitions d;
  kw_mpi : ek_mpi k <> None <-> framework = TENSORFLOW /\ bh_strategy (hardware d) = HOROVOD;
  kw_processes : forall n o, ek_mpi k = Some (n, o) -> bh_processes_per_instance (hardware d) = Some n
}.

Lemma str_or_empty o : str_or o "" = default "" o.
Proof. destruct o as [s|]; [|done]. simpl. by destruct (String.eqb_spec s "") as [->|]. Qed.

Lemma common_args d files k :
  create_common_estimator_args d files config = Ok k -> exists m, ml d = Some m /\
    num_instances <$> bh_distributed (hardware d) = Some (ek_train_instance_count k) /\
    k = mkKwargs files PYTHON_ENTRY_POINT (env_docker_image (env d)) (ek_py_version k) (default "" (ml_framework_version m))
          (hw_instance_type (bh_hardware (hardware d))) (ek_train_instance_count k) (sm_role config)
          ("s3://" +:+ s3_output_bucket config) (security_group_ids config) (subnets config)
          (match get_metric_definitions d with [] => None | _ => Some (get_metric_definitions d) end) None false [].
Proof.
  unfold create_common_estimator_args. destruct (ml d) as [m|]; [|done].
  destruct (bh_distributed (hardware d)) as [dist|]; [|done]. intros [= <-]. exists m. split_and!; [done..|].
  by rewrite str_or_empty.
Qed.

Lemma estimator_call_spec d files framework k :
  estimator_call d files config = Ok (framework, k) -> kwargs_of d files framework k.
Proof.
  unfold estimator_call, mxnet_kwargs, tensorflow_kwargs. destruct (ml d) as [m|] eqn:Em; [|done].
  assert (Hmd : forall l : list (string * string), default [] (match l with [] => None | _ => Some l end) = l) by by intros [].
  destruct (ml_framework m) eqn:Ef; [| |done]; intros (k1 & Hk1 & [= <- <-])%res_bind_Ok.
  all: apply res_bind_Ok in Hk1 as (k0 & (m' & Em' & Hn & Hk0)%common_args & Hk1); rewrite Em in Em'; injection Em' as <-.
  all: rewrite Hk0 in Hk1.
  - apply res_bind_Ok in Hk1 as (mpi & Hmpi & [= <-]). rewrite Hk0 in Hn.
    assert (Hm : (mpi <> None <-> bh_strategy (hardware d) = HOROVOD) /\
                 forall n o, mpi = Some (n, o) -> bh_processes_per_instance (hardware d) = Some n).
    { case_bool_decide; [destruct (bh_processes_per_instance _)|]; naive_solver. }
    destruct Hm as [Hm1 Hm2]. constructor; cbn; auto.
    + by exists m.
    + rewrite Hm1. naive_solver.
  - injection Hk1 as <-. rewrite Hk0 in Hn. constructor; cbn; auto; [by exists m| |done]. naive_solver.
Qed.

(** The last step of a run, once the descriptor is accepted, the sources are in
    place and the estimator is made. *)
Lemma sm_run_Ok event s job s' :
  run event s = (Ok job, s') <->
  exists p d files s1 s2 s3 framework k est total,
    as_fetcher_payload (payload event) = Ok p /\ accepted (doc_contents (fp_toml p)) = Ok d /\
    source_dir_create d (fp_scripts p) s = (Ok files, s1) /\ session_factory s1 = (Ok tt, s2) /\
    estimator_call d files config = Ok (framework, k) /\ new_estimator framework k s2 = (Ok est, s3) /\
    total_sizes (fp_datasets p) = Ok total /\
    fit_job polls d event est (Z.max (train_volume_size est) (size_gb total)) (get_estimator_data (fp_datasets p) config) s3 =
      (Ok (job_id job), s') /\ job = mkJob (job_id job) None [].
Proof.
  unfold sm_run, create_estimator, estimate_total_gb. split.
  - intros Hr. run_inv Hr. injection Hr as <- <-.
    match goal with Hf : try_except (lift _) _ _ = _ |- _ =>
      apply try_except_Ok in Hf as [Hd ->]%lift_Ok; [|by intros [] ?] end.
    match goal with He : try_except _ _ _ = _ |- _ =>
      apply try_except_Ok in He; [|done]; apply bind_Ok in He as ([framework k] & ? & [Hk ->]%lift_Ok & He) end.
    match goal with Ht : res_bind _ _ = _ |- _ => apply res_bind_Ok in Ht as (total & Ht & [= <-]) end.
    match goal with Hs : session_factory _ = (Ok ?u, _) |- _ => destruct u end.
    do 10 eexists. cbn [job_id]. split_and!; done.
  - intros (p & d & files & s1 & s2 & s3 & fw & k & est & total & Hp & Hd & Hs & Hsess & Hk & He & Ht & Hfit & Hj).
    unfold bind, lift, try_except. rewrite Hp, Hd, Hs, Hsess, Hk, He, Ht. cbn [res_bind]. rewrite Hfit, Hj. done.
Qed.

Lemma dataset_inputs_data datasets :
  NoDup (dataset_inputs datasets).*1 -> datasets <> [] ->
  get_estimator_data datasets config = dataset_inputs datasets.
Proof.
  intros Hnd Hne. unfold get_estimator_data. rewrite dict_update_disjoint; [|done|intros ? _ ?%elem_of_nil; done].
  by destruct datasets.
Qed.

(** C7: a returned job was asked for as the descriptor says.  The descriptor
    passed the validation under the engine's own configuration; the estimator
    has its framework, image, instance type and count, metrics and
    hyperparameters, with one MPI process per requested slot exactly for
    TensorFlow under Horovod; the volume holds the data; datasets with different
    identifiers are all passed on; and the instances are at least two, even for
    the strategy single_node. *)
Theorem sm_run_spec event s job s'
    (Hdacite : dacite_constructs dacite_from_dict) (Hrun : run event s = (Ok job, s')) :
  exists p d files framework k est volume data s3,
    as_fetcher_payload (payload event) = Ok p /\ accepted (doc_contents (fp_toml p)) = Ok d /\
    valid_descriptor cron_is_valid d /\ strategy_value (bh_strategy (hardware d)) ∈ ["single_node"; "horovod"] /\
    kwargs_of d files framework k /\ 2 <= ek_train_instance_count k /\
    (exists s2, new_estimator framework k s2 = (Ok est, s3)) /\
    (forall total, total_sizes (fp_datasets p) = Ok total -> 0 <= total < 2 ^ 53 -> total <= volume * 2 ^ 30) /\
    train_volume_size est <= volume /\
    (fp_datasets p = [] -> data = [("src0", Some (s3_nodata config))]) /\
    (fp_datasets p <> [] -> NoDup (dataset_inputs (fp_datasets p)).*1 -> data = dataset_inputs (fp_datasets p)) /\
    fit_job polls d event est volume data s3 = (Ok (job_id job), s').
Proof.
  apply sm_run_Ok in Hrun as (p & d & files & s1 & s2 & s3 & fw & k & est & total & Hp & Hd & _ & _ & Hk & He & Ht & Hfit & _).
  destruct (from_dict_accepts _ _ _ _ _ Hdacite Hd) as (Hv & _ & Hcfg). destruct (Hcfg _ eq_refl) as [Hst _].
  apply estimator_call_spec in Hk. exists p, d, files, fw, k, est.
  exists (Z.max (train_volume_size est) (size_gb total)), (get_estimator_data (fp_datasets p) config), s3. split_and!; try done.
  - pose proof (kw_instance_count _ _ _ _ Hk) as Hn. destruct (bh_distributed (hardware d)) as [dist|] eqn:Edist; [|done].
    injection Hn as <-. pose proof (valid_instances _ _ Hv dist Edist). lia.
  - by exists s2.
  - intros total' Ht' Hb. rewrite Ht in Ht'. injection Ht' as <-. pose proof (size_gb_holds total Hb).
    pose proof (Z.le_max_r (train_volume_size est) (size_gb total)). nia.
  - lia.
  - by intros ->.
  - intros ? ?. by apply dataset_inputs_data.
Qed.

(** C30: the errors of a run.  A rejected descriptor, any failure of the
    estimator's construction and a client error of [fit] become engine
    exceptions, which the executor reports; an error while the scripts are
    downloaded leaves the engine as it is. *)
Theorem sm_run_errors event s p (Hp : as_fetcher_payload (payload event) = Ok p) :
  (forall msg, accepted (doc_contents (fp_toml p)) = Raise (DescriptorError msg) ->
     run event s = (Raise (ExecutionEngineException "Cannot process the request"), s)) /\
  forall d, accepted (doc_contents (fp_toml p)) = Ok d ->
    (forall e s1, source_dir_create d (fp_scripts p) s = (Raise e, s1) -> run event s = (Raise e, s1)) /\
    forall files s1 s2, source_dir_create d (fp_scripts p) s = (Ok files, s1) -> session_factory s1 = (Ok tt, s2) ->
      (forall e s3, create_estimator config d files s2 = (Raise e, s3) ->
         run event s = (Raise (ExecutionEngineException "Cannot create estimator"), s3)) /\
      (forall est s3 total msg s4, create_estimator config d files s2 = (Ok est, s3) ->
         total_sizes (fp_datasets p) = Ok total -> merges d = None ->
         fit est (Z.max (train_volume_size est) (size_gb total)) (get_estimator_data (fp_datasets p) config) false
             (job_name_of d event) s3 = (Raise (ClientError msg), s4) ->
         run event s =
           (Raise (ExecutionEngineException ("Benchmark creation failed. SageMaker returned error: " +:+ msg)), s4)).
Proof.
  split.
  - intros msg Hd. unfold sm_run, bind, lift, try_except. by rewrite Hp, Hd.
  - intros d Hd. split.
    + intros e s1 Hs. unfold sm_run, bind, lift, try_except. by rewrite Hp, Hd, Hs.
    + intros files s1 s2 Hs Hsess. split.
      * intros e s3 He. unfold sm_run. unfold bind, lift, try_except. by rewrite Hp, Hd, Hs, Hsess, He.
      * intros est s3 total msg s4 He Ht Hm Hfit. match type of Hfit with fit _ ?volume ?data _ _ _ = _ =>
          assert (Hf : fit_job polls d event est volume data s3 =
                       (Raise (ExecutionEngineException ("Benchmark creation failed. SageMaker returned error: " +:+ msg)), s4))
            by (unfold fit_job; rewrite Hm; unfold try_except; by rewrite Hfit) end.
        unfold sm_run, estimate_total_gb, bind, lift, try_except. rewrite Hp, Hd, Hs, Hsess, He, Ht. cbn [res_bind].
        by rewrite Hf.
Qed.

(** When its client only raises client errors, the engine keeps the promise of
    the interface; and only a job in progress is stopped. *)
Lemma sm_cancel_cases client action cascade s :
  (forall n x e x1, describe_training_job n x = (Raise e, x1) -> exists msg, e = ClientError msg) ->
  (forall n x e x1, stop_training_job n x = (Raise e, x1) -> exists msg, e = ClientError msg) ->
  (forall e s', sm_cancel client action cascade s = (Raise e, s') -> is_ExecutionEngineException e = true) /\
  (forall tj s1, describe_training_job (Some action) s = (Ok tj, s1) -> tj_status tj <> "InProgress" ->
     sm_cancel client action cascade s = (Ok VNone, s1)).
Proof.
  intros Hdesc Hstop. split.
  - intros e s' Hc. unfold sm_cancel, bind, try_except in Hc.
    destruct (describe_training_job (Some action) s) as [[tj|e1] s1] eqn:Ed.
    + destruct (String.eqb _ _); [|done]. destruct (stop_training_job action s1) as [[[]|e1] s2] eqn:Es; [done|].
      destruct (Hstop _ _ _ _ Es) as [msg ->]. by destruct (is_not_found_error msg); injection Hc as <- <-.
    + destruct (Hdesc _ _ _ _ Ed) as [msg ->]. by destruct (is_not_found_error msg); injection Hc as <- <-.
  - intros tj s1 Hd Hst. unfold sm_cancel, bind, try_except. rewrite Hd.
    by destruct (String.eqb_spec (tj_status tj) "InProgress").
Qed.
End Run.

(** ** The jobs of an account

    What the SageMaker API documents of the training jobs: names are unique and
    never reused, a started job is in progress, and the two other calls fail
    for a name without a job. *)

Definition NOT_FOUND_MESSAGE : string := "Requested resource not found.".

Class TrainingJobs `{SageMaker X} : Type := {
  jobs : X -> dict string string;
  fit_starts : forall est volume data name x n x1, fit est volume data false name x = (Ok n, x1) ->
    n = name /\ dict_get (jobs x) name = None /\ jobs x1 = dict_set (jobs x) name "InProgress";
  describe_job : forall name st x, dict_get (jobs x) name = Some st ->
    exists metrics, describe_training_job (Some name) x = (Ok (mkTrainingJob _ st metrics), x);
  describe_no_job : forall name x, dict_get (jobs x) name = None ->
    describe_training_job (Some name) x = (Raise (ClientError NOT_FOUND_MESSAGE), x);
  stop_job : forall name x, dict_get (jobs x) name = Some "InProgress" ->
    exists x1, stop_training_job name x = (Ok tt, x1) /\ jobs x1 = dict_set (jobs x) name "Stopping"
}.

Section Lifecycle.
Context `{TrainingJobs X} {C : CloudWatch X}.
Context (cron_is_valid : option string -> bool).
Context (dacite_from_dict : DaciteArgs -> list (string * pyval) -> Res BenchmarkDescriptor).
Context (config : SageMakerExecutorConfig) (polls : nat).

(** C8: submitting and cancelling.  A run that does not merge metrics leaves a
    job in progress; cancelling its action stops that job, exactly when the
    job's name is the action's id.  A job with a name of its own, as the
    descriptor may ask for, is not found by the cancellation and goes on. *)
Theorem sm_cancel_of_run event s job s1 client cascade p d
    (Hp : as_fetcher_payload (payload event) = Ok p)
    (Hd : from_dict cron_is_valid dacite_from_dict (doc_contents (fp_toml p)) (Some CONFIG) = Ok d)
    (Hm : merges d = None)
    (Hrun : sm_run cron_is_valid dacite_from_dict config polls event s = (Ok job, s1)) :
  job_id job = job_name_of d event /\ dict_get (jobs s1) (job_id job) = Some "InProgress" /\
  (job_id job = action_id event ->
     exists s2, sm_cancel client (action_id event) cascade s1 = (Ok VNone, s2) /\
       jobs s2 = dict_set (jobs s1) (job_id job) "Stopping") /\
  (dict_get (jobs s1) (action_id event) = None ->
     sm_cancel client (action_id event) cascade s1 = (Raise (NoResourcesFoundException (action_id event)), s1)).
Proof.
  apply sm_run_Ok in Hrun as (p' & d' & files & x1 & x2 & x3 & fw & k & est & total & Hp' & Hd' & _ & _ & _ & _ & _ & Hfit & _).
  rewrite Hp in Hp'. injection Hp' as <-. rewrite Hd in Hd'. injection Hd' as <-.
  unfold fit_job in Hfit. rewrite Hm in Hfit. apply try_except_Ok in Hfit; [|by intros [] ?].
  apply fit_starts in Hfit as (Hn & _ & Hj).
  assert (Hget : dict_get (jobs s1) (job_id job) = Some "InProgress") by (by rewrite Hj, Hn, dict_get_set_eq).
  split_and!; [done|done| |].
  - intros Ha. rewrite Ha in Hget |- *. destruct (describe_job _ _ _ Hget) as [metrics Hdesc].
    destruct (stop_job _ _ Hget) as (s2 & Hstop & Hj2). exists s2. split; [|done].
    unfold sm_cancel, bind, try_except. rewrite Hdesc. cbn [tj_status].
    by rewrite String.eqb_refl, Hstop.
  - intros Hnone. unfold sm_cancel, bind, try_except. by rewrite (describe_no_job _ _ Hnone).
Qed.
End Lifecycle.

Module Witness.
#[local] Existing Instance literal_floats.

(** The account: the jobs by their names. *)
Definition Account : Type := dict string string.

Definition fit0 (name : string) : M Account string := fun x =>
  match dict_get x name with
  | Some _ => (Raise (ClientError "Training job names must be unique"), x)
  | None => (Ok name, dict_set x name "InProgress")
  end.

#[local] Instance sagemaker0 : SageMaker Account := {|
  session_factory := ret tt;
  estimator := MLFramework * EstimatorKwargs;
  new_estimator framework k := ret (framework, k);
  train_volume_size _ := 30;
  fit _ _ _ _ name := fit0 name;
  describe_training_job name := fun x =>
    match dict_get x (default "" name) with
    | Some st => (Ok (mkTrainingJob _ st None), x)
    | None => (Raise (ClientError NOT_FOUND_MESSAGE), x)
    end;
  stop_training_job name := modify (fun x => dict_set x name "Stopping");
  put_metrics _ _ := ret tt;
  download_and_extract bucket key := if String.eqb bucket "" then raise (ClientError "NoSuchBucket") else ret [(key, "")]
|}.

#[local] Instance cloud0 : CloudWatch Account := {|
  put_metric_data _ _ := ret tt;
  list_dashboards := ret [];
  get_dashboard _ := raise (ClientError "ResourceNotFound");
  put_dashboard _ _ := ret "{}"
|}.

#[local] Instance account_jobs : TrainingJobs.
Proof.
  refine {| jobs (x : Account) := x |}.
  - intros est volume data name x n x1. cbn [fit sagemaker0]. unfold fit0.
    destruct (dict_get x name) eqn:E; [done|]. by intros [= <- <-].
  - intros name st x Hx. exists None. cbn in *. by rewrite Hx.
  - intros name x Hx. cbn in *. by rewrite Hx.
  - intros name x _. by eexists.
Defined.

Definition config1 : SageMakerExecutorConfig :=
  create_executor_config (mkSmArgs "bucket" "role" None "s3://none" (Some "subnet-1,subnet-2") None None (Some "horovod") None).

(** A converter for the key instance_type and an optional job name. *)
Definition dacite1 (args : DaciteArgs) (contents : list (string * pyval)) : Res BenchmarkDescriptor :=
  it <~ Descriptor.Witness.str_field contents "instance_type" ;;
  hw <~ new_bench_hardware args it None None SINGLE_NODE (Some (mkDistributed 2 "1")) ;;
  new_descriptor args
    (mkDescriptor "0.1.0" (mkInfo "d" None (Some EE_SAGEMAKER) (Some "single_run") (Some [("team", "a-1")]))
       hw (mkEnvDesc "img" false true []) None
       (Some (mkML TENSORFLOW (Some "python train.py") None (Some "1.12") None)) None
       (match Descriptor.Witness.str_field contents "job" with
        | Ok job => Some (mkCustomParams None (Some job) None None None [])
        | Raise _ => None
        end) None).

Lemma dacite1_constructs : dacite_constructs dacite1.
Proof.
  intros args contents d. unfold dacite1, res_bind.
  destruct (Descriptor.Witness.str_field contents "instance_type") as [it|]; [|done].
  destruct (new_bench_hardware _ _ _ _ _ _) as [hw|] eqn:E; [|done].
  intros Hd. eexists (mkDescriptor _ _ hw _ _ _ _ _ _). by exists it, None, None, SINGLE_NODE, (Some (mkDistributed 2 "1")).
Qed.

Definition datasets0 : list DownloadableContent :=
  [mkContent "http://src" "/data" None None (Some "s3://bucket/data") None None None
     (Some (mkSize 12000000000 3 5000000000))].

Definition submission1 (extra : list (string * pyval)) (scripts : list FileSystemObject) : Event :=
  event0 (PFetcher (mkFetcherPayload (doc0 ([("instance_type", VStr "p3.8xlarge")] ++ extra)%list) datasets0 [] scripts)).

Definition run1 (event : Event) : M Account BenchmarkJob := sm_run (fun _ => false) dacite1 config1 0 event.

Lemma size_gb_exact_witness : 0 <= 12000000000 < 2 ^ 53 /\ size_gb 12000000000 = 13.
Proof.
  split; [lia|]. destruct (size_gb_exact 12000000000 ltac:(lia)) as (-> & _). reflexivity.
Defined.

Lemma sm_run_spec_witness :
  exists d files framework k volume, ek_train_instance_count k = 2 /\ bh_strategy (hardware d) = SINGLE_NODE /\
    kwargs_of config1 d files framework k /\ 12000000000 <= volume * 2 ^ 30.
Proof.
  destruct (sm_run_spec (fun _ => false) dacite1 config1 0 (submission1 [] []) [] (mkJob "action" None []) [("action", "InProgress")]
    dacite1_constructs) as (p & d & files & fw & k & est & volume & data & s3 & Hp & Hd & _ & _ & Hk & _ & _ & Hv & _).
  - vm_compute. reflexivity.
  - injection Hp as <-. exists d, files, fw, k, volume.
    assert (Hd' : bh_strategy (hardware d) = SINGLE_NODE /\ num_instances <$> bh_distributed (hardware d) = Some 2)
      by (vm_compute in Hd; injection Hd as <-; by vm_compute).
    destruct Hd' as [Hs Hn]. rewrite (kw_instance_count _ _ _ _ _ Hk) in Hn. injection Hn as Hn.
    split_and!; [exact Hn|exact Hs|exact Hk|]. by apply Hv.
Defined.

(** A script that cannot be downloaded ends the handler with a client error. *)
Lemma sm_run_errors_witness :
  run1 (submission1 [] [mkFso "no-bucket"]) [] = (Raise (ClientError "NoSuchBucket"), []).
Proof.
  destruct (from_dict (fun _ => false) dacite1 [("instance_type", VStr "p3.8xlarge")] (Some CONFIG)) as [d|] eqn:Hd;
    [|vm_compute in Hd; discriminate].
  apply (proj2 (sm_run_errors (fun _ => false) dacite1 config1 0 (submission1 [] [mkFso "no-bucket"]) [] _ eq_refl) d Hd).
  vm_compute in Hd. injection Hd as <-. vm_compute. reflexivity.
Defined.

(** A job with a name of its own goes on after its cancellation. *)
Lemma sm_cancel_of_run_witness :
  exists job s1, run1 (submission1 [("job", VStr "mine")] []) [] = (Ok job, s1) /\
    sm_cancel "client" "action" false s1 = (Raise (NoResourcesFoundException "action"), s1) /\
    dict_get s1 "mine" = Some "InProgress".
Proof.
  destruct (from_dict (fun _ => false) dacite1 [("instance_type", VStr "p3.8xlarge"); ("job", VStr "mine")] (Some CONFIG)) as [d|] eqn:Hd;
    [|vm_compute in Hd; discriminate].
  destruct (run1 (submission1 [("job", VStr "mine")] []) []) as [[job|] s1] eqn:Hr; [|vm_compute in Hr; discriminate].
  exists job, s1. split; [done|].
  destruct (sm_cancel_of_run (fun _ => false) dacite1 config1 0 (submission1 [("job", VStr "mine")] []) [] job s1 "client" false
    _ d eq_refl Hd) as (Hj & Hget & _ & Hnone).
  - vm_compute in Hd. by injection Hd as <-.
  - exact Hr.
  - vm_compute in Hr. injection Hr as <- <-. split; [by apply Hnone|exact Hget].
Defined.
End Witness.

(** Two datasets where the identifier of one is the default of the other: one of
    them is lost. *)
Example dataset_lost :
  let c id dst := mkContent "" "" id None (Some dst) None None None None in
  get_estimator_data [c (Some "src1") "s3://a"; c None "s3://b"] Witness.config1 = [("src1", Some "s3://b")].
Proof. reflexivity. Qed.
