(* ===== verification/Watcher.v ===== *)
(** * The watcher and the job-status trigger

    bai_watcher (job_watcher.py, kafka_service_watcher.py): a thread per job
    polls its status and reports it until the job is over; and
    bai_job_status_trigger, which waits for a job to reach a status before it
    runs a command. *)

From S2P Require Import Prelude PyStr Events KafkaService Descriptor JobStatus.

#[local] Arguments String.append !_ _ /.

(** ** str.format

    Replacement fields with plain names; doubled braces stand for braces. *)
Fixpoint format_loop (fields : dict string string) (s : string) (field : option string) : Res string :=
  match s, field with
  | "", None => Ok ""
  | "", Some _ => Raise (ValueError "expected '}' before end of string")
  | String "{" (String "{" r), None => t <~ format_loop fields r None ;; Ok (String "{" t)
  | String "{" r, None => format_loop fields r (Some "")
  | String "}" (String "}" r), None => t <~ format_loop fields r None ;; Ok (String "}" t)
  | String "}" _, None => Raise (ValueError "Single '}' encountered in format string")
  | String "}" r, Some name =>
      match dict_get fields name with
      | None => Raise (KeyError name)
      | Some v => t <~ format_loop fields r None ;; Ok (v +:+ t)
      end
  | String c r, Some name => format_loop fields r (Some (name +:+ String c ""))
  | String c r, None => t <~ format_loop fields r None ;; Ok (String c t)
  end.
Definition py_format (template : string) (fields : dict string string) : Res string :=
  format_loop fields template None.

(** ** job_watcher.py *)

Section JobWatcher.
Context {S : Type} (get_status : M S BenchmarkJobStatus) (callback : BenchmarkJobStatus -> M S bool).

(** [_thread_run_loop], for the first [n] turns: [None] when it still watches,
    otherwise [get_result()]. *)
Fixpoint thread_run_loop (n : nat) : M S (option (bool * option exn)) :=
  match n with
  | O => ret None
  | Datatypes.S n =>
      stop_watching <- try_except
        (status <- get_status ;; b <- callback status ;; ret (inl b))
        (fun err => ret (inr err)) ;;
      match stop_watching with
      | inl true => ret (Some (true, None))
      | inl false => thread_run_loop n
      | inr err => ret (Some (false, Some err))
      end
  end.

Lemma thread_turn n s s1 s2 st b :
  get_status s = (Ok st, s1) -> callback st s1 = (Ok b, s2) ->
  thread_run_loop (Datatypes.S n) s = if b then (Ok (Some (true, None)), s2) else thread_run_loop n s2.
Proof.
  intros Hg Hc. cbn [thread_run_loop]. unfold bind at 1, try_except, bind. rewrite Hg, Hc. by destruct b.
Qed.
End JobWatcher.

(** ** kafka_service_watcher.py *)

Record WatcherServiceConfig := mkWatcherConfig {
  grafana_endpoint : option string;
  grafana_results_url : option string;
  grafana_op_metrics_dashboard_uid : option string;
  kubernetes_namespace_of_running_jobs : string;
  kubeconfig : option string;
  watcher_logging_level : string
}.

(** A started watcher: the event it reports about, and the kind of job. *)
Record Watch := mkWatch { watch_event : Event; watch_k8s : bool }.

(** The state of the handler: [self.watchers], the [job_start_time] that the
    callback of each watcher closes over, and the outside world. *)
Record WX (W : Type) := mkWX {
  wx_watchers : dict string Watch;
  wx_start : dict string Z;
  wx_world : W
}.
Arguments mkWX {W}.
Arguments wx_watchers {W}.
Arguments wx_start {W}.
Arguments wx_world {W}.

Section WatchJobs.
Context `{Env} `{ContainerOrder} {W : Type} `{ClusterApi W} `{SageMakerApi W}.
Context (config : WatcherServiceConfig).
(** [BenchmarkDescriptor.from_dict], see Descriptor.v. *)
Context (descriptor_from_dict : list (string * pyval) -> Res BenchmarkDescriptor).

Abbreviation St := (Svc (WX W)).

Definition get_metrics_available_message (event : Event) (job_start_time job_end_time : option Z) : Res string :=
  job_end_time <~
    (match job_end_time, job_start_time with
     | Some e, _ => Ok e
     | None, Some s => Ok (s + 60 * 60 * 1000)
     | None, None => Raise (TypeError "unsupported operand type(s) for +: 'NoneType' and 'int'")
     end) ;;
  results_url <~ match grafana_results_url config with
                 | Some url => Ok url
                 | None => Raise (AttributeError "'NoneType' object has no attribute 'format'")
                 end ;;
  grafana_url <~ py_format results_url
    [("grafana_endpoint", default "None" (grafana_endpoint config));
     ("dashboard_id", default "None" (grafana_op_metrics_dashboard_uid config));
     ("client_id", client_id event); ("action_id", action_id event);
     ("start_tstamp", match job_start_time with Some s => pretty s | None => "None" end);
     ("end_tstamp", pretty job_end_time)] ;;
  py_format "Metrics available for job {action_id} at {results_url}"
    [("action_id", action_id event); ("results_url", grafana_url)].

Definition now : M St Z := on_bus (fun _ => now_milliseconds).

Definition set_start (job_id : string) (t : Z) : M St unit :=
  on_ext (modify (fun x => mkWX (wx_watchers x) (dict_set (wx_start x) job_id t) (wx_world x))).
Definition del_watcher (job_id : string) : M St unit :=
  watchers <- gets (fun s => wx_watchers (svc_ext s)) ;;
  if dict_mem job_id watchers
  then on_ext (modify (fun x => mkWX (dict_pop (wx_watchers x) job_id) (wx_start x) (wx_world x)))
  else raise (KeyError job_id).

(** [not job_start_time]. *)
Definition not_started (t : option Z) : bool := match t with Some t => t =? 0 | None => true end.

(** The metrics messages of a Kubernetes job. *)
Definition report_metrics (event : Event) (job_id : string) (st : BenchmarkJobStatus) : M St unit :=
  start <- gets (fun s => dict_get (wx_start (svc_ext s)) job_id) ;;
  (if is_running st && not_started start then
     t <- now ;;
     set_start job_id t ;;
     msg <- lift (get_metrics_available_message event (Some t) None) ;;
     ks_send_status event METRICS_AVAILABLE msg None
   else ret tt) ;;
  if bool_decide (st = BJ_SUCCEEDED) then
    t <- now ;;
    start <- gets (fun s => dict_get (wx_start (svc_ext s)) job_id) ;;
    msg <- lift (get_metrics_available_message event start (Some t)) ;;
    ks_send_status event METRICS_AVAILABLE msg None
  else ret tt.

(** The callback that [_make_status_callback] returns. *)
Definition status_callback (event : Event) (is_k8s_job : bool) (job_id : string) (st : BenchmarkJobStatus) : M St bool :=
  let '(status, message) := choose_status_from_benchmark_status st in
  ks_send_status event status message None ;;
  (if is_k8s_job then report_metrics event job_id st else ret tt) ;;
  if is_final st then
    del_watcher job_id ;;
    ks_send_status event status "No longer watching benchmark" None ;;
    ret true
  else ret false.

Definition is_sage_maker_job (event : Event) : Res bool :=
  toml <~ payload_toml (payload event) ;;
  execution_engine <~ info_get (doc_contents toml) "execution_engine" VNone ;;
  Ok (match execution_engine with VStr s => String.eqb s "aws.sagemaker" | _ => false end).

(** [handle_event]; the thread that it starts is [watch_thread]. *)
Definition watcher_handle_event (event : Event) : M St unit :=
  p <- lift (match payload event with PExecutor p => Ok p | _ => Raise (AttributeError "payload has no attribute 'job'") end) ;;
  let jid := job_id (ep_job p) in
  watchers <- gets (fun s => wx_watchers (svc_ext s)) ;;
  if dict_mem jid watchers then ret tt
  else
    descriptor <- lift (descriptor_from_dict (doc_contents (ep_toml p))) ;;
    let strategy := bh_strategy (hardware descriptor) in
    if negb (bool_decide (strategy ∈ [SINGLE_NODE; INFERENCE])) then
      ks_send_status event PENDING ("'" +:+ strategy_value strategy +:+ "' strategy is not currently supported.") None
    else
      sage_maker <- lift (is_sage_maker_job event) ;;
      ks_send_status event PENDING
        (if (sage_maker : bool) then "Watching SageMaker benchmark" else "Watching Kubernetes benchmark") None ;;
      on_ext (modify (fun x => mkWX (dict_set (wx_watchers x) jid (mkWatch event (negb sage_maker)))
                                 (dict_pop (wx_start x) jid) (wx_world x))).

Definition on_wx_world {A} (m : M W A) : M St A :=
  on_ext (fun x => let (r, w) := m (wx_world x) in (r, mkWX (wx_watchers x) (wx_start x) w)).

(** The thread of a registered watcher. *)
Definition watch_thread (w : Watch) (jid : string) (n : nat) : M St (option (bool * option exn)) :=
  thread_run_loop
    (on_wx_world (if watch_k8s w then k8s_get_status (kubernetes_namespace_of_running_jobs config) jid
                  else sm_get_status jid))
    (status_callback (watch_event w) (watch_k8s w) jid) n.
End WatchJobs.

(** ** bai_job_status_trigger *)

Section Trigger.
Context (trigger_statuses : list BenchmarkJobStatus) (not_found_grace_period_seconds : Z) (job_name : string).
Context {W : Type} (status_name : BenchmarkJobStatus -> string).

(** The callback, over [job_seen]; [elapsed] is the time since the callback was made. *)
Definition status_trigger_callback (elapsed : Z) (job_status : BenchmarkJobStatus) : M bool bool :=
  job_seen <- get ;;
  if negb job_seen && bool_decide (job_status = JOB_NOT_FOUND) then
    if not_found_grace_period_seconds <=? elapsed
    then raise (RuntimeError ("Could not find job within " +:+ pretty not_found_grace_period_seconds +:+ " seconds"))
    else ret false
  else
    put true ;;
    if bool_decide (job_status ∈ trigger_statuses) then ret true
    else if bool_decide (job_status ∈ [JOB_NOT_FOUND; BJ_FAILED; BJ_SUCCEEDED]) then
      raise (RuntimeError ("Job " +:+ job_name +:+ " reached final state " +:+ status_name job_status
                             +:+ " before reaching any trigger status."))
    else ret false.

(** The watcher thread over the polls: when each status was read, and the status. *)
Fixpoint trigger_loop (polls : list (Z * BenchmarkJobStatus)) : M bool (option (bool * option exn)) :=
  match polls with
  | [] => ret None
  | (elapsed, st) :: rest =>
      r <- try_except (b <- status_trigger_callback elapsed st ;; ret (inl b)) (fun e => ret (inr e)) ;;
      match r with
      | inl true => ret (Some (true, None))
      | inl false => trigger_loop rest
      | inr e => ret (Some (false, Some e))
      end
  end.

(** [main]: the command runs if and only if the watch succeeded; [inr] is the
    exit status otherwise. *)
Definition trigger_main (run_command : M W string) (result : bool * option exn) : M W (string + Z) :=
  if result.1 then out <- run_command ;; ret (inl out) else ret (inr 1).
End Trigger.

(** ** What the users see of a job *)

Section WatchProperties.
Context `{Env} `{ContainerOrder} {W : Type} `{ClusterApi W} `{SageMakerApi W}.
Context (config : WatcherServiceConfig).
Abbreviation St := (Svc (WX W)).

(** The status messages among the sends. *)
Definition kind_of (x : string * string * Payload) : option Status :=
  match x.2 with PStatus _ st _ => Some st | _ => None end.
Definition kinds (s : St) : list Status := omap kind_of (sends (svc_bus s)).

(** The messages for one observed status, and for a sequence of them: one for
    each status, the metrics once when the job is first seen running and once
    when it succeeded, and a last one when the watch ends. *)
Definition report_of (k8s started : bool) (st : BenchmarkJobStatus) : list Status :=
  ((choose_status_from_benchmark_status st).1 ::
   (if k8s && (is_running st && negb started) then [METRICS_AVAILABLE] else []) ++
   (if k8s && bool_decide (st = BJ_SUCCEEDED) then [METRICS_AVAILABLE] else []) ++
   (if is_final st then [(choose_status_from_benchmark_status st).1] else []))%list.

Fixpoint expected_reports (k8s started : bool) (l : list BenchmarkJobStatus) : list Status :=
  match l with
  | [] => []
  | st :: l =>
      (report_of k8s started st ++
       if is_final st then [] else expected_reports k8s (started || is_running st) l)%list
  end.

Context (event : Event) (k8s : bool) (jid topic : string).
Hypothesis (Hclock : forall n, 0 < env_clock n).
Hypothesis (Hfmt : forall start stop, is_ok (get_metrics_available_message config event start (Some stop)) = true).

Record watching (s : St) (started : bool) : Prop := {
  w_topic : has_status_topic s topic;
  w_there : dict_mem jid (wx_watchers (svc_ext s)) = true;
  w_start : k8s = true -> not_started (dict_get (wx_start (svc_ext s)) jid) = negb started
}.

Lemma send_kind st msg s :
  has_status_topic s topic ->
  exists b, ks_send_status event st msg None s = (Ok tt, set_bus b s) /\
    omap kind_of (sends b) = (kinds s ++ [st])%list.
Proof.
  intros Ht. destruct (ks_send_status_view event st msg None topic s Ht) as (b & Hb & Hs).
  exists b. split; [done|]. rewrite Hs, omap_app. done.
Qed.

Lemma fmt_run start stop :
  exists msg, get_metrics_available_message config event start (Some stop) = Ok msg.
Proof. pose proof (Hfmt start stop) as Hf. destruct (get_metrics_available_message _ _ _ _); [eauto|done]. Qed.

Lemma fmt_run_start start :
  exists msg, get_metrics_available_message config event (Some start) None = Ok msg.
Proof. exact (fmt_run (Some start) (start + 60 * 60 * 1000)). Qed.

(** What report_metrics may change. *)
Definition same_watch (s s' : St) : Prop :=
  svc_emitter s' = svc_emitter s /\ wx_watchers (svc_ext s') = wx_watchers (svc_ext s) /\
  wx_world (svc_ext s') = wx_world (svc_ext s).

Lemma now_run (s : St) :
  exists t b, now s = (Ok t, set_bus b s) /\ sends b = sends (svc_bus s) /\ 0 < t.
Proof. unfold now, on_bus, now_milliseconds. eexists _, _. split; [reflexivity|]. split; [done|apply Hclock]. Qed.

Lemma report_metrics_run st started s :
  k8s = true -> watching s started ->
  exists s', report_metrics config event jid st s = (Ok tt, s') /\ same_watch s s' /\
    watching s' (started || is_running st) /\
    kinds s' = (kinds s ++ (if is_running st && negb started then [METRICS_AVAILABLE] else []) ++
                (if bool_decide (st = BJ_SUCCEEDED) then [METRICS_AVAILABLE] else []))%list.
Proof.
  intros Hk [Ht Hw Hs]. specialize (Hs Hk). unfold report_metrics. unfold bind at 1, gets at 1. unfold bind at 1.
  assert (Hfirst : exists s1,
    (if is_running st && not_started (dict_get (wx_start (svc_ext s)) jid) then
       t <- now ;; set_start jid t ;;
       msg <- lift (get_metrics_available_message config event (Some t) None) ;;
       ks_send_status event METRICS_AVAILABLE msg None
     else ret tt) s = (Ok tt, s1) /\ same_watch s s1 /\ watching s1 (started || is_running st) /\
    kinds s1 = (kinds s ++ if is_running st && negb started then [METRICS_AVAILABLE] else [])%list).
  { rewrite Hs. destruct (is_running st && negb started) eqn:Hr.
    - apply andb_true_iff in Hr as [Hr1 Hr2]. apply negb_true_iff in Hr2. subst started. rewrite Hr1.
      unfold bind at 1. destruct (now_run s) as (t & b & -> & Hb & Hpos).
      unfold bind at 1, set_start, on_ext, modify. unfold bind at 1, lift.
      destruct (fmt_run_start t) as [msg ->].
      set (s1 := set_ext _ (set_bus b s)).
      destruct (send_kind METRICS_AVAILABLE msg s1) as (b2 & -> & Hb2); [done|].
      eexists. split; [done|]. split; [done|]. split.
      + constructor; [done..|]. intros _. cbn. rewrite dict_get_set_eq. cbn. by destruct (Z.eqb_spec t 0); [lia|].
      + unfold kinds at 1. cbn. rewrite Hb2. unfold kinds, s1. cbn. by rewrite Hb.
    - exists s. split; [done|]. split; [done|]. split; [|by rewrite app_nil_r].
      constructor; [done..|]. intros _. rewrite Hs. by destruct started, (is_running st). }
  destruct Hfirst as (s1 & -> & (He1 & Hw1 & Hx1) & Hwatch1 & Hk1).
  destruct (bool_decide (st = BJ_SUCCEEDED)) eqn:Hsucc.
  - unfold bind at 1. destruct (now_run s1) as (t & b & -> & Hb & Hpos). unfold bind at 1, gets at 1.
    unfold bind at 1, lift. destruct (fmt_run (dict_get (wx_start (svc_ext (set_bus b s1))) jid) t) as [msg ->].
    destruct Hwatch1 as [Ht1 Hth1 Hst1].
    destruct (send_kind METRICS_AVAILABLE msg (set_bus b s1)) as (b2 & -> & Hb2); [done|].
    eexists. split; [done|]. split; [done|]. split; [by constructor|].
    unfold kinds at 1. cbn. rewrite Hb2. unfold kinds. cbn. rewrite Hb. fold (kinds s1). rewrite Hk1. by rewrite <- app_assoc.
  - exists s1. split; [done|]. split; [done|]. split; [done|]. by rewrite Hk1, app_nil_r.
Qed.

Lemma status_callback_run st started s :
  watching s started ->
  exists s', status_callback config event k8s jid st s = (Ok (is_final st), s') /\
    kinds s' = (kinds s ++ report_of k8s started st)%list /\
    wx_world (svc_ext s') = wx_world (svc_ext s) /\
    (if is_final st then dict_mem jid (wx_watchers (svc_ext s')) = false
     else watching s' (started || is_running st)).
Proof.
  intros Hwatch. unfold status_callback, report_of.
  destruct (choose_status_from_benchmark_status st) as [status message]. cbn [fst].
  unfold bind at 1. destruct (send_kind status message s (w_topic _ _ Hwatch)) as (b & -> & Hb).
  assert (Hwatch1 : watching (set_bus b s) started) by (destruct Hwatch; by constructor).
  assert (Hmid : exists s1, (if k8s then report_metrics config event jid st else ret tt) (set_bus b s) = (Ok tt, s1) /\
    same_watch (set_bus b s) s1 /\ watching s1 (started || is_running st) /\
    kinds s1 = (kinds s ++ [status] ++
      (if k8s && (is_running st && negb started) then [METRICS_AVAILABLE] else []) ++
      (if k8s && bool_decide (st = BJ_SUCCEEDED) then [METRICS_AVAILABLE] else []))%list).
  { destruct k8s eqn:Hk.
    - destruct (report_metrics_run st started (set_bus b s) Hk Hwatch1) as (s1 & -> & Hs & Hw & Hkd).
      exists s1. split; [done|]. split; [done|]. split; [done|]. rewrite Hkd.
      unfold kinds at 1. cbn [svc_bus set_bus]. rewrite Hb. by rewrite <- app_assoc.
    - exists (set_bus b s). split; [done|]. split; [done|]. split; [destruct Hwatch1; constructor; [done..|congruence]|].
      unfold kinds at 1. cbn. by rewrite Hb. }
  unfold bind at 1. destruct Hmid as (s1 & -> & (He & Hws & Hx) & Hwatch2 & Hk1).
  destruct (is_final st) eqn:Hfin.
  - unfold bind at 1, del_watcher, bind at 1, gets. rewrite (w_there _ _ Hwatch2). unfold on_ext, modify.
    unfold bind. set (s2 := set_ext _ s1).
    destruct (send_kind status "No longer watching benchmark" s2 (w_topic _ _ Hwatch2)) as (b2 & -> & Hb2).
    eexists. split; [done|]. split; [|split; [exact Hx|]].
    + unfold kinds at 1. cbn. rewrite Hb2. unfold kinds, s2. cbn. fold (kinds s1). rewrite Hk1.
      cbn. rewrite <- !app_assoc. cbn. by rewrite <- !app_assoc.
    + cbn. unfold dict_mem. by rewrite dict_get_pop, decide_True.
  - exists s1. split; [done|]. split; [|split; [exact Hx|done]].
    rewrite Hk1. cbn. by rewrite app_nil_r.
Qed.

(** C13: what the users see of a watched job.  When the polls give the statuses
    [l], the thread reports every status up to the first final one and none
    after it, announces the metrics of a Kubernetes job once when it is first
    seen running and once when it succeeded, and says last that the watch is
    over.  It ends with success exactly when there is a final status, and the
    job stays registered exactly as long as the thread runs. *)
Theorem watch_reports (get_st : M W BenchmarkJobStatus) (world : list BenchmarkJobStatus -> W) l s
    (Hget : forall st l, get_st (world (st :: l)) = (Ok st, world l))
    (Hworld : wx_world (svc_ext s) = world l) (Hwatch : watching s false) :
  let r := thread_run_loop (on_wx_world get_st) (status_callback config event k8s jid) (length l) s in
  kinds r.2 = (kinds s ++ expected_reports k8s false l)%list /\
  r.1 = Ok (if existsb is_final l then Some (true, None) else None) /\
  dict_mem jid (wx_watchers (svc_ext r.2)) = negb (existsb is_final l).
Proof.
  revert s Hworld Hwatch. generalize false. induction l as [|st l IH]; intros started s Hworld Hwatch; cbn zeta.
  { cbn. rewrite app_nil_r. split_and!; [done..|apply (w_there _ _ Hwatch)]. }
  set (s1 := set_ext (mkWX (wx_watchers (svc_ext s)) (wx_start (svc_ext s)) (world l)) s).
  assert (Hg : on_wx_world get_st s = (Ok st, s1)) by (unfold on_wx_world, on_ext; by rewrite Hworld, Hget).
  assert (Hw1 : watching s1 started) by (destruct Hwatch; by constructor).
  destruct (status_callback_run st started s1 Hw1) as (s2 & Hcb & Hk & Hx & Hnext).
  cbn [length]. rewrite (thread_turn _ _ _ _ _ _ _ _ Hg Hcb). cbn [expected_reports existsb].
  change (kinds s1) with (kinds s) in Hk.
  destruct (is_final st); cbn [orb negb].
  - cbn [fst snd]. rewrite Hk, app_nil_r. by split_and!.
  - destruct (IH (started || is_running st) s2 Hx Hnext) as (H1' & H2' & H3').
    rewrite H1', H2', H3', Hk. by rewrite <- app_assoc.
Qed.
End WatchProperties.

(** The option of the results page has no default and is not required; without
    it the watcher of a Kubernetes job dies when it first sees the job run, and
    the job stays registered. *)
Lemma missing_url_ends_watch `{Env} {W : Type} config ev jid n st (get_st : M (Svc (WX W)) BenchmarkJobStatus) s s1 :
  grafana_results_url config = None -> get_st s = (Ok st, s1) -> is_running st = true ->
  not_started (dict_get (wx_start (svc_ext s1)) jid) = true ->
  exists s', thread_run_loop get_st (status_callback config ev true jid) (S n) s =
      (Ok (Some (false, Some (AttributeError "'NoneType' object has no attribute 'format'"))), s') /\
    wx_watchers (svc_ext s') = wx_watchers (svc_ext s1).
Proof.
  intros Hurl Hst Hrun Hnot. cbn [thread_run_loop]. unfold bind at 1, try_except, bind at 1. rewrite Hst.
  unfold bind at 1, status_callback. destruct (choose_status_from_benchmark_status st) as [status message].
  unfold bind at 1. destruct (ks_send_status_run ev status message None s1) as [b ->].
  unfold bind at 1, report_metrics. unfold bind at 1, gets. cbn [svc_ext set_bus]. rewrite Hrun, Hnot. cbn [andb].
  unfold bind, now, on_bus, now_milliseconds, set_start, on_ext, modify, lift. cbn [svc_emitter svc_bus set_bus svc_ext wx_watchers set_ext].
  unfold get_metrics_available_message. cbn [res_bind]. rewrite Hurl. by eexists.
Qed.

Section HandlerProperties.
Context `{Env} {W : Type} (descriptor_from_dict : list (string * pyval) -> Res BenchmarkDescriptor).

(** A job gets at most one watcher.  An event for a job that is watched
    changes nothing; otherwise the job is registered, with the event and the
    kind of job, exactly when its descriptor is valid and its strategy can be
    watched, and no other job's watcher is touched. *)
Theorem one_watcher_per_job ev p (s : Svc (WX W)) (Hp : payload ev = PExecutor p) :
  let jid := job_id (ep_job p) in
  let s' := (watcher_handle_event descriptor_from_dict ev s).2 in
  (forall j, j <> jid -> dict_get (wx_watchers (svc_ext s')) j = dict_get (wx_watchers (svc_ext s)) j) /\
  match dict_get (wx_watchers (svc_ext s)) jid with
  | Some w => watcher_handle_event descriptor_from_dict ev s = (Ok tt, s)
  | None =>
      match descriptor_from_dict (doc_contents (ep_toml p)), is_sage_maker_job ev with
      | Ok d, Ok sage_maker =>
          dict_get (wx_watchers (svc_ext s')) jid =
          if bool_decide (bh_strategy (hardware d) ∈ [SINGLE_NODE; INFERENCE])
          then Some (mkWatch ev (negb sage_maker)) else None
      | _, _ => dict_get (wx_watchers (svc_ext s')) jid = None
      end
  end.
Proof.
  intros jid s'. unfold s', watcher_handle_event, bind, gets, lift, dict_mem. rewrite Hp. fold jid.
  destruct (dict_get (wx_watchers (svc_ext s)) jid) as [w|] eqn:Ew; [by split|].
  destruct (descriptor_from_dict (doc_contents (ep_toml p))) as [d|e]; [|by split].
  destruct (bool_decide (bh_strategy (hardware d) ∈ [SINGLE_NODE; INFERENCE])); cbn [negb].
  - destruct (is_sage_maker_job ev) as [sm|e]; [|by split].
    destruct (ks_send_status_run ev PENDING
      (if sm then "Watching SageMaker benchmark" else "Watching Kubernetes benchmark") None s) as [b ->].
    cbn. split; [intros j Hj; by rewrite dict_get_set_ne|]. by rewrite dict_get_set_eq.
  - destruct (ks_send_status_run ev PENDING
      ("'" +:+ strategy_value (bh_strategy (hardware d)) +:+ "' strategy is not currently supported.") None s) as [b ->].
    cbn. split; [done|]. by destruct (is_sage_maker_job ev).
Qed.

(** The handler does not stop the loop. *)
Lemma watcher_running ev (s : Svc (WX W)) : svc_running (watcher_handle_event descriptor_from_dict ev s).2 = svc_running s.
Proof.
  unfold watcher_handle_event, bind, gets, lift, dict_mem. destruct (payload ev); try done.
  destruct (dict_get _ _); [done|]. destruct (descriptor_from_dict _) as [d|e]; [|done].
  case_match; cbn [negb].
  - match goal with |- context [ks_send_status ev ?st ?m ?tg s] => by destruct (ks_send_status_run ev st m tg s) as [b ->] end.
  - destruct (is_sage_maker_job ev) as [sm|e]; [|done].
    match goal with |- context [ks_send_status ev ?st ?m ?tg s] => by destruct (ks_send_status_run ev st m tg s) as [b ->] end.
Qed.
End HandlerProperties.

(** ** The trigger *)

(** A watch that succeeds has no error. *)
Lemma trigger_loop_success triggers grace name status_name polls seen err :
  (trigger_loop triggers grace name status_name polls seen).1 = Ok (Some (true, err)) -> err = None.
Proof.
  revert seen. induction polls as [|[elapsed st] polls IH]; intros seen; [done|].
  cbn [trigger_loop]. unfold bind, try_except, ret.
  destruct (status_trigger_callback triggers grace name status_name elapsed st seen) as [[[]|e] seen']; [by intros [= <-]|apply IH|done].
Qed.

(** The command only runs after the job was seen and had one of the statuses. *)
Theorem trigger_only_on_status triggers grace name status_name polls seen :
  (trigger_loop triggers grace name status_name polls seen).1 = Ok (Some (true, None)) ->
  exists elapsed st, (elapsed, st) ∈ polls /\ st ∈ triggers /\
    (seen = true \/ exists e' st', (e', st') ∈ polls /\ st' <> JOB_NOT_FOUND).
Proof.
  revert seen. induction polls as [|[elapsed st] polls IH]; intros seen; [done|].
  cbn [trigger_loop]. unfold bind, try_except, status_trigger_callback, bind, get, put, ret, raise.
  destruct (negb seen && bool_decide (st = JOB_NOT_FOUND)) eqn:Hns.
  - destruct (grace <=? elapsed); [done|]. intros Hr.
    destruct (IH seen Hr) as (e & st' & Hin & Ht & Hs). exists e, st'. split; [by right|]. split; [done|].
    destruct Hs as [Hs|(e' & st'' & Hin' & Hne)]; [by left|]. right. exists e', st''. split; [by right|done].
  - assert (Hseen : seen = true \/ st <> JOB_NOT_FOUND).
    { destruct seen; [by left|]. right. intros ->. by rewrite bool_decide_eq_true_2 in Hns. }
    destruct (bool_decide (st ∈ triggers)) eqn:Ht.
    + apply bool_decide_eq_true in Ht. intros _. exists elapsed, st. split; [left|]. split; [done|].
      destruct Hseen as [->|Hne]; [by left|]. right. exists elapsed, st. split; [left|done].
    + destruct (bool_decide (st ∈ [JOB_NOT_FOUND; BJ_FAILED; BJ_SUCCEEDED])); [done|]. intros Hr.
      destruct (IH true Hr) as (e & st' & Hin & Ht' & _). exists e, st'. split; [by right|]. split; [done|].
      destruct Hseen as [->|Hne]; [by left|]. right. exists elapsed, st. split; [left|done].
Qed.

(** ** Witnesses *)

Module Witness.
#[local] Existing Instance env0.

Definition config0 : WatcherServiceConfig :=
  mkWatcherConfig (Some "http://g") (Some "{grafana_endpoint}/d?a={action_id}") (Some "uid") "default" None "INFO".
Definition executor_payload : ExecutorPayload :=
  mkExecutorPayload (doc0 [("info", VDict [("execution_engine", VStr "default")])]) [] [] [] (mkJob "b-1" None []).
Definition ev1 : Event := event0 (PExecutor executor_payload).

Definition svc_of {W} (watchers : dict string Watch) (w : W) : Svc (WX W) :=
  mkSvc (mkBus [] 0 0) (mkEmitter "watcher" "1" "pod" (Some "STATUS")) "watcher" "pod" [] true (mkWX watchers [] w).

Definition next : M (list BenchmarkJobStatus) BenchmarkJobStatus :=
  fun l => match l with [] => (Raise (ValueError "no more"), []) | st :: l => (Ok st, l) end.

Definition polls0 : list BenchmarkJobStatus :=
  [PENDING_NODE_SCALING; RUNNING_AT_INIT_CONTAINERS; RUNNING_AT_MAIN_CONTAINERS; BJ_SUCCEEDED; BJ_FAILED].

Lemma watch_reports_witness :
  let r := thread_run_loop (on_wx_world next) (status_callback config0 ev1 true "b-1") 5
             (svc_of [("b-1", mkWatch ev1 true)] polls0) in
  kinds r.2 = [PENDING; PENDING; METRICS_AVAILABLE; RUNNING; SUCCEEDED; METRICS_AVAILABLE; SUCCEEDED] /\
  r.1 = Ok (Some (true, None)).
Proof.
  destruct (watch_reports (W := list BenchmarkJobStatus) config0 ev1 true "b-1" "STATUS") with (get_st := next) (world := fun l : list BenchmarkJobStatus => l)
    (l := polls0) (s := svc_of [("b-1", mkWatch ev1 true)] polls0) as (Hk & Hr & _).
  - intros n. simpl. lia.
  - intros start stop. reflexivity.
  - reflexivity.
  - reflexivity.
  - constructor; [split; [discriminate|reflexivity]|reflexivity|reflexivity].
  - split; [exact Hk|exact Hr].
Defined.

Lemma one_watcher_per_job_witness :
  watcher_handle_event (fun _ => Raise (DescriptorError "bad")) ev1 (svc_of [("b-1", mkWatch ev1 true)] tt) =
  (Ok tt, svc_of [("b-1", mkWatch ev1 true)] tt).
Proof.
  exact (proj2 (one_watcher_per_job (fun _ => Raise (DescriptorError "bad")) ev1 executor_payload
    (svc_of [("b-1", mkWatch ev1 true)] tt) eq_refl)).
Defined.
End Witness.
