(* ===== verification/Options.v ===== *)
(** * Command lines (args.py of the services and of their jobs)

    What the executor, the fetcher, the fetcher job and the job-status trigger
    make of their options.  The package configargparse, which finds the text of
    an option on the command line, in a variable or in a configuration file, is
    the class [ArgParser]; its conversions, choices, defaults and required
    options, which the sources declare, are definitions. *)

From S2P Require Import Prelude PyStr Json Events Descriptor BaiKnowledge.
From S2P Require Import FetcherJob FetcherDispatcher JobStatus.

#[local] Arguments String.append !_ _ /.

(** ** Parsers *)

(** An option and its variable, if it has one. *)
Record Opt := mkOpt { opt_name : string; opt_env : option string }.

(** The text of an option of a parser, from the arguments, the environment and
    the default configuration file; and the texts of one with several. *)
Class ArgParser : Type := {
  parsed : list Opt -> list string -> dict string string -> dict string string -> string -> option string;
  parsed_list : list Opt -> list string -> dict string string -> string -> option (list string)
}.

(** A value that is not taken for an option. *)
Definition plain (v : string) : bool := negb (startswith "-" v).

(** [--name value], for each pair. *)
Definition flat_args (pairs : list (string * string)) : list string :=
  concat (map (fun kv => ["--" +:+ kv.1; kv.2]) pairs).

Definition env_of (opts : list Opt) (name : string) : option string :=
  match List.find (fun o => String.eqb (opt_name o) name) opts with Some o => opt_env o | None => None end.

(** What configargparse documents: the command line comes first, then the
    variable, then the configuration file. *)
Class ArgParserLaws `{ArgParser} : Type := {
  parsed_flat : forall opts pairs env config name,
    NoDup pairs.*1 -> Forall (fun kv => kv.1 ∈ map opt_name opts /\ plain kv.2 = true) pairs ->
    parsed opts (flat_args pairs) env config name =
      match dict_get pairs name with
      | Some v => Some v
      | None =>
          match env_of opts name ≫= dict_get env with
          | Some v => Some v
          | None => dict_get config name
          end
      end
}.

(** [parser.error]: a message on the terminal, and the exit status 2. *)
Definition UsageError (what : string) : exn := OtherException "SystemExit" what.

(** An exception that a conversion may raise is an error of usage. *)
Definition converted {A} (name : string) (r : Res A) : Res A :=
  match r with
  | Raise (TypeError _) | Raise (ValueError _) | Raise (JSONDecodeError _) => Raise (UsageError name)
  | _ => r
  end.

Section Values.
Context (p : string -> option string).

Definition required_text (name : string) : Res string :=
  match p name with Some v => Ok v | None => Raise (UsageError name) end.

Definition typed {A} (conv : string -> Res A) (name : string) : Res (option A) :=
  match p name with
  | None => Ok None
  | Some v => a <~ converted name (conv v) ;; Ok (Some a)
  end.

Definition choice (choices : list string) (name : string) : Res (option string) :=
  match p name with
  | None => Ok None
  | Some v => if bool_decide (v ∈ choices) then Ok (Some v) else Raise (UsageError name)
  end.
End Values.

(** ** The fetcher job (bai_fetcher_job/args.py) *)

Definition EXP_MULTIPLIER_MS : Z := 1000.
Definition JOB_MAX_ATTEMPTS : Z := 5.
Definition MAX_WAIT_MS : Z := 60 * 5 * 1000.

(** The exponential waits between the attempts. *)
Record RetryConfig := mkRetry { exp_max : Z; exp_multiplier : Z }.

Record FetcherJobArgs := mkFetcherJobArgs {
  fja_config : FetcherJobConfig;
  fja_logging_level : string;
  fja_retry : RetryConfig;
  fja_tmp_dir : option string
}.

Definition fetcher_job_opts : list Opt :=
  [mkOpt "src" None; mkOpt "dst" None; mkOpt "md5" None; mkOpt "zk-node-path" None;
   mkOpt "zookeeper-ensemble-hosts" (Some "ZOOKEEPER_ENSEMBLE_HOSTS"); mkOpt "logging-level" (Some "LOGGING_LEVEL");
   mkOpt "retry-max-attempts" (Some "RETRY_MAX_ATTEMPTS"); mkOpt "retry-exp-max" (Some "RETRY_EXP_MAX");
   mkOpt "retry-exp-multiplier" (Some "RETRY_EXP_MULTIPLIER"); mkOpt "tmp-dir" (Some "TMP_DIR")].

(** [get_fetcher_job_args]; less than two attempts are one. *)
Definition get_fetcher_job_args `{ArgParser} (args : list string) (env_vars : dict string string) : Res FetcherJobArgs :=
  let p := parsed fetcher_job_opts args env_vars [] in
  max_attempts <~ typed p py_int "retry-max-attempts" ;;
  retry_exp_max <~ typed p py_int "retry-exp-max" ;;
  retry_exp_multiplier <~ typed p py_int "retry-exp-multiplier" ;;
  src <~ required_text p "src" ;;
  dst <~ required_text p "dst" ;;
  Ok (mkFetcherJobArgs
    (mkJobConfig src dst (p "md5") (p "zk-node-path") (default "localhost:2181" (p "zookeeper-ensemble-hosts"))
       (Z.to_nat (default JOB_MAX_ATTEMPTS max_attempts)))
    (default "INFO" (p "logging-level"))
    (mkRetry (default MAX_WAIT_MS retry_exp_max) (default EXP_MULTIPLIER_MS retry_exp_multiplier))
    (p "tmp-dir")).

(** ** The fetcher service (fetcher_dispatcher/args.py) *)

Definition MIN_VOLUME_SIZE_MB : Z := 64 * 1024.

Record FetcherServiceConfig := mkFetcherServiceConfig {
  fsc_zookeeper_ensemble_hosts : string;
  fsc_s3_download_bucket : string;
  fsc_fetcher_job : FetcherJobSettings;
  fsc_kubeconfig : option string
}.

Definition fetcher_service_opts : list Opt :=
  [mkOpt "zookeeper-ensemble-hosts" (Some "ZOOKEEPER_ENSEMBLE_HOSTS"); mkOpt "s3-download-bucket" (Some "S3_DOWNLOAD_BUCKET");
   mkOpt "kubeconfig" (Some "KUBECONFIG"); mkOpt "fetcher-job-image" (Some "FETCHER_JOB_IMAGE");
   mkOpt "fetcher-job-ttl" (Some "FETCHER_JOB_TTL"); mkOpt "fetcher-job-node-selector" (Some "FETCHER_JOB_NODE_SELECTOR");
   mkOpt "fetcher-job-pull-policy" (Some "FETCHER_JOB_PULL_POLICY");
   mkOpt "fetcher-job-restart-policy" (Some "FETCHER_JOB_RESTART_POLICY");
   mkOpt "fetcher-job-namespace" (Some "FETCHER_JOB_NAMESPACE");
   mkOpt "fetcher-job-min-volume-size" (Some "FETCHER_JOB_MIN_VOLUME_SIZE");
   mkOpt "fetcher-job-volume-storage-class" (Some "FETCHER_JOB_VOLUME_STORAGE_CLASS")].

Definition PULL_POLICIES : list string := ["Always"; "Never"; "IfNotPresent"].
Definition RESTART_POLICIES : list string := ["Never"; "OnFailure"].

Section Json.
Context {F : PyFloat}.

Definition jstring (kv : string * jval) : Res (string * string) :=
  match kv.2 with JStr s => Ok (kv.1, s) | _ => Raise (TypeError "str expected") end.

(** [json.loads] of an option that is annotated as a dictionary of texts.  The
    source does not check the annotation; a value of another shape, which it
    accepts and which fails where it is used, is refused here. *)
Definition json_strings (text : string) : Res (dict string string) :=
  v <~ json_loads text ;;
  match v with
  | JObj d => res_map jstring d
  | _ => Raise (TypeError "dict expected")
  end.

(** [get_fetcher_service_config]. *)
Definition get_fetcher_service_config `{ArgParser} (args : list string) (env : dict string string) : Res FetcherServiceConfig :=
  let p := parsed fetcher_service_opts args env [] in
  ttl <~ typed p py_int "fetcher-job-ttl" ;;
  node_selector <~ typed p json_strings "fetcher-job-node-selector" ;;
  pull_policy <~ choice p PULL_POLICIES "fetcher-job-pull-policy" ;;
  restart_policy <~ choice p RESTART_POLICIES "fetcher-job-restart-policy" ;;
  min_size <~ typed p py_int "fetcher-job-min-volume-size" ;;
  s3_download_bucket <~ required_text p "s3-download-bucket" ;;
  image <~ required_text p "fetcher-job-image" ;;
  Ok (mkFetcherServiceConfig
    (default "localhost:2181" (p "zookeeper-ensemble-hosts")) s3_download_bucket
    (mkJobSettings image (default "default" (p "fetcher-job-namespace")) pull_policy
       (Some (default "OnFailure" restart_policy)) ttl (default [] node_selector)
       (mkVolumeConfig (default MIN_VOLUME_SIZE_MB min_size) (p "fetcher-job-volume-storage-class")))
    (p "kubeconfig")).

(** ** The executor (executor/args.py, default_config.yaml) *)

Definition default_config_yaml : dict string string :=
  [("transpiler-puller-mount-chmod", "777"); ("transpiler-puller-docker-image", "benchmarkai/puller:3115770");
   ("transpiler-cron-job-docker-image", "benchmarkai/anubis-cron-job:3115770");
   ("transpiler-job-status-trigger-docker-image", "benchmarkai/job-status-trigger:3115770");
   ("transpiler-valid-strategies", "single_node,horovod,inference");
   ("transpiler-metrics-pusher-docker-image", "benchmarkai/metrics-pusher:ffed580");
   ("transpiler-metrics-extractor-docker-image", "benchmarkai/metrics-extractor:b0b9185");
   ("transpiler-valid-frameworks", "tensorflow,mxnet,")].

Definition executor_opts : list Opt :=
  [mkOpt "availability-zones" (Some "AVAILABILITY_ZONES");
   mkOpt "transpiler-puller-mount-chmod" (Some "TRANSPILER_PULLER_MOUNT_CHMOD");
   mkOpt "transpiler-puller-docker-image" (Some "TRANSPILER_PULLER_DOCKER_IMAGE");
   mkOpt "transpiler-metrics-pusher-docker-image" (Some "TRANSPILER_METRICS_PUSHER_DOCKER_IMAGE");
   mkOpt "transpiler-metrics-extractor-docker-image" (Some "TRANSPILER_METRICS_EXTRACTOR_DOCKER_IMAGE");
   mkOpt "transpiler-job-status-trigger-docker-image" (Some "TRANSPILER_JOB_STATUS_TRIGGER_DOCKER_IMAGE");
   mkOpt "transpiler-cron-job-docker-image" (Some "TRANSPILER_CRON_JOB_DOCKER_IMAGE");
   mkOpt "transpiler-valid-strategies" (Some "TRANSPILER_VALID_STRATEGIES");
   mkOpt "transpiler-valid-frameworks" (Some "TRANSPILER_VALID_FRAMEWORKS");
   mkOpt "valid-execution-engines" (Some "VALID_EXECUTION_ENGINES");
   mkOpt "suppress-job-affinity" (Some "SUPPRESS_JOB_AFFINITY"); mkOpt "kubectl" (Some "KUBECTL")].

Section Executor.
Context `{ArgParser} (argv : list string) (env : dict string string).

(** [get_args]: the text of an option; a missing one, which is not in the
    configuration file either, prints as [None]. *)
Definition executor_option (name : string) : option string := parsed executor_opts argv env default_config_yaml name.
Definition executor_text (name : string) : string := default "None" (executor_option name).

Definition list_str (values : string) : list string := split_char "," values.

Definition create_descriptor_config : DescriptorConfig :=
  mkDescriptorConfig (list_str (executor_text "transpiler-valid-strategies"))
    (list_str (executor_text "transpiler-valid-frameworks")).

(** The flag [--suppress-job-affinity] is given by its presence. *)
Definition create_bai_config (suppress_job_affinity : bool) : BaiConfig :=
  mkBaiConfig (executor_text "transpiler-puller-mount-chmod") (executor_text "transpiler-puller-docker-image")
    (executor_text "transpiler-cron-job-docker-image") (executor_text "transpiler-metrics-pusher-docker-image")
    (executor_text "transpiler-metrics-extractor-docker-image") (executor_text "transpiler-job-status-trigger-docker-image")
    suppress_job_affinity.

(** [create_executor_config]. *)
Definition create_executor_config (suppress_job_affinity : bool) : Res ExecutorConfig :=
  zones <~ typed executor_option json_strings "availability-zones" ;;
  availability_zones <~ match zones with Some z => Ok z | None => Raise (UsageError "availability-zones") end ;;
  Ok (mkExecutorConfig create_descriptor_config (create_bai_config suppress_job_affinity) (mkEnvInfo availability_zones)
        (executor_text "kubectl")
        (match executor_option "valid-execution-engines" with Some v => list_str v | None => [] end)).
End Executor.
End Json.

(** ** The job-status trigger (bai_job_status_trigger/args.py) *)

Definition benchmark_job_statuses : list BenchmarkJobStatus :=
  [BJ_SUCCEEDED; BJ_FAILED; NO_POD_SCHEDULED; JOB_NOT_FOUND; FAILED_AT_BENCHMARK_CONTAINER; FAILED_AT_SIDECAR_CONTAINER;
   FAILED_AT_INIT_CONTAINERS; PENDING_AT_BENCHMARK_CONTAINER; PENDING_AT_SIDECAR_CONTAINER; PENDING_AT_INIT_CONTAINERS;
   PENDING_NODE_SCALING; RUNNING_AT_INIT_CONTAINERS; RUNNING_AT_MAIN_CONTAINERS; SM_STOPPED; SM_INTERRUPTED;
   SM_FAILED_MAX_RUNTIME_EXCEEDED; SM_FAILED_MAX_WAITTIME_EXCEEDED; SM_IN_PROGRESS_STARTING;
   SM_IN_PROGRESS_LAUNCHING_ML_INSTANCES; SM_IN_PROGRESS_PREP_TRAINING_STACK; SM_IN_PROGRESS_DOWNLOADING;
   SM_IN_PROGRESS_DOWNLOADING_TRAINING_IMG; SM_IN_PROGRESS_TRAINING; SM_IN_PROGRESS_UPLOADING; SM_UNKNOWN; SM_STOPPING].

(** The values of the enumeration. *)
Definition status_value (s : BenchmarkJobStatus) : string :=
  match s with
  | BJ_SUCCEEDED => "SUCCEEDED" | BJ_FAILED => "FAILED"
  | NO_POD_SCHEDULED => "NO_POD_SCHEDULED" | JOB_NOT_FOUND => "JOB_NOT_FOUND"
  | FAILED_AT_BENCHMARK_CONTAINER => "FAILED_AT_BENCHMARK_CONTAINER"
  | FAILED_AT_SIDECAR_CONTAINER => "FAILED_AT_SIDECAR_CONTAINER"
  | FAILED_AT_INIT_CONTAINERS => "FAILED_AT_INIT_CONTAINERS"
  | PENDING_AT_BENCHMARK_CONTAINER => "PENDING_AT_BENCHMARK_CONTAINER"
  | PENDING_AT_SIDECAR_CONTAINER => "PENDING_AT_SIDECAR_CONTAINER"
  | PENDING_AT_INIT_CONTAINERS => "PENDING_AT_INIT_CONTAINERS"
  | PENDING_NODE_SCALING => "PENDING_NODE_SCALING"
  | RUNNING_AT_INIT_CONTAINERS => "RUNNING_AT_INIT_CONTAINERS"
  | RUNNING_AT_MAIN_CONTAINERS => "RUNNING_AT_MAIN_CONTAINERS"
  | SM_STOPPED => "STOPPED" | SM_INTERRUPTED => "SM_INTERRUPTED"
  | SM_FAILED_MAX_RUNTIME_EXCEEDED => "SM_FAILED_MAX_RUNTIME_EXCEEDED"
  | SM_FAILED_MAX_WAITTIME_EXCEEDED => "SM_FAILED_MAX_WAITTIME_EXCEEDED"
  | SM_IN_PROGRESS_STARTING => "SM_IN_PROGRESS_STARTING"
  | SM_IN_PROGRESS_LAUNCHING_ML_INSTANCES => "SM_IN_PROGRESS_LAUNCHING_ML_INSTANCES"
  | SM_IN_PROGRESS_PREP_TRAINING_STACK => "SM_IN_PROGRESS_PREP_TRAINING_STACK"
  | SM_IN_PROGRESS_DOWNLOADING => "SM_IN_PROGRESS_DOWNLOADING"
  | SM_IN_PROGRESS_DOWNLOADING_TRAINING_IMG => "SM_IN_PROGRESS_DOWNLOADING_TRAINING_IMG"
  | SM_IN_PROGRESS_TRAINING => "SM_IN_PROGRESS_TRAINING"
  | SM_IN_PROGRESS_UPLOADING => "SM_IN_PROGRESS_UPLOADING"
  | SM_UNKNOWN => "SM_UNKNOWN" | SM_STOPPING => "SM_STOPPING"
  end.

(** The characters of [strip] in the source: blank, tab and comma. *)
Definition status_padding (c : ascii) : bool := bool_decide (c ∈ [" "; "009"; ","]%char).

(** [benchmark_status_from_input]. *)
Definition benchmark_status_from_input (input : string) : Res BenchmarkJobStatus :=
  enum_of benchmark_job_statuses status_value "BenchmarkJobStatus" (strip_by status_padding input).

Record JobStatusTriggerConfig := mkTriggerConfig {
  jst_job_namespace : string;
  jst_job_name : string;
  jst_trigger_statuses : list BenchmarkJobStatus;
  jst_job_not_found_grace_period_seconds : Z;
  jst_command : string
}.

Definition trigger_opts : list Opt :=
  [mkOpt "job-name" (Some "JOB_NAME"); mkOpt "trigger-statuses" (Some "TRIGGER_STATUSES"); mkOpt "command" (Some "COMMAND");
   mkOpt "job-namespace" (Some "JOB_NAMESPACE");
   mkOpt "job-not-found-grace-period-seconds" (Some "JOB_NOT_FOUND_GRACE_PERIOD_SECONDS")].

(** [get_job_status_trigger_config]. *)
Definition get_job_status_trigger_config `{ArgParser} (args : list string) (env : dict string string) : Res JobStatusTriggerConfig :=
  let p := parsed trigger_opts args env [] in
  trigger_statuses <~ match parsed_list trigger_opts args env "trigger-statuses" with
                      | Some texts => converted "trigger-statuses" (res_map benchmark_status_from_input texts)
                      | None => Raise (UsageError "trigger-statuses")
                      end ;;
  grace <~ typed p py_int "job-not-found-grace-period-seconds" ;;
  job_name <~ required_text p "job-name" ;;
  command <~ required_text p "command" ;;
  Ok (mkTriggerConfig (default "default" (p "job-namespace")) job_name trigger_statuses (default 30 grace) command).

(** ** What the dispatcher writes, the job reads *)

Section Dispatched.
Context `{ArgParserLaws} (zk_ensemble : string) (settings : FetcherJobSettings).

(** The arguments and the variables that a container gets; a missing text in the
    list arrives as an empty one. *)
Definition container_args (c : V1Container) : list string := map (default "") (ct_args c).
Definition container_env (c : V1Container) : dict string string := ct_env c.

(** The job is told what the dispatcher wants: from the arguments and the
    variables of the container that the dispatcher made for a content, the
    fetcher job reads the same source, destination, hash and node, the
    dispatcher's ZooKeeper and the mounted directory, with the defaults for its
    attempts, when no text looks like an option. *)
Theorem dispatched_job_configured task zk_node_path dst
    (c := get_fetcher_container zk_ensemble settings task zk_node_path)
    (Hdst : dc_dst task = Some dst)
    (Hplain : plain (dc_src task) && plain dst && plain zk_node_path && plain (default "" (dc_md5 task)) = true) :
  get_fetcher_job_args (container_args c) (container_env c) =
    Ok (mkFetcherJobArgs
      (mkJobConfig (dc_src task) dst (Some (default "" (dc_md5 task))) (Some zk_node_path) zk_ensemble 5)
      "INFO" (mkRetry 300000 1000) (Some TMP_MOUNT_PATH)).
Proof.
  rewrite !andb_true_iff in Hplain. destruct Hplain as [[[Hs Hd] Hz] Hm].
  set (pairs := [("src", dc_src task); ("dst", dst); ("zk-node-path", zk_node_path); ("md5", default "" (dc_md5 task))]).
  assert (Hargs : container_args c = flat_args pairs).
  { unfold container_args, c, get_fetcher_container, get_args. cbn [ct_args map]. by rewrite Hdst. }
  assert (Hp : forall name, parsed fetcher_job_opts (flat_args pairs) (container_env c) [] name =
     match dict_get pairs name with Some v => Some v | None => env_of fetcher_job_opts name ≫= dict_get (container_env c) end).
  { intros name. rewrite parsed_flat.
    - destruct (dict_get pairs name); [done|]. cbn [dict_get]. by destruct (env_of fetcher_job_opts name ≫= _).
    - repeat constructor; set_solver.
    - repeat (constructor; [split; [set_solver|assumption]|]). constructor. }
  rewrite Hargs. unfold get_fetcher_job_args, typed, required_text. rewrite !Hp. reflexivity.
Qed.
End Dispatched.

(** ** What the parsers accept *)

(** A fetcher that starts makes pods that Kubernetes accepts in a job: they are
    restarted never or on failure, and pulled by one of its policies; its bucket
    and its image were given. *)
Lemma fetcher_service_config_ok {F : PyFloat} `{ArgParser} args env cfg :
  get_fetcher_service_config args env = Ok cfg ->
  let p := parsed fetcher_service_opts args env [] in
  p "s3-download-bucket" = Some (fsc_s3_download_bucket cfg) /\ p "fetcher-job-image" = Some (fjs_image (fsc_fetcher_job cfg)) /\
  (forall zk task path claim, exists policy,
     pod_restart_policy (get_fetcher_pod_spec zk (fsc_fetcher_job cfg) task path claim) = Some policy /\ policy ∈ RESTART_POLICIES) /\
  (forall policy, fjs_pull_policy (fsc_fetcher_job cfg) = Some policy -> policy ∈ PULL_POLICIES).
Proof.
  intros Hcfg p. unfold get_fetcher_service_config in Hcfg. fold p in Hcfg.
  apply res_bind_Ok in Hcfg as (ttl & _ & Hcfg). apply res_bind_Ok in Hcfg as (selector & _ & Hcfg).
  apply res_bind_Ok in Hcfg as (pull & Hpull & Hcfg). apply res_bind_Ok in Hcfg as (restart & Hrestart & Hcfg).
  apply res_bind_Ok in Hcfg as (size & _ & Hcfg). apply res_bind_Ok in Hcfg as (bucket & Hbucket & Hcfg).
  apply res_bind_Ok in Hcfg as (image & Himage & Hcfg). injection Hcfg as <-. cbn. unfold required_text in *.
  assert (Hchoice : forall choices name v, choice p choices name = Ok (Some v) -> v ∈ choices).
  { intros choices name v. unfold choice. destruct (p name) as [x|]; [|done]. case_bool_decide; [|done]. by intros [= <-]. }
  split_and!.
  - destruct (p "s3-download-bucket"); [by injection Hbucket as ->|done].
  - destruct (p "fetcher-job-image"); [by injection Himage as ->|done].
  - intros zk task path claim. eexists. split; [reflexivity|]. destruct restart as [r|]; cbn; [by eapply Hchoice|set_solver].
  - intros policy ->. by eapply Hchoice.
Qed.

(** Every status is read from its value, with the padding that a list in a
    variable leaves around it. *)
Lemma status_from_input a s b :
  str_forall status_padding a = true -> str_forall status_padding b = true ->
  benchmark_status_from_input (a +:+ status_value s +:+ b) = Ok s.
Proof.
  intros Ha Hb. unfold benchmark_status_from_input.
  rewrite strip_by_padded; [by destruct s|done|done|by destruct s|by destruct s].
Qed.

Lemma status_from_input_only input s :
  benchmark_status_from_input input = Ok s -> strip_by status_padding input = status_value s.
Proof.
  unfold benchmark_status_from_input, enum_of. destruct (List.find _ _) as [e|] eqn:Ef; [|done]. intros [= ->].
  apply find_some in Ef as [_ E]. by apply String.eqb_eq in E.
Qed.

(** ** A parser *)

Module Witness.
(** The pairs of the command line, then the variable, then the file. *)
Fixpoint scan (argv : list string) (name : string) : option string :=
  match argv with
  | opt :: v :: argv' => if String.eqb opt ("--" +:+ name) then Some v else scan argv' name
  | _ => None
  end.

Definition is_bracket (c : ascii) : bool := bool_decide (c ∈ ["["; "]"]%char).

#[export] Instance parser0 : ArgParser := {|
  parsed opts argv env config name :=
    match scan argv name with
    | Some v => Some v
    | None => match env_of opts name ≫= dict_get env with Some v => Some v | None => dict_get config name end
    end;
  parsed_list opts argv env name := match env_of opts name ≫= dict_get env with Some v => Some (split_char "," (strip_by is_bracket v)) | None => None end
|}.

Lemma scan_flat pairs name : scan (flat_args pairs) name = dict_get pairs name.
Proof.
  induction pairs as [|[n v] pairs IH]; [done|]. unfold flat_args. cbn [map concat app scan dict_get fst snd]. fold (flat_args pairs).
  rewrite IH. destruct (String.eqb_spec ("--" +:+ n) ("--" +:+ name)) as [E|E].
  - apply (str_app_inj_l "--") in E as ->. by rewrite decide_True.
  - rewrite decide_False; [done|]. by intros ->.
Qed.

#[export] Instance parser_laws0 : ArgParserLaws.
Proof. split. intros opts pairs env config name _ _. cbn. by rewrite scan_flat. Qed.


#[local] Existing Instance literal_floats.

(** With the file that comes with it, the executor accepts a benchmark without
    framework, as the file says. *)
Example executor_defaults : exists cfg, create_executor_config [] [("AVAILABILITY_ZONES", "{}")] false = Ok cfg /\
  framework_value NONE ∈ valid_frameworks (BaiKnowledge.descriptor_config cfg) /\ valid_execution_engines cfg = [].
Proof. eexists. split; [reflexivity|]. split; [|reflexivity]. cbn. set_solver. Qed.

Example trigger_of_template : get_job_status_trigger_config []
  [("JOB_NAME", "b-1"); ("TRIGGER_STATUSES", "[SUCCEEDED, FAILED, JOB_NOT_FOUND]"); ("COMMAND", "kubectl delete");
   ("JOB_NOT_FOUND_GRACE_PERIOD_SECONDS", "30")] =
  Ok (mkTriggerConfig "default" "b-1" [BJ_SUCCEEDED; BJ_FAILED; JOB_NOT_FOUND] 30 "kubectl delete").
Proof. reflexivity. Qed.
End Witness.
