(* ===== verification/Sidecars.v ===== *)
(** * The two sidecars of a benchmark, from their command lines

    metrics-extractor/src/anubis_metrics_extractor/__main__.py and
    metrics-pusher/src/bai_metrics_pusher (__main__.py, args.py, loop.py), over
    the parser of Options.v. *)

From S2P Require Import Prelude PyStr PyLib Json MetricsExtractor MetricsPusher Options.

#[local] Arguments String.append !_ _ /.

(** The stream of the log: the only use of the name is this lookup. *)
Definition logging_stream (name : string) : Res unit :=
  if bool_decide (lower name ∈ ["stdout"; "stderr"]) then Ok tt else Raise (KeyError (lower name)).

(** [parse_args] refuses what [parse_known_args] gives back as the rest. *)
Definition parse_args `{ArgParser} (unrecognized : list Opt -> list string -> bool) (opts : list Opt) (argv : list string)
    (env config : dict string string) : Res (string -> option string) :=
  if unrecognized opts argv then Raise (UsageError "unrecognized arguments") else Ok (parsed opts argv env config).

(** ** The pusher *)

Definition pusher_opts : list Opt :=
  [mkOpt "backend" (Some "BACKEND"); mkOpt "pod-name" (Some "POD_NAME"); mkOpt "pod-namespace" (Some "POD_NAMESPACE")].

Section Pusher.
Context `{ArgParser} {F : PyFloat} {X : Type} {W : PusherWorld X} (unrecognized : list Opt -> list string -> bool).
(** The start of the thread of kubernetes_pod_watcher.py. *)
Context (start_kubernetes_pod_watcher : string -> string -> M X unit).
(** The interruptions, see MetricsPusher.v. *)
Context (raises : Place -> option exn).

(** The whole of [get_input]. *)
Definition pusher_input (argv : list string) (environ : dict string string) : Res InputValue :=
  p <~ parse_args unrecognized pusher_opts argv environ [] ;;
  backend <~ choice p (dict_keys signatures) "backend" ;;
  get_input (default "stdout" backend) (p "pod-name") (p "pod-namespace") environ.

(** The whole of [start_loop]. *)
Definition start_loop_with (input : InputValue) : M (Pusher X) (option unit) :=
  backend <- on_world (create_backend (in_backend input) (in_backend_args input)) ;;
  finally
    (try_except
       ((if str_truthy (in_pod_name input) && str_truthy (in_pod_namespace input)
         then on_world (start_kubernetes_pod_watcher (default "" (in_pod_name input)) (default "" (in_pod_namespace input)))
         else ret tt) ;;
        listen_to_fifo_and_emit_metrics backend raises)
       (on_sigterm raises))
    (close_backend backend raises).

(** [main]. *)
Definition pusher_main (argv : list string) (environ : dict string string) : M (Pusher X) (option unit) :=
  lift (logging_stream (default "stderr" (dict_get environ "LOGGING_STREAM"))) ;;
  input <- lift (pusher_input argv environ) ;;
  start_loop_with input.

(** With a watcher that starts, the loop is the one of MetricsPusher.v over the
    back end that the input names. *)
Lemma start_loop_with_run input backend p x x' :
  create_backend (in_backend input) (in_backend_args input) (pu_ext p) = (Ok backend, x) ->
  (if str_truthy (in_pod_name input) && str_truthy (in_pod_namespace input)
   then start_kubernetes_pod_watcher (default "" (in_pod_name input)) (default "" (in_pod_namespace input)) x = (Ok tt, x')
   else x' = x) ->
  start_loop_with input p = start_loop backend raises (mkPusher (pu_path p) (pu_text p) (pu_reads p) (pu_open p) x').
Proof.
  intros Hb Hw. unfold start_loop_with. unfold bind at 1, on_world at 1. rewrite Hb.
  unfold start_loop, finally, try_except. unfold bind at 1.
  destruct (_ && _); [unfold on_world at 1; cbn [pu_ext]; by rewrite Hw|by rewrite Hw].
Qed.

(** A back end that cannot be made, or an input that cannot be read, leaves the
    FIFO alone. *)
Lemma pusher_main_refused argv environ p e :
  logging_stream (default "stderr" (dict_get environ "LOGGING_STREAM")) = Ok tt ->
  pusher_input argv environ = Raise e -> pusher_main argv environ p = (Raise e, p).
Proof. intros Hl Hi. unfold pusher_main, bind, lift. by rewrite Hl, Hi. Qed.
End Pusher.

(** ** The extractor *)

(** The variables have the prefix [ANUBIS_]. *)
Definition extractor_opts : list Opt :=
  [mkOpt "config" (Some "ANUBIS_CONFIG"); mkOpt "logging-stream" (Some "ANUBIS_LOGGING_STREAM");
   mkOpt "logging-level" (Some "ANUBIS_LOGGING_LEVEL"); mkOpt "pod-name" (Some "ANUBIS_POD_NAME");
   mkOpt "pod-namespace" (Some "ANUBIS_POD_NAMESPACE"); mkOpt "pod-container" (Some "ANUBIS_POD_CONTAINER");
   mkOpt "metrics" (Some "ANUBIS_METRICS")].

Section Extractor.
Context `{ArgParser} {F : PyFloat} `{Re} {X A : Type} (unrecognized : list Opt -> list string -> bool).
(** What the configuration files hold: the default one and the one that the
    arguments name. *)
Context (config_files : list string -> dict string string).
Context (expanduser : string -> string).
Context (load_kube_config : string -> M X unit) (load_incluster_config : M X unit).
Context (read_namespaced_pod_log : string -> string -> option string -> M X (list string)).
Context (emit : jval -> M X A).

(** The options of [main], with the text of the metrics beside those of the
    log: the stream, the pod, the namespace, the container and the metrics. *)
Record ExtractorArgs := mkExtractorArgs {
  ea_stream : string; ea_pod : string; ea_namespace : string; ea_container : string; ea_metrics : string }.

Definition extractor_args (argv : list string) (environ : dict string string) : Res ExtractorArgs :=
  p <~ parse_args unrecognized extractor_opts argv environ (config_files argv) ;;
  pod <~ required_text p "pod-name" ;;
  metrics <~ required_text p "metrics" ;;
  Ok (mkExtractorArgs (default "stderr" (p "logging-stream")) pod (default "default" (p "pod-namespace"))
        (default "benchmark" (p "pod-container")) metrics).

(** [main]; the patterns are compiled before the cluster is asked. *)
Definition extractor_service (argv : list string) (environ : dict string string) : M X unit :=
  args <- lift (extractor_args argv environ) ;;
  lift (logging_stream (ea_stream args)) ;;
  metrics <- lift (get_metrics (ea_metrics args)) ;;
  let options := mkOptions _ (ea_pod args) (ea_namespace args) metrics (Some (ea_container args)) in
  extractor <- lift (LogExtractor_init options) ;;
  match dict_get environ "KUBECONFIG" with
  | Some path => load_kube_config (expanduser path)
  | None => load_incluster_config
  end ;;
  listen read_namespaced_pod_log emit options extractor.
End Extractor.
