(* ===== verification/FetchLoop.v ===== *)
(** * A download, from its lock to its result

    The composition of the fetcher service (FetcherService.v over
    DownloadManager.v), its Kubernetes dispatcher (FetcherDispatcher.v), the
    command line of the fetcher job (Options.v) and the job itself
    (FetcherJob.v), over the model of ZooKeeper: the result that the job writes
    is the result that the service gives to the content. *)

From S2P Require Import Prelude PyStr Events KafkaService IoUtils FetcherJob ZooKeeper DownloadManager.
From S2P Require Import FetcherService FetcherDispatcher Options.
Import ZooKeeper.Model.

#[local] Arguments String.append !_ _ /.

(** What the cluster and the estimator do for the dispatcher: the calls succeed,
    a created job is there, and nothing else makes one. *)
Class FetcherCluster (W : Type) `{KubernetesApi W} `{ContentSizeEstimator W} : Type := {
  cluster_jobs : W -> list V1Job;
  id_law : forall w, exists r w', id_generator w = (Ok r, w') /\ cluster_jobs w' = cluster_jobs w;
  claim_law : forall ns claim w, exists w', create_claim ns claim w = (Ok tt, w') /\ cluster_jobs w' = cluster_jobs w;
  job_law : forall ns job w, exists w', create_job ns job w = (Ok tt, w') /\ cluster_jobs w' = (cluster_jobs w ++ [job])%list;
  delete_jobs_law : forall ns sel w, exists r w', delete_jobs ns sel w = (Ok r, w');
  delete_pods_law : forall ns sel w, exists r w', delete_pods ns sel w = (Ok r, w');
  delete_claims_law : forall ns sel w, exists r w', delete_claims ns sel w = (Ok r, w');
  estimate_law : forall src w, exists info w', size_estimator src w = (Ok info, w') /\ cluster_jobs w' = cluster_jobs w
}.

Section Dispatch.
Context `{Env} `{FetcherCluster W} (service_name zk_ensemble : string) (settings : FetcherJobSettings).

(** A dispatched content has one more job, with the container made for it. *)
Lemma dispatch_run task ev p info w :
  dc_size_info task = Some info ->
  exists job w', k8s_dispatch_fetch service_name zk_ensemble settings task ev p w = (Ok tt, w') /\
    cluster_jobs w' = (cluster_jobs w ++ [job])%list /\
    pod_containers (job_pod_spec job) = [get_fetcher_container zk_ensemble settings task p].
Proof.
  intros Hinfo. unfold k8s_dispatch_fetch. rewrite Hinfo.
  set (claim := if fv_min_size _ <=? _ then _ else _).
  assert (Hclaim : exists name w1, claim w = (Ok name, w1) /\ cluster_jobs w1 = cluster_jobs w).
  { unfold claim. destruct (_ <=? _); [|by exists None, w]. unfold get_volume_name, bind, ret.
    destruct (id_law w) as (r & w1 & -> & E1). match goal with |- context [create_claim ?ns ?cl w1] =>
      destruct (claim_law ns cl w1) as (w2 & -> & E2) end. eexists _, w2. split; [reflexivity|]. congruence. }
  destruct Hclaim as (name & w1 & Hrun & E1). unfold bind at 1. rewrite Hrun.
  unfold get_fetcher_job, get_job_name, bind, ret. destruct (id_law w1) as (r & w2 & -> & E2).
  match goal with |- context [create_job ?ns ?j w2] => destruct (job_law ns j w2) as (w3 & -> & E3); exists j, w3 end.
  split; [done|]. split; [congruence|done].
Qed.

Lemma cleanup_run task ev w : exists w', k8s_cleanup service_name settings task ev w = (Ok tt, w').
Proof.
  unfold k8s_cleanup, delete_by_selector, bind, ret. match goal with |- context [delete_jobs ?ns ?sel w] =>
    destruct (delete_jobs_law ns sel w) as (r1 & w1 & ->); destruct (delete_pods_law ns sel w1) as (r2 & w2 & ->);
    destruct (delete_claims_law ns sel w2) as (r3 & w3 & ->); by exists w3 end.
Qed.
End Dispatch.

(** ** The node of a download *)

Definition segments_length (l : list string) : nat := sum_list_with (fun x => S (String.length x)) l.

Lemma split_length c s h t : split_char c s = h :: t -> String.length s = (String.length h + segments_length t)%nat.
Proof.
  revert h t. induction s as [|a s IH]; intros h t; cbn [split_char]; [by intros [= <- <-]|].
  destruct (Ascii.eqb a c).
  - intros [= <- <-]. destruct (split_char c s) as [|h' t'] eqn:E; [by destruct (split_char_nonempty c s)|].
    unfold segments_length. cbn [sum_list_with String.length]. by rewrite (IH h' t').
  - destruct (split_char c s) as [|h' t'] eqn:E; [by destruct (split_char_nonempty c s)|].
    intros [= <- <-]. cbn [String.length]. by rewrite (IH h' t').
Qed.

Lemma ancestors_from_length pre segs q :
  q ∈ ancestors_from pre segs -> (String.length q < String.length pre + segments_length segs)%nat.
Proof.
  revert pre. induction segs as [|x segs IH]; intros pre; [by intros ?%not_elem_of_nil|].
  destruct segs as [|y segs]; [by intros ?%not_elem_of_nil|]. cbn [ancestors_from]. intros [->|Hq]%elem_of_cons.
  - rewrite !str_length_app. unfold segments_length. cbn [sum_list_with String.length]. lia.
  - apply IH in Hq. rewrite !str_length_app in Hq. unfold segments_length in *. cbn [sum_list_with String.length] in *. lia.
Qed.

(** A node is not above itself, so a new one holds what it is created with. *)
Lemma not_own_ancestor p : p ∉ ancestors p.
Proof.
  unfold ancestors. intros Hq%ancestors_from_length. destruct (split_char "/" p) as [|h t] eqn:E; [by destruct (split_char_nonempty "/" p)|].
  apply split_length in E. cbn [tail String.length] in Hq. lia.
Qed.

Lemma add_ancestors_get nodes l p : p ∉ l -> dict_get (fold_left (fun ns a => add_node ns a "") l nodes) p = dict_get nodes p.
Proof.
  revert nodes. induction l as [|a l IH]; intros nodes Hp; [done|]. cbn [fold_left]. rewrite IH by set_solver.
  unfold add_node. destruct (dict_get nodes a); [done|]. rewrite dict_get_set_ne; [done|]. set_solver.
Qed.

Lemma create_run p data nodes queue :
  dict_get nodes p = None -> exists nodes', model_create p data (mkZk nodes queue []) = (Ok tt, mkZk nodes' queue []) /\
    dict_get nodes' p = Some (mkNode data 0 []).
Proof.
  intros Hp. unfold model_create, bind, interfere, gets. cbn [zk_others zk_nodes]. rewrite Hp. eexists. split; [reflexivity|].
  unfold add_node at 1. rewrite add_ancestors_get, Hp by apply not_own_ancestor. by rewrite dict_get_set_eq.
Qed.

(** ** The round trip *)

Section RoundTrip.
Context `{Env} `{ResultCodec} `{FetcherCluster W} (service_name zk_ensemble : string) (settings : FetcherJobSettings).
Context (handled : Event) (toml : BenchmarkDoc) (scripts : list FileSystemObject) (datasets : nat) (producer_topic : string).

#[local] Instance dispatcher : DownloadDispatcher W := kubernetes_dispatcher service_name zk_ensemble settings.

Abbreviation St := (Svc (DM Zk W Session)).
Abbreviation heap_of s := (dm_heap (svc_ext s)).
Abbreviation node_path := (get_node_path (client_id handled) (Some (action_id handled))).

Lemma estimate_run c d (s : St) :
  heap_of s !! c = Some d ->
  exists info w', estimate_size c s =
    (Ok tt, set_ext (mkDM (alter (set_size_info info) c (heap_of s)) (dm_zk (svc_ext s)) w' (dm_waiting (svc_ext s))
                       (dm_locked (svc_ext s)) (dm_client (svc_ext s))) s) /\
    cluster_jobs w' = cluster_jobs (dm_world (svc_ext s)).
Proof.
  intros Hc. destruct (estimate_law (dc_src d) (dm_world (svc_ext s))) as (info & w' & Hrun & Hjobs). exists info, w'. split; [|done].
  unfold estimate_size, bind at 1, read_content, bind at 1, gets. rewrite Hc. unfold ret at 1, bind, on_world, on_ext.
  rewrite Hrun. reflexivity.
Qed.

(** The first reading of a new node leaves a watch on it. *)
Lemma pending_node_watched p c (s : St) nodes n :
  dm_zk (svc_ext s) = mkZk nodes [] [] -> dict_get nodes p = Some n -> nd_data n = INITIAL_DATA ->
  handle_node_state (event_now handled toml scripts datasets) (on_done handled toml scripts datasets producer_topic) p c s =
  (Ok tt, set_ext (mkDM (heap_of s) (mkZk (dict_set nodes p (mkNode (nd_data n) (nd_version n) (nd_watches n ++ [c])%list)) [] [])
                     (dm_world (svc_ext s)) (dm_waiting (svc_ext s)) (dm_locked (svc_ext s)) (dm_client (svc_ext s))) s).
Proof.
  intros Hz Hp Hn. unfold handle_node_state, bind at 1, on_zk, on_ext. cbn [zk_get zookeeper]. rewrite Hz.
  unfold model_get. rewrite with_node_run. unfold after_others, interfere. cbn [snd zk_others zk_nodes]. rewrite Hp.
  unfold bind, modify, ret, lift. cbn [zk_nodes zk_queue zk_others]. rewrite Hn. unfold INITIAL_DATA at 1.
  by rewrite from_to_binary.
Qed.

(** What the lock sets off: the node of the content, with a watch on it, and a
    job of the cluster for it. *)
Lemma grant_run c d (s : St) nodes w waiting locked session :
  svc_ext s = mkDM (heap_of s) (mkZk nodes [] []) w waiting locked session -> heap_of s !! c = Some d ->
  (forall info, dict_get nodes (node_path (Some (set_size_info info d))) = None) ->
  exists info p nodes' w' job,
    fetch_grant handled toml scripts datasets producer_topic c s =
      (Ok tt, set_ext (mkDM (<[c := set_size_info info d]> (heap_of s)) (mkZk nodes' [] []) w'
                         (List.filter (fun c' => negb (Nat.eqb c' c)) waiting) (locked ++ [c])%list session) s) /\
    dict_get nodes' p = Some (mkNode INITIAL_DATA 0 [c]) /\ startswith "/" p = true /\
    cluster_jobs w' = (cluster_jobs w ++ [job])%list /\
    pod_containers (job_pod_spec job) = [get_fetcher_container zk_ensemble settings (set_size_info info d) p].
Proof.
  intros Hs Hc Hnew. unfold fetch_grant, grant, take_lock, bind at 1, on_ext at 1, modify. rewrite Hs. cbn [dm_heap dm_zk dm_world dm_waiting dm_locked dm_client].
  set (s1 := set_ext _ s). assert (Hc1 : heap_of s1 !! c = Some d) by exact Hc.
  unfold on_content_locked, bind at 1, try_except, bind at 1.
  destruct (estimate_run c d s1 Hc1) as (info1 & w1 & -> & Hw1). unfold ret at 1. set (s2 := set_ext _ s1).
  set (d1 := set_size_info info1 d) in *. assert (Hc2 : heap_of s2 !! c = Some d1) by (cbn; by rewrite list_lookup_alter_eq, Hc).
  unfold start_fetch, bind at 1, read_content at 1, bind at 1, gets at 1. rewrite Hc2. unfold ret at 1, bind at 1, gets at 1.
  change (client_id (event_now handled toml scripts datasets s2)) with (client_id handled).
  change (action_id (event_now handled toml scripts datasets s2)) with (action_id handled).
  set (p := node_path (Some d1)). destruct (create_run p INITIAL_DATA nodes [] (Hnew info1)) as (nodes1 & Hcreate & Hp).
  set (s3 := set_ext (mkDM (heap_of s2) (mkZk nodes1 [] []) w1 (dm_waiting (svc_ext s2)) (dm_locked (svc_ext s2)) session) s2).
  unfold bind at 1. assert (on_zk (zk_create p INITIAL_DATA) s2 = (Ok tt, s3)) as ->.
  { unfold on_zk, on_ext, s3. cbn [zk_create zookeeper s2 s1 svc_ext set_ext dm_zk]. by rewrite Hcreate. }
  set (nodes2 := dict_set nodes1 p (mkNode INITIAL_DATA 0 [c])).
  unfold bind at 1. rewrite (pending_node_watched p c s3 nodes1 (mkNode INITIAL_DATA 0 []) eq_refl Hp eq_refl).
  set (s4 := set_ext _ s3).
  unfold bind at 1. destruct (estimate_run c d1 s4 Hc2) as (info2 & w2 & -> & Hw2). set (s5 := set_ext _ s4).
  assert (Hc5 : heap_of s5 !! c = Some (set_size_info info2 d)) by (cbn; rewrite list_lookup_alter_eq; cbn in Hc2; by rewrite Hc2).
  unfold bind at 1, read_content, bind at 1, gets at 1. rewrite Hc5. unfold ret at 1, bind at 1, gets.
  destruct (dispatch_run service_name zk_ensemble settings (set_size_info info2 d) (event_now handled toml scripts datasets s5) p info2 w2 eq_refl)
    as (job & w3 & Hdisp & Hjobs & Hcont).
  exists info2, p, nodes2, w3, job. split_and!; [|unfold nodes2; by rewrite dict_get_set_eq|reflexivity| |exact Hcont].
  - unfold on_world, on_ext. cbn [dispatch_fetch dispatcher kubernetes_dispatcher s5 svc_ext set_ext dm_world]. rewrite Hdisp.
    assert (E : alter (set_size_info info2) c (alter (set_size_info info1) c (heap_of s)) = <[c := set_size_info info2 d]> (heap_of s)).
    { apply list_eq. intros i. destruct (decide (i = c)) as [->|Hi].
      - rewrite !list_lookup_alter_eq, Hc. by rewrite list_lookup_insert_eq by (by eapply lookup_lt_Some).
      - by rewrite !list_lookup_alter_ne, list_lookup_insert_ne. }
    cbn. unfold set_ext. cbn. by rewrite E.
  - rewrite Hjobs. cbn in Hw1, Hw2. congruence.
Qed.

(** ** The job *)

(** What kazoo documents: a client that was started is connected to the servers
    it was given, and sets a node that is there, as the node of a download is
    until its result was read.  What was written last has the servers, the node
    and the data. *)
Class KazooLaws `{Kazoo J} : Type := {
  connected : J -> option string;
  wrote : J -> option (string * string * string);
  kazoo_start_law : forall hosts j, exists j', kazoo_start hosts j = (Ok tt, j') /\ connected j' = Some hosts;
  kazoo_set_law : forall hosts p data j, connected j = Some hosts ->
    exists j', kazoo_set p data j = (Ok tt, j') /\ wrote j' = Some (hosts, p, data);
  kazoo_stop_law : forall j, exists j', kazoo_stop j = (Ok tt, j') /\ wrote j' = wrote j
}.

Lemma zk_client_update_run `{ResultCodec} `{KazooLaws J} p hosts r j :
  exists j', zk_client_update p hosts r j = (Ok tt, j') /\ wrote j' = Some (hosts, p, to_binary r).
Proof.
  unfold zk_client_update, bind. destruct (kazoo_start_law hosts j) as (j1 & -> & Hj1).
  destruct (kazoo_set_law hosts p (to_binary r) j1 Hj1) as (j2 & -> & Hj2).
  destruct (kazoo_stop_law j2) as (j3 & -> & Hj3). exists j3. by rewrite Hj3.
Qed.

(** [main] of the fetcher job (bai_fetcher_job/__main__.py). *)
Definition fetcher_job_main `{ArgParser} {J : Type} `{S3Api J} `{Curl J} `{Retrying} `{ResultCodec} `{Kazoo J}
    (md5 hex : string -> string) (argv : list string) (environ : dict string string) : M J unit :=
  cfg <- lift (get_fetcher_job_args argv environ) ;;
  retrying_fetch md5 hex (fja_config cfg).

Section Job.
Context `{ArgParserLaws} {J : Type} `{S3Api J} `{Curl J} `{Retrying} `{KazooLaws J} (md5 hex : string -> string).

(** What a job says about the outcome of its attempts; nothing, when they ended
    with an exception of another family. *)
Definition reported (outcome : Res (option FetchedType)) : option FetcherResult :=
  match outcome with
  | Ok t => Some (mkResult FS_DONE t (Some SUCCESS_MESSAGE))
  | Raise e => if is_RetryableError e || is_UnRetryableError e then Some (mkResult FS_FAILED None (Some (str_of_exn e))) else None
  end.

Abbreviation outcome cfg j := (attempts is_RetryableError (fj_max_attempts cfg) (fetch md5 hex cfg) j).1.

Lemma job_reports cfg p j r :
  fj_zk_node_path cfg = Some p -> p <> "" -> reported (outcome cfg j) = Some r ->
  exists j', retrying_fetch md5 hex cfg j = (Ok tt, j') /\ wrote j' = Some (fj_zookeeper_ensemble_hosts cfg, p, to_binary r).
Proof.
  intros Hpath Hp Hr. apply String.eqb_neq in Hp. unfold retrying_fetch, try_except, bind. rewrite retry_attempts.
  destruct (attempts _ _ _ j) as [[t|e] j1]; cbn [fst reported] in Hr; unfold ret, update_zk_node;
    rewrite Hpath; cbn [str_truthy default]; unfold id; rewrite Hp; cbn [negb].
  - injection Hr as <-. apply zk_client_update_run.
  - destruct (is_RetryableError e || is_UnRetryableError e); [|done]. injection Hr as <-.
    destruct (zk_client_update_run p (fj_zookeeper_ensemble_hosts cfg) (mkResult FS_FAILED None (Some (str_of_exn e))) j1) as (j2 & Hset & Hw).
    exists j2. by rewrite Hset.
Qed.

(** C12: a download, from its lock to its result.  When a content is granted its
    lock, the dispatcher makes one job of the cluster; the container of this job
    makes the fetcher job fetch the content's source to its destination, with
    its hash.  Whatever the attempts of the job end with, success or an error
    of the two families, is written to the node that the service watches, on its
    own servers, and
    the notification of this write brings exactly that result to the content:
    the content is no longer pending, its node is gone, its lock is released,
    and the other contents are as they were. *)
Theorem download_round_trip c d dst (s : St) nodes w waiting locked session
    (Hs : svc_ext s = mkDM (heap_of s) (mkZk nodes [] []) w waiting locked session)
    (Hc : heap_of s !! c = Some d) (Hdst : dc_dst d = Some dst) (Hpend : c ∈ fs_pending session)
    (Hplain : plain (dc_src d) && plain dst && plain (default "" (dc_md5 d)) = true)
    (Hnew : forall info, dict_get nodes (node_path (Some (set_size_info info d))) = None) :
  exists info job container args p s1,
    fetch_grant handled toml scripts datasets producer_topic c s = (Ok tt, s1) /\
    cluster_jobs (dm_world (svc_ext s1)) = (cluster_jobs w ++ [job])%list /\ pod_containers (job_pod_spec job) = [container] /\
    get_fetcher_job_args (container_args container) (container_env container) = Ok args /\
    fja_config args = mkJobConfig (dc_src d) dst (Some (default "" (dc_md5 d))) (Some p) zk_ensemble 5 /\
    forall j r, reported (outcome (fja_config args) j) = Some r ->
      exists j1, fetcher_job_main md5 hex (container_args container) (container_env container) j = (Ok tt, j1) /\
      wrote j1 = Some (zk_ensemble, p, to_binary r) /\
      exists s2, fetch_notify handled toml scripts datasets producer_topic
                   (set_zk (act (dm_zk (svc_ext s1)) (ActSet p (to_binary r))) s1) = (Ok tt, s2) /\
        heap_of s2 = <[c := fr_update r (set_size_info info d)]> (heap_of s) /\
        node_of (dm_zk (svc_ext s2)) p = None /\ c ∉ dm_locked (svc_ext s2) /\
        remove_equal (heap_of s2) c (fs_pending session) = Some (fs_pending (dm_client (svc_ext s2))).
Proof.
  destruct (grant_run c d s nodes w waiting locked session Hs Hc Hnew) as (info & p & nodes' & w' & job & Hgrant & Hp & Hpp & Hjobs & Hcont).
  set (container := get_fetcher_container zk_ensemble settings (set_size_info info d) p) in *. set (s1 := set_ext _ s) in Hgrant.
  rewrite !andb_true_iff in Hplain. destruct Hplain as [[Hsrc Hpd] Hmd5].
  exists info, job, container,
    (mkFetcherJobArgs (mkJobConfig (dc_src d) dst (Some (default "" (dc_md5 d))) (Some p) zk_ensemble 5) "INFO"
       (mkRetry 300000 1000) (Some TMP_MOUNT_PATH)), p, s1.
  split; [exact Hgrant|]. split; [exact Hjobs|]. split; [exact Hcont|].
  assert (Hargs : get_fetcher_job_args (container_args container) (container_env container) =
    Ok (mkFetcherJobArgs (mkJobConfig (dc_src d) dst (Some (default "" (dc_md5 d))) (Some p) zk_ensemble 5) "INFO"
          (mkRetry 300000 1000) (Some TMP_MOUNT_PATH))).
  { apply (dispatched_job_configured zk_ensemble settings (set_size_info info d) p dst Hdst).
    assert (plain p = true) as Hplain by (destruct p as [|[[] [] [] [] [] [] [] []]]; done).
    cbn [dc_src dc_md5 set_size_info]. by rewrite Hsrc, Hpd, Hplain, Hmd5. }
  split; [exact Hargs|]. split; [reflexivity|].
  intros j r Hr. destruct (job_reports (mkJobConfig (dc_src d) dst (Some (default "" (dc_md5 d))) (Some p) zk_ensemble 5) p j r eq_refl)
    as (j1 & Hrun & Hwrote); [by intros ->|exact Hr|]. exists j1.
  split; [by unfold fetcher_job_main, bind, lift; rewrite Hargs|]. split; [exact Hwrote|].
  assert (Hfinal : fs_final (fr_status r) = true).
  { cbn [fja_config] in Hr. destruct (attempts _ _ _ j) as [[t|e] ?]; cbn in Hr; [by injection Hr as <-|]. case_match; [by injection Hr as <-|done]. }
  set (d1 := set_size_info info d) in *. set (s2 := set_zk _ s1).
  assert (Hheap : heap_of s2 !! c = Some d1) by (cbn; rewrite list_lookup_insert_eq; [done|by eapply lookup_lt_Some]).
  assert (Hz : dm_zk (svc_ext s2) = mkZk (dict_set nodes' p (mkNode (to_binary r) 1 [])) [mkWatched CHANGED p c] []).
  { unfold s2, set_zk. cbn. by rewrite Hp. }
  destruct (final_result_delivered handled toml scripts datasets producer_topic s2 [] p (to_binary r) 1 c r d1)
    as (s3 & Hnotify & Hc3 & Hother & Hnode & Hrest & Hlock); rewrite ?Hz; try done.
  - cbn. unfold node_of. cbn [zk_nodes]. by rewrite dict_get_set_eq.
  - apply from_to_binary.
  - intros d' ev. apply cleanup_run.
  - exists s3. split; [exact Hnotify|]. split; [|by split].
    apply list_eq. intros i. destruct (decide (i = c)) as [->|Hi].
    + rewrite Hc3, list_lookup_insert_eq; [done|by eapply lookup_lt_Some].
    + rewrite Hother, list_lookup_insert_ne by done. cbn. by rewrite list_lookup_insert_ne.
Qed.
End Job.
End RoundTrip.

Module Witness.
Import FetcherJob.Witness IoUtils.World.
#[local] Existing Instance env0.
#[local] Existing Instance Options.Witness.parser0.
#[local] Existing Instance Options.Witness.parser_laws0.

(** A cluster is its jobs. *)
#[local] Instance api1 : KubernetesApi (list V1Job) := {|
  create_claim _ _ := ret tt;
  create_job _ job := modify (fun jobs => (jobs ++ [job])%list);
  delete_jobs _ _ := ret "deleted";
  delete_pods _ _ := ret "deleted";
  delete_claims _ _ := ret "deleted";
  id_generator := ret "0a1b2c3d"
|}.
#[local] Instance estimator1 : ContentSizeEstimator (list V1Job) := {| size_estimator _ := ret (mkSize 10 1 10) |}.

#[local] Instance cluster1 : FetcherCluster (list V1Job).
Proof. refine {| cluster_jobs jobs := jobs |}; intros; repeat eexists. Defined.

Definition d1 : DownloadableContent := mkContent "s3://b/x" "/data" None None (Some "s3://c/y") None None None None.
Definition session1 : Session := mkSession [0%nat].
Definition s1 : Svc (DM Zk (list V1Job) Session) :=
  mkSvc (mkBus [] 0 0) (mkEmitter "fetcher" "1" "pod" (Some "STATUS")) "fetcher" "pod" [] true
    (mkDM [d1] (mkZk [] [] []) [] [0%nat] [] session1).

#[local] Instance kazoo_laws1 : KazooLaws (J := World).
Proof.
  refine {| connected w := head (rev (requests w));
            wrote w := match rev (requests w) with data :: p :: h :: _ => Some (h, p, data) | _ => None end |}.
  - intros hosts w. eexists. split; [reflexivity|]. cbn. by rewrite rev_app_distr.
  - intros hosts p data w Hw. eexists. split; [reflexivity|]. cbn. rewrite rev_app_distr. cbn.
    destruct (rev (requests w)); [done|]. by injection Hw as ->.
  - intros w. by eexists.
Defined.

Definition settings1 : FetcherJobSettings := mkJobSettings "image" "default" None (Some "OnFailure") None [] (mkVolumeConfig 0 None).
#[local] Instance dispatcher1 : DownloadDispatcher (list V1Job) := dispatcher "fetcher-dispatcher" "zk:2181" settings1.

Lemma download_round_trip_witness :
  exists container p s2 j s3,
    fetch_grant (event0 (PAny VNone)) (doc0 []) [] 1 "OUT" 0 s1 = (Ok tt, s2) /\
    fetcher_job_main md5 hex (container_args container) (container_env container) w0 = (Ok tt, j) /\
    wrote j = Some ("zk:2181", p, "Df+Success") /\
    fetch_notify (event0 (PAny VNone)) (doc0 []) [] 1 "OUT" (set_zk (act (dm_zk (svc_ext s2)) (ActSet p "Df+Success")) s2) = (Ok tt, s3) /\
    dc_status <$> (dm_heap (svc_ext s3) !! 0%nat) = Some (Some FS_DONE).
Proof.
  destruct (download_round_trip "fetcher-dispatcher" "zk:2181" settings1 (event0 (PAny VNone)) (doc0 []) [] 1 "OUT" md5 hex
    0 d1 "s3://c/y" s1 [] [] [0%nat] [] session1)
    as (info & job & container & args & p & s2 & Hgrant & _ & _ & _ & Hcfg & Hjob); try reflexivity; [left|].
  exists container, p, s2. rewrite Hcfg in Hjob. destruct (Hjob w0 (mkResult FS_DONE (Some FT_FILE) (Some "Success"))) as (j & Hrun & Hw & s3 & Hs3 & Hheap & _).
  - reflexivity.
  - exists j, s3. split; [exact Hgrant|]. split; [exact Hrun|]. split; [exact Hw|]. split; [exact Hs3|]. rewrite Hheap. reflexivity.
Defined.
End Witness.
