(* ===== verification/Services.v ===== *)
(** * The services as they are started (the [__main__.py] files)

    From the command line and the environment to the poll loop: the options of
    Kafka, of the watcher and of the SageMaker executor over the parser of
    Options.v, the topics and clients of KafkaClient.v, the callbacks of each
    service, and its loop over the decoded records. *)

From S2P Require Import Prelude PyStr Json Events KafkaService CmdCallback Descriptor K8sSpec BaiKnowledge.
From S2P Require Import Executor K8sEngine DownloadManager FetcherService JobStatus CloudWatch SageMaker Watcher.
From S2P Require Import ZkLocker FetcherJob FetcherDispatcher Options KafkaClient BaiClient MetricsPusher MetricsFlow.

#[local] Arguments String.append !_ _ /.

(** ** Options *)

Definition kafka_service_opts : list Opt :=
  [mkOpt "consumer-topic" (Some "CONSUMER_TOPIC"); mkOpt "producer-topic" (Some "PRODUCER_TOPIC");
   mkOpt "bootstrap-servers" (Some "KAFKA_BOOTSTRAP_SERVERS"); mkOpt "consumer-group-id" (Some "CONSUMER_GROUP_ID");
   mkOpt "cmd-submit-topic" (Some "CMD_SUBMIT_TOPIC"); mkOpt "cmd-return-topic" (Some "CMD_RETURN_TOPIC");
   mkOpt "status-topic" (Some "STATUS_TOPIC"); mkOpt "logging-level" (Some "LOGGING_LEVEL");
   mkOpt "num-partitions" (Some "NUM_PARTITIONS"); mkOpt "replication-factor" (Some "REPLICATION_FACTOR")].

Definition watcher_opts : list Opt :=
  [mkOpt "kubernetes-namespace-of-running-jobs" (Some "KUBERNETES_NAMESPACE_OF_RUNNING_JOBS");
   mkOpt "kubeconfig" (Some "KUBECONFIG"); mkOpt "service-logging-level" (Some "SERVICE_LOGGING_LEVEL");
   mkOpt "grafana-endpoint" (Some "GRAFANA_ENDPOINT"); mkOpt "grafana-results-url" (Some "GRAFANA_RESULTS_URL");
   mkOpt "grafana-op-metrics-dashboard-uid" (Some "GRAFANA_OP_METRICS_DASHBOARD_UID")].

(** The variables that [auto_env_var_prefix] makes. *)
Definition sm_executor_opts : list Opt :=
  [mkOpt "sagemaker-output-bucket" (Some "SAGEMAKER_OUTPUT_BUCKET"); mkOpt "sagemaker-role" (Some "SAGEMAKER_ROLE");
   mkOpt "tmp-sources-dir" (Some "TMP_SOURCES_DIR"); mkOpt "sagemaker-nodataset" (Some "SAGEMAKER_NODATASET");
   mkOpt "sagemaker-subnets" (Some "SAGEMAKER_SUBNETS");
   mkOpt "sagemaker-security-group-ids" (Some "SAGEMAKER_SECURITY_GROUP_IDS");
   mkOpt "valid-execution-engines" (Some "VALID_EXECUTION_ENGINES");
   mkOpt "transpiler-valid-strategies" (Some "TRANSPILER_VALID_STRATEGIES");
   mkOpt "transpiler-valid-frameworks" (Some "TRANSPILER_VALID_FRAMEWORKS")].

(** sm_executor/default_config.yaml. *)
Definition sm_default_config_yaml : dict string string :=
  [("transpiler-valid-strategies", "single_node,horovod"); ("transpiler-valid-frameworks", "tensorflow,mxnet")].

Section Args.
Context `{ArgParser} (argv : list string) (env : dict string string).

(** [create_kafka_service_parser] with [get_kafka_service_config]. *)
Definition kafka_service_config : Res KafkaServiceConfig :=
  let p := parsed kafka_service_opts argv env [] in
  num_partitions <~ typed p py_int "num-partitions" ;;
  replication_factor <~ typed p py_int "replication-factor" ;;
  consumer_topic <~ required_text p "consumer-topic" ;;
  producer_topic <~ required_text p "producer-topic" ;;
  Ok (get_kafka_service_config (mkArgs consumer_topic producer_topic (p "bootstrap-servers") (p "consumer-group-id")
        (p "cmd-submit-topic") (p "cmd-return-topic") (p "status-topic") (p "logging-level") num_partitions replication_factor)).

(** [get_watcher_service_config]. *)
Definition get_watcher_service_config : WatcherServiceConfig :=
  let p := parsed watcher_opts argv env [] in
  mkWatcherConfig (p "grafana-endpoint") (p "grafana-results-url") (p "grafana-op-metrics-dashboard-uid")
    (default "default" (p "kubernetes-namespace-of-running-jobs")) (p "kubeconfig")
    (default "INFO" (p "service-logging-level")).

(** [get_args] of the SageMaker executor, then its [create_executor_config]. *)
Definition sm_executor_config : Res SageMakerExecutorConfig :=
  let p := parsed sm_executor_opts argv env sm_default_config_yaml in
  bucket <~ required_text p "sagemaker-output-bucket" ;;
  role <~ required_text p "sagemaker-role" ;;
  nodataset <~ required_text p "sagemaker-nodataset" ;;
  Ok (SageMaker.create_executor_config
        (mkSmArgs bucket role (p "tmp-sources-dir") nodataset (p "sagemaker-subnets") (p "sagemaker-security-group-ids")
           (p "valid-execution-engines") (p "transpiler-valid-strategies") (p "transpiler-valid-frameworks"))).
End Args.

(** ** The configuration of Kubernetes (kubernetes_job_watcher.py) *)

(** The home directory, the file system and the Kubernetes client. *)
Class KubeConfig (K : Type) : Type := {
  home : M K string;
  path_exists : string -> M K bool;
  load_kube_config : string -> M K unit;
  load_incluster_config : M K unit
}.

(** [load_kubernetes_config]: the given file or the one at home, and the
    configuration of the cluster when there is no such file. *)
Definition load_kubernetes_config `{KubeConfig K} (kubeconfig : option string) : M K unit :=
  path <- match kubeconfig with
          | Some path => ret (path_str path)
          | None => home_dir <- home ;; ret (path_join (path_join home_dir ".bai") "kubeconfig")
          end ;;
  exists_ <- path_exists path ;;
  if (exists_ : bool) then load_kube_config path else load_incluster_config.

(** [create_kubernetes_api_client] of the fetcher. *)
Definition create_kubernetes_api_client `{KubeConfig K} (kubeconfig : option string) : M K unit :=
  if str_truthy kubeconfig then load_kube_config (default "" kubeconfig) else load_incluster_config.

(** ** The executor (executor/__main__.py, executor.py) *)

Definition executor_topics (cfg : KafkaServiceConfig) : ExecutorTopics :=
  mkTopics (consumer_topic cfg) (producer_topic cfg) (cmd_submit_topic cfg) (cmd_return_topic cfg) (Some (status_topic cfg)).

(** [get_pod_name] is the name of the machine. *)
Section Start.
Context `{Env} `{SetOrder} `{EventJson} `{ArgParser} {F : PyFloat} `{KafkaLib K} (pod : string).
Context (argv : list string) (env : dict string string).
Context (bind_error_text : BindError -> string).
(** The checks of descriptors and the packages under them, see Descriptor.v. *)
Context (cron_is_valid : option string -> bool) (dacite : DaciteArgs -> list (string * pyval) -> Res BenchmarkDescriptor).

(** What Kafka hands over in the successive polls, as bytes. *)
Abbreviation RawRecords := (list (string * list string)).

(** [create_executor_service], with the two clients. *)
Definition connected_executor_service {X} (cfg : KafkaServiceConfig) (name version : string) (b : Bus) (x : X) : M K (Svc X) :=
  create_kafka_consumer_producer cfg name ;;
  ret (create_executor_service (executor_topics cfg) name version pod b x).

Section Executor.
Context {X : Type} (check_output : list string -> string -> M X string).
(** Templates, YAML and draws of the transpiler, see BaiKnowledge.v. *)
Context (read_template : string -> string) (load_docs : string -> dict string TVar -> Res (list pyval)).
Context (dump_all : list pyval -> string) (draws : Event -> nat * nat).

(** The transpiler as the engine calls it. *)
Definition job_yaml (ecfg : ExecutorConfig) (contents : list (string * pyval)) (datasets models : list DownloadableContent)
    (scripts : list FileSystemObject) (job_id : string) (event : Event) : Res string :=
  create_job_yaml_spec read_template load_docs dump_all str_of_content cron_is_valid dacite contents ecfg
    datasets models scripts job_id event (draws event).

Definition scheduled_yaml (ecfg : ExecutorConfig) (contents : list (string * pyval)) (job_id : string) (event : Event) : Res string :=
  create_scheduled_job_yaml_spec read_template load_docs dump_all to_json cron_is_valid dacite contents ecfg job_id event.

(** The one engine of the executor, and its callbacks. *)
Definition executor_engine (ecfg : ExecutorConfig) (_ : nat) : ExecutionEngine X :=
  k8s_engine check_output (job_yaml ecfg) (kubectl ecfg).

Definition executor_callbacks (cfg : KafkaServiceConfig) (ecfg : ExecutorConfig) : nat -> Callback X :=
  executor_cbs (executor_engine ecfg) bind_error_text (executor_topics cfg) (executor_engines 0)
    (k8s_schedule check_output (scheduled_yaml ecfg) (kubectl ecfg)).

(** [create_executor]: the handler of scheduled benchmarks is added last. *)
Definition start_executor (cfg : KafkaServiceConfig) (b : Bus) (x : X) : M K (Svc X) :=
  s <- connected_executor_service cfg "executor" "1.0" b x ;;
  let (r, s') := add_callback SCHEDULED_HANDLER (consumer_topic cfg) s in
  lift r ;;
  ret s'.

(** [main]: what the loop did in the given polls, and the service after it. *)
Definition executor_main (suppress_job_affinity : bool) (b : Bus) (x : X) (polls : list RawRecords) : M K (Res bool * Svc X) :=
  cfg <- lift (kafka_service_config argv env) ;;
  ecfg <- lift (Options.create_executor_config argv env suppress_job_affinity) ;;
  s <- start_executor cfg b x ;;
  ret (run_loop (executor_callbacks cfg ecfg) (map decode_records polls) s).
End Executor.

(** ** The SageMaker executor (sm_executor/__main__.py, sm_executor.py) *)

Section SageMakerExecutor.
Context {X : Type} `{SageMaker X} {C : CloudWatch X} (polls_of_wait : nat).

Definition sm_engine_of (config : SageMakerExecutorConfig) (_ : nat) : ExecutionEngine X :=
  sm_engine cron_is_valid dacite config polls_of_wait.

(** The service has no scheduling handler. *)
Definition sm_executor_callbacks (cfg : KafkaServiceConfig) (config : SageMakerExecutorConfig) : nat -> Callback X :=
  executor_cbs (sm_engine_of config) bind_error_text (executor_topics cfg) (sm_engines 0) (fun _ => raise (RuntimeError "")).

Definition sm_executor_main (b : Bus) (x : X) (polls : list RawRecords) : M K (Res bool * Svc X) :=
  cfg <- lift (kafka_service_config argv env) ;;
  config <- lift (sm_executor_config argv env) ;;
  s <- connected_executor_service cfg "sm-executor" "1.0" b x ;;
  ret (run_loop (sm_executor_callbacks cfg config) (map decode_records polls) s).
End SageMakerExecutor.

(** ** The watcher (bai_watcher/__main__.py, kafka_service_watcher.py) *)

Section WatcherService.
Context {W : Type} `{!KubeConfig K}.

(** The watcher reads a descriptor without a configuration. *)
Definition watched_descriptor (contents : list (string * pyval)) : Res BenchmarkDescriptor :=
  from_dict cron_is_valid dacite contents None.

Definition watcher_cbs (_ : nat) : Callback (WX W) := mkCallback (watcher_handle_event watched_descriptor) (ret tt).

(** [create_service]. *)
Definition create_watcher_service (cfg : KafkaServiceConfig) (wcfg : WatcherServiceConfig) (b : Bus) (w : W) : M K (Svc (WX W)) :=
  load_kubernetes_config (kubeconfig wcfg) ;;
  create_kafka_consumer_producer cfg "watcher" ;;
  ret (KafkaService_init "watcher" "0.1.0" [(consumer_topic cfg, [0%nat])] pod (Some (status_topic cfg)) b (mkWX [] [] w)).

Definition watcher_main (b : Bus) (w : W) (polls : list RawRecords) : M K (Res bool * Svc (WX W)) :=
  cfg <- lift (kafka_service_config argv env) ;;
  s <- create_watcher_service cfg (get_watcher_service_config argv env) b w ;;
  ret (run_loop watcher_cbs (map decode_records polls) s).
End WatcherService.

(** ** The fetcher (fetcher_dispatcher_service.py)

    The handler of fetcher events is the transition system of FetcherService.v,
    so the loop is not run here. *)

Section FetcherStart.
(** [KazooClient.start]; the constructor of the client does not connect. *)
Context {X : Type} `{!KubeConfig K} (zk_start : string -> M K unit).

Definition LOCK_MANAGER_PREFIX : string := "fetcher_lock_manager".

(** The parts of the download manager: the hosts of its ZooKeeper client, the
    settings of its dispatcher and the paths of its locks. *)
Record DownloadManagerParts := mkManagerParts {
  dmp_hosts : string;
  dmp_fetcher_job : FetcherJobSettings;
  dmp_lock_path : Mode -> DownloadableContent -> string
}.

Definition create_download_manager (zookeeper_ensemble_hosts : string) (kubeconfig : option string)
    (fetcher_job : FetcherJobSettings) : M K DownloadManagerParts :=
  create_kubernetes_api_client kubeconfig ;;
  ret (mkManagerParts zookeeper_ensemble_hosts fetcher_job (get_lock_path LOCK_MANAGER_PREFIX get_lock_name)).

(** [DownloadManager.start]. *)
Definition start_download_manager (mgr : DownloadManagerParts) : M K unit := zk_start (dmp_hosts mgr).

Definition FETCHER_HANDLER : nat := 0.
Definition FETCHER_CMD_CALLBACK : nat := 1.

(** [create_fetcher_dispatcher]: the download manager starts before the clients
    of Kafka are made. *)
Definition create_fetcher_dispatcher (cfg : KafkaServiceConfig) (fcfg : FetcherServiceConfig) (b : Bus) (x : X) : M K (Svc X) :=
  download_mgr <- create_download_manager (fsc_zookeeper_ensemble_hosts fcfg) (fsc_kubeconfig fcfg) (fsc_fetcher_job fcfg) ;;
  start_download_manager download_mgr ;;
  create_kafka_consumer_producer cfg "fetcher-dispatcher" ;;
  ret (KafkaService_init "fetcher-dispatcher" "1.0"
         (dict_update [] [(consumer_topic cfg, [FETCHER_HANDLER]); (cmd_submit_topic cfg, [FETCHER_CMD_CALLBACK])])
         pod (Some (status_topic cfg)) b x).

Definition fetcher_start (b : Bus) (x : X) : M K (Svc X) :=
  cfg <- lift (kafka_service_config argv env) ;;
  fcfg <- lift (get_fetcher_service_config argv env) ;;
  create_fetcher_dispatcher cfg fcfg b x.
End FetcherStart.

(** ** The CloudWatch exporter (cloudwatch_exporter/__main__.py) *)

Definition exporter_main `{!MetricsJson} {X : Type} `{!CloudWatch X} (float_of : jval -> Res pyfloat) (x : X) (polls : list RawRecords)
    : M K (Res unit * X) :=
  cfg <- lift (kafka_service_config argv env) ;;
  create_exporter_clients cfg ;;
  ret (for_each (exporter_records float_of (consumer_topic cfg)) polls x).
End Start.

(** ** What has been started *)

Section Started.
Context `{Env} `{SetOrder} `{EventJson} `{ArgParser} {F : PyFloat} `{KafkaLib K} (pod : string).
Context (argv : list string) (env : dict string string).
Context (bind_error_text : BindError -> string).
Context (cron_is_valid : option string -> bool) (dacite : DaciteArgs -> list (string * pyval) -> Res BenchmarkDescriptor).

Abbreviation RawRecords := (list (string * list string)).

Section Executor.
Context {X : Type} (check_output : list string -> string -> M X string).
Context (read_template : string -> string) (load_docs : string -> dict string TVar -> Res (list pyval)).
Context (dump_all : list pyval -> string) (draws : Event -> nat * nat).

(** The executor as its loop finds it. *)
Definition started_executor (cfg : KafkaServiceConfig) (b : Bus) (x : X) : Svc X := started (executor_topics cfg) "1.0" pod b x.

(** The clients come first, then the loop; an error of the options is raised
    before Kafka is asked for anything. *)
Lemma executor_main_run cfg ecfg suppress b x polls k k' :
  kafka_service_config argv env = Ok cfg -> Options.create_executor_config argv env suppress = Ok ecfg ->
  create_kafka_consumer_producer cfg "executor" k = (Ok tt, k') -> consumer_topic cfg <> cmd_submit_topic cfg ->
  executor_main pod argv env bind_error_text cron_is_valid dacite check_output read_template load_docs dump_all draws
    suppress b x polls k =
  (Ok (run_loop (executor_callbacks bind_error_text cron_is_valid dacite check_output read_template load_docs dump_all draws cfg ecfg)
         (map decode_records polls) (started_executor cfg b x)), k').
Proof.
  intros Hcfg Hecfg Hk Htopics. unfold executor_main, bind, lift. rewrite Hcfg, Hecfg.
  unfold start_executor, connected_executor_service, bind, ret, lift. rewrite Hk.
  change (add_callback SCHEDULED_HANDLER (consumer_topic cfg) (create_executor_service (executor_topics cfg) "executor" "1.0" pod b x))
    with (create_executor (executor_topics cfg) "1.0" pod b x).
  by rewrite create_executor_run.
Qed.
End Executor.

Section Watcher.
Context {W : Type} `{!KubeConfig K}.

Definition started_watcher (cfg : KafkaServiceConfig) (b : Bus) (w : W) : Svc (WX W) :=
  KafkaService_init "watcher" "0.1.0" [(consumer_topic cfg, [0%nat])] pod (Some (status_topic cfg)) b (mkWX [] [] w).

Lemma watcher_main_run cfg b w polls k k1 k' :
  kafka_service_config argv env = Ok cfg ->
  load_kubernetes_config (kubeconfig (get_watcher_service_config argv env)) k = (Ok tt, k1) ->
  create_kafka_consumer_producer cfg "watcher" k1 = (Ok tt, k') ->
  watcher_main pod argv env cron_is_valid dacite b w polls k =
  (Ok (run_loop (watcher_cbs cron_is_valid dacite) (map decode_records polls) (started_watcher cfg b w)), k').
Proof.
  intros Hcfg Hl Hk. unfold watcher_main, bind, lift. rewrite Hcfg.
  unfold create_watcher_service, bind, ret. by rewrite Hl, Hk.
Qed.

Lemma watcher_keeps : keeps_callbacks (watcher_cbs (W := W) cron_is_valid dacite).
Proof.
  intros c ev. change (keeps (watcher_handle_event (W := W) (watched_descriptor cron_is_valid dacite) ev)).
  unfold watcher_handle_event. solve_keeps.
Qed.
End Watcher.
End Started.

(** ** The job-status trigger (bai_job_status_trigger/__main__.py) *)

Section TriggerService.
Context `{ArgParser} `{KubeConfig K} (check_output : list string -> M K string) (status_name : BenchmarkJobStatus -> string).

Definition get_kubernetes_api_clients (env : dict string string) : M K unit := load_kubernetes_config (dict_get env "KUBECONFIG").

(** [main], over the polls of its watcher; [None] when the watch goes on. *)
Definition trigger_service (argv : list string) (env : dict string string) (polls : list (Z * BenchmarkJobStatus))
    : M K (option (string + Z)) :=
  config <- lift (get_job_status_trigger_config argv env) ;;
  get_kubernetes_api_clients env ;;
  match (trigger_loop (jst_trigger_statuses config) (jst_job_not_found_grace_period_seconds config) (jst_job_name config)
           status_name polls false).1 with
  | Ok (Some result) =>
      r <- trigger_main (check_output ["bash"; "-c"; jst_command config]) result ;;
      ret (Some r)
  | _ => ret None
  end.

(** The command runs only when the job was seen in one of the configured
    statuses. *)
Lemma trigger_service_runs argv env polls k out :
  (trigger_service argv env polls k).1 = Ok (Some (inl out)) ->
  exists config elapsed st, get_job_status_trigger_config argv env = Ok config /\
    (elapsed, st) ∈ polls /\ st ∈ jst_trigger_statuses config.
Proof.
  unfold trigger_service, get_kubernetes_api_clients, bind, lift. destruct (get_job_status_trigger_config argv env) as [config|e]; [|done].
  destruct (load_kubernetes_config _ k) as [[[]|e] k1]; [|done].
  destruct (trigger_loop _ _ _ _ _ _).1 as [[[ok err]|]|e] eqn:El; try done.
  unfold trigger_main. destruct ok; [|done]. intros _.
  destruct (trigger_only_on_status (jst_trigger_statuses config) (jst_job_not_found_grace_period_seconds config)
    (jst_job_name config) status_name polls false) as (elapsed & st & Hin & Hst & _); [|by exists config, elapsed, st].
  by rewrite El, (trigger_loop_success _ _ _ _ _ _ _ El).
Qed.
End TriggerService.

(** ** The transpiler's own command line (transpiler/__main__.py) *)

Section TranspilerCommand.
Context `{ArgParser} {F : PyFloat} {K : Type} (toml_load : string -> M K (list (string * pyval))).

Definition transpiler_opts : list Opt := [mkOpt "descriptor" None; mkOpt "filename" None].

(** [get_input_args]: the descriptor and the file for the output. *)
Definition get_input_args (argv : list string) : Res (string * option string) :=
  let p := parsed transpiler_opts argv [] [] in
  descriptor <~ required_text p "descriptor" ;;
  Ok (descriptor, p "filename").

(** [descriptor_data.get("data", {}).get("sources", [])]. *)
Definition descriptor_sources (descriptor_data : list (string * pyval)) : Res pyval :=
  match dict_get descriptor_data "data" with
  | None => Ok (VList [])
  | Some (VDict data) => Ok (default (VList []) (dict_get data "sources"))
  | Some _ => Raise (AttributeError "object has no attribute 'get'")
  end.

(** [main] up to its call of [create_job_yaml_spec] with four of the six
    positional arguments; nothing after it is reached. *)
Definition transpiler_main (argv : list string) (env : dict string string) (suppress_job_affinity : bool) : M K unit :=
  _ <- lift (Options.create_executor_config argv env suppress_job_affinity) ;;
  '(descriptor, _) <- lift (get_input_args argv) ;;
  descriptor_data <- toml_load descriptor ;;
  _ <- lift (descriptor_sources descriptor_data) ;;
  raise (TypeError "create_job_yaml_spec() missing 2 required positional arguments: 'scripts' and 'job_id'").

(** The command never writes a document: it always ends in an error. *)
Lemma transpiler_main_fails argv env suppress k : is_ok (transpiler_main argv env suppress k).1 = false.
Proof.
  unfold transpiler_main, bind, lift. destruct (Options.create_executor_config _ _ _); [|done].
  destruct (get_input_args argv) as [[descriptor filename]|]; [|done].
  destruct (toml_load descriptor k) as [[data|e] k']; [|done]. by destruct (descriptor_sources data).
Qed.
End TranspilerCommand.
