(* ===== verification/Pipeline.v ===== *)
(** * From a submission to its watcher

    The composition of the executor (Executor.v), the codecs of Kafka
    (KafkaClient.v), the service loop (KafkaService.v) and the watcher
    (Watcher.v): what the executor sends about a job is what the watcher
    watches. *)

From S2P Require Import Prelude PyStr PyLib Json Events KafkaService CmdCallback Descriptor Executor KafkaClient.
From S2P Require Import K8sSpec BaiKnowledge K8sEngine JobStatus Watcher Options Services.

Section Pipeline.
Context `{Env} `{EventJsonLaws} {X : Type} (engine_of : nat -> ExecutionEngine X).

(** The event about a created job, before it is stamped. *)
Definition response_event (ev : Event) (p : FetcherPayload) (job : BenchmarkJob) : Event :=
  mkEvent (action_id ev) (parent_action_id ev) (message_id ev) (client_id ev) (client_version ev) (client_username ev)
    (authenticated ev) (tstamp ev) (visited ev) (type ev) (response_payload p job).

(** The last send of a successful submission. *)
Lemma executor_last_send engines topic ev p engine_id eng job x t (s : Svc X) :
  payload ev = PFetcher p -> get_engine_id ev = Ok (VStr engine_id) -> has_status_topic s t ->
  is_single_run ev = Ok true -> dict_get engines engine_id = Some eng ->
  engine_run (engine_of eng) ev (svc_ext s) = (Ok job, x) ->
  exists b, executor_handle_event engine_of engines topic ev s =
    (Ok tt, set_bus (bus_after b (mkSent topic (client_id ev)
       (event_to_send (svc_emitter s) (response_event ev p job) topic b))) (set_ext x s)).
Proof.
  intros Hp Hid Ht Hsingle Heng Hrun. unfold executor_handle_event, bind, lift. rewrite Hsingle. cbn [negb].
  rewrite Hid. cbn [lookup_engine]. rewrite Heng.
  destruct (guarded_submit_run ev "Processing benchmark submission request..." (engine_run (engine_of eng) ev) t s Ht) as (b1 & _ & ->).
  rewrite Hrun, Hp. cbn [fst snd as_fetcher_payload create_from_object payload_matches].
  change (PExecutor (create_from_fetcher_payload p job)) with (response_payload p job).
  match goal with |- context [ks_send_status ?rev ?st ?m ?tg ?s'] => destruct (ks_send_status_run rev st m tg s') as [b2 ->] end.
  unfold ks_send_event, on_bus. rewrite send_event_run. exists b2. reflexivity.
Qed.

(** The engine that a submission names decides how the job is watched. *)
Lemma watched_as_submitted ev e engine_id :
  get_engine_id ev = Ok (VStr engine_id) -> payload_toml (payload e) = payload_toml (payload ev) ->
  is_sage_maker_job e = Ok (String.eqb engine_id "aws.sagemaker").
Proof.
  unfold get_engine_id, event_info, is_sage_maker_job. intros Hid ->.
  destruct (payload_toml (payload ev)) as [toml|err]; [|done]. cbn [res_bind] in *. unfold info_get in *.
  destruct (dict_get (doc_contents toml) "info") as [[| | | | |info]|]; try done; cbn [res_bind].
  - destruct (dict_get info "execution_engine") as [v|]; cbn [default] in *; injection Hid as E; by subst.
  - by injection Hid as <-.
Qed.

End Pipeline.

(** ** The two services, from their start *)

Section Services.
Context `{Env} `{EventJsonLaws} {X : Type} `{SetOrder} `{ArgParser} {F : PyFloat} `{KafkaLib K}.
Context (bind_error_text : BindError -> string).
Context (cron_is_valid : option string -> bool) (dacite : DaciteArgs -> list (string * pyval) -> Res BenchmarkDescriptor).
Context (check_output : list string -> string -> M X string).
Context (read_template : string -> string) (load_docs : string -> dict string TVar -> Res (list pyval)).
Context (dump_all : list pyval -> string) (draws : Event -> nat * nat).
Context {W : Type} `{!KubeConfig K}.
(** The process of the executor and that of the watcher. *)
Context (pod_e pod_w : string) (argv_e argv_w : list string) (env_e env_w : dict string string).

Definition yaml_of (ecfg : ExecutorConfig) (ev : Event) (p : FetcherPayload) : Res string :=
  job_yaml cron_is_valid dacite read_template load_docs dump_all draws ecfg (doc_contents (fp_toml p)) (fp_datasets p)
    (fp_models p) (fp_scripts p) (JOB_ID_PREFIX +:+ action_id ev) ev.

(** The job of a submission. *)
Definition created_job (ev : Event) (yaml : string) : BenchmarkJob :=
  mkJob (JOB_ID_PREFIX +:+ action_id ev) None [(EXTRA_K8S_YAML, yaml)].

(** The descriptor that was transpiled is the one that the watcher reads. *)
Lemma transpiled_descriptor ecfg ev p yaml :
  yaml_of ecfg ev p = Ok yaml -> exists d, watched_descriptor cron_is_valid dacite (doc_contents (fp_toml p)) = Ok d.
Proof.
  unfold yaml_of, job_yaml, create_job_yaml_spec. intros H'. apply res_bind_Ok in H' as (d & Hd & _).
  exists d. by eapply from_dict_without_config.
Qed.

(** What the executor does of a poll with the bytes of one submission: the
    handler of single runs acts or that of scheduled benchmarks. *)
Lemma executor_delivers cfg ecfg ev p single b (x : X) (s : Svc X) :
  svc_callbacks s = svc_callbacks (started_executor pod_e cfg b x) ->
  consumer_topic cfg = "BAI_APP_FETCHER" -> encodable ev -> type ev = "BAI_APP_FETCHER" -> payload ev = PFetcher p ->
  is_single_run ev = Ok single ->
  fold_left (deliver (executor_callbacks bind_error_text cron_is_valid dacite check_output read_template load_docs dump_all draws cfg ecfg))
    (deliveries (svc_callbacks s) (decode_records [("BAI_APP_FETCHER", [json_serializer ev])])) s =
  if single
  then (executor_handle_event (executor_engine cron_is_valid dacite check_output read_template load_docs dump_all draws ecfg)
          (executor_engines 0) (producer_topic cfg) ev s).2
  else (scheduled_handle_event
          (k8s_schedule check_output (scheduled_yaml cron_is_valid dacite read_template load_docs dump_all ecfg) (kubectl ecfg)) ev s).2.
Proof.
  intros Hcb Hc Hwire Htype Hp Hsingle.
  assert (Hdec : json_deserializer (json_serializer ev) = Some ev).
  { apply json_roundtrip with FetcherBenchmarkEvent; [done|by rewrite Htype|by rewrite Hp]. }
  unfold decode_records. cbn [map]. rewrite Hdec.
  rewrite <- Hc. change (consumer_topic cfg) with (Executor.consumer_topic (executor_topics cfg)).
  unfold executor_callbacks. rewrite (submission_delivered _ _ _ _ _ ev single); [done| |done].
  rewrite Hcb. cbn. by rewrite decide_True.
Qed.

(** The watcher's turn: one poll with the bytes of an event about a job. *)
Lemma watcher_turn wcfg e b (w : W) :
  let s := started_watcher pod_w wcfg b w in
  consumer_topic wcfg = "BAI_APP_EXECUTOR" -> json_deserializer (json_serializer e) = Some e ->
  run_loop (watcher_cbs cron_is_valid dacite) [decode_records [("BAI_APP_EXECUTOR", [json_serializer e])]] s =
    (Ok false, (watcher_handle_event (watched_descriptor cron_is_valid dacite) e (set_running true s)).2).
Proof.
  intros s Hc Hdec. apply run_loop_one; [apply watcher_keeps|done| |by rewrite watcher_running].
  unfold decode_records. cbn [map]. rewrite Hdec. unfold deliveries. cbn [map].
  replace (dict_get (svc_callbacks s) "BAI_APP_EXECUTOR") with (Some [0%nat]); [done|].
  cbn. by rewrite Hc, decide_True.
Qed.

(** C10: from the executor to the watcher, as processes.  When a submission of a
    single run arrives on the executor's topic and kubectl takes the document
    that the transpiler made of it, the executor leaves the cluster as kubectl
    left it and goes on polling; the last message that it sends, as the bytes on
    the topic between the two services, makes the watcher watch exactly the
    Kubernetes job of the submission, under its action and client, unless the
    benchmark is distributed, which no watcher is for. *)
Theorem submission_is_watched cfg ecfg wcfg suppress ev p engine_id yaml out x x1 k k1 kw kw1 kw2 b bw (w : W)
    (Hcfg : kafka_service_config argv_e env_e = Ok cfg)
    (Hecfg : Options.create_executor_config argv_e env_e suppress = Ok ecfg)
    (Hkafka : create_kafka_consumer_producer cfg "executor" k = (Ok tt, k1))
    (Hwcfg : kafka_service_config argv_w env_w = Ok wcfg)
    (Hkube : load_kubernetes_config (kubeconfig (get_watcher_service_config argv_w env_w)) kw = (Ok tt, kw1))
    (Hkafkaw : create_kafka_consumer_producer wcfg "watcher" kw1 = (Ok tt, kw2))
    (Htopics : consumer_topic cfg = "BAI_APP_FETCHER" /\ producer_topic cfg = "BAI_APP_EXECUTOR" /\
               cmd_submit_topic cfg <> "BAI_APP_FETCHER" /\ consumer_topic wcfg = "BAI_APP_EXECUTOR" /\ status_topic cfg <> "")
    (Hev : encodable ev /\ type ev = "BAI_APP_FETCHER" /\ payload ev = PFetcher p)
    (Hsingle : is_single_run ev = Ok true)
    (Hengine : get_engine_id ev = Ok (VStr engine_id) /\ (engine_id = "default" \/ engine_id = "kubernetes"))
    (Hyaml : yaml_of ecfg ev p = Ok yaml)
    (Hkubectl : check_output [kubectl ecfg; "apply"; "-f"; "-"] yaml x = (Ok out, x1))
    (Hwire : forall b', encodable (event_to_send (mkEmitter "executor" "1.0" pod_e (Some (status_topic cfg)))
                                     (response_event ev p (created_job ev yaml)) "BAI_APP_EXECUTOR" b')) :
  exists s' last w',
    executor_main pod_e argv_e env_e bind_error_text cron_is_valid dacite check_output read_template load_docs dump_all draws
      suppress b x [[("BAI_APP_FETCHER", [json_serializer ev])]] k = (Ok (Ok false, s'), k1) /\
    svc_ext s' = x1 /\ (exists before, bus_sent (svc_bus s') = (before ++ [last])%list) /\ sent_topic last = "BAI_APP_EXECUTOR" /\
    watcher_main pod_w argv_w env_w cron_is_valid dacite bw w
      [[("BAI_APP_EXECUTOR", [json_serializer (sent_value last)])]] kw = (Ok (Ok false, w'), kw2) /\
    action_id (sent_value last) = action_id ev /\ client_id (sent_value last) = client_id ev /\
    exists d, watched_descriptor cron_is_valid dacite (doc_contents (fp_toml p)) = Ok d /\
      forall j, dict_get (wx_watchers (svc_ext w')) j =
        if bool_decide (j = "b-" +:+ action_id ev /\ bh_strategy (hardware d) <> HOROVOD)
        then Some (mkWatch (sent_value last) true) else None.
Proof.
  destruct Htopics as (Hc & Hprod & Hcmd & Hwc & Hstatus), Hev as (Henc & Htype & Hp), Hengine as (Hid & Hname).
  destruct (transpiled_descriptor _ _ _ _ Hyaml) as (d & Hd). set (job := created_job ev yaml) in *.
  set (s := started_executor pod_e cfg b x).
  assert (Hrun : k8s_run check_output (job_yaml cron_is_valid dacite read_template load_docs dump_all draws ecfg) (kubectl ecfg) ev x = (Ok job, x1))
    by by eapply k8s_run_ok.
  assert (Hst : has_status_topic (set_running true s) (status_topic cfg)) by done.
  destruct (executor_last_send (executor_engine cron_is_valid dacite check_output read_template load_docs dump_all draws ecfg)
    (executor_engines 0) "BAI_APP_EXECUTOR" ev p engine_id 0%nat job x1 (status_topic cfg) (set_running true s))
    as [b1 Hexec]; [done|done|done|done|by destruct Hname as [-> | ->]|exact Hrun|].
  set (e := event_to_send _ _ _ _) in Hexec. set (s' := set_bus _ _) in Hexec.
  assert (Hpe : payload e = response_payload p job) by reflexivity.
  assert (Hdec : json_deserializer (json_serializer e) = Some e).
  { apply json_roundtrip with ExecutorBenchmarkEvent; [apply Hwire|reflexivity|reflexivity]. }
  set (sw := set_running true (started_watcher pod_w wcfg bw w)).
  pose proof (one_watcher_per_job (watched_descriptor cron_is_valid dacite) e _ sw Hpe) as Hw. cbn zeta in Hw. cbn [ep_job ep_toml] in Hw.
  change (dict_get (wx_watchers (svc_ext sw)) (job_id job)) with (@None Watch) in Hw. cbn iota in Hw.
  rewrite Hd, (watched_as_submitted ev e engine_id Hid) in Hw by (by rewrite Hpe, Hp). destruct Hw as [Hother Hwatch].
  exists s', (mkSent "BAI_APP_EXECUTOR" (client_id ev) e), (watcher_handle_event (watched_descriptor cron_is_valid dacite) e sw).2.
  split; [|split; [done|split; [by eexists|split; [done|split; [|split; [done|split; [done|]]]]]]].
  - rewrite (executor_main_run _ _ _ _ _ _ _ _ _ _ _ cfg ecfg) with (k' := k1); [|done..|by rewrite Hc]. cbn [map].
    rewrite (run_loop_one (executor_callbacks _ _ _ _ _ _ _ _ cfg ecfg) (executor_keeps _ _ _ _ _) _ s s'); [done|done| |done].
    change (svc_callbacks s) with (svc_callbacks (set_running true s)).
    rewrite (executor_delivers cfg ecfg ev p true b x (set_running true s)); try done. by rewrite Hprod, Hexec.
  - rewrite (watcher_main_run _ _ _ _ _ wcfg) with (k1 := kw1) (k' := kw2); [|done..]. cbn [map sent_value].
    by rewrite watcher_turn.
  - exists d. split; [done|]. intros j. destruct (decide (j = job_id job)) as [->|Hj].
    + rewrite Hwatch. change (job_id job) with ("b-" +:+ action_id ev).
      replace (String.eqb engine_id "aws.sagemaker") with false by (by destruct Hname as [-> | ->]).
      destruct (bh_strategy (hardware d)); [rewrite !bool_decide_true|rewrite !bool_decide_false|rewrite !bool_decide_true];
        try done; try (intros [_ ?]; done); set_solver.
    + rewrite Hother by done. rewrite bool_decide_false; [done|]. by intros [? _].
Qed.
End Services.

Module Witness.
(** One submission at one moment, and one message about it. *)
#[local] Instance env1 : Env := {| env_clock _ := 1000; env_uuid _ := "message"; env_md5 s := s |}.
#[local] Existing Instance literal_floats.
#[local] Existing Instance set_order_dups.
#[local] Existing Instance Options.Witness.parser0.

(** A descriptor for one machine, and a template with the parts that the
    transpiler edits. *)
Definition dacite1 (args : DaciteArgs) (_ : list (string * pyval)) : Res BenchmarkDescriptor :=
  hw <~ new_bench_hardware args "t3.small" None None SINGLE_NODE None ;;
  new_descriptor args
    (mkDescriptor "0.1.0" (mkInfo "d" None (Some EE_DEFAULT) (Some "single_run") (Some [("team", "a-1")]))
       hw (mkEnvDesc "image" false false []) None (Some (mkML TENSORFLOW None None (Some "1.12") None)) None None None).

Definition named (name : string) : pyval :=
  VDict [("name", VStr name); ("env", VList []); ("args", VList []); ("volumeMounts", VList [])].

Definition template1 : list pyval :=
  [VDict [("kind", VStr "Job"); ("metadata", VDict [("labels", VDict [])]);
          ("spec", VDict [("template", VDict [("metadata", VDict [("labels", VDict [])]);
             ("spec", VDict [("initContainers", VList (map named ["data-puller"; "script-puller"; "inference-server-lock"]));
                             ("containers", VList (map named ["benchmark"; "metrics-pusher"; "metrics-extractor"]));
                             ("volumes", VList (map named ["benchmark-ai"; "datasets-volume"; "scripts-volume"]))])])])]].

Definition dump1 (docs : list pyval) : string := join "---" (map repr_of_pyval docs).

(** A cluster is what was applied to it. *)
Definition kubectl1 (cmd : list string) (input : string) : M (list string) string :=
  modify (fun l => (l ++ [input])%list) ;; ret "created".

#[local] Instance kafka1 : KafkaLib unit := {|
  admin_client _ _ := ret tt; create_topic _ _ := ret tt; kafka_consumer _ _ _ _ := ret tt; kafka_producer _ _ := ret tt |}.

#[local] Instance kube1 : KubeConfig unit := {|
  home := ret "/root"; path_exists _ := ret false; load_kube_config _ := ret tt; load_incluster_config := ret tt |}.

Definition fetched1 : FetcherPayload := mkFetcherPayload (doc0 [("info", VDict [("scheduling", VStr "single_run")])]) [] [] [].
Definition ev1 : Event :=
  mkEvent "action" None "submission" "client" "0.1" "user" false 1 [] "BAI_APP_FETCHER" (PFetcher fetched1).

Definition env_e : dict string string :=
  [("CONSUMER_TOPIC", "BAI_APP_FETCHER"); ("PRODUCER_TOPIC", "BAI_APP_EXECUTOR");
   ("AVAILABILITY_ZONES", json_dumps (VDict [("z", VStr "zone")]))].
Definition env_w : dict string string := [("CONSUMER_TOPIC", "BAI_APP_EXECUTOR"); ("PRODUCER_TOPIC", "BAI_APP_WATCHER")].

Definition config_of {A} (d : A) (r : Res A) : A := match r with Ok a => a | Raise _ => d end.
Definition cfg_of (env : dict string string) : KafkaServiceConfig :=
  config_of (get_kafka_service_config (mkArgs "" "" None None None None None None None None)) (kafka_service_config [] env).
Definition ecfg1 : ExecutorConfig :=
  config_of (mkExecutorConfig (mkDescriptorConfig [] []) (mkBaiConfig "" "" "" "" "" "" false) (mkEnvInfo []) "" [])
    (Options.create_executor_config [] env_e false).

Definition yaml1 : string := Eval vm_compute in
  config_of "" (job_yaml (fun _ => true) dacite1 (fun _ => "") (fun _ _ => Ok template1) dump1 (fun _ => (0%nat, 0%nat)) ecfg1
    (doc_contents (fp_toml fetched1)) [] [] [] "b-action" ev1).

Definition sent1 : Event :=
  event_to_send (mkEmitter "executor" "1.0" "pod" (Some (status_topic (cfg_of env_e))))
    (response_event ev1 fetched1 (created_job ev1 yaml1)) "BAI_APP_EXECUTOR" (mkBus [] 0 0).

(** A codec that knows the two events. *)
#[local] Instance json1 : EventJson := {|
  to_json e := if utf8_valid (message_id e) then message_id e else "";
  envelope_type s := if String.eqb s "message" then Ok "BAI_APP_EXECUTOR"
                     else if String.eqb s "submission" then Ok "BAI_APP_FETCHER" else Raise (JSONDecodeError "");
  from_json cls s := if String.eqb s "message" && bool_decide (cls = ExecutorBenchmarkEvent) then Ok sent1
                     else if String.eqb s "submission" && bool_decide (cls = FetcherBenchmarkEvent) then Ok ev1
                     else Raise (JSONDecodeError "")
|}.

#[local] Instance json_laws1 : EventJsonLaws.
Proof.
  refine {| encodable e := e = sent1 \/ e = ev1 |}.
  - intros e. cbn. by destruct (utf8_valid (message_id e)) eqn:E.
  - by intros e [-> | ->].
  - intros cls e [-> | ->] Hcls; by destruct cls.
Defined.

Lemma submission_is_watched_witness :
  exists s' last w',
    executor_main "pod" [] env_e (fun _ => "") (fun _ => true) dacite1 kubectl1 (fun _ => "") (fun _ _ => Ok template1) dump1
      (fun _ => (0%nat, 0%nat)) false (mkBus [] 0 0) ["old"] [[("BAI_APP_FETCHER", ["submission"])]] tt = (Ok (Ok false, s'), tt) /\
    svc_ext s' = ["old"; yaml1] /\
    watcher_main "pod" [] env_w (fun _ => true) dacite1 (mkBus [] 0 0) tt
      [[("BAI_APP_EXECUTOR", [json_serializer (sent_value last)])]] tt = (Ok (Ok false, w'), tt) /\
    dict_get (wx_watchers (svc_ext w')) "b-action" = Some (mkWatch (sent_value last) true).
Proof.
  destruct (submission_is_watched (fun _ => "") (fun _ => true) dacite1 kubectl1 (fun _ => "") (fun _ _ => Ok template1) dump1
    (fun _ => (0%nat, 0%nat)) "pod" "pod" [] [] env_e env_w (cfg_of env_e) ecfg1 (cfg_of env_w) false ev1 fetched1
    "default" yaml1 "created" ["old"] ["old"; yaml1] tt tt tt tt tt (mkBus [] 0 0) (mkBus [] 0 0) tt)
    as (s' & last & w' & Hs & Hx & _ & _ & Hw & _ & _ & d & Hd & Hget); try reflexivity.
  - split_and!; try reflexivity; discriminate.
  - split_and!; [right|..]; reflexivity.
  - split; [reflexivity|by left].
  - intros b. by left.
  - exists s', last, w'. split; [exact Hs|]. split; [exact Hx|]. split; [exact Hw|]. rewrite Hget.
    rewrite bool_decide_true; [done|]. split; [reflexivity|]. vm_compute in Hd. injection Hd as <-. discriminate.
Defined.
End Witness.
