(* ===== verification/ScheduleLoop.v ===== *)
(** * From a scheduled benchmark to its runs

    The composition of the executor's process (Services.v), the transpiler of
    scheduled benchmarks (BaiKnowledge.v, CronDocument.v), the cron job
    (CronJob.v) and the codecs of Kafka (KafkaClient.v): what each tick of a
    scheduled benchmark brings back to the executor. *)

From S2P Require Import Prelude PyStr PyLib Json Events KafkaService CmdCallback Descriptor Executor KafkaClient.
From S2P Require Import MetricsExtractor K8sSpec BaiKnowledge CronDocument K8sEngine CronJob Options Services Pipeline.

#[local] Arguments String.append !_ _ /.

Section Schedule.
Context `{Env} `{EventJsonLaws} {X : Type} `{SetOrder} `{ArgParser} {F : PyFloat} `{KafkaLib K} `{YamlLaws}.
Context (bind_error_text : BindError -> string).
Context (cron_is_valid : option string -> bool) (dacite : DaciteArgs -> list (string * pyval) -> Res BenchmarkDescriptor).
Context (check_output : list string -> string -> M X string).
Context (read_template : string -> string) (load_docs : string -> dict string TVar -> Res (list pyval)).
Context (draws : Event -> nat * nat).
Context (pod_e : string) (argv_e : list string) (env_e : dict string string).
(** [dacite.from_dict] of an event's JSON. *)
Context (event_from_dict : jval -> Res Event).
(** The template of the cron job is the file of CronDocument.v. *)
Context (Htemplate : cron_template_file read_template load_docs).

Abbreviation executor_run suppress b x polls :=
  (executor_main pod_e argv_e env_e bind_error_text cron_is_valid dacite check_output read_template load_docs yaml_dump_all draws
     suppress b x polls).

(** The document of the cron job of a submission. *)
Definition schedule_yaml_of (ecfg : ExecutorConfig) (ev : Event) (p : FetcherPayload) : Res string :=
  scheduled_yaml cron_is_valid dacite read_template load_docs yaml_dump_all ecfg (doc_contents (fp_toml p)) (JOB_ID_PREFIX +:+ action_id ev) ev.

(** The executor's first turn: the cron job is made, and the loop waits. *)
Lemma schedule_turn cfg ecfg ev p syaml out b x x1 :
  let s := started_executor pod_e cfg b x in
  consumer_topic cfg = "BAI_APP_FETCHER" -> status_topic cfg <> "" -> encodable ev -> type ev = "BAI_APP_FETCHER" ->
  payload ev = PFetcher p -> is_single_run ev = Ok false -> schedule_yaml_of ecfg ev p = Ok syaml ->
  check_output [kubectl ecfg; "apply"; "-f"; "-"] syaml x = (Ok out, x1) ->
  exists b1, run_loop (executor_callbacks bind_error_text cron_is_valid dacite check_output read_template load_docs yaml_dump_all draws cfg ecfg)
    [decode_records [("BAI_APP_FETCHER", [json_serializer ev])]] s = (Ok false, set_bus b1 (set_ext x1 (set_running true s))).
Proof.
  intros s Hc Hst Henc Htype Hp Hsingle Hy Hk.
  destruct (scheduled_run (k8s_schedule check_output (scheduled_yaml cron_is_valid dacite read_template load_docs yaml_dump_all ecfg) (kubectl ecfg))
    ev (created_job ev syaml) x1 (status_topic cfg) (set_running true s) Hsingle) as [b1 Hrun]; [done| |].
  { apply k8s_schedule_ok with (toml := fp_toml p) (out := out); [by rewrite Hp|exact Hy|exact Hk]. }
  exists b1. apply run_loop_one; [apply executor_keeps|done| |done].
  change (svc_callbacks s) with (svc_callbacks (set_running true s)).
  rewrite (executor_delivers _ _ _ _ _ _ _ _ pod_e cfg ecfg ev p false b x (set_running true s)); try done. by rewrite Hrun.
Qed.

(** A later turn: the run's objects are made, and its event is the last send. *)
Lemma run_turn cfg ecfg run p engine_id yaml out b (x : X) (s s1 : Svc X) x1 x2 polls :
  svc_running s = false -> svc_callbacks s = svc_callbacks (started_executor pod_e cfg b x) ->
  run_loop (executor_callbacks bind_error_text cron_is_valid dacite check_output read_template load_docs yaml_dump_all draws cfg ecfg) polls s = (Ok false, s1) ->
  svc_running s1 = true -> svc_ext s1 = x1 -> has_status_topic s1 (status_topic cfg) ->
  consumer_topic cfg = "BAI_APP_FETCHER" -> encodable run -> type run = "BAI_APP_FETCHER" -> payload run = PFetcher p ->
  is_single_run run = Ok true -> get_engine_id run = Ok (VStr engine_id) -> (engine_id = "default" \/ engine_id = "kubernetes") ->
  yaml_of cron_is_valid dacite read_template load_docs yaml_dump_all draws ecfg run p = Ok yaml ->
  check_output [kubectl ecfg; "apply"; "-f"; "-"] yaml x1 = (Ok out, x2) ->
  exists b2 e, run_loop (executor_callbacks bind_error_text cron_is_valid dacite check_output read_template load_docs yaml_dump_all draws cfg ecfg)
      (polls ++ [decode_records [("BAI_APP_FETCHER", [json_serializer run])]]) s =
      (Ok false, set_bus (bus_after b2 (mkSent (producer_topic cfg) (client_id run) e)) (set_ext x2 s1)) /\
    action_id e = action_id run /\ parent_action_id e = parent_action_id run /\ payload e = response_payload p (created_job run yaml).
Proof.
  intros Hstopped Hcb Hloop Hrunning Hx1 Hst Hc Henc Htype Hp Hsingle Hid Hname Hy Hk. subst x1.
  assert (Hrun : k8s_run check_output (job_yaml cron_is_valid dacite read_template load_docs yaml_dump_all draws ecfg) (kubectl ecfg) run (svc_ext s1) =
    (Ok (created_job run yaml), x2)) by by eapply k8s_run_ok.
  destruct (executor_last_send (executor_engine cron_is_valid dacite check_output read_template load_docs yaml_dump_all draws ecfg)
    (executor_engines 0) (producer_topic cfg) run p engine_id 0%nat (created_job run yaml) x2 (status_topic cfg) s1)
    as [b2 Hexec]; [done|done|done|done|by destruct Hname as [-> | ->]|exact Hrun|].
  exists b2, (event_to_send (svc_emitter s1) (response_event run p (created_job run yaml)) (producer_topic cfg) b2).
  split; [|by split_and!].
  eapply run_loop_snoc; [apply executor_keeps|done|exact Hloop| |done].
  rewrite (executor_delivers _ _ _ _ _ _ _ _ pod_e cfg ecfg run p true b x s1); try done; [by rewrite Hexec|].
  rewrite <- Hcb. eapply run_loop_keeps; [apply executor_keeps|done|exact Hloop].
Qed.

(** C22: a scheduled benchmark, from its submission to its runs.  The executor's
    process makes one cron job of it, with the document that the transpiler
    made, and goes on polling.  The program of the cron job, started with the
    event that the document, read back by YAML, puts into its environment, sends
    exactly two messages: a run and a status about the scheduled benchmark.  The
    run has an id of its own and the scheduled benchmark as its parent; and its
    bytes, in a later poll of the same executor, make it a single run: the run's
    own document is applied to the cluster as the cron job left it, no further
    cron job is made, and the last message sent is the event about the run's
    job, with the scheduled benchmark as parent.  The ids and the image are plain
    scalars of YAML, and the schedule can stand between quotes. *)
Theorem scheduled_benchmark_runs cfg ecfg suppress ev p engine_id syaml out x x1 k k1 b pod_c servers st j bc
    (Hcfg : kafka_service_config argv_e env_e = Ok cfg)
    (Hecfg : Options.create_executor_config argv_e env_e suppress = Ok ecfg)
    (Hkafka : create_kafka_consumer_producer cfg "executor" k = (Ok tt, k1))
    (Htopics : consumer_topic cfg = "BAI_APP_FETCHER" /\ cmd_submit_topic cfg <> "BAI_APP_FETCHER" /\ status_topic cfg <> "" /\ st <> "")
    (Hev : encodable ev /\ type ev = "BAI_APP_FETCHER" /\ payload ev = PFetcher p)
    (Hsched : is_single_run ev = Ok false)
    (Hengine : get_engine_id ev = Ok (VStr engine_id) /\ (engine_id = "default" \/ engine_id = "kubernetes"))
    (Hyaml : schedule_yaml_of ecfg ev p = Ok syaml)
    (Hkubectl : check_output [kubectl ecfg; "apply"; "-f"; "-"] syaml x = (Ok out, x1))
    (Htext : str_forall yaml_printable (to_json ev) = true)
    (Htokens : yaml_token (action_id ev) = true /\ yaml_token (client_id ev) = true /\
               yaml_token (cron_job_docker_image (bai_config ecfg)) = true)
    (Hschedule : forall d, from_dict cron_is_valid dacite (doc_contents (fp_toml p)) (Some (descriptor_config ecfg)) = Ok d ->
       yaml_quotable (opt_str (info_scheduling (info d))) = true)
    (Hjson : json_loads (to_json ev) = Ok j /\ event_from_dict j = Ok ev) :
  exists s1 bc' run status p' docs,
    executor_run suppress b x [[("BAI_APP_FETCHER", [json_serializer ev])]] k = (Ok (Ok false, s1), k1) /\ svc_ext s1 = x1 /\
    yaml_load_all syaml = Ok docs /\ cron_job_env "BENCHMARK_EVENT" docs = Some (to_json ev) /\
    main event_from_dict (Ok tt) (Ok tt) pod_c
      (mkCronArgs (Some servers) (Some "BAI_APP_FETCHER") (Some st) (Some (to_json ev))) bc = (Ok 0, bc') /\
    bus_sent bc' = (bus_sent bc ++ [mkSent "BAI_APP_FETCHER" (client_id ev) run; mkSent st (client_id ev) status])%list /\
    action_id status = action_id ev /\ payload run = PFetcher p' /\
    action_id run = env_uuid (bus_uuid bc) /\ parent_action_id run = Some (action_id ev) /\
    forall yaml out' x2, encodable run ->
      yaml_of cron_is_valid dacite read_template load_docs yaml_dump_all draws ecfg run p' = Ok yaml ->
      check_output [kubectl ecfg; "apply"; "-f"; "-"] yaml x1 = (Ok out', x2) ->
      exists s2 before e,
        executor_run suppress b x [[("BAI_APP_FETCHER", [json_serializer ev])]; [("BAI_APP_FETCHER", [json_serializer run])]] k =
          (Ok (Ok false, s2), k1) /\ svc_ext s2 = x2 /\
        bus_sent (svc_bus s2) = (before ++ [mkSent (producer_topic cfg) (client_id run) e])%list /\
        action_id e = action_id run /\ parent_action_id e = Some (action_id ev) /\
        payload e = response_payload p' (created_job run yaml).
Proof.
  destruct Htopics as (Hc & Hcmd & Hstatus & Hst), Hev as (Henc & Htype & Hp), Hengine as (Hid & Hname), Hjson as (Hj & Hdict).
  destruct Htokens as (Haction & Hclient & Himage).
  edestruct (scheduled_document_event read_template load_docs to_json cron_is_valid dacite Htemplate) as (docs & Hload & Henv); [|exact Htext|exact Hyaml|].
  { intros d Hd. split_and!; [done..|by apply token_lower, token_prefix|done|by apply Hschedule]. }
  destruct (schedule_turn cfg ecfg ev p syaml out b x x1) as [b1 Hturn]; try done.
  set (s := started_executor pod_e cfg b x) in Hturn. set (s1 := set_bus _ _) in Hturn.
  set (config := mkCronConfig _ (split_char "," servers) "BAI_APP_FETCHER" st j).
  destruct (cron_spawns_single_run (X := X) (fun _ => raise (RuntimeError "")) event_from_dict pod_c config ev bc Hdict Hst Hsched)
    as (bc' & run & status & Hcron & Hsent & Haid & Hparent & Hsingle & Hrid & _ & Hsaid & _ & Hrtype & contents & Hpay).
  rewrite Hp in Hpay. cbn [set_contents] in Hpay. set (p' := mkFetcherPayload _ _ _ _) in Hpay.
  assert (Hmain : forall polls, executor_run suppress b x polls k =
    (Ok (run_loop (executor_callbacks bind_error_text cron_is_valid dacite check_output read_template load_docs yaml_dump_all draws cfg ecfg)
           (map decode_records polls) s), k1)) by (intros; apply executor_main_run; [done..|by rewrite Hc]).
  exists s1, bc', run, status, p', docs. split; [by rewrite Hmain; cbn [map]; rewrite Hturn|]. split; [done|].
  split; [exact Hload|]. split; [exact Henv|]. split; [unfold main, get_config; cbn [ca_bootstrap_servers ca_producer_topic ca_status_topic ca_benchmark_event]; by rewrite Hj|].
  split; [exact Hsent|]. split; [exact Hsaid|]. split; [exact Hpay|]. split; [exact Haid|]. split; [exact Hparent|].
  intros yaml out' x2 Hrenc Hry Hrk.
  destruct (run_turn cfg ecfg run p' engine_id yaml out' b x s s1 x1 x2 [decode_records [("BAI_APP_FETCHER", [json_serializer ev])]])
    as (b2 & e & Hloop & He1 & He2 & He3); try done; [by rewrite Hrid|].
  eexists _, _, e. split; [by rewrite Hmain; cbn [map app] in Hloop |- *; rewrite Hloop|]. split; [done|]. split; [reflexivity|].
  split; [exact He1|]. split; [by rewrite He2|exact He3].
Qed.
End Schedule.

Module Witness.
Import CronDocument.Witness Pipeline.Witness.
#[local] Existing Instance env1.
#[local] Existing Instance literal_floats.
#[local] Existing Instance set_order_dups.
#[local] Existing Instance Options.Witness.parser0.
#[local] Existing Instance kafka1.

(** The templates by their names. *)
Definition docs2 (text : string) (vars : dict string TVar) : Res (list pyval) :=
  if String.eqb text "cron_job.yaml" then cron_docs vars else Ok template1.

Definition scheduled2 : FetcherPayload := mkFetcherPayload (doc0 [("info", VDict [("scheduling", VStr "@daily")])]) [] [] [].
Definition ev2 : Event :=
  mkEvent "action" None "submission" "client" "0.1" "user" false 1 [] "BAI_APP_FETCHER" (PFetcher scheduled2).

Definition run2 : Event := event_to_send (emitter "pod" (mkCronConfig _ [] "BAI_APP_FETCHER" "STATUS" JNull))
  (mkEvent "message" (Some "action") "submission" "client" "0.1" "user" false 1 [] "BAI_APP_FETCHER" (PFetcher fetched1))
  "BAI_APP_FETCHER" (mkBus [] 0 1).

(** A codec that knows the two events, by their ids. *)
Definition id_json (e : Event) : string := jdumps (JStr (message_id e)).

#[local] Instance json2 : EventJson := {|
  to_json := id_json;
  envelope_type s := if String.eqb s (id_json ev2) || String.eqb s (id_json run2) then Ok "BAI_APP_FETCHER" else Raise (JSONDecodeError "");
  from_json cls s := if String.eqb s (id_json ev2) && bool_decide (cls = FetcherBenchmarkEvent) then Ok ev2
                     else if String.eqb s (id_json run2) && bool_decide (cls = FetcherBenchmarkEvent) then Ok run2
                     else Raise (JSONDecodeError "")
|}.

#[local] Instance json_laws2 : EventJsonLaws.
Proof.
  refine {| encodable e := e = ev2 \/ e = run2 |}.
  - intros e. apply ascii_utf8. eapply str_forall_impl; [|apply jdumps_printable]. unfold printable. intros c ?. lia.
  - intros e [-> | ->]; reflexivity.
  - intros cls e [-> | ->] Hcls; by destruct cls.
Defined.

Definition syaml2 : string :=
  config_of "" (scheduled_yaml (fun _ => true) dacite1 (fun n => n) docs2 yaml_dump_all ecfg1 (doc_contents (fp_toml scheduled2)) "b-action" ev2).
Definition yaml2 : string :=
  config_of "" (job_yaml (fun _ => true) dacite1 (fun n => n) docs2 yaml_dump_all (fun _ => (0%nat, 0%nat)) ecfg1
    (doc_contents (fp_toml fetched1)) [] [] [] "b-message" run2).

Lemma template2_file : cron_template_file (fun n => n) docs2.
Proof. intros ?. intros. reflexivity. Qed.

Lemma config_of_ok {A} (d : A) r : is_ok r = true -> r = Ok (config_of d r).
Proof. by destruct r. Qed.

Lemma syaml2_ok : schedule_yaml_of (fun _ => true) dacite1 (fun n => n) docs2 ecfg1 ev2 scheduled2 = Ok syaml2.
Proof. apply config_of_ok. vm_compute. reflexivity. Qed.

Lemma yaml2_ok : yaml_of (fun _ => true) dacite1 (fun n => n) docs2 yaml_dump_all (fun _ => (0%nat, 0%nat)) ecfg1 run2 fetched1 = Ok yaml2.
Proof. apply config_of_ok. vm_compute. reflexivity. Qed.

Lemma scheduled_benchmark_runs_witness :
  exists s2 bc' status,
    main (fun _ => Ok ev2) (Ok tt) (Ok tt) "pod"
      (mkCronArgs (Some "b:9092") (Some "BAI_APP_FETCHER") (Some "STATUS") (Some (id_json ev2))) (mkBus [] 0 0) = (Ok 0, bc') /\
    bus_sent bc' = [mkSent "BAI_APP_FETCHER" "client" run2; mkSent "STATUS" "client" status] /\
    executor_main "pod" [] env_e (fun _ => "") (fun _ => true) dacite1 kubectl1 (fun n => n) docs2 yaml_dump_all
      (fun _ => (0%nat, 0%nat)) false (mkBus [] 0 0) []
      [[("BAI_APP_FETCHER", [json_serializer ev2])]; [("BAI_APP_FETCHER", [json_serializer run2])]] tt = (Ok (Ok false, s2), tt) /\
    svc_ext s2 = [syaml2; yaml2].
Proof.
  destruct (scheduled_benchmark_runs (fun _ => "") (fun _ => true) dacite1 kubectl1 (fun n => n) docs2
    (fun _ => (0%nat, 0%nat)) "pod" [] env_e (fun _ => Ok ev2) template2_file (cfg_of env_e) ecfg1 false ev2 scheduled2 "default" syaml2 "created"
    [] [syaml2] tt tt (mkBus [] 0 0) "pod" "b:9092" "STATUS" (JStr "submission") (mkBus [] 0 0))
    as (s1 & bc' & run & status & p' & docs & _ & _ & _ & _ & Hmain & Hsent & _ & Hpay & _ & _ & Hlater).
  1-3: reflexivity.
  - split_and!; try reflexivity; discriminate.
  - split_and!; [by left|reflexivity..].
  - reflexivity.
  - split; [reflexivity|by left].
  - apply syaml2_ok.
  - reflexivity.
  - vm_compute. reflexivity.
  - split_and!; reflexivity.
  - intros d Hd. vm_compute in Hd. injection Hd as <-. reflexivity.
  - split; reflexivity.
  - assert (Hrun : run = run2).
    { pose proof Hmain as Hm. vm_compute in Hm. injection Hm as <-. injection Hsent as <- _. reflexivity. }
    subst run. injection Hpay as <-.
    destruct (Hlater yaml2 "created" [syaml2; yaml2]) as (s2 & _ & _ & Hs2 & Hx2 & _); [by right|apply yaml2_ok|reflexivity|].
    exists s2, bc', status. by split_and!.
Defined.
End Witness.
